(* ===== verification/_CoqProject ===== *)
-Q . S2P
Prelude.v
Config.v
Permission.v
File.v
Tokens.v
TokenProps.v
MMFile.v
FileServer.v
MetadataManager.v
ClientFile.v
Cache.v
CacheLists.v
CacheSpec.v
CacheProps.v
Client.v
ClientSpec.v
ClientFrame.v
ClientProps.v
System.v
SystemInv.v
Consistency.v
History.v
Programs.v
ProgramProps.v
ClientThreads.v
ThreadSpec.v
ThreadProps.v
Interleaving.v
InterleavingInv.v
InterleavingProps.v
Concurrent.v
ConcurrentInv.v
ConcurrentProgress.v
ConcurrentProps.v
