(* ===== verification/Prelude.v ===== *)
(** * Verification of PFS, a small parallel file system

    PFS stripes files over a fixed number of file servers. A metadata manager keeps
    the names, sizes and times of the files and hands out byte-range lock tokens to
    the clients; a client library caches blocks and talks to the file servers
    directly. The parts talk over gRPC. This library models the parts in the order
    in which they depend on each other and proves what makes them correct. All
    definitions are executable.

    ** Parts and files

    - [Prelude] (this file): the monad [outcome] of one run of a C++ function
      ([Ret], [Blocked] for a wait or a loop that does not end, [Crash] for a failed
      [assert], a null dereference, an index out of range or a division by zero),
      machine integers with their wrap-around ([u32], [i32]), the loops over vectors
      ([find_from], [find_last], [erase_range], [insert_at]), the tactics [word_lia],
      [zbool] and [inv_ret], and generic lemmas.
    - [Config]: the constants of include/config.h and include/util.h, the error
      messages and the bucket hash of common/util.cpp. [std::hash] is a parameter.
    - [Permission]: one lock token (include/permission.h, common/permission.cpp) with
      its mutex, its locked flag and the semaphores that wait on it.
    - [File]: include/file.h and common/file.cpp: the fields of a file and the three
      operations [hasPermission], [addPermission] and [revokePermission] on a vector
      of permissions, loop by loop. [Tokens] gives a vector its meaning, [holds]: the
      bytes it lets its owner read or write; [TokenProps] has the properties.
    - [MMFile]: the token manager of one file (metadata_manager/mm_file.cpp): [open],
      [close], [isOpen], [isOpenedBy] and [waitAndGetPermissionFor], which takes the
      mutex of the file, revokes conflicting tokens of the other clients, records the
      grant ([recordGrant]), and joins the threads that ask these clients; starting and
      joining a thread are arguments, and the method returns only if all threads end.
    - [FileServer]: file_server/file_server.cpp and file_server/fs_file.cpp: the
      handlers [CreateFile], [ReadFile], [WriteFile], [ReadBlock] and [WriteBlock]
      over a map from host paths to contents, and the address arithmetic of striping.
    - [MetadataManager]: metadata_manager/metadata_manager.cpp: all handlers with their
      replies and with the mutexes of the directory and of the files, against the
      interfaces [StripeService] of the file servers and [ClientService] of the clients
      (the thread function [revokePermit]).
    - [ClientFile]: client/client_file.cpp: the client's record of an open file.
    - [Cache]: client/cache.cpp, client/cache_block.cpp and
      client/cache_block_metadata.cpp: nodes in a heap, linked by pointers into
      recency, dirty, free and bucket lists, and every operation of the cache, its
      two threads and its destructor. [CacheLists] holds the invariant of the linked
      lists and the primitive steps, [CacheSpec] an LRU cache on lists of blocks and
      the refinement of every operation to it, [CacheProps] the properties. Flushing
      a block goes through the interface [BlockStore].
    - [Client]: client/pfs_client.cpp, client/client_service.cpp and client/pfs.cpp:
      every call of the library, against the interfaces [ManagerStub] and
      [FileServerStub]. [ClientSpec] has the laws of the file servers
      ([FileServerStubOk], which the servers of [FileServer] satisfy) and the
      invariant [clientOk] of a client, [ClientFrame] what the calls leave alone;
      [ClientProps] has the properties.
    - [System]: the manager, the file servers and the clients together; the
      interfaces of [Client] implemented by the handlers of the other parts, with the
      revoke requests of the manager delivered to the clients. A call of a client, or
      an activation of a thread of its cache, is one step ([sysCall]).
    - [SystemInv]: the states that sequences of calls lead to ([sysReachable]) and the
      invariant [mirrorOk]: the vectors of the clients are those of the manager.
    - [Consistency]: the invariant [consistent]: where the byte last written to each
      address is, client by client, and that every call keeps it. [History]: orderly
      histories with the bytes written so far, and what reads return.
    - [Programs]: the main programs pfs_MM.cpp and pfs_file_server.cpp, the tests
      test1-c1.cpp, test1-c2.cpp, test1-c3.cpp and pfs-client.cpp, as runs on the
      system; [ProgramProps]: what they print.
    - [ClientThreads]: the threads of one client: the data loop of a read or a write in
      steps ([appStep]: a call of a method of the cache or an RPC), between which the
      service thread revokes a range ([svcCut], [svcEvict]) and the flusher and the
      harvester take a turn ([threadStep]). [ThreadSpec]: the invariant of a call in
      progress; [ThreadProps]: the properties.
    - [Interleaving]: the token protocol of one file with the threads of the manager
      and of the clients interleaved. The state has the manager's record, the request
      that is served, the revocations under way, the vector and the call of every
      client and the semaphores; an event is the part of a method between two points
      where its thread waits ([EvCall], [EvReply], [EvDone]: acquirePermission and
      unlockPermission; [EvServe], [EvGrant]: waitAndGetPermissionFor before and after
      it joins its threads; [EvRevoke], [EvWake], [EvCut]: File::revokePermission
      before, in and after its waits). [InterleavingInv]: the invariants of orderly
      interleavings; [InterleavingProps]: the properties.
    - [Concurrent]: several clients that share a file, tokens and data together. The
      state has the protocol of [Interleaving], the process of every client with its
      threads ([ClientThreads]), and the file servers. A call asks for its tokens by the
      steps of the protocol, marks the file as modified when it has them ([enter]) and
      runs its data loop; a revocation cuts the tokens and evicts the blocks in turns
      of the service thread, and the manager answers when all evictions are done.
      [ConcurrentInv]: the invariant; [ConcurrentProgress]: progress;
      [ConcurrentProps]: the properties.

    State is a record per class, with the names of the source; an operation is a
    function from the old state to the outcome with the new one. A method that holds
    the mutex of its object from its first to its last access to shared state is one
    step; what the library prints is left out of the operations that print it.

    ** What the theorems show

    - Token vectors: on a sorted vector [hasPermission] decides exactly whether all
      bytes are held; a revocation removes exactly the range; a grant covers the
      request and never gives more; it is exact when the request touches one token.
      Two theorems show what goes wrong otherwise (a shared token that is missed, a
      lost tail). Lock states never change the tokens, so client and manager stay in
      step.
    - Token manager: for every sequence of opens, closes and grants a byte that one
      client may write is accessible to no other client ([token_exclusion]); a grant
      sends one request to each client with a conflicting token, waits for these
      threads only, covers the request and revokes only conflicting ranges
      ([grant_covers_request]), in whatever order the hash map is traversed.
    - Manager service: a handler that returns gives the reply and the new state of a
      flat directory ([manager_refines_directory]); a request that keeps the client
      protocol is answered as soon as the clients from which it takes tokens have
      answered ([manager_answers_when_clients_do]); a grant that waits for them can stop
      the service for all files ([waiting_grant_stops_manager]). A created file whose
      name the servers did not know is served by the servers that the client asks
      ([created_file_is_served]).
    - File servers: the address arithmetic is the round-robin layout and injective;
      blocks written are read back, other bytes are untouched; a request for an
      unknown file leaves the server locked for ever.
    - Client cache: each operation on the pointer structure is the operation of an
      LRU cache; the printing functions print its blocks in their order
      ([lists_are_printed]); the harvester restores the free blocks; the semaphore stops every
      cache after 1024 added blocks.
    - Client library: for a map of the bytes written so far, [clientOk] says where
      each byte is (in a cached block, dirty or stored as well, or on the server).
      Reads return these bytes, writes update them, revocations, the flusher, the
      harvester and [finalize] put them on the servers and lose nothing; a write
      followed by a read gives the bytes back, when the cache has room. Some theorems
      show defects: a cached block is not refreshed when its tokens are granted again
      ([cached_block_is_not_refreshed]), a write of no bytes leaves its token locked
      ([empty_write_keeps_lock]), files are closed by the wrong index, a failed open
      looks like a descriptor, tokens are not protected while they are used.
    - System: after any sequence of whole calls, with a process that starts once and
      closes only the first or second of its files, the tokens of the clients are those
      that the manager has recorded, and they are exclusive ([client_tokens_mirrored],
      [client_tokens_exclusive]).
    - Consistency: on orderly histories a read returns the bytes last written by any
      client ([reads_return_last_writes]), reads and writes return when no token of the
      file is in use ([orderly_data_calls_return]), and what nobody may write is stored
      ([written_bytes_are_stored]). Orderly means: whole blocks
      ([cached_block_is_not_refreshed] gives stale bytes otherwise: its witness is such a
      run), a positive count ([empty_write_keeps_lock]), a grant
      that touches one token of its client ([addPermission_loses_tail]), room in the
      cache ([cache_stops_after_1024_blocks]), a close of the first or second open file
      ([closeFile_closes_second_file]), a new name for a new file.
    - Threads of a client: without the other threads the steps of the application
      thread are the loops of the calls ([app_steps_are_loops]). Whatever the other
      threads do in between, a read returns the bytes of the file
      ([interleaved_read_returns_bytes]) and the call can be finished
      ([interleaved_call_completes]); a write stores its bytes if the block that it adds
      stays in the cache until it is written ([interleaved_write_stores_bytes]). It need
      not: the harvester and a revocation of the range before the block can take it, and
      the write is lost ([harvester_loses_write], [adjacent_revocation_loses_write]).
    - Interleavings: in every orderly interleaving the tokens of the clients are
      exclusive at every point ([interleaved_exclusion]), a call that the manager
      granted keeps its tokens, locked, until it ends ([granted_call_is_protected]),
      the record is that of whole grants ([interleavings_refine_manager]) and a grant
      completes when nobody keeps a token locked ([grant_completes]). Orderly means: a
      positive count, a grant that touches one token of its client, and a client that
      takes up a revocation only after the reply sent before it. Without the last
      condition two clients write the same bytes ([grant_overtaken_by_revocation]);
      with all of them a call on tokens that the client already had is not protected
      ([cached_call_is_not_protected]), a token can stay locked without a call
      ([abandoned_lock_blocks_file]) and a semaphore is posted after it is gone
      ([dangling_semaphore_post]).
    - Several clients: in every calm history a read returns the bytes last written by
      any client ([concurrent_reads_return_last_writes]), a block in the cache of one
      client has no byte that another may write ([cached_block_has_one_writer]), what
      nobody may write is stored ([unowned_bytes_are_stored]), and a request is answered
      when the clients in its way are at rest ([concurrent_request_is_answered]). Calm
      means: whole blocks, the conditions of orderly interleavings, no revocation of
      the range of a call that found its tokens in the vector
      ([cached_call_is_not_protected]), and added blocks that stay until they are
      written ([harvester_loses_write], [adjacent_revocation_loses_write]).
    - Programs: the three tests, run in their order, print the bytes of the local file
      ([test1_writes_and_reads]); pfs-client reads back what it writes; test1-c2 without
      the file crashes.

    ** Bounds and fuel

    Integers keep their width where the code depends on it; theorems on addresses
    assume what the protocol messages can carry (at most [INT_MAX], block requests
    end below it). A loop over linked nodes gets one turn more than there are nodes
    ([lookup], [cacheFlusher], [cacheHarvester], [destroyCache], [evictFile]); the
    refinement lemmas show that the fuel is enough. The data loops of the client get
    [nbyte / 1024 + 3] turns ([loopFuel], shown enough by [blocksIn_fuel]); the loops
    that evict a range get one turn per block and one for the last test
    ([evictBlocks_ok]); with an end in the last block of the address space the
    source does not terminate ([eviction_ends_below_last_block]), and the model is
    [Blocked].

    ** Not modelled

    The gRPC transport and the generated messages (third-party; the messages the
    handlers use are records), and the calls of the printing functions. In [System] a
    call of the client library is one run; [Interleaving] has the steps of several
    calls, for the tokens of one file and not for its data; [ClientThreads] has the
    steps of one data loop, for one client and with its tokens granted before the loop;
    [Concurrent] has both, for one file that the clients open before and close after
    the history. All have one application thread per client. In [ClientThreads] the
    free list is part of the step of the method that uses it, and a revocation that has
    to wait for a locked token does not start. In [Interleaving] the messages of one
    connection are not reordered, a client closes a file only between its calls, and an
    address of a [sem_t] is not used again. A client that called [finalize] still gets
    revoke requests. [off_t] and [ssize_t] are unbounded integers. A program that exits
    early leaves its client registered. Constructors and destructors that only set or
    free fields are part of the records.

    ** Plan

    What is left: histories with requests that are not aligned to blocks, for clients
    that do not share blocks; several files in one concurrent history. *)

From stdpp Require Export base numbers option sets list.
#[local] Open Scope Z_scope.

(** ** Outcomes *)

(** What one run of a C++ function can do: return a value; not return, because it
    waits on a mutex or a semaphore that is not released, or because a loop does
    not end ([Blocked]); or leave the defined behaviour of the language (a failed
    [assert], a null dereference, an index out of range, a division by zero). *)
Inductive outcome (A : Type) : Type :=
| Ret (a : A)
| Blocked
| Crash.
Arguments Ret {A} a.
Arguments Blocked {A}.
Arguments Crash {A}.

#[export] Instance outcome_ret : MRet outcome := fun A a => Ret a.

#[export] Instance outcome_bind : MBind outcome := fun A B k m =>
  match m with
  | Ret a => k a
  | Blocked => Blocked
  | Crash => Crash
  end.

(** An [assert] of the source. *)
Definition assert_ (b : bool) : outcome unit := if b then Ret tt else Crash.

(** A pointer that is dereferenced, or a vector that is indexed: [None] is the
    null pointer or the index out of range. *)
Definition deref {A} (o : option A) : outcome A :=
  match o with Some a => Ret a | None => Crash end.

(** [foldM f l s] runs [f] on the elements of [l] from left to right. *)
Fixpoint foldM {A S} (f : A -> S -> outcome S) (l : list A) (s : S) : outcome S :=
  match l with
  | [] => Ret s
  | a :: l' => s' ← f a s; foldM f l' s'
  end.

Lemma foldM_app {A S} (f : A -> S -> outcome S) l1 l2 s : foldM f (l1 ++ l2) s = (s' ← foldM f l1 s; foldM f l2 s').
Proof. revert s. induction l1 as [|a l1 IH]; intros s; cbn [foldM app]; [done|]. destruct (f a s); cbn; [apply IH|done..]. Qed.

Lemma foldM_ext {A S} (f g : A -> S -> outcome S) l s : (forall a s, f a s = g a s) -> foldM f l s = foldM g l s.
Proof. intros Hfg. revert s. induction l as [|a l IH]; intros s; cbn [foldM]; [done|]. rewrite Hfg. by destruct (g a s); cbn; [apply IH|..]. Qed.

(** ** Machine integers *)

(** Conversion to [uint32_t] (wrap-around) and to [int] (two's complement). *)
Definition u32 (x : Z) : Z := x mod 4294967296.
Definition i32 (x : Z) : Z := (x + 2147483648) mod 4294967296 - 2147483648.
Definition INT_MAX : Z := 2147483647.

Definition is_u32 (x : Z) : Prop := 0 <= x < 4294967296.

(** ** Vectors updated by index *)

(** The forward loop [for (i = from; i < n; i++) if (P(v[i])) { r = i; break; }]:
    the first index of [l] that satisfies [P], counted from [from], where [l] is
    the part of the vector that starts at index [from]. *)
Fixpoint find_from {A} (P : A -> bool) (from : nat) (l : list A) : option nat :=
  match l with
  | [] => None
  | a :: l' => if P a then Some from else find_from P (S from) l'
  end.

(** The backward loop [for (i = n - 1; i >= 0; i--) if (P(v[i])) { r = i; break; }]. *)
Fixpoint find_last {A} (P : A -> bool) (l : list A) : option nat :=
  match l with
  | [] => None
  | a :: l' =>
      match find_last P l' with
      | Some i => Some (S i)
      | None => if P a then Some 0%nat else None
      end
  end.

(** [v.erase(v.begin() + s, v.begin() + e + 1)] *)
Definition erase_range {A} (s e : nat) (l : list A) : list A := take s l ++ drop (S e) l.

(** [v.insert(v.begin() + s, a)] *)
Definition insert_at {A} (s : nat) (a : A) (l : list A) : list A := take s l ++ a :: drop s l.

(** The elements [v[s], ..., v[e]]. *)
Definition slice {A} (s e : nat) (l : list A) : list A := take (S e - s) (drop s l).

(** ** Tactics *)

(** Linear arithmetic on wrapped integers: unfold the conversions, replace
    [mod] and [/] by their Euclidean equations. *)
Ltac word_lia :=
  unfold is_u32, u32, i32, INT_MAX in *; Z.to_euclidean_division_equations; lia.

(** Turn boolean comparisons of the source into propositions. *)
Ltac zbool :=
  repeat match goal with
  | H : _ && _ = true |- _ => apply andb_true_iff in H as [? ?]
  | H : _ || _ = false |- _ => apply orb_false_iff in H as [? ?]
  | H : negb _ = true |- _ => apply negb_true_iff in H
  | H : negb _ = false |- _ => apply negb_false_iff in H
  | H : (_ <? _) = true |- _ => apply Z.ltb_lt in H
  | H : (_ <? _) = false |- _ => apply Z.ltb_ge in H
  | H : (_ <=? _) = true |- _ => apply Z.leb_le in H
  | H : (_ <=? _) = false |- _ => apply Z.leb_gt in H
  | H : (_ =? _) = true |- _ => apply Z.eqb_eq in H
  | H : (_ =? _) = false |- _ => apply Z.eqb_neq in H
  end.

(** Invert a run that returned: peel the binds of the outcome monad. *)
Lemma bind_Ret {A B} (m : outcome A) (k : A -> outcome B) b :
  (m ≫= k) = Ret b -> exists a, m = Ret a /\ k a = Ret b.
Proof. destruct m as [a| |]; cbn; [eauto|discriminate..]. Qed.

(** The two reductions of a run, as equations. *)
Lemma Ret_bind {A B} (a : A) (k : A -> outcome B) : (Ret a ≫= k) = k a.
Proof. done. Qed.

Lemma deref_Some {A} (a : A) : deref (Some a) = Ret a.
Proof. done. Qed.

Lemma deref_Ret {A} (o : option A) a : deref o = Ret a <-> o = Some a.
Proof. destruct o; cbn; split; congruence. Qed.

Ltac inv_ret :=
  repeat match goal with
  | H : (_ ≫= _) = Ret _ |- _ =>
      let a := fresh "v" in let E := fresh "E" in apply bind_Ret in H as (a & E & H)
  | H : deref _ = Ret _ |- _ => apply deref_Ret in H
  | H : Ret _ = Ret _ |- _ => injection H as H
  | H : mret _ = Ret _ |- _ => injection H as H
  | H : Blocked = Ret _ |- _ => discriminate H
  | H : Crash = Ret _ |- _ => discriminate H
  end.

(** ** Lemmas on machine integers *)

Lemma u32_id x : is_u32 x -> u32 x = x.
Proof. unfold is_u32, u32. apply Z.mod_small. Qed.

Lemma u32_range x : is_u32 (u32 x).
Proof. unfold is_u32, u32. apply Z.mod_pos_bound. lia. Qed.

(** A [uint32_t] survives the detour through [int]. *)
Lemma u32_i32 x : is_u32 x -> u32 (i32 x) = x.
Proof. word_lia. Qed.

Lemma is_u32_min x y : is_u32 x -> is_u32 y -> is_u32 (Z.min x y).
Proof. unfold is_u32. lia. Qed.

Lemma is_u32_max x y : is_u32 x -> is_u32 y -> is_u32 (Z.max x y).
Proof. unfold is_u32. lia. Qed.

Lemma i32_id x : 0 <= x <= INT_MAX -> i32 x = x.
Proof. word_lia. Qed.

(** ** Lemmas on the loops and on the vector operations *)

Section FindFacts.
Context {A : Type} (P : A -> bool).

Lemma find_from_Some from l i :
  find_from P from l = Some i ->
  exists j a, i = (from + j)%nat /\ l !! j = Some a /\ P a = true /\
    forall k b, (k < j)%nat -> l !! k = Some b -> P b = false.
Proof.
  revert from. induction l as [|a l IH]; intros from; cbn; [done|].
  destruct (P a) eqn:Ha.
  - intros [= <-]. exists 0%nat, a. repeat split; [lia|done|]. intros. lia.
  - intros (j & b & -> & Hj & Hb & Hlt)%IH. exists (S j), b.
    repeat split; [lia|done..|]. intros [|k] c Hk; cbn; [congruence|].
    apply Hlt. lia.
Qed.

Lemma find_from_None from l :
  find_from P from l = None <-> forall a, a ∈ l -> P a = false.
Proof.
  revert from. induction l as [|a l IH]; intros from; cbn.
  - split; [|done]. intros _ a []%not_elem_of_nil.
  - destruct (P a) eqn:Ha.
    + split; [done|]. intros H. specialize (H a (list_elem_of_here _ _)). congruence.
    + rewrite IH. split.
      * intros H b [->|?]%elem_of_cons; auto.
      * intros H b ?. apply H. by constructor.
Qed.

Lemma find_last_Some l i :
  find_last P l = Some i ->
  exists a, l !! i = Some a /\ P a = true /\
    forall k b, (i < k)%nat -> l !! k = Some b -> P b = false.
Proof.
  revert i. induction l as [|a l IH]; intros i; cbn; [done|].
  destruct (find_last P l) as [j|] eqn:Hl.
  - intros [= <-]. destruct (IH j eq_refl) as (b & Hj & Hb & Hgt).
    exists b. repeat split; [done..|]. intros [|k] c Hk; [lia|]. cbn. apply Hgt. lia.
  - destruct (P a) eqn:Ha; [|done]. intros [= <-]. exists a. repeat split; [done..|].
    assert (Hn : forall b, b ∈ l -> P b = false).
    { clear -Hl. induction l as [|b l IH]; [by intros ? []%not_elem_of_nil|].
      cbn in Hl. destruct (find_last P l); [done|]. destruct (P b) eqn:Hb; [done|].
      intros c [->|?]%elem_of_cons; auto. }
    intros [|k] b Hk; [lia|]. cbn. intros H. apply Hn. by eapply list_elem_of_lookup_2.
Qed.

Lemma find_last_None l :
  find_last P l = None <-> forall a, a ∈ l -> P a = false.
Proof.
  induction l as [|a l IH]; cbn.
  - split; [|done]. intros _ a []%not_elem_of_nil.
  - destruct (find_last P l) as [j|].
    + split; [done|]. intros H. exfalso. destruct IH as [_ IH].
      assert (Some j = None) by (apply IH; intros; apply H; by constructor). done.
    + destruct IH as [IH _]. destruct (P a) eqn:Ha.
      * split; [done|]. intros H. specialize (H a (list_elem_of_here _ _)). congruence.
      * split; [|done]. intros _ b [->|?]%elem_of_cons; auto.
Qed.

(** The loops on a vector whose first (last) hit is known. *)
Lemma find_from_middle from l1 a l2 :
  (forall b, b ∈ l1 -> P b = false) -> P a = true ->
  find_from P from (l1 ++ a :: l2) = Some (from + length l1)%nat.
Proof.
  revert from. induction l1 as [|b l1 IH]; intros from Hl Ha; cbn.
  - rewrite Ha. f_equal. lia.
  - rewrite (Hl b) by constructor. rewrite IH; [f_equal; lia| |done].
    intros c Hc. apply Hl. by constructor.
Qed.

Lemma find_from_unique l i a :
  l !! i = Some a -> P a = true -> (forall j b, l !! j = Some b -> P b = true -> j = i) -> find_from P 0 l = Some i.
Proof.
  intros Hi Ha Hu. rewrite <- (take_drop_middle l i a Hi), find_from_middle; [| |done].
  - f_equal. rewrite length_take. apply lookup_lt_Some in Hi. lia.
  - intros b (j & [Hj Hlt]%lookup_take_Some)%list_elem_of_lookup. destruct (P b) eqn:Hb; [|done]. specialize (Hu j b Hj Hb). lia.
Qed.

Lemma find_last_middle l1 a l2 :
  (forall b, b ∈ l2 -> P b = false) -> P a = true ->
  find_last P (l1 ++ a :: l2) = Some (length l1).
Proof.
  intros Hl Ha. induction l1 as [|b l1 IH]; cbn; [|by rewrite IH].
  rewrite (proj2 (find_last_None l2)) by done. by rewrite Ha.
Qed.

Lemma forallb_false l : forallb P l = false <-> exists a, a ∈ l /\ P a = false.
Proof.
  induction l as [|a l IH]; cbn; [split; [done|by intros (? & []%not_elem_of_nil & _)]|].
  rewrite andb_false_iff, IH. setoid_rewrite elem_of_cons. split.
  - intros [?|(b & ? & ?)]; eauto.
  - intros (b & [->|?] & ?); eauto.
Qed.

Lemma existsb_false l : existsb P l = false <-> forall a, a ∈ l -> P a = false.
Proof.
  induction l as [|a l IH]; cbn; [split; [by intros _ ? []%not_elem_of_nil|done]|].
  rewrite orb_false_iff, IH. setoid_rewrite elem_of_cons. naive_solver.
Qed.

(** Order does not matter to a filter nor to a test of all elements. *)
Lemma filter_perm l1 l2 : l1 ≡ₚ l2 -> List.filter P l1 ≡ₚ List.filter P l2.
Proof.
  induction 1 as [|a l1 l2 _ IH|a b l|l1 l2 l3 _ IH1 _ IH2]; cbn; [done|by destruct (P a); rewrite IH| |by rewrite IH1].
  destruct (P a), (P b); try done. apply Permutation_swap.
Qed.

Lemma forallb_perm l1 l2 : l1 ≡ₚ l2 -> forallb P l1 = forallb P l2.
Proof.
  induction 1 as [|a l1 l2 _ IH|a b l|l1 l2 l3 _ IH1 _ IH2]; cbn; [done|by rewrite IH| |by rewrite IH1].
  by destruct (P a), (P b).
Qed.

End FindFacts.

Section VectorFacts.
Context {A : Type}.
Implicit Types (l : list A) (a b : A).

Lemma elem_of_insert_at s a b l : b ∈ insert_at s a l <-> b = a \/ b ∈ l.
Proof.
  unfold insert_at. rewrite elem_of_app, elem_of_cons.
  rewrite <- (take_drop s l) at 3. rewrite elem_of_app. tauto.
Qed.

Lemma elem_of_erase_range s e b l : b ∈ erase_range s e l -> b ∈ l.
Proof.
  unfold erase_range. rewrite elem_of_app, !list_elem_of_lookup.
  setoid_rewrite lookup_take_Some. setoid_rewrite lookup_drop.
  intros [(i & H & _)|(i & H)]; eauto.
Qed.

Lemma elem_of_erase_range_iff s e b l :
  (s <= S e)%nat ->
  b ∈ erase_range s e l <-> exists i, (i < s \/ e < i)%nat /\ l !! i = Some b.
Proof.
  intros Hse. unfold erase_range. rewrite elem_of_app, !list_elem_of_lookup.
  setoid_rewrite lookup_take_Some. setoid_rewrite lookup_drop. split.
  - intros [(i & H & Hi)|(i & H)]; [exists i|exists (S e + i)%nat]; (split; [lia|done]).
  - intros (i & [Hi|Hi] & H); [left; by exists i|right; exists (i - S e)%nat].
    by replace (S e + (i - S e))%nat with i by lia.
Qed.

Lemma elem_of_slice s e b l :
  b ∈ slice s e l <-> exists i, (s <= i <= e)%nat /\ l !! i = Some b.
Proof.
  unfold slice. rewrite elem_of_take. split.
  - intros (i & Hi & Hlt). rewrite lookup_drop in Hi. exists (s + i)%nat. split; [lia|done].
  - intros (i & Hi & Hl). exists (i - s)%nat. rewrite lookup_drop.
    replace (s + (i - s))%nat with i by lia. split; [done|lia].
Qed.

Lemma lookup_slice s e k a l :
  slice s e l !! k = Some a <-> (s + k <= e)%nat /\ l !! (s + k)%nat = Some a.
Proof.
  unfold slice. rewrite lookup_take_Some, lookup_drop. split; intros [??]; (split; [lia || done|lia || done]).
Qed.

Lemma length_slice s e l : (s <= e)%nat -> (e < length l)%nat -> length (slice s e l) = (S e - s)%nat.
Proof. intros. unfold slice. rewrite length_take, length_drop. lia. Qed.

Lemma insert_at_app s a l r : length l = s -> insert_at s a (l ++ r) = l ++ a :: r.
Proof. intros <-. unfold insert_at. by rewrite take_app_length, drop_app_length. Qed.

Lemma erase_range_app s e l m r :
  length l = s -> (s + length m = S e)%nat -> erase_range s e (l ++ m ++ r) = l ++ r.
Proof.
  intros <- He. unfold erase_range. rewrite take_app_length. f_equal.
  by rewrite <- He, <- drop_drop, drop_app_length, drop_app_length.
Qed.

(** [if (s <= e) v.erase(v.begin() + s, v.begin() + e + 1)] also when the part
    to erase is empty. *)
Lemma erase_range_if s e l m r :
  length l = s -> (s + length m = S e)%nat ->
  (if (s <=? e)%nat then Ret (erase_range s e (l ++ m ++ r)) else Ret (l ++ m ++ r)) = Ret (l ++ r).
Proof.
  intros Hl Hm. destruct (Nat.leb_spec s e); [by rewrite erase_range_app|].
  assert (m = []) as -> by (apply nil_length_inv; lia). done.
Qed.

Lemma insert_middle s a b l r : length l = s -> <[s := a]> (l ++ b :: r) = l ++ a :: r.
Proof. intros <-. by rewrite insert_app_r_alt, Nat.sub_diag by lia. Qed.

(** What holds at the indices outside the middle part holds of the elements of
    the two outer parts. *)
Lemma outside_middle (Q : A -> Prop) l m r :
  (forall i a, (i < length l \/ length l + length m <= i)%nat -> (l ++ m ++ r) !! i = Some a -> Q a) ->
  forall a, a ∈ l \/ a ∈ r -> Q a.
Proof.
  intros H a [(i & Hi)%list_elem_of_lookup|(i & Hi)%list_elem_of_lookup].
  - apply (H i); [left; by eapply lookup_lt_Some|by apply lookup_app_l_Some].
  - apply (H (length l + length m + i)%nat); [lia|]. rewrite app_assoc, lookup_app_r, length_app by (rewrite length_app; lia).
    by replace (length l + length m + i - (length l + length m))%nat with i by lia.
Qed.

(** A vector around one index, and around two. *)
Lemma split_one s a l : l !! s = Some a -> exists l1 l2, l = l1 ++ a :: l2 /\ length l1 = s.
Proof.
  intros H. exists (take s l), (drop (S s) l). split; [by rewrite take_drop_middle|].
  rewrite length_take. apply lookup_lt_Some in H. lia.
Qed.

Lemma split_two s e a b l :
  l !! s = Some a -> l !! e = Some b -> (s < e)%nat ->
  exists l1 m l2, l = l1 ++ a :: m ++ b :: l2 /\ length l1 = s /\ (e = S (s + length m))%nat.
Proof.
  intros (l1 & r & -> & <-)%split_one Hb Hlt.
  rewrite lookup_app_r in Hb by lia.
  destruct (e - length l1)%nat as [|k] eqn:Hk; [lia|]. cbn in Hb.
  apply split_one in Hb as (m & l2 & -> & <-). exists l1, m, l2. repeat split. lia.
Qed.

Lemma NoDup_middle l1 a l2 : NoDup (l1 ++ a :: l2) -> (a ∉ l1 ++ l2) /\ NoDup (l1 ++ l2).
Proof. rewrite <- Permutation_middle. apply NoDup_cons. Qed.

Lemma slice_single s a l : l !! s = Some a -> slice s s l = [a].
Proof.
  intros H. unfold slice. replace (S s - s)%nat with 1%nat by lia.
  by rewrite (drop_S _ _ _ H).
Qed.

End VectorFacts.

(** The loops and the vector operations commute with a function on the elements. *)
Section FmapFacts.
Context {A B : Type} (f : A -> B).

Lemma find_from_fmap (P : B -> bool) from l : find_from P from (f <$> l) = find_from (fun a => P (f a)) from l.
Proof. revert from. induction l as [|a l IH]; intros from; cbn; [done|]. by rewrite IH. Qed.

Lemma find_last_fmap (P : B -> bool) l : find_last P (f <$> l) = find_last (fun a => P (f a)) l.
Proof. induction l as [|a l IH]; cbn; [done|]. by rewrite IH. Qed.

Lemma fmap_insert_at s a l : f <$> insert_at s a l = insert_at s (f a) (f <$> l).
Proof. unfold insert_at. by rewrite fmap_app, fmap_cons, fmap_take, fmap_drop. Qed.

Lemma fmap_erase_range s e l : f <$> erase_range s e l = erase_range s e (f <$> l).
Proof. unfold erase_range. by rewrite fmap_app, fmap_take, fmap_drop. Qed.

Lemma fmap_slice s e l : f <$> slice s e l = slice s e (f <$> l).
Proof. unfold slice. by rewrite fmap_take, fmap_drop. Qed.

Lemma filter_fmap (P : B -> bool) l : List.filter P (f <$> l) = f <$> List.filter (fun a => P (f a)) l.
Proof. induction l as [|a l IH]; cbn; [done|]. rewrite IH. by destruct (P (f a)). Qed.

Lemma fmap_rev (l : list A) : f <$> rev l = rev (f <$> l).
Proof. induction l as [|a l IH]; cbn; [done|]. by rewrite fmap_app, IH. Qed.

End FmapFacts.

(** The automation of the development: membership in updated vectors. *)
Create HintDb pfs.
Create Rewrite HintDb pfs.
#[export] Hint Resolve elem_of_erase_range is_u32_min is_u32_max u32_range : pfs.
#[export] Hint Rewrite @elem_of_insert_at @elem_of_app @elem_of_cons : pfs.
