(* ===== verification/Config.v ===== *)
(** Constants, error codes and helpers shared by all programs:
    include/config.h, include/util.h, common/util.cpp. *)

From Stdlib Require Import String.
From Stdlib Require Import Strings.Byte.
From stdpp Require Import strings.
From S2P Require Import Prelude.
#[local] Open Scope Z_scope.

(** A [char] buffer or a [bytes] field of a message. *)
Abbreviation bytes := (list byte).

(** ** include/config.h and include/util.h *)

Definition PFS_BLOCK_SIZE : Z := 1.
Definition STRIP_SIZE : Z := 1.
Definition NUM_FILE_SERVERS : Z := 5.
Definition CLIENT_CACHE_SIZE : Z := 2.

Definition pfsBlockSizeInBytes : Z := PFS_BLOCK_SIZE * 1024.
Definition clientCacheSizeInBytes : Z := CLIENT_CACHE_SIZE * 1024 * 1024.
Definition HASH_BUCKETS : Z := (clientCacheSizeInBytes / pfsBlockSizeInBytes) / 2.
Definition HASH_BUCKETS_MASK : Z := HASH_BUCKETS - 1.

Definition NO_ERROR : Z := 0.
Definition ERROR_ALREADY_EXISTS : Z := -1.
Definition ERROR_DOES_NOT_EXIST : Z := -2.
Definition ERROR_CLOSE_UNOPENED_FILE : Z := -3.
Definition ERROR_DELETE_OPEN_FILE : Z := -4.
Definition ERROR_REOPEN_FILE : Z := -5.
Definition ERROR_GET_PERMISSION_UNOPENED_FILE : Z := -6.

(** Unfold the constants before arithmetic. *)
Ltac unfold_config :=
  unfold HASH_BUCKETS_MASK, HASH_BUCKETS, clientCacheSizeInBytes, pfsBlockSizeInBytes,
    PFS_BLOCK_SIZE, STRIP_SIZE, NUM_FILE_SERVERS, CLIENT_CACHE_SIZE in *.

(** ** common/util.cpp *)

Definition getErrorMessage (error_code : Z) : string :=
  if 0 <=? error_code then ""%string
  else if error_code =? ERROR_ALREADY_EXISTS then "Error : Already Exists"%string
  else if error_code =? ERROR_DOES_NOT_EXIST then "Error : Does not exist"%string
  else if error_code =? ERROR_CLOSE_UNOPENED_FILE then "Error : Closing an unopened file"%string
  else if error_code =? ERROR_DELETE_OPEN_FILE then "Error : Deleting an opened file"%string
  else if error_code =? ERROR_REOPEN_FILE then "Error : Reopening a file"%string
  else if error_code =? ERROR_GET_PERMISSION_UNOPENED_FILE
  then "Error : Getting r/w permission for an unopened file"%string
  else "Error : Unknown Error"%string.

(** [std::hash<uint32_t>] is the implementation's: any function to [size_t].
    [size_t] is 64 bits wide, so [h2 << 1] drops its top bit. *)
Definition hashPFS (std_hash : Z -> Z) (fdes blockAddr : Z) : Z :=
  let h1 := std_hash fdes in
  let h2 := std_hash blockAddr in
  Z.land (Z.lxor h1 (Z.shiftl h2 1 mod 2 ^ 64)) HASH_BUCKETS_MASK.

(** ** Lemmas *)

(** The bucket of a block is an index of the hash table, whatever the hash. *)
Lemma hashPFS_range std_hash fdes blockAddr :
  0 <= hashPFS std_hash fdes blockAddr < HASH_BUCKETS.
Proof.
  unfold hashPFS. change HASH_BUCKETS_MASK with (Z.ones 10). rewrite Z.land_ones by lia.
  change HASH_BUCKETS with (2 ^ 10). apply Z.mod_pos_bound. lia.
Qed.
