(* ===== verification/Permission.v ===== *)
(** A lock token on a range of bytes of one file: include/permission.h and
    common/permission.cpp. *)

From S2P Require Import Prelude.
#[local] Open Scope Z_scope.

(** ** Data *)

(** A [sem_t*] : the address of the semaphore a revoking thread waits on. *)
Definition SemId : Type := Z.

(** [permitLock] is [true] while the mutex of that name is held.
    [waitingSemaphoresLock] only protects the two fields after it inside one
    call, so each call is one step here. *)
Record Permission : Type := mkPermission {
  start : Z;
  end_ : Z;
  write : bool;
  permitLock : bool;
  locked : bool;
  waitingSemaphores : list SemId }.

#[export] Instance Permission_eq_dec : EqDecision Permission.
Proof. solve_decision. Defined.

(** ** Operations *)

(** [new Permission(start, end, write)]: the arguments are converted to
    [uint32_t]. *)
Definition newPermission (start end_ : Z) (write : bool) : Permission :=
  mkPermission (u32 start) (u32 end_) write false false [].

Definition getStart (p : Permission) : Z := start p.
Definition getEnd (p : Permission) : Z := end_ p.
Definition isWrite (p : Permission) : bool := write p.

Definition setStart (p : Permission) (s : Z) : Permission :=
  mkPermission s (end_ p) (write p) (permitLock p) (locked p) (waitingSemaphores p).

Definition setEnd (p : Permission) (e : Z) : Permission :=
  mkPermission (start p) e (write p) (permitLock p) (locked p) (waitingSemaphores p).

Definition addWaitingSemaphore (p : Permission) (sem : SemId) : Permission * bool :=
  if locked p
  then (mkPermission (start p) (end_ p) (write p) (permitLock p) (locked p)
          (waitingSemaphores p ++ [sem]), true)
  else (p, false).

Definition isShared (p : Permission) (s e : Z) : bool :=
  if e <=? start p then false
  else if end_ p <=? s then false
  else true.

Definition isInclusiveShared (p : Permission) (s e : Z) : bool :=
  if e <? start p then false
  else if end_ p <? s then false
  else true.

(** [lock] sets [locked] and then waits for the mutex: on a permission whose
    mutex is held, the calling thread blocks. *)
Definition lock (p : Permission) : outcome Permission :=
  if permitLock p then Blocked
  else Ret (mkPermission (start p) (end_ p) (write p) true true (waitingSemaphores p)).

(** [unlock] releases the mutex (a default mutex that is not held stays
    released), and posts every waiting semaphore once. The posts are returned. *)
Definition unlock (p : Permission) : Permission * list SemId :=
  (mkPermission (start p) (end_ p) (write p) false false (waitingSemaphores p),
   waitingSemaphores p).

(** ** The bytes a permission stands for *)

(** [p] gives access to byte [b] ([w]: write access). *)
Definition grants (p : Permission) (w : bool) (b : Z) : Prop :=
  start p <= b < end_ p /\ (w = true -> write p = true).

#[export] Instance grants_dec p w b : Decision (grants p w b).
Proof. unfold grants. apply _. Defined.

(** The range and the mode without the lock fields: what two parties that
    record the same token agree on. *)
Definition token (p : Permission) : Z * Z * bool := (start p, end_ p, write p).

(** ** Lemmas *)

Lemma isShared_true p s e :
  isShared p s e = true <-> start p < e /\ s < end_ p.
Proof.
  unfold isShared. destruct (e <=? start p) eqn:?, (end_ p <=? s) eqn:?; zbool; split; try done; lia.
Qed.

Lemma isShared_false p s e :
  isShared p s e = false <-> e <= start p \/ end_ p <= s.
Proof.
  unfold isShared. destruct (e <=? start p) eqn:?, (end_ p <=? s) eqn:?; zbool; split; try done; lia.
Qed.

Lemma isInclusiveShared_true p s e :
  isInclusiveShared p s e = true <-> start p <= e /\ s <= end_ p.
Proof.
  unfold isInclusiveShared.
  destruct (e <? start p) eqn:?, (end_ p <? s) eqn:?; zbool; split; try done; lia.
Qed.

Lemma isInclusiveShared_false p s e :
  isInclusiveShared p s e = false <-> e < start p \/ end_ p < s.
Proof.
  unfold isInclusiveShared.
  destruct (e <? start p) eqn:?, (end_ p <? s) eqn:?; zbool; split; try done; lia.
Qed.

(** A permission that grants a byte of a range is shared with the range. *)
Lemma grants_isShared p w b s e : grants p w b -> s <= b < e -> isShared p s e = true.
Proof. intros [? _] ?. apply isShared_true. lia. Qed.

Lemma grants_weaken p b : grants p true b -> grants p false b.
Proof. by intros [? _]. Qed.

(** What [lock] and [unlock] do not touch. *)
Lemma lock_token p p' : lock p = Ret p' -> token p' = token p.
Proof. unfold lock. destruct (permitLock p); intros [= <-]. done. Qed.

Lemma grants_token p q w b : token p = token q -> grants p w b <-> grants q w b.
Proof. unfold token, grants. intros [= -> -> ->]. done. Qed.
