(* ===== verification/File.v ===== *)
(** The base class of all file objects and the three operations on a vector of
    permissions: include/file.h and common/file.cpp.

    [File] holds the fields; [hasPermission], [addPermission] and
    [revokePermission] are pure functions of the vector they are given by
    reference. The vector is the one of a client (with the mutex of the file and
    the locking of new permissions) or one of the metadata manager's (without). *)

From Stdlib Require Import String Ascii.
From stdpp Require Import strings pretty.
From S2P Require Import Prelude Permission.
#[local] Open Scope Z_scope.

(** ** Data *)

Record File : Type := mkFile {
  name : string;
  pst_mtime : Z;
  pst_ctime : Z;
  pst_size : Z;
  stripWidth : Z;
  permissions : list Permission;
  hasModified : bool }.

Definition getName (f : File) : string := name f.
Definition getSize (f : File) : Z := u32 (pst_size f).
Definition getStripWidth (f : File) : Z := stripWidth f.
Definition getCreationTime (f : File) : Z := pst_ctime f.
Definition getLastModifiedTime (f : File) : Z := pst_mtime f.

Definition setSize (size : Z) (f : File) : File :=
  mkFile (name f) (pst_mtime f) (pst_ctime f) (u32 size) (stripWidth f) (permissions f) (hasModified f).

Definition setLastModifiedTime (t : Z) (f : File) : File :=
  mkFile (name f) t (pst_ctime f) (pst_size f) (stripWidth f) (permissions f) (hasModified f).

Definition setPermissions (ps : list Permission) (f : File) : File :=
  mkFile (name f) (pst_mtime f) (pst_ctime f) (pst_size f) (stripWidth f) ps (hasModified f).

Definition setHasModified (b : bool) (f : File) : File :=
  mkFile (name f) (pst_mtime f) (pst_ctime f) (pst_size f) (stripWidth f) (permissions f) b.

(** ** File::hasPermission *)

(** The loop of lines 65-70: consecutive permissions meet. *)
Fixpoint contiguous (ps : list Permission) : bool :=
  match ps with
  | p :: ((q :: _) as ps') => (getEnd p =? getStart q) && contiguous ps'
  | _ => true
  end.

(** Lines 30-40: the last permission that starts at or before [start]; [None] is
    the early return when the first one starts after it. *)
Definition hasSpanStart (start : Z) (perms : list Permission) : option nat :=
  match find_from (fun p => start <? getStart p) 0 perms with
  | Some 0%nat => None
  | Some (S i) => Some i
  | None => Some (length perms - 1)%nat
  end.

(** Lines 41-46: the first permission from [s] on that ends at or after [end]. *)
Definition hasSpanEnd (end_ : Z) (s : nat) (perms : list Permission) : nat :=
  match find_from (fun p => end_ <=? getEnd p) s (drop s perms) with
  | Some i => i
  | None => (length perms - 1)%nat
  end.

Definition hasPermission (start end_ : Z) (write : bool) (perms : list Permission) : bool :=
  if (length perms =? 0)%nat then false
  else
    match hasSpanStart start perms with
    | None => false
    | Some s =>
        let e := hasSpanEnd end_ s perms in
        match perms !! s, perms !! e with
        | Some ps, Some pe =>
            if start <? getStart ps then false
            else if getEnd pe <? end_ then false
            else if write && negb (forallb isWrite (slice s e perms)) then false
            else contiguous (slice s e perms)
        | _, _ => false
        end
    end.

(** ** File::addPermission *)

(** [if (lockNewPermissions) permit->lock();] *)
Definition maybeLock (lockNew : bool) (p : Permission) : outcome Permission :=
  if lockNew then lock p else Ret p.

(** Lines 82-96: the indices [s] and [e]. [e] is set by the first permission
    after [s] that is not shared, and stays [s] when there is none. *)
Definition sharedSpan (start end_ : Z) (perms : list Permission) : option (nat * nat) :=
  match find_from (fun p => isInclusiveShared p start end_) 0 perms with
  | None => None
  | Some s =>
      let e :=
        match find_from (fun p => negb (isInclusiveShared p start end_)) (S s) (drop (S s) perms) with
        | Some i => (i - 1)%nat
        | None => s
        end in
      Some (s, e)
  end.

Definition insertOpt (s : nat) (o : option Permission) (perms : list Permission) : list Permission :=
  match o with Some p => insert_at s p perms | None => perms end.

(** Lines 97-128: a write token replaces what it is shared with. *)
Definition addWrite (start end_ : Z) (lockNew : bool) (perms : list Permission) (s e : nat)
    : outcome (list Permission) :=
  ps ← deref (perms !! s);
  pe ← deref (perms !! e);
  let cutS := negb (isWrite ps) && (getStart ps <? start) in
  let sPermit := if cutS then Some (newPermission (getStart ps) start false) else None in
  let newStart :=
    if cutS then i32 start
    else if isWrite ps then i32 (Z.min (getStart ps) start) else i32 start in
  let cutE := negb (isWrite pe) && (end_ <? getEnd pe) in
  let ePermit := if cutE then Some (newPermission end_ (getEnd ps) false) else None in
  let newEnd :=
    if cutE then i32 end_
    else if isWrite pe then i32 (Z.max (getEnd pe) end_) else i32 end_ in
  let perms1 := insertOpt s ePermit (erase_range s e perms) in
  permit ← maybeLock lockNew (newPermission newStart newEnd true);
  Ret (insertOpt s sPermit (insert_at s permit perms1)).

(** Lines 164-177: [wps] is the rest of [writePermits], last element first. *)
Fixpoint addReadLoop (lockNew : bool) (s : nat) (wps : list Permission) (newEnd : Z)
    (perms : list Permission) : outcome (Z * list Permission) :=
  match wps with
  | [] => Ret (newEnd, perms)
  | wp :: wps' =>
      permit ← maybeLock lockNew (newPermission (getEnd wp) newEnd false);
      let perms1 := insert_at s permit perms in
      wp' ← maybeLock lockNew wp;
      addReadLoop lockNew s wps' (i32 (getStart wp)) (insert_at s wp' perms1)
  end.

(** Lines 178-183. *)
Definition addReadLast (lockNew : bool) (s : nat) (newStart newEnd : Z) (perms : list Permission)
    : outcome (list Permission) :=
  if newStart <? newEnd
  then permit ← maybeLock lockNew (newPermission newStart newEnd false); Ret (insert_at s permit perms)
  else Ret perms.

(** Lines 130-187: a read token absorbs the read tokens it is shared with and
    fills the gaps between the write tokens. *)
Definition addRead (start end_ : Z) (lockNew : bool) (perms : list Permission) (s e : nat)
    : outcome (list Permission) :=
  ps ← deref (perms !! s);
  pe ← deref (perms !! e);
  let newStart :=
    if negb (isWrite ps) && (getStart ps <? start) then i32 (getStart ps) else i32 start in
  let newEnd :=
    if negb (isWrite pe) && (end_ <? getEnd pe) then i32 (getEnd pe) else i32 end_ in
  let writePermits := List.filter isWrite (slice s e perms) in
  let perms1 := erase_range s e perms in
  match reverse writePermits with
  | [] =>
      permit ← maybeLock lockNew (newPermission newStart newEnd false);
      Ret (insert_at s permit perms1)
  | wl :: rest =>
      if (getStart wl <=? u32 newEnd) && (u32 newEnd <=? getEnd wl)
      then
        wl' ← maybeLock lockNew wl;
        r ← addReadLoop lockNew s rest (i32 (getStart wl)) (insert_at s wl' perms1);
        addReadLast lockNew s newStart r.1 r.2
      else
        r ← addReadLoop lockNew s (wl :: rest) newEnd perms1;
        addReadLast lockNew s newStart r.1 r.2
  end.

(** Lines 190-213: nothing is shared; the token goes after the last one that
    ends before it. *)
Definition addUnshared (start end_ : Z) (write : bool) (lockNew : bool) (perms : list Permission)
    : outcome (list Permission) :=
  permit ← maybeLock lockNew (newPermission start end_ write);
  if (length perms =? 0)%nat then Ret (perms ++ [permit])
  else
    match find_last (fun p => getEnd p <? start) perms with
    | Some i => Ret (insert_at (S i) permit perms)
    | None => Ret (insert_at 0 permit perms)
    end.

Definition addPermission (start end_ : Z) (write : bool) (perms : list Permission)
    (lockNewPermissions : bool) : outcome (list Permission) :=
  match sharedSpan start end_ perms with
  | Some (s, e) =>
      if write then addWrite start end_ lockNewPermissions perms s e
      else addRead start end_ lockNewPermissions perms s e
  | None => addUnshared start end_ write lockNewPermissions perms
  end.

(** ** File::revokePermission *)

(** Lines 222-227: every shared permission that is locked gets the semaphore;
    [count] is the number of posts to wait for. *)
Fixpoint registerWaiters (start end_ : Z) (sem : SemId) (perms : list Permission)
    : list Permission * nat :=
  match perms with
  | [] => ([], 0%nat)
  | p :: perms' =>
      let '(rest, count) := registerWaiters start end_ sem perms' in
      if isShared p start end_
      then let '(p', res) := addWaitingSemaphore p sem in
           (p' :: rest, if res then S count else count)
      else (p :: rest, count)
  end.

(** Lines 233-279: the range is cut out of the vector. Both loops use the same
    test, so they find an index together or not at all. *)
Definition revokeRange (start end_ : Z) (perms : list Permission) : outcome (list Permission) :=
  match find_from (fun p => isShared p start end_) 0 perms,
        find_last (fun p => isShared p start end_) perms with
  | Some s, Some e =>
      if (s =? e)%nat
      then
        p ← deref (perms !! s);
        let sPermit :=
          if getStart p <? start then Some (newPermission (getStart p) start (isWrite p)) else None in
        let ePermit :=
          if end_ <? getEnd p then Some (newPermission end_ (getEnd p) (isWrite p)) else None in
        Ret (insertOpt s sPermit (insertOpt s ePermit (erase_range s s perms)))
      else
        ps ← deref (perms !! s);
        let cutS := getStart ps <? start in
        let perms1 := if cutS then <[s := setEnd ps start]> perms else perms in
        let s1 := if cutS then S s else s in
        pe ← deref (perms1 !! e);
        let cutE := end_ <? getEnd pe in
        let perms2 := if cutE then <[e := setStart pe end_]> perms1 else perms1 in
        let e1 := if cutE then (e - 1)%nat else e in
        if (s1 <=? e1)%nat then Ret (erase_range s1 e1 perms2) else Ret perms2
  | _, _ => Ret perms
  end.

(** With the mutex of the file ([lock = true]) the thread first waits for one
    post per locked permission: [Blocked] when there is such a permission.
    Without it the range is cut at once. *)
Definition revokePermission (start end_ : Z) (write : bool) (lock : bool) (sem : SemId)
    (perms : list Permission) : outcome (list Permission) :=
  if lock
  then
    let '(perms1, count) := registerWaiters start end_ sem perms in
    if (count =? 0)%nat then revokeRange start end_ perms1 else Blocked
  else revokeRange start end_ perms.

(** ** File::printPermissions *)

Definition printPermission (p : Permission) : string :=
  String.append "(" (String.append (pretty (Z.to_N (getStart p))) (String.append ", " (String.append (pretty (Z.to_N (getEnd p)))
    (String.append ", " (String.append (if isWrite p then "w" else "r") (String.append ")" (String "009"%char EmptyString))))))).

Definition printPermissions (f : File) (perms : list Permission) : string :=
  String.append (getName f) (String "009"%char
    (String.append (String.concat EmptyString (printPermission <$> perms)) (String "010"%char EmptyString))).
