(* ===== verification/Tokens.v ===== *)
(** What a vector of permissions means, and what the operations of File.v do to
    that meaning.

    The abstract state of a vector is the access relation [holds]: which bytes it
    lets its owner read and write. [File::hasPermission] decides it,
    [File::revokePermission] subtracts a range from it and [File::addPermission]
    adds one to it. The bounds needed for safety are proved for every vector,
    sorted or not; exactness is proved for sorted ones. *)

From S2P Require Import Prelude Permission File.
#[local] Open Scope Z_scope.

(** ** Abstract state *)

(** Some permission of the vector grants [b]. *)
Definition holds (l : list Permission) (w : bool) (b : Z) : Prop :=
  exists p, p ∈ l /\ grants p w b.

(** The range asked for by a request. *)
Definition requested (start end_ : Z) (write : bool) (w : bool) (b : Z) : Prop :=
  start <= b < end_ /\ (w = true -> write = true).

(** All bounds are [uint32_t] values: the fields of the class have that type. *)
Definition bounded (l : list Permission) : Prop :=
  Forall (fun p => is_u32 (start p) /\ is_u32 (end_ p)) l.

(** Same tokens in the same order, whatever the state of the locks. *)
Definition same_tokens (l1 l2 : list Permission) : Prop := token <$> l1 = token <$> l2.

(** Non-empty ranges in increasing order without overlap. *)
Fixpoint sorted_from (lo : Z) (l : list Permission) : Prop :=
  match l with
  | [] => True
  | p :: l' => lo <= start p /\ start p < end_ p /\ sorted_from (end_ p) l'
  end.

Definition wf (l : list Permission) : Prop := bounded l /\ sorted_from 0 l.

(** ** Basic facts *)

Lemma holds_nil w b : ~ holds [] w b.
Proof. by intros (p & []%not_elem_of_nil & _). Qed.

Lemma holds_weaken l b : holds l true b -> holds l false b.
Proof. intros (p & ? & ?%grants_weaken). by exists p. Qed.

Lemma holds_app l1 l2 w b : holds (l1 ++ l2) w b <-> holds l1 w b \/ holds l2 w b.
Proof. unfold holds. setoid_rewrite elem_of_app. naive_solver. Qed.

Lemma holds_cons p l w b : holds (p :: l) w b <-> grants p w b \/ holds l w b.
Proof. unfold holds. setoid_rewrite elem_of_cons. naive_solver. Qed.

Lemma holds_insert_at s p l w b : holds (insert_at s p l) w b <-> grants p w b \/ holds l w b.
Proof. unfold holds. setoid_rewrite elem_of_insert_at. naive_solver. Qed.

Lemma holds_insertOpt s o l w b :
  holds (insertOpt s o l) w b <-> (exists p, o = Some p /\ grants p w b) \/ holds l w b.
Proof. destruct o as [p|]; cbn; rewrite ?holds_insert_at; naive_solver. Qed.

Lemma holds_erase_range s e l w b : holds (erase_range s e l) w b -> holds l w b.
Proof. intros (p & ?%elem_of_erase_range & ?). by exists p. Qed.

Lemma holds_lookup l i p w b : l !! i = Some p -> grants p w b -> holds l w b.
Proof. intros ?%list_elem_of_lookup_2 ?. by exists p. Qed.

Lemma bounded_elem l p : bounded l -> p ∈ l -> is_u32 (start p) /\ is_u32 (end_ p).
Proof. unfold bounded. rewrite Forall_forall. intros H Hp. apply (H p Hp). Qed.

Lemma maybeLock_token b p p' : maybeLock b p = Ret p' -> token p' = token p.
Proof. unfold maybeLock. destruct b; [apply lock_token|by intros [= <-]]. Qed.

(** The permission that [maybeLock] returns has the range of its argument. *)
Lemma maybeLock_fields b p p' :
  maybeLock b p = Ret p' -> start p' = start p /\ end_ p' = end_ p /\ write p' = write p.
Proof. intros [= -> -> ->]%maybeLock_token. done. Qed.

Lemma maybeLock_grants b p p' w x : maybeLock b p = Ret p' -> grants p' w x <-> grants p w x.
Proof. intros ?%maybeLock_token. by apply grants_token. Qed.

(** A fresh permission is not locked, so locking it returns. *)
Lemma maybeLock_new b st en w : exists p, maybeLock b (newPermission st en w) = Ret p.
Proof. destruct b; cbn; eauto. Qed.

(** ** The span of shared permissions *)

Lemma sharedSpan_Some st en l s e :
  sharedSpan st en l = Some (s, e) ->
  (s <= e)%nat /\ (e < length l)%nat /\
  (forall k p, (s <= k <= e)%nat -> l !! k = Some p -> isInclusiveShared p st en = true) /\
  (forall k p, (k < s)%nat -> l !! k = Some p -> isInclusiveShared p st en = false).
Proof.
  unfold sharedSpan. destruct (find_from _ 0 l) as [s'|] eqn:Hs; [|done].
  apply find_from_Some in Hs as (j & a & -> & Hj & Ha & Hlt). cbn [Nat.add] in *.
  pose proof (lookup_lt_Some _ _ _ Hj) as Hlen.
  destruct (find_from _ (S j) _) as [i|] eqn:He; intros [= <- <-].
  - apply find_from_Some in He as (k & c & -> & Hk & Hc & Hlt').
    rewrite lookup_drop in Hk. pose proof (lookup_lt_Some _ _ _ Hk) as Hlen'.
    repeat split; [lia..| |exact Hlt]. intros m p Hm Hp.
    destruct (decide (m = j)) as [->|Hne]; [congruence|].
    specialize (Hlt' (m - S j)%nat p). rewrite lookup_drop in Hlt'.
    replace (S j + (m - S j))%nat with m in Hlt' by lia.
    specialize (Hlt' ltac:(lia) Hp). by apply negb_false_iff in Hlt'.
  - repeat split; [lia..| |exact Hlt]. intros m p Hm Hp.
    replace m with j in Hp by lia. congruence.
Qed.

Lemma sharedSpan_None st en l :
  sharedSpan st en l = None -> forall p, p ∈ l -> isInclusiveShared p st en = false.
Proof.
  unfold sharedSpan. destruct (find_from _ 0 l) as [s'|] eqn:Hs; [done|].
  intros _. exact (proj1 (find_from_None _ _ _) Hs).
Qed.

(** The permissions at both ends of the span, as the code reads them. *)
Lemma sharedSpan_ends st en l s e :
  sharedSpan st en l = Some (s, e) -> exists ps pe,
    l !! s = Some ps /\ l !! e = Some pe /\
    (start ps <= en /\ st <= end_ ps) /\ (start pe <= en /\ st <= end_ pe).
Proof.
  intros (Hse & He & Hsh & _)%sharedSpan_Some.
  destruct (lookup_lt_is_Some_2 l s) as [ps Hps]; [lia|].
  destruct (lookup_lt_is_Some_2 l e) as [pe Hpe]; [lia|].
  exists ps, pe. repeat split; [done..| | | |];
    (eapply isInclusiveShared_true, (Hsh s); [lia|done]) ||
    (eapply isInclusiveShared_true, (Hsh e); [lia|done]).
Qed.

(** ** File::addPermission adds at most the requested range *)

Section AddUpper.
Context (st en : Z) (l : list Permission).
Hypothesis Hst : is_u32 st.
Hypothesis Hen : is_u32 en.
Hypothesis Hl : bounded l.

(** What the new vector may grant. *)
Let allowed (write w : bool) (b : Z) : Prop := holds l w b \/ requested st en write w b.

Lemma addWrite_upper lockNew s e l' w b :
  sharedSpan st en l = Some (s, e) -> addWrite st en lockNew l s e = Ret l' ->
  holds l' w b -> allowed true w b.
Proof.
  intros (ps & pe & Hps & Hpe & Hs & He)%sharedSpan_ends. unfold addWrite. rewrite Hps, Hpe. cbn.
  destruct (bounded_elem l ps) as [Hs1 Hs2]; [done|by eapply list_elem_of_lookup_2|].
  destruct (bounded_elem l pe) as [He1 He2]; [done|by eapply list_elem_of_lookup_2|].
  intros H. inv_ret. subst l'. apply maybeLock_fields in E as (Hv1 & Hv2 & Hv3). cbn in Hv1, Hv2, Hv3.
  rewrite holds_insertOpt, holds_insert_at, holds_insertOpt. unfold allowed, requested.
  intros [(p & Hp & Hg)|[Hg|[(p & Hp & Hg)|Hg]]]; [| | |left; by eapply holds_erase_range].
  - left. apply (holds_lookup l s ps); [done|].
    destruct (negb (isWrite ps) && _) eqn:Ec; [|done]. injection Hp as <-. zbool.
    destruct Hg as [Hg1 Hg2]. cbn in *. rewrite !u32_id in Hg1 by done.
    unfold isWrite, getStart in *. split; [lia|intros ->; by specialize (Hg2 eq_refl)].
  - destruct Hg as [Hg1 Hg2]. rewrite Hv1, Hv2 in Hg1. rewrite Hv3 in Hg2.
    unfold isWrite, getStart, getEnd in *.
    destruct (decide (st <= b < en)) as [Hin|Hout]; [right; done|left].
    destruct (write ps) eqn:Wps; cbn in Hg1.
    + rewrite u32_i32 in Hg1 by auto with pfs.
      destruct (decide (b < st)); [apply (holds_lookup l s ps); [done|split; [lia|by rewrite Wps]]|].
      destruct (write pe) eqn:Wpe; cbn in Hg1.
      * rewrite u32_i32 in Hg1 by auto with pfs.
        apply (holds_lookup l e pe); [done|split; [lia|by rewrite Wpe]].
      * destruct (en <? end_ pe); rewrite u32_i32 in Hg1 by done; lia.
    + assert (Hb : st <= b) by (destruct (start ps <? st); rewrite u32_i32 in Hg1 by done; lia).
      destruct (write pe) eqn:Wpe; cbn in Hg1.
      * rewrite (u32_i32 (Z.max _ _)) in Hg1 by auto with pfs.
        apply (holds_lookup l e pe); [done|split; [lia|by rewrite Wpe]].
      * destruct (en <? end_ pe); rewrite (u32_i32 en) in Hg1 by done; lia.
  - left. apply (holds_lookup l s ps); [done|].
    destruct (negb (isWrite pe) && _) eqn:Ec; [|done]. injection Hp as <-.
    destruct Hg as [Hg1 Hg2]. cbn in *. unfold getEnd in *. rewrite !u32_id in Hg1 by done.
    split; [lia|intros ->; by specialize (Hg2 eq_refl)].
Qed.

(** The loop only inserts write tokens it was given and read tokens below [hi]. *)
Lemma addReadLoop_upper lockNew s wps newEnd m newEnd' m' hi w b :
  bounded wps -> u32 newEnd <= hi ->
  Forall (fun p => start p <= hi /\ st <= end_ p) wps ->
  addReadLoop lockNew s wps newEnd m = Ret (newEnd', m') ->
  u32 newEnd' <= hi /\
  (holds m' w b -> holds m w b \/ holds wps w b \/ (w = false /\ st <= b < hi)).
Proof.
  revert newEnd m. induction wps as [|wp wps IH]; intros newEnd m Hb Hne Hall; cbn.
  { intros [= <- <-]. auto. }
  apply Forall_cons in Hb as [[Hb1 Hb2] Hb]. apply Forall_cons in Hall as [[Ha1 Ha2] Hall].
  intros H. inv_ret. apply IH in H as [Hne' H]; [|done|by rewrite u32_i32|done].
  split; [done|]. rewrite !holds_insert_at, holds_cons in *.
  rewrite (maybeLock_grants _ _ _ _ _ E0), (maybeLock_grants _ _ _ _ _ E) in H.
  intros [[?|[[Hg1 Hg2]|?]]|[?|?]]%H; [by auto| |by auto..].
  right; right. cbn in Hg1, Hg2. unfold getEnd in *. rewrite (u32_id (end_ wp)) in Hg1 by done.
  destruct w; [by specialize (Hg2 eq_refl)|]. split; [done|lia].
Qed.

Lemma addReadLast_upper lockNew s newStart newEnd m m' w b :
  addReadLast lockNew s newStart newEnd m = Ret m' -> holds m' w b ->
  holds m w b \/ (w = false /\ u32 newStart <= b < u32 newEnd).
Proof.
  unfold addReadLast. case_match; intros; inv_ret; subst; [|by auto].
  apply holds_insert_at in H1 as [Hg|?]; [right|by auto].
  rewrite (maybeLock_grants _ _ _ _ _ E) in Hg. destruct Hg as [Hg1 Hg2]. cbn in *.
  destruct w; [by specialize (Hg2 eq_refl)|auto].
Qed.

Lemma elem_of_writePermits s e p :
  p ∈ reverse (List.filter isWrite (slice s e l)) ->
  exists i, (s <= i <= e)%nat /\ l !! i = Some p.
Proof.
  rewrite elem_of_reverse, list_elem_of_In, filter_In.
  rewrite <- list_elem_of_In, elem_of_slice. by intros [? _].
Qed.

Lemma holds_writePermits s e w b :
  holds (reverse (List.filter isWrite (slice s e l))) w b -> holds l w b.
Proof. intros (p & (i & _ & Hi)%elem_of_writePermits & Hg). by eapply holds_lookup. Qed.

Lemma writePermits_span s e hi :
  sharedSpan st en l = Some (s, e) -> en <= hi ->
  let wps := reverse (List.filter isWrite (slice s e l)) in
  bounded wps /\ Forall (fun p => start p <= hi /\ st <= end_ p) wps.
Proof.
  intros (_ & _ & Hsh & _)%sharedSpan_Some Hhi wps.
  split; apply Forall_forall; intros p (i & Hi & Hp)%elem_of_writePermits.
  - eapply bounded_elem; [done|by eapply list_elem_of_lookup_2].
  - specialize (Hsh i p Hi Hp). apply isInclusiveShared_true in Hsh. lia.
Qed.

Lemma addRead_upper lockNew s e l' w b :
  sharedSpan st en l = Some (s, e) -> addRead st en lockNew l s e = Ret l' ->
  holds l' w b -> allowed false w b.
Proof.
  intros Hspan. pose proof Hspan as (ps & pe & Hps & Hpe & Hs & He)%sharedSpan_ends.
  unfold addRead. rewrite Hps, Hpe. cbn [deref mbind outcome_bind].
  destruct (bounded_elem l ps) as [Hs1 Hs2]; [done|by eapply list_elem_of_lookup_2|].
  destruct (bounded_elem l pe) as [He1 He2]; [done|by eapply list_elem_of_lookup_2|].
  set (newStart := if _ : bool then i32 (getStart ps) else i32 st).
  set (newEnd := if _ : bool then i32 (getEnd pe) else i32 en).
  set (hi := u32 newEnd).
  assert (Hlo : u32 newStart = st \/ u32 newStart = start ps /\ write ps = false /\ start ps < st).
  { unfold newStart, isWrite, getStart. destruct (write ps); cbn; [rewrite u32_i32; auto|].
    destruct (start ps <? st) eqn:?; zbool; rewrite u32_i32; auto. }
  assert (Hhi : hi = en \/ hi = end_ pe /\ write pe = false /\ en < end_ pe).
  { unfold hi, newEnd, isWrite, getEnd. destruct (write pe); cbn; [rewrite u32_i32; auto|].
    destruct (en <? end_ pe) eqn:?; zbool; rewrite u32_i32; auto. }
  clearbody newStart. assert (Hfill : w = false -> u32 newStart <= b < hi -> allowed false w b).
  { intros -> Hb. unfold allowed, requested. destruct (decide (st <= b < en)); [by right|left].
    destruct (decide (b < st)); [apply (holds_lookup l s ps)|apply (holds_lookup l e pe)];
      unfold grants; [done|split; [lia|done]|done|split; [lia|done]]. }
  clearbody newEnd. destruct (writePermits_span s e hi Hspan) as [Hwb Hwr]; [lia|].
  pose proof (holds_writePermits s e w b) as Hw.
  destruct (reverse _) as [|wl rest]; [|destruct (_ && _)]; intros H Hh; inv_ret; subst.
  - apply holds_insert_at in Hh as [Hg|Hh%holds_erase_range]; [|by left].
    rewrite (maybeLock_grants _ _ _ _ _ E) in Hg. destruct Hg as [Hg1 Hg2]. cbn in Hg1, Hg2.
    apply Hfill; [|done]. destruct w; [by specialize (Hg2 eq_refl)|done].
  - apply Forall_cons in Hwb as [[Hw1 Hw2] Hwb]. apply Forall_cons in Hwr as [[Hr1 Hr2] Hwr].
    destruct v0 as [ne m]. apply addReadLoop_upper with (hi := hi) (w := w) (b := b) in E0
      as [Hne E0]; [|done|by rewrite u32_i32|done].
    rewrite holds_cons in Hw. cbn in H.
    apply (addReadLast_upper _ _ _ _ _ _ w b) in H as [[Hh'|[?|[-> ?]]]%E0|[-> ?]];
      [|left; auto|apply Hfill; [done|lia]..|done].
    apply holds_insert_at in Hh' as [Hg|Hh'%holds_erase_range]; [|by left].
    rewrite (maybeLock_grants _ _ _ _ _ E) in Hg. left; auto.
  - destruct v as [ne m]. apply addReadLoop_upper with (hi := hi) (w := w) (b := b) in E
      as [Hne E]; [|done..].
    cbn in H.
    apply (addReadLast_upper _ _ _ _ _ _ w b) in H as [[Hh'%holds_erase_range|[?|[-> ?]]]%E|[-> ?]];
      [by left|left; auto|apply Hfill; [done|lia]..|done].
Qed.

Lemma addUnshared_upper write lockNew l' w b :
  addUnshared st en write lockNew l = Ret l' -> holds l' w b -> allowed write w b.
Proof.
  unfold addUnshared. intros H Hh. inv_ret.
  assert (Hv : grants v w b -> requested st en write w b).
  { rewrite (maybeLock_grants _ _ _ _ _ E). intros [Hg1 Hg2]. cbn in *. by rewrite !u32_id in Hg1. }
  assert (Hin : grants v w b \/ holds l w b).
  { destruct (_ =? _)%nat; [|case_match]; inv_ret; subst; [|by apply holds_insert_at in Hh..].
    apply holds_app in Hh as [?|[?|[]%holds_nil]%holds_cons]; auto. }
  unfold allowed. tauto.
Qed.

(** The vector after [addPermission] grants nothing but what it granted before
    and the requested range, in the requested mode; this needs no order on the
    vector. *)
Lemma addPermission_upper write lockNew l' w b :
  addPermission st en write l lockNew = Ret l' ->
  holds l' w b -> holds l w b \/ requested st en write w b.
Proof.
  unfold addPermission. destruct (sharedSpan st en l) as [[s e]|] eqn:Hspan.
  - destruct write; [by apply addWrite_upper|by apply addRead_upper].
  - apply addUnshared_upper.
Qed.

End AddUpper.

(** ** File::addPermission covers the requested range *)

(** All bounds are positive as [int] too. *)
Definition small (l : list Permission) : Prop := Forall (fun p => 0 <= start p <= INT_MAX /\ 0 <= end_ p <= INT_MAX) l.

Lemma small_bounded l : small l -> bounded l.
Proof. intros H. eapply Forall_impl; [exact H|]. intros p. cbn. unfold is_u32, INT_MAX. lia. Qed.

Lemma small_elem l p : small l -> p ∈ l -> 0 <= start p <= INT_MAX /\ 0 <= end_ p <= INT_MAX.
Proof. unfold small. rewrite Forall_forall. intros H Hp. apply (H p Hp). Qed.

(** [b] is granted by a permission that is locked, when the new ones are. *)
Definition holdsLocked (lockNew : bool) (l : list Permission) (w : bool) (b : Z) : Prop :=
  exists p, p ∈ l /\ (lockNew = true -> locked p = true) /\ grants p w b.

Lemma holdsLocked_holds lockNew l w b : holdsLocked lockNew l w b -> holds l w b.
Proof. intros (p & ? & _ & ?). by exists p. Qed.

Lemma holdsLocked_weaken lockNew l b : holdsLocked lockNew l true b -> holdsLocked lockNew l false b.
Proof. intros (p & ? & ? & ?%grants_weaken). by exists p. Qed.

Lemma holdsLocked_insertOpt lockNew s o l w b : holdsLocked lockNew l w b -> holdsLocked lockNew (insertOpt s o l) w b.
Proof. intros (p & ? & ? & ?). exists p. destruct o; cbn; rewrite ?elem_of_insert_at; auto. Qed.

Lemma maybeLock_locked b p p' : maybeLock b p = Ret p' -> b = true -> locked p' = true.
Proof. unfold maybeLock, lock. intros Hl ->. by destruct (permitLock p); [|injection Hl as <-]. Qed.

(** The permission that was just locked is at its place. *)
Lemma holdsLocked_insert_at lockNew s p p' l w b :
  maybeLock lockNew p = Ret p' -> grants p w b \/ holdsLocked lockNew l w b ->
  holdsLocked lockNew (insert_at s p' l) w b.
Proof.
  intros Hm [Hg|(q & Hq & ? & ?)]; [exists p'|exists q]; rewrite elem_of_insert_at; [|by auto].
  rewrite (maybeLock_grants _ _ _ _ _ Hm). split; [by left|]. split; [by apply (maybeLock_locked _ p)|done].
Qed.

Lemma addWrite_lower st en lockNew l s e l' b :
  is_u32 st -> is_u32 en -> bounded l ->
  sharedSpan st en l = Some (s, e) -> addWrite st en lockNew l s e = Ret l' ->
  st <= b < en -> holdsLocked lockNew l' true b.
Proof.
  intros Hst Hen Hl (ps & pe & Hps & Hpe & _ & _)%sharedSpan_ends. unfold addWrite.
  rewrite Hps, Hpe. cbn. intros H Hb. inv_ret. subst l'.
  destruct (bounded_elem l ps) as [Hs1 Hs2]; [done|by eapply list_elem_of_lookup_2|].
  destruct (bounded_elem l pe) as [He1 He2]; [done|by eapply list_elem_of_lookup_2|].
  apply holdsLocked_insertOpt. eapply holdsLocked_insert_at; [exact E|left].
  unfold isWrite, getStart, getEnd. split; [cbn|done].
  repeat case_match; zbool; rewrite !u32_i32 by auto with pfs; lia.
Qed.

(** The loop covers everything from the [newEnd] it returns up to [hi]. *)
Lemma addReadLoop_lower lockNew s wps newEnd m newEnd' m' hi :
  small wps -> 0 <= newEnd <= INT_MAX ->
  (forall b, newEnd <= b < hi -> holdsLocked lockNew m false b) ->
  addReadLoop lockNew s wps newEnd m = Ret (newEnd', m') ->
  0 <= newEnd' <= INT_MAX /\ forall b, newEnd' <= b < hi -> holdsLocked lockNew m' false b.
Proof.
  revert newEnd m. induction wps as [|wp wps IH]; intros newEnd m Hw Hne Hm; cbn.
  { intros [= <- <-]. auto. }
  apply Forall_cons in Hw as [[Hb1 Hb2] Hw]. intros H. inv_ret.
  rewrite i32_id in H by done. apply IH in H; [done..|]. clear IH H.
  intros b Hb. eapply holdsLocked_insert_at; [exact E0|].
  destruct (decide (newEnd <= b)); [right; eapply holdsLocked_insert_at; [exact E|right; apply Hm; lia]|].
  unfold grants, getEnd, getStart in *.
  destruct (decide (b < end_ wp)); [left; split; [lia|done]|right].
  eapply holdsLocked_insert_at; [exact E|left]. split; [|done]. cbn. rewrite !u32_id by word_lia. lia.
Qed.

Lemma addReadLast_lower lockNew s newStart newEnd m m' hi b :
  0 <= newStart <= INT_MAX -> 0 <= newEnd <= INT_MAX ->
  (forall b, newEnd <= b < hi -> holdsLocked lockNew m false b) ->
  addReadLast lockNew s newStart newEnd m = Ret m' -> newStart <= b < hi -> holdsLocked lockNew m' false b.
Proof.
  unfold addReadLast. intros Hns Hne Hm. case_match eqn:Ec; intros H Hb; inv_ret; zbool; subst.
  - eapply holdsLocked_insert_at; [exact E|].
    destruct (decide (newEnd <= b)); [right; apply Hm; lia|left].
    unfold grants; cbn. rewrite !u32_id by word_lia. split; [lia|done].
  - apply Hm. lia.
Qed.

Lemma addRead_lower st en lockNew l s e l' b :
  0 <= st <= INT_MAX -> 0 <= en <= INT_MAX -> small l ->
  sharedSpan st en l = Some (s, e) -> addRead st en lockNew l s e = Ret l' ->
  st <= b < en -> holdsLocked lockNew l' false b.
Proof.
  intros Hst Hen Hl Hspan. pose proof Hspan as (ps & pe & Hps & Hpe & _ & _)%sharedSpan_ends.
  unfold addRead. rewrite Hps, Hpe. cbn [deref mbind outcome_bind].
  destruct (small_elem l ps) as [Hs1 Hs2]; [done|by eapply list_elem_of_lookup_2|].
  destruct (small_elem l pe) as [He1 He2]; [done|by eapply list_elem_of_lookup_2|].
  set (newStart := if _ : bool then i32 (getStart ps) else i32 st).
  set (newEnd := if _ : bool then i32 (getEnd pe) else i32 en).
  assert (Hns : 0 <= newStart <= st).
  { unfold newStart. destruct (_ && _) eqn:?; zbool; unfold getStart in *; rewrite i32_id by lia; lia. }
  clearbody newStart. assert (Hne : en <= newEnd <= INT_MAX).
  { unfold newEnd. destruct (_ && _) eqn:?; zbool; unfold getEnd in *; rewrite i32_id by lia; lia. }
  clearbody newEnd. rewrite (u32_id newEnd) by word_lia.
  assert (Hws : small (reverse (List.filter isWrite (slice s e l)))).
  { apply Forall_forall. intros p (i & _ & Hi)%elem_of_writePermits.
    apply (small_elem l p Hl). by eapply list_elem_of_lookup_2. }
  destruct (reverse _) as [|wl rest]; [|destruct (_ && _) eqn:Ec]; intros H Hb; inv_ret; subst.
  - eapply holdsLocked_insert_at; [exact E|left].
    unfold grants; cbn. rewrite !u32_id by word_lia. split; [lia|done].
  - apply Forall_cons in Hws as [[Hw1 Hw2] Hws]. zbool. unfold getStart, getEnd in *.
    destruct v0 as [ne m]. rewrite i32_id in E0 by done.
    apply addReadLoop_lower with (hi := newEnd) in E0 as [Hne' E0]; [|done..|].
    + eapply addReadLast_lower; [| |exact E0|exact H|]; lia.
    + intros x Hx. eapply holdsLocked_insert_at; [exact E|left]. split; [lia|done].
  - destruct v as [ne m]. apply addReadLoop_lower with (hi := newEnd) in E as [Hne' E]; [|done|lia..].
    eapply addReadLast_lower; [| |exact E|exact H|]; lia.
Qed.

(** The vector of [addUnshared]: the old permissions and the new one. *)
Lemma addUnshared_elem st en write lockNew l l' :
  addUnshared st en write lockNew l = Ret l' ->
  exists p', maybeLock lockNew (newPermission st en write) = Ret p' /\ forall q, q ∈ l' <-> q = p' \/ q ∈ l.
Proof.
  unfold addUnshared. intros H. inv_ret. exists v. split; [done|]. intros q.
  destruct (_ =? _)%nat; [|case_match]; inv_ret; subst; [|apply elem_of_insert_at..].
  rewrite elem_of_app, list_elem_of_singleton. tauto.
Qed.

Lemma addUnshared_lower st en write lockNew l l' w b :
  is_u32 st -> is_u32 en -> addUnshared st en write lockNew l = Ret l' ->
  (holds l w b -> holds l' w b) /\ (requested st en write w b -> holdsLocked lockNew l' w b).
Proof.
  intros Hst Hen (p' & Hm & Hin)%addUnshared_elem. split.
  - intros (q & Hq & Hg). exists q. rewrite Hin. auto.
  - intros [Hb Hw]. exists p'. rewrite Hin, (maybeLock_grants _ _ _ _ _ Hm). split; [by left|].
    split; [by apply (maybeLock_locked _ _ _ Hm)|]. unfold grants; cbn. by rewrite !u32_id.
Qed.

(** After [addPermission] the requested range is granted in the requested mode,
    by permissions that are locked if the new ones are to be, whatever the vector
    was. *)
Lemma addPermission_locks st en write lockNew l l' w b :
  0 <= st <= INT_MAX -> 0 <= en <= INT_MAX -> small l ->
  addPermission st en write l lockNew = Ret l' ->
  requested st en write w b -> holdsLocked lockNew l' w b.
Proof.
  intros Hst Hen Hl. unfold addPermission.
  destruct (sharedSpan st en l) as [[s e]|] eqn:Hspan; intros H [Hb Hw].
  - destruct write.
    + assert (holdsLocked lockNew l' true b); [|destruct w; [done|by apply holdsLocked_weaken]].
      eapply addWrite_lower; [| |by apply small_bounded|done..]; word_lia.
    + destruct w; [by specialize (Hw eq_refl)|].
      eapply addRead_lower; [| | | |exact H|exact Hb]; done.
  - apply (addUnshared_lower st en write lockNew l l' w b); [word_lia|word_lia|done|by split].
Qed.

Lemma addPermission_lower st en write lockNew l l' w b :
  0 <= st <= INT_MAX -> 0 <= en <= INT_MAX -> small l ->
  addPermission st en write l lockNew = Ret l' ->
  requested st en write w b -> holds l' w b.
Proof. intros. eapply holdsLocked_holds, addPermission_locks; [| | |done..]; done. Qed.

(** ** Where the bounds of the new vector come from *)

Section AddBounds.
Context (st en : Z) (l : list Permission).
Hypothesis Hst : is_u32 st.
Hypothesis Hen : is_u32 en.
Hypothesis Hl : bounded l.

(** A property that holds of the two bounds of the request and of all bounds of
    the vector, such as being a positive [int]. *)
Context (P : Z -> Prop).
Hypothesis Pst : P st.
Hypothesis Pen : P en.
Hypothesis Pl : Forall (fun p => P (start p) /\ P (end_ p)) l.

Let Pvec (m : list Permission) : Prop := Forall (fun p => P (start p) /\ P (end_ p)) m.

Lemma Pvec_insert_at s p m : P (start p) -> P (end_ p) -> Pvec m -> Pvec (insert_at s p m).
Proof. unfold Pvec. rewrite !Forall_forall. setoid_rewrite elem_of_insert_at. naive_solver. Qed.

Lemma Pvec_erase_range s e m : Pvec m -> Pvec (erase_range s e m).
Proof. unfold Pvec. rewrite !Forall_forall. eauto with pfs. Qed.

Lemma Pvec_lookup i p : l !! i = Some p -> P (start p) /\ P (end_ p) /\ is_u32 (start p) /\ is_u32 (end_ p).
Proof.
  intros Hi%list_elem_of_lookup_2. pose proof (bounded_elem l p Hl Hi).
  rewrite Forall_forall in Pl. specialize (Pl p Hi). tauto.
Qed.

Lemma Pvec_new lockNew s st' en' w p m :
  maybeLock lockNew (newPermission st' en' w) = Ret p -> P (u32 st') -> P (u32 en') ->
  Pvec m -> Pvec (insert_at s p m).
Proof. intros (H1 & H2 & _)%maybeLock_fields ??. apply Pvec_insert_at; [by rewrite H1|by rewrite H2]. Qed.

Lemma addReadLoop_Pvec lockNew s wps newEnd m r :
  Pvec wps -> bounded wps -> P (u32 newEnd) -> Pvec m ->
  addReadLoop lockNew s wps newEnd m = Ret r -> P (u32 r.1) /\ Pvec r.2.
Proof.
  revert newEnd m. induction wps as [|wp wps IH]; intros newEnd m Hw Hb Hne Hm; cbn.
  { intros [= <-]. auto. }
  apply Forall_cons in Hw as [[Hw1 Hw2] Hw]. apply Forall_cons in Hb as [[Hb1 Hb2] Hb].
  intros H. inv_ret. revert H. apply IH; [done..|by rewrite u32_i32|].
  apply maybeLock_fields in E0 as (H1 & H2 & _). apply Pvec_insert_at; [by rewrite H1|by rewrite H2|].
  eapply Pvec_new; [exact E|by rewrite u32_id|done|done].
Qed.

Lemma addReadLast_Pvec lockNew s newStart newEnd m m' :
  P (u32 newStart) -> P (u32 newEnd) -> Pvec m ->
  addReadLast lockNew s newStart newEnd m = Ret m' -> Pvec m'.
Proof.
  unfold addReadLast. case_match; intros; inv_ret; subst; [|done]. by eapply Pvec_new.
Qed.

Lemma addRead_Pvec lockNew s e l' :
  sharedSpan st en l = Some (s, e) -> addRead st en lockNew l s e = Ret l' -> Pvec l'.
Proof.
  intros (ps & pe & Hps & Hpe & _ & _)%sharedSpan_ends. unfold addRead.
  rewrite Hps, Hpe. cbn [deref mbind outcome_bind].
  destruct (Pvec_lookup s ps Hps) as (Q1 & Q2 & Q3 & Q4).
  destruct (Pvec_lookup e pe Hpe) as (R1 & R2 & R3 & R4).
  set (newStart := if _ : bool then i32 (getStart ps) else i32 st).
  assert (Hns : P (u32 newStart)) by (unfold newStart; case_match; by rewrite u32_i32).
  clearbody newStart. set (newEnd := if _ : bool then i32 (getEnd pe) else i32 en).
  assert (Hne : P (u32 newEnd)) by (unfold newEnd; case_match; by rewrite u32_i32).
  clearbody newEnd.
  assert (Hws : forall p, p ∈ reverse (List.filter isWrite (slice s e l)) ->
    P (start p) /\ P (end_ p) /\ is_u32 (start p) /\ is_u32 (end_ p)).
  { intros p (i & _ & Hi)%elem_of_writePermits. by eapply Pvec_lookup. }
  assert (Hwp : Pvec (reverse (List.filter isWrite (slice s e l)))).
  { apply Forall_forall. intros p (? & ? & _)%Hws. done. }
  assert (Hwb : bounded (reverse (List.filter isWrite (slice s e l)))).
  { apply Forall_forall. intros p (_ & _ & ? & ?)%Hws. done. }
  pose proof (Pvec_erase_range s e l Pl) as Her. clear Hws.
  destruct (reverse _) as [|wl rest]; [|destruct (_ && _) eqn:Ec]; intros H; inv_ret; subst.
  - by eapply Pvec_new.
  - apply Forall_cons in Hwp as [[W1 W2] Hwp]. apply Forall_cons in Hwb as [[B1 B2] Hwb].
    apply maybeLock_fields in E as (H1 & H2 & _).
    apply addReadLoop_Pvec in E0 as [? ?]; [eapply addReadLast_Pvec; [exact Hns| | |exact H]; done|done|done|by rewrite u32_i32|].
    apply Pvec_insert_at; [by rewrite H1|by rewrite H2|done].
  - apply addReadLoop_Pvec in E as [? ?]; [eapply addReadLast_Pvec; [exact Hns| | |exact H]; done|done..].
Qed.

Lemma addWrite_Pvec lockNew s e l' :
  sharedSpan st en l = Some (s, e) -> addWrite st en lockNew l s e = Ret l' -> Pvec l'.
Proof.
  intros (ps & pe & Hps & Hpe & _ & _)%sharedSpan_ends. unfold addWrite.
  rewrite Hps, Hpe. cbn [deref mbind outcome_bind].
  destruct (Pvec_lookup s ps Hps) as (Q1 & Q2 & Q3 & Q4).
  destruct (Pvec_lookup e pe Hpe) as (R1 & R2 & R3 & R4). intros H. inv_ret. subst.
  assert (Hopt : forall o m, (forall q, o = Some q -> P (start q) /\ P (end_ q)) -> Pvec m -> Pvec (insertOpt s o m)).
  { intros [q|] m Hq ?; [|done]. destruct (Hq q eq_refl). by apply Pvec_insert_at. }
  unfold getStart, getEnd in *. apply Hopt.
  { intros q. case_match; [|done]. intros [= <-]. cbn. by rewrite !u32_id. }
  eapply Pvec_new; [exact E|..].
  - destruct (Z.min_spec (start ps) st) as [[_ Em]|[_ Em]]; rewrite Em;
      repeat case_match; by rewrite u32_i32.
  - destruct (Z.max_spec (end_ pe) en) as [[_ Em]|[_ Em]]; rewrite Em;
      repeat case_match; by rewrite u32_i32.
  - apply Hopt; [|by apply Pvec_erase_range].
    intros q. destruct (negb (isWrite pe) && _); [|done]. intros [= <-]. cbn. by rewrite !u32_id.
Qed.

Lemma addPermission_Pvec write lockNew l' :
  addPermission st en write l lockNew = Ret l' -> Pvec l'.
Proof.
  unfold addPermission. destruct (sharedSpan st en l) as [[s e]|] eqn:Hspan.
  - destruct write; [by apply addWrite_Pvec|by apply addRead_Pvec].
  - unfold addUnshared. intros H. inv_ret.
    pose proof (fun s => Pvec_new _ s _ _ _ _ l E) as Hnew. rewrite !u32_id in Hnew by done.
    destruct (_ =? _)%nat eqn:El; [|case_match]; inv_ret; subst; [|by apply Hnew..].
    apply Nat.eqb_eq, nil_length_inv in El. subst l. specialize (Hnew 0%nat). cbn in *. auto.
Qed.

End AddBounds.

Lemma addPermission_small st en write l lockNew l' :
  0 <= st <= INT_MAX -> 0 <= en <= INT_MAX -> small l ->
  addPermission st en write l lockNew = Ret l' -> small l'.
Proof.
  intros Hst Hen Hl. eapply (addPermission_Pvec st en l) with (P := fun x => 0 <= x <= INT_MAX);
    [word_lia|word_lia|by apply small_bounded|done..].
Qed.

(** ** File::addPermission returns *)

(** No mutex of the vector is held, or none is taken. *)
Definition lockable (lockNew : bool) (l : list Permission) : Prop := lockNew = true -> Forall (fun p => permitLock p = false) l.

Lemma maybeLock_lockable b p : lockable b [p] -> exists p', maybeLock b p = Ret p'.
Proof. destruct b; cbn; [|eauto]. intros Hl. specialize (Hl eq_refl). apply Forall_cons in Hl as [Hl _]. unfold lock. rewrite Hl. eauto. Qed.

Lemma lockable_cons b p l : lockable b (p :: l) -> lockable b [p] /\ lockable b l.
Proof. intros Hl. split; intros Hb; specialize (Hl Hb); apply Forall_cons in Hl as [? ?]; [by constructor|done]. Qed.

Lemma addReadLoop_total b s wps newEnd m : lockable b wps -> exists r, addReadLoop b s wps newEnd m = Ret r.
Proof.
  revert newEnd m. induction wps as [|wp wps IH]; intros newEnd m Hl; cbn; [eauto|]. apply lockable_cons in Hl as [Hp Hl].
  destruct (maybeLock_new b (getEnd wp) newEnd false) as [p ->]. destruct (maybeLock_lockable b wp Hp) as [p' ->]. cbn. by apply IH.
Qed.

Lemma addReadLast_total b s ns ne m : exists l', addReadLast b s ns ne m = Ret l'.
Proof. unfold addReadLast. case_match; [|eauto]. destruct (maybeLock_new b ns ne false) as [p ->]. cbn. eauto. Qed.

(** [addPermission] returns: no index is out of range, and it does not wait for a
    mutex when none of the vector is held. *)
Lemma addPermission_returns st en write l b : lockable b l -> exists l', addPermission st en write l b = Ret l'.
Proof.
  intros Hl. unfold addPermission. destruct (sharedSpan st en l) as [[s e]|] eqn:Hspan.
  - apply sharedSpan_ends in Hspan as (ps & pe & Hps & Hpe & _ & _).
    destruct write; unfold addWrite, addRead; rewrite Hps, Hpe; cbn [deref mbind outcome_bind].
    { match goal with |- context [maybeLock b (newPermission ?x ?z true)] => destruct (maybeLock_new b x z true) as [p ->] end. cbn. eauto. }
    assert (Hw : lockable b (reverse (List.filter isWrite (slice s e l)))).
    { intros Hb. specialize (Hl Hb). rewrite Forall_forall in Hl |- *. intros p Hp. apply elem_of_reverse, list_elem_of_In, filter_In in Hp as [Hp _].
      apply Hl. apply list_elem_of_In in Hp. unfold slice in Hp. apply elem_of_take in Hp as (i & Hp & _). rewrite lookup_drop in Hp. by eapply list_elem_of_lookup_2. }
    destruct (reverse _) as [|wl rest].
    { match goal with |- context [maybeLock b (newPermission ?x ?z false)] => destruct (maybeLock_new b x z false) as [p ->] end. cbn. eauto. }
    case_match.
    + apply lockable_cons in Hw as [Hwl Hw]. destruct (maybeLock_lockable b wl Hwl) as [wl' ->]. cbn [mbind outcome_bind].
      edestruct (addReadLoop_total b s rest) as [r ->]; [done|]. apply addReadLast_total.
    + edestruct (addReadLoop_total b s (wl :: rest)) as [r ->]; [done|]. apply addReadLast_total.
  - unfold addUnshared. destruct (maybeLock_new b st en write) as [p ->]. cbn [mbind outcome_bind]. repeat case_match; eauto.
Qed.

(** Without locking it returns on every vector. *)
Lemma addPermission_total st en write l : exists l', addPermission st en write l false = Ret l'.
Proof. by apply addPermission_returns. Qed.

(** ** File::revokePermission takes the range away *)

Lemma registerWaiters_tokens st en sem l : same_tokens (registerWaiters st en sem l).1 l.
Proof.
  unfold same_tokens. induction l as [|p l IH]; [done|]. cbn.
  destruct (registerWaiters st en sem l) as [rest count]. cbn in IH.
  unfold addWaitingSemaphore. repeat case_match; simplify_eq/=; f_equal; done.
Qed.

Lemma same_tokens_holds l1 l2 w b : same_tokens l1 l2 -> holds l1 w b -> holds l2 w b.
Proof.
  intros Heq (p & Hp & Hg). apply (list_elem_of_fmap_2 token) in Hp as Hp'.
  rewrite Heq in Hp'. apply list_elem_of_fmap in Hp' as (q & Hq & Hin).
  exists q. split; [done|]. by rewrite <- (grants_token p q).
Qed.

(** The two ends of the revoked part of the vector. *)
Lemma revokeSpan st en l :
  (find_from (fun p => isShared p st en) 0 l = None /\ find_last (fun p => isShared p st en) l = None /\
   forall p, p ∈ l -> isShared p st en = false) \/
  (exists s e ps pe, find_from (fun p => isShared p st en) 0 l = Some s /\
   find_last (fun p => isShared p st en) l = Some e /\ (s <= e)%nat /\
   l !! s = Some ps /\ l !! e = Some pe /\ isShared ps st en = true /\ isShared pe st en = true /\
   forall i p, (i < s \/ e < i)%nat -> l !! i = Some p -> isShared p st en = false).
Proof.
  destruct (find_from _ 0 l) as [s|] eqn:Hs.
  - right. apply find_from_Some in Hs as (j & ps & -> & Hps & Hsh & Hlt). cbn.
    destruct (find_last _ l) as [e|] eqn:He.
    + apply find_last_Some in He as (pe & Hpe & Hshe & Hgt).
      exists j, e, ps, pe. repeat split; [|done..|].
      * destruct (decide (j <= e)%nat); [done|]. rewrite (Hlt e pe) in Hshe; [done|lia|done].
      * intros i p [Hi|Hi] Hp; [by eapply Hlt|by eapply Hgt].
    + exfalso. pose proof (proj1 (find_last_None _ _) He ps) as Hn. cbn in Hn.
      rewrite Hn in Hsh; [done|by eapply list_elem_of_lookup_2].
  - left. pose proof (proj1 (find_from_None _ _ _) Hs) as Hn.
    repeat split; [|exact Hn]. by apply find_last_None.
Qed.

(** The elements of the vector after a revocation. *)
Lemma revokeRange_elem st en l l' q :
  revokeRange st en l = Ret l' -> q ∈ l' ->
  (q ∈ l /\ isShared q st en = false) \/
  (exists p, p ∈ l /\ isShared p st en = true /\ write q = write p /\
    (waitingSemaphores q ⊆ waitingSemaphores p /\ (permitLock q = true -> permitLock p = true)) /\
    ((start p < st /\ start q = start p /\ (end_ q = st \/ end_ q = u32 st)) \/
     (start p < st /\ start q = u32 (start p) /\ end_ q = u32 st) \/
     (en < end_ p /\ start q = en /\ end_ q = end_ p) \/
     (en < end_ p /\ start q = u32 en /\ end_ q = u32 (end_ p)))).
Proof.
  unfold revokeRange.
  destruct (revokeSpan st en l) as [(Hs & He & Hno)|(s & e & ps & pe & Hs & He & Hse & Hps & Hpe & Hshs & Hshe & Hout)];
    rewrite Hs, ?He; [intros [= <-] ?; auto|].
  pose proof (list_elem_of_lookup_2 _ _ _ Hps) as Hpsin.
  pose proof (list_elem_of_lookup_2 _ _ _ Hpe) as Hpein.
  destruct (Nat.eqb_spec s e) as [<-|Hne].
  - simplify_eq. rewrite Hps. cbn. intros [= <-] Hq.
    assert (Hq' : (exists i, (i < s \/ s < i)%nat /\ l !! i = Some q) \/
      (start ps < st /\ q = newPermission (start ps) st (write ps)) \/
      (en < end_ ps /\ q = newPermission en (end_ ps) (write ps))).
    { revert Hq. unfold getStart, getEnd, isWrite.
      destruct (start ps <? st) eqn:?, (en <? end_ ps) eqn:?; cbn; zbool;
        rewrite ?elem_of_insert_at, elem_of_erase_range_iff by lia; naive_solver. }
    destruct Hq' as [(i & Hi & Hq')|[[? ->]|[? ->]]];
      [left|right; exists ps; repeat (split; [done || (split; [apply list_subseteq_nil|done])|]); cbn; naive_solver..].
    split; [by eapply list_elem_of_lookup_2|by eapply Hout].
  - rewrite Hps. cbn.
    set (perms1 := if _ : bool then _ else l).
    assert (He1 : perms1 !! e = Some pe).
    { unfold perms1. case_match; [|done]. by rewrite list_lookup_insert_ne by lia. }
    rewrite He1. cbn. intros Hr Hq.
    assert (Hq' : exists i, ((i < s \/ e < i)%nat /\ l !! i = Some q) \/
      (i = s /\ start ps < st /\ q = setEnd ps st) \/ (i = e /\ en < end_ pe /\ q = setStart pe en)).
    { unfold perms1, getStart, getEnd in *. clear Hout Hshs Hshe He1 perms1.
      pose proof (lookup_lt_Some _ _ _ Hps). pose proof (lookup_lt_Some _ _ _ Hpe).
      destruct (start ps <? st) eqn:?, (en <? end_ pe) eqn:?; zbool;
      (destruct (_ <=? _)%nat eqn:Hle; injection Hr as <-;
       [apply Nat.leb_le in Hle; rewrite elem_of_erase_range_iff in Hq by lia; destruct Hq as (i & Hi & Hq)
       |apply Nat.leb_gt in Hle; apply list_elem_of_lookup in Hq as (i & Hq)]); exists i;
      destruct (decide (i = s)), (decide (i = e)); subst; try lia;
      rewrite ?list_lookup_insert_ne, ?list_lookup_insert_eq in Hq by (rewrite ?length_insert; lia);
      first [right; right; injection Hq as <-; done|right; left; injection Hq as <-; done|left; split; [lia|done]]. }
    destruct Hq' as (i & [[Hi Hq']|[(-> & ? & ->)|(-> & ? & ->)]]).
    + left. split; [by eapply list_elem_of_lookup_2|by eapply Hout].
    + right. exists ps. repeat (split; [done|]). cbn. naive_solver.
    + right. exists pe. repeat (split; [done|]). cbn. naive_solver.
Qed.

(** A revocation takes no mutex of a permission. *)
Lemma revokeRange_lockable st en l l' b : revokeRange st en l = Ret l' -> lockable b l -> lockable b l'.
Proof.
  intros Hr Hl Hb. specialize (Hl Hb). rewrite Forall_forall in Hl |- *. intros q Hq.
  destruct (revokeRange_elem st en l l' q Hr Hq) as [[Hin _]|(p & Hin & _ & _ & [_ Hp] & _)]; [by apply Hl|].
  specialize (Hl p Hin). destruct (permitLock q); [|done]. by rewrite Hp in Hl.
Qed.

Lemma revokeRange_total st en l : exists l', revokeRange st en l = Ret l'.
Proof.
  unfold revokeRange.
  destruct (revokeSpan st en l) as [(-> & _)|(s & e & ps & pe & -> & -> & Hse & Hps & Hpe & _)]; [eauto|].
  destruct (Nat.eqb_spec s e) as [->|Hne]; rewrite Hps; cbn; [eauto|].
  set (perms1 := if _ : bool then _ else l).
  assert (perms1 !! e = Some pe) as ->.
  { unfold perms1. case_match; [|done]. by rewrite list_lookup_insert_ne by lia. }
  cbn. case_match; eauto.
Qed.

(** After a revocation nobody holds a byte of the range through this vector, and
    nothing is gained. This holds for every vector, sorted or not. *)
Lemma revokeRange_upper st en l l' w b :
  is_u32 st -> is_u32 en -> bounded l ->
  revokeRange st en l = Ret l' -> holds l' w b -> holds l w b /\ ~ (st <= b < en).
Proof.
  intros Hst Hen Hl Hr (q & Hq & Hg).
  destruct (revokeRange_elem _ _ _ _ _ Hr Hq) as [[Hin Hsh]|(p & Hin & Hsh & Hw & _ & Hcase)].
  - split; [by exists q|]. intros Hb. rewrite (grants_isShared q w b) in Hsh; done.
  - destruct (bounded_elem l p Hl Hin) as [Hp1 Hp2].
    rewrite !u32_id in Hcase by done. apply isShared_true in Hsh.
    destruct Hg as [Hg1 Hg2]. split; [|lia].
    exists p. split; [done|]. split; [lia|]. by rewrite <- Hw.
Qed.

Lemma revokeRange_Pvec (P : Z -> Prop) st en l l' :
  P st -> P en -> is_u32 st -> is_u32 en -> bounded l ->
  Forall (fun p => P (start p) /\ P (end_ p)) l ->
  revokeRange st en l = Ret l' -> Forall (fun p => P (start p) /\ P (end_ p)) l'.
Proof.
  intros Ps Pe Hst Hen Hb Hl Hr. rewrite Forall_forall in Hl. apply Forall_forall. intros q Hq.
  destruct (revokeRange_elem _ _ _ _ _ Hr Hq) as [[Hin Hsh]|(p & Hin & Hsh & Hw & _ & Hcase)]; [auto|].
  destruct (bounded_elem l p Hb Hin) as [Hp1 Hp2]. rewrite !u32_id in Hcase by done.
  destruct (Hl p Hin). naive_solver congruence.
Qed.

(** ** Revocation is exact on sorted vectors *)

(** Reference definition: cut the range out of every permission. *)
Definition cut (st en : Z) (p : Permission) : list Permission :=
  if isShared p st en
  then (if start p <? st then [setEnd p st] else []) ++ (if en <? end_ p then [setStart p en] else [])
  else [p].

Lemma sorted_from_weaken lo lo' l : lo' <= lo -> sorted_from lo l -> sorted_from lo' l.
Proof. destruct l; cbn; [done|]. intros ? (? & ? & ?). repeat split; [lia|done..]. Qed.

Lemma sorted_from_app lo l1 l2 :
  sorted_from lo (l1 ++ l2) ->
  sorted_from lo l1 /\ (forall p q, p ∈ l1 -> q ∈ l2 -> end_ p <= start q) /\ sorted_from lo l2.
Proof.
  revert lo. induction l1 as [|p l1 IH]; intros lo; cbn.
  { intros H. repeat split; [|done]. intros ?? []%not_elem_of_nil. }
  intros (H1 & H2 & (H3 & H4 & H5)%IH). repeat split; [done..| |].
  - intros p' q [->|Hp]%elem_of_cons Hq; [|by apply H4]. clear -H5 Hq.
    apply list_elem_of_In, in_split in Hq as (a & c & ->).
    revert H5. generalize (end_ p). induction a as [|x a IH]; intros lo; cbn; [tauto|].
    intros (? & ? & ?%IH). lia.
  - eapply sorted_from_weaken; [|exact H5]. lia.
Qed.

Lemma sorted_from_elem lo l p : sorted_from lo l -> p ∈ l -> lo <= start p < end_ p.
Proof.
  revert lo. induction l as [|q l IH]; intros lo; cbn; [by intros _ []%not_elem_of_nil|].
  intros (H1 & H2 & H3) [->|Hp]%elem_of_cons; [lia|]. specialize (IH _ H3 Hp). lia.
Qed.

Lemma flat_map_cut_id st en l :
  (forall p, p ∈ l -> isShared p st en = false) -> flat_map (cut st en) l = l.
Proof.
  induction l as [|p l IH]; intros H; cbn; [done|]. unfold cut at 1.
  rewrite (H p) by constructor. cbn. f_equal. apply IH. intros q Hq. apply H. by constructor.
Qed.

(** A permission inside the range disappears. *)
Lemma flat_map_cut_nil st en l :
  (forall p, p ∈ l -> st <= start p < end_ p /\ end_ p <= en) -> flat_map (cut st en) l = [].
Proof.
  induction l as [|p l IH]; intros H; cbn; [done|]. destruct (H p) as [Hp1 Hp2]; [by constructor|].
  unfold cut at 1. rewrite (proj2 (isShared_true p st en)) by lia.
  rewrite (proj2 (Z.ltb_ge _ _)), (proj2 (Z.ltb_ge en _)) by lia. cbn.
  apply IH. intros q Hq. apply H. by constructor.
Qed.

(** The vector that [revokeRange] computes with two shared ends. *)
Lemma revokeRange_two st en l1 ps m pe l2 :
  (forall p, p ∈ l1 \/ p ∈ l2 -> isShared p st en = false) ->
  isShared ps st en = true -> isShared pe st en = true ->
  revokeRange st en (l1 ++ ps :: m ++ pe :: l2) =
    Ret (l1 ++ (if start ps <? st then [setEnd ps st] else []) ++
         (if en <? end_ pe then [setStart pe en] else []) ++ l2).
Proof.
  intros Hout Hshs Hshe. unfold revokeRange.
  assert (Hassoc : forall x y, l1 ++ x :: m ++ y :: l2 = (l1 ++ x :: m) ++ y :: l2).
  { intros. by rewrite <- app_assoc. }
  rewrite find_from_middle by auto. rewrite (Hassoc ps pe), find_last_middle by auto.
  rewrite <- (Hassoc ps pe). cbn [Nat.add]. set (s := length l1). set (e := length (l1 ++ ps :: m)).
  assert (He : e = S (s + length m)) by (unfold e; rewrite length_app; cbn; fold s; lia).
  destruct (Nat.eqb_spec s e) as [Heq|_]; [lia|].
  rewrite list_lookup_middle by done. cbn [deref mbind outcome_bind].
  rewrite insert_middle by done. unfold getStart, getEnd.
  assert (Hget : forall x, (l1 ++ x :: m ++ pe :: l2) !! e = Some pe).
  { intros x. rewrite Hassoc. apply list_lookup_middle. rewrite length_app; cbn. fold s. lia. }
  assert (Hins : forall x, <[e := setStart pe en]> (l1 ++ x :: m ++ pe :: l2) = l1 ++ x :: m ++ setStart pe en :: l2).
  { intros x. rewrite !Hassoc. apply insert_middle. rewrite length_app; cbn. fold s. lia. }
  destruct (start ps <? st); rewrite Hget; cbn [deref mbind outcome_bind]; destruct (en <? end_ pe); cbn [app].
  - rewrite Hins. pose proof (erase_range_if (S s) (e - 1)%nat (l1 ++ [setEnd ps st]) m (setStart pe en :: l2)) as H.
    rewrite <- !app_assoc in H. apply H; [rewrite length_app; cbn; fold s; lia|lia].
  - pose proof (erase_range_if (S s) e (l1 ++ [setEnd ps st]) (m ++ [pe]) l2) as H.
    rewrite <- !app_assoc in H. apply H; rewrite length_app; cbn; fold s; lia.
  - rewrite Hins. apply (erase_range_if s (e - 1)%nat l1 (ps :: m)); [done|cbn; lia].
  - pose proof (erase_range_if s e l1 (ps :: m ++ [pe]) l2) as H.
    cbn in H. rewrite <- !app_assoc in H. apply H; [done|rewrite length_app; cbn; lia].
Qed.

(** The vector that [revokeRange] computes with one shared permission. *)
Lemma revokeRange_one st en l1 p l2 :
  (forall q, q ∈ l1 \/ q ∈ l2 -> isShared q st en = false) -> isShared p st en = true ->
  revokeRange st en (l1 ++ p :: l2) =
    Ret (l1 ++ (if start p <? st then [newPermission (start p) st (write p)] else []) ++
         (if en <? end_ p then [newPermission en (end_ p) (write p)] else []) ++ l2).
Proof.
  intros Hout Hsh. unfold revokeRange. rewrite find_from_middle, find_last_middle by auto.
  cbn [Nat.add]. rewrite Nat.eqb_refl, list_lookup_middle by done. cbn [deref mbind outcome_bind].
  rewrite (erase_range_app _ _ l1 [p] l2) by (cbn; lia). unfold getStart, getEnd, isWrite.
  destruct (start p <? st), (en <? end_ p); cbn; by rewrite ?insert_at_app.
Qed.

(** On a sorted vector [revokeRange] computes the tokens of the reference
    definition. *)
Lemma revokeRange_cut st en l :
  is_u32 st -> is_u32 en -> wf l -> st <= en ->
  exists l', revokeRange st en l = Ret l' /\ same_tokens l' (flat_map (cut st en) l).
Proof.
  intros Hst Hen [Hb Hs] Hle. unfold same_tokens.
  destruct (revokeSpan st en l) as [(Hf & _ & Hno)|(s & e & ps & pe & _ & _ & Hse & Hps & Hpe & Hshs & Hshe & Hout)].
  { exists l. unfold revokeRange. by rewrite Hf, (flat_map_cut_id st en l Hno). }
  destruct (decide (s = e)) as [<-|Hne].
  - simplify_eq. apply split_one in Hps as (l1 & l2 & -> & <-).
    assert (Hun : forall q, q ∈ l1 \/ q ∈ l2 -> isShared q st en = false).
    { apply (outside_middle _ l1 [ps] l2). intros i q Hi. apply Hout. cbn in Hi. lia. }
    eexists. split; [by apply revokeRange_one|]. rewrite flat_map_app. cbn.
    rewrite (flat_map_cut_id st en l1), (flat_map_cut_id st en l2) by auto. unfold cut. rewrite Hshs, <- app_assoc, !fmap_app.
    destruct (bounded_elem _ ps Hb) as [Hp1 Hp2]; [set_solver|].
    f_equal. f_equal; [|f_equal]; case_match; cbn; unfold token; cbn; by rewrite ?u32_id.
  - assert (Hlt : (s < e)%nat) by lia.
    destruct (split_two s e ps pe l Hps Hpe Hlt) as (l1 & m & l2 & -> & <- & ->).
    assert (Hun : forall q, q ∈ l1 \/ q ∈ l2 -> isShared q st en = false).
    { apply (outside_middle _ l1 (ps :: m ++ [pe]) l2). intros i q Hi. cbn in Hi |- *.
      rewrite <- app_assoc. apply Hout. rewrite length_app in Hi. cbn in Hi. lia. }
    eexists. split; [by apply revokeRange_two|].
    apply isShared_true in Hshs as Hs1. apply isShared_true in Hshe as He1.
    apply sorted_from_app in Hs as (_ & _ & Hs). cbn in Hs. destruct Hs as (_ & Hps' & Hs).
    pose proof (sorted_from_app _ _ _ Hs) as (Hm & Hmp & Hp). cbn in Hp.
    rewrite flat_map_app. cbn. rewrite flat_map_app. cbn.
    rewrite (flat_map_cut_id st en l1), (flat_map_cut_id st en l2) by auto.
    rewrite (flat_map_cut_nil st en m).
    + unfold cut. rewrite Hshs, Hshe.
      rewrite (proj2 (Z.ltb_ge en (end_ ps))), (proj2 (Z.ltb_ge (start pe) st)) by lia.
      by rewrite app_nil_r.
    + intros q Hq. pose proof (sorted_from_elem _ _ _ Hm Hq).
      assert (end_ q <= start pe) by (apply Hmp; [done|constructor]). lia.
Qed.

(** What the reference definition means. *)
Lemma holds_flat_map_cut st en l w b :
  st <= en -> holds (flat_map (cut st en) l) w b <-> holds l w b /\ ~ (st <= b < en).
Proof.
  intros Hle. induction l as [|p l IH]; cbn.
  { pose proof (holds_nil w b). tauto. }
  rewrite holds_app, holds_cons, IH.
  assert (Hp : holds (cut st en p) w b <-> grants p w b /\ ~ (st <= b < en)); [|tauto].
  unfold cut. destruct (isShared p st en) eqn:Hsh.
  - apply isShared_true in Hsh. rewrite holds_app.
    assert (H1 : holds (if start p <? st then [setEnd p st] else []) w b <-> grants p w b /\ b < st).
    { destruct (start p <? st) eqn:?; zbool; rewrite ?holds_cons; pose proof (holds_nil w b);
        unfold grants in *; cbn; intuition lia. }
    assert (H2 : holds (if en <? end_ p then [setStart p en] else []) w b <-> grants p w b /\ en <= b).
    { destruct (en <? end_ p) eqn:?; zbool; rewrite ?holds_cons; pose proof (holds_nil w b);
        unfold grants in *; cbn; intuition lia. }
    rewrite H1, H2. split; [intros [[? ?]|[? ?]]; (split; [done|lia])|].
    intros [? ?]. destruct (decide (b < st)); [left|right]; (split; [done|lia]).
  - apply isShared_false in Hsh. rewrite holds_cons. pose proof (holds_nil w b).
    unfold grants in *. intuition lia.
Qed.

Lemma sorted_from_flat_map_cut st en lo l :
  st <= en -> sorted_from lo l -> sorted_from lo (flat_map (cut st en) l).
Proof.
  intros Hle. revert lo. induction l as [|p l IH]; intros lo; cbn; [done|].
  intros (H1 & H2 & H3%IH). unfold cut. destruct (isShared p st en) eqn:Hsh.
  - apply isShared_true in Hsh. destruct (start p <? st) eqn:?, (en <? end_ p) eqn:?; zbool; cbn.
    + repeat split; [lia..|done].
    + repeat split; [lia..|]. by eapply sorted_from_weaken; [|exact H3]; lia.
    + repeat split; [lia..|done].
    + by eapply sorted_from_weaken; [|exact H3]; lia.
  - cbn. auto.
Qed.

Lemma same_tokens_sorted lo l1 l2 : same_tokens l1 l2 -> sorted_from lo l1 -> sorted_from lo l2.
Proof.
  unfold same_tokens. revert lo l2. induction l1 as [|p l1 IH]; intros lo [|q l2]; cbn; try done.
  intros [= E1 E2 _ E3] (H1 & H2 & H3). rewrite E1, E2 in *. repeat split; [done..|by apply IH].
Qed.

Lemma same_tokens_ranges (P : Z -> Prop) l1 l2 :
  same_tokens l1 l2 -> Forall (fun p => P (start p) /\ P (end_ p)) l1 -> Forall (fun p => P (start p) /\ P (end_ p)) l2.
Proof.
  unfold same_tokens. revert l2. induction l1 as [|p l1 IH]; intros [|q l2]; [done|done|done|]. intros [= E1 E2 _ E3] [Hp Hl]%Forall_cons.
  constructor; [by rewrite <- E1, <- E2|by apply IH].
Qed.

(** Revocation on a sorted vector: it stays sorted, and its owner holds exactly
    the bytes outside the range that it held before. *)
Lemma revokeRange_exact st en l :
  is_u32 st -> is_u32 en -> wf l -> st <= en ->
  exists l', revokeRange st en l = Ret l' /\ wf l' /\
    forall w b, holds l' w b <-> holds l w b /\ ~ (st <= b < en).
Proof.
  intros Hst Hen Hwf Hle. destruct (revokeRange_cut st en l) as (l' & Hr & Heq); [done..|].
  destruct Hwf as [Hb Hs]. exists l'. split; [done|]. split.
  - split; [by eapply (revokeRange_Pvec is_u32 st en l)|].
    eapply same_tokens_sorted; [symmetry; exact Heq|]. by apply sorted_from_flat_map_cut.
  - intros w b. rewrite <- (holds_flat_map_cut st en l w b Hle).
    split; apply same_tokens_holds; [done|by symmetry].
Qed.

(** The range is cut out of a vector. *)
Definition cutVector (st en : Z) (l : list Permission) : list Permission :=
  match revokeRange st en l with Ret l' => l' | _ => l end.

Lemma cutVector_Ret st en l l' : revokeRange st en l = Ret l' -> cutVector st en l = l'.
Proof. unfold cutVector. by intros ->. Qed.

(** On a sorted vector the permissions that the range does not overlap stay, with
    the state of their locks. *)
Lemma revokeRange_keeps st en l l' p :
  sorted_from 0 l -> revokeRange st en l = Ret l' -> p ∈ l -> isShared p st en = false -> p ∈ l'.
Proof.
  intros Hs Hr Hp Hsh.
  destruct (revokeSpan st en l) as [(Hf & _ & _)|(s & e & ps & pe & _ & _ & Hse & Hps & Hpe & Hshs & Hshe & Hout)].
  { unfold revokeRange in Hr. rewrite Hf in Hr. by injection Hr as <-. }
  destruct (decide (s = e)) as [<-|Hne].
  - simplify_eq. apply split_one in Hps as (l1 & l2 & -> & <-).
    rewrite revokeRange_one in Hr; [|apply (outside_middle _ l1 [ps] l2); intros i q Hi; apply Hout; cbn in Hi; lia|done].
    injection Hr as <-. rewrite !elem_of_app. rewrite elem_of_app, elem_of_cons in Hp. destruct Hp as [?|[->|?]]; [by left|congruence|auto].
  - destruct (split_two s e ps pe l Hps Hpe ltac:(lia)) as (l1 & m & l2 & -> & <- & ->).
    rewrite revokeRange_two in Hr; [|apply (outside_middle _ l1 (ps :: m ++ [pe]) l2)|done..].
    2: { intros i q Hi. cbn in Hi |- *. rewrite <- app_assoc. apply Hout. rewrite length_app in Hi. cbn in Hi. lia. }
    injection Hr as <-. rewrite !elem_of_app. rewrite elem_of_app, elem_of_cons, elem_of_app, elem_of_cons in Hp.
    destruct Hp as [?|[->|[Hm|[->|?]]]]; [by left|congruence| |congruence|auto]. exfalso.
    apply isShared_true in Hshs, Hshe. apply isShared_false in Hsh.
    apply sorted_from_app in Hs as (_ & _ & Hs). cbn in Hs. destruct Hs as (_ & _ & Hs).
    pose proof (sorted_from_app _ _ _ Hs) as (Hsm & Hmp & _).
    pose proof (sorted_from_elem _ _ _ Hsm Hm). assert (end_ p <= start pe) by (apply Hmp; [done|constructor]). lia.
Qed.

(** ** File::hasPermission decides the access relation *)

Lemma contiguous_covers p l b q :
  contiguous (p :: l) = true -> last (p :: l) = Some q -> start p <= b < end_ q ->
  exists x, x ∈ p :: l /\ start x <= b < end_ x.
Proof.
  revert p. induction l as [|r l IH]; intros p.
  { intros _ [= ->] ?. exists q. split; [constructor|done]. }
  intros Hc Hl Hb. cbn in Hc. apply andb_true_iff in Hc as [Hpr Hc]. zbool. unfold getEnd, getStart in Hpr.
  destruct (decide (b < end_ p)) as [|Hge]; [exists p; split; [constructor|lia]|].
  destruct (IH r Hc Hl) as (x & Hx & Hbx); [lia|]. exists x. split; [by constructor|done].
Qed.

Lemma hasSpanStart_lt st l s : hasSpanStart st l = Some s -> l <> [] -> (s < length l)%nat.
Proof.
  unfold hasSpanStart. intros H Hl. assert (length l <> 0)%nat by (by intros ?%nil_length_inv).
  destruct (find_from _ 0 l) as [[|i]|] eqn:Hf; simplify_eq; [|lia].
  apply find_from_Some in Hf as (j & a & Hj0 & Hj & _). apply lookup_lt_Some in Hj. lia.
Qed.

Lemma hasSpanEnd_ge en l s : (s < length l)%nat -> (s <= hasSpanEnd en s l < length l)%nat.
Proof.
  intros Hs. unfold hasSpanEnd. destruct (find_from _ s _) as [j|] eqn:Hj; [|lia].
  apply find_from_Some in Hj as (k & a & -> & Hk & _). apply lookup_lt_Some in Hk.
  rewrite length_drop in Hk. lia.
Qed.

(** The span [s..e] that makes [hasPermission] true. *)
Lemma hasPermission_true st en write l :
  hasPermission st en write l = true <->
  l <> [] /\ exists s ps pe, hasSpanStart st l = Some s /\ l !! s = Some ps /\ l !! hasSpanEnd en s l = Some pe /\
    start ps <= st /\ en <= end_ pe /\ contiguous (slice s (hasSpanEnd en s l) l) = true /\
    (write = true -> forallb isWrite (slice s (hasSpanEnd en s l) l) = true).
Proof.
  unfold hasPermission. destruct l as [|p l]; [cbn; naive_solver|]. set (m := p :: l). cbn [length Nat.eqb].
  destruct (hasSpanStart st m) as [s|] eqn:Hs; [|naive_solver].
  destruct (m !! s) as [ps|] eqn:Hps; [|naive_solver].
  destruct (m !! hasSpanEnd en s m) as [pe|] eqn:Hpe; [|naive_solver].
  unfold getStart, getEnd. split.
  - intros H. split; [done|]. exists s, ps, pe. destruct (st <? start ps) eqn:?; [done|].
    destruct (end_ pe <? en) eqn:?; [done|]. destruct (write && _) eqn:Hw; [done|]. zbool.
    repeat split; try done. intros ->. by apply negb_false_iff.
  - intros (_ & s' & ps' & pe' & Hs' & Hps' & Hpe' & H1 & H2 & H3 & H4). simplify_eq.
    rewrite (proj2 (Z.ltb_ge _ _)), (proj2 (Z.ltb_ge (end_ _) _)) by done.
    destruct write; [|done]. by rewrite H4.
Qed.

(** A positive answer is right on every vector. *)
Lemma hasPermission_sound st en write l w b :
  hasPermission st en write l = true -> requested st en write w b -> holds l w b.
Proof.
  intros (Hl & s & ps & pe & Hs & Hps & Hpe & Hst & Hen & Hc & Hw)%hasPermission_true [Hb Hm].
  pose proof (hasSpanEnd_ge en l s (hasSpanStart_lt st l s Hs Hl)) as He.
  set (e := hasSpanEnd en s l) in *.
  destruct (slice s e l) as [|q r] eqn:Hsl.
  { pose proof (length_slice s e l). rewrite Hsl in *. cbn in *. lia. }
  assert (slice s e l !! 0%nat = Some ps) as Hq by (apply lookup_slice; rewrite Nat.add_0_r; split; [lia|done]).
  assert (last (slice s e l) = Some pe) as Hlast.
  { rewrite last_lookup, length_slice by lia. apply lookup_slice.
    replace (s + pred (S e - s))%nat with e by lia. done. }
  rewrite Hsl in Hq, Hlast. injection Hq as ->.
  destruct (contiguous_covers ps r b pe) as (x & Hx & Hbx); [done..|lia|].
  rewrite <- Hsl in Hx, Hw. exists x. split.
  - apply elem_of_slice in Hx as (i & _ & Hi). by eapply list_elem_of_lookup_2.
  - split; [done|]. intros ->. specialize (Hw (Hm eq_refl)). rewrite forallb_forall in Hw.
    apply (Hw x). by apply list_elem_of_In.
Qed.

Lemma sorted_lookup lo l i j p q :
  sorted_from lo l -> l !! i = Some p -> l !! j = Some q -> (i < j)%nat -> end_ p <= start q.
Proof.
  intros Hs Hp Hq Hlt. destruct (split_two i j p q l Hp Hq Hlt) as (l1 & m & l2 & -> & _ & _).
  apply sorted_from_app in Hs as (_ & _ & Hs). cbn in Hs. destruct Hs as (_ & _ & Hs).
  apply sorted_from_app in Hs as (_ & _ & Hs). cbn in Hs. lia.
Qed.

Lemma sorted_nonempty lo l i p : sorted_from lo l -> l !! i = Some p -> start p < end_ p.
Proof. intros Hs Hp%list_elem_of_lookup_2. pose proof (sorted_from_elem _ _ _ Hs Hp). lia. Qed.

(** Only one permission of a sorted vector grants a byte. *)
Lemma sorted_unique lo l i j p q b :
  sorted_from lo l -> l !! i = Some p -> l !! j = Some q ->
  start p <= b < end_ p -> start q <= b < end_ q -> i = j.
Proof.
  intros Hs Hp Hq Hbp Hbq. destruct (decide (i < j)%nat), (decide (j < i)%nat); try lia.
  - pose proof (sorted_lookup lo l i j p q Hs Hp Hq). lia.
  - pose proof (sorted_lookup lo l j i q p Hs Hq Hp). lia.
Qed.

Lemma contiguous_lookup l :
  (forall i p q, l !! i = Some p -> l !! S i = Some q -> end_ p = start q) -> contiguous l = true.
Proof.
  induction l as [|p [|q l] IH]; intros H; [done..|].
  change ((getEnd p =? getStart q) && contiguous (q :: l) = true).
  apply andb_true_iff. split; [apply Z.eqb_eq, (H 0%nat); done|].
  apply IH. intros i p' q' H1 H2. by apply (H (S i)).
Qed.

Section HasComplete.
Context (st en : Z) (write : bool) (l : list Permission).
Hypothesis Hwf : sorted_from 0 l.
Hypothesis Hne : st < en.
Hypothesis Hall : forall b, st <= b < en -> holds l write b.

(** The permission at index [i] of the vector that grants byte [b]. *)
Lemma Hall_lookup b :
  st <= b < en -> exists i p, l !! i = Some p /\ start p <= b < end_ p /\ (write = true -> isWrite p = true).
Proof.
  intros (p & (i & Hi)%list_elem_of_lookup & Hb & Hw)%Hall. exists i, p. auto.
Qed.

Lemma hasSpanStart_complete s ps :
  l !! s = Some ps -> start ps <= st < end_ ps -> hasSpanStart st l = Some s.
Proof.
  intros Hps Hst. unfold hasSpanStart. destruct (find_from _ 0 l) as [i|] eqn:Hf.
  - apply find_from_Some in Hf as (j & a & -> & Hj & Ha & Hlt). cbn. unfold getStart in *. zbool.
    assert (s < j)%nat.
    { destruct (decide (j <= s)%nat); [|lia]. destruct (decide (j = s)); [simplify_eq; lia|].
      pose proof (sorted_lookup 0 l j s a ps Hwf Hj Hps). pose proof (sorted_nonempty _ _ _ _ Hwf Hj). lia. }
    destruct j as [|j]; [lia|]. f_equal. destruct (decide (s < j)%nat); [|lia].
    destruct (lookup_lt_is_Some_2 l j) as [q Hq]; [apply lookup_lt_Some in Hj; lia|].
    specialize (Hlt j q ltac:(lia) Hq). zbool.
    pose proof (sorted_lookup 0 l s j ps q Hwf Hps Hq). lia.
  - pose proof (proj1 (find_from_None _ _ _) Hf) as Hn. cbn in Hn. f_equal.
    destruct (decide (S s < length l)%nat) as [Hlt|]; [|apply lookup_lt_Some in Hps; lia].
    destruct (lookup_lt_is_Some_2 l (S s) Hlt) as [q Hq].
    specialize (Hn q (list_elem_of_lookup_2 _ _ _ Hq)). unfold getStart in Hn. zbool.
    pose proof (sorted_lookup 0 l s (S s) ps q Hwf Hps Hq). lia.
Qed.

Lemma hasSpanEnd_complete s e pe :
  (s <= e)%nat -> l !! e = Some pe -> start pe < en <= end_ pe -> hasSpanEnd en s l = e.
Proof.
  intros Hse Hpe Hen. unfold hasSpanEnd. destruct (find_from _ s _) as [i|] eqn:Hf.
  - apply find_from_Some in Hf as (j & a & -> & Hj & Ha & Hlt). rewrite lookup_drop in Hj.
    unfold getEnd in *. zbool. destruct (decide (s + j < e)%nat).
    + pose proof (sorted_lookup 0 l _ _ a pe Hwf Hj Hpe). lia.
    + destruct (decide (s + j = e)%nat); [done|]. exfalso. specialize (Hlt (e - s)%nat pe).
      rewrite lookup_drop in Hlt. replace (s + (e - s))%nat with e in Hlt by lia.
      specialize (Hlt ltac:(lia) Hpe). zbool. lia.
  - exfalso. pose proof (proj1 (find_from_None _ _ _) Hf pe) as Hn. unfold getEnd in Hn.
    rewrite (proj2 (Z.leb_le _ _)) in Hn by lia. specialize (Hn ltac:(apply list_elem_of_lookup;
      exists (e - s)%nat; rewrite lookup_drop; by replace (s + (e - s))%nat with e by lia)). done.
Qed.

(** On a sorted vector a range that is completely held is found. *)
Lemma hasPermission_complete : hasPermission st en write l = true.
Proof.
  destruct (Hall_lookup st) as (s & ps & Hps & Hbs & _); [lia|].
  destruct (Hall_lookup (en - 1)) as (e & pe & Hpe & Hbe & _); [lia|].
  assert (Hse : (s <= e)%nat).
  { destruct (decide (e < s)%nat) as [Hlt|]; [|lia].
    pose proof (sorted_lookup 0 l e s pe ps Hwf Hpe Hps Hlt). lia. }
  apply hasPermission_true. split; [by intros ->|]. exists s, ps, pe.
  rewrite (hasSpanStart_complete s ps), (hasSpanEnd_complete s e pe) by (done || lia).
  assert (Hmid : forall i p, (s <= i <= e)%nat -> l !! i = Some p -> st < end_ p /\ start p < en).
  { intros i p Hi Hp. split.
    - destruct (decide (i = s)); [simplify_eq; lia|].
      pose proof (sorted_lookup 0 l s i ps p Hwf Hps Hp). pose proof (sorted_nonempty _ _ _ _ Hwf Hp). lia.
    - destruct (decide (i = e)); [simplify_eq; lia|].
      pose proof (sorted_lookup 0 l i e p pe Hwf Hp Hpe). pose proof (sorted_nonempty _ _ _ _ Hwf Hp). lia. }
  repeat split; [done..|lia|lia| |].
  - apply contiguous_lookup. intros i p q (Hi & Hp)%lookup_slice (Hi' & Hq)%lookup_slice.
    replace (s + S i)%nat with (S (s + i)) in * by lia.
    destruct (Hmid (s + i)%nat p ltac:(lia) Hp) as [Hp1 _].
    destruct (Hmid (S (s + i)) q ltac:(lia) Hq) as [_ Hq2].
    pose proof (sorted_lookup 0 l _ _ p q Hwf Hp Hq ltac:(lia)).
    destruct (Hall_lookup (end_ p)) as (j & x & Hx & Hbx & _); [lia|].
    destruct (decide (j <= s + i)%nat).
    + destruct (decide (j = s + i)%nat); [simplify_eq; lia|].
      pose proof (sorted_lookup 0 l j (s + i) x p Hwf Hx Hp).
      pose proof (sorted_nonempty _ _ _ _ Hwf Hp). lia.
    + destruct (decide (j = S (s + i))%nat); [simplify_eq; lia|].
      pose proof (sorted_lookup 0 l _ j q x Hwf Hq Hx). pose proof (sorted_nonempty _ _ _ _ Hwf Hq). lia.
  - intros Hw. apply forallb_forall. intros p Hp%list_elem_of_In%elem_of_slice.
    destruct Hp as (i & Hi & Hp). destruct (Hmid i p Hi Hp) as [H1 H2].
    pose proof (sorted_nonempty _ _ _ _ Hwf Hp).
    destruct (Hall_lookup (Z.max st (start p))) as (j & x & Hx & Hbx & Hwx); [lia|].
    assert (i = j) by (eapply sorted_unique; [done|done|exact Hx| |exact Hbx]; lia).
    simplify_eq. auto.
Qed.

End HasComplete.

(** ** The locks do not influence the tokens *)

(** A permission with its lock fields reset. *)
Definition strip (p : Permission) : Permission := mkPermission (start p) (end_ p) (write p) false false [].

Lemma same_tokens_strip l1 l2 : same_tokens l1 l2 <-> strip <$> l1 = strip <$> l2.
Proof.
  unfold same_tokens. revert l2. induction l1 as [|p l1 IH]; intros [|q l2]; cbn; try done.
  unfold token, strip in *. split; intros [= -> -> -> H]; apply (f_equal2 cons); (done || by apply IH).
Qed.

#[export] Instance same_tokens_equivalence : Equivalence same_tokens.
Proof. unfold same_tokens. split; [done|by intros ???|by intros ??? -> ->]. Qed.

Lemma maybeLock_strip b p p' : maybeLock b p = Ret p' -> strip p' = strip p.
Proof. intros (H1 & H2 & H3)%maybeLock_fields. unfold strip. by rewrite H1, H2, H3. Qed.

Lemma fmap_insertOpt s o l : strip <$> insertOpt s o l = insertOpt s (strip <$> o) (strip <$> l).
Proof. destruct o; cbn; [apply fmap_insert_at|done]. Qed.

Lemma sharedSpan_strip st en l : sharedSpan st en (strip <$> l) = sharedSpan st en l.
Proof.
  unfold sharedSpan. rewrite find_from_fmap.
  change (fun a => isInclusiveShared (strip a) st en) with (fun a => isInclusiveShared a st en).
  destruct (find_from _ 0 l) as [s|]; [|done]. by rewrite <- fmap_drop, find_from_fmap.
Qed.

Lemma addReadLoop_strip b s wps ne m r :
  addReadLoop b s wps ne m = Ret r ->
  addReadLoop false s (strip <$> wps) ne (strip <$> m) = Ret (r.1, strip <$> r.2).
Proof.
  revert ne m. induction wps as [|wp wps IH]; intros ne m; cbn; [by intros [= <-]|].
  intros H. inv_ret. apply IH in H. rewrite <- H.
  rewrite !fmap_insert_at. rewrite (maybeLock_strip _ _ _ E), (maybeLock_strip _ _ _ E0). done.
Qed.

Lemma addReadLast_strip b s ns ne m m' :
  addReadLast b s ns ne m = Ret m' -> addReadLast false s ns ne (strip <$> m) = Ret (strip <$> m').
Proof.
  unfold addReadLast. destruct (ns <? ne); intros H; inv_ret; subst; [|done].
  cbn. by rewrite fmap_insert_at, (maybeLock_strip _ _ _ E).
Qed.

Lemma addPermission_strip st en w l b l' :
  addPermission st en w l b = Ret l' ->
  addPermission st en w (strip <$> l) false = Ret (strip <$> l').
Proof.
  unfold addPermission. rewrite sharedSpan_strip. destruct (sharedSpan st en l) as [[s e]|]; [destruct w|].
  - unfold addWrite. rewrite !list_lookup_fmap. destruct (l !! s) as [ps|], (l !! e) as [pe|]; try done.
    cbn [deref mbind outcome_bind fmap option_fmap option_map maybeLock].
    intros H. inv_ret. subst. rewrite fmap_insertOpt, fmap_insert_at, fmap_insertOpt, fmap_erase_range.
    rewrite (maybeLock_strip _ _ _ E). unfold isWrite, getStart, getEnd. cbn.
    destruct (negb (write ps) && _), (negb (write pe) && _); done.
  - unfold addRead. rewrite !list_lookup_fmap. destruct (l !! s) as [ps|], (l !! e) as [pe|]; try done.
    cbn [deref mbind outcome_bind fmap option_fmap option_map].
    rewrite <- fmap_slice, filter_fmap, <- fmap_reverse, <- fmap_erase_range.
    change (fun a => isWrite (strip a)) with isWrite.
    destruct (reverse _) as [|wl rest]; cbn [fmap list_fmap].
    + intros H. inv_ret. subst. cbn. by rewrite fmap_insert_at, (maybeLock_strip _ _ _ E).
    + change (getStart (strip wl)) with (getStart wl). change (getEnd (strip wl)) with (getEnd wl).
      change (isWrite (strip ps)) with (isWrite ps). change (getStart (strip ps)) with (getStart ps).
      change (isWrite (strip pe)) with (isWrite pe). change (getEnd (strip pe)) with (getEnd pe).
      destruct (_ && _ : bool) in |- *; intros H; inv_ret.
      * cbn [maybeLock mbind outcome_bind]. rewrite <- (maybeLock_strip _ _ _ E), <- fmap_insert_at.
        rewrite (addReadLoop_strip _ _ _ _ _ _ E0). cbn. by eapply addReadLast_strip.
      * change (strip wl :: _) with (strip <$> wl :: rest).
        rewrite (addReadLoop_strip _ _ _ _ _ _ E). cbn. by eapply addReadLast_strip.
  - unfold addUnshared. intros H. inv_ret. cbn [maybeLock mbind outcome_bind]. rewrite length_fmap, find_last_fmap.
    change (fun a => getEnd (strip a) <? st) with (fun a => getEnd a <? st).
    destruct (_ =? _)%nat; [|destruct (find_last _ l)]; inv_ret; subst.
    + rewrite fmap_app. cbn. by rewrite (maybeLock_strip _ _ _ E).
    + by rewrite fmap_insert_at, (maybeLock_strip _ _ _ E).
    + by rewrite fmap_insert_at, (maybeLock_strip _ _ _ E).
Qed.

Lemma revokeRange_strip st en l l' :
  revokeRange st en l = Ret l' -> revokeRange st en (strip <$> l) = Ret (strip <$> l').
Proof.
  unfold revokeRange. rewrite find_from_fmap, find_last_fmap.
  change (fun a => isShared (strip a) st en) with (fun a => isShared a st en).
  destruct (find_from _ 0 l) as [s|]; [|by intros [= <-]].
  destruct (find_last _ l) as [e|]; [|by intros [= <-]].
  rewrite !list_lookup_fmap. destruct (l !! s) as [ps|]; cbn [deref mbind outcome_bind fmap option_fmap option_map];
    [|by destruct (_ =? _)%nat].
  destruct (s =? e)%nat.
  - intros [= <-]. rewrite !fmap_insertOpt, fmap_erase_range. unfold getStart, getEnd, isWrite.
    cbn [strip start end_ write]. by destruct (start ps <? st), (en <? end_ ps).
  - change (getStart (strip ps)) with (getStart ps).
    change (setEnd (strip ps) st) with (strip (setEnd ps st)). rewrite <- list_fmap_insert.
    set (m := if getStart ps <? st then <[s:=setEnd ps st]> l else l).
    assert ((if getStart ps <? st then strip <$> <[s:=setEnd ps st]> l else strip <$> l) = strip <$> m) as ->
      by (unfold m; by destruct (getStart ps <? st)).
    rewrite list_lookup_fmap. destruct (m !! e) as [pe|]; [|done].
    cbn [deref mbind outcome_bind fmap option_fmap option_map].
    change (getEnd (strip pe)) with (getEnd pe). change (setStart (strip pe) en) with (strip (setStart pe en)).
    rewrite <- list_fmap_insert. destruct (en <? getEnd pe); (destruct (_ <=? _)%nat; intros [= <-]; by rewrite ?fmap_erase_range).
Qed.

(** Two parties that record the same tokens and perform the same operation still
    record the same tokens, whatever their locks. *)
Lemma addPermission_same_tokens st en w l1 b1 r1 l2 b2 r2 :
  same_tokens l1 l2 -> addPermission st en w l1 b1 = Ret r1 -> addPermission st en w l2 b2 = Ret r2 ->
  same_tokens r1 r2.
Proof. rewrite !same_tokens_strip. intros E H1%addPermission_strip H2%addPermission_strip. congruence. Qed.

Lemma revokeRange_same_tokens st en l1 r1 l2 r2 :
  same_tokens l1 l2 -> revokeRange st en l1 = Ret r1 -> revokeRange st en l2 = Ret r2 ->
  same_tokens r1 r2.
Proof. rewrite !same_tokens_strip. intros E H1%revokeRange_strip H2%revokeRange_strip. congruence. Qed.

Lemma hasPermission_strip st en w l : hasPermission st en w (strip <$> l) = hasPermission st en w l.
Proof.
  unfold hasPermission, hasSpanStart, hasSpanEnd. rewrite length_fmap, find_from_fmap.
  change (fun a => st <? getStart (strip a)) with (fun a => st <? getStart a).
  destruct (length l =? 0)%nat; [done|].
  destruct (match find_from _ 0 l with Some _ => _ | None => _ end) as [s|]; [|done].
  rewrite <- fmap_drop, find_from_fmap. change (fun a => en <=? getEnd (strip a)) with (fun a => en <=? getEnd a).
  set (e := match find_from _ s _ with Some _ => _ | None => _ end). rewrite !list_lookup_fmap.
  destruct (l !! s), (l !! e); [|done..]. cbn.
  assert (Hsl : slice s e (strip <$> l) = strip <$> slice s e l) by (unfold slice; by rewrite fmap_take, fmap_drop).
  assert (Hfa : forall m, forallb isWrite (strip <$> m) = forallb isWrite m) by (intros m; induction m as [|q m IH]; cbn; by rewrite ?IH).
  assert (Hco : forall m, contiguous (strip <$> m) = contiguous m).
  { intros m. induction m as [|q [|r m] IH]; [done..|]. cbn in *. by rewrite IH. }
  by rewrite Hsl, Hfa, Hco.
Qed.

Lemma hasPermission_same_tokens st en w l1 l2 : same_tokens l1 l2 -> hasPermission st en w l1 = hasPermission st en w l2.
Proof. intros E%same_tokens_strip. by rewrite <- hasPermission_strip, E, hasPermission_strip. Qed.

#[export] Instance holds_Proper : Proper (same_tokens ==> (=) ==> (=) ==> iff) holds.
Proof. intros l1 l2 E w ? <- b ? <-. split; apply same_tokens_holds; [done|by symmetry]. Qed.

(** With the mutex of the file: either some shared permission is locked and the
    thread waits, or the range is cut out of the vector as it is. *)
Lemma registerWaiters_count st en sem l :
  (registerWaiters st en sem l).2 = length (List.filter (fun p => isShared p st en && locked p) l).
Proof.
  induction l as [|p l IH]; [done|]. cbn. destruct (registerWaiters st en sem l) as [rest count].
  cbn in IH. unfold addWaitingSemaphore. destruct (isShared p st en), (locked p); cbn; congruence.
Qed.

Lemma registerWaiters_unlocked st en sem l :
  (registerWaiters st en sem l).2 = 0%nat -> (registerWaiters st en sem l).1 = l.
Proof.
  induction l as [|p l IH]; [done|]. cbn. destruct (registerWaiters st en sem l) as [rest count].
  cbn in IH. unfold addWaitingSemaphore. destruct (isShared p st en); [|cbn; intros; f_equal; auto].
  destruct (locked p); cbn; [done|]. intros; f_equal; auto.
Qed.

Lemma revokePermission_lock st en w sem l :
  revokePermission st en w true sem l =
  if existsb (fun p => isShared p st en && locked p) l then Blocked else revokeRange st en l.
Proof.
  unfold revokePermission. pose proof (registerWaiters_count st en sem l) as Hc.
  pose proof (registerWaiters_unlocked st en sem l) as Hu.
  destruct (registerWaiters st en sem l) as [l1 n]. cbn in *.
  destruct (existsb _ l) eqn:Hex.
  - destruct n; [|done]. exfalso. apply existsb_exists in Hex as (p & Hin & Hp).
    assert (In p (List.filter (fun p => isShared p st en && locked p) l)) as Hf by (by apply filter_In).
    by destruct (List.filter _ l).
  - assert (n = 0%nat) as ->; [|by rewrite Hu].
    rewrite Hc. clear -Hex. induction l as [|p l IH]; [done|]. cbn in *.
    apply orb_false_iff in Hex as [-> ?]. auto.
Qed.

(** ** Granting is exact when the range touches at most one token *)

(** Reference definition: what becomes of the one token [p] that the range
    touches. *)
Definition merge (st en : Z) (w : bool) (p : Permission) : list Permission :=
  let r a b v := mkPermission a b v false false [] in
  match w, write p with
  | true, true => [r (Z.min (start p) st) (Z.max (end_ p) en) true]
  | true, false =>
      (if start p <? st then [r (start p) st false] else []) ++ [r st en true] ++
      (if en <? end_ p then [r en (end_ p) false] else [])
  | false, true =>
      (if st <? start p then [r st (start p) false] else []) ++ [p] ++
      (if end_ p <? en then [r (end_ p) en false] else [])
  | false, false => [r (Z.min (start p) st) (Z.max (end_ p) en) false]
  end.

Lemma sorted_from_app_intro lo x l1 l2 :
  lo <= x -> sorted_from lo l1 -> (forall p, p ∈ l1 -> end_ p <= x) -> sorted_from x l2 ->
  sorted_from lo (l1 ++ l2).
Proof.
  intros Hx Hl1 He Hl2. revert lo Hx Hl1. induction l1 as [|p l1 IH]; intros lo Hx Hl1; cbn.
  - by eapply sorted_from_weaken.
  - cbn in Hl1. destruct Hl1 as (H1 & H2 & H3). repeat split; [done..|].
    apply IH; [|apply He; by constructor|done]. intros q Hq. apply He. by constructor.
Qed.

Section AddExact.
Context (st en : Z) (w : bool) (l1 l2 : list Permission).
Hypothesis Hst : 0 <= st <= INT_MAX.
Hypothesis Hen : 0 <= en <= INT_MAX.
Hypothesis Hlt : st < en.
Hypothesis Hun : forall p, p ∈ l1 \/ p ∈ l2 -> isInclusiveShared p st en = false.

Lemma sharedSpan_one p :
  isInclusiveShared p st en = true -> sharedSpan st en (l1 ++ p :: l2) = Some (length l1, length l1).
Proof.
  intros Hp. unfold sharedSpan. rewrite find_from_middle by auto. cbn [Nat.add].
  assert (drop (S (length l1)) (l1 ++ p :: l2) = l2) as ->.
  { change (l1 ++ p :: l2) with (l1 ++ [p] ++ l2). rewrite app_assoc, drop_app_length'; [done|].
    rewrite length_app. cbn. lia. }
  destruct l2 as [|q l2']; [done|]. cbn. rewrite Hun by (right; constructor). cbn. do 2 f_equal. lia.
Qed.

(** The vector that [addPermission] computes when exactly one token is touched. *)
Lemma addPermission_one p :
  0 <= start p <= INT_MAX -> 0 <= end_ p <= INT_MAX -> isInclusiveShared p st en = true ->
  addPermission st en w (l1 ++ p :: l2) false = Ret (l1 ++ merge st en w p ++ l2).
Proof.
  intros Hps Hpe Hp. unfold addPermission. rewrite sharedSpan_one by done. unfold merge.
  assert (Hu : forall x, 0 <= x <= INT_MAX -> u32 x = x) by (intros; apply u32_id; word_lia).
  pose proof (proj1 (isInclusiveShared_true p st en) Hp).
  destruct w; [unfold addWrite|unfold addRead]; rewrite list_lookup_middle by done;
    cbn [deref mbind outcome_bind maybeLock]; rewrite (erase_range_app _ _ l1 [p] l2) by (cbn; lia);
    unfold isWrite, getStart, getEnd, newPermission.
  - destruct (write p); cbn [negb andb insertOpt].
    + rewrite insert_at_app by done. rewrite !i32_id, !Hu by lia. done.
    + destruct (start p <? st), (en <? end_ p); cbn [insertOpt app]; rewrite !insert_at_app by done;
        rewrite !i32_id, !Hu by lia; done.
  - rewrite (slice_single _ p) by (by apply list_lookup_middle). cbn.
    unfold isWrite. destruct (write p); cbn.
    + unfold getStart, getEnd. rewrite !i32_id, !Hu by lia.
      destruct (_ && _) eqn:Ec; cbn; unfold addReadLast; rewrite ?insert_at_app by done.
      * zbool. rewrite (proj2 (Z.ltb_ge (end_ p) en)) by lia.
        destruct (st <? start p); cbn; rewrite ?insert_at_app by done;
          unfold newPermission; rewrite ?Hu by lia; done.
      * apply andb_false_iff in Ec. rewrite (proj2 (Z.ltb_lt (end_ p) en)) by (destruct Ec; zbool; lia).
        destruct (st <? start p); cbn; rewrite ?insert_at_app by done;
          unfold newPermission; rewrite ?Hu by lia; done.
    + rewrite insert_at_app by done.
      destruct (Z.ltb_spec (start p) st), (Z.ltb_spec en (end_ p)); rewrite !i32_id, !Hu by lia; cbn; repeat f_equal; lia.
Qed.

(** On both sides of the range the tokens keep their distance. *)
Lemma around_sides lo p :
  sorted_from lo (l1 ++ p :: l2) -> isInclusiveShared p st en = true ->
  (forall q, q ∈ l1 -> end_ q <= Z.min st (start p)) /\
  (forall q, q ∈ l2 -> Z.max en (end_ p) <= start q).
Proof.
  intros Hs Hp%isInclusiveShared_true. pose proof (sorted_from_app _ _ _ Hs) as (H1 & H2 & H3).
  assert (H4 := H3). cbn in H4. destruct H4 as (_ & Hpp & H4). split; intros q Hq.
  - assert (end_ q <= start p) by (apply H2; [done|constructor]).
    pose proof (sorted_from_elem _ _ _ H1 Hq).
    assert (isInclusiveShared q st en = false) as Hn by (apply Hun; by left).
    apply isInclusiveShared_false in Hn. lia.
  - pose proof (sorted_from_elem _ _ _ H4 Hq).
    assert (isInclusiveShared q st en = false) as Hn by (apply Hun; by right).
    apply isInclusiveShared_false in Hn. lia.
Qed.

Lemma merge_sorted p :
  start p < end_ p -> isInclusiveShared p st en = true ->
  sorted_from (Z.min st (start p)) (merge st en w p) /\
  (forall q, q ∈ merge st en w p -> end_ q <= Z.max en (end_ p)).
Proof.
  intros Hpp Hp%isInclusiveShared_true. unfold merge.
  destruct w, (write p); repeat case_match; zbool; cbn;
    (split; [lia|intros q Hq; repeat (apply elem_of_cons in Hq as [->|Hq]; [cbn; lia|]);
                 by apply not_elem_of_nil in Hq]).
Qed.

Lemma sorted_from_grow lo l x : sorted_from lo l -> (forall q, q ∈ l -> x <= start q) -> sorted_from x l.
Proof. destruct l as [|p l]; cbn; [done|]. intros (H1 & H2 & H3) Hq. repeat split; [apply Hq; constructor|done..]. Qed.

Lemma addOne_sorted p :
  sorted_from 0 (l1 ++ p :: l2) -> isInclusiveShared p st en = true ->
  sorted_from 0 (l1 ++ merge st en w p ++ l2).
Proof.
  intros Hs Hp. destruct (around_sides 0 p Hs Hp) as [Hl Hr].
  pose proof (sorted_from_app _ _ _ Hs) as (H1 & H2 & H3). cbn in H3. destruct H3 as (H3 & H4 & H5).
  destruct (merge_sorted p H4 Hp) as [Hm1 Hm2].
  apply (sorted_from_app_intro 0 (Z.min st (start p))); [lia|done..|].
  apply (sorted_from_app_intro _ (Z.max en (end_ p))); [lia|done..|].
  by eapply sorted_from_grow.
Qed.

Lemma merge_keeps p v b : grants p v b -> holds (merge st en w p) v b.
Proof.
  intros [Hb Hv]. unfold merge.
  assert (Hone : forall q l, start q <= b < end_ q -> (v = true -> write q = true) -> holds (q :: l) v b)
    by (intros; apply holds_cons; left; by split).
  destruct w, (write p) eqn:Ep; [apply Hone; cbn; [lia|done]| | |apply Hone; cbn; [lia|done]];
    rewrite !holds_app.
  - destruct (decide (b < st)); [left|right; destruct (decide (b < en)); [left|right]].
    + rewrite (proj2 (Z.ltb_lt _ _)) by lia. apply Hone; cbn; [lia|done].
    + apply Hone; cbn; [lia|done].
    + rewrite (proj2 (Z.ltb_lt _ _)) by lia. apply Hone; cbn; [lia|done].
  - right; left. apply Hone; [lia|]. by rewrite Ep.
Qed.

End AddExact.

Lemma addUnshared_sorted st en w l l' :
  0 <= st -> is_u32 st -> is_u32 en -> st < en -> sorted_from 0 l ->
  (forall p, p ∈ l -> isInclusiveShared p st en = false) ->
  addUnshared st en w false l = Ret l' -> sorted_from 0 l'.
Proof.
  intros H0 Hst Hen Hlt Hs Hun. unfold addUnshared. cbn [maybeLock mbind outcome_bind].
  set (new := newPermission st en w).
  assert (Hins : forall i, (forall q, q ∈ take i l -> end_ q <= st) ->
    (forall q, q ∈ drop i l -> en <= start q) -> sorted_from 0 (insert_at i new l)).
  { intros i Hl Hr. unfold insert_at. rewrite <- (take_drop i l) in Hs.
    apply sorted_from_app in Hs as (H1 & _ & H3).
    apply (sorted_from_app_intro 0 st); [lia|done..|]. cbn. rewrite !u32_id by done.
    repeat split; [lia..|]. by eapply sorted_from_grow. }
  destruct (Nat.eqb_spec (length l) 0) as [->%nil_length_inv|_]; [|destruct (find_last _ l) as [i|] eqn:Hf]; intros [= <-].
  - cbn. rewrite !u32_id by done. lia.
  - apply find_last_Some in Hf as (a & Ha & Hea & Hgt). unfold getEnd in *. zbool. apply Hins.
    + intros q (j & Hj & Hji)%elem_of_take. destruct (decide (j = i)); [simplify_eq; lia|].
      pose proof (sorted_lookup 0 l j i q a Hs Hj Ha). pose proof (sorted_nonempty _ _ _ _ Hs Ha). lia.
    + intros q (j & Hj)%list_elem_of_lookup. rewrite lookup_drop in Hj.
      specialize (Hgt (S i + j)%nat q ltac:(lia) Hj). zbool.
      specialize (Hun q (list_elem_of_lookup_2 _ _ _ Hj)). apply isInclusiveShared_false in Hun. lia.
  - pose proof (proj1 (find_last_None _ _) Hf) as Hno. unfold getEnd in Hno. apply Hins; [set_solver|].
    intros q Hq. rewrite drop_0 in Hq. specialize (Hno q Hq). specialize (Hun q Hq).
    apply isInclusiveShared_false in Hun. zbool. lia.
Qed.

(** At most one permission of the vector touches the range. *)
Definition touches_one (st en : Z) (l : list Permission) : Prop :=
  forall i j p q, l !! i = Some p -> l !! j = Some q ->
    isInclusiveShared p st en = true -> isInclusiveShared q st en = true -> i = j.

(** The test that decides it. *)
Lemma filter_one_touches st en l :
  (length (List.filter (fun p => isInclusiveShared p st en) l) <=? 1)%nat = true -> touches_one st en l.
Proof.
  intros Hl%Nat.leb_le. unfold touches_one. induction l as [|x l IH]; [done|]. cbn in Hl. destruct (isInclusiveShared x st en) eqn:Hx; cbn in Hl.
  - assert (Hnone : forall i p, l !! i = Some p -> isInclusiveShared p st en = true -> False).
    { intros i p Hp%list_elem_of_lookup_2 Hs. assert (Hin : In p (List.filter (fun p => isInclusiveShared p st en) l)) by (by apply filter_In; rewrite <- list_elem_of_In).
      destruct (List.filter _ l); [done|cbn in Hl; lia]. }
    intros [|i] [|j] p q Hp Hq Hsp Hsq; [done|exfalso; by eapply Hnone|exfalso; by eapply Hnone|exfalso; by eapply (Hnone i)].
  - intros [|i] [|j] p q Hp Hq Hsp Hsq; [done|injection Hp as ->; congruence|injection Hq as ->; congruence|]. f_equal. by eapply (IH ltac:(lia)).
Qed.

Lemma addPermission_exact_lemma st en w l :
  0 <= st <= INT_MAX -> 0 <= en <= INT_MAX -> st < en -> small l -> sorted_from 0 l -> touches_one st en l ->
  exists l', addPermission st en w l false = Ret l' /\ sorted_from 0 l' /\
    forall v b, holds l' v b <-> holds l v b \/ requested st en w v b.
Proof.
  intros Hst Hen Hlt Hsm Hs Hone.
  destruct (addPermission_total st en w l) as [l' Hadd]. exists l'. split; [done|].
  assert (Hup := addPermission_upper st en l ltac:(word_lia) ltac:(word_lia) (small_bounded l Hsm) w false l').
  assert (Hlo := fun v b => addPermission_lower st en w false l l' v b Hst Hen Hsm Hadd).
  enough (sorted_from 0 l' /\ forall v b, holds l v b -> holds l' v b) as [? Hk].
  { split; [done|]. intros v b. split; [by apply Hup|]. intros [?|?]; auto. }
  destruct (sharedSpan st en l) as [[s e]|] eqn:Hspan.
  - apply sharedSpan_Some in Hspan as (Hse & He & Hin & _).
    destruct (lookup_lt_is_Some_2 l s) as [p Hp]; [lia|].
    assert (Hsh : isInclusiveShared p st en = true) by (apply (Hin s); [lia|done]).
    destruct (small_elem l p Hsm) as [Hp1 Hp2]; [by eapply list_elem_of_lookup_2|].
    assert (Hs' := Hp). apply split_one in Hs' as (l1 & l2 & -> & <-).
    assert (Hun : forall q, q ∈ l1 \/ q ∈ l2 -> isInclusiveShared q st en = false).
    { apply (outside_middle _ l1 [p] l2). intros i q Hi Hq. destruct (isInclusiveShared q st en) eqn:Hq'; [|done].
      rewrite (Hone i (length l1) q p Hq Hp Hq' Hsh) in Hi. cbn in Hi. lia. }
    rewrite (addPermission_one st en w l1 l2 Hst Hen Hlt Hun p Hp1 Hp2 Hsh) in Hadd. injection Hadd as <-.
    split; [by apply addOne_sorted|]. intros v b. rewrite !holds_app, holds_cons.
    intros [?|[?|?]]; [by left|right; left; by apply merge_keeps|by right; right].
  - unfold addPermission in Hadd. rewrite Hspan in Hadd. pose proof (sharedSpan_None _ _ _ Hspan) as Hun. split.
    + eapply (addUnshared_sorted st en w l); [lia|word_lia|word_lia|done..].
    + intros v b. apply (addUnshared_lower st en w false l l' v b); [word_lia|word_lia|done].
Qed.

(** The same with or without locking: the vector stays sorted, its bounds stay
    positive, and it grants what it granted and the request. *)
Lemma addPermission_fits st en w l l' b :
  0 <= st <= INT_MAX -> 0 <= en <= INT_MAX -> st < en -> small l -> sorted_from 0 l -> touches_one st en l ->
  addPermission st en w l b = Ret l' ->
  sorted_from 0 l' /\ small l' /\ forall v x, holds l' v x <-> holds l v x \/ requested st en w v x.
Proof.
  intros Hst Hen Hlt Hsm Hs Hone Hadd. destruct (addPermission_exact_lemma st en w l Hst Hen Hlt Hsm Hs Hone) as (l2 & Hadd2 & Hs2 & Hh).
  pose proof (addPermission_same_tokens st en w l b l' l false l2 ltac:(done) Hadd Hadd2) as Hsame.
  split; [eapply same_tokens_sorted; [symmetry; exact Hsame|exact Hs2]|]. split; [exact (addPermission_small _ _ _ _ _ _ Hst Hen Hsm Hadd)|].
  intros v x. rewrite Hsame. apply Hh.
Qed.
