(* ===== verification/TokenProps.v ===== *)
(** Properties of the three operations on a vector of permissions
    (common/file.cpp), with runs on concrete vectors. The lemmas are in Tokens.v. *)

From S2P Require Import Prelude Permission File Tokens.
#[local] Open Scope Z_scope.

(** A concrete vector: read [0,10), write [10,20), read [40,60). *)
Definition exampleTokens : list Permission :=
  [newPermission 0 10 false; newPermission 10 20 true; newPermission 40 60 false].

Lemma exampleTokens_small : small exampleTokens.
Proof. repeat constructor; cbn; word_lia. Qed.

Lemma exampleTokens_wf : wf exampleTokens.
Proof. split; [apply small_bounded, exampleTokens_small|cbn; word_lia]. Qed.

(** ** hasPermission *)

(** C22: on a sorted vector [hasPermission] answers yes exactly when every byte of
    the requested range is held in the requested mode. *)
Theorem hasPermission_decides st en w l :
  wf l -> st < en -> hasPermission st en w l = true <-> forall b, st <= b < en -> holds l w b.
Proof.
  intros [_ Hs] Hlt. split.
  - intros Hh b Hb. by apply (hasPermission_sound st en w l w b).
  - intros Hall. by apply hasPermission_complete.
Qed.

Lemma hasPermission_decides_witness :
  hasPermission 5 20 false exampleTokens = true <-> forall b, 5 <= b < 20 -> holds exampleTokens false b.
Proof. apply hasPermission_decides; [apply exampleTokens_wf|lia]. Defined.

(** On any vector, sorted or not, a yes of [hasPermission] is right: no byte of
    the range is missing, so a client never works without a token. *)
Theorem hasPermission_never_overclaims st en write l w b :
  hasPermission st en write l = true -> requested st en write w b -> holds l w b.
Proof. apply hasPermission_sound. Qed.

(** ** revokePermission *)

(** On a sorted vector a revocation computes what cutting the range out of each
    permission on its own computes. *)
Theorem revokePermission_is_cut st en w sem l :
  is_u32 st -> is_u32 en -> wf l -> st <= en ->
  exists l', revokePermission st en w false sem l = Ret l' /\ same_tokens l' (flat_map (cut st en) l).
Proof. intros. by apply revokeRange_cut. Qed.

(** C24: on a sorted vector a revocation removes the bytes of the range and no
    others, and the vector stays sorted. *)
Theorem revokePermission_exact st en w sem l :
  is_u32 st -> is_u32 en -> wf l -> st <= en ->
  exists l', revokePermission st en w false sem l = Ret l' /\ wf l' /\
    forall v b, holds l' v b <-> holds l v b /\ ~ (st <= b < en).
Proof. intros. by apply revokeRange_exact. Qed.

Lemma revokePermission_exact_witness :
  exists l', revokePermission 5 50 true false 0 exampleTokens = Ret l' /\ wf l' /\
    forall v b, holds l' v b <-> holds exampleTokens v b /\ ~ (5 <= b < 50).
Proof. apply revokePermission_exact; [word_lia|word_lia|apply exampleTokens_wf|lia]. Defined.

(** On any vector, sorted or not, a revocation returns, leaves nothing of the
    range and adds nothing. *)
Theorem revokePermission_removes_range st en w sem l :
  is_u32 st -> is_u32 en -> bounded l ->
  exists l', revokePermission st en w false sem l = Ret l' /\
    forall v b, holds l' v b -> holds l v b /\ ~ (st <= b < en).
Proof.
  intros Hst Hen Hl. destruct (revokeRange_total st en l) as [l' Hr]. exists l'. split; [done|].
  intros v b. by apply revokeRange_upper.
Qed.

(** With the mutex of the file, the revoking thread waits exactly when a
    permission shared with the range is locked by a running operation; otherwise it
    cuts the range out of the unchanged vector. *)
Theorem revokePermission_waits_for_locked st en w sem l :
  revokePermission st en w true sem l =
  if existsb (fun p => isShared p st en && locked p) l then Blocked else revokeRange st en l.
Proof. apply revokePermission_lock. Qed.

(** ** addPermission *)

(** On any vector, [addPermission] returns, every byte of the requested range
    is held afterwards, and nothing is gained beyond the request. *)
Lemma addPermission_safe st en w l :
  0 <= st <= INT_MAX -> 0 <= en <= INT_MAX -> small l ->
  exists l', addPermission st en w l false = Ret l' /\ small l' /\
    (forall v b, requested st en w v b -> holds l' v b) /\
    (forall v b, holds l' v b -> holds l v b \/ requested st en w v b).
Proof.
  intros Hst Hen Hl. destruct (addPermission_total st en w l) as [l' Hadd]. exists l'.
  split; [done|]. split; [by eapply (addPermission_small st en w l false)|]. split.
  - intros v b. by eapply addPermission_lower.
  - intros v b. apply (addPermission_upper st en l ltac:(word_lia) ltac:(word_lia) (small_bounded l Hl) w false l' v b Hadd).
Qed.

(** When the requested range touches at most one token of a sorted vector,
    [addPermission] adds exactly the request and keeps the vector sorted. *)
Lemma addPermission_exact st en w l :
  0 <= st <= INT_MAX -> 0 <= en <= INT_MAX -> st < en -> small l -> sorted_from 0 l -> touches_one st en l ->
  exists l', addPermission st en w l false = Ret l' /\ sorted_from 0 l' /\
    forall v b, holds l' v b <-> holds l v b \/ requested st en w v b.
Proof. apply addPermission_exact_lemma. Qed.

(** The client and the manager, which keep the same tokens with different lock
    states, still keep the same tokens after the same grant or revocation. *)
Lemma mirrored_tokens st en w l1 b1 r1 l2 b2 r2 sem1 sem2 :
  same_tokens l1 l2 ->
  (addPermission st en w l1 b1 = Ret r1 -> addPermission st en w l2 b2 = Ret r2 -> same_tokens r1 r2) /\
  (revokePermission st en w true sem1 l1 = Ret r1 -> revokePermission st en w false sem2 l2 = Ret r2 ->
   same_tokens r1 r2).
Proof.
  intros Heq. split; [by apply addPermission_same_tokens|]. rewrite revokePermission_lock.
  destruct (existsb _ l1); [done|]. by apply revokeRange_same_tokens.
Qed.

(** ** Where addPermission is not exact *)

(** When every token from the first shared one on is shared with the request,
    the loop that looks for the last one never sets it. After the grants of read
    [0,10), write [10,20) and write [5,15) to a client without tokens, the vector
    holds write access to [5,20), but it overlaps and [hasPermission] denies it. *)
Lemma addPermission_last_shared_missed :
  exists l, (l1 ← addPermission 0 10 false [] false; l2 ← addPermission 10 20 true l1 false;
             addPermission 5 15 true l2 false) = Ret l /\
    (forall b, 5 <= b < 20 -> holds l true b) /\ ~ sorted_from 0 l /\ hasPermission 5 20 true l = false.
Proof.
  exists [mkPermission 0 5 false false false []; mkPermission 5 15 true false false [];
          mkPermission 10 20 true false false []].
  split; [reflexivity|]. split; [|split; [cbn; lia|reflexivity]].
  intros b Hb. destruct (decide (b < 15)).
  - exists (mkPermission 5 15 true false false []). split; [set_solver|]. split; [cbn; lia|done].
  - exists (mkPermission 10 20 true false false []). split; [set_solver|]. split; [cbn; lia|done].
Qed.

(** A write grant that ends inside a read token other than the first shared one
    cuts that token with the end of the wrong permission: the reader loses the bytes
    behind the grant. *)
Lemma addPermission_loses_tail :
  exists l l', wf l /\ small l /\ holds l false 25 /\
    addPermission 5 20 true l false = Ret l' /\ ~ holds l' false 25.
Proof.
  exists [newPermission 0 10 true; newPermission 10 30 false; newPermission 50 60 false].
  exists [mkPermission 0 20 true false false []; mkPermission 20 10 false false false [];
          mkPermission 50 60 false false false []].
  assert (Hsm : small [newPermission 0 10 true; newPermission 10 30 false; newPermission 50 60 false])
    by (repeat constructor; cbn; word_lia).
  split; [split; [by apply small_bounded|cbn; word_lia]|]. split; [done|]. split.
  { exists (newPermission 10 30 false). split; [set_solver|]. split; [cbn; word_lia|done]. }
  split; [reflexivity|]. intros (p & Hp & [Hb _]).
  repeat (apply elem_of_cons in Hp as [->|Hp]; [cbn in Hb; lia|]). by apply not_elem_of_nil in Hp.
Qed.
