(* ===== verification/MMFile.v ===== *)
(** The metadata manager's record of one file: include/mm_file.h and
    metadata_manager/mm_file.cpp.

    For every client that has the file open the manager keeps the vector of
    tokens it believes the client holds. [waitAndGetPermissionFor] is the token
    manager: it takes the requested range away from every other client whose
    tokens conflict, records it for the requester ([recordGrant]), and waits for the
    threads that ask these clients to give the range up. The mutex of the object
    ([mm_lock]) is held from the first to the last line of every method. What a thread
    does is a parameter here: a client that does not answer keeps the method waiting,
    with the mutex held. *)

From Stdlib Require Import String.
From stdpp Require Import gmap strings.
From S2P Require Import Prelude Permission File Tokens.
#[local] Open Scope Z_scope.

(** ** Data *)

(** [unordered_map<string, vector<Permission*>*> clientPermissions]. A key is
    only inserted by [open], with a fresh vector. *)
Record MMFile : Type := mkMMFile {
  base : File;
  clientPermissions : gmap string (list Permission);
  mm_lock : bool }.

(** A [RevokePermission] request that a thread sends to the client [rv_peer]. *)
Record RevokeRequest : Type := mkRevokeRequest {
  rv_peer : string;
  rv_name : string;
  rv_start : Z;
  rv_end : Z;
  rv_iswrite : bool }.

Definition setClientPermissions (m : gmap string (list Permission)) (f : MMFile) : MMFile :=
  mkMMFile (base f) m (mm_lock f).

Definition setLock (v : bool) (f : MMFile) : MMFile := mkMMFile (base f) (clientPermissions f) v.

(** ** Operations *)

Definition open (peer : string) (f : MMFile) : bool * MMFile :=
  match clientPermissions f !! peer with
  | Some _ => (false, f)
  | None => (true, setClientPermissions (<[peer := []]> (clientPermissions f)) f)
  end.

Definition close (peer : string) (f : MMFile) : bool * MMFile :=
  match clientPermissions f !! peer with
  | None => (false, f)
  | Some _ => (true, setClientPermissions (delete peer (clientPermissions f)) f)
  end.

Definition isOpen (f : MMFile) : bool :=
  if decide (clientPermissions f = ∅) then false else true.

Definition isOpenedBy (peer : string) (f : MMFile) : bool :=
  match clientPermissions f !! peer with None => false | Some _ => true end.

(** The test of line 97. *)
Definition conflicts (start end_ : Z) (iswrite : bool) (permit : Permission) : bool :=
  (isWrite permit || iswrite) && isShared permit start end_.

(** State of the loop over the clients: the vectors, the threads started so far,
    [firstPermit]. *)
Record LoopState : Type := mkLoopState {
  ls_clients : gmap string (list Permission);
  ls_threads : list RevokeRequest;
  ls_firstPermit : bool }.

(** One client of the loop of lines 92-107. The inner loop clears [firstPermit]
    on the first token it meets and stops at the first conflicting one, where it
    cuts the range out of the client's vector and starts the thread. *)
Definition revokeFrom (peer fname : string) (start end_ : Z) (iswrite : bool)
    (strToPermits : string * list Permission) (ls : LoopState) : outcome LoopState :=
  let '(other, permits) := strToPermits in
  if decide (other = peer) then Ret ls
  else
    let firstPermit := match permits with [] => ls_firstPermit ls | _ :: _ => false end in
    if existsb (conflicts start end_ iswrite) permits
    then
      permits' ← revokePermission start end_ iswrite false 0 permits;
      Ret (mkLoopState (<[other := permits']> (ls_clients ls))
             (ls_threads ls ++ [mkRevokeRequest other fname start end_ iswrite]) firstPermit)
    else Ret (mkLoopState (ls_clients ls) (ls_threads ls) firstPermit).

Definition revokeOthers (peer fname : string) (start end_ : Z) (iswrite : bool)
    (entries : list (string * list Permission)) (ls : LoopState) : outcome LoopState :=
  foldM (revokeFrom peer fname start end_ iswrite) entries ls.

(** Lines 108-112. *)
Definition chosenPermit (start end_ : Z) (iswrite : bool) (ls : LoopState) : Permission :=
  if negb (length (ls_threads ls) =? 0)%nat || negb (ls_firstPermit ls)
  then newPermission start end_ iswrite
  else newPermission 0 INT_MAX iswrite.

(** Lines 83-114, what is done to the record before the threads are joined: the
    permit, the requests of the threads in the order in which they are started, and
    the new record. The order in which an [unordered_map] is traversed is unspecified; the model
    uses that of [map_to_list] and [revokeOthers_order] shows that the tokens do
    not depend on it. In the branch of line 83 (no client at all) and for a peer
    that is not a key, [clientPermissions[peer]] inserts a null pointer that is
    dereferenced at once. *)
Definition recordGrant (peer : string) (start end_ : Z) (iswrite : bool) (f : MMFile)
    : outcome (Permission * list RevokeRequest * MMFile) :=
  if decide (clientPermissions f = ∅) then Crash
  else
    ls ← revokeOthers peer (getName (base f)) start end_ iswrite
           (map_to_list (clientPermissions f))
           (mkLoopState (clientPermissions f) [] true);
    let permit := chosenPermit start end_ iswrite ls in
    mine ← deref (ls_clients ls !! peer);
    mine' ← addPermission (getStart permit) (getEnd permit) iswrite mine false;
    Ret (permit, ls_threads ls, setClientPermissions (<[peer := mine']> (ls_clients ls)) f).

(** Lines 78-114: the mutex is taken, and still held when the threads are joined. *)
Definition startGrant (peer : string) (start end_ : Z) (iswrite : bool) (f : MMFile)
    : outcome (Permission * list RevokeRequest * MMFile) :=
  if mm_lock f then Blocked
  else
    r ← recordGrant peer start end_ iswrite f;
    Ret (r.1, setLock true r.2).

Section Threads.
(** [send] starts a thread; [join] runs it to its end, where it may wait for ever. [W]
    is what the threads change. *)
Context {T W : Type} (send : RevokeRequest -> outcome T) (join : T -> W -> outcome W).

Definition sendAll (requests : list RevokeRequest) : outcome (list T) :=
  foldM (fun r acc => x ← send r; Ret (acc ++ [x])) requests [].

(** The whole method: lines 115-121 join the threads and release the mutex. *)
Definition waitAndGetPermissionFor (peer : string) (start end_ : Z) (iswrite : bool) (f : MMFile) (w : W)
    : outcome (Permission * MMFile * W) :=
  r ← startGrant peer start end_ iswrite f;
  let '(permit, requests, f') := r in
  threads ← sendAll requests;
  w' ← foldM join threads w;
  Ret (permit, setLock false f', w').

Lemma recordGrant_lock peer st en iw f permit rs f' : recordGrant peer st en iw f = Ret (permit, rs, f') -> mm_lock f' = mm_lock f.
Proof.
  unfold recordGrant. case_decide; [done|]. intros (ls & _ & Hr)%bind_Ret. apply bind_Ret in Hr as (mine & _ & Hr).
  by apply bind_Ret in Hr as (mine' & _ & [= _ _ <-]).
Qed.

(** When the mutex is free the method is the record of the grant and the wait. *)
Lemma waitAndGetPermissionFor_split peer st en iw f w :
  mm_lock f = false ->
  waitAndGetPermissionFor peer st en iw f w =
    (r ← recordGrant peer st en iw f;
     threads ← sendAll r.1.2;
     w' ← foldM join threads w;
     Ret (r.1.1, r.2, w')).
Proof.
  intros Hl. unfold waitAndGetPermissionFor, startGrant. rewrite Hl.
  destruct (recordGrant peer st en iw f) as [[[permit requests] f']| |] eqn:Hr; [|done..]. cbn.
  apply recordGrant_lock in Hr. rewrite Hl in Hr. destruct f' as [? ? v]. cbn in Hr. by subst v.
Qed.
End Threads.

(** ** What the loop does to one client *)

(** The vector of another client after the loop. *)
Definition afterRevoke (start end_ : Z) (iswrite : bool) (permits : list Permission) : list Permission :=
  if existsb (conflicts start end_ iswrite) permits
  then match revokeRange start end_ permits with Ret l => l | _ => permits end
  else permits.

Lemma revokeFrom_spec peer fname st en w other permits ls :
  revokeFrom peer fname st en w (other, permits) ls =
  Ret (if decide (other = peer) then ls
       else mkLoopState
         (if existsb (conflicts st en w) permits
          then <[other := afterRevoke st en w permits]> (ls_clients ls) else ls_clients ls)
         (ls_threads ls ++ if existsb (conflicts st en w) permits
                           then [mkRevokeRequest other fname st en w] else [])
         (match permits with [] => ls_firstPermit ls | _ => false end)).
Proof.
  unfold revokeFrom, afterRevoke. destruct (decide (other = peer)); [done|].
  destruct (existsb _ permits); [|by rewrite app_nil_r].
  unfold revokePermission. by destruct (revokeRange_total st en permits) as [l ->].
Qed.

(** The loop over [entries], which are vectors of the map: every client but the
    requester ends up with [afterRevoke]. *)
Lemma revokeOthers_spec peer fname st en w entries ls :
  NoDup entries.*1 ->
  (forall p l, (p, l) ∈ entries -> ls_clients ls !! p = Some l) ->
  exists ls', revokeOthers peer fname st en w entries ls = Ret ls' /\
    (forall p, ls_clients ls' !! p =
       if decide (p <> peer /\ p ∈ entries.*1) then afterRevoke st en w <$> ls_clients ls !! p
       else ls_clients ls !! p) /\
    ls_threads ls' = ls_threads ls ++
      ((fun e => mkRevokeRequest e.1 fname st en w) <$>
        List.filter (fun e => negb (bool_decide (e.1 = peer)) && existsb (conflicts st en w) e.2) entries) /\
    ls_firstPermit ls' =
      ls_firstPermit ls && forallb (fun e => bool_decide (e.1 = peer) || bool_decide (e.2 = [])) entries.
Proof.
  unfold revokeOthers. revert ls. induction entries as [|[other permits] entries IH]; intros ls Hnd Hin; cbn [foldM].
  { exists ls. repeat split.
    - intros p. by case_decide as Hd; [destruct Hd as [_ []%not_elem_of_nil]|].
    - by rewrite app_nil_r.
    - by rewrite andb_true_r. }
  cbn in Hnd. apply NoDup_cons in Hnd as [Hni Hnd].
  rewrite revokeFrom_spec. cbn [mbind outcome_bind].
  assert (Hother : ls_clients ls !! other = Some permits) by (apply Hin; constructor).
  destruct (decide (other = peer)) as [->|Hne].
  - destruct (IH ls Hnd) as (ls' & Hr & H1 & H2 & H3).
    { intros p l Hpl. apply Hin. by constructor. }
    exists ls'. split; [done|]. cbn. rewrite bool_decide_true by done. cbn. repeat split; [|done..].
    intros p. rewrite H1. repeat case_decide; set_solver.
  - cbn. rewrite bool_decide_false by done. cbn [negb andb orb].
    set (ls1 := mkLoopState _ _ _). destruct (IH ls1 Hnd) as (ls' & Hr & H1 & H2 & H3).
    { intros p l Hpl. assert (p <> other) by (intros ->; apply Hni, list_elem_of_fmap; by exists (other, l)).
      unfold ls1; cbn. destruct (existsb _ permits); [rewrite lookup_insert_ne by done|]; apply Hin; by constructor. }
    exists ls'. split; [done|]. repeat split.
    + intros p. rewrite H1. unfold ls1; cbn [ls_clients].
      destruct (decide (p = other)) as [->|Hpo].
      * rewrite decide_False by tauto. rewrite decide_True by (split; [done|constructor]).
        rewrite Hother. cbn. unfold afterRevoke. destruct (existsb _ permits); [by rewrite lookup_insert_eq|done].
      * assert ((if existsb (conflicts st en w) permits then <[other:=afterRevoke st en w permits]> (ls_clients ls)
                 else ls_clients ls) !! p = ls_clients ls !! p) as ->
          by (destruct (existsb _ permits); [by rewrite lookup_insert_ne|done]).
        repeat case_decide; set_solver.
    + rewrite H2. unfold ls1; cbn. rewrite <- app_assoc. f_equal. by destruct (existsb _ permits).
    + rewrite H3. unfold ls1; cbn. destruct permits; cbn; [done|].
      by destruct (ls_firstPermit ls).
Qed.

(** ** waitAndGetPermissionFor *)

(** Another client than [peer] has a token. *)
Definition othersHave (peer : string) (m : gmap string (list Permission)) : Prop :=
  exists p l, p <> peer /\ m !! p = Some l /\ l <> [].

(** The requests sent are one per client with a conflicting token. *)
Definition revokeRequests (peer fname : string) (st en : Z) (w : bool) (m : gmap string (list Permission))
    : list RevokeRequest :=
  (fun e => mkRevokeRequest e.1 fname st en w) <$>
    List.filter (fun e => negb (bool_decide (e.1 = peer)) && existsb (conflicts st en w) e.2) (map_to_list m).

Lemma revokeOthers_all peer fname st en w m :
  exists ls, revokeOthers peer fname st en w (map_to_list m) (mkLoopState m [] true) = Ret ls /\
    ls_clients ls !! peer = m !! peer /\
    (forall p, p <> peer -> ls_clients ls !! p = afterRevoke st en w <$> m !! p) /\
    ls_threads ls = revokeRequests peer fname st en w m /\
    (ls_firstPermit ls = false <-> othersHave peer m).
Proof.
  destruct (revokeOthers_spec peer fname st en w (map_to_list m) (mkLoopState m [] true))
    as (ls & Hr & H1 & H2 & H3); [apply NoDup_fst_map_to_list|by intros p l ?%elem_of_map_to_list|].
  cbn in H1, H2, H3. exists ls. repeat split; [done| | |done| |].
  - rewrite H1. rewrite decide_False; [done|tauto].
  - intros p Hp. rewrite H1. case_decide as Hd; [done|].
    destruct (m !! p) as [l|] eqn:Hl; [|done]. destruct Hd. split; [done|].
    apply list_elem_of_fmap. exists (p, l). split; [done|]. by apply elem_of_map_to_list.
  - rewrite H3, forallb_false. intros ([p l] & Hin%elem_of_map_to_list & [Hp Hl]%orb_false_iff).
    apply bool_decide_eq_false in Hp, Hl. by exists p, l.
  - intros (p & l & Hne & Hl & Hnn). rewrite H3, forallb_false. exists (p, l).
    rewrite elem_of_map_to_list. cbn. by rewrite !bool_decide_false.
Qed.

(** At most one request per client. *)
Lemma revokeRequests_peers_NoDup peer fname st en w m : NoDup (rv_peer <$> revokeRequests peer fname st en w m).
Proof.
  unfold revokeRequests. rewrite <- list_fmap_compose. apply (sublist_NoDup _ (map_to_list m).*1); [apply NoDup_fst_map_to_list|].
  cbn. induction (map_to_list m) as [|e l IH]; cbn; [done|]. destruct (negb _ && _); cbn; by constructor.
Qed.

Lemma elem_of_revokeRequests peer fname st en w m r :
  r ∈ revokeRequests peer fname st en w m <->
  exists q l, r = mkRevokeRequest q fname st en w /\ q <> peer /\ m !! q = Some l /\ existsb (conflicts st en w) l = true.
Proof.
  unfold revokeRequests. rewrite list_elem_of_fmap. split.
  - intros ([q l] & -> & Hin). apply list_elem_of_In, filter_In in Hin as [Hin [Hq Hex]%andb_true_iff].
    apply list_elem_of_In, elem_of_map_to_list in Hin. apply negb_true_iff, bool_decide_eq_false in Hq. by exists q, l.
  - intros (q & l & -> & Hq & Hl & Hex). exists (q, l). split; [done|].
    apply list_elem_of_In, filter_In. split; [by apply list_elem_of_In, elem_of_map_to_list|].
    cbn. by rewrite bool_decide_false.
Qed.

(** Nobody else has a token: no request. *)
Lemma revokeRequests_none peer fname st en w m :
  ~ othersHave peer m -> revokeRequests peer fname st en w m = [].
Proof.
  intros Hno. unfold revokeRequests. destruct (List.filter _ _) as [|[p l] r] eqn:Hfl; [done|]. exfalso. apply Hno.
  assert (In (p, l) ((p, l) :: r)) as Hin by (by left). rewrite <- Hfl in Hin.
  apply filter_In in Hin as [Hin [Hpp Hex]%andb_true_iff].
  apply list_elem_of_In, elem_of_map_to_list in Hin. apply negb_true_iff, bool_decide_eq_false in Hpp.
  exists p, l. repeat split; [done..|]. by intros ->.
Qed.

(** The whole method: it returns whenever the peer has the file open. *)
Lemma recordGrant_spec peer st en w f mine :
  is_u32 st -> is_u32 en -> clientPermissions f !! peer = Some mine ->
  exists permit mine' f',
    recordGrant peer st en w f =
      Ret (permit, revokeRequests peer (getName (base f)) st en w (clientPermissions f), f') /\
    base f' = base f /\
    addPermission (start permit) (end_ permit) w mine false = Ret mine' /\
    clientPermissions f' !! peer = Some mine' /\
    (forall p, p <> peer -> clientPermissions f' !! p = afterRevoke st en w <$> clientPermissions f !! p) /\
    ((othersHave peer (clientPermissions f) /\ permit = mkPermission st en w false false []) \/
     (~ othersHave peer (clientPermissions f) /\ permit = mkPermission 0 INT_MAX w false false [])).
Proof.
  intros Hst Hen Hmine. unfold recordGrant.
  rewrite decide_False by (intros He; by rewrite He, lookup_empty in Hmine).
  destruct (revokeOthers_all peer (getName (base f)) st en w (clientPermissions f)) as (ls & -> & Hp & Ho & Ht & Hf).
  cbn [mbind outcome_bind]. rewrite Hp, Hmine. cbn [deref mbind outcome_bind].
  set (permit := chosenPermit st en w ls).
  destruct (addPermission_total (getStart permit) (getEnd permit) w mine) as [mine' Hadd].
  rewrite Hadd, Ht. cbn [mbind outcome_bind].
  exists permit, mine', (setClientPermissions (<[peer:=mine']> (ls_clients ls)) f).
  split; [done|]. split; [done|]. split; [exact Hadd|]. cbn. split; [by rewrite lookup_insert_eq|]. split.
  { intros p Hne. by rewrite lookup_insert_ne, Ho. }
  unfold permit, chosenPermit, newPermission. rewrite !u32_id by (done || word_lia).
  destruct (ls_firstPermit ls) eqn:Hfp.
  - right. assert (Hno : ~ othersHave peer (clientPermissions f)) by (intros ?%Hf; done).
    split; [done|]. by rewrite orb_false_r, Ht, revokeRequests_none.
  - left. rewrite orb_true_r. split; [by apply Hf|done].
Qed.

(** ** The token invariant *)

(** A byte that one client may write is not accessible to any other client. *)
Definition exclusive (m : gmap string (list Permission)) : Prop :=
  forall p q lp lq b, p <> q -> m !! p = Some lp -> m !! q = Some lq ->
    holds lp true b -> ~ holds lq false b.

Definition allBounded (m : gmap string (list Permission)) : Prop :=
  forall p l, m !! p = Some l -> bounded l.

Definition allSmall (m : gmap string (list Permission)) : Prop :=
  forall p l, m !! p = Some l -> small l.

(** The methods that change the object, called in any order by any clients. The
    bounds of a request are [uint32_t] fields of the message. *)
Inductive mm_step : MMFile -> MMFile -> Prop :=
| mm_step_open peer f : mm_step f (open peer f).2
| mm_step_close peer f : mm_step f (close peer f).2
| mm_step_grant peer st en w f permit msgs f' :
    is_u32 st -> is_u32 en ->
    recordGrant peer st en w f = Ret (permit, msgs, f') -> mm_step f f'.

Definition newMMFile (b : File) : MMFile := mkMMFile b ∅ false.

Inductive mm_reachable (b : File) : MMFile -> Prop :=
| mm_reach_init : mm_reachable b (newMMFile b)
| mm_reach_step f f' : mm_reachable b f -> mm_step f f' -> mm_reachable b f'.

(** A vector after the loop: nothing gained, and no access that conflicts with
    the request is left. *)
Lemma afterRevoke_upper st en w l v b :
  is_u32 st -> is_u32 en -> bounded l -> holds (afterRevoke st en w l) v b ->
  holds l v b /\ (v = true \/ w = true -> ~ (st <= b < en)).
Proof.
  intros Hst Hen Hl. unfold afterRevoke. destruct (existsb _ l) eqn:Hex.
  - destruct (revokeRange_total st en l) as [l' Hr]. rewrite Hr. intros Hh.
    destruct (revokeRange_upper st en l l' v b) as [? ?]; auto.
  - intros Hh. split; [done|]. intros Hc Hb. destruct Hh as (p & Hp & Hg).
    pose proof (proj1 (existsb_false _ _) Hex p Hp) as Hn. unfold conflicts, isWrite in Hn.
    rewrite (grants_isShared p v b) in Hn by done. destruct Hg as [_ Hg].
    destruct Hc as [->| ->]; [rewrite Hg in Hn by done|]; by destruct (write p).
Qed.

Lemma afterRevoke_Pvec (P : Z -> Prop) st en w l :
  P st -> P en -> is_u32 st -> is_u32 en -> bounded l ->
  Forall (fun p => P (start p) /\ P (end_ p)) l ->
  Forall (fun p => P (start p) /\ P (end_ p)) (afterRevoke st en w l).
Proof.
  intros. unfold afterRevoke. destruct (existsb _ l); [|done].
  destruct (revokeRange_total st en l) as [l' Hr]. rewrite Hr. by eapply (revokeRange_Pvec P st en l).
Qed.

(** The method returns only for a peer that has the file open. *)
Lemma recordGrant_inv peer st en w f permit msgs f' :
  is_u32 st -> is_u32 en -> recordGrant peer st en w f = Ret (permit, msgs, f') ->
  exists mine mine', clientPermissions f !! peer = Some mine /\
    base f' = base f /\
    addPermission (start permit) (end_ permit) w mine false = Ret mine' /\
    clientPermissions f' !! peer = Some mine' /\
    (forall p, p <> peer -> clientPermissions f' !! p = afterRevoke st en w <$> clientPermissions f !! p) /\
    msgs = revokeRequests peer (getName (base f)) st en w (clientPermissions f) /\
    ((othersHave peer (clientPermissions f) /\ permit = mkPermission st en w false false []) \/
     (~ othersHave peer (clientPermissions f) /\ permit = mkPermission 0 INT_MAX w false false [])).
Proof.
  intros Hst Hen Hr. destruct (clientPermissions f !! peer) as [mine|] eqn:Hm.
  - destruct (recordGrant_spec peer st en w f mine Hst Hen Hm)
      as (permit' & mine' & f'' & Hr' & H). rewrite Hr in Hr'. simplify_eq. exists mine, mine'. tauto.
  - exfalso. unfold recordGrant in Hr. case_decide; [done|].
    destruct (revokeOthers_all peer (getName (base f)) st en w (clientPermissions f)) as (ls & Hls & Hp & _).
    rewrite Hls in Hr. cbn [mbind outcome_bind] in Hr. by rewrite Hp, Hm in Hr.
Qed.

(** The bounds that the permit of a grant can have. *)
Lemma permit_bounds (P : Z -> Prop) (st en : Z) w (c : Prop) permit :
  P st -> P en -> P 0 -> P INT_MAX ->
  ((c /\ permit = mkPermission st en w false false []) \/
   (~ c /\ permit = mkPermission 0 INT_MAX w false false [])) ->
  P (start permit) /\ P (end_ permit).
Proof. by intros ? ? ? ? [[_ ->]|[_ ->]]. Qed.

(** A property of the bounds that the request has is kept by a grant. *)
Lemma grant_Pvec (P : Z -> Prop) peer st en w f permit msgs f' :
  is_u32 st -> is_u32 en -> P st -> P en -> P 0 -> P INT_MAX ->
  allBounded (clientPermissions f) ->
  (forall p l, clientPermissions f !! p = Some l -> Forall (fun x => P (start x) /\ P (end_ x)) l) ->
  recordGrant peer st en w f = Ret (permit, msgs, f') ->
  forall p l, clientPermissions f' !! p = Some l -> Forall (fun x => P (start x) /\ P (end_ x)) l.
Proof.
  intros Hst Hen Ps Pe P0 Pm Hb Hall Hr p l Hl.
  destruct (recordGrant_inv _ _ _ _ _ _ _ _ Hst Hen Hr)
    as (mine & mine' & Hm & _ & Hadd & Hm' & Ho & _ & Hp).
  destruct (decide (p = peer)) as [->|Hne].
  - simplify_eq. destruct (permit_bounds P _ _ _ _ _ Ps Pe P0 Pm Hp) as [P1 P2].
    destruct (permit_bounds is_u32 _ _ _ _ _ Hst Hen ltac:(word_lia) ltac:(word_lia) Hp) as [B1 B2].
    exact (addPermission_Pvec _ _ mine B1 B2 (Hb _ _ Hm) P P1 P2 (Hall _ _ Hm) w false _ Hadd).
  - rewrite Ho in Hl by done. destruct (clientPermissions f !! p) as [l0|] eqn:Hl0; [|done].
    injection Hl as <-. apply afterRevoke_Pvec; [done..|by eapply Hb|by eapply Hall].
Qed.

Lemma grant_exclusive peer st en w f permit msgs f' :
  is_u32 st -> is_u32 en -> allBounded (clientPermissions f) -> exclusive (clientPermissions f) ->
  recordGrant peer st en w f = Ret (permit, msgs, f') -> exclusive (clientPermissions f').
Proof.
  intros Hst Hen Hb Hex Hr.
  destruct (recordGrant_inv _ _ _ _ _ _ _ _ Hst Hen Hr)
    as (mine & mine' & Hm & _ & Hadd & Hm' & Ho & _ & Hp).
  destruct (permit_bounds is_u32 _ _ _ _ _ Hst Hen ltac:(word_lia) ltac:(word_lia) Hp) as [B1 B2].
  (* what the requester has now *)
  assert (Hmine : forall v b, holds mine' v b -> holds mine v b \/ requested (start permit) (end_ permit) w v b).
  { intros v b. by apply (addPermission_upper _ _ mine B1 B2 (Hb _ _ Hm) w false). }
  (* what another client still has *)
  assert (Hoth : forall q lq v b, q <> peer -> clientPermissions f' !! q = Some lq -> holds lq v b ->
    (exists lq0, clientPermissions f !! q = Some lq0 /\ holds lq0 v b) /\
    (v = true \/ w = true -> ~ (start permit <= b < end_ permit))).
  { intros q lq v b Hne Hlq Hh. rewrite Ho in Hlq by done.
    destruct (clientPermissions f !! q) as [lq0|] eqn:Hlq0; [|done]. injection Hlq as <-.
    destruct (afterRevoke_upper st en w lq0 v b Hst Hen (Hb _ _ Hlq0) Hh) as [Hh0 Hno].
    split; [by exists lq0|]. destruct Hp as [[_ ->]|[Hnone ->]]; [done|].
    exfalso. apply Hnone. exists q, lq0. repeat split; [done..|]. intros ->. by apply holds_nil in Hh0. }
  intros p q lp lq b Hpq Hlp Hlq Hp1 Hq1.
  destruct (decide (p = peer)) as [->|Hpne]; [|destruct (decide (q = peer)) as [->|Hqne]].
  - simplify_eq. destruct (Hoth q lq false b) as [(lq0 & Hq0 & Hh0) Hno]; [congruence|done..|].
    destruct (Hmine true b Hp1) as [Hold|[Hin Hw]]; [by eapply (Hex peer q)|]. apply Hno; auto.
  - simplify_eq. destruct (Hoth p lp true b) as [(lp0 & Hp0 & Hh0) Hno]; [done..|].
    destruct (Hmine false b Hq1) as [Hold|[Hin Hw]]; [by eapply (Hex p peer)|]. apply Hno; auto.
  - destruct (Hoth p lp true b) as [(lp0 & Hp0 & Hh0) _]; [done..|].
    destruct (Hoth q lq false b) as [(lq0 & Hq0 & Hh1) _]; [done..|]. by eapply (Hex p q).
Qed.

(** Opening adds a client without tokens, closing removes a client. *)
Lemma open_lookup peer f p l :
  clientPermissions (open peer f).2 !! p = Some l -> clientPermissions f !! p = Some l \/ l = [].
Proof.
  unfold open. destruct (clientPermissions f !! peer) eqn:E; cbn; [auto|].
  rewrite lookup_insert. case_decide; [intros [= <-]; auto|auto].
Qed.

Lemma close_lookup peer f p l :
  clientPermissions (close peer f).2 !! p = Some l -> clientPermissions f !! p = Some l.
Proof.
  unfold close. destruct (clientPermissions f !! peer) eqn:E; cbn; [|done].
  rewrite lookup_delete. by case_decide.
Qed.

Lemma mm_step_invariant f f' :
  mm_step f f' -> allBounded (clientPermissions f) -> exclusive (clientPermissions f) ->
  allBounded (clientPermissions f') /\ exclusive (clientPermissions f').
Proof.
  intros Hs Hb Hex. destruct Hs as [peer f|peer f|peer st en w f permit msgs f' Hst Hen Hr].
  - split.
    + intros p l [?| ->]%open_lookup; [by eapply Hb|constructor].
    + intros p q lp lq b Hne [Hp| ->]%open_lookup; [|by intros _ ?%holds_nil].
      intros [Hq| ->]%open_lookup; [by eapply Hex|by intros _ ?%holds_nil].
  - split.
    + intros p l ?%close_lookup. by eapply Hb.
    + intros p q lp lq b Hne ?%close_lookup ?%close_lookup. by eapply Hex.
  - split; [|exact (grant_exclusive _ _ _ _ _ _ _ _ Hst Hen Hb Hex Hr)].
    exact (grant_Pvec is_u32 _ _ _ _ _ _ _ _ Hst Hen Hst Hen ltac:(word_lia) ltac:(word_lia) Hb Hb Hr).
Qed.

Lemma mm_reachable_invariant b f :
  mm_reachable b f -> allBounded (clientPermissions f) /\ exclusive (clientPermissions f).
Proof.
  induction 1 as [|f f' _ [IHb IHe] Hs]; [|by eapply mm_step_invariant].
  cbn. split; [by intros ?? ?%lookup_empty_Some|by intros ????? _ ?%lookup_empty_Some].
Qed.

(** ** The order of the traversal *)

(** The entries of the map in another order: the same vectors and the same
    [firstPermit]; the threads are started in another order. *)
Lemma revokeOthers_order peer fname st en w m entries :
  entries ≡ₚ map_to_list m ->
  exists ls1 ls2,
    revokeOthers peer fname st en w entries (mkLoopState m [] true) = Ret ls1 /\
    revokeOthers peer fname st en w (map_to_list m) (mkLoopState m [] true) = Ret ls2 /\
    ls_clients ls1 = ls_clients ls2 /\ ls_threads ls1 ≡ₚ ls_threads ls2 /\
    ls_firstPermit ls1 = ls_firstPermit ls2.
Proof.
  intros Hp.
  destruct (revokeOthers_spec peer fname st en w entries (mkLoopState m [] true)) as (ls1 & H1 & C1 & T1 & F1);
    [rewrite Hp; apply NoDup_fst_map_to_list|intros p l; rewrite Hp; by intros ?%elem_of_map_to_list|].
  destruct (revokeOthers_spec peer fname st en w (map_to_list m) (mkLoopState m [] true)) as (ls2 & H2 & C2 & T2 & F2);
    [apply NoDup_fst_map_to_list|by intros p l ?%elem_of_map_to_list|].
  exists ls1, ls2. split; [done|]. split; [done|]. split; [|split].
  - apply map_eq. intros p. rewrite C1, C2. apply decide_ext. by rewrite Hp.
  - rewrite T1, T2. cbn. apply fmap_Permutation, filter_perm. done.
  - rewrite F1, F2. cbn. by apply forallb_perm.
Qed.

(** ** Properties *)

(** What another client has after a grant, and what it had before. *)
Lemma grant_others peer st en w f permit msgs f' :
  is_u32 st -> is_u32 en -> allBounded (clientPermissions f) ->
  recordGrant peer st en w f = Ret (permit, msgs, f') ->
  forall q lq v b, q <> peer -> clientPermissions f' !! q = Some lq -> holds lq v b ->
    (exists lq0, clientPermissions f !! q = Some lq0 /\ holds lq0 v b) /\
    (v = true \/ w = true -> ~ (st <= b < en)).
Proof.
  intros Hst Hen Hb Hr q lq v b Hne Hlq Hh.
  destruct (recordGrant_inv _ _ _ _ _ _ _ _ Hst Hen Hr) as (_ & _ & _ & _ & _ & _ & Ho & _).
  rewrite Ho in Hlq by done. destruct (clientPermissions f !! q) as [lq0|] eqn:Hlq0; [|done]. injection Hlq as <-.
  destruct (afterRevoke_upper st en w lq0 v b Hst Hen (Hb _ _ Hlq0) Hh) as [Hh0 Hno]. split; [by exists lq0|done].
Qed.

(** Two clients; [a] has the whole file for writing. *)
Definition exampleFile : MMFile :=
  mkMMFile (mkFile "data" 0 0 0 3 [] false)
    (<["a"%string := [newPermission 0 INT_MAX true]]> (<["b"%string := []]> ∅)) false.

Lemma exampleFile_vectors p l :
  clientPermissions exampleFile !! p = Some l ->
  (p = "a"%string /\ l = [newPermission 0 INT_MAX true]) \/ (p = "b"%string /\ l = []).
Proof.
  unfold exampleFile; cbn. rewrite !lookup_insert. case_decide; [intros [= <-]; auto|].
  case_decide; [intros [= <-]; auto|]. by rewrite lookup_empty.
Qed.

Lemma exampleFile_small : allSmall (clientPermissions exampleFile).
Proof.
  intros p l [[_ ->]|[_ ->]]%exampleFile_vectors; [|constructor]. repeat constructor; cbn; word_lia.
Qed.

(** Opened by [a], then by [b], then granted to [a]. *)
Lemma exampleFile_reachable : mm_reachable (base exampleFile) exampleFile.
Proof.
  assert (H2 : mm_reachable (base exampleFile) (open "b" (open "a" (newMMFile (base exampleFile))).2).2).
  { eapply mm_reach_step; [|apply mm_step_open]. eapply mm_reach_step; [constructor|apply mm_step_open]. }
  eapply mm_reach_step; [exact H2|]. eapply (mm_step_grant "a" 5 9 true); [word_lia|word_lia|reflexivity].
Qed.

(** C4: whatever the clients do, in any order, a byte that one client may write is
    not accessible to any other client: the tokens of a file are exclusive. *)
Theorem token_exclusion b f : mm_reachable b f -> exclusive (clientPermissions f).
Proof. intros H. apply (mm_reachable_invariant b f H). Qed.

Lemma token_exclusion_witness : exclusive (clientPermissions exampleFile).
Proof. apply (token_exclusion (base exampleFile)), exampleFile_reachable. Defined.

(** The revoke requests are exactly right: one request, with the range and the
    mode of the grant, to each other client with a conflicting token. *)
Lemma revoke_requests_exact peer st en w f permit msgs f' :
  is_u32 st -> is_u32 en -> recordGrant peer st en w f = Ret (permit, msgs, f') ->
  NoDup msgs /\
  forall r, r ∈ msgs <->
    exists q l p, r = mkRevokeRequest q (getName (base f)) st en w /\ q <> peer /\
      clientPermissions f !! q = Some l /\ p ∈ l /\ conflicts st en w p = true.
Proof.
  intros Hst Hen Hr.
  destruct (recordGrant_inv _ _ _ _ _ _ _ _ Hst Hen Hr) as (_ & _ & _ & _ & _ & _ & _ & -> & _).
  split; [eapply (NoDup_fmap_1 rv_peer), revokeRequests_peers_NoDup|]. intros r. rewrite elem_of_revokeRequests. split.
  - intros (q & l & -> & Hq & Hl & Hex). apply existsb_exists in Hex as (p & Hp%list_elem_of_In & Hc). by exists q, l, p.
  - intros (q & l & p & -> & Hq & Hl & Hp & Hc). exists q, l. repeat (split; [done|]).
    apply existsb_exists. exists p. by rewrite <- list_elem_of_In.
Qed.

(** What a grant does to the record. *)
Lemma recordGrant_covers peer st en w f :
  0 <= st <= INT_MAX -> 0 <= en <= INT_MAX -> allSmall (clientPermissions f) ->
  is_Some (clientPermissions f !! peer) ->
  exists permit msgs f', recordGrant peer st en w f = Ret (permit, msgs, f') /\
    allSmall (clientPermissions f') /\
    (exists mine, clientPermissions f' !! peer = Some mine /\
      forall v b, requested st en w v b -> holds mine v b) /\
    (forall q lq b, q <> peer -> clientPermissions f' !! q = Some lq -> st <= b < en ->
      ~ holds lq true b /\ (w = true -> ~ holds lq false b)).
Proof.
  intros Hst Hen Hsm [mine Hmine]. assert (is_u32 st /\ is_u32 en) as [Ust Uen] by word_lia.
  destruct (recordGrant_spec peer st en w f mine Ust Uen Hmine)
    as (permit & mine' & f' & Hr & _ & Hadd & Hm' & _ & Hp).
  assert (Hb : allBounded (clientPermissions f)) by (intros p l ?%Hsm; by apply small_bounded).
  eexists permit, _, f'. split; [exact Hr|]. split; [|split].
  - exact (grant_Pvec (fun x => 0 <= x <= INT_MAX) _ _ _ _ _ _ _ _ Ust Uen Hst Hen ltac:(word_lia) ltac:(word_lia) Hb Hsm Hr).
  - exists mine'. split; [done|]. intros v b [Hb' Hv].
    destruct (permit_bounds (fun x => 0 <= x <= INT_MAX) _ _ _ _ _ Hst Hen ltac:(word_lia) ltac:(word_lia) Hp) as [P1 P2].
    apply (addPermission_lower _ _ w false mine mine' v b P1 P2 (Hsm _ _ Hmine) Hadd). split; [|done].
    destruct Hp as [[_ ->]|[_ ->]]; cbn; lia.
  - intros q lq b Hq Hlq Hin. pose proof (grant_others _ _ _ _ _ _ _ _ Ust Uen Hb Hr q lq) as Ho. split.
    + intros Hh. destruct (Ho true b Hq Hlq Hh) as [_ Hno]. apply Hno; auto.
    + intros -> Hh. destruct (Ho false b Hq Hlq Hh) as [_ Hno]. apply Hno; auto.
Qed.



(** The token manager takes nothing more than it must: on a grant the clients
    without a conflicting token keep their vectors, and a client that has one loses
    the bytes of the request and no others. *)
Lemma grant_revokes_only_conflicts peer st en w f permit msgs f' q lq :
  is_u32 st -> is_u32 en -> st <= en ->
  recordGrant peer st en w f = Ret (permit, msgs, f') ->
  q <> peer -> clientPermissions f !! q = Some lq -> wf lq ->
  exists lq', clientPermissions f' !! q = Some lq' /\ wf lq' /\
    (existsb (conflicts st en w) lq = false -> lq' = lq) /\
    forall v b, ~ (st <= b < en) -> holds lq' v b <-> holds lq v b.
Proof.
  intros Hst Hen Hle Hr Hq Hlq Hwf.
  destruct (recordGrant_inv _ _ _ _ _ _ _ _ Hst Hen Hr) as (_ & _ & _ & _ & _ & _ & Ho & _).
  exists (afterRevoke st en w lq). rewrite Ho, Hlq by done. split; [done|]. unfold afterRevoke.
  destruct (existsb _ lq) eqn:Hex; [|by split].
  destruct (revokeRange_exact st en lq Hst Hen Hwf Hle) as (l' & -> & Hwf' & Hh).
  split; [done|]. split; [done|]. intros v b Hn. rewrite Hh. tauto.
Qed.

(** The first client gets the whole file: when nobody else holds a token, the
    permit is the range from 0 to [INT_MAX] and no request is sent. *)
Theorem first_client_gets_whole_file peer st en w f permit msgs f' :
  is_u32 st -> is_u32 en -> recordGrant peer st en w f = Ret (permit, msgs, f') ->
  ~ othersHave peer (clientPermissions f) ->
  permit = newPermission 0 INT_MAX w /\ msgs = [].
Proof.
  intros Hst Hen Hr Hno.
  destruct (recordGrant_inv _ _ _ _ _ _ _ _ Hst Hen Hr) as (_ & _ & _ & _ & _ & _ & _ & Hm & Hp).
  destruct Hp as [[? _]|[_ ->]]; [done|]. split; [done|]. subst msgs. by apply revokeRequests_none.
Qed.

(** The result does not depend on the order in which the unordered map of
    clients is traversed: same vectors, same permit, and the same requests up to
    their order. *)
Lemma traversal_order_irrelevant peer fname st en w m entries :
  entries ≡ₚ map_to_list m ->
  exists ls1 ls2,
    revokeOthers peer fname st en w entries (mkLoopState m [] true) = Ret ls1 /\
    revokeOthers peer fname st en w (map_to_list m) (mkLoopState m [] true) = Ret ls2 /\
    ls_clients ls1 = ls_clients ls2 /\ ls_threads ls1 ≡ₚ ls_threads ls2 /\
    chosenPermit st en w ls1 = chosenPermit st en w ls2.
Proof.
  intros (ls1 & ls2 & H1 & H2 & Hc & Ht & Hf)%(revokeOthers_order peer fname st en w).
  exists ls1, ls2. unfold chosenPermit. by rewrite Hf, (Permutation_length Ht).
Qed.

