(* ===== verification/FileServer.v ===== *)
(** A file server: include/fs_file.h, file_server/fs_file.cpp,
    include/file_server.h and file_server/file_server.cpp.

    A server keeps, per PFS file, the stripes it was asked to create, each in a
    file of the host. The host file system is a map from paths to contents, with
    the C library's behaviour: a read stops at the end of the file, a write
    behind the end fills the gap with zeros. The directory of the server exists
    and is writable, and file names contain no slash, so opening for writing
    succeeds. *)

From Stdlib Require Import Ascii String.
From Stdlib Require Import Strings.Byte.
From stdpp Require Import gmap strings pretty.
From S2P Require Import Prelude Config.
#[local] Open Scope Z_scope.

(** ** Data *)

(** The two values of [grpc::Status] that the handlers return. *)
Inductive Status : Type := OK | CANCELLED.

Record FSFile : Type := mkFSFile {
  fs_name : string;
  fs_stripWidth : Z;
  stripPaths : gmap Z string }.

(** The handler object together with the host files it works on. [fs_lock] is
    [true] while the mutex [lock] is held. *)
Record FileServer : Type := mkFileServer {
  filesDirectory : string;
  fs_files : gmap string FSFile;
  fs_lock : bool;
  disk : gmap string bytes }.

Definition setFsFiles (m : gmap string FSFile) (s : FileServer) : FileServer :=
  mkFileServer (filesDirectory s) m (fs_lock s) (disk s).
Definition setFsLock (b : bool) (s : FileServer) : FileServer :=
  mkFileServer (filesDirectory s) (fs_files s) b (disk s).
Definition setDisk (d : gmap string bytes) (s : FileServer) : FileServer :=
  mkFileServer (filesDirectory s) (fs_files s) (fs_lock s) d.

(** ** The C library's files *)

(** [fseek(f, pos, SEEK_SET); fwrite(bs, 1, n, f)] *)
Definition fileWrite (content : bytes) (pos : nat) (bs : bytes) : bytes :=
  take pos (content ++ replicate (pos - length content) x00) ++ bs ++ drop (pos + length bs) content.

(** [fseek(f, pos, SEEK_SET); fread(buf, 1, n, f)] into a buffer fresh from
    [new char[n]], whose bytes are unspecified ([junk]): a read at the end of the
    file leaves the rest of the buffer as it was. *)
Definition fileRead (junk : nat -> byte) (content : bytes) (pos n : nat) : bytes :=
  (fun i => default (junk i) (content !! (pos + i)%nat)) <$> seq 0 n.

(** ** FSFile *)

Definition newFSFile (name : string) (stripeWidth : Z) : FSFile := mkFSFile name (i32 stripeWidth) ∅.

(** The path is recorded and the host file created or emptied. *)
Definition addStrip (path : string) (index : Z) (f : FSFile) (d : gmap string bytes)
    : FSFile * gmap string bytes :=
  (mkFSFile (fs_name f) (fs_stripWidth f) (<[i32 index := path]> (stripPaths f)), <[path := []]> d).

Definition getStripPath (index : Z) (f : FSFile) : string :=
  match stripPaths f !! index with None => EmptyString | Some path => path end.

(** ** Address arithmetic of the handlers *)

(** Lines 63-64: all [int]; dividing by a width of zero is undefined. *)
Definition stripOf (addr width : Z) : outcome Z :=
  if width =? 0 then Crash
  else Ret (Z.rem (Z.quot addr (STRIP_SIZE * pfsBlockSizeInBytes)) width).

(** Lines 65-67: the end of the strip unit that [addr] is in. *)
Definition maxSizeOf (addr : Z) : Z :=
  i32 (Z.quot (i32 (addr + STRIP_SIZE * pfsBlockSizeInBytes)) (STRIP_SIZE * pfsBlockSizeInBytes)
       * (STRIP_SIZE * pfsBlockSizeInBytes)).

(** Lines 85-89: all [uint32_t]; the position in the host file. *)
Definition seekPosition (addr width : Z) : Z :=
  let stripeIndex := u32 (Z.quot addr (pfsBlockSizeInBytes * STRIP_SIZE)) in
  let w := u32 width in
  let fileOffset := u32 (u32 ((stripeIndex - stripeIndex mod w) / w * u32 (width - 1))
                         * (pfsBlockSizeInBytes * STRIP_SIZE)) in
  let fileOffset := u32 (fileOffset + u32 (stripeIndex mod w * (pfsBlockSizeInBytes * STRIP_SIZE))) in
  u32 (addr - fileOffset).

(** ** Handlers *)

(** [filesDirectory + name + '_' + to_string(id)] *)
Definition stripeAddress (dir name : string) (id : Z) : string :=
  String.append dir (String.append name (String.append "_" (pretty (Z.to_N id)))).

(** The constructor runs [rm -r] and [mkdir -p] on the server's directory. *)
Definition newFileServer (address : string) (d : gmap string bytes) : FileServer :=
  let dir := String.append (String.append "pfs_" address) "/" in
  mkFileServer dir ∅ false (filter (fun kv => String.prefix dir kv.1 = false) d).

Definition CreateFile (name : string) (stripewidth id : Z) (s : FileServer) : outcome (Status * FileServer) :=
  if fs_lock s then Blocked
  else
    let file := match fs_files s !! name with None => newFSFile name stripewidth | Some f => f end in
    let '(file', d) := addStrip (stripeAddress (filesDirectory s) name id) id file (disk s) in
    Ret (OK, setDisk d (setFsFiles (<[name := file']> (fs_files s)) s)).

(** The common beginning of the four data handlers: find the file (returning
    with the mutex held when there is none) and then its strip. *)
Definition withFile {A} (cancelled : A) (name : string) (s : FileServer)
    (k : FSFile -> outcome (Status * A * FileServer)) : outcome (Status * A * FileServer) :=
  if fs_lock s then Blocked
  else
    match fs_files s !! name with
    | None => Ret (CANCELLED, cancelled, setFsLock true s)
    | Some file => k file
    end.

Definition ReadFile (junk : nat -> byte) (name : string) (start size : Z) (s : FileServer)
    : outcome (Status * bytes * FileServer) :=
  withFile [] name s (fun file =>
    strip ← stripOf start (fs_stripWidth file);
    let maxSize := maxSizeOf start in
    let stripPath := getStripPath strip file in
    if (String.length stripPath =? 0)%nat then Ret (CANCELLED, [], s)
    else if maxSize <? i32 (start + size) then Ret (CANCELLED, [], s)
    else
      match disk s !! stripPath with
      | None => Ret (CANCELLED, [], s)
      | Some content =>
          if size <? 0 then Crash
          else Ret (OK, fileRead junk content (Z.to_nat (seekPosition start (fs_stripWidth file))) (Z.to_nat size), s)
      end).

Definition WriteFile (name : string) (start : Z) (data : bytes) (s : FileServer)
    : outcome (Status * unit * FileServer) :=
  withFile tt name s (fun file =>
    strip ← stripOf start (fs_stripWidth file);
    let maxSize := maxSizeOf start in
    let stripPath := getStripPath strip file in
    if (String.length stripPath =? 0)%nat then Ret (CANCELLED, tt, s)
    else if maxSize mod 2 ^ 64 <? (start + Z.of_nat (length data)) mod 2 ^ 64 then Ret (CANCELLED, tt, s)
    else
      content ← deref (disk s !! stripPath);
      let pos := Z.to_nat (seekPosition start (fs_stripWidth file)) in
      Ret (OK, tt, setDisk (<[stripPath := fileWrite content pos data]> (disk s)) s)).

Definition ReadBlock (junk : nat -> byte) (name : string) (addr : Z) (s : FileServer)
    : outcome (Status * bytes * FileServer) :=
  withFile [] name s (fun file =>
    strip ← stripOf addr (fs_stripWidth file);
    let maxSize := maxSizeOf addr in
    let stripPath := getStripPath strip file in
    if (String.length stripPath =? 0)%nat then Ret (CANCELLED, [], s)
    else if maxSize <? i32 (addr + pfsBlockSizeInBytes) then Ret (CANCELLED, [], s)
    else
      match disk s !! stripPath with
      | None => Ret (CANCELLED, [], s)
      | Some content =>
          Ret (OK, fileRead junk content (Z.to_nat (seekPosition addr (fs_stripWidth file)))
                     (Z.to_nat pfsBlockSizeInBytes), s)
      end).

(** The loop of lines 228-237: [n] bytes are left, the file position is [pos]; a
    dirty byte is written, another one skipped with [fseek(fdes, 1, SEEK_CUR)]. *)
Fixpoint writeDirty (n : nat) (data : bytes) (dirty : list bool) (pos : nat) (content : bytes) : outcome bytes :=
  match n with
  | O => Ret content
  | S n' =>
      match dirty with
      | [] => Crash
      | true :: dirty' =>
          match data with
          | [] => Crash
          | c :: data' => writeDirty n' data' dirty' (S pos) (fileWrite content pos [c])
          end
      | false :: dirty' => writeDirty n' (tail data) dirty' (S pos) content
      end
  end.

Definition WriteBlock (name : string) (addr : Z) (data : bytes) (dirty : list bool) (s : FileServer)
    : outcome (Status * unit * FileServer) :=
  withFile tt name s (fun file =>
    strip ← stripOf addr (fs_stripWidth file);
    let maxSize := maxSizeOf addr in
    let stripPath := getStripPath strip file in
    if (String.length stripPath =? 0)%nat then Ret (CANCELLED, tt, s)
    else if maxSize <? i32 (addr + pfsBlockSizeInBytes) then Ret (CANCELLED, tt, s)
    else
      content ← deref (disk s !! stripPath);
      let pos := Z.to_nat (seekPosition addr (fs_stripWidth file)) in
      content' ← writeDirty (Z.to_nat pfsBlockSizeInBytes) data dirty pos content;
      Ret (OK, tt, setDisk (<[stripPath := content']> (disk s)) s)).

(** ** Striping *)

(** Number of the strip unit of an address, and the address of a position of a
    strip: the layout that README.md describes. *)
Definition unitOf (addr : Z) : Z := addr / pfsBlockSizeInBytes.
Definition stripIndex (addr width : Z) : Z := unitOf addr mod width.
Definition stripPosition (addr width : Z) : Z :=
  unitOf addr / width * pfsBlockSizeInBytes + addr mod pfsBlockSizeInBytes.
Definition addressOf (strip pos width : Z) : Z :=
  (pos / pfsBlockSizeInBytes * width + strip) * pfsBlockSizeInBytes + pos mod pfsBlockSizeInBytes.

Lemma stripOf_spec addr width :
  0 <= addr -> 0 < width -> stripOf addr width = Ret (stripIndex addr width).
Proof.
  intros Ha Hw. unfold stripOf, stripIndex, unitOf. rewrite (proj2 (Z.eqb_neq _ _)) by lia. f_equal.
  change (STRIP_SIZE * pfsBlockSizeInBytes) with 1024. change pfsBlockSizeInBytes with 1024.
  rewrite Z.quot_div_nonneg by lia. apply Z.rem_mod_nonneg; [apply Z.div_pos; lia|lia].
Qed.

Lemma seekPosition_spec addr width :
  0 <= addr <= INT_MAX -> 0 < width <= INT_MAX -> seekPosition addr width = stripPosition addr width.
Proof.
  intros Ha Hw. unfold seekPosition, stripPosition, unitOf.
  change (pfsBlockSizeInBytes * STRIP_SIZE) with 1024. change pfsBlockSizeInBytes with 1024.
  rewrite Z.quot_div_nonneg by lia. rewrite (u32_id width), (u32_id (width - 1)) by word_lia.
  rewrite (u32_id (addr / 1024)) by word_lia. set (si := addr / 1024).
  assert (Hsi : addr = 1024 * si + addr mod 1024) by (apply Z.div_mod; lia).
  assert (Hm : 0 <= addr mod 1024 < 1024) by (apply Z.mod_pos_bound; lia).
  assert (Hq : si = width * (si / width) + si mod width) by (apply Z.div_mod; lia).
  assert (Hr : 0 <= si mod width < width) by (apply Z.mod_pos_bound; lia).
  set (q := si / width) in *. set (r := si mod width) in *. clearbody q r.
  assert (0 <= q) by nia.
  replace ((si - r) / width) with q by (rewrite Hq; replace (width * q + r - r) with (q * width) by lia; by rewrite Z.div_mul by lia).
  assert (0 <= q * (width - 1) <= si) by nia.
  unfold INT_MAX in *. unfold u32. rewrite (Z.mod_small (q * (width - 1))) by lia.
  rewrite (Z.mod_small (q * (width - 1) * 1024)), (Z.mod_small (r * 1024)) by lia.
  rewrite (Z.mod_small (_ + _)) by nia. rewrite Z.mod_small by nia. nia.
Qed.

Lemma maxSizeOf_spec addr :
  0 <= addr -> addr + 1024 <= INT_MAX -> maxSizeOf addr = (unitOf addr + 1) * pfsBlockSizeInBytes.
Proof.
  intros Ha Hm. unfold maxSizeOf, unitOf. change (STRIP_SIZE * pfsBlockSizeInBytes) with 1024.
  change pfsBlockSizeInBytes with 1024. rewrite (i32_id (addr + 1024)) by lia.
  rewrite Z.quot_div_nonneg by lia.
  replace (addr + 1024) with (addr + 1 * 1024) by lia. rewrite Z.div_add by lia.
  apply i32_id. word_lia.
Qed.

(** Every address has its own place, and the layout can be inverted. *)
Lemma addressOf_strip addr width :
  0 <= addr -> 0 < width -> addressOf (stripIndex addr width) (stripPosition addr width) width = addr.
Proof.
  intros Ha Hw. unfold addressOf, stripIndex, stripPosition, unitOf. change pfsBlockSizeInBytes with 1024.
  set (q := addr / 1024 / width). assert (Hm : 0 <= addr mod 1024 < 1024) by (apply Z.mod_pos_bound; lia).
  rewrite Z.div_add_l, (Z.div_small (addr mod 1024)), Z.add_0_r by lia.
  rewrite (Z.add_comm (q * 1024)), Z.mod_add, (Z.mod_small (addr mod 1024)) by lia.
  replace (q * width + (addr / 1024) mod width) with (addr / 1024) by (unfold q; rewrite (Z.div_mod (addr / 1024) width) at 1 by lia; lia).
  rewrite (Z.div_mod addr 1024) at 3 by lia. lia.
Qed.

Lemma strip_inj addr1 addr2 width :
  0 <= addr1 -> 0 <= addr2 -> 0 < width ->
  stripIndex addr1 width = stripIndex addr2 width -> stripPosition addr1 width = stripPosition addr2 width ->
  addr1 = addr2.
Proof.
  intros H1 H2 Hw Hs Hp. rewrite <- (addressOf_strip addr1 width), <- (addressOf_strip addr2 width) by done.
  congruence.
Qed.

Lemma stripPosition_nonneg addr width : 0 <= addr -> 0 < width -> 0 <= stripPosition addr width.
Proof.
  intros Ha Hw. unfold stripPosition, unitOf. change pfsBlockSizeInBytes with 1024.
  assert (0 <= addr / 1024) by (apply Z.div_pos; lia).
  assert (0 <= addr / 1024 / width) by (by apply Z.div_pos).
  pose proof (Z.mod_pos_bound addr 1024). lia.
Qed.

(** The bytes of one unit lie next to each other in one strip. *)
Lemma strip_block addr width i :
  0 <= addr -> 0 < width -> 0 <= i -> addr mod pfsBlockSizeInBytes + i < pfsBlockSizeInBytes ->
  stripIndex (addr + i) width = stripIndex addr width /\
  stripPosition (addr + i) width = stripPosition addr width + i.
Proof.
  unfold stripIndex, stripPosition, unitOf. change pfsBlockSizeInBytes with 1024. intros Ha Hw Hi Hlt.
  assert (Hd : (addr + i) / 1024 = addr / 1024) by (Z.to_euclidean_division_equations; lia).
  assert (Hm : (addr + i) mod 1024 = addr mod 1024 + i) by (Z.to_euclidean_division_equations; lia).
  rewrite Hd, Hm. split; [done|lia].
Qed.

(** ** Contents of host files *)

Lemma lookup_fileWrite content pos bs k :
  fileWrite content pos bs !! k =
  if decide (pos <= k < pos + length bs)%nat then bs !! (k - pos)%nat
  else match content !! k with Some v => Some v | None => if decide (k < pos)%nat then Some x00 else None end.
Proof.
  unfold fileWrite. set (z := replicate (pos - length content) x00).
  assert (Hl : length (take pos (content ++ z)) = pos).
  { rewrite length_take, length_app. unfold z. rewrite length_replicate. lia. }
  destruct (decide (k < pos)%nat) as [Hk|Hk].
  - rewrite decide_False by lia. rewrite lookup_app_l by (by rewrite Hl).
    rewrite lookup_take_lt by done. destruct (content !! k) eqn:Hc; [by apply lookup_app_l_Some|].
    apply lookup_ge_None in Hc. rewrite lookup_app_r by done. unfold z. apply lookup_replicate_2. lia.
  - rewrite lookup_app_r by (rewrite Hl; lia). rewrite Hl. case_decide as Hd.
    + apply lookup_app_l. lia.
    + rewrite lookup_app_r by lia. rewrite lookup_drop.
      replace (pos + length bs + (k - pos - length bs))%nat with k by lia. by destruct (content !! k).
Qed.

(** [content'] is [content] with the dirty bytes of [data] written at [pos]; bytes
    of a gap that opens behind the old end are zero. *)
Definition overlaid (content content' : bytes) (pos : nat) (data : bytes) (dirty : list bool) : Prop :=
  forall k,
    if decide (pos <= k /\ dirty !! (k - pos) = Some true)%nat then content' !! k = data !! (k - pos)%nat
    else match content !! k with
         | Some v => content' !! k = Some v
         | None => content' !! k = None \/ content' !! k = Some x00
         end.

Lemma overlaid_step_dirty content content' pos c data dirty :
  overlaid (fileWrite content pos [c]) content' (S pos) data dirty ->
  overlaid content content' pos (c :: data) (true :: dirty).
Proof.
  intros H k. specialize (H k). rewrite lookup_fileWrite in H. cbn [length] in H.
  destruct (decide (k = pos)) as [->|Hne].
  - rewrite Nat.sub_diag. rewrite (decide_True (P := (pos <= pos)%nat /\ _)) by done. cbn.
    rewrite decide_False in H by lia. rewrite decide_True in H by lia. by rewrite Nat.sub_diag in H.
  - destruct (decide (pos < k)%nat) as [Hlt|Hge].
    + replace (k - pos)%nat with (S (k - S pos)) by lia. cbn.
      rewrite (decide_False (P := (pos <= k < pos + 1)%nat)) in H by lia.
      rewrite (decide_False (P := (k < pos)%nat)) in H by lia.
      destruct (decide (S pos <= k /\ dirty !! (k - S pos) = Some true)%nat) as [[_ Hd]|Hd].
      * by rewrite decide_True by (split; [lia|done]).
      * rewrite decide_False by (intros [_ ?]; apply Hd; split; [lia|done]). by destruct (content !! k).
    + rewrite decide_False in H by lia. rewrite decide_False by lia.
      rewrite decide_False in H by lia. rewrite decide_True in H by lia.
      destruct (content !! k); [done|by right].
Qed.

Lemma overlaid_step_clean content content' pos data dirty :
  overlaid content content' (S pos) (tail data) dirty -> overlaid content content' pos data (false :: dirty).
Proof.
  intros H k. specialize (H k). destruct (decide (pos < k)%nat) as [Hlt|Hge].
  - replace (k - pos)%nat with (S (k - S pos)) by lia. cbn.
    destruct (decide (S pos <= k /\ dirty !! (k - S pos) = Some true)%nat) as [[_ Hd]|Hd].
    + rewrite decide_True by (split; [lia|done]). rewrite H. by destruct data.
    + rewrite decide_False by (intros [_ ?]; apply Hd; split; [lia|done]). done.
  - rewrite decide_False in H by lia. rewrite decide_False; [done|].
    intros [? Hd]. replace k with pos in Hd by lia. by rewrite Nat.sub_diag in Hd.
Qed.

Lemma writeDirty_spec n data dirty pos content :
  length data = n -> length dirty = n ->
  exists content', writeDirty n data dirty pos content = Ret content' /\
    overlaid content content' pos data dirty.
Proof.
  revert data dirty pos content. induction n as [|n IH]; intros data dirty pos content Hda Hdi; cbn.
  - apply nil_length_inv in Hda, Hdi. subst. exists content. split; [done|]. intros k.
    rewrite decide_False by (by intros [_ ?]). destruct (content !! k); auto.
  - destruct dirty as [|[] dirty]; [done|..]; destruct data as [|c data]; try done; cbn in Hda, Hdi |- *.
    + destruct (IH data dirty (S pos) (fileWrite content pos [c])) as (content' & -> & Ho); [lia..|].
      exists content'. split; [done|]. by apply overlaid_step_dirty.
    + destruct (IH data dirty (S pos) content) as (content' & -> & Ho); [lia..|].
      exists content'. split; [done|]. by apply overlaid_step_clean.
Qed.

Lemma lookup_fileRead junk content pos n i :
  (i < n)%nat -> fileRead junk content pos n !! i = Some (default (junk i) (content !! (pos + i)%nat)).
Proof.
  intros Hi. unfold fileRead. rewrite list_lookup_fmap, lookup_seq_lt by done. done.
Qed.

Lemma length_fileRead junk content pos n : length (fileRead junk content pos n) = n.
Proof. unfold fileRead. by rewrite length_fmap, length_seq. Qed.

(** ** Paths of stripes *)

Fixpoint noUnderscore (s : string) : bool :=
  match s with
  | EmptyString => true
  | String c s' => negb (Ascii.eqb c "_"%char) && noUnderscore s'
  end.

Lemma append_cons c s1 s2 : String.append (String c s1) s2 = String c (String.append s1 s2).
Proof. done. Qed.

Lemma append_nil s : String.append EmptyString s = s.
Proof. done. Qed.

Lemma noUnderscore_app s1 s2 : noUnderscore (String.append s1 s2) = noUnderscore s1 && noUnderscore s2.
Proof. induction s1 as [|c s1 IH]; [done|]. rewrite append_cons. cbn. by rewrite IH, andb_assoc. Qed.

Lemma noUnderscore_pretty (n : N) : noUnderscore (pretty n) = true.
Proof.
  unfold pretty, pretty_N. case_decide; [done|].
  assert (Hgo : forall x s, noUnderscore s = true -> noUnderscore (pretty_N_go x s) = true); [|by apply Hgo].
  intros x. induction (N.lt_wf_0 x) as [x _ IH]; intros s Hs.
  assert (x = 0 \/ 0 < x)%N as [->|?] by lia; [done|].
  rewrite pretty_N_go_step by done. apply IH; [by apply N.div_lt|].
  cbn. rewrite Hs. unfold pretty_N_char. by repeat case_match.
Qed.

Lemma append_underscore_inj n1 n2 d1 d2 :
  noUnderscore d1 = true -> noUnderscore d2 = true ->
  String.append n1 (String "_" d1) = String.append n2 (String "_" d2) -> n1 = n2 /\ d1 = d2.
Proof.
  intros H1 H2. revert n2. induction n1 as [|c n1 IH]; intros [|c' n2];
    rewrite ?append_cons, ?append_nil; intros Heq.
  - by injection Heq as ->.
  - injection Heq as _ ->. rewrite noUnderscore_app in H1. cbn in H1. by rewrite andb_false_r in H1.
  - injection Heq as _ <-. rewrite noUnderscore_app in H2. cbn in H2. by rewrite andb_false_r in H2.
  - injection Heq as Hc Hr. destruct (IH n2 Hr) as [-> ->]. by rewrite Hc.
Qed.

(** Different stripes live in different host files, whatever the file names. *)
Lemma stripeAddress_inj dir n1 n2 i1 i2 :
  stripeAddress dir n1 i1 = stripeAddress dir n2 i2 -> n1 = n2 /\ Z.to_N i1 = Z.to_N i2.
Proof.
  unfold stripeAddress. intros H. apply (inj (String.append dir)) in H.
  apply append_underscore_inj in H as [-> H]; [|apply noUnderscore_pretty..].
  split; [done|]. by apply (inj pretty) in H.
Qed.

Lemma stripeAddress_nonempty dir n i : (String.length (stripeAddress dir n i) =? 0)%nat = false.
Proof.
  unfold stripeAddress. by destruct dir; [destruct n|].
Qed.

(** ** Invariant and abstract state *)

(** Between requests: the mutex is free, and every recorded stripe has its host
    file under its own path. *)
Definition serverOk (s : FileServer) : Prop :=
  fs_lock s = false /\
  forall name f i path, fs_files s !! name = Some f -> stripPaths f !! i = Some path ->
    path = stripeAddress (filesDirectory s) name i /\ is_Some (disk s !! path).

(** The byte of a PFS file that this server stores at a logical address. *)
Definition stored (s : FileServer) (name : string) (addr : Z) : option byte :=
  f ← fs_files s !! name;
  path ← stripPaths f !! stripIndex addr (fs_stripWidth f);
  content ← disk s !! path;
  content !! Z.to_nat (stripPosition addr (fs_stripWidth f)).

(** The server has the strip that [addr] belongs to. *)
Definition servesAddr (s : FileServer) (name : string) (addr : Z) : Prop :=
  exists f, fs_files s !! name = Some f /\ 0 < fs_stripWidth f <= INT_MAX /\
    is_Some (stripPaths f !! stripIndex addr (fs_stripWidth f)).

(** An address that a block request may carry. *)
Definition blockAddr (addr : Z) : Prop :=
  0 <= addr /\ addr + pfsBlockSizeInBytes <= INT_MAX /\ addr mod pfsBlockSizeInBytes = 0.

Lemma blockAddr_fits addr : blockAddr addr -> (maxSizeOf addr <? i32 (addr + pfsBlockSizeInBytes)) = false.
Proof.
  intros (Ha & Hm & Hal). apply Z.ltb_ge. change pfsBlockSizeInBytes with 1024 in *.
  rewrite maxSizeOf_spec, i32_id by lia. unfold unitOf. change pfsBlockSizeInBytes with 1024.
  rewrite (Z.div_mod addr 1024) at 1 by lia. lia.
Qed.

Lemma blockAddr_range addr : blockAddr addr -> 0 <= addr <= INT_MAX.
Proof. intros (Ha & Hm & _). change pfsBlockSizeInBytes with 1024 in *. lia. Qed.

(** What every data handler finds for an address it serves. *)
Lemma servesAddr_inv s name addr :
  serverOk s -> servesAddr s name addr -> 0 <= addr <= INT_MAX ->
  exists f content,
    fs_lock s = false /\ fs_files s !! name = Some f /\ 0 < fs_stripWidth f <= INT_MAX /\
    stripOf addr (fs_stripWidth f) = Ret (stripIndex addr (fs_stripWidth f)) /\
    stripPaths f !! stripIndex addr (fs_stripWidth f) =
      Some (stripeAddress (filesDirectory s) name (stripIndex addr (fs_stripWidth f))) /\
    getStripPath (stripIndex addr (fs_stripWidth f)) f =
      stripeAddress (filesDirectory s) name (stripIndex addr (fs_stripWidth f)) /\
    disk s !! stripeAddress (filesDirectory s) name (stripIndex addr (fs_stripWidth f)) = Some content /\
    seekPosition addr (fs_stripWidth f) = stripPosition addr (fs_stripWidth f).
Proof.
  intros [Hlock Hok] (f & Hf & Hw & [path Hp]) Ha.
  destruct (Hok name f _ path Hf Hp) as [Hpath [content Hc]]. subst path.
  exists f, content. repeat split; [done|done|lia|lia|by apply stripOf_spec; lia|done| |done|].
  - unfold getStripPath. by rewrite Hp.
  - apply seekPosition_spec; lia.
Qed.

(** ** The handlers *)

Lemma newFileServer_ok address d : serverOk (newFileServer address d).
Proof. split; [done|]. intros name f i path Hf. cbn in Hf. by rewrite lookup_empty in Hf. Qed.

(** CreateFile: the stripe is there and empty; a file the server knows already
    keeps its width. *)
Lemma CreateFile_lemma name width id s :
  serverOk s -> 0 <= id <= INT_MAX ->
  exists s' f, CreateFile name width id s = Ret (OK, s') /\ serverOk s' /\
    filesDirectory s' = filesDirectory s /\
    fs_files s' !! name = Some f /\
    stripPaths f !! id = Some (stripeAddress (filesDirectory s) name id) /\
    disk s' = <[stripeAddress (filesDirectory s) name id := []]> (disk s) /\
    (forall other, other <> name -> fs_files s' !! other = fs_files s !! other) /\
    match fs_files s !! name with
    | None => fs_stripWidth f = i32 width /\ (forall i, i <> id -> stripPaths f !! i = None)
    | Some f0 => fs_stripWidth f = fs_stripWidth f0 /\ (forall i, i <> id -> stripPaths f !! i = stripPaths f0 !! i)
    end.
Proof.
  intros [Hlock Hok] Hid. unfold CreateFile. rewrite Hlock. cbn. rewrite i32_id by done.
  set (file := match fs_files s !! name with None => _ | Some f => f end).
  eexists _, (mkFSFile (fs_name file) (fs_stripWidth file)
    (<[id := stripeAddress (filesDirectory s) name id]> (stripPaths file))).
  split; [done|]. cbn. split.
  { split; [done|]. cbn. intros n' f i path Hf Hp.
    assert (Hcase : (n' = name /\ i = id) \/ exists f0, fs_files s !! n' = Some f0 /\ stripPaths f0 !! i = Some path).
    { destruct (decide (n' = name)) as [->|Hne]; [|right; rewrite lookup_insert_ne in Hf by done; by eauto].
      rewrite lookup_insert_eq in Hf. injection Hf as <-. cbn in Hp.
      destruct (decide (i = id)); [by left|right]. rewrite lookup_insert_ne in Hp by done.
      unfold file in Hp. destruct (fs_files s !! name) as [f0|]; [by eauto|]. cbn in Hp. by rewrite lookup_empty in Hp. }
    destruct Hcase as [[-> ->]|(f0 & Hf0 & Hp0)].
    - rewrite lookup_insert_eq in Hf. injection Hf as <-. cbn in Hp. rewrite lookup_insert_eq in Hp.
      injection Hp as <-. by rewrite lookup_insert_eq.
    - destruct (Hok n' f0 i path Hf0 Hp0) as [Hpath Hd]. split; [done|].
      rewrite lookup_insert. case_decide; [by eauto|done]. }
  split; [done|]. split; [apply lookup_insert_eq|]. split; [apply lookup_insert_eq|]. split; [done|]. split.
  { intros other Hne. by rewrite lookup_insert_ne. }
  unfold file. destruct (fs_files s !! name); cbn; (split; [done|]); intros i Hne;
    rewrite lookup_insert_ne by done; [done|by rewrite lookup_empty].
Qed.

Lemma withFile_found {A} (c : A) name s f k :
  fs_lock s = false -> fs_files s !! name = Some f -> withFile c name s k = k f.
Proof. unfold withFile. by intros -> ->. Qed.

(** ReadBlock returns the stored bytes of the block; where nothing is stored the
    byte of the reply is unspecified. *)
Lemma ReadBlock_lemma junk name addr s :
  serverOk s -> servesAddr s name addr -> blockAddr addr ->
  exists data, ReadBlock junk name addr s = Ret (OK, data, s) /\
    length data = Z.to_nat pfsBlockSizeInBytes /\
    forall i, (i < Z.to_nat pfsBlockSizeInBytes)%nat ->
      data !! i = Some (default (junk i) (stored s name (addr + Z.of_nat i))).
Proof.
  intros Hok Hsrv Haddr.
  destruct (servesAddr_inv s name addr Hok Hsrv (blockAddr_range addr Haddr)) as (f & content & Hl & Hf & Hw & Hstrip & Hsp & Hget & Hc & Hseek).
  unfold ReadBlock. rewrite (withFile_found _ _ _ f) by done. rewrite Hstrip, Ret_bind, Hget, stripeAddress_nonempty, (blockAddr_fits addr Haddr), Hc, Hseek.
  eexists. split; [done|]. split; [apply length_fileRead|]. intros i Hi. rewrite lookup_fileRead by done.
  do 2 f_equal. unfold stored. rewrite Hf. cbn [mbind option_bind].
  destruct Haddr as (Ha & _ & Hal).
  destruct (strip_block addr (fs_stripWidth f) (Z.of_nat i)) as [Hi1 Hi2]; [lia|lia|lia|rewrite Hal; lia|].
  rewrite Hi1, Hi2, Hsp. cbn [mbind option_bind]. rewrite Hc. cbn [mbind option_bind]. f_equal.
  pose proof (stripPosition_nonneg addr (fs_stripWidth f)). lia.
Qed.

(** The run of WriteBlock: one host file is overwritten. *)
Lemma WriteBlock_run name addr data dirty s :
  serverOk s -> servesAddr s name addr -> blockAddr addr ->
  length data = Z.to_nat pfsBlockSizeInBytes -> length dirty = Z.to_nat pfsBlockSizeInBytes ->
  exists f content content',
    fs_files s !! name = Some f /\ 0 < fs_stripWidth f <= INT_MAX /\
    let w := fs_stripWidth f in
    let path := stripeAddress (filesDirectory s) name (stripIndex addr w) in
    stripPaths f !! stripIndex addr w = Some path /\ disk s !! path = Some content /\
    overlaid content content' (Z.to_nat (stripPosition addr w)) data dirty /\
    WriteBlock name addr data dirty s = Ret (OK, tt, setDisk (<[path := content']> (disk s)) s).
Proof.
  intros Hok Hsrv Haddr Hld Hldi.
  destruct (servesAddr_inv s name addr Hok Hsrv (blockAddr_range addr Haddr)) as (f & content & Hl & Hf & Hw & Hstrip & Hsp & Hget & Hc & Hseek).
  destruct (writeDirty_spec _ data dirty (Z.to_nat (stripPosition addr (fs_stripWidth f))) content Hld Hldi)
    as (content' & Hwd & Hov).
  exists f, content, content'. split; [done|]. split; [done|]. cbv zeta. split; [done|]. split; [done|]. split; [done|].
  unfold WriteBlock. rewrite (withFile_found _ _ _ f) by done.
  rewrite Hstrip, Ret_bind, Hget, stripeAddress_nonempty, (blockAddr_fits addr Haddr), Hc, Hseek.
  by rewrite deref_Some, Ret_bind, Hwd, Ret_bind.
Qed.

(** The state after one host file was overlaid with the dirty bytes of [data],
    which lie in one unit from [addr] on: the dirty bytes are stored and every other
    byte that was stored, in this or in any other file, is still there; bytes that
    were not stored may turn up as zeros. *)
Lemma overlay_stored name addr data dirty s f content content' :
  serverOk s -> fs_files s !! name = Some f -> 0 < fs_stripWidth f -> 0 <= addr ->
  addr mod pfsBlockSizeInBytes + Z.of_nat (length dirty) <= pfsBlockSizeInBytes ->
  let w := fs_stripWidth f in
  let path := stripeAddress (filesDirectory s) name (stripIndex addr w) in
  stripPaths f !! stripIndex addr w = Some path -> disk s !! path = Some content ->
  overlaid content content' (Z.to_nat (stripPosition addr w)) data dirty ->
  let s' := setDisk (<[path := content']> (disk s)) s in
  serverOk s' /\
  (forall i, dirty !! i = Some true -> stored s' name (addr + Z.of_nat i) = data !! i) /\
  (forall n a, 0 <= a -> (n = name -> forall i, a = addr + Z.of_nat i -> dirty !! i <> Some true) ->
    match stored s n a with
    | Some v => stored s' n a = Some v
    | None => stored s' n a = None \/ stored s' n a = Some x00
    end).
Proof.
  intros Hok Hf Hw Ha Hlen w path Hsp Hc Hov s'.
  pose proof (stripPosition_nonneg addr w Ha Hw) as Hpos.
  assert (Hunit : forall i, (i < length dirty)%nat ->
    stripIndex (addr + Z.of_nat i) w = stripIndex addr w /\
    stripPosition (addr + Z.of_nat i) w = stripPosition addr w + Z.of_nat i) by (intros i Hi; apply strip_block; lia).
  split.
  { destruct Hok as [Hl Hok]. split; [done|]. cbn. intros n f' i p Hf' Hp.
    destruct (Hok n f' i p Hf' Hp) as [-> Hd]. split; [done|].
    rewrite lookup_insert. case_decide; [by eauto|done]. }
  assert (Hhere : forall a, stripIndex a w = stripIndex addr w ->
    stored s' name a = content' !! Z.to_nat (stripPosition a w) /\
    stored s name a = content !! Z.to_nat (stripPosition a w)).
  { intros a Hsi. unfold stored, s'. cbn. rewrite Hf. cbn. fold w. rewrite Hsi, Hsp. cbn.
    by rewrite lookup_insert_eq, Hc. }
  split.
  - intros i Hi. destruct (Hunit i) as [H1 H2]; [by eapply lookup_lt_Some|].
    destruct (Hhere (addr + Z.of_nat i) H1) as [-> _]. rewrite H2.
    specialize (Hov (Z.to_nat (stripPosition addr w + Z.of_nat i))).
    replace (Z.to_nat (stripPosition addr w + Z.of_nat i)) with (Z.to_nat (stripPosition addr w) + i)%nat in * by lia.
    replace (Z.to_nat (stripPosition addr w) + i - Z.to_nat (stripPosition addr w))%nat with i in Hov by lia.
    rewrite decide_True in Hov by (split; [lia|done]). done.
  - intros n a Han Hclean.
    destruct (decide (n = name /\ stripIndex a w = stripIndex addr w)) as [[-> Hsi]|Hother].
    + destruct (Hhere a Hsi) as [-> ->]. specialize (Hov (Z.to_nat (stripPosition a w))).
      pose proof (stripPosition_nonneg a w Han ltac:(lia)) as Hpa.
      rewrite decide_False in Hov; [done|]. intros [Hge Hd].
      set (i := (Z.to_nat (stripPosition a w) - Z.to_nat (stripPosition addr w))%nat) in *.
      apply (Hclean eq_refl i); [|done]. destruct (Hunit i) as [H1 H2]; [by eapply lookup_lt_Some|].
      apply (strip_inj _ _ w); [lia..|congruence|]. rewrite H2. unfold i. lia.
    + assert (stored s' n a = stored s n a) as ->; [|by destruct (stored s n a); auto].
      unfold stored, s'. cbn. destruct (fs_files s !! n) as [f'|] eqn:Hf'; [|done]. cbn.
      destruct (stripPaths f' !! _) as [p|] eqn:Hp; [|done]. cbn.
      destruct Hok as [_ Hok]. destruct (Hok n f' _ p Hf' Hp) as [Hpp _].
      rewrite lookup_insert_ne; [done|]. intros Heq. rewrite Hpp in Heq.
      apply stripeAddress_inj in Heq as [<- Hid]. apply Hother. split; [done|].
      rewrite Hf in Hf'. injection Hf' as <-. fold w in Hid. unfold stripIndex in *.
      apply Z2N.inj in Hid; [done|apply Z.mod_pos_bound; lia..].
Qed.

(** WriteBlock stores the dirty bytes of the block and nothing else. *)
Lemma WriteBlock_lemma name addr data dirty s :
  serverOk s -> servesAddr s name addr -> blockAddr addr ->
  length data = Z.to_nat pfsBlockSizeInBytes -> length dirty = Z.to_nat pfsBlockSizeInBytes ->
  exists s', WriteBlock name addr data dirty s = Ret (OK, tt, s') /\ serverOk s' /\
    fs_files s' = fs_files s /\ filesDirectory s' = filesDirectory s /\
    (forall i, dirty !! i = Some true -> stored s' name (addr + Z.of_nat i) = data !! i) /\
    (forall n a, 0 <= a -> (n = name -> forall i, a = addr + Z.of_nat i -> dirty !! i <> Some true) ->
      match stored s n a with
      | Some v => stored s' n a = Some v
      | None => stored s' n a = None \/ stored s' n a = Some x00
      end).
Proof.
  intros Hok Hsrv Haddr Hld Hldi.
  destruct (WriteBlock_run name addr data dirty s Hok Hsrv Haddr Hld Hldi)
    as (f & content & content' & Hf & Hw & Hsp & Hc & Hov & ->).
  destruct Haddr as (Ha & Hm & Hal).
  destruct (overlay_stored name addr data dirty s f content content') as (? & ? & ?);
    [done|done|lia|done|rewrite Hal, Hldi, Z2Nat.id by (unfold_config; lia); lia|done..|].
  eexists. split; [done|]. split; [done|]. split; [done|]. split; [done|]. by split.
Qed.

(** ** ReadFile and WriteFile *)

(** A range of bytes within one strip unit. *)
Definition unitRange (addr : Z) (n : nat) : Prop :=
  0 <= addr /\ addr + pfsBlockSizeInBytes <= INT_MAX /\
  addr mod pfsBlockSizeInBytes + Z.of_nat n <= pfsBlockSizeInBytes.

Lemma unitRange_addr addr n : unitRange addr n -> 0 <= addr <= INT_MAX.
Proof. intros (? & ? & _). change pfsBlockSizeInBytes with 1024 in *. lia. Qed.

Lemma unitRange_fits addr n : unitRange addr n -> addr + Z.of_nat n <= maxSizeOf addr /\ 0 <= maxSizeOf addr <= INT_MAX.
Proof.
  intros (Ha & Hm & Hn). change pfsBlockSizeInBytes with 1024 in *. rewrite maxSizeOf_spec by lia.
  unfold unitOf. change pfsBlockSizeInBytes with 1024. split; word_lia.
Qed.

(** A plain write overlays the file with bytes that are all dirty. *)
Lemma fileWrite_overlaid content pos data :
  overlaid content (fileWrite content pos data) pos data (replicate (length data) true).
Proof.
  intros k. rewrite lookup_fileWrite. destruct (decide (pos <= k < pos + length data)%nat) as [Hk|Hk].
  - rewrite decide_True; [done|]. split; [lia|]. apply lookup_replicate. split; [done|lia].
  - rewrite decide_False; [|intros [? [_ ?]%lookup_replicate]; lia].
    destruct (content !! k); [done|]. case_decide; auto.
Qed.

Lemma ReadFile_lemma junk name addr n s :
  serverOk s -> servesAddr s name addr -> unitRange addr n ->
  exists data, ReadFile junk name addr (Z.of_nat n) s = Ret (OK, data, s) /\ length data = n /\
    forall i, (i < n)%nat -> data !! i = Some (default (junk i) (stored s name (addr + Z.of_nat i))).
Proof.
  intros Hok Hsrv Hr. pose proof (unitRange_fits _ _ Hr) as [Hfit Hmax].
  destruct (servesAddr_inv s name addr Hok Hsrv (unitRange_addr _ _ Hr))
    as (f & content & Hl & Hf & Hw & Hstrip & Hsp & Hget & Hc & Hseek).
  pose proof (unitRange_addr _ _ Hr) as Haddr.
  unfold ReadFile. rewrite (withFile_found _ _ _ f) by done.
  rewrite Hstrip, Ret_bind, Hget, stripeAddress_nonempty, Hc, Hseek.
  rewrite (i32_id (addr + _)) by lia. rewrite (proj2 (Z.ltb_ge _ _)) by lia. rewrite (proj2 (Z.ltb_ge _ 0)) by lia.
  rewrite Nat2Z.id. eexists. split; [done|]. split; [apply length_fileRead|]. intros i Hi.
  rewrite lookup_fileRead by done. destruct Hr as (Ha & _ & Hn).
  destruct (strip_block addr (fs_stripWidth f) (Z.of_nat i)) as [Hi1 Hi2]; [lia..|].
  do 2 f_equal. unfold stored. rewrite Hf. cbn [mbind option_bind].
  rewrite Hi1, Hi2, Hsp. cbn [mbind option_bind]. rewrite Hc. cbn [mbind option_bind]. f_equal.
  pose proof (stripPosition_nonneg addr (fs_stripWidth f)). lia.
Qed.

Lemma WriteFile_lemma name addr data s :
  serverOk s -> servesAddr s name addr -> unitRange addr (length data) ->
  exists s', WriteFile name addr data s = Ret (OK, tt, s') /\ serverOk s' /\
    fs_files s' = fs_files s /\
    (forall i, (i < length data)%nat -> stored s' name (addr + Z.of_nat i) = data !! i) /\
    (forall n a, 0 <= a -> (n = name -> ~ (addr <= a < addr + Z.of_nat (length data))) ->
      match stored s n a with
      | Some v => stored s' n a = Some v
      | None => stored s' n a = None \/ stored s' n a = Some x00
      end).
Proof.
  intros Hok Hsrv Hr. pose proof (unitRange_fits _ _ Hr) as [Hfit Hmax]. pose proof (unitRange_addr _ _ Hr) as Haddr.
  destruct (servesAddr_inv s name addr Hok Hsrv Haddr) as (f & content & Hl & Hf & Hw & Hstrip & Hsp & Hget & Hc & Hseek).
  unfold WriteFile. rewrite (withFile_found _ _ _ f) by done.
  rewrite Hstrip, Ret_bind, Hget, stripeAddress_nonempty, Hc, Hseek, deref_Some, Ret_bind.
  rewrite !Z.mod_small by word_lia. rewrite (proj2 (Z.ltb_ge _ _)) by lia.
  destruct Hr as (Ha & _ & Hn).
  destruct (overlay_stored name addr data (replicate (length data) true) s f content
    (fileWrite content (Z.to_nat (stripPosition addr (fs_stripWidth f))) data)) as (H1 & H2 & H3);
    [done|done|lia|done|by rewrite length_replicate|done|done|apply fileWrite_overlaid|].
  eexists. split; [done|]. split; [done|]. split; [done|]. split.
  - intros i Hi. apply H2. by apply lookup_replicate.
  - intros n a Ha' Hclean. apply H3; [done|]. intros -> i -> [_ Hi]%lookup_replicate. apply Hclean; [done|lia].
Qed.

(** ** Properties *)

(** A server with the first of the three stripes of the file [f]. *)
Definition exampleServer : FileServer :=
  mkFileServer "pfs_x/" (<["f"%string := mkFSFile "f" 3 (<[0 := "pfs_x/f_0"%string]> ∅)]> ∅) false
    (<["pfs_x/f_0"%string := []]> ∅).

Lemma exampleServer_created : CreateFile "f" 3 0 (newFileServer "x" ∅) = Ret (OK, exampleServer).
Proof. reflexivity. Qed.

Lemma exampleServer_ok : serverOk exampleServer.
Proof.
  destruct (CreateFile_lemma "f" 3 0 (newFileServer "x" ∅)) as (s' & f & Hc & Hok & _);
    [apply newFileServer_ok|word_lia|]. rewrite exampleServer_created in Hc. by injection Hc as <-.
Qed.

Lemma exampleServer_serves addr : 0 <= addr < 1024 -> servesAddr exampleServer "f" addr.
Proof.
  intros Ha. eexists. split; [reflexivity|]. cbn. split; [word_lia|].
  unfold stripIndex, unitOf. change pfsBlockSizeInBytes with 1024. rewrite Z.div_small by done. by eexists.
Qed.

Lemma blockAddr_0 : blockAddr 0.
Proof. unfold blockAddr. change pfsBlockSizeInBytes with 1024. split; [lia|]. split; [word_lia|done]. Qed.

(** C29: the address arithmetic of the handlers is the round-robin layout: the unit
    of an address selects the strip, and the units of a strip are stored without
    gaps; no intermediate [uint32_t] wraps in a way that matters. *)
Theorem seekPosition_is_layout addr width :
  0 <= addr <= INT_MAX -> 0 < width <= INT_MAX ->
  stripOf addr width = Ret (stripIndex addr width) /\ seekPosition addr width = stripPosition addr width.
Proof. intros Ha Hw. split; [apply stripOf_spec; lia|by apply seekPosition_spec]. Qed.

Lemma seekPosition_is_layout_witness :
  stripOf 5000 3 = Ret (stripIndex 5000 3) /\ seekPosition 5000 3 = stripPosition 5000 3.
Proof. apply seekPosition_is_layout; word_lia. Defined.

(** C30: different addresses of a file go to different places: to another strip or
    to another position in the host file. *)
Theorem striping_injective addr1 addr2 width :
  0 <= addr1 <= INT_MAX -> 0 <= addr2 <= INT_MAX -> 0 < width <= INT_MAX -> addr1 <> addr2 ->
  (stripOf addr1 width, seekPosition addr1 width) <> (stripOf addr2 width, seekPosition addr2 width).
Proof.
  intros H1 H2 Hw Hne. rewrite !stripOf_spec, !seekPosition_spec by lia. intros [= Hs Hp].
  apply Hne. by apply (strip_inj addr1 addr2 width); [lia..| |].
Qed.

Lemma striping_injective_witness :
  (stripOf 1031 3, seekPosition 1031 3) <> (stripOf 4103 3, seekPosition 4103 3).
Proof. apply striping_injective; [word_lia|word_lia|word_lia|done]. Defined.

(** Stripes of different files, and different stripes of one file, are stored
    under different paths, whatever the file names. *)
Theorem stripe_paths_distinct dir n1 n2 i1 i2 :
  0 <= i1 -> 0 <= i2 -> (n1, i1) <> (n2, i2) -> stripeAddress dir n1 i1 <> stripeAddress dir n2 i2.
Proof. intros H1 H2 Hne [-> Hi]%stripeAddress_inj. apply Hne. f_equal. by apply Z2N.inj. Qed.

(** CreateFile keeps the server consistent, records the stripe, creates its host
    file empty and touches no other host file and no other PFS file. *)
Theorem CreateFile_adds_stripe name width id s :
  serverOk s -> 0 <= id <= INT_MAX ->
  exists s' f, CreateFile name width id s = Ret (OK, s') /\ serverOk s' /\
    fs_files s' !! name = Some f /\
    stripPaths f !! id = Some (stripeAddress (filesDirectory s) name id) /\
    disk s' = <[stripeAddress (filesDirectory s) name id := []]> (disk s) /\
    (forall other, other <> name -> fs_files s' !! other = fs_files s !! other).
Proof.
  intros Hok Hid. destruct (CreateFile_lemma name width id s Hok Hid) as (s' & f & ? & ? & ? & ? & ? & ? & ? & _).
  by exists s', f.
Qed.

(** C21: writing a block and reading it back: the dirty bytes come back as written,
    every other byte as it was stored before; only a byte that was never stored may
    come back as zero or unspecified. *)
Theorem WriteBlock_ReadBlock junk name addr data dirty s :
  serverOk s -> servesAddr s name addr -> blockAddr addr ->
  length data = Z.to_nat pfsBlockSizeInBytes -> length dirty = Z.to_nat pfsBlockSizeInBytes ->
  exists s' back, WriteBlock name addr data dirty s = Ret (OK, tt, s') /\
    ReadBlock junk name addr s' = Ret (OK, back, s') /\ length back = Z.to_nat pfsBlockSizeInBytes /\
    forall i, (i < Z.to_nat pfsBlockSizeInBytes)%nat ->
      if decide (dirty !! i = Some true) then back !! i = data !! i
      else match stored s name (addr + Z.of_nat i) with
           | Some v => back !! i = Some v
           | None => back !! i = Some (junk i) \/ back !! i = Some x00
           end.
Proof.
  intros Hok Hsrv Haddr Hld Hldi.
  destruct (WriteBlock_lemma name addr data dirty s Hok Hsrv Haddr Hld Hldi) as (s' & Hw & Hok' & Hf & Hdir & Hdirty & Hclean).
  assert (Hsrv' : servesAddr s' name addr) by (unfold servesAddr in *; by rewrite Hf).
  destruct (ReadBlock_lemma junk name addr s' Hok' Hsrv' Haddr) as (back & Hr & Hlen & Hback).
  exists s', back. split; [done|]. split; [done|]. split; [done|]. intros i Hi. rewrite (Hback i Hi). case_decide as Hd.
  - rewrite (Hdirty i Hd). rewrite <- Hld in Hi. by destruct (lookup_lt_is_Some_2 data i Hi) as [c ->].
  - specialize (Hclean name (addr + Z.of_nat i)). destruct Haddr as (Ha & _).
    destruct (stored s name _) as [v|]; [rewrite Hclean; [done|lia|]|destruct Hclean as [->| ->]; [lia| |by left|by right]];
      intros _ j Hj; by replace j with i by lia.
Qed.

Lemma WriteBlock_ReadBlock_witness :
  exists s' back, WriteBlock "f" 0 (replicate 1024 x41) (replicate 1024 true) exampleServer = Ret (OK, tt, s') /\
    ReadBlock (fun _ => x00) "f" 0 s' = Ret (OK, back, s').
Proof.
  destruct (WriteBlock_ReadBlock (fun _ => x00) "f" 0 (replicate 1024 x41) (replicate 1024 true) exampleServer)
    as (s' & back & H1 & H2 & _); [apply exampleServer_ok|by apply exampleServer_serves|apply blockAddr_0|
    apply length_replicate|apply length_replicate|].
  exists s', back. split; [exact H1|exact H2].
Defined.

(** WriteBlock changes nothing else: every byte that is not a dirty byte of the
    block keeps its stored value, in this file and in every other file (a byte of
    the same strip that was not stored may become a stored zero). *)
Theorem WriteBlock_frame name addr data dirty s :
  serverOk s -> servesAddr s name addr -> blockAddr addr ->
  length data = Z.to_nat pfsBlockSizeInBytes -> length dirty = Z.to_nat pfsBlockSizeInBytes ->
  exists s', WriteBlock name addr data dirty s = Ret (OK, tt, s') /\ serverOk s' /\
    forall n a, 0 <= a -> (n = name -> forall i, a = addr + Z.of_nat i -> dirty !! i <> Some true) ->
      match stored s n a with
      | Some v => stored s' n a = Some v
      | None => stored s' n a = None \/ stored s' n a = Some x00
      end.
Proof.
  intros Hok Hsrv Haddr Hld Hldi.
  destruct (WriteBlock_lemma name addr data dirty s Hok Hsrv Haddr Hld Hldi) as (s' & ? & ? & _ & _ & _ & ?).
  by exists s'.
Qed.

(** WriteFile and ReadFile, the byte-granular handlers: what is written within
    one strip unit is read back. *)
Theorem WriteFile_ReadFile junk name addr data s :
  serverOk s -> servesAddr s name addr -> unitRange addr (length data) ->
  exists s', WriteFile name addr data s = Ret (OK, tt, s') /\ serverOk s' /\
    ReadFile junk name addr (Z.of_nat (length data)) s' = Ret (OK, data, s').
Proof.
  intros Hok Hsrv Hr. destruct (WriteFile_lemma name addr data s Hok Hsrv Hr) as (s' & Hw & Hok' & Hf & Hst & _).
  assert (Hsrv' : servesAddr s' name addr) by (unfold servesAddr in *; by rewrite Hf).
  destruct (ReadFile_lemma junk name addr (length data) s' Hok' Hsrv' Hr) as (back & Hrd & Hlen & Hback).
  exists s'. split; [done|]. split; [done|]. rewrite Hrd. do 3 f_equal. apply list_eq_same_length with (length data); [done..|].
  intros i x y Hi Hx Hy. rewrite (Hback i Hi), (Hst i Hi), Hy in Hx. by injection Hx.
Qed.

(** ** Requests that the server does not survive *)

(** A data request for a file the server does not know is refused with the mutex
    of the server held, and every later request of any kind then waits for ever. *)
Lemma unknown_file_blocks_server junk name addr s :
  fs_lock s = false -> fs_files s !! name = None ->
  exists s', ReadBlock junk name addr s = Ret (CANCELLED, [], s') /\
    forall name' addr' width id n data dirty,
      CreateFile name' width id s' = Blocked /\
      ReadFile junk name' addr' n s' = Blocked /\ WriteFile name' addr' data s' = Blocked /\
      ReadBlock junk name' addr' s' = Blocked /\ WriteBlock name' addr' data dirty s' = Blocked.
Proof.
  intros Hl Hn. exists (setFsLock true s). unfold ReadBlock at 1, withFile. rewrite Hl, Hn. by split.
Qed.

(** A file that is deleted and created again with another stripe width keeps the
    old width on the servers that know it: the manager and the servers then disagree
    about where the bytes of the file are. *)
Theorem recreated_file_keeps_width name width id s f0 :
  serverOk s -> 0 <= id <= INT_MAX -> fs_files s !! name = Some f0 ->
  exists s' f, CreateFile name width id s = Ret (OK, s') /\ fs_files s' !! name = Some f /\
    fs_stripWidth f = fs_stripWidth f0.
Proof.
  intros Hok Hid Hf0. destruct (CreateFile_lemma name width id s Hok Hid) as (s' & f & ? & _ & _ & ? & _ & _ & _ & Hw).
  rewrite Hf0 in Hw. exists s', f. tauto.
Qed.
