(* ===== verification/MetadataManager.v ===== *)
(** The metadata manager: include/metadata_manager.h and
    metadata_manager/metadata_manager.cpp.

    The handlers keep the flat name space of the file system, the set of clients
    that have each file open and, through MMFile.v, the tokens. A handler takes
    [filesLock] and, in the methods of a file, the mutex of the file; a request that
    finds one of them held is [Blocked]. It answers with the gRPC status, the reply
    message and the new state. The file servers that [CreateFile] calls are reached
    through the interface [StripeService], the clients that [GetPermission] waits for
    through [ClientService]. *)

From Stdlib Require Import String.
From stdpp Require Import gmap strings pretty.
From S2P Require Import Prelude Config Permission File Tokens MMFile FileServer.
#[local] Open Scope Z_scope.

(** ** The interface of the file servers *)

(** What the manager needs of the file servers: the CreateFile call on the stub
    number [i]. [W] is the state of all servers. *)
Class StripeService (W : Type) : Type :=
  createStripe : Z -> string -> Z -> Z -> W -> outcome (Status * W).

(** What a correct installation promises about the call. *)
Class StripeServiceOk (W : Type) `{StripeService W} : Type := {
  servicesOk : W -> Prop;
  createStripe_ok i name width id w :
    servicesOk w -> 0 <= i < NUM_FILE_SERVERS -> 0 <= id <= INT_MAX ->
    exists w', createStripe i name width id w = Ret (OK, w') /\ servicesOk w' }.

(** The installation: a list of file servers, one per stub. *)
#[export] Instance fileServers_service : StripeService (list FileServer) :=
  fun i name width id ws =>
    s ← deref (ws !! Z.to_nat i);
    r ← FileServer.CreateFile name width id s;
    Ret (r.1, <[Z.to_nat i := r.2]> ws).

(** ** The interface of the clients *)

(** The thread function [revokePermit] (metadata_manager.cpp:208-221): the
    RevokePermission call on the stub with address [ip], up to its reply. *)
Class ClientService (W : Type) : Type :=
  revokePermit : string -> RevokeRequest -> W -> outcome W.

(** What the clients promise: their answers leave the file servers in order. *)
Class ClientServiceOk (W : Type) `{StripeServiceOk W, ClientService W} : Prop :=
  revokePermit_keeps ip r w w' : servicesOk w -> revokePermit ip r w = Ret w' -> servicesOk w'.

(** ** Data *)

(** [StatusReply], [FileStatReply] and [PermissionReply] of protos/message.proto. *)
Record StatusReply : Type := mkStatusReply { sr_error : Z }.

Record FileStatReply : Type := mkFileStatReply {
  fr_error : Z;
  fr_lastModified : Z;
  fr_creationTime : Z;
  fr_fileSize : Z;
  fr_stripWidth : Z }.

Record PermissionReply : Type := mkPermissionReply {
  pr_error : Z;
  pr_start : Z;
  pr_end : Z }.

(** A reply that no handler has touched. *)
Definition emptyStatusReply : StatusReply := mkStatusReply 0.
Definition emptyFileStatReply : FileStatReply := mkFileStatReply 0 0 0 0 0.

(** A stub is the address it was created for. *)
Record MetadataManager : Type := mkMetadataManager {
  files : gmap string MMFile;
  clientStubs : gmap string string;
  filesLock : bool }.

Definition setFiles (m : gmap string MMFile) (s : MetadataManager) : MetadataManager :=
  mkMetadataManager m (clientStubs s) (filesLock s).

Definition newMetadataManager : MetadataManager := mkMetadataManager ∅ ∅ false.

(** ** Handlers *)

Definition ClientStart (peer ip : string) (s : MetadataManager) : Status * StatusReply * MetadataManager :=
  (OK, emptyStatusReply, mkMetadataManager (files s) (<[peer := ip]> (clientStubs s)) (filesLock s)).

(** Lines 53-58: the new object; [time(0)] is read twice. *)
Definition createdFile (name : string) (stripewidth now1 now2 : Z) : MMFile :=
  newMMFile (mkFile name now2 now1 0 (i32 stripewidth) [] false).

(** Lines 61-78: one stripe per unit of width, on the servers in turn. The
    [assert] stops the manager when a server refuses. *)
Definition createStripes {W} `{StripeService W} (name : string) (stripewidth : Z) (w : W) : outcome W :=
  foldM (fun (i : nat) w =>
    r ← createStripe (Z.of_nat i mod NUM_FILE_SERVERS) name stripewidth (Z.of_nat i) w;
    _ ← assert_ (match r.1 with OK => true | CANCELLED => false end);
    Ret r.2) (seq 0 (Z.to_nat stripewidth)) w.

Definition CreateFile {W} `{StripeService W} (name : string) (stripewidth now1 now2 : Z)
    (s : MetadataManager) (w : W) : outcome (Status * StatusReply * MetadataManager * W) :=
  if filesLock s then Blocked
  else
    match files s !! name with
    | Some _ => Ret (CANCELLED, mkStatusReply ERROR_ALREADY_EXISTS, s, w)
    | None =>
        w' ← createStripes name stripewidth w;
        Ret (OK, emptyStatusReply,
             setFiles (<[name := createdFile name stripewidth now1 now2]> (files s)) s, w')
    end.

(** The error codes of the failing branches go to a message that is never sent. *)
Definition OpenFile (peer name : string) (s : MetadataManager)
    : outcome (Status * FileStatReply * MetadataManager) :=
  if filesLock s then Blocked
  else
    match files s !! name with
    | None => Ret (CANCELLED, emptyFileStatReply, s)
    | Some file =>
        if mm_lock file then Blocked
        else
          let '(opened, file') := open peer file in
          if negb opened then Ret (CANCELLED, emptyFileStatReply, s)
          else Ret (OK, mkFileStatReply 0 (getLastModifiedTime (base file')) (getCreationTime (base file'))
                          (getSize (base file')) (getStripWidth (base file')),
                    setFiles (<[name := file']> (files s)) s)
    end.

(** The size and the time are recorded before the manager checks that the peer
    has the file open. *)
Definition CloseFile (peer name : string) (hasmodified : bool) (size now : Z) (s : MetadataManager)
    : outcome (Status * StatusReply * MetadataManager) :=
  if filesLock s then Blocked
  else
    match files s !! name with
    | None => Ret (CANCELLED, emptyStatusReply, s)
    | Some file =>
        let file1 :=
          if hasmodified
          then mkMMFile (setSize (Z.max size (getSize (base file))) (setLastModifiedTime now (base file)))
                 (clientPermissions file) (mm_lock file)
          else file in
        if mm_lock file1 then Blocked
        else
          let '(closed, file2) := close peer file1 in
          let s' := setFiles (<[name := file2]> (files s)) s in
          if negb closed then Ret (CANCELLED, emptyStatusReply, s') else Ret (OK, emptyStatusReply, s')
    end.

Definition DeleteFile (peer name : string) (s : MetadataManager)
    : outcome (Status * StatusReply * MetadataManager) :=
  if filesLock s then Blocked
  else
    match files s !! name with
    | None => Ret (CANCELLED, mkStatusReply ERROR_DOES_NOT_EXIST, s)
    | Some file =>
        if mm_lock file then Blocked
        else if isOpen file then Ret (CANCELLED, mkStatusReply ERROR_DELETE_OPEN_FILE, s)
        else Ret (OK, emptyStatusReply, setFiles (delete name (files s)) s)
    end.

(** A thread for the stub of the client; a client that never called ClientStart has a
    null stub. *)
Definition sendRevokePermissionRequest (stubs : gmap string string) (r : RevokeRequest)
    : outcome (string * RevokeRequest) :=
  ip ← deref (stubs !! rv_peer r);
  Ret (ip, r).

(** [isOpenedBy] takes the mutex of the file while [filesLock] is held;
    [waitAndGetPermissionFor] runs without [filesLock]. *)
Definition GetPermission {W} `{ClientService W} (peer name : string) (start end_ : Z) (iswrite : bool)
    (s : MetadataManager) (w : W) : outcome (Status * PermissionReply * MetadataManager * W) :=
  if filesLock s then Blocked
  else
    match files s !! name with
    | None => Ret (CANCELLED, mkPermissionReply ERROR_DOES_NOT_EXIST 0 0, s, w)
    | Some file =>
        if mm_lock file then Blocked
        else if negb (isOpenedBy peer file)
        then Ret (CANCELLED, mkPermissionReply ERROR_GET_PERMISSION_UNOPENED_FILE 0 0, s, w)
        else
          r ← waitAndGetPermissionFor (sendRevokePermissionRequest (clientStubs s)) (fun x => revokePermit x.1 x.2)
                peer start end_ iswrite file w;
          let '(permit, file', w') := r in
          Ret (OK, mkPermissionReply 0 (getStart permit) (getEnd permit),
               setFiles (<[name := file']> (files s)) s, w')
    end.

Definition GetFileDesc (name : string) (s : MetadataManager)
    : outcome (Status * FileStatReply * MetadataManager) :=
  if filesLock s then Blocked
  else
    match files s !! name with
    | None => Ret (CANCELLED, mkFileStatReply ERROR_DOES_NOT_EXIST 0 0 0 0, s)
    | Some file =>
        Ret (OK, mkFileStatReply 0 (getLastModifiedTime (base file)) (getCreationTime (base file))
                   (getSize (base file)) 0, s)
    end.

(** ** GetPermission apart from its wait *)

(** The answer, the threads that the handler joins before it gives the answer, and the
    new state. *)
Definition permissionAnswer (peer name : string) (start end_ : Z) (iswrite : bool) (s : MetadataManager)
    : outcome (Status * PermissionReply * list (string * RevokeRequest) * MetadataManager) :=
  if filesLock s then Blocked
  else
    match files s !! name with
    | None => Ret (CANCELLED, mkPermissionReply ERROR_DOES_NOT_EXIST 0 0, [], s)
    | Some file =>
        if mm_lock file then Blocked
        else if negb (isOpenedBy peer file)
        then Ret (CANCELLED, mkPermissionReply ERROR_GET_PERMISSION_UNOPENED_FILE 0 0, [], s)
        else
          r ← recordGrant peer start end_ iswrite file;
          let '(permit, requests, file') := r in
          sent ← sendAll (sendRevokePermissionRequest (clientStubs s)) requests;
          Ret (OK, mkPermissionReply 0 (getStart permit) (getEnd permit), sent,
               setFiles (<[name := file']> (files s)) s)
    end.

Lemma GetPermission_split {W} `{ClientService W} peer name st en iw s (w : W) :
  GetPermission peer name st en iw s w =
    (r ← permissionAnswer peer name st en iw s;
     w' ← foldM (fun x => revokePermit x.1 x.2) r.1.2 w;
     Ret (r.1.1, r.2, w')).
Proof.
  unfold GetPermission, permissionAnswer. destruct (filesLock s); [reflexivity|]. destruct (files s !! name) as [f|]; [|reflexivity].
  destruct (mm_lock f) eqn:Hl; [reflexivity|]. destruct (negb _); [reflexivity|]. rewrite waitAndGetPermissionFor_split by done.
  destruct (recordGrant _ _ _ _ f) as [[[permit rs] f']| |]; [|reflexivity..]. cbn [mbind outcome_bind fst snd].
  destruct (sendAll _ rs) as [sent| |]; [|reflexivity..]. cbn [mbind outcome_bind fst snd]. by destruct (foldM _ sent w).
Qed.

(** ** The interface is implemented *)

#[export] Instance fileServers_ok : StripeServiceOk (list FileServer).
Proof.
  refine {| servicesOk ws := length ws = Z.to_nat NUM_FILE_SERVERS /\ Forall serverOk ws |}.
  intros i name width id ws [Hlen Hall] Hi Hid. unfold createStripe, fileServers_service.
  destruct (lookup_lt_is_Some_2 ws (Z.to_nat i)) as [s Hs]; [unfold_config; lia|]. rewrite Hs.
  assert (Hok : serverOk s) by (rewrite Forall_lookup in Hall; by eapply Hall).
  destruct (CreateFile_lemma name width id s Hok Hid) as (s' & f & Hc & Hok' & _).
  rewrite deref_Some, Ret_bind, Hc, Ret_bind. eexists. split; [done|].
  split; [by rewrite length_insert|by apply Forall_insert].
Defined.

Section Handlers.
Context {W : Type} `{StripeServiceOk W, !ClientService W}.
Implicit Types (s : MetadataManager) (w : W).

Lemma createStripes_ok name width w :
  width <= INT_MAX -> servicesOk w -> exists w', createStripes name width w = Ret w' /\ servicesOk w'.
Proof.
  intros Hw. unfold createStripes.
  assert (Hall : Forall (fun i => Z.of_nat i <= INT_MAX) (seq 0 (Z.to_nat width))).
  { apply Forall_forall. intros i Hi%elem_of_seq. lia. }
  revert w Hall. induction (seq 0 (Z.to_nat width)) as [|i l IH]; intros w Hall Hok; cbn [foldM]; [by eauto|].
  apply Forall_cons in Hall as [Hi Hall].
  destruct (createStripe_ok (Z.of_nat i mod NUM_FILE_SERVERS) name width (Z.of_nat i) w) as (w' & -> & Hok');
    [done|apply Z.mod_pos_bound; unfold_config; lia|lia|].
  cbn. by apply IH.
Qed.

(** ** Requests *)

(** A request of a client, with what the manager learns from its environment: the
    peer name and the clock. *)
Inductive Request : Type :=
| ReqStart (peer ip : string)
| ReqCreate (name : string) (stripewidth now1 now2 : Z)
| ReqOpen (peer name : string)
| ReqClose (peer name : string) (hasmodified : bool) (size now : Z)
| ReqDelete (peer name : string)
| ReqPermission (peer name : string) (start end_ : Z) (iswrite : bool)
| ReqDesc (name : string).

Inductive Reply : Type :=
| StatusMsg (m : StatusReply)
| FileMsg (m : FileStatReply)
| PermissionMsg (m : PermissionReply).

(** The dispatch of the service: status, reply message and state. *)
Definition handle (r : Request) (s : MetadataManager) (w : W) : outcome (Status * Reply * MetadataManager * W) :=
  match r with
  | ReqStart peer ip => let '(st, rep, s') := ClientStart peer ip s in Ret (st, StatusMsg rep, s', w)
  | ReqCreate name width t1 t2 => '(st, rep, s', w') ← CreateFile name width t1 t2 s w; Ret (st, StatusMsg rep, s', w')
  | ReqOpen peer name => '(st, rep, s') ← OpenFile peer name s; Ret (st, FileMsg rep, s', w)
  | ReqClose peer name m size t => '(st, rep, s') ← CloseFile peer name m size t s; Ret (st, StatusMsg rep, s', w)
  | ReqDelete peer name => '(st, rep, s') ← DeleteFile peer name s; Ret (st, StatusMsg rep, s', w)
  | ReqPermission peer name a b iw => '(st, rep, s', w') ← GetPermission peer name a b iw s w; Ret (st, PermissionMsg rep, s', w')
  | ReqDesc name => '(st, rep, s') ← GetFileDesc name s; Ret (st, FileMsg rep, s', w)
  end.

(** The [uint32_t] fields of the messages. *)
Definition requestOk (r : Request) : Prop :=
  match r with
  | ReqClose _ _ _ size _ => is_u32 size
  | ReqPermission _ _ a b _ => is_u32 a /\ is_u32 b
  | ReqCreate _ width _ _ => is_u32 width
  | _ => True
  end.

(** ** Abstract specification of the name space *)

Record FileInfo : Type := mkFileInfo {
  fi_size : Z;
  fi_mtime : Z;
  fi_ctime : Z;
  fi_width : Z;
  fi_openers : gset string }.

Definition absFile (f : MMFile) : FileInfo :=
  mkFileInfo (getSize (base f)) (getLastModifiedTime (base f)) (getCreationTime (base f))
    (getStripWidth (base f)) (dom (clientPermissions f)).

Definition abs (s : MetadataManager) : gmap string FileInfo := absFile <$> files s.

(** What each request answers and does to a flat directory; tokens are invisible here,
    but for the range [range] of a permission that is granted. *)
Definition specHandle (r : Request) (range : Z * Z) (m : gmap string FileInfo) : Status * Reply * gmap string FileInfo :=
  let status code := StatusMsg (mkStatusReply code) in
  let none code := FileMsg (mkFileStatReply code 0 0 0 0) in
  let permission code p := PermissionMsg (mkPermissionReply code p.1 p.2) in
  match r with
  | ReqStart _ _ => (OK, status 0, m)
  | ReqCreate name width t1 t2 =>
      if decide (is_Some (m !! name)) then (CANCELLED, status ERROR_ALREADY_EXISTS, m)
      else (OK, status 0, <[name := mkFileInfo 0 t2 t1 (i32 width) ∅]> m)
  | ReqOpen peer name =>
      match m !! name with
      | Some i => if decide (peer ∈ fi_openers i) then (CANCELLED, none 0, m)
                  else (OK, FileMsg (mkFileStatReply 0 (fi_mtime i) (fi_ctime i) (fi_size i) (fi_width i)),
                        <[name := mkFileInfo (fi_size i) (fi_mtime i) (fi_ctime i) (fi_width i)
                                    ({[peer]} ∪ fi_openers i)]> m)
      | None => (CANCELLED, none 0, m)
      end
  | ReqClose peer name hasmod size t =>
      match m !! name with
      | Some i =>
          let i' := mkFileInfo (if hasmod then Z.max size (fi_size i) else fi_size i)
                      (if hasmod then t else fi_mtime i) (fi_ctime i) (fi_width i) (fi_openers i ∖ {[peer]}) in
          (if decide (peer ∈ fi_openers i) then OK else CANCELLED, status 0, <[name := i']> m)
      | None => (CANCELLED, status 0, m)
      end
  | ReqDelete _ name =>
      match m !! name with
      | Some i => if decide (fi_openers i = ∅) then (OK, status 0, delete name m)
                  else (CANCELLED, status ERROR_DELETE_OPEN_FILE, m)
      | None => (CANCELLED, status ERROR_DOES_NOT_EXIST, m)
      end
  | ReqPermission peer name _ _ _ =>
      match m !! name with
      | Some i => if decide (peer ∈ fi_openers i) then (OK, permission 0 range, m)
                  else (CANCELLED, permission ERROR_GET_PERMISSION_UNOPENED_FILE (0, 0), m)
      | None => (CANCELLED, permission ERROR_DOES_NOT_EXIST (0, 0), m)
      end
  | ReqDesc name =>
      match m !! name with
      | Some i => (OK, FileMsg (mkFileStatReply 0 (fi_mtime i) (fi_ctime i) (fi_size i) 0), m)
      | None => (CANCELLED, none ERROR_DOES_NOT_EXIST, m)
      end
  end.

(** A permission is granted for the range asked for, or for the whole file. *)
Definition rangeOf (r : Request) (range : Z * Z) : Prop :=
  match r with
  | ReqPermission _ _ a b _ => range = (a, b) \/ range = (0, INT_MAX)
  | _ => True
  end.

(** ** Refinement *)

Lemma abs_lookup s name : abs s !! name = absFile <$> files s !! name.
Proof. unfold abs. apply lookup_fmap. Qed.

Lemma abs_setFiles_insert s name f : abs (setFiles (<[name := f]> (files s)) s) = <[name := absFile f]> (abs s).
Proof. unfold abs. cbn. apply fmap_insert. Qed.

Lemma recordGrant_absFile peer st en iw f permit msgs f' :
  is_u32 st -> is_u32 en -> recordGrant peer st en iw f = Ret (permit, msgs, f') -> absFile f' = absFile f.
Proof.
  intros Hst Hen Hr.
  destruct (recordGrant_inv _ _ _ _ _ _ _ _ Hst Hen Hr) as (mine & mine' & Hm & Hb & _ & Hm' & Ho & _).
  unfold absFile. rewrite Hb. f_equal. apply set_eq. intros p. rewrite !elem_of_dom.
  destruct (decide (p = peer)) as [->|Hne]; [rewrite Hm, Hm'; split; by eauto|].
  rewrite Ho by done. by rewrite fmap_is_Some.
Qed.

(** The range of a permission. *)
Lemma recordGrant_range peer st en iw f permit msgs f' :
  is_u32 st -> is_u32 en -> recordGrant peer st en iw f = Ret (permit, msgs, f') ->
  (getStart permit, getEnd permit) = (st, en) \/ (getStart permit, getEnd permit) = (0, INT_MAX).
Proof.
  intros Hst Hen Hr. destruct (recordGrant_inv _ _ _ _ _ _ _ _ Hst Hen Hr) as (_ & _ & _ & _ & _ & _ & _ & _ & Hp).
  destruct Hp as [[_ ->]|[_ ->]]; [by left|by right].
Qed.

Lemma GetPermission_refines peer name a b iw s w st rep s' w' :
  is_u32 a -> is_u32 b -> filesLock s = false -> GetPermission peer name a b iw s w = Ret (st, rep, s', w') ->
  filesLock s' = false /\ exists range, (range = (a, b) \/ range = (0, INT_MAX)) /\
    specHandle (ReqPermission peer name a b iw) range (abs s) = (st, PermissionMsg rep, abs s').
Proof.
  intros Ha Hb Hl. rewrite GetPermission_split. unfold permissionAnswer. rewrite Hl. cbn [specHandle].
  pose proof (abs_lookup s name) as Habs. destruct (files s !! name) as [f|] eqn:Hf; cbn [fmap option_fmap option_map] in Habs.
  2: { intros [= <- <- <- _]. split; [done|]. exists (a, b). rewrite Habs. by split; [left|]. }
  destruct (mm_lock f); [done|]. unfold isOpenedBy. destruct (clientPermissions f !! peer) as [l|] eqn:Hp; cbn [negb].
  - intros ([[rep0 sent] s0] & E & Hh)%bind_Ret.
    apply bind_Ret in E as ([[permit msgs] f'] & Hg & E). apply bind_Ret in E as (sent0 & _ & [= <- <- <-]).
    apply bind_Ret in Hh as (w1 & _ & [= <- <- <- _]). split; [done|]. exists (getStart permit, getEnd permit).
    split; [by eapply recordGrant_range|]. rewrite Habs, decide_True by (apply elem_of_dom; by eauto).
    rewrite abs_setFiles_insert, (recordGrant_absFile _ _ _ _ _ _ _ _ Ha Hb Hg). by rewrite insert_id.
  - intros [= <- <- <- _]. split; [done|]. exists (a, b). rewrite Habs, decide_False by (by apply not_elem_of_dom). by split; [left|].
Qed.

(** The requests that do not look at the tokens. *)
Definition isPermission (r : Request) : bool := match r with ReqPermission _ _ _ _ _ => true | _ => false end.

Lemma directory_refines r s w st rep s' w' :
  requestOk r -> filesLock s = false -> isPermission r = false ->
  handle r s w = Ret (st, rep, s', w') -> filesLock s' = false /\ specHandle r (0, 0) (abs s) = (st, rep, abs s').
Proof.
  intros Hr Hl Hno. destruct r as [peer ip|name width t1 t2|peer name|peer name hm size t|peer name|peer name a b iw|name];
    [| | | | |done|]; cbn [handle specHandle requestOk] in *; rewrite ?abs_lookup.
  - intros [= <- <- <- <-]. done.
  - unfold CreateFile. rewrite Hl. destruct (files s !! name) as [f|]; cbn [fmap option_fmap option_map].
    + intros [= <- <- <- <-]. rewrite decide_True by (by eauto). done.
    + intros Hh. apply bind_Ret in Hh as (v & (w1 & _ & E)%bind_Ret & Hh). injection E as <-.
      injection Hh as <- <- <- <-. rewrite decide_False by (cbn; by intros [? ?]). split; [done|]. by rewrite abs_setFiles_insert.
  - unfold OpenFile. rewrite Hl. destruct (files s !! name) as [f|]; cbn; [|by intros [= <- <- <- <-]]. destruct (mm_lock f); [done|].
    unfold open. destruct (clientPermissions f !! peer) as [l|] eqn:Hp; cbn; intros [= <- <- <- <-].
    + rewrite decide_True by (apply elem_of_dom; by eauto). done.
    + rewrite decide_False by (by apply not_elem_of_dom). split; [done|]. rewrite abs_setFiles_insert.
      unfold absFile; cbn. by rewrite dom_insert_L.
  - unfold CloseFile. rewrite Hl. destruct (files s !! name) as [f|]; cbn; [|by intros [= <- <- <- <-]].
    replace (mm_lock (if hm then _ else f)) with (mm_lock f) by (by destruct hm). destruct (mm_lock f); [done|].
    unfold close.
    replace (clientPermissions (if hm then _ else f)) with (clientPermissions f) by (by destruct hm).
    destruct (clientPermissions f !! peer) as [l|] eqn:Hp; cbn; intros [= <- <- <- <-].
    + rewrite decide_True by (apply elem_of_dom; by eauto). split; [done|]. rewrite abs_setFiles_insert.
      unfold absFile; cbn. rewrite dom_delete_L. destruct hm; cbn; [|done].
      unfold getSize; cbn. by rewrite !(u32_id (Z.max _ _)) by auto with pfs.
    + rewrite decide_False by (by apply not_elem_of_dom). split; [done|]. rewrite abs_setFiles_insert.
      assert (dom (clientPermissions f) ∖ {[peer]} = dom (clientPermissions f)) as ->
        by (apply not_elem_of_dom in Hp; set_solver).
      destruct hm; cbn; [|done]. unfold absFile, getSize; cbn. by rewrite !(u32_id (Z.max _ _)) by auto with pfs.
  - unfold DeleteFile. rewrite Hl. destruct (files s !! name) as [f|]; cbn; [|by intros [= <- <- <- <-]]. destruct (mm_lock f); [done|].
    unfold isOpen. destruct (decide (clientPermissions f = ∅)) as [He|He]; cbn; intros [= <- <- <- <-].
    + rewrite decide_True by (by rewrite He, dom_empty_L). split; [done|]. unfold abs; cbn. by rewrite fmap_delete.
    + rewrite decide_False by (intros ?%dom_empty_inv_L; done). done.
  - unfold GetFileDesc. rewrite Hl. by destruct (files s !! name) as [f|]; cbn; intros [= <- <- <- <-].
Qed.

(** A handler that returned: [filesLock] was free and is free again, and the answer and
    the directory are as specified. *)
Lemma handle_refines r s w st rep s' w' :
  requestOk r -> filesLock s = false -> handle r s w = Ret (st, rep, s', w') ->
  filesLock s' = false /\ exists range, rangeOf r range /\ specHandle r range (abs s) = (st, rep, abs s').
Proof.
  intros Hr Hl Hh. destruct (isPermission r) eqn:Hno.
  - destruct r as [| | | | |peer name a b iw|]; try done. cbn [handle requestOk rangeOf] in *.
    apply bind_Ret in Hh as ([[[st0 rep0] s0] w0] & Hg & [= <- <- <- <-]). destruct Hr. by eapply GetPermission_refines.
  - destruct (directory_refines r s w st rep s' w' Hr Hl Hno Hh) as [? ?]. split; [done|]. exists (0, 0). split; [by destruct r|done].
Qed.

(** ** Invariant of the service *)

(** The mutexes are free, every client with an open file can be reached, and the
    tokens of every file are exclusive. *)
Definition managerOk (s : MetadataManager) : Prop :=
  filesLock s = false /\
  forall name f, files s !! name = Some f ->
    mm_lock f = false /\ allBounded (clientPermissions f) /\ exclusive (clientPermissions f) /\
    forall p, is_Some (clientPermissions f !! p) -> is_Some (clientStubs s !! p).

(** What the client library guarantees: [initialize] calls ClientStart before
    anything else, and a stripe width is positive as an [int]. *)
Definition clientProtocol (r : Request) (s : MetadataManager) : Prop :=
  match r with
  | ReqOpen peer _ => is_Some (clientStubs s !! peer)
  | ReqCreate _ width _ _ => width <= INT_MAX
  | _ => True
  end.

Lemma managerOk_insert s name f :
  managerOk s -> mm_lock f = false -> allBounded (clientPermissions f) -> exclusive (clientPermissions f) ->
  (forall p, is_Some (clientPermissions f !! p) -> is_Some (clientStubs s !! p)) ->
  managerOk (setFiles (<[name := f]> (files s)) s).
Proof.
  intros [Hl Hf] ????. split; [done|]. intros name' f'. cbn. rewrite lookup_insert.
  case_decide; [by intros [= <-]|by apply Hf].
Qed.

Lemma revokeRequests_peer peer fname st en iw m r :
  r ∈ revokeRequests peer fname st en iw m -> is_Some (m !! rv_peer r).
Proof.
  unfold revokeRequests. intros ([p l] & -> & Hin)%list_elem_of_fmap. cbn.
  apply list_elem_of_In, filter_In in Hin as [Hin _].
  apply list_elem_of_In, elem_of_map_to_list in Hin. by exists l.
Qed.

(** All stubs are there, so all requests are sent. *)
Lemma sendAll_total stubs rs :
  (forall r, r ∈ rs -> is_Some (stubs !! rv_peer r)) ->
  exists sent, sendAll (sendRevokePermissionRequest stubs) rs = Ret sent /\ sent.*2 = rs.
Proof.
  intros Hrs. enough (Hgen : forall acc, exists sent, foldM (fun r acc => x ← sendRevokePermissionRequest stubs r; Ret (acc ++ [x])) rs acc =
    Ret (acc ++ sent) /\ sent.*2 = rs) by apply (Hgen []).
  induction rs as [|r rs IH]; intros acc; cbn [foldM].
  { exists []. by rewrite app_nil_r. }
  destruct (Hrs r) as [ip Hip]; [by constructor|].
  assert (sendRevokePermissionRequest stubs r = Ret (ip, r)) as -> by (unfold sendRevokePermissionRequest; by rewrite Hip).
  rewrite !Ret_bind.
  destruct (IH (fun r' Hr' => Hrs r' (list_elem_of_further _ _ _ Hr')) (acc ++ [(ip, r)])) as (sent & -> & Hs).
  exists ((ip, r) :: sent). rewrite <- app_assoc. cbn. by rewrite Hs.
Qed.

(** Every request that was sent went to the stub of its client. *)
Lemma sendAll_inv stubs rs sent :
  sendAll (sendRevokePermissionRequest stubs) rs = Ret sent -> Forall2 (fun r x => x.2 = r /\ stubs !! rv_peer r = Some x.1) rs sent.
Proof.
  enough (Hgen : forall acc out, foldM (fun r acc => x ← sendRevokePermissionRequest stubs r; Ret (acc ++ [x])) rs acc = Ret out ->
    exists sent, out = acc ++ sent /\ Forall2 (fun r x => x.2 = r /\ stubs !! rv_peer r = Some x.1) rs sent)
    by (by intros (? & -> & ?)%Hgen).
  induction rs as [|r rs IH]; intros acc out; cbn [foldM].
  { intros [= <-]. exists []. by rewrite app_nil_r. }
  intros Hr. apply bind_Ret in Hr as (acc1 & Hs & Hr). unfold sendRevokePermissionRequest in Hs.
  apply bind_Ret in Hs as (x & (ip & Hip%deref_Ret & [= <-])%bind_Ret & [= <-]).
  apply IH in Hr as (sent' & -> & Hall). exists ((ip, r) :: sent'). rewrite <- app_assoc. split; [done|]. by constructor.
Qed.

Lemma mm_open_inv peer f s :
  allBounded (clientPermissions f) -> exclusive (clientPermissions f) ->
  (forall p, is_Some (clientPermissions f !! p) -> is_Some (clientStubs s !! p)) ->
  is_Some (clientStubs s !! peer) ->
  allBounded (clientPermissions (open peer f).2) /\ exclusive (clientPermissions (open peer f).2) /\
  (forall p, is_Some (clientPermissions (open peer f).2 !! p) -> is_Some (clientStubs s !! p)).
Proof.
  intros Hb He Hs Hp. destruct (mm_step_invariant f (open peer f).2 (mm_step_open peer f) Hb He) as [? ?].
  repeat split; [done..|]. intros p. unfold open. destruct (clientPermissions f !! peer); cbn; [apply Hs|].
  rewrite lookup_insert. case_decide; [by subst|apply Hs].
Qed.

(** The threads that the handler of a request joins before it answers. *)
Definition revocations (r : Request) (s : MetadataManager) : list (string * RevokeRequest) :=
  match r with
  | ReqPermission peer name a b iw =>
      match permissionAnswer peer name a b iw s with Ret (_, _, sent, _) => sent | _ => [] end
  | _ => []
  end.

(** Apart from its wait, a permission is always answered. *)
Lemma permissionAnswer_total peer name a b iw s :
  is_u32 a -> is_u32 b -> managerOk s ->
  exists ans sent s', permissionAnswer peer name a b iw s = Ret (ans, sent, s') /\ managerOk s'.
Proof.
  intros Ha Hbb Hok. assert (Hok' := Hok). destruct Hok' as [Hl Hf]. unfold permissionAnswer. rewrite Hl.
  destruct (files s !! name) as [f|] eqn:Hn; [|by eexists _, _, _]. destruct (Hf name f Hn) as (Hm0 & Hb & He & Hs). rewrite Hm0.
  unfold isOpenedBy. destruct (clientPermissions f !! peer) as [mine|] eqn:Hm; [|by eexists _, _, _]. cbn [negb].
  destruct (recordGrant_spec peer a b iw f mine Ha Hbb Hm) as (permit & mine' & f' & Hg & _).
  pose proof (mm_step_invariant f f' (mm_step_grant _ _ _ _ _ _ _ _ Ha Hbb Hg) Hb He) as [Hb' He'].
  pose proof (recordGrant_absFile _ _ _ _ _ _ _ _ Ha Hbb Hg) as Habs. pose proof (recordGrant_lock _ _ _ _ _ _ _ _ Hg) as Hm1.
  rewrite Hg, Ret_bind.
  destruct (sendAll_total (clientStubs s) (revokeRequests peer (getName (base f)) a b iw (clientPermissions f)))
    as (sent & -> & _); [intros r Hr%revokeRequests_peer; by apply Hs|].
  eexists _, _, _. split; [done|]. apply managerOk_insert; [done|congruence|done|done|].
  intros p Hp'. apply Hs. apply elem_of_dom in Hp'. apply elem_of_dom. unfold absFile in Habs. congruence.
Qed.

(** A request of a client that follows the protocol is answered when the threads that
    its handler joins end, and the invariant is kept. *)
Lemma handle_answers r s w :
  requestOk r -> clientProtocol r s -> managerOk s -> servicesOk w ->
  match foldM (fun x => revokePermit x.1 x.2) (revocations r s) w with
  | Ret w1 => exists st rep s' w', handle r s w = Ret (st, rep, s', w') /\ managerOk s' /\ (servicesOk w1 -> servicesOk w')
  | Blocked => handle r s w = Blocked
  | Crash => handle r s w = Crash
  end.
Proof.
  intros Hr Hp Hok Hw. assert (Hok' := Hok). destruct Hok' as [Hl Hf].
  destruct r as [peer ip|name width t1 t2|peer name|peer name hm size t|peer name|peer name a b iw|name];
    cbn [handle revocations foldM requestOk clientProtocol] in *.
  - eexists _, _, _, _. split; [done|]. split; [|done]. split; [done|]. cbn. intros name f Hn.
    destruct (Hf name f Hn) as (? & ? & ? & Hs). repeat split; [done..|]. intros p Hq.
    rewrite lookup_insert. case_decide; [by eauto|by apply Hs].
  - unfold CreateFile. rewrite Hl. destruct (files s !! name) as [f|] eqn:Hn; [eexists _, _, _, _; split; [done|by split]|].
    destruct (createStripes_ok name width w Hp Hw) as (w' & -> & Hw'). eexists _, _, _, _. split; [done|]. split; [|done].
    apply managerOk_insert; [done|done|..]; cbn.
    + by intros ?? ?%lookup_empty_Some.
    + by intros ????? _ ?%lookup_empty_Some.
    + intros p [? ?%lookup_empty_Some]. done.
  - unfold OpenFile. rewrite Hl. destruct (files s !! name) as [f|] eqn:Hn; [|eexists _, _, _, _; split; [done|by split]].
    destruct (Hf name f Hn) as (Hm & Hb & He & Hs). rewrite Hm. pose proof (mm_open_inv peer f s Hb He Hs Hp) as (? & ? & ?).
    assert (Hlk : mm_lock (open peer f).2 = false) by (unfold open; by destruct (clientPermissions f !! peer)).
    destruct (open peer f) as [[] f']; cbn in *; eexists _, _, _, _; (split; [done|]); (split; [|done]); [|done].
    by apply managerOk_insert.
  - unfold CloseFile. rewrite Hl. destruct (files s !! name) as [f|] eqn:Hn; [|eexists _, _, _, _; split; [done|by split]].
    destruct (Hf name f Hn) as (Hm & Hb & He & Hs). set (f1 := if hm then _ else f).
    assert (Hcp : clientPermissions f1 = clientPermissions f) by (unfold f1; by destruct hm).
    assert (Hm1 : mm_lock f1 = false) by (unfold f1; by destruct hm). rewrite Hm1. rewrite <- Hcp in Hb, He, Hs.
    destruct (mm_step_invariant f1 (close peer f1).2 (mm_step_close peer f1) Hb He) as [Hb' He'].
    assert (Hlk : mm_lock (close peer f1).2 = false) by (unfold close; by destruct (clientPermissions f1 !! peer)).
    pose proof (close_lookup peer f1) as Hcl. destruct (close peer f1) as [c f2]. cbn in Hb', He', Hcl, Hlk.
    assert (managerOk (setFiles (<[name := f2]> (files s)) s)).
    { apply managerOk_insert; [done..|]. intros p [l Hpl%Hcl]. apply Hs. by exists l. }
    destruct c; eexists _, _, _, _; (split; [done|by split]).
  - unfold DeleteFile. rewrite Hl. destruct (files s !! name) as [f|] eqn:Hn; [|eexists _, _, _, _; split; [done|by split]].
    rewrite (proj1 (Hf name f Hn)). destruct (isOpen f); eexists _, _, _, _; (split; [done|]); (split; [|done]); [done|]. split; [done|]. cbn.
    intros name' f' ?%lookup_delete_Some. apply (Hf name'). tauto.
  - destruct Hr as [Ha Hbb]. rewrite GetPermission_split.
    destruct (permissionAnswer_total peer name a b iw s Ha Hbb Hok) as ([st rep] & sent & s' & -> & Hok'). cbn [mbind outcome_bind fst snd].
    destruct (foldM _ sent w) as [w1| |]; [|done..]. by eexists _, _, _, _.
  - unfold GetFileDesc. rewrite Hl. destruct (files s !! name); eexists _, _, _, _; (split; [done|by split]).
Qed.

Lemma handle_keeps `{!ClientServiceOk W} r s w st rep s' w' :
  requestOk r -> clientProtocol r s -> managerOk s -> servicesOk w -> handle r s w = Ret (st, rep, s', w') -> managerOk s' /\ servicesOk w'.
Proof.
  intros Hr Hp Hs Hw Hh. pose proof (handle_answers r s w Hr Hp Hs Hw) as Ha. rewrite Hh in Ha.
  destruct (foldM _ _ w) as [w1| |] eqn:Hj; [|done..]. destruct Ha as (? & ? & ? & ? & [= <- <- <- <-] & Hok & Hsv). split; [done|]. apply Hsv.
  clear Hsv Hh Hok. revert w Hw Hj. induction (revocations r s) as [|x l IH]; intros w Hw; cbn [foldM]; [by intros [= <-]|].
  intros (w2 & Hx & Hl)%bind_Ret. eapply IH; [|exact Hl]. by eapply revokePermit_keeps.
Qed.

(** Histories of requests. *)
Inductive history (w0 : W) : MetadataManager -> W -> Prop :=
| history_init : history w0 newMetadataManager w0
| history_request r s w st rep s' w' :
    history w0 s w -> requestOk r -> clientProtocol r s -> handle r s w = Ret (st, rep, s', w') -> history w0 s' w'.

Lemma history_ok `{!ClientServiceOk W} w0 s w : servicesOk w0 -> history w0 s w -> managerOk s /\ servicesOk w.
Proof.
  intros Hw0. induction 1 as [|r s w st rep s' w' _ [IHs IHw] Hr Hp Hh].
  - split; [|done]. split; [done|]. cbn. by intros name f ?%lookup_empty_Some.
  - by eapply handle_keeps.
Qed.

End Handlers.

(** ** Where the stripes of a new file are *)

Section Placement.
Context (name : string) (width : Z).
Hypothesis Hwidth : 0 < width <= INT_MAX.

(** The stripes with numbers below [k] have been created, the one with number
    [id] empty on server [id mod NUM_FILE_SERVERS]. *)
Definition placed (k : Z) (ws : list FileServer) : Prop :=
  servicesOk ws /\
  forall idx s, ws !! idx = Some s ->
    (forall f, fs_files s !! name = Some f -> fs_stripWidth f = width) /\
    (forall id, 0 <= id < k -> id mod NUM_FILE_SERVERS = Z.of_nat idx ->
      exists f, fs_files s !! name = Some f /\
        stripPaths f !! id = Some (stripeAddress (filesDirectory s) name id) /\
        disk s !! stripeAddress (filesDirectory s) name id = Some []).

Lemma placed_step k ws :
  0 <= k < width -> placed k ws ->
  exists ws', createStripe (k mod NUM_FILE_SERVERS) name width k ws = Ret (OK, ws') /\ placed (k + 1) ws'.
Proof.
  intros Hk [[Hlen Hall] Hp]. unfold createStripe, fileServers_service.
  assert (Hm : 0 <= k mod NUM_FILE_SERVERS < NUM_FILE_SERVERS) by (apply Z.mod_pos_bound; unfold_config; lia).
  set (j := Z.to_nat (k mod NUM_FILE_SERVERS)).
  destruct (lookup_lt_is_Some_2 ws j) as [s Hs]; [unfold j; unfold_config; lia|]. rewrite Hs, deref_Some, Ret_bind.
  assert (Hok : serverOk s) by (rewrite Forall_lookup in Hall; by eapply Hall).
  destruct (CreateFile_lemma name width k s Hok) as (s' & f & -> & Hok' & Hdir & Hf & Hpath & Hdisk & _ & Hold); [lia|].
  rewrite Ret_bind. eexists. split; [done|]. split; [split; [by rewrite length_insert|by apply Forall_insert]|].
  intros idx s1 Hs1. destruct (Hp j s Hs) as [Hw Hst]. rewrite i32_id in Hold by lia.
  destruct (decide (idx = j)) as [->|Hne].
  - cbn in Hs1. rewrite list_lookup_insert_eq in Hs1 by (by eapply lookup_lt_Some). injection Hs1 as <-. split.
    + intros f' Hf'. assert (f' = f) as -> by congruence. destruct (fs_files s !! name) as [f0|] eqn:Hf0; [|tauto].
      destruct Hold as [-> _]. by apply Hw.
    + intros id Hid Hidj. exists f. rewrite Hdir. split; [done|].
      destruct (decide (id = k)) as [->|Hidk]; [by rewrite Hpath, Hdisk, lookup_insert_eq|].
      destruct (Hst id) as (f0 & Hf0 & Hp0 & Hd0); [lia|done|]. rewrite Hf0 in Hold. destruct Hold as [_ Hold].
      rewrite Hold by done. split; [done|]. rewrite Hdisk, lookup_insert_ne; [done|].
      intros [_ Heq]%stripeAddress_inj. apply Z2N.inj in Heq; lia.
  - cbn in Hs1. rewrite list_lookup_insert_ne in Hs1 by done. destruct (Hp idx s1 Hs1) as [Hw1 Hst1].
    split; [done|]. intros id Hid Hidj. apply Hst1; [|done]. destruct (decide (id = k)) as [->|]; [|lia].
    exfalso. apply Hne. unfold j. lia.
Qed.

Lemma createStripes_placed ws :
  placed 0 ws -> exists ws', createStripes name width ws = Ret ws' /\ placed width ws'.
Proof.
  unfold createStripes. assert (Hgen : forall n k w, placed (Z.of_nat k) w -> (Z.of_nat k + Z.of_nat n = width) ->
    exists ws', foldM (fun (i : nat) w =>
      r ← createStripe (Z.of_nat i mod NUM_FILE_SERVERS) name width (Z.of_nat i) w;
      _ ← assert_ (match r.1 with OK => true | CANCELLED => false end); Ret r.2) (seq k n) w = Ret ws' /\ placed width ws').
  { induction n as [|n IH]; intros k w Hpl Hsum; cbn [seq foldM].
    - exists w. split; [done|]. by replace width with (Z.of_nat k) by lia.
    - destruct (placed_step (Z.of_nat k) w) as (w' & -> & Hpl'); [lia|done|].
      rewrite Ret_bind. cbn [fst snd assert_]. rewrite !Ret_bind. apply IH; [|lia].
      by replace (Z.of_nat (S k)) with (Z.of_nat k + 1) by lia. }
  intros Hpl. apply (Hgen _ 0%nat); [done|]. lia.
Qed.

(** Every address of a placed file is served by the server that the client
    library asks for it. *)
Lemma placed_serves ws addr :
  placed width ws -> 0 <= addr ->
  exists s, ws !! Z.to_nat (stripIndex addr width mod NUM_FILE_SERVERS) = Some s /\
    serverOk s /\ servesAddr s name addr.
Proof.
  intros [[Hlen Hall] Hp] Ha. set (id := stripIndex addr width).
  assert (Hid : 0 <= id < width) by (apply Z.mod_pos_bound; lia).
  assert (Hm : 0 <= id mod NUM_FILE_SERVERS < NUM_FILE_SERVERS) by (apply Z.mod_pos_bound; unfold_config; lia).
  destruct (lookup_lt_is_Some_2 ws (Z.to_nat (id mod NUM_FILE_SERVERS))) as [s Hs]; [unfold_config; lia|].
  exists s. split; [done|]. split; [rewrite Forall_lookup in Hall; by eapply Hall|].
  destruct (Hp _ s Hs) as [Hw Hst]. destruct (Hst id Hid) as (f & Hf & Hpf & _); [lia|].
  exists f. rewrite (Hw f Hf). fold id. repeat split; [done|lia|lia|]. by rewrite Hpf.
Qed.

End Placement.

(** ** Properties *)

(** The five servers of an installation, freshly started. *)
Definition freshServers : list FileServer :=
  (fun i => newFileServer (String.append "0.0.0.0:3000" (pretty (N.of_nat i))) ∅) <$> seq 0 (Z.to_nat NUM_FILE_SERVERS).

Lemma freshServers_ok : servicesOk freshServers.
Proof.
  split; [done|]. apply Forall_forall. intros s (i & -> & _)%list_elem_of_fmap. apply newFileServer_ok.
Qed.

Lemma freshServers_placed name width : placed name width 0 freshServers.
Proof.
  split; [apply freshServers_ok|]. intros idx s (i & -> & _)%list_lookup_fmap_Some. cbn. split.
  - by intros f ?%lookup_empty_Some.
  - intros id Hid. lia.
Qed.

(** ** Handlers that wait for the mutex of a file *)

Definition holdFilesLock (s : MetadataManager) : MetadataManager := mkMetadataManager (files s) (clientStubs s) true.

(** The state of the service while the handler of a request waits for the mutex of its
    file: OpenFile, DeleteFile and GetPermission still hold [filesLock] at the call of
    [open], [isOpen] and [isOpenedBy]; CloseFile has released it before [close]. *)
Definition waitsForFile (r : Request) (s : MetadataManager) : option MetadataManager :=
  let held name := match files s !! name with Some f => mm_lock f | None => false end in
  if filesLock s then None
  else
    match r with
    | ReqOpen _ name | ReqDelete _ name | ReqPermission _ name _ _ _ => if held name then Some (holdFilesLock s) else None
    | ReqClose _ name _ _ _ => if held name then Some s else None
    | _ => None
    end.

Section Claims.
Context {W : Type} `{StripeServiceOk W, !ClientService W}.
Implicit Types (s : MetadataManager) (w : W).

(** C12: the manager implements the flat directory: a handler that returns answers
    with the status and the reply message, and changes names, sizes, times, widths and
    openers, as the specification of the request says; of the tokens only the range of
    a granted permission is visible, which is the range asked for or the whole file. *)
Theorem manager_refines_directory r s w st rep s' w' :
  requestOk r -> filesLock s = false -> handle r s w = Ret (st, rep, s', w') ->
  exists range, rangeOf r range /\ specHandle r range (abs s) = (st, rep, abs s').
Proof. intros Hr Hl Hh. apply (handle_refines r s w st rep s' w' Hr Hl Hh). Qed.

(** C27: when the mutexes are free, a request that keeps the protocol of the client
    library waits for nothing but the clients from which it revokes tokens: it is
    answered, and the invariant of the service kept, if the threads that ask these
    clients end, and it waits as long as one of them waits. In particular no handler
    fails an assertion or dereferences a null pointer. *)
Theorem manager_answers_when_clients_do r s w :
  requestOk r -> clientProtocol r s -> managerOk s -> servicesOk w ->
  match foldM (fun x => revokePermit x.1 x.2) (revocations r s) w with
  | Ret w1 => exists st rep s' w', handle r s w = Ret (st, rep, s', w') /\ managerOk s' /\ (servicesOk w1 -> servicesOk w')
  | Blocked => handle r s w = Blocked
  | Crash => handle r s w = Crash
  end.
Proof. apply handle_answers. Qed.


(** In every state that requests can lead to, for every file, a byte that one
    client may write is not accessible to another one. *)
Lemma history_tokens_exclusive `{!ClientServiceOk W} w0 s w name f :
  servicesOk w0 -> history w0 s w -> files s !! name = Some f -> exclusive (clientPermissions f).
Proof. intros Hw0 Hh Hf. destruct (history_ok w0 s w Hw0 Hh) as [[_ Hall] _]. by destruct (Hall name f Hf) as (_ & _ & ? & _). Qed.

End Claims.

(** Clients that answer every request at once. *)
#[local] Instance promptClients : ClientService (list FileServer) := fun _ _ ws => Ret ws.

#[local] Instance promptClients_ok : ClientServiceOk (list FileServer).
Proof. by intros ip r ws ws' Hok [= <-]. Qed.

(** The state after: [a] and [b] start, [f] is created, both open it, [a] asks for
    write access. *)
Definition exampleManager : MetadataManager :=
  mkMetadataManager
    (<["f"%string := mkMMFile (mkFile "f" 8 7 0 3 [] false)
        (<["a"%string := [newPermission 0 INT_MAX true]]> (<["b"%string := []]> ∅)) false]> ∅)
    (<["a"%string := "0.0.0.0:4001"%string]> (<["b"%string := "0.0.0.0:4002"%string]> ∅)) false.

Lemma example_history : exists ws, history freshServers exampleManager ws.
Proof.
  destruct (createStripes_placed "f" 3 ltac:(word_lia) freshServers (freshServers_placed _ _)) as (ws & Hws & _).
  exists ws.
  eapply (history_request _ (ReqPermission "a" "f" 0 10 true)
    (mkMetadataManager
      (<["f"%string := mkMMFile (mkFile "f" 8 7 0 3 [] false) (<["b"%string := []]> (<["a"%string := []]> ∅)) false]> ∅)
      (clientStubs exampleManager) false) ws OK _); [|cbn; word_lia|done|reflexivity].
  eapply (history_request _ (ReqOpen "b" "f")
    (mkMetadataManager (<["f"%string := mkMMFile (mkFile "f" 8 7 0 3 [] false) (<["a"%string := []]> ∅) false]> ∅)
      (clientStubs exampleManager) false) ws OK _); [|done|by eexists|reflexivity].
  eapply (history_request _ (ReqOpen "a" "f")
    (mkMetadataManager (<["f"%string := createdFile "f" 3 7 8]> ∅) (clientStubs exampleManager) false) ws OK _);
    [|done|by eexists|reflexivity].
  eapply (history_request _ (ReqCreate "f" 3 7 8) (mkMetadataManager ∅ (clientStubs exampleManager) false)
    freshServers OK _); [|cbn; word_lia|cbn; word_lia|].
  - eapply (history_request _ (ReqStart "b" "0.0.0.0:4002")
      (mkMetadataManager ∅ (<["a"%string := "0.0.0.0:4001"%string]> ∅) false) freshServers OK _); [|done|done|reflexivity].
    eapply (history_request _ (ReqStart "a" "0.0.0.0:4001") newMetadataManager freshServers OK _);
      [apply history_init|done|done|reflexivity].
  - cbn [handle]. unfold CreateFile. cbn [filesLock files]. rewrite lookup_empty, Hws. reflexivity.
Qed.

Lemma exampleManager_ok : managerOk exampleManager.
Proof. destruct example_history as [ws Hh]. by apply (history_ok _ _ _ freshServers_ok Hh). Qed.

Lemma manager_refines_directory_witness : exists range,
  specHandle (ReqDesc "f") range (abs exampleManager) = (OK, FileMsg (mkFileStatReply 0 8 7 0 0), abs exampleManager).
Proof.
  destruct (manager_refines_directory (ReqDesc "f") exampleManager freshServers OK (FileMsg (mkFileStatReply 0 8 7 0 0)) exampleManager freshServers)
    as (range & _ & Hs); [done|done|reflexivity|]. exists range. exact Hs.
Defined.

Lemma manager_answers_when_clients_do_witness :
  revocations (ReqPermission "b" "f" 5 8 true) exampleManager = [("0.0.0.0:4001"%string, mkRevokeRequest "a" "f" 5 8 true)] /\
  exists st rep s' w', handle (ReqPermission "b" "f" 5 8 true) exampleManager freshServers = Ret (st, rep, s', w') /\
    managerOk s' /\ (servicesOk freshServers -> servicesOk w').
Proof.
  assert (Hrev : revocations (ReqPermission "b" "f" 5 8 true) exampleManager = [("0.0.0.0:4001"%string, mkRevokeRequest "a" "f" 5 8 true)])
    by reflexivity.
  split; [exact Hrev|].
  pose proof (manager_answers_when_clients_do (ReqPermission "b" "f" 5 8 true) exampleManager freshServers) as Ha. rewrite Hrev in Ha.
  apply Ha; [cbn; word_lia|done|apply exampleManager_ok|apply freshServers_ok].
Defined.

