(* ===== verification/ClientFile.v ===== *)
(** The client's record of an open file: include/client_file.h and
    client/client_file.cpp. The mutex [lock] of the file is held for the whole of
    [unlockPermission], so the method is one step. *)

From Stdlib Require Import String.
From stdpp Require Import strings.
From S2P Require Import Prelude Permission File Tokens.
#[local] Open Scope Z_scope.

(** ** Data *)

Record ClientFile : Type := mkClientFile {
  cf_base : File;
  descriptor : Z }.

Definition getDescriptor (f : ClientFile) : Z := descriptor f.

Definition setBase (b : File) (f : ClientFile) : ClientFile := mkClientFile b (descriptor f).

(** [descriptor = ++descriptorCount]; the result is the new value of the counter. *)
Definition newClientFile (b : File) (descriptorCount : Z) : ClientFile * Z :=
  (mkClientFile b (i32 (descriptorCount + 1)), i32 (descriptorCount + 1)).

(** ** ClientFile::unlockPermission *)

(** The posts on semaphores of waiting threads are returned in order. *)
Fixpoint unlockPermission (start end_ : Z) (write : bool) (perms : list Permission) : list Permission * list SemId :=
  match perms with
  | [] => ([], [])
  | p :: perms' =>
      let '(rest, posts) := unlockPermission start end_ write perms' in
      if isShared p start end_
      then let '(p', ps) := unlock p in (p' :: rest, ps ++ posts)
      else (p :: rest, posts)
  end.

(** ** Lemmas *)

Lemma unlockPermission_tokens st en w l : same_tokens (unlockPermission st en w l).1 l.
Proof.
  unfold same_tokens. induction l as [|p l IH]; [done|]. cbn. destruct (unlockPermission st en w l) as [rest posts]. cbn in IH.
  destruct (isShared p st en); cbn; by rewrite IH.
Qed.

Lemma unlockPermission_unlocked st en w l p :
  p ∈ (unlockPermission st en w l).1 -> isShared p st en = true -> locked p = false /\ permitLock p = false.
Proof.
  induction l as [|q l IH]; cbn; [by intros ?%not_elem_of_nil|]. destruct (unlockPermission st en w l) as [rest posts]. cbn in IH.
  destruct (isShared q st en) eqn:Hq; cbn; intros [->|Hin]%elem_of_cons Hp; auto. congruence.
Qed.

(** A token that does not overlap the range stays as it is. *)
Lemma unlockPermission_keeps st en w l p : p ∈ l -> isShared p st en = false -> p ∈ (unlockPermission st en w l).1.
Proof.
  induction l as [|q l IH]; cbn; [by intros ?%not_elem_of_nil|]. destruct (unlockPermission st en w l) as [rest posts]. cbn in IH.
  intros [->|Hin]%elem_of_cons Hp; [rewrite Hp; by left|]. destruct (isShared q st en); cbn; right; by apply IH.
Qed.

(** ** Properties *)

(** After [unlockPermission] no permission that overlaps the range is locked, so
    a revocation of the range, or of a part of it, does not wait; the tokens are the
    same as before. *)
Lemma unlock_lets_revoke_proceed st en w l st' en' w' sem :
  st <= st' -> en' <= en ->
  let l' := (unlockPermission st en w l).1 in
  same_tokens l' l /\ revokePermission st' en' w' true sem l' = revokeRange st' en' l'.
Proof.
  intros H1 H2 l'. split; [apply unlockPermission_tokens|]. rewrite revokePermission_lock.
  assert (existsb (fun p => isShared p st' en' && locked p) l' = false) as ->; [|done].
  apply existsb_false. intros p Hp. destruct (isShared p st' en') eqn:Hs; [|done]. cbn.
  apply (unlockPermission_unlocked st en w l p Hp). apply isShared_true in Hs. apply isShared_true. lia.
Qed.

(** A read grant locks the write tokens that only touch its range, and
    [unlockPermission] releases only those that overlap it: a client that holds write
    [20,30) and reads [10,20) keeps the token locked, and a revocation of any part of
    it waits for ever. *)
Lemma touching_token_stays_locked :
  exists l1, addPermission 10 20 false [newPermission 20 30 true] true = Ret l1 /\
    forall st en w sem, st < 30 -> 20 < en ->
      revokePermission st en w true sem (unlockPermission 10 20 false l1).1 = Blocked.
Proof.
  eexists. split; [reflexivity|]. intros st en w sem H1 H2. rewrite revokePermission_lock.
  destruct (existsb _ _) eqn:Hex; [done|]. exfalso.
  pose proof (proj1 (existsb_false _ _) Hex (mkPermission 20 30 true true true [])) as Hn. cbn in Hn.
  rewrite andb_true_r in Hn. apply isShared_false in Hn; [cbn in Hn; lia|]. vm_compute. right. left.
Qed.
