(* ===== verification/Cache.v ===== *)
(** The block cache of a client: include/cache.h, client/cache.cpp,
    include/cache_block.h, client/cache_block.cpp, include/cache_block_metadata.h
    and client/cache_block_metadata.cpp.

    The nodes are heap cells linked by pointers, as in the source: one hash table
    of doubly linked buckets, a list of clean blocks in order of recency, a list of
    dirty blocks in order of recency, and a list of free blocks. [cacheLock] is
    held from the first to the last access to the shared lists by every operation,
    and [freeListLock] around every access to the free list, so an operation is one
    step. The list operations also print their list before and after they change it;
    [printRecencyList] and [printDirtyList] are here as functions, the calls are left
    out, since they change nothing. Flushing a block is a call of the client library,
    reached through the interface [BlockStore]. *)

From Stdlib Require Import Strings.Byte.
From stdpp Require Import gmap.
From S2P Require Import Prelude Config.
#[local] Open Scope Z_scope.

(** ** Data *)

Record CacheBlock : Type := mkCacheBlock {
  fdes : Z;
  addr : Z;
  dirty : list bool;
  clean : bool;
  valid : bool;
  data : bytes }.

(** A pointer to a node; [None] is the null pointer. *)
Abbreviation ptr := (option nat).

Record ListNode : Type := mkListNode { prev : ptr; next : ptr }.

Definition emptyNode : ListNode := mkListNode None None.

(** A node owns the block it points to: [block] is set once, by the constructor of
    the cache. *)
Record CacheBlockMetadata : Type := mkCacheBlockMetadata {
  bucketId : Z;
  block : CacheBlock;
  dirtyNode : ListNode;
  recencyNode : ListNode;
  freeNode : ListNode;
  bucketNode : ListNode }.

Abbreviation heap := (gmap nat CacheBlockMetadata).

(** The four lists a node can be in. *)
Inductive Link : Type := Dirty | Recency | Free | Bucket.

#[export] Instance Link_eq_dec : EqDecision Link.
Proof. solve_decision. Defined.

Definition link (k : Link) (n : CacheBlockMetadata) : ListNode :=
  match k with
  | Dirty => dirtyNode n
  | Recency => recencyNode n
  | Free => freeNode n
  | Bucket => bucketNode n
  end.

Definition setLink (k : Link) (v : ListNode) (n : CacheBlockMetadata) : CacheBlockMetadata :=
  let d := match k with Dirty => v | _ => dirtyNode n end in
  let r := match k with Recency => v | _ => recencyNode n end in
  let f := match k with Free => v | _ => freeNode n end in
  let b := match k with Bucket => v | _ => bucketNode n end in
  mkCacheBlockMetadata (bucketId n) (block n) d r f b.

Definition setBlock (b : CacheBlock) (n : CacheBlockMetadata) : CacheBlockMetadata :=
  mkCacheBlockMetadata (bucketId n) b (dirtyNode n) (recencyNode n) (freeNode n) (bucketNode n).

Definition setBucketId (i : Z) (n : CacheBlockMetadata) : CacheBlockMetadata :=
  mkCacheBlockMetadata i (block n) (dirtyNode n) (recencyNode n) (freeNode n) (bucketNode n).

(** The two ends of a list in order of recency. *)
Record Ends : Type := mkEnds { mru : ptr; lru : ptr }.

Record Cache : Type := mkCache {
  nodes : heap;
  freeListHead : ptr;
  freeBlockSemaphore : nat;
  harvesterSemaphore : nat;
  freeBlockCount : Z;
  recencyEnds : Ends;
  dirtyEnds : Ends;
  hashTable : list ptr }.

Definition setNodes (m : heap) (c : Cache) : Cache :=
  mkCache m (freeListHead c) (freeBlockSemaphore c) (harvesterSemaphore c) (freeBlockCount c)
    (recencyEnds c) (dirtyEnds c) (hashTable c).
Definition setRecencyEnds (e : Ends) (c : Cache) : Cache :=
  mkCache (nodes c) (freeListHead c) (freeBlockSemaphore c) (harvesterSemaphore c) (freeBlockCount c)
    e (dirtyEnds c) (hashTable c).
Definition setDirtyEnds (e : Ends) (c : Cache) : Cache :=
  mkCache (nodes c) (freeListHead c) (freeBlockSemaphore c) (harvesterSemaphore c) (freeBlockCount c)
    (recencyEnds c) e (hashTable c).
Definition setHashTable (t : list ptr) (c : Cache) : Cache :=
  mkCache (nodes c) (freeListHead c) (freeBlockSemaphore c) (harvesterSemaphore c) (freeBlockCount c)
    (recencyEnds c) (dirtyEnds c) t.
Definition setFreeList (h : ptr) (n : Z) (c : Cache) : Cache :=
  mkCache (nodes c) h (freeBlockSemaphore c) (harvesterSemaphore c) n
    (recencyEnds c) (dirtyEnds c) (hashTable c).
Definition setSemaphores (f h : nat) (c : Cache) : Cache :=
  mkCache (nodes c) (freeListHead c) f h (freeBlockCount c) (recencyEnds c) (dirtyEnds c) (hashTable c).

(** What the cache needs of the client library: write a dirty block to the file
    server it belongs to. [W] is the state of the rest of the system. *)
Class BlockStore (W : Type) : Type := flush : CacheBlock -> W -> outcome W.

(** ** CacheBlock *)

Definition noDirty : list bool := replicate (Z.to_nat pfsBlockSizeInBytes) false.

Definition CacheBlock_reset (b : CacheBlock) : CacheBlock :=
  mkCacheBlock (fdes b) (addr b) noDirty true false (data b).

Definition isDirty (b : CacheBlock) : bool := negb (clean b).

Definition resetDirty (b : CacheBlock) : CacheBlock :=
  mkCacheBlock (fdes b) (addr b) noDirty true (valid b) (data b).

(** ** CacheBlockMetadata *)

Definition newCacheBlockMetadata (b : CacheBlock) : CacheBlockMetadata :=
  mkCacheBlockMetadata (u32 (-1)) b emptyNode emptyNode emptyNode emptyNode.

Definition CacheBlockMetadata_reset (n : CacheBlockMetadata) : CacheBlockMetadata :=
  mkCacheBlockMetadata (u32 (-1)) (block n) emptyNode emptyNode emptyNode emptyNode.

(** ** Assignments through pointers *)

Definition setNext (k : Link) (x : nat) (v : ptr) (m : heap) : outcome heap :=
  n ← deref (m !! x); Ret (<[x := setLink k (mkListNode (prev (link k n)) v) n]> m).

Definition setPrev (k : Link) (x : nat) (v : ptr) (m : heap) : outcome heap :=
  n ← deref (m !! x); Ret (<[x := setLink k (mkListNode v (next (link k n))) n]> m).

(** [if(p) p->...->next = v;] and the same for [prev]. *)
Definition setNextIf (k : Link) (p : ptr) (v : ptr) (m : heap) : outcome heap :=
  match p with Some x => setNext k x v m | None => Ret m end.

Definition setPrevIf (k : Link) (p : ptr) (v : ptr) (m : heap) : outcome heap :=
  match p with Some x => setPrev k x v m | None => Ret m end.

Definition resetNode (k : Link) (x : nat) (m : heap) : outcome heap :=
  n ← deref (m !! x); Ret (<[x := setLink k emptyNode n]> m).

(** ** Lists in order of recency *)

(** The common text of [addToRecencyList] and [addToDirtyList]. *)
Definition pushMRU (k : Link) (node : nat) (e : Ends) (m : heap) : outcome (Ends * heap) :=
  let nodeNext := mru e in
  let lru' := match lru e with None => Some node | Some _ => lru e end in
  m1 ← setNext k node nodeNext m;
  m2 ← setPrevIf k nodeNext (Some node) m1;
  Ret (mkEnds (Some node) lru', m2).

(** The common text of [removeFromRecencyList] and [removeFromDirtyList]: a node that
    is both ends is not reset. *)
Definition removeNode (k : Link) (node : nat) (e : Ends) (m : heap) : outcome (Ends * heap) :=
  if bool_decide (mru e = Some node) && bool_decide (lru e = Some node)
  then Ret (mkEnds None None, m)
  else
    n ← deref (m !! node);
    let nodePrev := prev (link k n) in
    let nodeNext := next (link k n) in
    let lru' := if bool_decide (lru e = Some node) then nodePrev else lru e in
    m1 ← setNextIf k nodePrev nodeNext m;
    m2 ← setPrevIf k nodeNext nodePrev m1;
    m3 ← resetNode k node m2;
    let mru' := if bool_decide (mru e = Some node) then nodeNext else mru e in
    Ret (mkEnds mru' lru', m3).

(** The common text of [removeRecencyListLRU] and [removeDirtyListLRU]. *)
Definition removeLRU (k : Link) (e : Ends) (m : heap) : outcome (ptr * Ends * heap) :=
  match lru e with
  | None => Ret (None, e, m)
  | Some node =>
      if bool_decide (lru e = mru e)
      then m1 ← resetNode k node m; Ret (Some node, mkEnds None None, m1)
      else
        n ← deref (m !! node);
        p ← deref (prev (link k n));
        _ ← assert_ (bool_decide (next (link k n) = None));
        m1 ← setNext k p (next (link k n)) m;
        m2 ← resetNode k node m1;
        Ret (Some node, mkEnds (mru e) (Some p), m2)
  end.

Definition addToRecencyList (node : nat) (c : Cache) : outcome Cache :=
  r ← pushMRU Recency node (recencyEnds c) (nodes c); Ret (setRecencyEnds r.1 (setNodes r.2 c)).

Definition removeFromRecencyList (node : nat) (c : Cache) : outcome Cache :=
  r ← removeNode Recency node (recencyEnds c) (nodes c); Ret (setRecencyEnds r.1 (setNodes r.2 c)).

Definition removeRecencyListLRU (c : Cache) : outcome (ptr * Cache) :=
  r ← removeLRU Recency (recencyEnds c) (nodes c); Ret (r.1.1, setRecencyEnds r.1.2 (setNodes r.2 c)).

Definition addToDirtyList (node : nat) (c : Cache) : outcome Cache :=
  r ← pushMRU Dirty node (dirtyEnds c) (nodes c); Ret (setDirtyEnds r.1 (setNodes r.2 c)).

Definition removeFromDirtyList (node : nat) (c : Cache) : outcome Cache :=
  r ← removeNode Dirty node (dirtyEnds c) (nodes c); Ret (setDirtyEnds r.1 (setNodes r.2 c)).

Definition removeDirtyListLRU (c : Cache) : outcome (ptr * Cache) :=
  r ← removeLRU Dirty (dirtyEnds c) (nodes c); Ret (r.1.1, setDirtyEnds r.1.2 (setNodes r.2 c)).

(** ** The hash table *)

Definition addToHashmap (node : nat) (c : Cache) : outcome Cache :=
  n ← deref (nodes c !! node);
  nodeNext ← deref (hashTable c !! Z.to_nat (bucketId n));
  let table := <[Z.to_nat (bucketId n) := Some node]> (hashTable c) in
  m1 ← setNext Bucket node nodeNext (nodes c);
  m2 ← setPrevIf Bucket nodeNext (Some node) m1;
  Ret (setHashTable table (setNodes m2 c)).

Definition removeFromHashmap (node : nat) (c : Cache) : outcome Cache :=
  n ← deref (nodes c !! node);
  let bucketPrev := prev (bucketNode n) in
  let bucketNext := next (bucketNode n) in
  head ← deref (hashTable c !! Z.to_nat (bucketId n));
  let table := if bool_decide (head = Some node) then <[Z.to_nat (bucketId n) := bucketNext]> (hashTable c)
               else hashTable c in
  m1 ← setNextIf Bucket bucketPrev bucketNext (nodes c);
  m2 ← setPrevIf Bucket bucketNext bucketPrev m1;
  m3 ← resetNode Bucket node m2;
  Ret (setHashTable table (setNodes m3 c)).

(** ** The free list *)

(** The result says whether the harvester should go on. *)
Definition addToFreeList (node : nat) (c : Cache) : outcome (bool * Cache) :=
  let nodeNext := freeListHead c in
  m1 ← setNext Free node nodeNext (nodes c);
  m2 ← setPrevIf Free nodeNext (Some node) m1;
  let count := u32 (freeBlockCount c + 1) in
  Ret (count <? 2020, setFreeList (Some node) count (setNodes m2 c)).

Definition sem_wait (n : nat) : outcome nat := match n with O => Blocked | S n' => Ret n' end.

(** The successor is dereferenced without a test. *)
Definition getFreeListEntry (c : Cache) : outcome (nat * Cache) :=
  f ← sem_wait (freeBlockSemaphore c);
  node ← deref (freeListHead c);
  n ← deref (nodes c !! node);
  nx ← deref (next (freeNode n));
  m1 ← setPrev Free nx None (nodes c);
  let count := u32 (freeBlockCount c - 1) in
  let h := if count <=? 2000 then S (harvesterSemaphore c) else harvesterSemaphore c in
  Ret (node, setSemaphores f h (setFreeList (Some nx) count (setNodes m1 c))).

(** ** Constructor *)

(** One turn of the loop of lines 21-29; [raw] is the memory that [new CacheBlock]
    gets, before its constructor runs. *)
Definition addFreshNode (raw : nat -> CacheBlock) (i : nat) (st : ptr * heap) : outcome (ptr * heap) :=
  let '(head, m) := st in
  let node := newCacheBlockMetadata (CacheBlock_reset (raw i)) in
  let m1 := <[i := setLink Free (mkListNode None head) node]> m in
  m2 ← setPrevIf Free head (Some i) m1;
  Ret (Some i, m2).

Definition newCacheOf (raw : nat -> CacheBlock) (blockCount : nat) : outcome Cache :=
  r ← foldM (addFreshNode raw) (seq 0 blockCount) (None, ∅);
  Ret (mkCache r.2 r.1 blockCount 0 (Z.of_nat blockCount) (mkEnds None None) (mkEnds None None)
         (replicate (Z.to_nat HASH_BUCKETS) None)).

Definition blockCount : nat := Z.to_nat (clientCacheSizeInBytes / pfsBlockSizeInBytes).

Definition newCache (raw : nat -> CacheBlock) : outcome Cache := newCacheOf raw blockCount.

(** ** Printing *)

(** What is printed for each node of a list: the node, the address of its block and
    whether it is clean. As many turns as there are nodes. *)
Fixpoint printLoop (fuel : nat) (k : Link) (node : ptr) (m : heap) : outcome (list (nat * Z * bool)) :=
  match fuel with
  | O => Blocked
  | S fuel' =>
      match node with
      | None => Ret []
      | Some x =>
          n ← deref (m !! x);
          l ← printLoop fuel' k (next (link k n)) m;
          Ret ((x, addr (block n), clean (block n)) :: l)
      end
  end.

Definition printRecencyList (c : Cache) : outcome (list (nat * Z * bool)) :=
  printLoop (S (size (nodes c))) Recency (mru (recencyEnds c)) (nodes c).

Definition printDirtyList (c : Cache) : outcome (list (nat * Z * bool)) :=
  printLoop (S (size (nodes c))) Dirty (mru (dirtyEnds c)) (nodes c).

(** ** Operations *)

Section Operations.
(** [std::hash<uint32_t>]. *)
Context (std_hash : Z -> Z).

(** The loop of lines 210-217, with as many turns as there are nodes. *)
Fixpoint lookupLoop (fuel : nat) (fileDes blockAddr : Z) (node : ptr) (m : heap) : outcome ptr :=
  match fuel with
  | O => Blocked
  | S fuel' =>
      match node with
      | None => Ret None
      | Some x =>
          n ← deref (m !! x);
          if (fdes (block n) =? u32 fileDes) && (addr (block n) =? blockAddr) then Ret (Some x)
          else lookupLoop fuel' fileDes blockAddr (next (bucketNode n)) m
      end
  end.

Definition lookup (fileDes blockAddr : Z) (c : Cache) : outcome ptr :=
  node ← deref (hashTable c !! Z.to_nat (hashPFS std_hash (u32 fileDes) blockAddr));
  lookupLoop (S (size (nodes c))) fileDes blockAddr node (nodes c).

(** The bytes copied to the caller's buffer are part of the result. *)
Definition readBlock (fileDes blockAddr : Z) (c : Cache) : outcome (option bytes * Cache) :=
  node ← lookup fileDes blockAddr c;
  match node with
  | None => Ret (None, c)
  | Some x =>
      n ← deref (nodes c !! x);
      if clean (block n)
      then c1 ← removeFromRecencyList x c; c2 ← addToRecencyList x c1; Ret (Some (data (block n)), c2)
      else c1 ← removeFromDirtyList x c; c2 ← addToDirtyList x c1; Ret (Some (data (block n)), c2)
  end.

(** [memcpy(buf + off, src, size)] into a buffer that must be large enough. *)
Definition patch {A} (off : nat) (src buf : list A) : outcome (list A) :=
  if (off + length src <=? length buf)%nat then Ret (take off buf ++ src ++ drop (off + length src) buf)
  else Crash.

(** [bs] are the [size] bytes at [data]. *)
Definition write (fileDes offset : Z) (bs : bytes) (c : Cache) : outcome (bool * Cache) :=
  let blockAddr := u32 (offset / pfsBlockSizeInBytes * pfsBlockSizeInBytes) in
  node ← lookup fileDes blockAddr c;
  match node with
  | None => Ret (false, c)
  | Some x =>
      n ← deref (nodes c !! x);
      let b := block n in
      let blockOffset := Z.to_nat (offset mod pfsBlockSizeInBytes) in
      data' ← patch blockOffset bs (data b);
      dirty' ← patch blockOffset (replicate (length bs) true) (dirty b);
      let b1 := mkCacheBlock (fdes b) (addr b) dirty' (clean b) (valid b) data' in
      let c0 := setNodes (<[x := setBlock b1 n]> (nodes c)) c in
      c1 ← (if clean b then removeFromRecencyList x c0 else removeFromDirtyList x c0);
      n1 ← deref (nodes c1 !! x);
      let b2 := mkCacheBlock (fdes b1) (addr b1) (dirty b1) false (valid b1) (data b1) in
      c2 ← addToDirtyList x (setNodes (<[x := setBlock b2 n1]> (nodes c1)) c1);
      Ret (true, c2)
  end.

Definition addBlock (fileDes blockAddr : Z) (bs : bytes) (c : Cache) : outcome Cache :=
  _ ← assert_ (Z.land blockAddr (pfsBlockSizeInBytes - 1) =? 0);
  f ← sem_wait (freeBlockSemaphore c);
  r ← getFreeListEntry (setSemaphores f (harvesterSemaphore c) c);
  let '(x, c1) := r in
  n ← deref (nodes c1 !! x);
  let b := mkCacheBlock (u32 fileDes) blockAddr noDirty true true bs in
  let n1 := setBucketId (hashPFS std_hash (u32 fileDes) blockAddr) (setBlock b n) in
  c2 ← addToHashmap x (setNodes (<[x := n1]> (nodes c1)) c1);
  addToRecencyList x c2.

Section Flushing.
Context {W : Type} `{BlockStore W}.

Definition evictBlock (fileDes blockAddr : Z) (c : Cache) (w : W) : outcome (Cache * W) :=
  node ← lookup fileDes blockAddr c;
  match node with
  | None => Ret (c, w)
  | Some x =>
      c1 ← removeFromHashmap x c;
      n ← deref (nodes c1 !! x);
      r ← (if clean (block n) then c2 ← removeFromRecencyList x c1; Ret (c2, w)
           else
             w' ← flush (block n) w;
             c2 ← removeFromDirtyList x (setNodes (<[x := setBlock (resetDirty (block n)) n]> (nodes c1)) c1);
             Ret (c2, w'));
      let '(c2, w') := r in
      n2 ← deref (nodes c2 !! x);
      r ← addToFreeList x (setNodes (<[x := CacheBlockMetadata_reset n2]> (nodes c2)) c2);
      Ret (r.2, w')
  end.

(** The two loops of evictFile: [node] is the next one to look at. *)
Fixpoint evictFileDirty (fuel : nat) (fileDes : Z) (node : ptr) (c : Cache) (w : W) : outcome (Cache * W) :=
  match fuel with
  | O => Blocked
  | S fuel' =>
      match node with
      | None => Ret (c, w)
      | Some x =>
          n ← deref (nodes c !! x);
          if fdes (block n) =? u32 fileDes
          then
            let dirtyNext := next (dirtyNode n) in
            w' ← flush (block n) w;
            c1 ← removeFromDirtyList x (setNodes (<[x := setBlock (resetDirty (block n)) n]> (nodes c)) c);
            r ← addToFreeList x c1;
            evictFileDirty fuel' fileDes dirtyNext r.2 w'
          else evictFileDirty fuel' fileDes (next (dirtyNode n)) c w
      end
  end.

Fixpoint evictFileClean (fuel : nat) (fileDes : Z) (node : ptr) (c : Cache) : outcome Cache :=
  match fuel with
  | O => Blocked
  | S fuel' =>
      match node with
      | None => Ret c
      | Some x =>
          n ← deref (nodes c !! x);
          if fdes (block n) =? u32 fileDes
          then
            let recencyNext := next (recencyNode n) in
            c1 ← removeFromRecencyList x c;
            r ← addToFreeList x c1;
            evictFileClean fuel' fileDes recencyNext r.2
          else evictFileClean fuel' fileDes (next (recencyNode n)) c
      end
  end.

Definition evictFile (fileDes : Z) (c : Cache) (w : W) : outcome (Cache * W) :=
  r ← evictFileDirty (S (size (nodes c))) fileDes (mru (dirtyEnds c)) c w;
  c' ← evictFileClean (S (size (nodes r.1))) fileDes (mru (recencyEnds r.1)) r.1;
  Ret (c', r.2).

(** One turn of the inner loop of the harvester, lines 233-248. *)
Definition harvestOne (c : Cache) (w : W) : outcome (bool * Cache * W) :=
  r ← removeRecencyListLRU c;
  r ← (match r.1 with
       | Some x => Ret (x, r.2)
       | None =>
           r' ← removeDirtyListLRU r.2;
           x ← deref r'.1;
           n ← deref (nodes r'.2 !! x);
           _ ← assert_ (negb (clean (block n)));
           _ ← assert_ (valid (block n));
           Ret (x, r'.2)
       end);
  let '(x, c1) := r in
  c2 ← removeFromHashmap x c1;
  n ← deref (nodes c2 !! x);
  r ← (if clean (block n) then Ret (c2, w)
       else w' ← flush (block n) w;
            Ret (setNodes (<[x := setBlock (resetDirty (block n)) n]> (nodes c2)) c2, w'));
  let '(c3, w') := r in
  r ← addToFreeList x c3;
  Ret (r.1, r.2, w').

Fixpoint harvestLoop (fuel : nat) (cont : bool) (c : Cache) (w : W) : outcome (Cache * W) :=
  match fuel with
  | O => Blocked
  | S fuel' =>
      if cont
      then r ← harvestOne c w; harvestLoop fuel' r.1.1 r.1.2 r.2
      else Ret (c, w)
  end.

(** One activation of the harvester thread, lines 227-249. *)
Definition cacheHarvester (c : Cache) (w : W) : outcome (Cache * W) :=
  h ← sem_wait (harvesterSemaphore c);
  let c1 := setSemaphores (freeBlockSemaphore c) h c in
  harvestLoop (S (size (nodes c))) (freeBlockCount c1 <? 2020) c1 w.

(** One turn of the inner loop of the flusher, lines 259-274, under the lock of the
    cache; the result says whether there was a dirty block. *)
Definition flushOne (c : Cache) (w : W) : outcome (bool * Cache * W) :=
  r ← removeDirtyListLRU c;
  match r.1 with
  | None => Ret (false, r.2, w)
  | Some x =>
      n ← deref (nodes r.2 !! x);
      _ ← assert_ (negb (clean (block n)));
      w' ← flush (block n) w;
      c1 ← addToRecencyList x (setNodes (<[x := setBlock (resetDirty (block n)) n]> (nodes r.2)) r.2);
      Ret (true, c1, w')
  end.

(** One activation of the flusher thread, lines 258-275. *)
Fixpoint flusherLoop (fuel : nat) (c : Cache) (w : W) : outcome (Cache * W) :=
  match fuel with
  | O => Blocked
  | S fuel' =>
      r ← flushOne c w;
      if r.1.1 : bool then flusherLoop fuel' r.1.2 r.2 else Ret (r.1.2, r.2)
  end.

Definition cacheFlusher (c : Cache) (w : W) : outcome (Cache * W) := flusherLoop (S (size (nodes c))) c w.

(** The loop of the destructor, lines 45-57; the cache is gone afterwards. *)
Fixpoint destroyLoop (fuel : nat) (c : Cache) (w : W) : outcome W :=
  match fuel with
  | O => Blocked
  | S fuel' =>
      r ← removeDirtyListLRU c;
      match r.1 with
      | None => Ret w
      | Some x =>
          n ← deref (nodes r.2 !! x);
          _ ← assert_ (negb (clean (block n)));
          w' ← flush (block n) w;
          destroyLoop fuel' (setNodes (delete x (nodes r.2)) r.2) w'
      end
  end.

Definition destroyCache (c : Cache) (w : W) : outcome W := destroyLoop (S (size (nodes c))) c w.

End Flushing.

End Operations.
