(* ===== verification/CacheLists.v ===== *)
(** The linked lists of the cache (Cache.v) as Rocq lists.

    A heap is observed through the contents of its nodes; an operation on one of
    the four lists changes the links of that list only ([frame]). Each list
    operation of client/cache.cpp is shown to return and to do to the pointers what
    the corresponding list operation does. *)

From stdpp Require Import gmap.
From S2P Require Import Prelude Config Cache.
#[local] Open Scope Z_scope.

(** ** Observations of a heap *)

Definition lnk (k : Link) (m : heap) (x : nat) : option ListNode := link k <$> m !! x.
Definition blk (m : heap) (x : nat) : option CacheBlock := block <$> m !! x.
Definition bid (m : heap) (x : nat) : option Z := bucketId <$> m !! x.

(** [m'] differs from [m] in links of kind [k] only. *)
Definition frame (k : Link) (m m' : heap) : Prop :=
  forall x, blk m' x = blk m x /\ bid m' x = bid m x /\ forall k', k' <> k -> lnk k' m' x = lnk k' m x.

#[export] Instance frame_PreOrder k : PreOrder (frame k).
Proof.
  split; [by intros m x|]. intros m1 m2 m3 H1 H2 x. destruct (H1 x) as (? & ? & H1'), (H2 x) as (? & ? & H2').
  repeat split; [congruence..|]. intros k' Hk. rewrite H2', H1'; done.
Qed.

Lemma frame_is_Some k m m' x : frame k m m' -> is_Some (m' !! x) <-> is_Some (m !! x).
Proof.
  intros H. destruct (H x) as (Hb & _). unfold blk in Hb.
  destruct (m !! x), (m' !! x); cbn in Hb; try done; split; by intros [].
Qed.

Lemma lnk_is_Some k m x : is_Some (m !! x) <-> is_Some (lnk k m x).
Proof. unfold lnk. by rewrite fmap_is_Some. Qed.

Lemma link_setLink k k' v n : link k (setLink k' v n) = if decide (k = k') then v else link k n.
Proof. by destruct k, k'. Qed.

(** One assignment to the links of one node. *)
Lemma setLink_frame k x v n m :
  m !! x = Some n ->
  frame k m (<[x := setLink k v n]> m) /\
  forall y, lnk k (<[x := setLink k v n]> m) y = if decide (y = x) then Some v else lnk k m y.
Proof.
  intros Hn. split.
  - intros y. unfold blk, bid, lnk. rewrite lookup_insert. case_decide as Hd; [subst y|done].
    rewrite Hn. repeat split. intros k' Hk. cbn. by rewrite link_setLink, decide_False.
  - intros y. unfold lnk. rewrite lookup_insert.
    destruct (decide (y = x)) as [->|Hne]; [|by rewrite decide_False].
    rewrite decide_True by done. cbn. by rewrite link_setLink, decide_True.
Qed.

Lemma setNext_spec k x v m ln :
  lnk k m x = Some ln ->
  exists m', setNext k x v m = Ret m' /\ frame k m m' /\
    forall y, lnk k m' y = if decide (y = x) then Some (mkListNode (prev ln) v) else lnk k m y.
Proof.
  unfold lnk at 1. destruct (m !! x) as [n|] eqn:Hn; [|done]. intros [= <-]. unfold setNext. rewrite Hn.
  eexists. split; [done|]. by apply setLink_frame.
Qed.

Lemma setPrev_spec k x v m ln :
  lnk k m x = Some ln ->
  exists m', setPrev k x v m = Ret m' /\ frame k m m' /\
    forall y, lnk k m' y = if decide (y = x) then Some (mkListNode v (next ln)) else lnk k m y.
Proof.
  unfold lnk at 1. destruct (m !! x) as [n|] eqn:Hn; [|done]. intros [= <-]. unfold setPrev. rewrite Hn.
  eexists. split; [done|]. by apply setLink_frame.
Qed.

Lemma resetNode_spec k x m :
  is_Some (m !! x) ->
  exists m', resetNode k x m = Ret m' /\ frame k m m' /\
    forall y, lnk k m' y = if decide (y = x) then Some emptyNode else lnk k m y.
Proof.
  intros [n Hn]. unfold resetNode. rewrite Hn. eexists. split; [done|]. by apply setLink_frame.
Qed.

(** ** Segments of doubly linked lists *)

Definition hd (q : ptr) (l : list nat) : ptr := match l with [] => q | y :: _ => Some y end.
Definition lst (p : ptr) (l : list nat) : ptr := match last l with None => p | Some y => Some y end.

(** The nodes [l] are linked in this order; [p] comes before and [q] after them. *)
Fixpoint dseg (f : nat -> option ListNode) (p : ptr) (l : list nat) (q : ptr) : Prop :=
  match l with
  | [] => True
  | x :: l' => f x = Some (mkListNode p (hd q l')) /\ dseg f (Some x) l' q
  end.

Lemma hd_app q l1 l2 : hd q (l1 ++ l2) = hd (hd q l2) l1.
Proof. by destruct l1. Qed.

Lemma lst_app p l1 l2 : lst p (l1 ++ l2) = lst (lst p l1) l2.
Proof. unfold lst. rewrite last_app. by destruct (last l2). Qed.

Lemma lst_cons p x l : lst p (x :: l) = lst (Some x) l.
Proof. unfold lst. rewrite last_cons. by destruct (last l). Qed.

Lemma dseg_app f p l1 l2 q : dseg f p (l1 ++ l2) q <-> dseg f p l1 (hd q l2) /\ dseg f (lst p l1) l2 q.
Proof.
  revert p. induction l1 as [|x l1 IH]; intros p; cbn; [tauto|]. rewrite IH, hd_app, lst_cons. tauto.
Qed.

Lemma dseg_ext f g p l q : (forall x, x ∈ l -> f x = g x) -> dseg f p l q -> dseg g p l q.
Proof.
  revert p. induction l as [|x l IH]; intros p Hfg; cbn; [done|]. intros [Hx Hl].
  split; [by rewrite <- Hfg by constructor|]. apply IH; [|done]. intros y Hy. apply Hfg. by constructor.
Qed.

(** The assignments that put [x] in front of a list. *)
Lemma link_front k m x l :
  dseg (lnk k m) None l None -> NoDup (x :: l) -> lnk k m x = Some emptyNode ->
  exists m1 m2, setNext k x (hd None l) m = Ret m1 /\ setPrevIf k (hd None l) (Some x) m1 = Ret m2 /\
    frame k m m2 /\ dseg (lnk k m2) None (x :: l) None /\
    forall y, y ∉ x :: l -> lnk k m2 y = lnk k m y.
Proof.
  intros Hl [Hx Hnd]%NoDup_cons Hlx. destruct (setNext_spec k x (hd None l) m _ Hlx) as (m1 & H1 & F1 & L1).
  exists m1. destruct l as [|y l]; cbn [hd setPrevIf] in *.
  - exists m1. split; [done|]. split; [done|]. split; [done|]. split.
    + cbn. by rewrite L1, decide_True.
    + intros z Hz. rewrite L1, decide_False; set_solver.
  - destruct Hl as [Hy Hl]. apply not_elem_of_cons in Hx as [Hxy Hx]. apply NoDup_cons in Hnd as [Hyl Hnd].
    assert (Hy1 : lnk k m1 y = Some (mkListNode None (hd None l))) by (by rewrite L1, decide_False).
    destruct (setPrev_spec k y (Some x) m1 _ Hy1) as (m2 & H2 & F2 & L2). exists m2.
    split; [done|]. split; [done|]. split; [by etrans|]. split.
    + cbn. rewrite !L2, (decide_False (P := x = y)), L1 by done. rewrite !decide_True by done. split; [done|]. split; [done|].
      eapply dseg_ext; [|exact Hl]. intros z Hz. rewrite L2, L1, !decide_False; [done|by intros ->|by intros ->].
    + intros z Hz. rewrite L2, L1, !decide_False; set_solver.
Qed.

(** The assignments that take [x] out of a list. *)
Lemma unlink_middle k m x l1 l2 :
  dseg (lnk k m) None (l1 ++ x :: l2) None -> NoDup (l1 ++ x :: l2) ->
  lnk k m x = Some (mkListNode (lst None l1) (hd None l2)) /\
  exists m1 m2 m3, setNextIf k (lst None l1) (hd None l2) m = Ret m1 /\
    setPrevIf k (hd None l2) (lst None l1) m1 = Ret m2 /\ resetNode k x m2 = Ret m3 /\
    frame k m m3 /\ dseg (lnk k m3) None (l1 ++ l2) None /\ lnk k m3 x = Some emptyNode /\
    forall y, y ∉ l1 ++ x :: l2 -> lnk k m3 y = lnk k m y.
Proof.
  intros Hd Hnd. apply dseg_app in Hd as [H1 [Hx H2]]. cbn in H1, H2. split; [done|].
  apply NoDup_app in Hnd as (N1 & N12 & [Nx N2]%NoDup_cons).
  assert (Hx1 : x ∉ l1) by (intros ?%N12; set_solver).
  (* the predecessor *)
  assert (exists m1, setNextIf k (lst None l1) (hd None l2) m = Ret m1 /\ frame k m m1 /\
    dseg (lnk k m1) None l1 (hd None l2) /\ forall y, y ∉ l1 -> lnk k m1 y = lnk k m y) as (m1 & S1 & F1 & D1 & L1).
  { destruct l1 as [|y l1 _] using rev_ind; [exists m; by repeat split|].
    rewrite lst_app. cbn. apply dseg_app in H1 as [H1 [Hy _]]. cbn in Hy.
    destruct (setNext_spec k y (hd None l2) m _ Hy) as (m1 & -> & F1 & L1). exists m1. split; [done|]. split; [done|].
    apply NoDup_app in N1 as (_ & Hyl & _). split.
    - apply dseg_app. cbn. rewrite L1, decide_True by done. split; [|done].
      eapply dseg_ext; [|exact H1]. intros z Hz. rewrite L1, decide_False; [done|]. intros ->. apply (Hyl y); set_solver.
    - intros z Hz. rewrite L1, decide_False; [done|set_solver]. }
  (* the successor *)
  assert (exists m2, setPrevIf k (hd None l2) (lst None l1) m1 = Ret m2 /\ frame k m1 m2 /\
    dseg (lnk k m2) (lst None l1) l2 None /\ forall y, y ∉ l2 -> lnk k m2 y = lnk k m1 y) as (m2 & S2 & F2 & D2 & L2).
  { destruct l2 as [|y l2]; [exists m1; by repeat split|]. cbn in H2 |- *. destruct H2 as [Hy H2].
    assert (Hy1 : y ∉ l1) by (intros ?%N12; set_solver).
    assert (Hym : lnk k m1 y = Some (mkListNode (Some x) (hd None l2))) by (by rewrite L1).
    destruct (setPrev_spec k y (lst None l1) m1 _ Hym) as (m2 & -> & F2 & L2). exists m2. split; [done|]. split; [done|].
    apply NoDup_cons in N2 as [Ny N2]. split.
    - split; [by rewrite L2, decide_True|]. eapply dseg_ext; [|exact H2]. intros z Hz.
      rewrite L2, decide_False, L1; [done|intros ?%N12; set_solver|by intros ->].
    - intros z Hz. rewrite L2, decide_False; [done|set_solver]. }
  destruct (resetNode_spec k x m2) as (m3 & S3 & F3 & L3).
  { rewrite (lnk_is_Some k), L2, L1, Hx; [by eexists|done..]. }
  exists m1, m2, m3. split; [done|]. split; [done|]. split; [done|]. split; [by do 2 (etrans; [eassumption|])|].
  split; [|split].
  - apply dseg_app. split.
    + eapply dseg_ext; [|exact D1]. intros z Hz. rewrite L3, decide_False, L2; [done|intros ?; apply (N12 z); set_solver|by intros ->].
    + eapply dseg_ext; [|exact D2]. intros z Hz. rewrite L3, decide_False; [done|by intros ->].
  - by rewrite L3, decide_True.
  - intros y Hy. rewrite L3, decide_False, L2, L1; [done|set_solver..].
Qed.

(** ** Lists in order of recency *)

(** [l], most recent first, is the list of kind [k] with the ends [e]; the nodes
    outside have no links of this kind. *)
Definition wfList (k : Link) (e : Ends) (m : heap) (l : list nat) : Prop :=
  NoDup l /\ dseg (lnk k m) None l None /\ e = mkEnds (hd None l) (lst None l) /\
  forall x ln, x ∉ l -> lnk k m x = Some ln -> ln = emptyNode.

Lemma wfList_ext k e m m' l : (forall x, lnk k m' x = lnk k m x) -> wfList k e m l -> wfList k e m' l.
Proof.
  intros L (Hnd & Hd & He & Ho).
  split; [done|]. split; [eapply dseg_ext; [|exact Hd]; intros; by rewrite L|]. split; [done|].
  intros x ln. rewrite L. apply Ho.
Qed.

Lemma wfList_frame k k' e m m' l : frame k' m m' -> k <> k' -> wfList k e m l -> wfList k e m' l.
Proof. intros F Hk. apply wfList_ext. intros x. by apply F. Qed.

Lemma pushMRU_spec k x e m l :
  wfList k e m l -> x ∉ l -> is_Some (m !! x) ->
  exists e' m', pushMRU k x e m = Ret (e', m') /\ frame k m m' /\ wfList k e' m' (x :: l).
Proof.
  intros (Hnd & Hd & -> & Ho) Hx Hs. apply (lnk_is_Some k) in Hs as [ln Hln].
  assert (ln = emptyNode) as -> by (by eapply Ho).
  destruct (link_front k m x l Hd) as (m1 & m2 & H1 & H2 & HF & Hd' & Ho'); [by constructor|done|].
  eexists _, m2. unfold pushMRU. cbn [mru lru]. rewrite H1, Ret_bind, H2, Ret_bind. split; [done|]. split; [done|].
  split; [by constructor|]. split; [done|]. split.
  - cbn [hd]. f_equal. rewrite lst_cons. unfold lst. by destruct (last l).
  - intros y ln Hy Hly. rewrite Ho' in Hly by done. apply (Ho y ln); [set_solver|done].
Qed.

Lemma lst_not_in l1 x l2 : NoDup (l1 ++ x :: l2) -> lst None (l1 ++ x :: l2) = Some x -> l2 = [].
Proof.
  intros (_ & _ & [Hx _]%NoDup_cons)%NoDup_app. rewrite lst_app, lst_cons. unfold lst.
  destruct (last l2) as [y|] eqn:Hy; [|by intros _; apply last_None]. intros [= ->].
  apply last_Some_elem_of in Hy. done.
Qed.

Lemma hd_not_in l1 x l2 : NoDup (l1 ++ x :: l2) -> hd None (l1 ++ x :: l2) = Some x -> l1 = [].
Proof.
  intros (_ & Hx & _)%NoDup_app. destruct l1 as [|y l1]; [done|]. cbn. intros [= ->].
  destruct (Hx x); set_solver.
Qed.

Lemma removeNode_spec k x e m l1 l2 :
  wfList k e m (l1 ++ x :: l2) ->
  exists e' m', removeNode k x e m = Ret (e', m') /\ frame k m m' /\ wfList k e' m' (l1 ++ l2).
Proof.
  intros (Hnd & Hd & -> & Ho). unfold removeNode. cbn [mru lru].
  destruct (unlink_middle k m x l1 l2 Hd Hnd) as (Hx & m1 & m2 & m3 & H1 & H2 & H3 & HF & Hd' & Hx' & Hout).
  assert (Hnd' : NoDup (l1 ++ l2)) by (by apply NoDup_middle in Hnd as [_ ?]).
  destruct (bool_decide (hd None _ = Some x) && _) eqn:Hboth.
  - apply andb_true_iff in Hboth as [Hh%bool_decide_eq_true Hl%bool_decide_eq_true].
    apply hd_not_in in Hh as ->; [|done]. apply lst_not_in in Hl as ->; [|done].
    eexists _, m. split; [done|]. split; [done|]. split; [done|]. split; [done|]. split; [done|].
    intros y ln _. destruct (decide (y = x)) as [->|Hne]; [|apply Ho; set_solver].
    cbn in Hx. rewrite Hx. by intros [= <-].
  - clear Hboth. unfold lnk in Hx. destruct (m !! x) as [n|]; [|done]. injection Hx as Hn.
    rewrite deref_Some, Ret_bind, Hn. cbn [prev next]. rewrite H1, Ret_bind, H2, Ret_bind, H3, Ret_bind.
    eexists _, m3. split; [done|]. split; [done|]. split; [done|]. split; [done|]. split; [f_equal|].
    + case_bool_decide as Hc; [apply hd_not_in in Hc as ->; [done|done]|].
      destruct l1; [by destruct Hc|done].
    + case_bool_decide as Hc; [apply lst_not_in in Hc as ->; [by rewrite app_nil_r|done]|].
      rewrite !lst_app, lst_cons. rewrite lst_app, lst_cons in Hc. unfold lst in *. by destruct (last l2).
    + intros y ln Hy. destruct (decide (y = x)) as [->|Hne]; [rewrite Hx'; by intros [= <-]|].
      assert (y ∉ l1 ++ x :: l2) by set_solver. rewrite Hout by done. by apply Ho.
Qed.

Lemma removeLRU_nil k e m : wfList k e m [] -> removeLRU k e m = Ret (None, e, m).
Proof. by intros (_ & _ & -> & _). Qed.

Lemma removeLRU_spec k x e m l :
  wfList k e m (l ++ [x]) ->
  exists e' m', removeLRU k e m = Ret (Some x, e', m') /\ frame k m m' /\ wfList k e' m' l.
Proof.
  intros (Hnd & Hd & -> & Ho). unfold removeLRU. cbn [mru lru].
  destruct (unlink_middle k m x l [] Hd Hnd) as (Hx & m1 & m2 & m3 & H1 & H2 & H3 & HF & Hd' & Hx' & Hout).
  rewrite app_nil_r in Hd'. cbn in Hx, H2. injection H2 as <-. rewrite lst_app. cbn [lst last].
  assert (Hout' : forall y ln, y ∉ l -> lnk k m3 y = Some ln -> ln = emptyNode).
  { intros y ln Hy. destruct (decide (y = x)) as [->|Hne]; [rewrite Hx'; by intros [= <-]|].
    assert (y ∉ l ++ [x]) by set_solver. rewrite Hout by done. by apply Ho. }
  assert (Hnd' : NoDup l) by (by apply NoDup_app in Hnd as (? & _ & _)).
  case_bool_decide as Hc.
  - symmetry in Hc. apply (hd_not_in l x []) in Hc as ->; [|done]. cbn in H1. injection H1 as <-.
    rewrite H3, Ret_bind. eexists _, m3. split; [done|]. by split.
  - unfold lnk in Hx. destruct (m !! x) as [n|]; [|done]. injection Hx as Hn.
    rewrite deref_Some, Ret_bind, Hn. cbn [prev next].
    destruct l as [|y l _] using rev_ind; [by destruct Hc|]. rewrite lst_app in H1 |- *. cbn [lst last setNextIf hd] in H1 |- *.
    rewrite deref_Some, Ret_bind, bool_decide_true by done. cbn [assert_]. rewrite Ret_bind, H1, Ret_bind, H3, Ret_bind.
    eexists _, m3. split; [done|]. split; [done|]. split; [done|]. split; [done|]. split; [|done].
    rewrite lst_app. f_equal. rewrite <- app_assoc, !hd_app. by destruct l.
Qed.

(** ** The hash table *)

(** Bucket [i] is the list [B i]; every node is in at most one bucket. *)
Definition wfTable (t : list ptr) (m : heap) (B : nat -> list nat) : Prop :=
  length t = Z.to_nat HASH_BUCKETS /\
  (forall i, (i < Z.to_nat HASH_BUCKETS)%nat ->
    t !! i = Some (hd None (B i)) /\ NoDup (B i) /\ dseg (lnk Bucket m) None (B i) None) /\
  (forall i, (Z.to_nat HASH_BUCKETS <= i)%nat -> B i = []) /\
  (forall i j x, x ∈ B i -> x ∈ B j -> i = j) /\
  forall x ln, (forall i, x ∉ B i) -> lnk Bucket m x = Some ln -> ln = emptyNode.

Lemma wfTable_ext t m m' B : (forall x, lnk Bucket m' x = lnk Bucket m x) -> wfTable t m B -> wfTable t m' B.
Proof.
  intros L (Hlen & Hb & He & Hdis & Ho). split; [done|]. split; [|split; [done|split; [done|]]].
  - intros i Hi. destruct (Hb i Hi) as (? & ? & Hd). split; [done|]. split; [done|].
    eapply dseg_ext; [|exact Hd]. intros; by rewrite L.
  - intros x ln. rewrite L. apply Ho.
Qed.

Lemma wfTable_frame k t m m' B : frame k m m' -> k <> Bucket -> wfTable t m B -> wfTable t m' B.
Proof. intros F Hk. apply wfTable_ext. intros x. apply F. congruence. Qed.

Lemma addToHashmap_spec x i c B :
  wfTable (hashTable c) (nodes c) B -> (i < Z.to_nat HASH_BUCKETS)%nat -> bid (nodes c) x = Some (Z.of_nat i) ->
  (forall j, x ∉ B j) ->
  exists t' m', addToHashmap x c = Ret (setHashTable t' (setNodes m' c)) /\ frame Bucket (nodes c) m' /\
    wfTable t' m' (fun j => if decide (j = i) then x :: B i else B j).
Proof.
  intros (Hlen & Hb & He & Hdis & Ho) Hi Hbid Hx. unfold bid in Hbid.
  destruct (nodes c !! x) as [n|] eqn:Hn; [|done]. injection Hbid as Hbid.
  destruct (Hb i Hi) as (Ht & Hnd & Hd).
  assert (Hlx : lnk Bucket (nodes c) x = Some emptyNode).
  { unfold lnk. rewrite Hn. cbn. f_equal. apply (Ho x); [done|]. unfold lnk. by rewrite Hn. }
  destruct (link_front Bucket (nodes c) x (B i) Hd) as (m1 & m2 & H1 & H2 & HF & Hd' & Hout); [by constructor|done|].
  eexists _, m2. unfold addToHashmap. rewrite Hn, deref_Some, Ret_bind, Hbid, Nat2Z.id, Ht, deref_Some, Ret_bind.
  rewrite H1, Ret_bind, H2, Ret_bind. split; [done|]. split; [done|].
  split; [by rewrite length_insert|]. split; [|split; [|split]].
  - intros j Hj. case_decide as Hji.
    + subst j. rewrite list_lookup_insert_eq by lia. split; [done|]. split; [by constructor|done].
    + rewrite list_lookup_insert_ne by done. destruct (Hb j Hj) as (? & ? & Hdj). split; [done|]. split; [done|].
      eapply dseg_ext; [|exact Hdj]. intros y Hy. symmetry. apply Hout. intros [->|Hyi]%elem_of_cons; [by eapply Hx|].
      by destruct Hji; eapply Hdis.
  - intros j Hj. rewrite decide_False by lia. by apply He.
  - intros j1 j2 y. repeat case_decide; subst; try done.
    + intros [->|Hy]%elem_of_cons Hy2; [by destruct (Hx j2)|by eapply Hdis].
    + intros Hy1 [->|Hy]%elem_of_cons; [by destruct (Hx j1)|by eapply Hdis].
    + by apply Hdis.
  - intros y ln Hy Hly. assert (Hyi : y ∉ x :: B i) by (specialize (Hy i); by rewrite decide_True in Hy).
    rewrite Hout in Hly by done. apply (Ho y ln); [|done]. intros j.
    specialize (Hy j). case_decide; [set_solver|done].
Qed.

Lemma removeFromHashmap_spec x i c B l1 l2 :
  wfTable (hashTable c) (nodes c) B -> B i = l1 ++ x :: l2 -> bid (nodes c) x = Some (Z.of_nat i) ->
  exists t' m', removeFromHashmap x c = Ret (setHashTable t' (setNodes m' c)) /\ frame Bucket (nodes c) m' /\
    wfTable t' m' (fun j => if decide (j = i) then l1 ++ l2 else B j).
Proof.
  intros (Hlen & Hb & He & Hdis & Ho) HBi Hbid.
  assert (Hi : (i < Z.to_nat HASH_BUCKETS)%nat).
  { destruct (decide (i < Z.to_nat HASH_BUCKETS)%nat); [done|]. rewrite (He i) in HBi by lia. by destruct l1. }
  destruct (Hb i Hi) as (Ht & Hnd & Hd). rewrite HBi in Hnd, Hd, Ht.
  destruct (unlink_middle Bucket (nodes c) x l1 l2 Hd Hnd) as (Hx & m1 & m2 & m3 & H1 & H2 & H3 & HF & Hd' & Hx' & Hout).
  unfold bid in Hbid. unfold lnk in Hx. unfold removeFromHashmap.
  destruct (nodes c !! x) as [n|] eqn:Hn; [|done]. injection Hbid as Hbid. injection Hx as Hx. cbn in Hx.
  rewrite deref_Some, Ret_bind, Hbid, Nat2Z.id, Ht, deref_Some, Ret_bind, Hx. cbn [prev next].
  rewrite H1, Ret_bind, H2, Ret_bind, H3, Ret_bind. eexists _, m3. split; [done|]. split; [done|].
  assert (Hnd' : NoDup (l1 ++ l2)) by (by apply NoDup_middle in Hnd as [_ ?]).
  assert (Hsub : forall y, y ∈ l1 ++ l2 -> y ∈ B i) by (intros y; rewrite HBi; set_solver).
  split; [case_match; by rewrite ?length_insert|]. split; [|split; [|split]].
  - intros j Hj. case_decide as Hji.
    + subst j. split; [|done]. case_bool_decide as Hc.
      * apply hd_not_in in Hc as ->; [|done]. by rewrite list_lookup_insert_eq by lia.
      * rewrite Ht. destruct l1; [by destruct Hc|done].
    + destruct (Hb j Hj) as (Htj & ? & Hdj). split; [case_match; by rewrite ?list_lookup_insert_ne|]. split; [done|].
      eapply dseg_ext; [|exact Hdj]. intros y Hy. symmetry. apply Hout. rewrite <- HBi. intros Hyi. by destruct Hji; eapply Hdis.
  - intros j Hj. rewrite decide_False by lia. by apply He.
  - intros j1 j2 y. repeat case_decide; subst; try done; intros; eapply Hdis; eauto.
  - intros y ln Hy. destruct (decide (y = x)) as [->|Hne]; [rewrite Hx'; by intros [= <-]|].
    assert (Hyi : y ∉ l1 ++ l2) by (specialize (Hy i); by rewrite decide_True in Hy).
    rewrite Hout by set_solver. apply Ho. intros j. specialize (Hy j). case_decide as Hji; [|done]. subst j. rewrite HBi. set_solver.
Qed.

(** ** The free list *)

(** Only the forward links matter. *)
Fixpoint fseg (f : nat -> option ListNode) (l : list nat) : Prop :=
  match l with
  | [] => True
  | x :: l' => (exists p, f x = Some (mkListNode p (hd None l'))) /\ fseg f l'
  end.

Definition wfFree (h : ptr) (m : heap) (l : list nat) : Prop :=
  NoDup l /\ fseg (lnk Free m) l /\ h = hd None l.

Lemma fseg_ext f g l :
  (forall x ln, x ∈ l -> f x = Some ln -> exists p, g x = Some (mkListNode p (next ln))) -> fseg f l -> fseg g l.
Proof.
  induction l as [|x l IH]; intros Hfg; cbn; [done|]. intros [[p Hx] Hl]. split.
  - apply (Hfg x (mkListNode p (hd None l))); [constructor|done].
  - apply IH; [|done]. intros y ln Hy. apply Hfg. by constructor.
Qed.

Lemma wfFree_ext h m m' l : (forall x, x ∈ l -> lnk Free m' x = lnk Free m x) -> wfFree h m l -> wfFree h m' l.
Proof.
  intros L (Hnd & Hf & Hh). split; [done|]. split; [|done]. eapply fseg_ext; [|exact Hf].
  intros x [p q] Hx Hlx. rewrite L, Hlx by done. by exists p.
Qed.

Lemma wfFree_frame k h m m' l : frame k m m' -> k <> Free -> wfFree h m l -> wfFree h m' l.
Proof. intros F Hk. apply wfFree_ext. intros x _. apply F. congruence. Qed.

Lemma addToFreeList_spec x c l :
  wfFree (freeListHead c) (nodes c) l -> x ∉ l -> is_Some (nodes c !! x) ->
  exists m', addToFreeList x c =
      Ret (u32 (freeBlockCount c + 1) <? 2020, setFreeList (Some x) (u32 (freeBlockCount c + 1)) (setNodes m' c)) /\
    frame Free (nodes c) m' /\ wfFree (Some x) m' (x :: l).
Proof.
  intros (Hnd & Hf & Hh) Hx Hs. apply (lnk_is_Some Free) in Hs as [ln Hln]. unfold addToFreeList. rewrite Hh.
  destruct (setNext_spec Free x (hd None l) (nodes c) ln Hln) as (m1 & -> & F1 & L1). rewrite Ret_bind.
  assert (exists m2, setPrevIf Free (hd None l) (Some x) m1 = Ret m2 /\ frame Free m1 m2 /\
    forall y, exists p, lnk Free m2 y = (fun ln => mkListNode p (next ln)) <$> lnk Free m1 y) as (m2 & -> & F2 & L2).
  { destruct l as [|y l]; cbn.
    - exists m1. split; [done|]. split; [done|]. intros y. destruct (lnk Free m1 y) as [[p q]|]; [by exists p|by exists None].
    - destruct Hf as [[p Hy] _].
      assert (Hy1 : lnk Free m1 y = Some (mkListNode p (hd None l))) by (rewrite L1, decide_False; [done|set_solver]).
      destruct (setPrev_spec Free y (Some x) m1 _ Hy1) as (m2 & H2 & F2 & L2). exists m2.
      split; [done|]. split; [done|]. intros z. rewrite L2. destruct (decide (z = y)) as [->|Hz].
      + rewrite Hy1. by exists (Some x).
      + destruct (lnk Free m1 z) as [[p' q]|]; [by exists p'|by exists None]. }
  rewrite Ret_bind. exists m2. split; [done|]. split; [by etrans|]. split; [by constructor|]. split; [|done]. cbn.
  destruct (L2 x) as [p ->]. rewrite L1, decide_True by done. split; [by eexists|]. eapply fseg_ext; [|exact Hf].
  intros z [p' q] Hz Hlz. destruct (L2 z) as [p2 ->]. rewrite L1, decide_False, Hlz by (by intros ->). by exists p2.
Qed.

Lemma getFreeListEntry_spec x y l c f :
  wfFree (freeListHead c) (nodes c) (x :: y :: l) -> freeBlockSemaphore c = S f ->
  exists m', getFreeListEntry c =
      Ret (x, setSemaphores f (if u32 (freeBlockCount c - 1) <=? 2000 then S (harvesterSemaphore c) else harvesterSemaphore c)
                (setFreeList (Some y) (u32 (freeBlockCount c - 1)) (setNodes m' c))) /\
    frame Free (nodes c) m' /\ wfFree (Some y) m' (y :: l).
Proof.
  intros (Hnd & ([p Hx] & [q Hy] & Hf) & Hh) Hsem. unfold getFreeListEntry. rewrite Hsem, Hh. cbn [sem_wait].
  rewrite Ret_bind. cbn [hd]. rewrite deref_Some, Ret_bind.
  unfold lnk in Hx. destruct (nodes c !! x) as [n|] eqn:Hn; [|done]. injection Hx as Hx. cbn in Hx.
  rewrite deref_Some, Ret_bind, Hx. cbn [next]. rewrite deref_Some, Ret_bind.
  destruct (setPrev_spec Free y None (nodes c) _ Hy) as (m' & -> & F & L). rewrite Ret_bind. exists m'.
  split; [done|]. split; [done|]. apply NoDup_cons in Hnd as [_ Hnd]. split; [done|]. split; [|done]. cbn.
  rewrite L, decide_True by done. split; [by eexists|]. eapply fseg_ext; [|exact Hf].
  intros z [p' q'] Hz Hlz. rewrite L, decide_False, Hlz; [by eexists|]. intros ->. by apply NoDup_cons in Hnd as [? _].
Qed.

(** ** The shape of a cache *)

(** Each of the lists is well-formed on its own: [R] clean, [D] dirty, [F] free, [B]
    the buckets. *)
Record shape (c : Cache) (R D F : list nat) (B : nat -> list nat) : Prop := mkShape {
  shape_recency : wfList Recency (recencyEnds c) (nodes c) R;
  shape_dirty : wfList Dirty (dirtyEnds c) (nodes c) D;
  shape_free : wfFree (freeListHead c) (nodes c) F;
  shape_table : wfTable (hashTable c) (nodes c) B;
  shape_count : freeBlockCount c = u32 (Z.of_nat (length F)) }.

(** The nodes keep their blocks and their buckets. *)
Definition sameData (c c' : Cache) : Prop :=
  forall x, blk (nodes c') x = blk (nodes c) x /\ bid (nodes c') x = bid (nodes c) x.

Definition sameSemaphores (c c' : Cache) : Prop :=
  freeBlockSemaphore c' = freeBlockSemaphore c /\ harvesterSemaphore c' = harvesterSemaphore c.

#[export] Instance sameData_PreOrder : PreOrder sameData.
Proof. split; [by intros c x|]. intros c1 c2 c3 H1 H2 x. destruct (H1 x), (H2 x). split; congruence. Qed.

#[export] Instance sameSemaphores_PreOrder : PreOrder sameSemaphores.
Proof. split; [by split|]. intros c1 c2 c3 [] []. split; congruence. Qed.

Lemma frame_sameData k m' c c' : frame k (nodes c) m' -> nodes c' = m' -> sameData c c'.
Proof. intros F <- x. by destruct (F x) as (? & ? & _). Qed.

Lemma sameData_is_Some c c' x : sameData c c' -> is_Some (nodes c' !! x) <-> is_Some (nodes c !! x).
Proof.
  intros H. destruct (H x) as [Hb _]. unfold blk in Hb.
  destruct (nodes c !! x), (nodes c' !! x); cbn in Hb; try done; split; by intros [].
Qed.

Section Primitives.
Context (c : Cache) (R D F : list nat) (B : nat -> list nat).
Hypothesis Hc : shape c R D F B.

(** Turn a lemma on one list into one on the shape. *)
Ltac shaped F := destruct Hc; split; cbn;
  first [done|eapply wfList_frame; [exact F|done|done]|eapply wfFree_frame; [exact F|done|done]
        |eapply wfTable_frame; [exact F|done|done]].

Lemma shape_addToRecencyList x :
  x ∉ R -> is_Some (nodes c !! x) ->
  exists c', addToRecencyList x c = Ret c' /\ shape c' (x :: R) D F B /\ sameData c c' /\ sameSemaphores c c'.
Proof.
  intros Hx Hs. unfold addToRecencyList.
  destruct (pushMRU_spec Recency x (recencyEnds c) (nodes c) R) as (e' & m' & -> & Fr & Hw); [apply Hc|done..|].
  rewrite Ret_bind. eexists. split; [done|]. split; [shaped Fr|]. by split; [eapply frame_sameData|].
Qed.

Lemma shape_removeFromRecencyList x R1 R2 :
  R = R1 ++ x :: R2 ->
  exists c', removeFromRecencyList x c = Ret c' /\ shape c' (R1 ++ R2) D F B /\ sameData c c' /\ sameSemaphores c c'.
Proof.
  intros HR. unfold removeFromRecencyList.
  destruct (removeNode_spec Recency x (recencyEnds c) (nodes c) R1 R2) as (e' & m' & -> & Fr & Hw); [rewrite <- HR; apply Hc|].
  rewrite Ret_bind. eexists. split; [done|]. split; [shaped Fr|]. by split; [eapply frame_sameData|].
Qed.

Lemma shape_removeRecencyListLRU x R' :
  R = R' ++ [x] ->
  exists c', removeRecencyListLRU c = Ret (Some x, c') /\ shape c' R' D F B /\ sameData c c' /\ sameSemaphores c c'.
Proof.
  intros HR. unfold removeRecencyListLRU.
  destruct (removeLRU_spec Recency x (recencyEnds c) (nodes c) R') as (e' & m' & -> & Fr & Hw); [rewrite <- HR; apply Hc|].
  rewrite Ret_bind. eexists. split; [done|]. split; [shaped Fr|]. by split; [eapply frame_sameData|].
Qed.

Lemma shape_removeRecencyListLRU_nil : R = [] -> removeRecencyListLRU c = Ret (None, c).
Proof.
  intros HR. unfold removeRecencyListLRU. rewrite removeLRU_nil by (rewrite <- HR; apply Hc). cbn. by destruct c.
Qed.

Lemma shape_addToDirtyList x :
  x ∉ D -> is_Some (nodes c !! x) ->
  exists c', addToDirtyList x c = Ret c' /\ shape c' R (x :: D) F B /\ sameData c c' /\ sameSemaphores c c'.
Proof.
  intros Hx Hs. unfold addToDirtyList.
  destruct (pushMRU_spec Dirty x (dirtyEnds c) (nodes c) D) as (e' & m' & -> & Fr & Hw); [apply Hc|done..|].
  rewrite Ret_bind. eexists. split; [done|]. split; [shaped Fr|]. by split; [eapply frame_sameData|].
Qed.

Lemma shape_removeFromDirtyList x D1 D2 :
  D = D1 ++ x :: D2 ->
  exists c', removeFromDirtyList x c = Ret c' /\ shape c' R (D1 ++ D2) F B /\ sameData c c' /\ sameSemaphores c c'.
Proof.
  intros HD. unfold removeFromDirtyList.
  destruct (removeNode_spec Dirty x (dirtyEnds c) (nodes c) D1 D2) as (e' & m' & -> & Fr & Hw); [rewrite <- HD; apply Hc|].
  rewrite Ret_bind. eexists. split; [done|]. split; [shaped Fr|]. by split; [eapply frame_sameData|].
Qed.

Lemma shape_removeDirtyListLRU x D' :
  D = D' ++ [x] ->
  exists c', removeDirtyListLRU c = Ret (Some x, c') /\ shape c' R D' F B /\ sameData c c' /\ sameSemaphores c c'.
Proof.
  intros HD. unfold removeDirtyListLRU.
  destruct (removeLRU_spec Dirty x (dirtyEnds c) (nodes c) D') as (e' & m' & -> & Fr & Hw); [rewrite <- HD; apply Hc|].
  rewrite Ret_bind. eexists. split; [done|]. split; [shaped Fr|]. by split; [eapply frame_sameData|].
Qed.

Lemma shape_removeDirtyListLRU_nil : D = [] -> removeDirtyListLRU c = Ret (None, c).
Proof.
  intros HD. unfold removeDirtyListLRU. rewrite removeLRU_nil by (rewrite <- HD; apply Hc). cbn. by destruct c.
Qed.

Lemma shape_addToHashmap x i :
  (i < Z.to_nat HASH_BUCKETS)%nat -> bid (nodes c) x = Some (Z.of_nat i) -> (forall j, x ∉ B j) ->
  exists c', addToHashmap x c = Ret c' /\
    shape c' R D F (fun j => if decide (j = i) then x :: B i else B j) /\ sameData c c' /\ sameSemaphores c c'.
Proof.
  intros Hi Hb Hx. destruct (addToHashmap_spec x i c B) as (t' & m' & -> & Fr & Hw); [apply Hc|done..|].
  eexists. split; [done|]. split; [shaped Fr|]. by split; [eapply frame_sameData|].
Qed.

Lemma shape_removeFromHashmap x i B1 B2 :
  B i = B1 ++ x :: B2 -> bid (nodes c) x = Some (Z.of_nat i) ->
  exists c', removeFromHashmap x c = Ret c' /\
    shape c' R D F (fun j => if decide (j = i) then B1 ++ B2 else B j) /\ sameData c c' /\ sameSemaphores c c'.
Proof.
  intros HB Hb. destruct (removeFromHashmap_spec x i c B B1 B2) as (t' & m' & -> & Fr & Hw); [apply Hc|done..|].
  eexists. split; [done|]. split; [shaped Fr|]. by split; [eapply frame_sameData|].
Qed.

Lemma shape_addToFreeList x :
  x ∉ F -> is_Some (nodes c !! x) ->
  exists c', addToFreeList x c = Ret (u32 (Z.of_nat (S (length F))) <? 2020, c') /\
    shape c' R D (x :: F) B /\ sameData c c' /\ sameSemaphores c c'.
Proof.
  intros Hx Hs. destruct (addToFreeList_spec x c F) as (m' & -> & Fr & Hw); [apply Hc|done..|].
  assert (Hn : u32 (freeBlockCount c + 1) = u32 (Z.of_nat (S (length F)))).
  { destruct Hc as [_ _ _ _ ->]. unfold u32. rewrite Zplus_mod_idemp_l. f_equal. lia. }
  rewrite Hn. eexists. split; [done|]. split; [shaped Fr|]. by split; [eapply frame_sameData|].
Qed.

Lemma shape_getFreeListEntry x y F' f :
  F = x :: y :: F' -> freeBlockSemaphore c = S f ->
  exists c', getFreeListEntry c = Ret (x, c') /\ shape c' R D (y :: F') B /\ sameData c c' /\
    freeBlockSemaphore c' = f /\
    harvesterSemaphore c' =
      if u32 (Z.of_nat (S (length F'))) <=? 2000 then S (harvesterSemaphore c) else harvesterSemaphore c.
Proof.
  intros HF Hf. destruct (getFreeListEntry_spec x y F' c f) as (m' & -> & Fr & Hw); [rewrite <- HF; apply Hc|done|].
  assert (Hn : u32 (freeBlockCount c - 1) = u32 (Z.of_nat (S (length F')))).
  { destruct Hc as [_ _ _ _ ->]. rewrite HF. cbn [length]. unfold u32. rewrite Zminus_mod_idemp_l. f_equal. lia. }
  rewrite Hn. eexists. split; [done|]. split; [shaped Fr|]. by split; [eapply frame_sameData|].
Qed.

(** A node whose links stay the same. *)
Lemma shape_update x n n' :
  nodes c !! x = Some n -> (forall k, link k n' = link k n) -> shape (setNodes (<[x := n']> (nodes c)) c) R D F B.
Proof.
  intros Hn Hl.
  assert (L : forall k y, lnk k (<[x := n']> (nodes c)) y = lnk k (nodes c) y).
  { intros k y. unfold lnk. rewrite lookup_insert. case_decide; [subst|done]. rewrite Hn. cbn. by rewrite Hl. }
  destruct Hc. split; cbn; [eapply wfList_ext; [apply L|done]|eapply wfList_ext; [apply L|done]
    |eapply wfFree_ext; [intros; apply L|done]|eapply wfTable_ext; [apply L|done]|done].
Qed.

(** A node that is in no list is reset. *)
Lemma shape_reset x n :
  nodes c !! x = Some n -> x ∉ R -> x ∉ D -> x ∉ F -> (forall i, x ∉ B i) ->
  shape (setNodes (<[x := CacheBlockMetadata_reset n]> (nodes c)) c) R D F B.
Proof.
  intros Hn HR HD HF HB.
  assert (L : forall k y, y <> x -> lnk k (<[x := CacheBlockMetadata_reset n]> (nodes c)) y = lnk k (nodes c) y).
  { intros k y Hy. unfold lnk. by rewrite lookup_insert_ne. }
  assert (Lx : forall k, lnk k (<[x := CacheBlockMetadata_reset n]> (nodes c)) x = Some emptyNode).
  { intros k. unfold lnk. rewrite lookup_insert_eq. by destruct k. }
  assert (Hlist : forall k e l, x ∉ l -> wfList k e (nodes c) l ->
    wfList k e (<[x := CacheBlockMetadata_reset n]> (nodes c)) l).
  { intros k e l Hx (Hnd & Hd & He & Ho). split; [done|]. split; [|split; [done|]].
    - eapply dseg_ext; [|exact Hd]. intros y Hy. symmetry. apply L. by intros ->.
    - intros y ln Hy. destruct (decide (y = x)) as [->|]; [rewrite Lx; by intros [= <-]|rewrite L by done; by apply Ho]. }
  destruct Hc as [? ? ? (? & H3 & ? & ? & H4) ?]. split; cbn; [by apply Hlist|by apply Hlist| | |done].
  - eapply wfFree_ext; [|done]. intros y Hy. apply L. by intros ->.
  - split; [done|]. split; [|split; [done|split; [done|]]].
    + intros i Hi. destruct (H3 i Hi) as (? & ? & Hd). split; [done|]. split; [done|].
      eapply dseg_ext; [|exact Hd]. intros y Hy. symmetry. apply L. intros ->. by eapply HB.
    + intros y ln Hy. destruct (decide (y = x)) as [->|]; [rewrite Lx; by intros [= <-]|rewrite L by done; by apply H4].
Qed.

Lemma shape_setSemaphores f h : shape (setSemaphores f h c) R D F B.
Proof. by destruct Hc. Qed.

End Primitives.
