(* ===== verification/CacheSpec.v ===== *)
(** The cache of Cache.v as an LRU cache.

    The abstract state is two lists of blocks, clean and dirty, most recently used
    first, with the number of free blocks and the values of the two semaphores. Each
    operation on the linked lists is shown to return what the operation on the
    abstract state returns, and to lead to a state that represents the abstract
    one. *)

From Stdlib Require Import Strings.Byte.
From stdpp Require Import gmap.
From S2P Require Import Prelude Config Cache CacheLists.
#[local] Open Scope Z_scope.

(** ** Abstract state *)

Definition key (b : CacheBlock) : Z * Z := (fdes b, addr b).

Record LRU : Type := mkLRU {
  recentBlocks : list CacheBlock;
  dirtyBlocks : list CacheBlock;
  freeBlocks : nat;
  semaphore : nat;
  wakeups : nat }.

Definition cachedBlocks (a : LRU) : list CacheBlock := recentBlocks a ++ dirtyBlocks a.

Definition matches (k : Z * Z) (b : CacheBlock) : bool := bool_decide (key b = k).
Definition findKey (k : Z * Z) (l : list CacheBlock) : option CacheBlock := List.find (matches k) l.
Definition removeKey (k : Z * Z) (l : list CacheBlock) : list CacheBlock :=
  List.filter (fun b => negb (matches k b)) l.

(** A buffer of one block. *)
Definition fullBlock (b : CacheBlock) : Prop :=
  length (data b) = Z.to_nat pfsBlockSizeInBytes /\ length (dirty b) = Z.to_nat pfsBlockSizeInBytes /\ valid b = true.

Record wfLRU (a : LRU) : Prop := mkWfLRU {
  wf_recent : Forall (fun b => clean b = true /\ dirty b = noDirty /\ fullBlock b) (recentBlocks a);
  wf_dirty : Forall (fun b => clean b = false /\ fullBlock b) (dirtyBlocks a);
  wf_keys : NoDup (key <$> cachedBlocks a);
  wf_size : is_u32 (Z.of_nat (length (cachedBlocks a) + freeBlocks a)) }.

(** ** Operations of an LRU cache *)

Definition specRead (k : Z * Z) (a : LRU) : option bytes * LRU :=
  match findKey k (recentBlocks a), findKey k (dirtyBlocks a) with
  | Some b, _ => (Some (data b), mkLRU (b :: removeKey k (recentBlocks a)) (dirtyBlocks a)
                                   (freeBlocks a) (semaphore a) (wakeups a))
  | None, Some b => (Some (data b), mkLRU (recentBlocks a) (b :: removeKey k (dirtyBlocks a))
                                      (freeBlocks a) (semaphore a) (wakeups a))
  | None, None => (None, a)
  end.

(** The block after [bs] was written at [off]. *)
Definition writtenBlock (off : nat) (bs : bytes) (b : CacheBlock) : CacheBlock :=
  mkCacheBlock (fdes b) (addr b)
    (take off (dirty b) ++ replicate (length bs) true ++ drop (off + length bs) (dirty b)) false (valid b)
    (take off (data b) ++ bs ++ drop (off + length bs) (data b)).

Definition specWrite (k : Z * Z) (off : nat) (bs : bytes) (a : LRU) : bool * LRU :=
  match findKey k (cachedBlocks a) with
  | Some b => (true, mkLRU (removeKey k (recentBlocks a)) (writtenBlock off bs b :: removeKey k (dirtyBlocks a))
                       (freeBlocks a) (semaphore a) (wakeups a))
  | None => (false, a)
  end.

(** Two units of the semaphore and a free block with a successor are needed. *)
Definition specAdd (k : Z * Z) (bs : bytes) (a : LRU) : outcome LRU :=
  match semaphore a, freeBlocks a with
  | S (S f), S (S n) =>
      Ret (mkLRU (mkCacheBlock k.1 k.2 noDirty true true bs :: recentBlocks a) (dirtyBlocks a) (S n) f
             (if Z.of_nat (S n) <=? 2000 then S (wakeups a) else wakeups a))
  | S (S _), _ => Crash
  | _, _ => Blocked
  end.

Section Flushing.
Context {W : Type} `{BlockStore W}.

Definition specEvict (k : Z * Z) (a : LRU) (w : W) : outcome (LRU * W) :=
  match findKey k (recentBlocks a), findKey k (dirtyBlocks a) with
  | Some b, _ => Ret (mkLRU (removeKey k (recentBlocks a)) (dirtyBlocks a) (S (freeBlocks a)) (semaphore a) (wakeups a), w)
  | None, Some b =>
      w' ← flush b w;
      Ret (mkLRU (recentBlocks a) (removeKey k (dirtyBlocks a)) (S (freeBlocks a)) (semaphore a) (wakeups a), w')
  | None, None => Ret (a, w)
  end.

(** All dirty blocks are written, the least recently used one first, and become the
    most recently used clean ones; [l] are the dirty blocks, least recent first. *)
Fixpoint specFlush (l : list CacheBlock) (recent : list CacheBlock) (w : W) : outcome (list CacheBlock * W) :=
  match l with
  | [] => Ret (recent, w)
  | b :: l' => w' ← flush b w; specFlush l' (resetDirty b :: recent) w'
  end.

(** The least recently used clean block goes, or else the least recently used dirty
    one after it was written. *)
Definition specHarvestOne (a : LRU) (w : W) : outcome (LRU * W) :=
  match rev (recentBlocks a), rev (dirtyBlocks a) with
  | _ :: r, _ => Ret (mkLRU (rev r) (dirtyBlocks a) (S (freeBlocks a)) (semaphore a) (wakeups a), w)
  | [], b :: r =>
      w' ← flush b w;
      Ret (mkLRU (recentBlocks a) (rev r) (S (freeBlocks a)) (semaphore a) (wakeups a), w')
  | [], [] => Crash
  end.

Fixpoint specHarvest (n : nat) (a : LRU) (w : W) : outcome (LRU * W) :=
  match n with
  | O => Ret (a, w)
  | S n' => r ← specHarvestOne a w; specHarvest n' r.1 r.2
  end.

End Flushing.

(** ** Representation *)

Section Representation.
Context (std_hash : Z -> Z).

Record inv (c : Cache) (R D F : list nat) (B : nat -> list nat) : Prop := mkInv {
  inv_shape : shape c R D F B;
  inv_nodup : NoDup (R ++ D ++ F);
  inv_dom : forall x, is_Some (nodes c !! x) <-> x ∈ R ++ D ++ F;
  inv_bucket : forall i x, x ∈ B i <-> x ∈ R ++ D /\ bid (nodes c) x = Some (Z.of_nat i);
  inv_hash : forall x b, x ∈ R ++ D -> blk (nodes c) x = Some b ->
    bid (nodes c) x = Some (hashPFS std_hash (fdes b) (addr b)) }.

(** The nodes [l] hold the blocks [bs]. *)
Definition contents (m : heap) (l : list nat) (bs : list CacheBlock) : Prop :=
  Forall2 (fun x b => blk m x = Some b) l bs.

Definition represents (c : Cache) (a : LRU) : Prop :=
  exists R D F B, inv c R D F B /\ contents (nodes c) R (recentBlocks a) /\ contents (nodes c) D (dirtyBlocks a) /\
    length F = freeBlocks a /\ freeBlockSemaphore c = semaphore a /\ harvesterSemaphore c = wakeups a /\ wfLRU a.

(** What a run of a cache operation must do to implement a run of the abstract one. *)
Definition simulates {V} (run : outcome (Cache * V)) (spec : outcome (LRU * V)) : Prop :=
  match spec with
  | Ret (a', v) => exists c', run = Ret (c', v) /\ represents c' a'
  | Blocked => run = Blocked
  | Crash => run = Crash
  end.

(** ** Facts on abstract states *)

Lemma matches_true k b : matches k b = true <-> key b = k.
Proof. unfold matches. by rewrite bool_decide_eq_true. Qed.

Lemma findKey_Some k l b : findKey k l = Some b -> b ∈ l /\ key b = k.
Proof. intros [Hin Hk]%find_some. by rewrite list_elem_of_In, <- matches_true. Qed.

Lemma findKey_None k l b : findKey k l = None -> b ∈ l -> key b <> k.
Proof.
  intros Hf Hb%list_elem_of_In Hk. apply (find_none _ _ Hf) in Hb. by rewrite (proj2 (matches_true _ _) Hk) in Hb.
Qed.

Lemma findKey_app k l1 l2 :
  findKey k (l1 ++ l2) = match findKey k l1 with Some b => Some b | None => findKey k l2 end.
Proof. unfold findKey. induction l1 as [|b l1 IH]; [done|]. cbn. by destruct (matches k b). Qed.

Lemma removeKey_id k l : (forall b, b ∈ l -> key b <> k) -> removeKey k l = l.
Proof.
  intros Hl. unfold removeKey. induction l as [|b l IH]; [done|]. cbn.
  assert (matches k b = false) as -> by (unfold matches; apply bool_decide_eq_false, Hl; constructor). cbn. f_equal.
  apply IH. intros b' Hb'. apply Hl. by constructor.
Qed.

Lemma removeKey_middle k l1 b l2 :
  NoDup (key <$> l1 ++ b :: l2) -> key b = k -> removeKey k (l1 ++ b :: l2) = l1 ++ l2.
Proof.
  intros Hnd <-. rewrite fmap_app, fmap_cons in Hnd. apply NoDup_middle in Hnd as [Hni _]. rewrite <- fmap_app in Hni.
  assert (Hother : forall b', b' ∈ l1 ++ l2 -> key b' <> key b).
  { intros b' Hb' Heq. apply Hni. rewrite <- Heq. by apply list_elem_of_fmap_2. }
  unfold removeKey. rewrite List.filter_app. cbn. rewrite (proj2 (matches_true (key b) b) eq_refl). cbn.
  change (removeKey (key b) l1 ++ removeKey (key b) l2 = l1 ++ l2).
  rewrite !removeKey_id; [done|intros b' Hb'; apply Hother; set_solver..].
Qed.

Lemma findKey_middle k l b :
  NoDup (key <$> l) -> findKey k l = Some b -> exists l1 l2, l = l1 ++ b :: l2 /\ removeKey k l = l1 ++ l2 /\ key b = k.
Proof.
  intros Hnd [Hb Hk]%findKey_Some. apply list_elem_of_split in Hb as (l1 & l2 & ->).
  exists l1, l2. split; [done|]. split; [by apply removeKey_middle|done].
Qed.

Lemma findKey_cons_ne k b l : key b <> k -> findKey k (b :: l) = findKey k l.
Proof.
  intros Hk. unfold findKey. cbn. assert (matches k b = false) as ->; [|done]. by apply bool_decide_eq_false.
Qed.

Lemma findKey_cons_eq k b l : key b = k -> findKey k (b :: l) = Some b.
Proof. intros Hk. unfold findKey. cbn. by rewrite (proj2 (matches_true k b)). Qed.

Lemma findKey_removeKey k l : findKey k (removeKey k l) = None.
Proof.
  destruct (findKey k (removeKey k l)) as [b|] eqn:E; [|done]. apply findKey_Some in E as [Hin Hk].
  apply list_elem_of_In, filter_In in Hin as [_ Hm]. by rewrite (proj2 (matches_true _ _) Hk) in Hm.
Qed.

Lemma findKey_removeKey_ne k k' l : k' <> k -> findKey k' (removeKey k l) = findKey k' l.
Proof.
  intros Hne. induction l as [|b l IH]; [done|].
  change (removeKey k (b :: l)) with (if negb (matches k b) then b :: removeKey k l else removeKey k l).
  destruct (matches k b) eqn:E; cbn [negb].
  - apply matches_true in E. by rewrite (findKey_cons_ne k' b) by congruence.
  - destruct (decide (key b = k')) as [Hk|Hk]; [by rewrite !findKey_cons_eq|by rewrite !findKey_cons_ne].
Qed.

(** ** Facts on contents *)

Lemma contents_app_inv m l bs1 bs2 :
  contents m l (bs1 ++ bs2) -> exists l1 l2, l = l1 ++ l2 /\ contents m l1 bs1 /\ contents m l2 bs2.
Proof. intros (l1 & l2 & ? & ? & ->)%Forall2_app_inv_r. by exists l1, l2. Qed.

Lemma contents_middle_inv m l bs1 b bs2 :
  contents m l (bs1 ++ b :: bs2) ->
  exists l1 x l2, l = l1 ++ x :: l2 /\ contents m l1 bs1 /\ blk m x = Some b /\ contents m l2 bs2.
Proof.
  intros (l1 & l2 & -> & H1 & H2)%contents_app_inv. apply Forall2_cons_inv_r in H2 as (x & l2' & Hx & H2 & ->).
  by exists l1, x, l2'.
Qed.

Lemma contents_ext m m' l bs : (forall x, x ∈ l -> blk m' x = blk m x) -> contents m l bs -> contents m' l bs.
Proof.
  intros Hm Hl. unfold contents in *. rewrite Forall2_same_length_lookup in *. destruct Hl as [Hlen Hl]. split; [done|].
  intros i x b Hx Hb. rewrite Hm; [by eapply Hl|by eapply list_elem_of_lookup_2].
Qed.

Lemma contents_app m l1 l2 bs1 bs2 : contents m l1 bs1 -> contents m l2 bs2 -> contents m (l1 ++ l2) (bs1 ++ bs2).
Proof. apply Forall2_app. Qed.

Lemma contents_elem m l bs x b : contents m l bs -> x ∈ l -> blk m x = Some b -> b ∈ bs.
Proof.
  intros Hl Hx Hb. induction Hl as [|y b' l bs Hy Hl IH]; [by apply not_elem_of_nil in Hx|].
  apply elem_of_cons in Hx as [->|Hx]; [|right; auto]. rewrite Hb in Hy. injection Hy as <-. constructor.
Qed.

(** Distinct keys: the node of a block is determined by its key. *)
Lemma contents_unique m l bs x y b b' :
  contents m l bs -> NoDup (key <$> bs) -> NoDup l -> x ∈ l -> y ∈ l -> blk m x = Some b -> blk m y = Some b' ->
  key b = key b' -> x = y.
Proof.
  intros Hl Hk Hnd (i & Hi)%list_elem_of_lookup (j & Hj)%list_elem_of_lookup Hb Hb' Heq.
  unfold contents in Hl. rewrite Forall2_same_length_lookup in Hl. destruct Hl as [Hlen Hl].
  destruct (lookup_lt_is_Some_2 bs i) as [b1 Hb1]; [rewrite <- Hlen; by eapply lookup_lt_Some|].
  destruct (lookup_lt_is_Some_2 bs j) as [b2 Hb2]; [rewrite <- Hlen; by eapply lookup_lt_Some|].
  pose proof (Hl i x b1 Hi Hb1) as E1. pose proof (Hl j y b2 Hj Hb2) as E2.
  rewrite Hb in E1. injection E1 as <-. rewrite Hb' in E2. injection E2 as <-.
  assert (i = j) as ->; [|congruence]. eapply (NoDup_lookup _ i j (key b) Hk); rewrite list_lookup_fmap; [by rewrite Hb1|].
  rewrite Hb2. cbn. congruence.
Qed.

(** ** lookup *)

Lemma matches_eqb fd a b : (fdes b =? u32 fd) && (addr b =? a) = matches (u32 fd, a) b.
Proof.
  unfold matches, key. apply Bool.eq_iff_eq_true. rewrite andb_true_iff, !Z.eqb_eq, bool_decide_eq_true.
  split; [by intros [-> ->]|by intros [= -> ->]].
Qed.

Definition hit (fd a : Z) (m : heap) (x : nat) : bool :=
  match blk m x with Some b => matches (u32 fd, a) b | None => false end.

Lemma lookupLoop_spec fuel fd a m p l :
  dseg (lnk Bucket m) p l None -> (length l < fuel)%nat ->
  lookupLoop fuel fd a (hd None l) m = Ret (List.find (hit fd a m) l).
Proof.
  revert p l. induction fuel as [|fuel IH]; intros p l Hd Hf; [lia|]. destruct l as [|x l]; [done|]. cbn in Hd, Hf |- *.
  destruct Hd as [Hx Hd]. unfold hit, blk. unfold lnk in Hx. destruct (m !! x) as [n|]; [|done]. injection Hx as Hx.
  rewrite deref_Some, Ret_bind, matches_eqb. cbn. destruct (matches _ _); [done|].
  cbn in Hx. rewrite Hx. apply (IH (Some x)); [done|lia].
Qed.

Lemma length_le_size (m : heap) l : NoDup l -> (forall x, x ∈ l -> is_Some (m !! x)) -> (length l <= size m)%nat.
Proof.
  intros Hnd Hl. rewrite <- (size_list_to_set (C := gset nat) l) by done. rewrite <- size_dom.
  apply subseteq_size. intros x Hx%elem_of_list_to_set. by apply elem_of_dom, Hl.
Qed.

(** The loop of the printing functions visits the nodes of its list in their order. *)
Lemma printLoop_spec fuel k m p l bs :
  dseg (lnk k m) p l None -> contents m l bs -> (length l < fuel)%nat ->
  printLoop fuel k (hd None l) m = Ret (zip_with (fun x b => (x, addr b, clean b)) l bs).
Proof.
  intros Hd Hc. revert fuel p Hd. induction Hc as [|x b l bs Hx Hc IH]; intros [|fuel] p Hd Hf; cbn in Hd, Hf |- *; [lia|done|lia|].
  destruct Hd as [Hl Hd]. unfold blk in Hx. unfold lnk in Hl. destruct (m !! x) as [n|]; [|done]. injection Hx as <-. injection Hl as Hl.
  rewrite deref_Some, Ret_bind, Hl. cbn [next]. rewrite (IH fuel (Some x)) by (done || lia). done.
Qed.

Lemma hash_bucket fd a : exists i, hashPFS std_hash fd a = Z.of_nat i /\ (i < Z.to_nat HASH_BUCKETS)%nat.
Proof. pose proof (hashPFS_range std_hash fd a). exists (Z.to_nat (hashPFS std_hash fd a)). lia. Qed.

(** The search goes through the bucket of the key. *)
Lemma lookup_run fd a c R D F B :
  inv c R D F B ->
  exists i, hashPFS std_hash (u32 fd) a = Z.of_nat i /\ lookup std_hash fd a c = Ret (List.find (hit fd a (nodes c)) (B i)).
Proof.
  intros Hi. destruct (hash_bucket (u32 fd) a) as (i & Hh & Hlt). exists i. split; [done|].
  destruct (inv_shape _ _ _ _ _ Hi) as [_ _ _ (_ & Hb & _) _]. destruct (Hb i Hlt) as (Ht & Hnd & Hd).
  unfold lookup. rewrite Hh, Nat2Z.id, Ht, deref_Some, Ret_bind. eapply lookupLoop_spec; [exact Hd|].
  apply Nat.lt_succ_r, length_le_size; [done|]. intros x Hx. apply (inv_dom _ _ _ _ _ Hi).
  apply (inv_bucket _ _ _ _ _ Hi) in Hx as [Hx _]. set_solver.
Qed.

Lemma lookup_missing fd a c R D F B :
  inv c R D F B -> (forall x b, x ∈ R ++ D -> blk (nodes c) x = Some b -> key b <> (u32 fd, a)) ->
  lookup std_hash fd a c = Ret None.
Proof.
  intros Hi Hno. destruct (lookup_run fd a c R D F B Hi) as (i & _ & ->).
  destruct (List.find _ (B i)) as [x|] eqn:Hf; [|done]. exfalso.
  apply find_some in Hf as [Hx Hh]. apply list_elem_of_In, (inv_bucket _ _ _ _ _ Hi) in Hx as [Hx _].
  unfold hit in Hh. destruct (blk (nodes c) x) as [b|] eqn:Hb; [|done]. apply matches_true in Hh. by apply (Hno x b).
Qed.

Lemma lookup_found fd a c R D F B x b :
  inv c R D F B -> x ∈ R ++ D -> blk (nodes c) x = Some b -> key b = (u32 fd, a) ->
  (forall y b', y ∈ R ++ D -> blk (nodes c) y = Some b' -> key b' = key b -> y = x) ->
  lookup std_hash fd a c = Ret (Some x).
Proof.
  intros Hi Hx Hb Hk Huniq. destruct (lookup_run fd a c R D F B Hi) as (i & Hh & ->). f_equal.
  assert (Hxi : x ∈ B i).
  { apply (inv_bucket _ _ _ _ _ Hi). split; [done|]. rewrite (inv_hash _ _ _ _ _ Hi x b Hx Hb). injection Hk as -> ->. by rewrite Hh. }
  destruct (List.find _ (B i)) as [y|] eqn:Hf.
  - apply find_some in Hf as [Hy Hhy]. apply list_elem_of_In, (inv_bucket _ _ _ _ _ Hi) in Hy as [Hy _].
    unfold hit in Hhy. destruct (blk (nodes c) y) as [b'|] eqn:Hb'; [|done]. apply matches_true in Hhy.
    f_equal. apply (Huniq y b'); [done..|congruence].
  - exfalso. apply list_elem_of_In in Hxi. apply (find_none _ _ Hf) in Hxi. unfold hit in Hxi. rewrite Hb in Hxi.
    by rewrite (proj2 (matches_true _ _) Hk) in Hxi.
Qed.

(** The same, from the abstract state. *)
Definition parts (c : Cache) (a : LRU) (R D F : list nat) (B : nat -> list nat) : Prop :=
  inv c R D F B /\ contents (nodes c) R (recentBlocks a) /\ contents (nodes c) D (dirtyBlocks a) /\
  length F = freeBlocks a /\ freeBlockSemaphore c = semaphore a /\ harvesterSemaphore c = wakeups a.

Lemma parts_represents c a R D F B : parts c a R D F B -> wfLRU a -> represents c a.
Proof. intros (? & ? & ? & ? & ? & ?) Hw. exists R, D, F, B. done. Qed.

Lemma represents_parts c a : represents c a -> exists R D F B, parts c a R D F B /\ wfLRU a.
Proof. intros (R & D & F & B & ? & ? & ? & ? & ? & ? & ?). exists R, D, F, B. done. Qed.

Lemma wfList_prints k e m l bs :
  wfList k e m l -> contents m l bs ->
  exists r, printLoop (S (size m)) k (mru e) m = Ret r /\ (fun v => (v.1.2, v.2)) <$> r = (fun b => (addr b, clean b)) <$> bs.
Proof.
  intros (Hnd & Hd & -> & _) Hc. eexists. split.
  - apply (printLoop_spec _ _ _ None _ bs); [done..|]. apply le_n_S, length_le_size; [done|]. intros x Hx.
    apply list_elem_of_lookup in Hx as [i Hi]. destruct (Forall2_lookup_l _ _ _ _ _ Hc Hi) as (b & _ & Hb). unfold blk in Hb. by destruct (m !! x).
  - clear Hnd Hd. induction Hc as [|x b l bs _ _ IH]; [done|]. cbn. by rewrite IH.
Qed.

(** The printing functions return, and print the blocks from the most to the least
    recently used one. *)
Lemma lists_are_printed c a :
  represents c a ->
  exists r d, printRecencyList c = Ret r /\ printDirtyList c = Ret d /\
    (fun v => (v.1.2, v.2)) <$> r = (fun b => (addr b, clean b)) <$> recentBlocks a /\
    (fun v => (v.1.2, v.2)) <$> d = (fun b => (addr b, clean b)) <$> dirtyBlocks a.
Proof.
  intros (R & D & F & B & [[Hr Hd _ _ _] _ _ _ _] & HR & HD & _).
  destruct (wfList_prints _ _ _ _ _ Hr HR) as (r & Hpr & Er), (wfList_prints _ _ _ _ _ Hd HD) as (d & Hpd & Ed). by exists r, d.
Qed.

Lemma parts_lookup_missing fd ad c a R D F B :
  parts c a R D F B -> findKey (u32 fd, ad) (cachedBlocks a) = None -> lookup std_hash fd ad c = Ret None.
Proof.
  intros (Hi & HR & HD & _) Hf. eapply lookup_missing; [exact Hi|]. intros x b Hx Hb.
  eapply findKey_None; [exact Hf|]. eapply contents_elem; [by apply contents_app|done..].
Qed.

Lemma parts_lookup_found fd ad c a R D F B x b :
  parts c a R D F B -> wfLRU a -> x ∈ R ++ D -> blk (nodes c) x = Some b -> key b = (u32 fd, ad) ->
  lookup std_hash fd ad c = Ret (Some x).
Proof.
  intros (Hi & HR & HD & _) Hw Hx Hb Hk. eapply lookup_found; [done..|]. intros y b' Hy Hb' Heq.
  assert (Hnd : NoDup (R ++ D)).
  { pose proof (inv_nodup _ _ _ _ _ Hi) as Hn. rewrite app_assoc in Hn. by apply NoDup_app in Hn as (? & _ & _). }
  exact (contents_unique _ _ _ y x b' b (contents_app _ _ _ _ _ HR HD) (wf_keys _ Hw) Hnd Hy Hx Hb' Hb Heq).
Qed.

(** ** Moving nodes between the lists of used blocks *)

(** The nodes keep their keys and their buckets. *)
Definition sameKeys (c c' : Cache) : Prop :=
  forall x, key <$> blk (nodes c') x = key <$> blk (nodes c) x /\ bid (nodes c') x = bid (nodes c) x.

#[local] Instance sameKeys_PreOrder : PreOrder sameKeys.
Proof. split; [by intros c x|]. intros c1 c2 c3 H1 H2 x. destruct (H1 x), (H2 x). split; congruence. Qed.

Lemma sameData_sameKeys c c' : sameData c c' -> sameKeys c c'.
Proof. intros H x. destruct (H x) as [-> ->]. done. Qed.

Lemma inv_move c c' R D F B R' D' :
  inv c R D F B -> shape c' R' D' F B -> sameKeys c c' -> R' ++ D' ≡ₚ R ++ D -> inv c' R' D' F B.
Proof.
  intros [Hs Hnd Hdom Hb Hh] Hs' Hk Hp.
  assert (Hp' : R' ++ D' ++ F ≡ₚ R ++ D ++ F) by (by rewrite !app_assoc, Hp).
  split; [done|by rewrite Hp'|..].
  - intros x. rewrite Hp', <- Hdom. destruct (Hk x) as [Hx _]. unfold blk in Hx.
    destruct (nodes c !! x), (nodes c' !! x); cbn in Hx; try done; split; by intros [].
  - intros i x. destruct (Hk x) as [_ ->]. by rewrite Hp, Hb.
  - intros x b'. rewrite Hp. destruct (Hk x) as [Hx ->]. intros Hin Hb'. rewrite Hb' in Hx.
    destruct (blk (nodes c) x) as [b|] eqn:Hbx; [|done]. cbn in Hx. injection Hx as -> ->. by apply Hh.
Qed.

Lemma sameData_contents c c' l bs : sameData c c' -> contents (nodes c) l bs -> contents (nodes c') l bs.
Proof. intros H. apply contents_ext. intros x _. apply H. Qed.

Lemma parts_move c c' a a' R D F B R' D' :
  parts c a R D F B -> shape c' R' D' F B -> sameKeys c c' -> sameSemaphores c c' -> R' ++ D' ≡ₚ R ++ D ->
  contents (nodes c') R' (recentBlocks a') -> contents (nodes c') D' (dirtyBlocks a') ->
  freeBlocks a' = freeBlocks a -> semaphore a' = semaphore a -> wakeups a' = wakeups a -> parts c' a' R' D' F B.
Proof.
  intros (Hi & _ & _ & HF & Hs & Hh) Hs' Hk [E1 E2] Hp HR HD G1 G2 G3.
  split; [by eapply inv_move|]. by rewrite G1, G2, G3, E1, E2.
Qed.

Lemma parts_nodup c a R D F B : parts c a R D F B -> NoDup R /\ NoDup D /\ forall x, x ∈ R -> x ∉ D.
Proof.
  intros (Hi & _). apply inv_nodup in Hi. apply NoDup_app in Hi as (? & Hx & Hi). apply NoDup_app in Hi as (? & _).
  split; [done|]. split; [done|]. intros x HR HD. apply (Hx x HR). set_solver.
Qed.

(** ** readBlock *)

Lemma wfLRU_perm a a' :
  wfLRU a -> recentBlocks a' ≡ₚ recentBlocks a -> dirtyBlocks a' ≡ₚ dirtyBlocks a -> freeBlocks a' = freeBlocks a -> wfLRU a'.
Proof.
  intros [H1 H2 H3 H4] Hr Hd Hf.
  assert (Hp : cachedBlocks a' ≡ₚ cachedBlocks a) by (unfold cachedBlocks; by rewrite Hr, Hd).
  split; [by rewrite Hr|by rewrite Hd|by rewrite Hp|]. by rewrite Hp, Hf.
Qed.

Lemma wf_keys_split a : wfLRU a -> NoDup (key <$> recentBlocks a) /\ NoDup (key <$> dirtyBlocks a).
Proof.
  intros Hw. pose proof (wf_keys _ Hw) as Hk. unfold cachedBlocks in Hk. rewrite fmap_app in Hk.
  by apply NoDup_app in Hk as (? & _ & ?).
Qed.

Lemma blk_block c x b : blk (nodes c) x = Some b -> exists n, nodes c !! x = Some n /\ block n = b.
Proof. unfold blk. destruct (nodes c !! x) as [n|]; [|done]. intros [= <-]. by exists n. Qed.

(** Where a cached block is: the node [x] in the middle of its list. *)
Record located (k : Z * Z) (c : Cache) (l : list nat) (bs : list CacheBlock) (b : CacheBlock)
    (l1 : list nat) (x : nat) (l2 : list nat) (bs1 bs2 : list CacheBlock) : Prop := mkLocated {
  loc_key : key b = k;
  loc_blocks : bs = bs1 ++ b :: bs2;
  loc_rest : removeKey k bs = bs1 ++ bs2;
  loc_nodes : l = l1 ++ x :: l2;
  loc_node : blk (nodes c) x = Some b;
  loc_before : contents (nodes c) l1 bs1;
  loc_after : contents (nodes c) l2 bs2 }.

Lemma locate k c l bs b :
  contents (nodes c) l bs -> NoDup (key <$> bs) -> findKey k bs = Some b ->
  exists l1 x l2 bs1 bs2, located k c l bs b l1 x l2 bs1 bs2.
Proof.
  intros Hl Hk Hf. destruct (findKey_middle _ _ _ Hk Hf) as (bs1 & bs2 & -> & Hr & Hkb).
  apply contents_middle_inv in Hl as (l1 & x & l2 & -> & H1 & Hx & H2). by exists l1, x, l2, bs1, bs2.
Qed.

(** What lookup finds for a clean and for a dirty block. *)
Lemma find_recent fd ad c a R D F B b :
  parts c a R D F B -> wfLRU a -> findKey (u32 fd, ad) (recentBlocks a) = Some b ->
  exists R1 x R2 r1 r2, located (u32 fd, ad) c R (recentBlocks a) b R1 x R2 r1 r2 /\
    lookup std_hash fd ad c = Ret (Some x) /\ clean b = true /\ dirty b = noDirty /\ fullBlock b /\ (x ∉ R1 ++ R2) /\ (x ∉ D).
Proof.
  intros Hp Hw Hf. assert (Hp' := Hp). destruct Hp' as (_ & HR & _). pose proof (parts_nodup _ _ _ _ _ _ Hp) as (NR & _ & NRD).
  destruct (locate _ c R _ b HR (proj1 (wf_keys_split a Hw)) Hf) as (R1 & x & R2 & r1 & r2 & Hl).
  exists R1, x, R2, r1, r2. split; [done|]. destruct Hl as [Hk Hb Hr -> Hx _ _].
  split; [eapply parts_lookup_found; [exact Hp|exact Hw|set_solver|exact Hx|exact Hk]|].
  pose proof (wf_recent _ Hw) as Hfa. rewrite Hb, Forall_app, Forall_cons in Hfa. destruct Hfa as (_ & (? & ? & ?) & _).
  split; [done|]. split; [done|]. split; [done|]. split; [by apply NoDup_middle in NR as [? _]|apply NRD; set_solver].
Qed.

Lemma find_dirty fd ad c a R D F B b :
  parts c a R D F B -> wfLRU a -> findKey (u32 fd, ad) (dirtyBlocks a) = Some b ->
  exists D1 x D2 d1 d2, located (u32 fd, ad) c D (dirtyBlocks a) b D1 x D2 d1 d2 /\
    lookup std_hash fd ad c = Ret (Some x) /\ clean b = false /\ fullBlock b /\ (x ∉ D1 ++ D2) /\ (x ∉ R).
Proof.
  intros Hp Hw Hf. assert (Hp' := Hp). destruct Hp' as (_ & _ & HD & _). pose proof (parts_nodup _ _ _ _ _ _ Hp) as (_ & ND & NRD).
  destruct (locate _ c D _ b HD (proj2 (wf_keys_split a Hw)) Hf) as (D1 & x & D2 & d1 & d2 & Hl).
  exists D1, x, D2, d1, d2. split; [done|]. destruct Hl as [Hk Hb Hr -> Hx _ _].
  split; [eapply parts_lookup_found; [exact Hp|exact Hw|set_solver|exact Hx|exact Hk]|].
  pose proof (wf_dirty _ Hw) as Hfa. rewrite Hb, Forall_app, Forall_cons in Hfa. destruct Hfa as (_ & (? & ?) & _).
  split; [done|]. split; [done|]. split; [by apply NoDup_middle in ND as [? _]|]. intros HR. apply (NRD x HR). set_solver.
Qed.

Lemma find_none fd ad c a R D F B :
  parts c a R D F B -> findKey (u32 fd, ad) (recentBlocks a) = None -> findKey (u32 fd, ad) (dirtyBlocks a) = None ->
  lookup std_hash fd ad c = Ret None.
Proof.
  intros Hp H1 H2. eapply parts_lookup_missing; [exact Hp|]. unfold cachedBlocks. by rewrite findKey_app, H1.
Qed.

Lemma readBlock_refines fd ad c a :
  represents c a ->
  exists c', readBlock std_hash fd ad c = Ret ((specRead (u32 fd, ad) a).1, c') /\
    represents c' (specRead (u32 fd, ad) a).2.
Proof.
  intros (R & D & F & B & Hp & Hw)%represents_parts. assert (Hp' := Hp). destruct Hp' as (Hi & HR & HD & _).
  pose proof (inv_shape _ _ _ _ _ Hi) as Hs. unfold readBlock, specRead.
  destruct (findKey _ (recentBlocks a)) as [b|] eqn:Hfr; [|destruct (findKey _ (dirtyBlocks a)) as [b|] eqn:Hfd].
  - destruct (find_recent fd ad c a R D F B b Hp Hw Hfr) as (R1 & x & R2 & r1 & r2 & [Hk Hb -> -> Hx H1 H2] & -> & Hc & _ & _ & Nx & _).
    destruct (blk_block c x b Hx) as (n & Hn & Hnb). rewrite Ret_bind, Hn, deref_Some, Ret_bind, Hnb, Hc.
    destruct (shape_removeFromRecencyList c _ D F B Hs x R1 R2 eq_refl) as (c1 & -> & S1 & E1 & M1). rewrite Ret_bind.
    destruct (shape_addToRecencyList c1 _ D F B S1 x Nx) as (c2 & -> & S2 & E2 & M2);
      [rewrite (sameData_is_Some _ _ _ E1); by exists n|].
    rewrite Ret_bind. exists c2. split; [done|]. assert (E : sameData c c2) by (by etrans).
    eapply (parts_represents _ _ (x :: R1 ++ R2) D F B); [|eapply wfLRU_perm; [exact Hw|cbn; by rewrite Hb, Permutation_middle|done..]].
    eapply parts_move; [exact Hp|done|by apply sameData_sameKeys|by etrans|by rewrite <- Permutation_middle| | |done..];
      [|by eapply sameData_contents].
    apply Forall2_cons. split; [by destruct (E x) as [-> _]|apply contents_app; by eapply sameData_contents].
  - destruct (find_dirty fd ad c a R D F B b Hp Hw Hfd) as (D1 & x & D2 & d1 & d2 & [Hk Hb -> -> Hx H1 H2] & -> & Hc & _ & Nx & _).
    destruct (blk_block c x b Hx) as (n & Hn & Hnb). rewrite Ret_bind, Hn, deref_Some, Ret_bind, Hnb, Hc.
    destruct (shape_removeFromDirtyList c R _ F B Hs x D1 D2 eq_refl) as (c1 & -> & S1 & E1 & M1). rewrite Ret_bind.
    destruct (shape_addToDirtyList c1 R _ F B S1 x Nx) as (c2 & -> & S2 & E2 & M2);
      [rewrite (sameData_is_Some _ _ _ E1); by exists n|].
    rewrite Ret_bind. exists c2. split; [done|]. assert (E : sameData c c2) by (by etrans).
    eapply (parts_represents _ _ R (x :: D1 ++ D2) F B); [|eapply wfLRU_perm; [exact Hw|done|cbn; by rewrite Hb, Permutation_middle|done]].
    eapply parts_move; [exact Hp|done|by apply sameData_sameKeys|by etrans|by rewrite <- (Permutation_middle D1)| | |done..];
      [by eapply sameData_contents|].
    apply Forall2_cons. split; [by destruct (E x) as [-> _]|apply contents_app; by eapply sameData_contents].
  - rewrite (find_none fd ad c a R D F B Hp Hfr Hfd), Ret_bind. exists c. split; [done|]. by eapply parts_represents.
Qed.

(** ** write *)

(** Another block in the node [x]. *)
Definition blockSet (x : nat) (b : CacheBlock) (c c' : Cache) : Prop :=
  forall y, blk (nodes c') y = (if decide (y = x) then Some b else blk (nodes c) y) /\
    bid (nodes c') y = bid (nodes c) y.

Lemma shape_setBlock c R D F B x n b :
  shape c R D F B -> nodes c !! x = Some n ->
  shape (setNodes (<[x := setBlock b n]> (nodes c)) c) R D F B /\
  blockSet x b c (setNodes (<[x := setBlock b n]> (nodes c)) c).
Proof.
  intros Hs Hn. split; [apply (shape_update c R D F B Hs x n); [done|by intros []]|].
  intros y. unfold blk, bid. cbn. rewrite lookup_insert. destruct (decide (y = x)) as [->|Hne].
  - rewrite decide_True by done. by rewrite Hn.
  - by rewrite decide_False.
Qed.

Lemma blockSet_sameData x b c1 c2 c3 : blockSet x b c1 c2 -> sameData c2 c3 -> blockSet x b c1 c3.
Proof. intros H1 H2 y. destruct (H2 y) as [-> ->]. apply H1. Qed.

Lemma sameData_blockSet x b c1 c2 c3 : sameData c1 c2 -> blockSet x b c2 c3 -> blockSet x b c1 c3.
Proof. intros H1 H2 y. destruct (H2 y) as [-> ->], (H1 y) as [-> ->]. done. Qed.

Lemma blockSet_twice x b b' c1 c2 c3 : blockSet x b c1 c2 -> blockSet x b' c2 c3 -> blockSet x b' c1 c3.
Proof.
  intros H1 H2 y. destruct (H2 y) as [-> ->], (H1 y) as [-> ->]. by case_decide.
Qed.

Lemma blockSet_contents x b c c' l bs :
  blockSet x b c c' -> x ∉ l -> contents (nodes c) l bs -> contents (nodes c') l bs.
Proof. intros H Hx. apply contents_ext. intros y Hy. destruct (H y) as [-> _]. by rewrite decide_False by (by intros ->). Qed.

Lemma blockSet_sameKeys x b b' c c' : blockSet x b' c c' -> blk (nodes c) x = Some b -> key b' = key b -> sameKeys c c'.
Proof.
  intros H Hb Hk y. destruct (H y) as [-> ->]. split; [|done]. case_decide; [subst|done]. rewrite Hb. cbn. by rewrite Hk.
Qed.

Lemma blockSet_here x b c c' : blockSet x b c c' -> blk (nodes c') x = Some b.
Proof. intros H. destruct (H x) as [-> _]. by rewrite decide_True. Qed.

Lemma patch_fits {A} off (src buf : list A) :
  (off + length src <= length buf)%nat ->
  patch off src buf = Ret (take off buf ++ src ++ drop (off + length src) buf).
Proof. intros Hl. unfold patch. by rewrite (proj2 (Nat.leb_le _ _)). Qed.

Lemma length_patched {A} off (src buf : list A) :
  (off + length src <= length buf)%nat -> length (take off buf ++ src ++ drop (off + length src) buf) = length buf.
Proof. intros Hl. rewrite !length_app, length_take, length_drop. lia. Qed.

Lemma writtenBlock_full off bs b :
  fullBlock b -> (off + length bs <= Z.to_nat pfsBlockSizeInBytes)%nat -> fullBlock (writtenBlock off bs b).
Proof.
  intros (Hd & Hdi & Hv) Hl. split; [|split; [|done]]; cbn.
  - by rewrite length_patched by (by rewrite Hd).
  - rewrite <- (length_replicate (length bs) true) at 2. rewrite length_patched; [done|]. by rewrite length_replicate, Hdi.
Qed.

(** The second half of write: the block of [x], taken out of its list, is stored
    and put in front of the dirty list. *)
Lemma push_dirty c R D F B x n b :
  shape c R D F B -> nodes c !! x = Some n -> x ∉ D ->
  exists c', addToDirtyList x (setNodes (<[x := setBlock b n]> (nodes c)) c) = Ret c' /\
    shape c' R (x :: D) F B /\ blockSet x b c c' /\ sameSemaphores c c'.
Proof.
  intros Hs Hn Hx. destruct (shape_setBlock c R D F B x n b Hs Hn) as [Hs1 Hb1].
  destruct (shape_addToDirtyList _ R D F B Hs1 x Hx) as (c' & -> & Hs2 & E2 & M2); [cbn; rewrite lookup_insert_eq; by eexists|].
  exists c'. split; [done|]. split; [done|]. split; [by eapply blockSet_sameData|done].
Qed.

Lemma push_recent c R D F B x n b :
  shape c R D F B -> nodes c !! x = Some n -> x ∉ R ->
  exists c', addToRecencyList x (setNodes (<[x := setBlock b n]> (nodes c)) c) = Ret c' /\
    shape c' (x :: R) D F B /\ blockSet x b c c' /\ sameSemaphores c c'.
Proof.
  intros Hs Hn Hx. destruct (shape_setBlock c R D F B x n b Hs Hn) as [Hs1 Hb1].
  destruct (shape_addToRecencyList _ R D F B Hs1 x Hx) as (c' & -> & Hs2 & E2 & M2); [cbn; rewrite lookup_insert_eq; by eexists|].
  exists c'. split; [done|]. split; [done|]. split; [by eapply blockSet_sameData|done].
Qed.

(** The abstract state after a write to the block [b]. *)
Definition writtenLRU (k : Z * Z) (b' : CacheBlock) (a : LRU) : LRU :=
  mkLRU (removeKey k (recentBlocks a)) (b' :: removeKey k (dirtyBlocks a)) (freeBlocks a) (semaphore a) (wakeups a).

Lemma wf_writtenLRU a k b b' :
  wfLRU a -> findKey k (cachedBlocks a) = Some b -> key b' = k -> clean b' = false -> fullBlock b' ->
  wfLRU (writtenLRU k b' a) /\ (removeKey k (recentBlocks a) = recentBlocks a \/ removeKey k (dirtyBlocks a) = dirtyBlocks a).
Proof.
  intros Hw Hf Hk Hc Hfull.
  assert (Hsub : forall l, (forall x, x ∈ removeKey k l -> x ∈ l)).
  { intros l x Hx%list_elem_of_In. apply filter_In in Hx as [Hx _]. by apply list_elem_of_In. }
  destruct (findKey_middle _ _ _ (wf_keys _ Hw) Hf) as (l1 & l2 & Hl & Hrem & Hkb).
  assert (Hp : removeKey k (recentBlocks a) ++ removeKey k (dirtyBlocks a) = l1 ++ l2).
  { rewrite <- Hrem. unfold cachedBlocks, removeKey. by rewrite List.filter_app. }
  split.
  - split; cbn.
    + apply Forall_forall. intros x Hx%Hsub. pose proof (wf_recent _ Hw) as H. rewrite Forall_forall in H. by apply H.
    + apply Forall_cons. split; [done|]. apply Forall_forall. intros x Hx%Hsub.
      pose proof (wf_dirty _ Hw) as H. rewrite Forall_forall in H. by apply H.
    + unfold cachedBlocks. cbn. rewrite <- Permutation_middle, Hp, fmap_cons, Hk. pose proof (wf_keys _ Hw) as H.
      rewrite Hl, <- Permutation_middle, fmap_cons, Hkb in H. done.
    + unfold cachedBlocks. cbn. rewrite <- Permutation_middle, Hp. pose proof (wf_size _ Hw) as H.
      rewrite Hl, <- Permutation_middle in H. done.
  - pose proof (wf_keys _ Hw) as H. unfold cachedBlocks in *. rewrite findKey_app in Hf.
    destruct (findKey k (recentBlocks a)) as [b0|] eqn:Hr; [right|left]; apply removeKey_id; intros x Hx Hkx.
    + rewrite fmap_app in H. apply NoDup_app in H as (_ & Hd & _). apply (Hd k).
      * apply findKey_Some in Hr as [Hr <-]. by apply list_elem_of_fmap_2.
      * rewrite <- Hkx. by apply list_elem_of_fmap_2.
    + by apply (findKey_None _ _ _ Hr Hx).
Qed.

(** The block while it is still in its old list: its flag is not yet cleared. *)
Definition patchedBlock (off : nat) (bs : bytes) (b : CacheBlock) : CacheBlock :=
  mkCacheBlock (fdes b) (addr b) (dirty (writtenBlock off bs b)) (clean b) (valid b) (data (writtenBlock off bs b)).

(** A write to a cached block: it leaves its list and becomes the most recently used
    dirty block. *)
Lemma write_run fd offset bs c x n :
  is_u32 offset -> offset mod pfsBlockSizeInBytes + Z.of_nat (length bs) <= pfsBlockSizeInBytes ->
  lookup std_hash fd (offset / pfsBlockSizeInBytes * pfsBlockSizeInBytes) c = Ret (Some x) ->
  nodes c !! x = Some n -> fullBlock (block n) ->
  let off := Z.to_nat (offset mod pfsBlockSizeInBytes) in
  let c0 := setNodes (<[x := setBlock (patchedBlock off bs (block n)) n]> (nodes c)) c in
  write std_hash fd offset bs c =
  (c1 ← (if clean (block n) then removeFromRecencyList x c0 else removeFromDirtyList x c0);
   n1 ← deref (nodes c1 !! x);
   c2 ← addToDirtyList x (setNodes (<[x := setBlock (writtenBlock off bs (block n)) n1]> (nodes c1)) c1);
   Ret (true, c2)).
Proof.
  intros Ho Hfit Hl Hn (Hd & Hdi & _) off c0. unfold write. fold off.
  assert (u32 (offset / pfsBlockSizeInBytes * pfsBlockSizeInBytes) = offset / pfsBlockSizeInBytes * pfsBlockSizeInBytes) as ->
    by (change pfsBlockSizeInBytes with 1024; word_lia).
  assert (Hoff : (off + length bs <= Z.to_nat pfsBlockSizeInBytes)%nat).
  { unfold off. change pfsBlockSizeInBytes with 1024 in *. word_lia. }
  rewrite Hl, Ret_bind, Hn, deref_Some, Ret_bind. rewrite (patch_fits off bs), Ret_bind by (by rewrite Hd).
  rewrite patch_fits, Ret_bind by (by rewrite length_replicate, Hdi). by rewrite length_replicate.
Qed.

Section WriteCached.
Context (fd offset : Z) (bs : bytes) (c : Cache) (a : LRU) (R D F : list nat) (B : nat -> list nat).
Hypothesis Hp : parts c a R D F B.
Hypothesis Hw : wfLRU a.
Hypothesis Ho : is_u32 offset.
Hypothesis Hfit : offset mod pfsBlockSizeInBytes + Z.of_nat (length bs) <= pfsBlockSizeInBytes.
Let k : Z * Z := (u32 fd, offset / pfsBlockSizeInBytes * pfsBlockSizeInBytes).
Let off : nat := Z.to_nat (offset mod pfsBlockSizeInBytes).

Lemma write_wf b :
  findKey k (cachedBlocks a) = Some b -> fullBlock b ->
  wfLRU (writtenLRU k (writtenBlock off bs b) a) /\
  (removeKey k (recentBlocks a) = recentBlocks a \/ removeKey k (dirtyBlocks a) = dirtyBlocks a).
Proof.
  intros Hf Hfull. destruct (findKey_Some _ _ _ Hf) as [_ Hk]. eapply wf_writtenLRU; [done|exact Hf|done|done|].
  apply writtenBlock_full; [done|]. unfold off. change pfsBlockSizeInBytes with 1024 in *. word_lia.
Qed.

Lemma write_recent b :
  findKey k (recentBlocks a) = Some b ->
  exists c', write std_hash fd offset bs c = Ret (true, c') /\ represents c' (writtenLRU k (writtenBlock off bs b) a).
Proof.
  intros Hfr. assert (Hp' := Hp). destruct Hp' as (Hi & _ & HD & _). pose proof (inv_shape _ _ _ _ _ Hi) as Hs.
  destruct (find_recent fd _ c a R D F B b Hp Hw Hfr) as (R1 & x & R2 & r1 & r2 & Hloc & Hl & Hc & _ & Hfull & Nx & NxD).
  destruct (write_wf b) as [Hw' Hsame]; [unfold cachedBlocks; by rewrite findKey_app, Hfr|done|].
  destruct Hloc as [Hk Hb Hrem HR Hx H1 H2]. destruct (blk_block c x b Hx) as (n & Hn & Hnb).
  rewrite (write_run fd offset bs c x n Ho Hfit Hl Hn) by (by rewrite Hnb). cbv zeta. fold off. rewrite Hnb, Hc.
  destruct (shape_setBlock c R D F B x n (patchedBlock off bs b) Hs Hn) as [S0 B0].
  destruct (shape_removeFromRecencyList _ R D F B S0 x R1 R2 HR) as (c1 & -> & S1 & D1 & M1). rewrite Ret_bind.
  destruct (blk_block c1 x (patchedBlock off bs b)) as (n1 & Hn1 & _); [destruct (D1 x) as [-> _]; by eapply blockSet_here|].
  rewrite Hn1, deref_Some, Ret_bind.
  destruct (push_dirty c1 _ D F B x n1 (writtenBlock off bs b) S1 Hn1 NxD) as (c2 & -> & S2 & B2 & M2).
  rewrite Ret_bind. exists c2. split; [done|].
  assert (Bt : blockSet x (writtenBlock off bs b) c c2) by (eapply blockSet_twice; [|exact B2]; by eapply blockSet_sameData).
  eapply (parts_represents _ _ (R1 ++ R2) (x :: D) F B); [|exact Hw'].
  eapply parts_move; [exact Hp|done|by eapply blockSet_sameKeys|by etrans; [|exact M2]|by rewrite HR, <- !Permutation_middle| | |done..].
  - cbn. fold k in Hrem. rewrite Hrem. eapply blockSet_contents; [exact Bt|done|by apply contents_app].
  - cbn. apply Forall2_cons. split; [by eapply blockSet_here|].
    assert (removeKey k (dirtyBlocks a) = dirtyBlocks a) as ->; [|by eapply blockSet_contents].
    destruct Hsame as [Hsame|]; [|done]. exfalso. fold k in Hrem. rewrite Hrem, Hb in Hsame.
    apply (f_equal length) in Hsame. rewrite !length_app in Hsame. cbn in Hsame. lia.
Qed.

Lemma write_dirty b :
  findKey k (recentBlocks a) = None -> findKey k (dirtyBlocks a) = Some b ->
  exists c', write std_hash fd offset bs c = Ret (true, c') /\ represents c' (writtenLRU k (writtenBlock off bs b) a).
Proof.
  intros Hfr Hfd. assert (Hp' := Hp). destruct Hp' as (Hi & HR & _ & _). pose proof (inv_shape _ _ _ _ _ Hi) as Hs.
  destruct (find_dirty fd _ c a R D F B b Hp Hw Hfd) as (D1 & x & D2 & d1 & d2 & Hloc & Hl & Hc & Hfull & Nx & NxR).
  destruct (write_wf b) as [Hw' _]; [unfold cachedBlocks; by rewrite findKey_app, Hfr|done|].
  destruct Hloc as [Hk Hb Hrem HD Hx H1 H2]. destruct (blk_block c x b Hx) as (n & Hn & Hnb).
  rewrite (write_run fd offset bs c x n Ho Hfit Hl Hn) by (by rewrite Hnb). cbv zeta. fold off. rewrite Hnb, Hc.
  destruct (shape_setBlock c R D F B x n (patchedBlock off bs b) Hs Hn) as [S0 B0].
  destruct (shape_removeFromDirtyList _ R D F B S0 x D1 D2 HD) as (c1 & -> & S1 & G1 & M1). rewrite Ret_bind.
  destruct (blk_block c1 x (patchedBlock off bs b)) as (n1 & Hn1 & _); [destruct (G1 x) as [-> _]; by eapply blockSet_here|].
  rewrite Hn1, deref_Some, Ret_bind.
  destruct (push_dirty c1 R _ F B x n1 (writtenBlock off bs b) S1 Hn1 Nx) as (c2 & -> & S2 & B2 & M2).
  rewrite Ret_bind. exists c2. split; [done|].
  assert (Bt : blockSet x (writtenBlock off bs b) c c2) by (eapply blockSet_twice; [|exact B2]; by eapply blockSet_sameData).
  eapply (parts_represents _ _ R (x :: D1 ++ D2) F B); [|exact Hw'].
  eapply parts_move; [exact Hp|done|by eapply blockSet_sameKeys|by etrans; [|exact M2]|by rewrite HD, <- (Permutation_middle D1)| | |done..].
  - cbn. rewrite removeKey_id; [by eapply blockSet_contents|]. intros b' Hb'. by eapply findKey_None.
  - cbn. fold k in Hrem. rewrite Hrem. apply Forall2_cons. split; [by eapply blockSet_here|].
    eapply blockSet_contents; [exact Bt|done|by apply contents_app].
Qed.

Lemma write_parts :
  exists c', write std_hash fd offset bs c = Ret ((specWrite k off bs a).1, c') /\ represents c' (specWrite k off bs a).2.
Proof.
  unfold specWrite, cachedBlocks. rewrite findKey_app.
  destruct (findKey k (recentBlocks a)) as [b|] eqn:Hfr; [by apply write_recent|].
  destruct (findKey k (dirtyBlocks a)) as [b|] eqn:Hfd; [by apply write_dirty|].
  unfold write. assert (u32 (offset / pfsBlockSizeInBytes * pfsBlockSizeInBytes) =
    offset / pfsBlockSizeInBytes * pfsBlockSizeInBytes) as -> by (change pfsBlockSizeInBytes with 1024; word_lia).
  rewrite (find_none fd _ c a R D F B Hp Hfr Hfd), Ret_bind. exists c. split; [done|]. by eapply parts_represents.
Qed.

End WriteCached.

Lemma write_refines fd offset bs c a :
  represents c a -> is_u32 offset ->
  offset mod pfsBlockSizeInBytes + Z.of_nat (length bs) <= pfsBlockSizeInBytes ->
  let k := (u32 fd, offset / pfsBlockSizeInBytes * pfsBlockSizeInBytes) in
  let r := specWrite k (Z.to_nat (offset mod pfsBlockSizeInBytes)) bs a in
  exists c', write std_hash fd offset bs c = Ret (r.1, c') /\ represents c' r.2.
Proof. intros (R & D & F & B & Hp & Hw)%represents_parts Ho Hfit. by eapply write_parts. Qed.

(** ** addBlock *)

Lemma aligned_land ad : ad mod pfsBlockSizeInBytes = 0 -> (Z.land ad (pfsBlockSizeInBytes - 1) =? 0) = true.
Proof.
  change (pfsBlockSizeInBytes - 1) with (Z.ones 10). rewrite Z.land_ones by lia.
  change (2 ^ 10) with pfsBlockSizeInBytes. intros ->. done.
Qed.

(** The node [x] is in none of the lists, everything else is in order. *)
Record detached (c : Cache) (R D F : list nat) (B : nat -> list nat) (x : nat) : Prop := mkDetached {
  det_shape : shape c R D F B;
  det_nodup : NoDup (x :: R ++ D ++ F);
  det_dom : forall y, is_Some (nodes c !! y) <-> y ∈ x :: R ++ D ++ F;
  det_bucket : forall i y, y ∈ B i <-> y ∈ R ++ D /\ bid (nodes c) y = Some (Z.of_nat i);
  det_hash : forall y b, y ∈ R ++ D -> blk (nodes c) y = Some b ->
    bid (nodes c) y = Some (hashPFS std_hash (fdes b) (addr b)) }.

(** A free node [x] gets a block and enters the hash table and the recency list. *)
Lemma enter_block c R D F B x n b :
  detached c R D F B x -> nodes c !! x = Some n ->
  exists c', (c2 ← addToHashmap x (setNodes (<[x := setBucketId (hashPFS std_hash (fdes b) (addr b)) (setBlock b n)]> (nodes c)) c);
              addToRecencyList x c2) = Ret c' /\
    sameSemaphores c c' /\ blk (nodes c') x = Some b /\ (forall y, y <> x -> blk (nodes c') y = blk (nodes c) y) /\
    exists B', inv c' (x :: R) D F B'.
Proof.
  intros [Hs [Hx Hnd]%NoDup_cons Hdom HB Hh] Hn. destruct (hash_bucket (fdes b) (addr b)) as (i & Hi & Hlt). rewrite Hi.
  set (c1 := setNodes _ c).
  assert (S1 : shape c1 R D F B) by (apply (shape_update c R D F B Hs x n); [done|by intros []]).
  assert (Hb1 : forall y, blk (nodes c1) y = (if decide (y = x) then Some b else blk (nodes c) y) /\
                          bid (nodes c1) y = (if decide (y = x) then Some (Z.of_nat i) else bid (nodes c) y)).
  { intros y. unfold blk, bid, c1. cbn. rewrite lookup_insert.
    destruct (decide (y = x)) as [->|Hne]; [by rewrite decide_True|by rewrite decide_False]. }
  destruct (shape_addToHashmap c1 R D F B S1 x i Hlt) as (c2 & -> & S2 & D2 & M2).
  { destruct (Hb1 x) as [_ ->]. by rewrite decide_True. }
  { intros j [Hj _]%HB. set_solver. }
  rewrite Ret_bind. destruct (shape_addToRecencyList c2 R D F _ S2 x) as (c3 & -> & S3 & D3 & M3); [set_solver| |].
  { rewrite (sameData_is_Some _ _ _ D2). unfold c1. cbn. rewrite lookup_insert_eq. by eexists. }
  assert (Dt : sameData c1 c3) by (by etrans). assert (Mt : sameSemaphores c1 c3) by (by etrans).
  exists c3. split; [done|]. split; [done|]. split; [destruct (Dt x) as [-> _], (Hb1 x) as [-> _]; by rewrite decide_True|].
  split; [intros y Hy; destruct (Dt y) as [-> _], (Hb1 y) as [-> _]; by rewrite decide_False|].
  eexists. split; [exact S3|by constructor|..].
  - intros y. rewrite (sameData_is_Some _ _ _ Dt). unfold c1; cbn. rewrite lookup_insert_is_Some, Hdom. cbn.
    rewrite !elem_of_cons. destruct (decide (x = y)); naive_solver.
  - intros j y. destruct (Dt y) as [_ ->], (Hb1 y) as [_ ->]. cbn. rewrite elem_of_cons.
    destruct (decide (y = x)) as [->|Hne].
    + case_decide as Hj; [subst j; rewrite elem_of_cons; naive_solver|]. rewrite HB. split; [set_solver|].
      intros [_ [= ?%Nat2Z.inj]]. congruence.
    + case_decide as Hj; [subst j; rewrite elem_of_cons|]; rewrite HB; naive_solver.
  - intros y b' Hy. destruct (Dt y) as [-> ->], (Hb1 y) as [-> ->]. case_decide as Hyx.
    + intros [= <-]. by rewrite Hi.
    + intros Hb'. apply Hh; [set_solver|done].
Qed.

Lemma addBlock_refines fd ad bs c a :
  represents c a -> ad mod pfsBlockSizeInBytes = 0 -> length bs = Z.to_nat pfsBlockSizeInBytes ->
  findKey (u32 fd, ad) (cachedBlocks a) = None ->
  match specAdd (u32 fd, ad) bs a with
  | Ret a' => exists c', addBlock std_hash fd ad bs c = Ret c' /\ represents c' a'
  | Blocked => addBlock std_hash fd ad bs c = Blocked
  | Crash => addBlock std_hash fd ad bs c = Crash
  end.
Proof.
  intros (R & D & F & B & Hp & Hw)%represents_parts Hal Hlen Hnew. destruct Hp as (Hi & HR & HD & HF & Hsem & Hwake).
  unfold addBlock. rewrite (aligned_land ad Hal). cbn [assert_]. rewrite Ret_bind, Hsem. unfold specAdd.
  destruct (semaphore a) as [|[|f]] eqn:Ef; [done|done|]. cbn [sem_wait]. rewrite Ret_bind.
  pose proof (shape_setSemaphores c R D F B (inv_shape _ _ _ _ _ Hi) (S f) (harvesterSemaphore c)) as S0.
  assert (Hfree := shape_free _ _ _ _ _ S0).
  destruct F as [|x [|y F]]; cbn in HF; rewrite <- HF.
  { destruct Hfree as (_ & _ & Hh). cbn in Hh. unfold getFreeListEntry. cbn. by rewrite Hh. }
  { destruct Hfree as (_ & ([p Hx] & _) & Hh). cbn in Hh, Hx. unfold getFreeListEntry. cbn. rewrite Hh. cbn.
    unfold lnk in Hx. destruct (nodes c !! x) as [n|]; [|done]. injection Hx as Hx. cbn in Hx |- *. by rewrite Hx. }
  destruct (shape_getFreeListEntry _ R D _ B S0 x y F f eq_refl eq_refl) as (c1 & -> & S1 & D1 & E1 & E2). rewrite Ret_bind.
  pose proof (inv_nodup _ _ _ _ _ Hi) as Hnd. rewrite (app_assoc R), <- Permutation_middle, <- app_assoc in Hnd.
  assert (Hin : forall z, is_Some (nodes c1 !! z) <-> z ∈ x :: R ++ D ++ y :: F).
  { intros z. rewrite (sameData_is_Some _ _ _ D1). cbn. rewrite (inv_dom _ _ _ _ _ Hi z).
    by rewrite (app_assoc R), <- Permutation_middle, <- app_assoc. }
  destruct (proj2 (Hin x)) as [n Hn]; [constructor|]. rewrite Hn, deref_Some, Ret_bind.
  destruct (enter_block c1 R D (y :: F) B x n (mkCacheBlock (u32 fd) ad noDirty true true bs)) as (c2 & Hrun & [M1 M2] & Hbx & Hby & B' & Hi');
    [split; [done|done|done|..]|done|].
  { intros i z. destruct (D1 z) as [_ ->]. apply (inv_bucket _ _ _ _ _ Hi). }
  { intros z b'. destruct (D1 z) as [-> ->]. apply (inv_hash _ _ _ _ _ Hi). }
  exists c2. split; [exact Hrun|]. apply NoDup_cons in Hnd as [Hx _].
  assert (Hold : forall l bs', x ∉ l -> contents (nodes c) l bs' -> contents (nodes c2) l bs').
  { intros l bs' Hl. apply contents_ext. intros z Hz. rewrite Hby by (by intros ->). apply D1. }
  exists (x :: R), D, (y :: F), B'. cbn. split; [done|].
  split; [apply Forall2_cons; split; [done|apply Hold; [set_solver|done]]|]. split; [apply Hold; [set_solver|done]|].
  assert (Hu : u32 (Z.of_nat (S (length F))) = Z.of_nat (S (length F))).
  { apply u32_id. pose proof (wf_size _ Hw) as Hsz. rewrite <- HF in Hsz. unfold is_u32 in *. lia. }
  split; [done|]. split; [by rewrite M1, E1|]. split; [rewrite M2, E2, Hu; cbn [harvesterSemaphore setSemaphores]; by rewrite Hwake|].
  destruct Hw as [W1 W2 W3 W4]. split; cbn; [by apply Forall_cons|done| |].
  - constructor; [|done]. intros (b' & Hk & Hb')%list_elem_of_fmap. by apply (findKey_None _ _ _ Hnew Hb').
  - unfold cachedBlocks in *. cbn. rewrite <- HF in W4. by rewrite Nat.add_succ_r in W4.
Qed.

(** ** Blocks that leave the cache *)

Lemma free_block c R D F B x :
  detached c R D F B x ->
  exists c', addToFreeList x c = Ret (u32 (Z.of_nat (S (length F))) <? 2020, c') /\ inv c' R D (x :: F) B /\
    sameData c c' /\ sameSemaphores c c'.
Proof.
  intros [Hs Hnd Hdom HB Hh].
  assert (Hp : R ++ D ++ x :: F ≡ₚ x :: R ++ D ++ F) by (by rewrite (app_assoc R), <- Permutation_middle, <- app_assoc).
  destruct (shape_addToFreeList c R D F B Hs x) as (c' & -> & S' & D' & M').
  { apply NoDup_cons in Hnd as [Hx _]. set_solver. }
  { apply Hdom. constructor. }
  exists c'. split; [done|]. split; [|done]. split; [done|by rewrite Hp|..].
  - intros y. by rewrite (sameData_is_Some _ _ _ D'), Hp.
  - intros i y. destruct (D' y) as [_ ->]. apply HB.
  - intros y b. destruct (D' y) as [-> ->]. apply Hh.
Qed.

(** [x] leaves its bucket. *)
Lemma unhash c R D F B x i :
  shape c R D F B -> x ∈ B i -> bid (nodes c) x = Some (Z.of_nat i) ->
  exists c' B', removeFromHashmap x c = Ret c' /\ shape c' R D F B' /\ sameData c c' /\ sameSemaphores c c' /\
    forall j y, y ∈ B' j <-> y ∈ B j /\ y <> x.
Proof.
  intros Hs Hx Hb. destruct (shape_table _ _ _ _ _ Hs) as (_ & Ht & He & Hdis & _).
  assert (Hi : (i < Z.to_nat HASH_BUCKETS)%nat).
  { destruct (decide (i < Z.to_nat HASH_BUCKETS)%nat); [done|]. rewrite He in Hx by lia. by apply not_elem_of_nil in Hx. }
  destruct (Ht i Hi) as (_ & Hnd & _). apply list_elem_of_split in Hx as (B1 & B2 & HB).
  destruct (shape_removeFromHashmap c R D F B Hs x i B1 B2 HB Hb) as (c' & Hr & S' & D' & M').
  eexists c', _. split; [done|]. split; [exact S'|]. split; [done|]. split; [done|]. intros j y. cbn. case_decide as Hj.
  - subst j. rewrite HB in Hnd |- *. apply NoDup_middle in Hnd as [Hx _]. set_solver.
  - split; [|by intros [? _]]. intros Hy. split; [done|]. intros ->. apply Hj. apply (Hdis j i x Hy). rewrite HB. set_solver.
Qed.

Lemma detach c c' R D F B R' D' B' x :
  inv c R D F B -> shape c' R' D' F B' -> x :: R' ++ D' ≡ₚ R ++ D ->
  (forall y, y <> x -> blk (nodes c') y = blk (nodes c) y /\ bid (nodes c') y = bid (nodes c) y) ->
  is_Some (nodes c' !! x) -> (forall j y, y ∈ B' j <-> y ∈ B j /\ y <> x) -> detached c' R' D' F B' x.
Proof.
  intros [Hs Hnd Hdom HB Hh] Hs' Hp Hsame Hx HB'.
  assert (Hpf : x :: R' ++ D' ++ F ≡ₚ R ++ D ++ F) by (rewrite !app_assoc, <- Hp; done).
  assert (Hnx : forall y, y ∈ R' ++ D' -> y <> x).
  { intros y Hy ->. rewrite <- Hpf in Hnd. apply NoDup_cons in Hnd as [Hni _]. apply Hni. rewrite app_assoc. set_solver. }
  split; [done|by rewrite Hpf|..].
  - intros y. rewrite Hpf, <- Hdom. destruct (decide (y = x)) as [->|Hne].
    + split; [|done]. intros _. apply Hdom. rewrite <- Hpf. constructor.
    + destruct (Hsame y Hne) as [Hb _]. unfold blk in Hb.
      destruct (nodes c !! y), (nodes c' !! y); cbn in Hb; try done; split; by intros [].
  - intros i y. rewrite HB', HB, <- Hp, elem_of_cons. split.
    + intros [[[->|Hy] Hb] Hne]; [done|]. destruct (Hsame y Hne) as [_ ->]. done.
    + intros [Hy Hb]. pose proof (Hnx y Hy) as Hne. destruct (Hsame y Hne) as [_ E]. rewrite <- E. auto.
  - intros y b Hy. destruct (Hsame y (Hnx y Hy)) as [-> ->]. apply Hh. rewrite <- Hp. by constructor.
Qed.

Lemma wfLRU_remove a a' b :
  wfLRU a -> (forall x, x ∈ recentBlocks a' -> x ∈ recentBlocks a) -> (forall x, x ∈ dirtyBlocks a' -> x ∈ dirtyBlocks a) ->
  cachedBlocks a ≡ₚ b :: cachedBlocks a' -> freeBlocks a' = S (freeBlocks a) -> wfLRU a'.
Proof.
  intros [W1 W2 W3 W4] Hr Hd Hp Hf. rewrite Forall_forall in W1, W2. split.
  - apply Forall_forall. auto.
  - apply Forall_forall. auto.
  - rewrite Hp in W3. by apply NoDup_cons in W3 as [_ ?].
  - rewrite Hp in W4. cbn in W4. by rewrite Hf, Nat.add_succ_r.
Qed.

(** The last step: a detached node goes to the free list. *)
Lemma free_represents c a c' a' R D F B R' D' B' x b :
  parts c a R D F B -> wfLRU a -> detached c' R' D' F B' x -> sameSemaphores c c' ->
  contents (nodes c') R' (recentBlocks a') -> contents (nodes c') D' (dirtyBlocks a') ->
  (forall x, x ∈ recentBlocks a' -> x ∈ recentBlocks a) -> (forall x, x ∈ dirtyBlocks a' -> x ∈ dirtyBlocks a) ->
  cachedBlocks a ≡ₚ b :: cachedBlocks a' ->
  freeBlocks a' = S (freeBlocks a) -> semaphore a' = semaphore a -> wakeups a' = wakeups a ->
  exists c'', addToFreeList x c' = Ret (Z.of_nat (freeBlocks a') <? 2020, c'') /\ represents c'' a'.
Proof.
  intros (Hi & _ & _ & HF & Hs & Hh) Hw Hd [E1 E2] HR HD Hr1 Hd1 Hp G1 G2 G3.
  destruct (free_block c' R' D' F B' x Hd) as (c'' & -> & Hi' & D'' & [M1 M2]). exists c''.
  assert (Hw' : wfLRU a') by (by eapply wfLRU_remove). split.
  - rewrite u32_id, HF, G1; [done|]. pose proof (wf_size _ Hw') as Hsz. rewrite HF. rewrite G1 in Hsz. unfold is_u32 in *. lia.
  - exists R', D', (x :: F), B'. cbn. rewrite HF, G1, G2, G3, M1, M2, E1, E2.
    split; [done|]. split; [by eapply sameData_contents|]. by split; [eapply sameData_contents|].
Qed.

(** [x] has left its list and its bucket, and nothing else has changed: putting it
    into the free list leads to the state without its block. *)
Lemma retire c a c' a' R D F B R' D' B' x b :
  parts c a R D F B -> wfLRU a -> shape c' R' D' F B' -> x :: R' ++ D' ≡ₚ R ++ D -> sameSemaphores c c' ->
  (forall y, y <> x -> blk (nodes c') y = blk (nodes c) y /\ bid (nodes c') y = bid (nodes c) y) ->
  is_Some (nodes c' !! x) -> (forall j y, y ∈ B' j <-> y ∈ B j /\ y <> x) ->
  contents (nodes c) R' (recentBlocks a') -> contents (nodes c) D' (dirtyBlocks a') ->
  (forall x, x ∈ recentBlocks a' -> x ∈ recentBlocks a) -> (forall x, x ∈ dirtyBlocks a' -> x ∈ dirtyBlocks a) ->
  cachedBlocks a ≡ₚ b :: cachedBlocks a' ->
  freeBlocks a' = S (freeBlocks a) -> semaphore a' = semaphore a -> wakeups a' = wakeups a ->
  exists c'', addToFreeList x c' = Ret (Z.of_nat (freeBlocks a') <? 2020, c'') /\ represents c'' a'.
Proof.
  intros Hp Hw Hs' Hperm Hsem Hsame Hx HB HR HD Hr1 Hd1 Hc G1 G2 G3. assert (Hi := proj1 Hp).
  pose proof (detach c c' R D F B R' D' B' x Hi Hs' Hperm Hsame Hx HB) as Hdet.
  assert (Hout : forall l bs, (forall y, y ∈ l -> y ∈ R' ++ D') -> contents (nodes c) l bs -> contents (nodes c') l bs).
  { intros l bs Hl. apply contents_ext. intros y Hy%Hl. apply Hsame. intros ->.
    pose proof (det_nodup _ _ _ _ _ _ Hdet) as Hnd. apply NoDup_cons in Hnd as [Hni _]. apply Hni. rewrite app_assoc. set_solver. }
  eapply (free_represents c a c' a' R D F B R' D' B' x b); try done; apply Hout; try done; set_solver.
Qed.

(** ** evictBlock *)

Section Stores.
Context {W : Type} `{BlockStore W}.

Lemma inv_in_bucket c R D F B x b :
  inv c R D F B -> x ∈ R ++ D -> blk (nodes c) x = Some b ->
  exists i, x ∈ B i /\ bid (nodes c) x = Some (Z.of_nat i).
Proof.
  intros Hi Hx Hb. destruct (hash_bucket (fdes b) (addr b)) as (i & Hh & _). exists i.
  pose proof (inv_hash _ _ _ _ _ Hi x b Hx Hb) as Hbid. rewrite Hh in Hbid. split; [|done].
  by apply (inv_bucket _ _ _ _ _ Hi).
Qed.

Lemma reset_node c R D F B x n :
  shape c R D F B -> nodes c !! x = Some n -> x ∉ R -> x ∉ D -> x ∉ F -> (forall i, x ∉ B i) ->
  let c' := setNodes (<[x := CacheBlockMetadata_reset n]> (nodes c)) c in
  shape c' R D F B /\ is_Some (nodes c' !! x) /\
  forall y, y <> x -> blk (nodes c') y = blk (nodes c) y /\ bid (nodes c') y = bid (nodes c) y.
Proof.
  intros Hs Hn ? ? ? ? c'. split; [by apply shape_reset|]. split; [unfold c'; cbn; rewrite lookup_insert_eq; by eexists|].
  intros y Hy. unfold c', blk, bid. cbn. by rewrite lookup_insert_ne.
Qed.

(** Resetting a node that is in no list and putting it into the free list. *)
Lemma retire_reset c a c' a' R D F B R' D' B' x n b :
  parts c a R D F B -> wfLRU a -> shape c' R' D' F B' -> x :: R' ++ D' ≡ₚ R ++ D -> sameSemaphores c c' ->
  (forall y, y <> x -> blk (nodes c') y = blk (nodes c) y /\ bid (nodes c') y = bid (nodes c) y) ->
  nodes c' !! x = Some n -> (forall j y, y ∈ B' j <-> y ∈ B j /\ y <> x) ->
  contents (nodes c) R' (recentBlocks a') -> contents (nodes c) D' (dirtyBlocks a') ->
  (forall x, x ∈ recentBlocks a' -> x ∈ recentBlocks a) -> (forall x, x ∈ dirtyBlocks a' -> x ∈ dirtyBlocks a) ->
  cachedBlocks a ≡ₚ b :: cachedBlocks a' ->
  freeBlocks a' = S (freeBlocks a) -> semaphore a' = semaphore a -> wakeups a' = wakeups a ->
  exists c'', addToFreeList x (setNodes (<[x := CacheBlockMetadata_reset n]> (nodes c')) c') =
      Ret (Z.of_nat (freeBlocks a') <? 2020, c'') /\ represents c'' a'.
Proof.
  intros Hp Hw Hs' Hperm Hsem Hsame Hn HB HR HD Hr1 Hd1 Hc G1 G2 G3.
  assert (Hnd : NoDup (x :: R' ++ D' ++ F)).
  { pose proof (inv_nodup _ _ _ _ _ (proj1 Hp)) as Hnd. rewrite app_assoc, <- Hperm in Hnd. by rewrite app_assoc. }
  apply NoDup_cons in Hnd as [Hni _].
  destruct (reset_node c' R' D' F B' x n Hs' Hn) as (S3 & Hs3 & E3); [set_solver..|by intros j [_ ?]%HB|].
  eapply (retire c a _ a' R D F B R' D' B' x b); try done.
  intros y Hy. destruct (E3 y Hy) as [-> ->], (Hsame y Hy) as [-> ->]. done.
Qed.

Lemma evictBlock_refines fd ad c a w :
  represents c a -> simulates (evictBlock std_hash fd ad c w) (specEvict (u32 fd, ad) a w).
Proof.
  intros (R & D & F & B & Hp & Hw)%represents_parts. assert (Hp' := Hp). destruct Hp' as (Hi & HR & HD & _).
  pose proof (inv_shape _ _ _ _ _ Hi) as Hs. unfold evictBlock, specEvict.
  destruct (findKey _ (recentBlocks a)) as [b|] eqn:Hfr; [|destruct (findKey _ (dirtyBlocks a)) as [b|] eqn:Hfd].
  - destruct (find_recent fd ad c a R D F B b Hp Hw Hfr) as (R1 & x & R2 & r1 & r2 & [Hk Hb -> HRx Hx H1 H2] & -> & Hc & _).
    destruct (inv_in_bucket _ _ _ _ _ x b Hi ltac:(set_solver) Hx) as (i & Hxi & Hbid).
    destruct (unhash c _ D F B x i Hs Hxi Hbid) as (c1 & B1 & Hr1 & S1 & D1 & M1 & HB1). rewrite Ret_bind, Hr1, Ret_bind.
    destruct (blk_block c1 x b) as (n & Hn & Hnb); [by destruct (D1 x) as [-> _]|]. rewrite Hn, deref_Some, Ret_bind, Hnb, Hc.
    destruct (shape_removeFromRecencyList c1 _ D F B1 S1 x R1 R2 HRx) as (c2 & -> & S2 & D2 & M2). rewrite !Ret_bind.
    destruct (proj2 (sameData_is_Some c1 c2 x D2)) as [n2 Hn2]; [by exists n|]. rewrite Hn2, deref_Some, Ret_bind.
    assert (Dt : sameData c c2) by (by etrans). assert (Mt : sameSemaphores c c2) by (by etrans).
    edestruct (retire_reset c a c2 (mkLRU (r1 ++ r2) (dirtyBlocks a) (S (freeBlocks a)) (semaphore a) (wakeups a))
      R D F B (R1 ++ R2) D B1 x n2 b) as (c4 & -> & Hrep); try done; [by rewrite HRx, <- !app_assoc, (Permutation_middle R1)|
      by apply contents_app|cbn; rewrite Hb; set_solver|unfold cachedBlocks; cbn; by rewrite Hb, <- !app_assoc, Permutation_middle|].
    rewrite Ret_bind. by exists c4.
  - destruct (find_dirty fd ad c a R D F B b Hp Hw Hfd) as (D1 & x & D2 & d1 & d2 & [Hk Hb -> HDx Hx H1 H2] & -> & Hc & _).
    destruct (inv_in_bucket _ _ _ _ _ x b Hi ltac:(set_solver) Hx) as (i & Hxi & Hbid).
    destruct (unhash c R _ F B x i Hs Hxi Hbid) as (c1 & B1 & Hr1 & S1 & E1 & M1 & HB1). rewrite Ret_bind, Hr1, Ret_bind.
    destruct (blk_block c1 x b) as (n & Hn & Hnb); [by destruct (E1 x) as [-> _]|]. rewrite Hn, deref_Some, Ret_bind, Hnb, Hc.
    destruct (flush b w) as [w'| |]; [|done|done]. rewrite !Ret_bind.
    destruct (shape_setBlock c1 R _ F B1 x n (resetDirty b) S1 Hn) as [S1' Bt].
    destruct (shape_removeFromDirtyList _ R _ F B1 S1' x D1 D2 HDx) as (c2 & -> & S2 & E2 & M2). rewrite !Ret_bind.
    destruct (proj2 (sameData_is_Some _ c2 x E2)) as [n2 Hn2]; [cbn; rewrite lookup_insert_eq; by eexists|].
    rewrite Hn2, deref_Some, Ret_bind.
    edestruct (retire_reset c a c2 (mkLRU (recentBlocks a) (d1 ++ d2) (S (freeBlocks a)) (semaphore a) (wakeups a))
      R D F B R (D1 ++ D2) B1 x n2 b) as (c4 & -> & Hrep); try done;
      [by rewrite HDx, (app_assoc R), Permutation_middle, <- app_assoc, <- (Permutation_middle D1)|by etrans| |
       by apply contents_app|cbn; rewrite Hb; set_solver|
       unfold cachedBlocks; cbn; by rewrite Hb, <- Permutation_middle, (Permutation_middle (recentBlocks a))|].
    { intros y Hy. destruct (E2 y) as [-> ->], (Bt y) as [-> ->], (E1 y) as [<- <-]. by rewrite decide_False. }
    rewrite Ret_bind. by exists c4.
  - rewrite (find_none fd ad c a R D F B Hp Hfr Hfd), Ret_bind. exists c. split; [done|]. by eapply parts_represents.
Qed.

(** ** The flusher *)

Lemma represents_size c a : represents c a -> size (nodes c) = (length (cachedBlocks a) + freeBlocks a)%nat.
Proof.
  intros (R & D & F & B & Hi & HR & HD & HF & _). destruct Hi as [_ Hnd Hdom _ _].
  assert (dom (nodes c) = list_to_set (R ++ D ++ F)) as Hd.
  { apply set_eq. intros x. by rewrite elem_of_dom, Hdom, elem_of_list_to_set. }
  rewrite <- size_dom, Hd, size_list_to_set by done. unfold cachedBlocks.
  rewrite !length_app, (Forall2_length _ _ _ HR), (Forall2_length _ _ _ HD), HF. lia.
Qed.

(** The least recently used dirty block becomes the most recently used clean one. *)
Lemma wfLRU_clean r d b free sem wake :
  wfLRU (mkLRU r (d ++ [b]) free sem wake) -> wfLRU (mkLRU (resetDirty b :: r) d free sem wake).
Proof.
  intros [W1 W2 W3 W4]. cbn in *. apply Forall_app in W2 as [W2 [(Hc & Hd & Hdi & Hv) _]%Forall_cons].
  assert (Hp : r ++ d ++ [b] ≡ₚ b :: r ++ d) by (by rewrite (Permutation_app_comm d), Permutation_middle).
  unfold cachedBlocks in *. cbn in *. rewrite Hp in W3, W4. split; cbn; [|done|done|done].
  apply Forall_cons. split; [|done]. split; [done|]. split; [done|]. split; [done|]. split; [apply length_replicate|done].
Qed.

(** What one turn of the flusher has to do. *)
Definition flushes (c : Cache) (w : W) (spec : outcome (LRU * W)) : Prop :=
  match spec with
  | Ret (a', w') => exists c', flushOne c w = Ret (true, c', w') /\ represents c' a'
  | Blocked => flushOne c w = Blocked
  | Crash => flushOne c w = Crash
  end.

Lemma flushOne_none c a w : represents c a -> dirtyBlocks a = [] -> flushOne c w = Ret (false, c, w).
Proof.
  intros (R & D & F & B & (Hi & _ & HD & _) & _)%represents_parts Hd. rewrite Hd in HD. apply Forall2_nil_inv_r in HD as ->.
  unfold flushOne. by rewrite (shape_removeDirtyListLRU_nil c R _ F B (inv_shape _ _ _ _ _ Hi) eq_refl), Ret_bind.
Qed.

Lemma flushOne_refines c r d b free sem wake w :
  represents c (mkLRU r (d ++ [b]) free sem wake) ->
  flushes c w (w' ← flush b w; Ret (mkLRU (resetDirty b :: r) d free sem wake, w')).
Proof.
  intros Hrep. unfold flushes, flushOne. assert (Hrep' := Hrep). apply represents_parts in Hrep' as (R & D & F & B & Hp & Hw).
  assert (Hp' := Hp). destruct Hp' as (Hi & HR & HD & _). pose proof (inv_shape _ _ _ _ _ Hi) as Hs. cbn in HR, HD.
  apply contents_app_inv in HD as (D' & D2 & -> & HD & HD2). apply Forall2_cons_inv_r in HD2 as (x & ? & Hx & ->%Forall2_nil_inv_r & ->).
  destruct (shape_removeDirtyListLRU c R _ F B Hs x D' eq_refl) as (c1 & -> & S1 & E1 & M1). rewrite Ret_bind. cbn [fst snd].
  destruct (blk_block c1 x b) as (n & Hn & Hnb); [by destruct (E1 x) as [-> _]|]. rewrite Hn, deref_Some, Ret_bind, Hnb.
  assert (clean b = false) as -> by (pose proof (wf_dirty _ Hw) as Hd; cbn in Hd; rewrite Forall_app, Forall_cons in Hd; tauto).
  cbn [negb assert_]. rewrite Ret_bind. destruct (flush b w) as [w'| |]; [|done|done]. rewrite !Ret_bind.
  pose proof (parts_nodup _ _ _ _ _ _ Hp) as (_ & [HxD ND]%NoDup_middle & NRD). rewrite app_nil_r in HxD, ND.
  destruct (push_recent c1 R D' F B x n (resetDirty b) S1 Hn) as (c2 & -> & S2 & B2 & M2); [intros HxR; apply (NRD x HxR); set_solver|].
  rewrite Ret_bind. assert (Bt : blockSet x (resetDirty b) c c2) by (by eapply sameData_blockSet).
  exists c2. split; [done|]. eapply (parts_represents _ _ (x :: R) D' F B); [|by apply wfLRU_clean].
  eapply parts_move; [exact Hp|done|by eapply blockSet_sameKeys|by etrans|
    cbn; by rewrite (Permutation_app_comm D'), Permutation_middle| | |done..]; cbn.
  - apply Forall2_cons. split; [by eapply blockSet_here|]. eapply blockSet_contents; [exact Bt| |done].
    intros HxR. apply (NRD x HxR). set_solver.
  - by eapply blockSet_contents.
Qed.

Lemma flusherLoop_refines fuel c a w :
  represents c a -> (length (dirtyBlocks a) < fuel)%nat ->
  simulates (flusherLoop fuel c w)
    (r ← specFlush (rev (dirtyBlocks a)) (recentBlocks a) w;
     Ret (mkLRU r.1 [] (freeBlocks a) (semaphore a) (wakeups a), r.2)).
Proof.
  revert c a w. induction fuel as [|fuel IH]; intros c a w Hrep Hfuel; [lia|]. cbn [flusherLoop].
  destruct a as [r d free sem wake]. cbn in *. destruct d as [|b d _] using rev_ind.
  { rewrite (flushOne_none c _ w Hrep eq_refl), Ret_bind. by exists c. }
  pose proof (flushOne_refines c r d b free sem wake w Hrep) as Hf. rewrite rev_app_distr. cbn.
  destruct (flush b w) as [w'| |]; cbn in Hf; [|by rewrite Hf..]. destruct Hf as (c' & Hf & Hrep'). rewrite Hf, !Ret_bind.
  apply (IH c' (mkLRU (resetDirty b :: r) d free sem wake)); [done|]. cbn. rewrite length_app in Hfuel. cbn in Hfuel. lia.
Qed.

Lemma cacheFlusher_refines c a w :
  represents c a ->
  simulates (cacheFlusher c w)
    (r ← specFlush (rev (dirtyBlocks a)) (recentBlocks a) w;
     Ret (mkLRU r.1 [] (freeBlocks a) (semaphore a) (wakeups a), r.2)).
Proof.
  intros Hrep. apply flusherLoop_refines; [done|]. rewrite (represents_size c a Hrep). unfold cachedBlocks.
  rewrite length_app. lia.
Qed.

(** ** The harvester *)

(** What one turn of the harvester has to do. *)
Definition harvests (c : Cache) (w : W) (free : nat) (spec : outcome (LRU * W)) : Prop :=
  match spec with
  | Ret (a', w') => exists c', harvestOne c w = Ret (Z.of_nat (freeBlocks a') <? 2020, c', w') /\ represents c' a' /\
                      freeBlocks a' = S free
  | Blocked => harvestOne c w = Blocked
  | Crash => harvestOne c w = Crash
  end.

Lemma harvest_recent c a w r b :
  represents c a -> recentBlocks a = r ++ [b] ->
  harvests c w (freeBlocks a) (Ret (mkLRU r (dirtyBlocks a) (S (freeBlocks a)) (semaphore a) (wakeups a), w)).
Proof.
  intros (R & D & F & B & Hp & Hw)%represents_parts Er. assert (Hp' := Hp). destruct Hp' as (Hi & HR & HD & _).
  pose proof (inv_shape _ _ _ _ _ Hi) as Hs. unfold harvests, harvestOne. rewrite Er in HR.
  apply contents_app_inv in HR as (R' & R2 & -> & HR & HR2). apply Forall2_cons_inv_r in HR2 as (x & ? & Hx & ->%Forall2_nil_inv_r & ->).
  destruct (shape_removeRecencyListLRU c _ D F B Hs x R' eq_refl) as (c1 & -> & S1 & E1 & M1). rewrite !Ret_bind. cbn [fst snd].
  rewrite Ret_bind. destruct (inv_in_bucket _ _ _ _ _ x b Hi ltac:(set_solver) Hx) as (i & Hxi & Hbid).
  destruct (unhash c1 R' D F B x i S1 Hxi) as (c2 & B2 & -> & S2 & E2 & M2 & HB2); [by destruct (E1 x) as [_ ->]|]. rewrite Ret_bind.
  destruct (blk_block c2 x b) as (n2 & Hn2 & Hnb2); [by destruct (E2 x) as [-> _], (E1 x) as [-> _]|].
  rewrite Hn2, deref_Some, Ret_bind, Hnb2.
  assert (clean b = true) as -> by (pose proof (wf_recent _ Hw) as Hr; rewrite Er, Forall_app, Forall_cons in Hr; tauto).
  rewrite Ret_bind.
  edestruct (retire c a c2 (mkLRU r (dirtyBlocks a) (S (freeBlocks a)) (semaphore a) (wakeups a)) _ _ F B R' D B2 x b Hp Hw S2)
    as (c4 & Hc4 & Hrep); try done; [by rewrite (Permutation_app_comm R' [x])|by etrans| |cbn; rewrite Er; set_solver|
    unfold cachedBlocks; cbn; by rewrite Er, (Permutation_app_comm r [b])|].
  { intros y Hy. destruct (E2 y) as [-> ->], (E1 y) as [-> ->]. done. }
  rewrite Hc4, Ret_bind. by exists c4.
Qed.

Lemma harvest_dirty c a w d b :
  represents c a -> recentBlocks a = [] -> dirtyBlocks a = d ++ [b] ->
  harvests c w (freeBlocks a)
    (w' ← flush b w; Ret (mkLRU [] d (S (freeBlocks a)) (semaphore a) (wakeups a), w')).
Proof.
  intros (R & D & F & B & Hp & Hw)%represents_parts Er Ed. assert (Hp' := Hp). destruct Hp' as (Hi & HR & HD & _).
  pose proof (inv_shape _ _ _ _ _ Hi) as Hs. unfold harvests, harvestOne. rewrite Er in HR. rewrite Ed in HD.
  apply Forall2_nil_inv_r in HR as ->. rewrite (shape_removeRecencyListLRU_nil c _ D F B Hs eq_refl), Ret_bind. cbn [fst snd].
  apply contents_app_inv in HD as (D' & D2 & -> & HD & HD2). apply Forall2_cons_inv_r in HD2 as (x & ? & Hx & ->%Forall2_nil_inv_r & ->).
  destruct (shape_removeDirtyListLRU c [] _ F B Hs x D' eq_refl) as (c1 & -> & S1 & E1 & M1). rewrite Ret_bind. cbn [fst snd].
  rewrite deref_Some, Ret_bind. destruct (blk_block c1 x b) as (n & Hn & Hnb); [by destruct (E1 x) as [-> _]|].
  rewrite Hn, deref_Some, Ret_bind, Hnb.
  assert (clean b = false /\ valid b = true) as [Hcb ->].
  { pose proof (wf_dirty _ Hw) as Hd. rewrite Ed, Forall_app, Forall_cons in Hd. destruct Hd as (_ & (? & _ & _ & ?) & _). done. }
  rewrite Hcb. cbn [negb assert_]. rewrite !Ret_bind.
  destruct (inv_in_bucket _ _ _ _ _ x b Hi ltac:(set_solver) Hx) as (i & Hxi & Hbid).
  destruct (unhash c1 [] D' F B x i S1 Hxi) as (c2 & B2 & -> & S2 & E2 & M2 & HB2); [by destruct (E1 x) as [_ ->]|]. rewrite Ret_bind.
  destruct (blk_block c2 x b) as (n2 & Hn2 & Hnb2); [by destruct (E2 x) as [-> _], (E1 x) as [-> _]|].
  rewrite Hn2, deref_Some, Ret_bind, Hnb2, Hcb. destruct (flush b w) as [w'| |]; [|done|done]. rewrite !Ret_bind.
  destruct (shape_setBlock c2 [] D' F B2 x n2 (resetDirty b) S2 Hn2) as [S3 Bt].
  edestruct (retire c a _ (mkLRU [] d (S (freeBlocks a)) (semaphore a) (wakeups a)) _ _ F B [] D' B2 x b Hp Hw S3)
    as (c4 & Hc4 & Hrep); try done; [cbn; by rewrite (Permutation_app_comm D')|by etrans|
    |cbn; rewrite lookup_insert_eq; by eexists|by apply Forall2_nil|cbn; set_solver|cbn; rewrite Ed; set_solver|
    unfold cachedBlocks; cbn; by rewrite Er, Ed, (Permutation_app_comm d [b])|].
  { intros y Hy. destruct (Bt y) as [-> ->], (E2 y) as [-> ->], (E1 y) as [-> ->]. by rewrite decide_False. }
  rewrite Hc4, Ret_bind. by exists c4.
Qed.

Lemma harvestOne_refines c a w : represents c a -> harvests c w (freeBlocks a) (specHarvestOne a w).
Proof.
  intros Hrep. unfold specHarvestOne. destruct (recentBlocks a) as [|b r _] eqn:Er using rev_ind.
  - cbn [rev]. destruct (dirtyBlocks a) as [|b d _] eqn:Ed using rev_ind.
    + apply represents_parts in Hrep as (R & D & F & B & (Hi & HR & HD & _) & Hw). pose proof (inv_shape _ _ _ _ _ Hi) as Hs.
      rewrite Er in HR. rewrite Ed in HD. apply Forall2_nil_inv_r in HR as ->, HD as ->. unfold harvests, harvestOne.
      rewrite (shape_removeRecencyListLRU_nil c _ _ F B Hs eq_refl), Ret_bind. cbn [fst snd].
      by rewrite (shape_removeDirtyListLRU_nil c _ _ F B Hs eq_refl), Ret_bind.
    + rewrite rev_app_distr. cbn [rev app]. rewrite rev_involutive. by apply harvest_dirty.
  - rewrite rev_app_distr. cbn [rev app]. rewrite rev_involutive. by eapply harvest_recent.
Qed.

Lemma harvestLoop_refines fuel c a w :
  represents c a -> (2020 - freeBlocks a < fuel)%nat ->
  simulates (harvestLoop fuel (Z.of_nat (freeBlocks a) <? 2020) c w) (specHarvest (2020 - freeBlocks a) a w).
Proof.
  revert c a w. induction fuel as [|fuel IH]; intros c a w Hrep Hfuel; [lia|]. cbn [harvestLoop].
  destruct (2020 - freeBlocks a)%nat as [|k] eqn:Hk.
  - rewrite (proj2 (Z.ltb_ge _ _)) by lia. by exists c.
  - rewrite (proj2 (Z.ltb_lt _ _)) by lia. cbn [specHarvest]. pose proof (harvestOne_refines c a w Hrep) as Hone. unfold harvests in Hone.
    destruct (specHarvestOne a w) as [[a' w']| |]; [|by rewrite Hone..].
    destruct Hone as (c' & -> & Hrep' & Hf). rewrite !Ret_bind. cbn [fst snd].
    replace k with (2020 - freeBlocks a')%nat by lia. apply IH; [done|lia].
Qed.

(** The counters of the cache. *)
Lemma represents_counts c a :
  represents c a -> freeBlockCount c = Z.of_nat (freeBlocks a) /\ freeBlockSemaphore c = semaphore a /\ harvesterSemaphore c = wakeups a.
Proof.
  intros (R & D & F & B & (Hi & _ & _ & HF & Hs & Hh) & Hw)%represents_parts. split; [|done].
  destruct (inv_shape _ _ _ _ _ Hi) as [_ _ _ _ ->]. rewrite HF. apply u32_id. pose proof (wf_size _ Hw). unfold is_u32 in *. lia.
Qed.

Lemma cacheHarvester_refines c a w :
  represents c a -> (2020 <= length (cachedBlocks a) + freeBlocks a)%nat ->
  simulates (cacheHarvester c w)
    (h ← sem_wait (wakeups a);
     specHarvest (2020 - freeBlocks a) (mkLRU (recentBlocks a) (dirtyBlocks a) (freeBlocks a) (semaphore a) h) w).
Proof.
  intros Hrep Htot. pose proof (represents_size c a Hrep) as Hsz.
  apply represents_parts in Hrep as (R & D & F & B & (Hi & HR & HD & HF & Hs & Hh) & Hw). unfold cacheHarvester. rewrite Hh.
  destruct (wakeups a) as [|h]; [done|]. cbn [sem_wait]. rewrite !Ret_bind.
  set (a1 := mkLRU _ _ _ _ h). set (c1 := setSemaphores _ h c).
  assert (Hrep1 : represents c1 a1).
  { exists R, D, F, B. split; [|split; [done|split; [done|split; [done|split; [done|split; [done|by destruct Hw]]]]]].
    destruct Hi as [S1 ? ? ? ?]. split; [by apply shape_setSemaphores|done..]. }
  rewrite (proj1 (represents_counts c1 a1 Hrep1)).
  apply (harvestLoop_refines _ c1 a1 w Hrep1). rewrite Hsz. cbn. lia.
Qed.

(** ** The destructor *)

(** Deleting a node does not disturb a list it is not in. *)
Lemma wfList_delete k e m l x : wfList k e m l -> x ∉ l -> wfList k e (delete x m) l.
Proof.
  intros (Hnd & Hd & He & Ho) Hx. split; [done|]. split; [|split; [done|]].
  - eapply dseg_ext; [|exact Hd]. intros y Hy. unfold lnk. rewrite lookup_delete_ne; [done|]. by intros ->.
  - intros y ln Hy. unfold lnk. rewrite lookup_delete. case_decide; [done|]. by apply Ho.
Qed.

Lemma destroyLoop_run fuel c bs D w :
  wfList Dirty (dirtyEnds c) (nodes c) D -> contents (nodes c) D bs -> Forall (fun b => clean b = false) bs ->
  (length bs < fuel)%nat -> destroyLoop fuel c w = foldM flush (rev bs) w.
Proof.
  revert c bs D w. induction fuel as [|fuel IH]; intros c bs D w Hd HD Hc Hfuel; [lia|]. cbn [destroyLoop].
  destruct bs as [|b bs _] using rev_ind.
  { apply Forall2_nil_inv_r in HD as ->. unfold removeDirtyListLRU. rewrite (removeLRU_nil _ _ _ Hd), !Ret_bind. done. }
  apply contents_app_inv in HD as (D' & D2 & -> & HD & HD2). apply Forall2_cons_inv_r in HD2 as (x & ? & Hx & ->%Forall2_nil_inv_r & ->).
  assert (HxD : x ∉ D') by (destruct Hd as (Hnd & _); apply NoDup_middle in Hnd as [Hx' _]; by rewrite app_nil_r in Hx').
  unfold removeDirtyListLRU. destruct (removeLRU_spec Dirty x _ _ D' Hd) as (e' & m' & -> & Fr & Hd'). rewrite !Ret_bind. cbn [fst snd].
  destruct (blk_block (setDirtyEnds e' (setNodes m' c)) x b) as (n & Hn & Hnb).
  { cbn. by destruct (Fr x) as (-> & _). }
  rewrite Hn, deref_Some, Ret_bind, Hnb. apply Forall_app in Hc as [Hc [Hcb _]%Forall_cons]. rewrite Hcb. cbn [negb assert_].
  rewrite Ret_bind, rev_app_distr. cbn. destruct (flush b w) as [w'| |]; [|done|done]. rewrite !Ret_bind.
  apply (IH _ bs D'); cbn; [by apply wfList_delete| |done|rewrite length_app in Hfuel; cbn in Hfuel; lia].
  eapply contents_ext; [|exact HD]. intros y Hy. unfold blk. rewrite lookup_delete_ne by (by intros ->).
  by destruct (Fr y) as (E & _).
Qed.

Lemma destroyCache_run c a w : represents c a -> destroyCache c w = foldM flush (rev (dirtyBlocks a)) w.
Proof.
  intros Hrep. pose proof (represents_size c a Hrep) as Hsz.
  apply represents_parts in Hrep as (R & D & F & B & (Hi & HR & HD & _) & Hw).
  eapply (destroyLoop_run _ c (dirtyBlocks a) D); [apply (inv_shape _ _ _ _ _ Hi)|done| |].
  - eapply Forall_impl; [apply (wf_dirty _ Hw)|]. by intros b [? _].
  - rewrite Hsz. unfold cachedBlocks. rewrite length_app. lia.
Qed.

End Stores.

(** ** The constructor *)

(** After [n] turns the free list is [n - 1, ..., 0] and no other link is set. *)
Definition freshHeap (n : nat) (h : ptr) (m : heap) : Prop :=
  wfFree h m (rev (seq 0 n)) /\ (forall x, is_Some (m !! x) <-> x ∈ seq 0 n) /\
  (forall x k ln, k <> Free -> lnk k m x = Some ln -> ln = emptyNode).

Lemma addFreshNode_spec raw n h m :
  freshHeap n h m -> exists h' m', addFreshNode raw n (h, m) = Ret (h', m') /\ freshHeap (S n) h' m'.
Proof.
  intros (Hf & Hdom & Hl). unfold addFreshNode. set (m1 := <[n := _]> m).
  assert (Hn : m !! n = None) by (apply eq_None_not_Some; rewrite Hdom, elem_of_seq; lia).
  assert (Hl1 : forall k x, lnk k m1 x =
    if decide (x = n) then Some (if decide (k = Free) then mkListNode None h else emptyNode) else lnk k m x).
  { intros k x. unfold lnk, m1. rewrite lookup_insert. destruct (decide (x = n)) as [->|Hne];
      [rewrite decide_True by done; by destruct k|by rewrite decide_False]. }
  assert (Hd1 : forall x, is_Some (m1 !! x) <-> x ∈ seq 0 (S n)).
  { intros x. unfold m1. rewrite lookup_insert_is_Some, Hdom, !elem_of_seq. destruct (decide (n = x)); [subst; split; [lia|by left]|].
    split; [intros [?|[_ ?]]; [done|lia]|intros ?; right; split; [done|lia]]. }
  assert (exists m2, setPrevIf Free h (Some n) m1 = Ret m2 /\ frame Free m1 m2 /\
    forall y, exists p, lnk Free m2 y = (fun ln => mkListNode p (next ln)) <$> lnk Free m1 y) as (m2 & -> & F2 & L2).
  { destruct h as [y|]; cbn.
    - destruct Hf as (_ & Hfs & Hh). destruct (rev (seq 0 n)) as [|y' l] eqn:Hr; [done|]. injection Hh as <-.
      destruct Hfs as [[p Hy] _].
      assert (y <> n) by (intros ->; unfold lnk in Hy; by rewrite Hn in Hy).
      assert (Hy1 : lnk Free m1 y = Some (mkListNode p (hd None l))) by (by rewrite Hl1, decide_False).
      destruct (setPrev_spec Free y (Some n) m1 _ Hy1) as (m2 & H2 & F2 & L2). exists m2. split; [done|]. split; [done|].
      intros z. rewrite L2. destruct (decide (z = y)) as [->|Hz]; [rewrite Hy1; by exists (Some n)|].
      destruct (lnk Free m1 z) as [[p' q]|]; [by exists p'|by exists None].
    - exists m1. split; [done|]. split; [done|]. intros y. destruct (lnk Free m1 y) as [[p q]|]; [by exists p|by exists None]. }
  rewrite Ret_bind. eexists _, m2. split; [done|]. unfold freshHeap. rewrite seq_S, rev_app_distr. cbn [rev app].
  destruct Hf as (Hnd & Hfs & Hh). split; [|split].
  - split; [|split; [|done]].
    + constructor; [|done]. rewrite list_elem_of_In, <- in_rev, <- list_elem_of_In, elem_of_seq. lia.
    + cbn. destruct (L2 n) as [p ->]. rewrite Hl1, !decide_True by done. split; [exists p; cbn; by rewrite Hh|].
      eapply fseg_ext; [|exact Hfs]. intros x [p' q] Hx Hlx. destruct (L2 x) as [p2 ->]. rewrite Hl1, decide_False, Hlx; [by exists p2|].
      intros ->. unfold lnk in Hlx. by rewrite Hn in Hlx.
  - intros x. rewrite (frame_is_Some _ _ _ x F2), Hd1, seq_S. done.
  - intros x k ln Hk. destruct (F2 x) as (_ & _ & ->); [|done]. rewrite Hl1. case_decide; [|by apply Hl].
    rewrite decide_False by done. by intros [= <-].
Qed.

Lemma newCacheOf_represents raw n :
  is_u32 (Z.of_nat n) -> exists c, newCacheOf raw n = Ret c /\ represents c (mkLRU [] [] n n 0).
Proof.
  intros Hn. unfold newCacheOf.
  assert (Hloop : forall k j st, freshHeap j st.1 st.2 ->
    exists h m, foldM (addFreshNode raw) (seq j k) st = Ret (h, m) /\ freshHeap (j + k) h m).
  { induction k as [|k IH]; intros j [h m] Hfr; cbn [seq foldM].
    - exists h, m. by rewrite Nat.add_0_r.
    - destruct (addFreshNode_spec raw j h m Hfr) as (h' & m' & -> & Hfr'). rewrite Ret_bind.
      destruct (IH (S j) (h', m') Hfr') as (h2 & m2 & -> & Hfr2). exists h2, m2. by rewrite Nat.add_succ_r. }
  destruct (Hloop n 0%nat (None, ∅)) as (h & m & -> & Hf & Hdom & Hl).
  { split; [split; [constructor|done]|]. split.
    - intros x. cbn [snd]. rewrite elem_of_seq, lookup_empty. split; [by intros []|lia].
    - intros x k ln _. unfold lnk. cbn [snd]. by rewrite lookup_empty. }
  rewrite Ret_bind. cbn [fst snd]. eexists. split; [done|]. cbn in Hf, Hdom.
  exists [], [], (rev (seq 0 n)), (fun _ => []).
  assert (Hempty : forall k, k <> Free -> wfList k (mkEnds None None) m []).
  { intros k Hk. split; [constructor|]. split; [done|]. split; [done|]. intros x ln _. by apply Hl. }
  split; [|split; [by apply Forall2_nil|split; [by apply Forall2_nil|]]].
  - split; cbn; [split; cbn|..].
    + by apply Hempty.
    + by apply Hempty.
    + done.
    + split; [apply length_replicate|]. split; [|split; [done|split; [by intros i j x ?%not_elem_of_nil|]]].
      * intros i Hi. rewrite lookup_replicate_2 by done. split; [done|]. split; [constructor|done].
      * intros x ln _. by apply Hl.
    + by rewrite length_rev, length_seq, u32_id.
    + rewrite <- Permutation_rev. apply NoDup_seq.
    + intros x. by rewrite Hdom, <- Permutation_rev.
    + intros i x. split; [by intros ?%not_elem_of_nil|by intros [?%not_elem_of_nil _]].
    + by intros x b ?%not_elem_of_nil.
  - cbn. rewrite length_rev, length_seq. split; [done|]. split; [done|]. split; [done|].
    split; [constructor|constructor|apply NoDup_nil_2|exact Hn].
Qed.

End Representation.
