(* ===== verification/CacheProps.v ===== *)
(** Properties of the client cache (client/cache.cpp), from the refinement lemmas of
    CacheSpec.v. *)

From Stdlib Require Import Strings.Byte.
From stdpp Require Import gmap.
From S2P Require Import Prelude Config Cache CacheLists CacheSpec.
#[local] Open Scope Z_scope.

(** ** Concrete states *)

(** A store that records the flushed blocks. *)
#[local] Instance logStore : BlockStore (list CacheBlock) := fun b w => Ret (w ++ [b]).

Definition rawBlock (i : nat) : CacheBlock := mkCacheBlock 0 0 [] false false [].
Definition zeroes : bytes := replicate (Z.to_nat pfsBlockSizeInBytes) x00.
Definition ids (x : Z) : Z := x.

Lemma blockCount_u32 : is_u32 (Z.of_nat blockCount).
Proof. unfold blockCount. unfold_config. word_lia. Qed.

(** A new cache to which the blocks 0, 1024, ..., of file 1 were added. *)
Definition filledLRU (n : nat) (a : LRU) : Prop :=
  semaphore a = (blockCount - 2 * n)%nat /\ freeBlocks a = (blockCount - n)%nat /\
  (forall b, b ∈ cachedBlocks a -> fdes b = 1 /\ addr b mod pfsBlockSizeInBytes = 0 /\ 0 <= addr b < 1024 * Z.of_nat n) /\ length (cachedBlocks a) = n /\
  wakeups a = (n - 47)%nat.

Lemma filled_add n c a :
  represents ids c a -> filledLRU n a -> (n < 1024)%nat ->
  exists c' a', addBlock ids 1 (1024 * Z.of_nat n) zeroes c = Ret c' /\ represents ids c' a' /\ filledLRU (S n) a'.
Proof.
  intros Hrep (Hs & Hf & Hb & Hl & Hwk) Hn.
  pose proof (addBlock_refines ids 1 (1024 * Z.of_nat n) zeroes c a Hrep) as Hadd.
  assert (Hbc : blockCount = 2048%nat) by reflexivity. rewrite Hbc in Hs, Hf.
  unfold specAdd in Hadd. destruct (semaphore a) as [|[|f]] eqn:Es; [lia|lia|]. destruct (freeBlocks a) as [|[|m]] eqn:Em; [lia|lia|].
  destruct Hadd as (c' & Hc' & Hrep').
  - change pfsBlockSizeInBytes with 1024. rewrite Z.mul_comm. by apply Z.mod_mul.
  - apply length_replicate.
  - destruct (findKey _ (cachedBlocks a)) as [b|] eqn:Hfk; [|done]. apply findKey_Some in Hfk as [Hin Hk].
    apply Hb in Hin as (_ & _ & Hin). injection Hk as _ Hk. lia.
  - eexists c', _. split; [done|]. split; [exact Hrep'|]. unfold filledLRU, cachedBlocks in *. cbn. rewrite Hbc.
    split; [lia|]. split; [lia|]. split; [|split; [by rewrite Hl|]].
    + intros b [->|Hin]%elem_of_cons; [|apply Hb in Hin as (? & ? & ?); split; [done|]; split; [done|lia]].
      cbn [fdes addr fst snd]. split; [done|]. split; [|lia]. change pfsBlockSizeInBytes with 1024. rewrite Z.mul_comm. by apply Z.mod_mul.
    + rewrite Hwk. destruct (Z.leb_spec (Z.of_nat (S m)) 2000); lia.
Qed.

(** ** The constructor *)

(** The constructor returns a cache in order: all blocks are free, nothing is
    cached, and the semaphore counts the blocks. *)
Theorem newCache_is_empty std_hash raw :
  exists c, newCache raw = Ret c /\ represents std_hash c (mkLRU [] [] blockCount blockCount 0).
Proof. exact (newCacheOf_represents std_hash raw blockCount blockCount_u32). Qed.

Lemma fresh_represents : exists c, newCache rawBlock = Ret c /\ represents ids c (mkLRU [] [] blockCount blockCount 0).
Proof. exact (newCacheOf_represents ids rawBlock blockCount blockCount_u32). Qed.

Lemma filled_0 : filledLRU 0 (mkLRU [] [] blockCount blockCount 0).
Proof. split; [done|]. split; [done|]. split; [|done]. cbn. by intros b ?%not_elem_of_nil. Qed.

(** ** The operations are those of an LRU cache *)

Section Claims.
Context {W : Type} `{BlockStore W}.

(** C25: [evictBlock] removes the block and frees its memory; a dirty block is
    flushed first, and a flush that does not return is not hidden. *)
Theorem evictBlock_is_lru std_hash fd ad c a (w : W) :
  represents std_hash c a -> simulates std_hash (evictBlock std_hash fd ad c w) (specEvict (u32 fd, ad) a w).
Proof. apply evictBlock_refines. Qed.

Lemma specFlush_run l r (w : W) :
  specFlush l r w = (w' ← foldM flush l w; Ret (rev (resetDirty <$> l) ++ r, w')).
Proof.
  revert r w. induction l as [|b l IH]; intros r w; cbn; [done|]. destruct (flush b w) as [w'| |]; cbn; [|done..].
  rewrite IH. destruct (foldM flush l w') as [w2| |]; cbn; [|done..]. by rewrite <- app_assoc.
Qed.

(** One activation of the flusher writes every dirty block once, the least
    recently used one first, drops nothing from the cache and leaves no dirty
    block. *)
Theorem flusher_cleans_cache std_hash c a (w : W) :
  represents std_hash c a ->
  match foldM flush (rev (dirtyBlocks a)) w with
  | Ret w' => exists c', cacheFlusher c w = Ret (c', w') /\
      represents std_hash c' (mkLRU ((resetDirty <$> dirtyBlocks a) ++ recentBlocks a) [] (freeBlocks a) (semaphore a) (wakeups a))
  | Blocked => cacheFlusher c w = Blocked
  | Crash => cacheFlusher c w = Crash
  end.
Proof.
  intros Hrep. pose proof (cacheFlusher_refines std_hash c a w Hrep) as Hs. rewrite specFlush_run in Hs.
  destruct (foldM flush (rev (dirtyBlocks a)) w) as [w'| |]; cbn in Hs; [|done..].
  by rewrite fmap_rev, rev_involutive in Hs.
Qed.

(** One turn of the harvester when every flush returns. *)
Lemma specHarvestOne_total (a : LRU) (w : W) :
  (forall b (w : W), exists w', flush b w = Ret w') -> (0 < length (cachedBlocks a))%nat ->
  exists a' w', specHarvestOne a w = Ret (a', w') /\ freeBlocks a' = S (freeBlocks a) /\
    S (length (cachedBlocks a')) = length (cachedBlocks a) /\
    recentBlocks a' `prefix_of` recentBlocks a /\ dirtyBlocks a' `prefix_of` dirtyBlocks a /\
    (dirtyBlocks a' = dirtyBlocks a \/ recentBlocks a' = []).
Proof.
  intros Hflush Hpos. unfold specHarvestOne, cachedBlocks in *. rewrite length_app in *.
  destruct (recentBlocks a) as [|b r _] eqn:Er using rev_ind.
  - cbn [rev]. destruct (dirtyBlocks a) as [|b d _] eqn:Ed using rev_ind; [cbn in Hpos; lia|]. rewrite rev_app_distr. cbn [rev app].
    destruct (Hflush b w) as [w' ->]. rewrite Ret_bind. eexists _, w'. split; [done|]. cbn. rewrite rev_involutive.
    split; [done|]. split; [rewrite length_app; cbn; lia|]. split; [done|]. split; [by exists [b]|by right].
  - rewrite rev_app_distr. cbn [rev app]. eexists _, w. split; [done|]. cbn. rewrite rev_involutive.
    split; [done|]. split; [rewrite !length_app; cbn; lia|]. split; [by exists [b]|]. split; [done|by left].
Qed.

Lemma specHarvest_total n (a : LRU) (w : W) :
  (forall b (w : W), exists w', flush b w = Ret w') -> (n <= length (cachedBlocks a))%nat ->
  exists a' w', specHarvest n a w = Ret (a', w') /\ freeBlocks a' = (freeBlocks a + n)%nat /\
    recentBlocks a' `prefix_of` recentBlocks a /\ dirtyBlocks a' `prefix_of` dirtyBlocks a /\
    (dirtyBlocks a' = dirtyBlocks a \/ recentBlocks a' = []).
Proof.
  intros Hflush. revert a w. induction n as [|n IH]; intros a w Hn; cbn [specHarvest].
  { exists a, w. rewrite Nat.add_0_r. repeat split; try done. by left. }
  destruct (specHarvestOne_total a w Hflush) as (a1 & w1 & -> & F1 & L1 & P1 & Q1 & D1); [lia|]. rewrite Ret_bind. cbn [fst snd].
  destruct (IH a1 w1) as (a2 & w2 & -> & F2 & P2 & Q2 & D2); [lia|]. exists a2, w2. split; [done|]. split; [lia|].
  split; [by etrans|]. split; [by etrans|]. destruct D2 as [->|D2]; [|by right]. destruct D1 as [->|D1]; [by left|].
  right. rewrite D1 in P2. by apply prefix_nil_inv in P2.
Qed.

(** A woken harvester returns and restores 2020 free blocks: it evicts the least
    recently used clean blocks, and dirty ones, least recently used first, only when
    no clean block is left. *)
Lemma harvester_restores_free_blocks std_hash c a h (w : W) :
  represents std_hash c a -> wakeups a = S h -> (2020 <= length (cachedBlocks a) + freeBlocks a)%nat ->
  (forall b (w : W), exists w', flush b w = Ret w') ->
  exists c' a' w', cacheHarvester c w = Ret (c', w') /\ represents std_hash c' a' /\
    freeBlocks a' = Nat.max 2020 (freeBlocks a) /\
    recentBlocks a' `prefix_of` recentBlocks a /\ dirtyBlocks a' `prefix_of` dirtyBlocks a /\
    (dirtyBlocks a' = dirtyBlocks a \/ recentBlocks a' = []).
Proof.
  intros Hrep Hh Htot Hflush. pose proof (cacheHarvester_refines std_hash c a w Hrep Htot) as Hs. rewrite Hh in Hs.
  cbn [sem_wait] in Hs. rewrite Ret_bind in Hs.
  destruct (specHarvest_total (2020 - freeBlocks a) (mkLRU (recentBlocks a) (dirtyBlocks a) (freeBlocks a) (semaphore a) h) w)
    as (a' & w' & Hr & Hf & P & Q & D); [done|unfold cachedBlocks in *; cbn in *; lia|].
  rewrite Hr in Hs. destruct Hs as (c' & Hc' & Hrep'). exists c', a', w'. split; [done|]. split; [done|]. split; [cbn in Hf; lia|done].
Qed.

(** The destructor flushes every dirty block, least recently used first, and
    ends. *)
Theorem destructor_flushes_dirty std_hash c a (w : W) :
  represents std_hash c a -> destroyCache c w = foldM flush (rev (dirtyBlocks a)) w.
Proof. apply destroyCache_run. Qed.

End Claims.

(** A cache with one dirty block. *)
Lemma one_dirty_block : exists c a b, represents ids c a /\ dirtyBlocks a = [b] /\ findKey (1, 0) (cachedBlocks a) = Some b.
Proof.
  destruct fresh_represents as (c & _ & Hrep). pose proof (addBlock_refines ids 1 0 zeroes c _ Hrep) as Hadd.
  destruct Hadd as (c' & _ & Hrep'); [done|apply length_replicate|done|].
  destruct (write_refines ids 1 5 [x41; x42] c' _ Hrep') as (c2 & _ & Hrep2);
    [word_lia|by vm_compute|].
  eexists c2, _, _. split; [exact Hrep2|]. split; reflexivity.
Qed.

Lemma evictBlock_is_lru_witness :
  exists c a, simulates ids (evictBlock ids 1 0 c ([] : list CacheBlock)) (specEvict (u32 1, 0) a []).
Proof.
  destruct one_dirty_block as (c & a & b & Hrep & _). exists c, a. apply (evictBlock_is_lru ids 1 0 c a [] Hrep).
Defined.

(** ** Reading what was written *)

(** After a write to a cached block, reading the block returns the new bytes in
    their place and the old ones elsewhere, and every other block reads as before. *)
Theorem read_after_write std_hash fd offset bs c a b :
  represents std_hash c a -> is_u32 offset ->
  offset mod pfsBlockSizeInBytes + Z.of_nat (length bs) <= pfsBlockSizeInBytes ->
  let ad := offset / pfsBlockSizeInBytes * pfsBlockSizeInBytes in
  let off := Z.to_nat (offset mod pfsBlockSizeInBytes) in
  findKey (u32 fd, ad) (cachedBlocks a) = Some b ->
  exists c', write std_hash fd offset bs c = Ret (true, c') /\
    (exists c2, readBlock std_hash fd ad c' =
      Ret (Some (take off (data b) ++ bs ++ drop (off + length bs) (data b)), c2)) /\
    (forall fd' ad', (u32 fd', ad') <> (u32 fd, ad) ->
      exists r c2 c3, readBlock std_hash fd' ad' c' = Ret (r, c2) /\ readBlock std_hash fd' ad' c = Ret (r, c3)).
Proof.
  intros Hrep Ho Hfit ad off Hf. destruct (write_refines std_hash fd offset bs c a Hrep Ho Hfit) as (c' & Hc' & Hrep').
  fold ad off in Hc', Hrep'. unfold specWrite in Hc', Hrep'. rewrite Hf in Hc', Hrep'. cbn [fst snd] in Hc', Hrep'.
  exists c'. split; [done|]. pose proof (findKey_Some _ _ _ Hf) as [_ Hk]. split.
  - destruct (readBlock_refines std_hash fd ad c' _ Hrep') as (c2 & Hr & _). exists c2. rewrite Hr. do 2 f_equal.
    unfold specRead. cbn [recentBlocks dirtyBlocks]. by rewrite findKey_removeKey, findKey_cons_eq.
  - intros fd' ad' Hne. destruct (readBlock_refines std_hash fd' ad' c' _ Hrep') as (c2 & Hr2 & _).
    destruct (readBlock_refines std_hash fd' ad' c _ Hrep) as (c3 & Hr3 & _). eexists _, c2, c3. split; [exact Hr2|].
    rewrite Hr3. do 2 f_equal. unfold specRead. cbn [recentBlocks dirtyBlocks].
    assert (key (writtenBlock off bs b) <> (u32 fd', ad')) by (change (key (writtenBlock off bs b)) with (key b); congruence).
    rewrite findKey_cons_ne, !findKey_removeKey_ne by done.
    destruct (findKey (u32 fd', ad') (recentBlocks a)); [done|]. by destruct (findKey (u32 fd', ad') (dirtyBlocks a)).
Qed.

(** ** The semaphore of the free blocks *)

(** Every operation of a running cache, in any order; the index counts the calls of
    [addBlock] that returned. *)
Section Running.
Context {W : Type} `{BlockStore W} (std_hash : Z -> Z) (raw : nat -> CacheBlock).

Inductive running : nat -> Cache -> Prop :=
| run_new c : newCache raw = Ret c -> running 0 c
| run_read n c fd ad r c' : running n c -> readBlock std_hash fd ad c = Ret (r, c') -> running n c'
| run_write n c fd offset bs r c' : running n c -> write std_hash fd offset bs c = Ret (r, c') -> running n c'
| run_add n c fd ad bs c' : running n c -> addBlock std_hash fd ad bs c = Ret c' -> running (S n) c'
| run_evict n c fd ad (w : W) c' w' : running n c -> evictBlock std_hash fd ad c w = Ret (c', w') -> running n c'
| run_evictFile n c fd (w : W) c' w' : running n c -> evictFile fd c w = Ret (c', w') -> running n c'
| run_harvester n c (w : W) c' w' : running n c -> cacheHarvester c w = Ret (c', w') -> running n c'
| run_flusher n c (w : W) c' w' : running n c -> cacheFlusher c w = Ret (c', w') -> running n c'.

(** What an operation does to the semaphore. *)
Definition keepsSem (c c' : Cache) : Prop := freeBlockSemaphore c' = freeBlockSemaphore c.

Lemma keeps_addR x c c' : addToRecencyList x c = Ret c' -> keepsSem c c'.
Proof. unfold addToRecencyList. intros. inv_ret. by subst. Qed.
Lemma keeps_remR x c c' : removeFromRecencyList x c = Ret c' -> keepsSem c c'.
Proof. unfold removeFromRecencyList. intros. inv_ret. by subst. Qed.
Lemma keeps_lruR c r : removeRecencyListLRU c = Ret r -> keepsSem c r.2.
Proof. unfold removeRecencyListLRU. intros. inv_ret. by subst. Qed.
Lemma keeps_addD x c c' : addToDirtyList x c = Ret c' -> keepsSem c c'.
Proof. unfold addToDirtyList. intros. inv_ret. by subst. Qed.
Lemma keeps_remD x c c' : removeFromDirtyList x c = Ret c' -> keepsSem c c'.
Proof. unfold removeFromDirtyList. intros. inv_ret. by subst. Qed.
Lemma keeps_lruD c r : removeDirtyListLRU c = Ret r -> keepsSem c r.2.
Proof. unfold removeDirtyListLRU. intros. inv_ret. by subst. Qed.
Lemma keeps_addH x c c' : addToHashmap x c = Ret c' -> keepsSem c c'.
Proof. unfold addToHashmap. intros. inv_ret. by subst. Qed.
Lemma keeps_remH x c c' : removeFromHashmap x c = Ret c' -> keepsSem c c'.
Proof. unfold removeFromHashmap. intros. inv_ret. by subst. Qed.
Lemma keeps_free x c r : addToFreeList x c = Ret r -> keepsSem c r.2.
Proof. unfold addToFreeList. intros. inv_ret. by subst. Qed.

(** Collect what the calls of a run say about the semaphore. *)
Ltac keeps :=
  repeat match goal with
  | E : addToRecencyList _ _ = Ret _ |- _ => apply keeps_addR in E
  | E : removeFromRecencyList _ _ = Ret _ |- _ => apply keeps_remR in E
  | E : removeRecencyListLRU _ = Ret _ |- _ => apply keeps_lruR in E
  | E : addToDirtyList _ _ = Ret _ |- _ => apply keeps_addD in E
  | E : removeFromDirtyList _ _ = Ret _ |- _ => apply keeps_remD in E
  | E : removeDirtyListLRU _ = Ret _ |- _ => apply keeps_lruD in E
  | E : addToHashmap _ _ = Ret _ |- _ => apply keeps_addH in E
  | E : removeFromHashmap _ _ = Ret _ |- _ => apply keeps_remH in E
  | E : addToFreeList _ _ = Ret _ |- _ => apply keeps_free in E
  end; unfold keepsSem in *; cbn in *; simplify_eq; cbn in *; congruence.

Lemma keeps_read fd ad c r c' : readBlock std_hash fd ad c = Ret (r, c') -> keepsSem c c'.
Proof.
  unfold readBlock. intros Hr. apply bind_Ret in Hr as ([x|] & _ & Hr); [|by inv_ret; simplify_eq].
  apply bind_Ret in Hr as (n & _ & Hr). destruct (clean (block n)); inv_ret; simplify_eq; keeps.
Qed.

Lemma keeps_write fd offset bs c r c' : write std_hash fd offset bs c = Ret (r, c') -> keepsSem c c'.
Proof.
  unfold write. intros Hr. apply bind_Ret in Hr as ([x|] & _ & Hr); [|by inv_ret; simplify_eq].
  apply bind_Ret in Hr as (n & _ & Hr). cbv zeta in Hr. inv_ret. destruct (clean (block n)); simplify_eq; keeps.
Qed.

Lemma keeps_evict fd ad c (w : W) c' w' : evictBlock std_hash fd ad c w = Ret (c', w') -> keepsSem c c'.
Proof.
  unfold evictBlock. intros Hr. apply bind_Ret in Hr as ([x|] & _ & Hr); [|by inv_ret; simplify_eq].
  apply bind_Ret in Hr as (c1 & E1 & Hr). apply bind_Ret in Hr as (n & _ & Hr). apply bind_Ret in Hr as ([c2 w2] & E2 & Hr).
  destruct (clean (block n)); inv_ret; simplify_eq; keeps.
Qed.

Lemma keeps_evictFileDirty fuel fd p c (w : W) r : evictFileDirty fuel fd p c w = Ret r -> keepsSem c r.1.
Proof.
  revert p c w. induction fuel as [|fuel IH]; intros p c w; cbn [evictFileDirty]; [done|]. destruct p as [x|]; [|by intros [= <-]].
  intros Hr. apply bind_Ret in Hr as (n & _ & Hr). destruct (_ =? _); [|by apply IH in Hr].
  inv_ret. apply IH in Hr. keeps.
Qed.

Lemma keeps_evictFileClean fuel fd p c c' : evictFileClean fuel fd p c = Ret c' -> keepsSem c c'.
Proof.
  revert p c. induction fuel as [|fuel IH]; intros p c; cbn [evictFileClean]; [done|]. destruct p as [x|]; [|by intros [= <-]].
  intros Hr. apply bind_Ret in Hr as (n & _ & Hr). destruct (_ =? _); [|by apply IH in Hr].
  inv_ret. apply IH in Hr. keeps.
Qed.

Lemma keeps_harvestOne c (w : W) r : harvestOne c w = Ret r -> keepsSem c r.1.2.
Proof.
  unfold harvestOne. intros Hr. apply bind_Ret in Hr as ([p c1] & E1 & Hr). apply bind_Ret in Hr as ([x c2] & E2 & Hr).
  assert (keepsSem c c2) by (cbn in E2; destruct p; inv_ret; simplify_eq; keeps). clear E1 E2.
  apply bind_Ret in Hr as (c3 & E3 & Hr). apply bind_Ret in Hr as (n & _ & Hr). apply bind_Ret in Hr as ([c4 w4] & E4 & Hr).
  destruct (clean (block n)); inv_ret; simplify_eq; keeps.
Qed.

Lemma keeps_harvestLoop fuel b c (w : W) r : harvestLoop fuel b c w = Ret r -> keepsSem c r.1.
Proof.
  revert b c w. induction fuel as [|fuel IH]; intros b c w; cbn [harvestLoop]; [done|]. destruct b; [|by intros [= <-]].
  intros Hr. apply bind_Ret in Hr as (r1 & E1 & Hr). apply keeps_harvestOne in E1. apply IH in Hr. keeps.
Qed.

Lemma keeps_flushOne c (w : W) r : flushOne c w = Ret r -> keepsSem c r.1.2.
Proof.
  unfold flushOne. intros Hr. apply bind_Ret in Hr as ([[x|] c1] & E1 & Hr); cbn in Hr; [|inv_ret; subst r; keeps].
  inv_ret. subst r. keeps.
Qed.

Lemma keeps_flusherLoop fuel c (w : W) r : flusherLoop fuel c w = Ret r -> keepsSem c r.1.
Proof.
  revert c w. induction fuel as [|fuel IH]; intros c w; cbn [flusherLoop]; [done|].
  intros Hr. apply bind_Ret in Hr as ([[go c1] w1] & E1%keeps_flushOne & Hr). cbn in E1, Hr.
  destruct go; [apply IH in Hr; keeps|]. inv_ret. by subst r.
Qed.

(** [addBlock] takes two units. *)
Lemma add_takes_two fd ad bs c c' :
  addBlock std_hash fd ad bs c = Ret c' -> freeBlockSemaphore c = S (S (freeBlockSemaphore c')).
Proof.
  unfold addBlock. intros Hr. apply bind_Ret in Hr as (_ & _ & Hr). apply bind_Ret in Hr as (f & Ef & Hr).
  apply bind_Ret in Hr as ([x c1] & E1 & Hr). inv_ret. unfold sem_wait in Ef.
  destruct (freeBlockSemaphore c) as [|k] eqn:Ek; [done|]. injection Ef as <-.
  unfold getFreeListEntry, sem_wait in E1. cbn in E1. destruct k as [|k]; [done|]. rewrite Ret_bind in E1. inv_ret. simplify_eq. keeps.
Qed.

Lemma running_semaphore n c : running n c -> (freeBlockSemaphore c + 2 * n = blockCount)%nat.
Proof.
  induction 1 as [c Hc|n c fd ad r c' _ IH Hr|n c fd offset bs r c' _ IH Hr|n c fd ad bs c' _ IH Hr|n c fd ad w c' w' _ IH Hr
    |n c fd w c' w' _ IH Hr|n c w c' w' _ IH Hr|n c w c' w' _ IH Hr].
  - unfold newCache, newCacheOf in Hc. apply bind_Ret in Hc as (r & _ & Hc). injection Hc as <-. cbn [freeBlockSemaphore]. lia.
  - apply keeps_read in Hr. by rewrite Hr.
  - apply keeps_write in Hr. by rewrite Hr.
  - apply add_takes_two in Hr. lia.
  - apply keeps_evict in Hr. by rewrite Hr.
  - unfold evictFile in Hr. apply bind_Ret in Hr as (r & E1 & Hr). apply bind_Ret in Hr as (c2 & E2 & Hr). injection Hr as <- _.
    apply keeps_evictFileDirty in E1. apply keeps_evictFileClean in E2. by rewrite E2, E1.
  - unfold cacheHarvester in Hr. apply bind_Ret in Hr as (h & _ & Hr). apply keeps_harvestLoop in Hr. cbn in Hr. by rewrite Hr.
  - apply keeps_flusherLoop in Hr. cbn in Hr. by rewrite Hr.
Qed.

(** C31: the semaphore of the free blocks is waited for twice by every [addBlock] and
    never posted: once 1024 blocks have been added in the life of a cache, every
    further [addBlock] waits for ever, however many blocks were evicted, harvested
    or flushed in between. *)
Theorem cache_stops_after_1024_blocks c fd ad bs :
  running 1024 c -> ad mod pfsBlockSizeInBytes = 0 -> addBlock std_hash fd ad bs c = Blocked.
Proof.
  intros Hrun%running_semaphore Hal. assert (freeBlockSemaphore c = 0%nat) as Hs by (change blockCount with 2048%nat in Hrun; lia).
  unfold addBlock. rewrite (aligned_land ad Hal). cbn [assert_]. by rewrite Ret_bind, Hs.
Qed.

End Running.

Lemma fill n : (n <= 1024)%nat ->
  exists c a, running (W := list CacheBlock) ids rawBlock n c /\ represents ids c a /\ filledLRU n a.
Proof.
  induction n as [|n IH]; intros Hn.
  - destruct fresh_represents as (c & Hc & Hrep). eexists c, _. split; [by constructor|]. split; [exact Hrep|apply filled_0].
  - destruct IH as (c & a & Hrun & Hrep & Hf); [lia|]. destruct (filled_add n c a Hrep Hf) as (c' & a' & Hadd & Hrep' & Hf'); [lia|].
    exists c', a'. split; [by eapply run_add|done].
Qed.

Lemma cache_stops_after_1024_blocks_witness :
  exists c, running (W := list CacheBlock) ids rawBlock 1024 c /\ addBlock ids 2 0 zeroes c = Blocked.
Proof.
  destruct (fill 1024 (le_n _)) as (c & a & Hrun & _). exists c. split; [exact Hrun|].
  apply (cache_stops_after_1024_blocks (W := list CacheBlock) ids rawBlock c 2 0 zeroes Hrun). reflexivity.
Defined.

(** ** evictFile *)

(** [evictFile] frees the blocks of a file but leaves them in the hash table: the
    block is in the free list and in no list of used blocks, and is still found and
    returned as a hit. *)
Theorem evictFile_leaves_hash_entry :
  exists c c1 c2 w c3, newCacheOf rawBlock 3 = Ret c /\ addBlock ids 1 0 zeroes c = Ret c1 /\
    evictFile 1 c1 ([] : list CacheBlock) = Ret (c2, w) /\
    freeListHead c2 = Some 2%nat /\ recencyEnds c2 = mkEnds None None /\ dirtyEnds c2 = mkEnds None None /\
    lookup ids 1 0 c2 = Ret (Some 2%nat) /\ readBlock ids 1 0 c2 = Ret (Some zeroes, c3).
Proof. eexists _, _, _, _, _. repeat (split; [vm_compute; reflexivity|]). vm_compute. reflexivity. Qed.
