(* ===== verification/Client.v ===== *)
(** The client library: include/pfs_client.h, client/pfs_client.cpp,
    client/client_service.cpp and the interface of client/pfs.cpp.

    A [PFSClient] keeps the vector of open files, the stubs and, through the
    singleton of cache.h, the block cache. The metadata manager and the file servers
    are reached through the two interfaces [ManagerStub] and [FileServerStub]; the
    state of everything behind them is [W]. A call of the library is one run; the
    messages it prints are left out. [off_t], [ssize_t] and [size_t] are integers
    without a bound; every conversion to [uint32_t], [int] and [int32] is written
    out. *)

From Stdlib Require Import String Ascii Strings.Byte.
From stdpp Require Import gmap strings.
From S2P Require Import Prelude Config Permission File FileServer MetadataManager ClientFile Cache.
#[local] Open Scope Z_scope.

(** ** Interfaces *)

(** The calls on the stub of the metadata manager. *)
Class ManagerStub (W : Type) : Type := {
  rpc_ClientStart : string -> W -> outcome (Status * StatusReply * W);
  rpc_CreateFile : string -> Z -> W -> outcome (Status * StatusReply * W);
  rpc_OpenFile : string -> string -> W -> outcome (Status * FileStatReply * W);
  rpc_GetPermission : string -> Z -> Z -> bool -> W -> outcome (Status * PermissionReply * W);
  rpc_CloseFile : string -> bool -> Z -> W -> outcome (Status * StatusReply * W);
  rpc_DeleteFile : string -> W -> outcome (Status * StatusReply * W);
  rpc_GetFileDesc : string -> W -> outcome (Status * FileStatReply * W) }.

(** The calls on a stub of a file server, which is the address it was made for. *)
Class FileServerStub (W : Type) : Type := {
  rpc_ReadBlock : string -> string -> Z -> W -> outcome (Status * bytes * W);
  rpc_WriteBlock : string -> string -> Z -> bytes -> list bool -> W -> outcome (Status * W) }.

(** [grpc::Status::error_code()], with the two values of the documentation. *)
Class GrpcCodes : Type := {
  error_code : Status -> Z;
  error_code_OK : error_code OK = 0;
  error_code_CANCELLED : error_code CANCELLED = 1 }.

Definition status_ok (s : Status) : bool := match s with OK => true | CANCELLED => false end.

(** ** Data *)

(** [stub_] tells whether the stub of the manager was made; [instance_] is the
    singleton of cache.h and [descriptorCount] the static counter of ClientFile. *)
Record PFSClient : Type := mkPFSClient {
  stub_ : bool;
  fileServerStubs : list string;
  openedFiles : list ClientFile;
  descriptorCount : Z;
  instance_ : option Cache }.

Definition newPFSClient : PFSClient := mkPFSClient false [] [] 0 None.

Definition setOpenedFiles (l : list ClientFile) (s : PFSClient) : PFSClient :=
  mkPFSClient (stub_ s) (fileServerStubs s) l (descriptorCount s) (instance_ s).
Definition setInstance (c : option Cache) (s : PFSClient) : PFSClient :=
  mkPFSClient (stub_ s) (fileServerStubs s) (openedFiles s) (descriptorCount s) c.

(** [struct pfs_stat] of config.h. *)
Record pfs_stat : Type := mkPfsStat { st_mtime : Z; st_ctime : Z; st_size : Z }.

(** [openedFiles[i]->...] *)
Definition fileAt (i : nat) (s : PFSClient) : outcome ClientFile := deref (openedFiles s !! i).

Definition setFileAt (i : nat) (f : ClientFile) (s : PFSClient) : PFSClient :=
  setOpenedFiles (<[i := f]> (openedFiles s)) s.

Definition findDescriptor (filedes : Z) (s : PFSClient) : option nat :=
  find_from (fun f => getDescriptor f =? filedes) 0 (openedFiles s).

(** The server of a block, lines 522-523 and 546-547: all [uint32_t]. *)
Definition fileServerIndex (addr width : Z) : outcome nat :=
  if u32 width =? 0 then Crash
  else Ret (Z.to_nat ((addr / (STRIP_SIZE * pfsBlockSizeInBytes)) mod u32 width mod NUM_FILE_SERVERS)).

Section Client.
Context {W : Type} `{!ManagerStub W, !FileServerStub W, !GrpcCodes}.

(** [std::hash<uint32_t>] and the memory that [new Cache()] gets. *)
Context (std_hash : Z -> Z) (raw : nat -> CacheBlock).

(** ** The cache singleton *)

Definition getInstance (s : PFSClient) : outcome Cache :=
  match instance_ s with Some c => Ret c | None => newCache raw end.

(** ** Blocks of the file servers *)

(** PFSClient::flush. *)
Definition flushBlock (stubs : list string) (opened : list ClientFile) (block : CacheBlock) (w : W) : outcome W :=
  _ ← assert_ (negb (clean block));
  i ← deref (find_from (fun f => u32 (getDescriptor f) =? fdes block) 0 opened);
  f ← deref (opened !! i);
  k ← fileServerIndex (addr block) (getStripWidth (cf_base f));
  stub ← deref (stubs !! k);
  r ← rpc_WriteBlock stub (getName (cf_base f)) (i32 (addr block)) (data block) (dirty block) w;
  _ ← assert_ (status_ok r.1);
  Ret r.2.

(** The cache of a client flushes through the client. *)
Definition store (s : PFSClient) : BlockStore W := flushBlock (fileServerStubs s) (openedFiles s).

Definition getBlockFromFileServer (fileIndex : nat) (blockAddr : Z) (s : PFSClient) (w : W) : outcome (bytes * W) :=
  f ← fileAt fileIndex s;
  k ← fileServerIndex blockAddr (getStripWidth (cf_base f));
  stub ← deref (fileServerStubs s !! k);
  r ← rpc_ReadBlock stub (getName (cf_base f)) (i32 blockAddr) w;
  _ ← assert_ (status_ok r.1.1);
  _ ← assert_ (Z.of_nat (length r.1.2) =? pfsBlockSizeInBytes);
  Ret (r.1.2, r.2).

(** ** Start and end *)

(** Lines 28-35: one stub per file server. *)
Definition serverAddress (i : nat) : string :=
  String.append "0.0.0.0:3000" (String (ascii_of_nat (nat_of_ascii "0"%char + i)) EmptyString).

(** The thread of the client's own gRPC server is left out; [client_no] is
    [argv[2]]. *)
Definition initialize (client_no : string) (s : PFSClient) (w : W) : outcome (PFSClient * W) :=
  let stubs := fileServerStubs s ++ (serverAddress <$> seq 0 (Z.to_nat NUM_FILE_SERVERS)) in
  let s1 := mkPFSClient true stubs (openedFiles s) (descriptorCount s) (instance_ s) in
  r ← rpc_ClientStart (String.append "0.0.0.0:400" client_no) w;
  _ ← assert_ (status_ok r.1.1);
  Ret (s1, r.2).

(** [Cache::removeInstance()] runs the destructor of the cache. *)
Definition removeInstance (s : PFSClient) (w : W) : outcome (PFSClient * W) :=
  w' ← match instance_ s with
       | Some c => destroyCache (H := store s) c w
       | None => Ret w
       end;
  Ret (setInstance None s, w').

(** The shutdown of the gRPC server of the client is left out. *)
Definition finalize (s : PFSClient) (w : W) : outcome (PFSClient * W) := removeInstance s w.

(** ** Name space *)

(** [-1 * abs(status.error_code())] *)
Definition negative (st : Status) : Z := -1 * Z.abs (error_code st).

Definition createFile (filename : string) (stripe_width : Z) (s : PFSClient) (w : W) : outcome (Z * W) :=
  if negb (stub_ s) then Ret (-1, w)
  else
    r ← rpc_CreateFile filename (u32 stripe_width) w;
    Ret (if status_ok r.1.1 then 0 else negative r.1.1, r.2).

(** Lines 139-144: the new object; [File::File()] clears [hasModified]. *)
Definition openedFile (filename : string) (reply : FileStatReply) : File :=
  mkFile filename (fr_lastModified reply) (fr_creationTime reply) (u32 (fr_fileSize reply))
    (i32 (fr_stripWidth reply)) [] false.

Definition openFile (filename : string) (mode : ascii) (s : PFSClient) (w : W) : outcome (Z * PFSClient * W) :=
  if negb (stub_ s) then Ret (-1, s, w)
  else
    r ← rpc_OpenFile filename (String mode EmptyString) w;
    let '(st, reply, w') := r in
    if status_ok st
    then
      let '(file, count) := newClientFile (openedFile filename reply) (descriptorCount s) in
      Ret (getDescriptor file,
           mkPFSClient (stub_ s) (fileServerStubs s) (openedFiles s ++ [file]) count (instance_ s), w')
    else Ret (error_code st, s, w').

Definition deleteFile (filename : string) (s : PFSClient) (w : W) : outcome (Z * W) :=
  if negb (stub_ s) then Ret (-1, w)
  else
    r ← rpc_DeleteFile filename w;
    Ret (if status_ok r.1.1 then 0 else negative r.1.1, r.2).

(** [bool foundAt = -1; ... foundAt = i;]: a boolean is never equal to -1, so the
    branch for an unopened file is never taken and the index is 0 or 1. *)
Definition boolFoundAt (found : option nat) : nat :=
  match found with Some O => 0%nat | Some (S _) | None => 1%nat end.

(** [request.set_name] in the loop; the name is empty when the loop finds nothing. *)
Definition requestName (found : option nat) (s : PFSClient) : outcome string :=
  match found with
  | Some i => f ← fileAt i s; Ret (getName (cf_base f))
  | None => Ret EmptyString
  end.

(** The result carries the fields written to [buf]. *)
Definition getFileStat (filedes : Z) (s : PFSClient) (w : W) : outcome (Z * option pfs_stat * W) :=
  if negb (stub_ s) then Ret (-1, None, w)
  else
    name ← requestName (findDescriptor filedes s) s;
    r ← rpc_GetFileDesc name w;
    let '(st, reply, w') := r in
    if status_ok st
    then Ret (0, Some (mkPfsStat (fr_lastModified reply) (fr_creationTime reply) (fr_fileSize reply)), w')
    else Ret (negative st, None, w').

(** ** Tokens *)

(** The result is the index of the file, or a negative code. *)
Definition acquirePermission (filedes start end_ : Z) (write : bool) (s : PFSClient) (w : W)
    : outcome (Z * PFSClient * W) :=
  match findDescriptor filedes s with
  | None => Ret (ERROR_CLOSE_UNOPENED_FILE, s, w)
  | Some i =>
      f ← fileAt i s;
      let b := cf_base f in
      if hasPermission (u32 start) (u32 end_) write (permissions b) then Ret (Z.of_nat i, s, w)
      else
        r ← rpc_GetPermission (getName b) (u32 start) (u32 end_) write w;
        let '(st, reply, w') := r in
        if status_ok st
        then
          ps ← addPermission (pr_start reply) (pr_end reply) write (permissions b) true;
          Ret (Z.of_nat i, setFileAt i (setBase (setPermissions ps b) f) s, w')
        else Ret (negative st, s, w')
  end.

(** [openedFiles[i]->unlockPermission(start, end, write)]; the posts wake threads
    that wait in [revokePermission]. *)
Definition unlockFile (i : nat) (start end_ : Z) (write : bool) (s : PFSClient) : outcome PFSClient :=
  f ← fileAt i s;
  let b := cf_base f in
  let ps := (unlockPermission (u32 start) (u32 end_) write (permissions b)).1 in
  Ret (setFileAt i (setBase (setPermissions ps b) f) s).

(** The loops of lines 221-224 and 410-413. [blockAddr] wraps around, so the loop
    does not end when [end_] lies in the last block of the address space; otherwise
    there is one turn per block and one test more. *)
Fixpoint evictRange (fuel : nat) (i : nat) (blockAddr end_ : Z) (s : PFSClient) (w : W) : outcome (PFSClient * W) :=
  match fuel with
  | O => Blocked
  | S fuel' =>
      if blockAddr <=? end_
      then
        f ← fileAt i s;
        c ← getInstance s;
        r ← evictBlock (H := store s) std_hash (getDescriptor f) blockAddr c w;
        evictRange fuel' i (u32 (blockAddr + pfsBlockSizeInBytes)) end_ (setInstance (Some r.1) s) r.2
      else Ret (s, w)
  end.

Definition blockOf (offset : Z) : Z := u32 (u32 (Z.quot offset pfsBlockSizeInBytes) * pfsBlockSizeInBytes).

Definition evictBlocks (i : nat) (start end_ : Z) (s : PFSClient) (w : W) : outcome (PFSClient * W) :=
  let blockAddr := blockOf start in
  evictRange (S (S (Z.to_nat ((end_ - blockAddr) / pfsBlockSizeInBytes)))) i blockAddr end_ s w.

(** [sem] is the semaphore the thread makes to wait for locked permissions. *)
Definition revokePermission (filename : string) (start end_ : Z) (write : bool) (sem : SemId)
    (s : PFSClient) (w : W) : outcome (PFSClient * W) :=
  match find_from (fun f => String.eqb (getName (cf_base f)) filename) 0 (openedFiles s) with
  | None => Ret (s, w)
  | Some i =>
      f ← fileAt i s;
      let b := cf_base f in
      ps ← File.revokePermission start end_ write true sem (permissions b);
      evictBlocks i start end_ (setFileAt i (setBase (setPermissions ps b) f) s) w
  end.

(** ** Data *)

(** [memcpy(dst, buf + off, n)] out of a buffer. *)
Definition copyOut (off n : Z) (buf : bytes) : outcome bytes :=
  if (0 <=? off) && (off + n <=? Z.of_nat (length buf)) then Ret (take (Z.to_nat n) (drop (Z.to_nat off) buf))
  else Crash.

Definition actualSize (offset nbyte : Z) : Z :=
  u32 (Z.min (pfsBlockSizeInBytes - Z.rem offset pfsBlockSizeInBytes) nbyte).

(** Lines 285-293: the block from the cache, or from its server into the cache. *)
Definition fetchBlock (foundAt : nat) (filedes blockAddr : Z) (s : PFSClient) (w : W)
    : outcome (bool * bytes * PFSClient * W) :=
  c ← getInstance s;
  r ← readBlock std_hash filedes blockAddr c;
  let s1 := setInstance (Some r.2) s in
  match r.1 with
  | Some cacheData => Ret (true, cacheData, s1, w)
  | None =>
      g ← getBlockFromFileServer foundAt blockAddr s1 w;
      c1 ← getInstance s1;
      c2 ← addBlock std_hash filedes blockAddr g.1 c1;
      Ret (false, g.1, setInstance (Some c2) s1, g.2)
  end.

(** Lines 281-299: [acc] are the bytes copied to the buffer so far, [hit] is
    [cache_hit]. *)
Fixpoint readLoop (fuel : nat) (foundAt : nat) (filedes nbyte offset : Z) (hit : bool) (acc : bytes)
    (s : PFSClient) (w : W) : outcome (bool * bytes * PFSClient * W) :=
  match fuel with
  | O => Blocked
  | S fuel' =>
      if 0 <? nbyte
      then
        let n := actualSize offset nbyte in
        r ← fetchBlock foundAt filedes (blockOf offset) s w;
        let '(h, cacheData, s1, w1) := r in
        bs ← copyOut (Z.rem offset pfsBlockSizeInBytes) n cacheData;
        readLoop fuel' foundAt filedes (nbyte - n) (offset + n) (hit && h) (acc ++ bs) s1 w1
      else Ret (hit, acc, s, w)
  end.

(** A turn of a data loop handles at least one byte and all but the first and the
    last handle a whole block. *)
Definition loopFuel (nbyte : Z) : nat := S (S (S (Z.to_nat (nbyte / pfsBlockSizeInBytes)))).

Record ReadResult : Type := mkReadResult { rd_result : Z; rd_bytes : bytes; rd_hit : option bool }.

(** The bytes written to [buf] and the value of [*cache_hit], when it is set, are
    part of the result. *)
Definition readFile (filedes nbyte offset : Z) (s : PFSClient) (w : W) : outcome (ReadResult * PFSClient * W) :=
  if negb (stub_ s) then Ret (mkReadResult (-1) [] None, s, w)
  else
    a ← acquirePermission filedes offset (offset + nbyte) false s w;
    let '(foundAt, s1, w1) := a in
    if foundAt <? 0 then Ret (mkReadResult foundAt [] None, s1, w1)
    else
      r ← readLoop (loopFuel nbyte) (Z.to_nat foundAt) filedes nbyte offset true [] s1 w1;
      let '(hit, bs, s2, w2) := r in
      s3 ← unlockFile (Z.to_nat foundAt) offset (offset + nbyte) false s2;
      Ret (mkReadResult nbyte bs (Some hit), s3, w2).

(** Lines 366-376. *)
Definition writeChunk (foundAt : nat) (filedes offset : Z) (bs : bytes) (s : PFSClient) (w : W)
    : outcome (bool * PFSClient * W) :=
  c ← getInstance s;
  r ← Cache.write std_hash filedes (u32 offset) bs c;
  let '(hit, c0) := r in
  let s1 := setInstance (Some c0) s in
  if hit : bool then Ret (true, s1, w)
  else
    g ← getBlockFromFileServer foundAt (blockOf offset) s1 w;
    c1 ← getInstance s1;
    c2 ← addBlock std_hash filedes (blockOf offset) g.1 c1;
    r2 ← Cache.write std_hash filedes (u32 offset) bs c2;
    Ret (false, setInstance (Some r2.2) s1, g.2).

(** Lines 361-380: [bs] are the bytes still to be written. *)
Fixpoint writeLoop (fuel : nat) (foundAt : nat) (filedes offset : Z) (bs : bytes) (hit : bool)
    (s : PFSClient) (w : W) : outcome (bool * PFSClient * W) :=
  match fuel with
  | O => Blocked
  | S fuel' =>
      let nbyte := Z.of_nat (length bs) in
      if 0 <? nbyte
      then
        let n := actualSize offset nbyte in
        r ← writeChunk foundAt filedes offset (take (Z.to_nat n) bs) s w;
        let '(h, s1, w1) := r in
        writeLoop fuel' foundAt filedes (offset + n) (drop (Z.to_nat n) bs) (hit && h) s1 w1
      else Ret (hit, s, w)
  end.

(** Lines 319-321. *)
Definition markModified (newEnd : Z) (f : ClientFile) : ClientFile :=
  let b := setHasModified true (cf_base f) in
  setBase (setSize (Z.max (getSize b) (u32 newEnd)) b) f.

(** [bs] are the [nbyte] bytes of [buf]. *)
Definition writeFile (filedes : Z) (bs : bytes) (offset : Z) (s : PFSClient) (w : W)
    : outcome (Z * option bool * PFSClient * W) :=
  let nbyte := Z.of_nat (length bs) in
  if negb (stub_ s) then Ret (-1, None, s, w)
  else
    a ← acquirePermission filedes offset (offset + nbyte) true s w;
    let '(foundAt, s1, w1) := a in
    if foundAt <? 0 then Ret (foundAt, None, s1, w1)
    else
      f ← fileAt (Z.to_nat foundAt) s1;
      let s2 := setFileAt (Z.to_nat foundAt) (markModified (offset + nbyte) f) s1 in
      r ← writeLoop (loopFuel nbyte) (Z.to_nat foundAt) filedes offset bs true s2 w1;
      let '(hit, s3, w2) := r in
      s4 ← unlockFile (Z.to_nat foundAt) offset (offset + nbyte) true s3;
      Ret (nbyte, Some hit, s4, w2).

(** Lines 406-414: the blocks of all ranges the client has tokens for. *)
Definition evictTokens (i : nat) (ps : list Permission) (s : PFSClient) (w : W) : outcome (PFSClient * W) :=
  foldM (fun p st => evictBlocks i (getStart p) (getEnd p) st.1 st.2) ps (s, w).

Definition closeFile (filedes : Z) (s : PFSClient) (w : W) : outcome (Z * PFSClient * W) :=
  if negb (stub_ s) then Ret (-1, s, w)
  else
    name ← requestName (findDescriptor filedes s) s;
    let foundAt := boolFoundAt (findDescriptor filedes s) in
    f ← fileAt foundAt s;
    r ← evictTokens foundAt (permissions (cf_base f)) s w;
    let '(s1, w1) := r in
    r ← rpc_CloseFile name (hasModified (cf_base f)) (getSize (cf_base f)) w1;
    let '(st, _, w2) := r in
    if status_ok st then Ret (0, setOpenedFiles (erase_range foundAt foundAt (openedFiles s1)) s1, w2)
    else Ret (negative st, s1, w2).

(** ** The service of the client and the C interface *)

(** ClientServiceImpl::RevokePermission. *)
Definition RevokePermission (name : string) (start end_ : Z) (iswrite : bool) (sem : SemId)
    (s : PFSClient) (w : W) : outcome (Status * PFSClient * W) :=
  r ← revokePermission name start end_ iswrite sem s w; Ret (OK, r.1, r.2).

Definition pfs_create := createFile.
Definition pfs_open := openFile.
Definition pfs_read := readFile.
Definition pfs_write := writeFile.
Definition pfs_close := closeFile.
Definition pfs_delete := deleteFile.
Definition pfs_fstat := getFileStat.

End Client.
