(* ===== verification/ClientSpec.v ===== *)
(** What a client promises about the bytes of its open files.

    The data path of a client goes through its cache to the file servers. The
    servers are known through the laws [FileServerStubOk], which the servers of
    FileServer.v satisfy, and the cache through the LRU cache it implements. The
    bytes that were written to the open files are a map [m]; [inPlace] says where
    each of them is: in a cached block, marked dirty or stored as well, or else on
    the server. *)

From Stdlib Require Import String Strings.Byte.
From stdpp Require Import gmap strings.
From S2P Require Import Prelude Config Permission File FileServer MetadataManager ClientFile Cache CacheLists CacheSpec Client.
#[local] Open Scope Z_scope.

(** ** The laws of the file servers *)

Definition serverOf (addr width : Z) : nat := Z.to_nat (stripIndex addr width mod NUM_FILE_SERVERS).

Abbreviation blockSize := (Z.to_nat pfsBlockSizeInBytes).

(** [served w name width]: the file [name] is spread over [width] stripes;
    [storedByte w name width x]: the byte of it that is stored at address [x];
    [healthy w]: new files can be created. *)
Class FileServerStubOk (W : Type) `{!FileServerStub W} : Type := {
  served : W -> string -> Z -> Prop;
  healthy : W -> Prop;
  storedByte : W -> string -> Z -> Z -> option byte;
  ReadBlock_ok w name width addr :
    served w name width -> blockAddr addr ->
    exists bs, rpc_ReadBlock (serverAddress (serverOf addr width)) name addr w = Ret (OK, bs, w) /\
      length bs = blockSize /\
      forall i v, (i < blockSize)%nat -> storedByte w name width (addr + Z.of_nat i) = Some v -> bs !! i = Some v;
  WriteBlock_ok w name width addr data dirty :
    served w name width -> blockAddr addr -> length data = blockSize -> length dirty = blockSize ->
    exists w', rpc_WriteBlock (serverAddress (serverOf addr width)) name addr data dirty w = Ret (OK, w') /\
      (healthy w -> healthy w') /\ (forall n wd, served w n wd -> served w' n wd) /\
      (forall i, dirty !! i = Some true -> storedByte w' name width (addr + Z.of_nat i) = data !! i) /\
      (forall n wd x v, 0 <= x -> storedByte w n wd x = Some v ->
        (n = name -> forall i, x = addr + Z.of_nat i -> dirty !! i <> Some true) ->
        storedByte w' n wd x = Some v) }.

(** ** The file servers of FileServer.v satisfy them *)

(** The server that a stub was made for. *)
Definition stubIndex (stub : string) : option nat :=
  find_from (String.eqb stub) 0 (serverAddress <$> seq 0 (Z.to_nat NUM_FILE_SERVERS)).

(** [junk] are the bytes of a buffer that a short read leaves as they are. *)
Definition serversStub (junk : nat -> byte) : FileServerStub (list FileServer) := {|
  rpc_ReadBlock stub name addr ws :=
    i ← deref (stubIndex stub);
    s ← deref (ws !! i);
    r ← FileServer.ReadBlock junk name addr s;
    Ret (r.1.1, r.1.2, <[i := r.2]> ws);
  rpc_WriteBlock stub name addr data dirty ws :=
    i ← deref (stubIndex stub);
    s ← deref (ws !! i);
    r ← FileServer.WriteBlock name addr data dirty s;
    Ret (r.1.1, <[i := r.2]> ws) |}.

Definition serversServed (ws : list FileServer) (name : string) (width : Z) : Prop :=
  0 < width <= INT_MAX /\ Forall serverOk ws /\
  forall addr, 0 <= addr -> exists s f, ws !! serverOf addr width = Some s /\
    fs_files s !! name = Some f /\ fs_stripWidth f = width /\ is_Some (stripPaths f !! stripIndex addr width).

Definition serversByte (ws : list FileServer) (name : string) (width x : Z) : option byte :=
  s ← ws !! serverOf x width; stored s name x.

Lemma stubIndex_address i : (i < Z.to_nat NUM_FILE_SERVERS)%nat -> stubIndex (serverAddress i) = Some i.
Proof. intros Hi. change (Z.to_nat NUM_FILE_SERVERS) with 5%nat in Hi. do 5 (destruct i as [|i]; [done|]). lia. Qed.

Lemma serverOf_lt addr width : (serverOf addr width < Z.to_nat NUM_FILE_SERVERS)%nat.
Proof. unfold serverOf. pose proof (Z.mod_pos_bound (stripIndex addr width) NUM_FILE_SERVERS eq_refl). lia. Qed.

Lemma serversServed_at ws name width addr :
  serversServed ws name width -> 0 <= addr ->
  exists s, ws !! serverOf addr width = Some s /\ serverOk s /\ servesAddr s name addr.
Proof.
  intros (Hw & Hall & Hs) Ha. destruct (Hs addr Ha) as (s & f & Hi & Hf & Hfw & Hp). exists s. split; [done|].
  rewrite Forall_lookup in Hall. split; [by eapply Hall|]. exists f. rewrite Hfw. done.
Qed.

(** All bytes of a block are on the server of its address. *)
Lemma serverOf_block addr width i :
  0 < width -> blockAddr addr -> (i < blockSize)%nat -> serverOf (addr + Z.of_nat i) width = serverOf addr width.
Proof.
  intros Hw (Ha & _ & Hal) Hi. unfold serverOf.
  destruct (strip_block addr width (Z.of_nat i)) as [-> _]; [lia|lia|lia|rewrite Hal; lia|done].
Qed.

Lemma servers_ReadBlock junk ws name width addr :
  serversServed ws name width -> blockAddr addr ->
  exists bs, rpc_ReadBlock (FileServerStub := serversStub junk) (serverAddress (serverOf addr width)) name addr ws = Ret (OK, bs, ws) /\
    length bs = blockSize /\
    forall i v, (i < blockSize)%nat -> serversByte ws name width (addr + Z.of_nat i) = Some v -> bs !! i = Some v.
Proof.
  intros Hsrv Hb. destruct (serversServed_at ws name width addr Hsrv) as (s & Hs & Hok & Hsa); [apply Hb|].
  destruct (ReadBlock_lemma junk name addr s Hok Hsa Hb) as (bs & Hr & Hl & Hbs). exists bs.
  cbn. rewrite stubIndex_address by apply serverOf_lt. rewrite deref_Some, Ret_bind, Hs, deref_Some, Ret_bind, Hr, Ret_bind. cbn.
  rewrite list_insert_id by done. split; [done|]. split; [done|]. intros i v Hi Hv. rewrite Hbs by done.
  unfold serversByte in Hv. rewrite serverOf_block, Hs in Hv; [|apply Hsrv|done..]. cbn in Hv. by rewrite Hv.
Qed.

Lemma servers_WriteBlock junk ws name width addr data dirty :
  serversServed ws name width -> blockAddr addr -> length data = blockSize -> length dirty = blockSize ->
  exists ws', rpc_WriteBlock (FileServerStub := serversStub junk) (serverAddress (serverOf addr width)) name addr data dirty ws = Ret (OK, ws') /\
    (servicesOk ws -> servicesOk ws') /\ (forall n wd, serversServed ws n wd -> serversServed ws' n wd) /\
    (forall i, dirty !! i = Some true -> serversByte ws' name width (addr + Z.of_nat i) = data !! i) /\
    (forall n wd x v, 0 <= x -> serversByte ws n wd x = Some v ->
      (n = name -> forall i, x = addr + Z.of_nat i -> dirty !! i <> Some true) ->
      serversByte ws' n wd x = Some v).
Proof.
  intros Hsrv Hb Hld Hldi. destruct (serversServed_at ws name width addr Hsrv) as (s & Hs & Hok & Hsa); [apply Hb|].
  destruct (WriteBlock_lemma name addr data dirty s Hok Hsa Hb Hld Hldi) as (s' & Hw & Hok' & Hfs & Hdir & Hdirty & Hother).
  cbn. rewrite stubIndex_address by apply serverOf_lt. rewrite deref_Some, Ret_bind, Hs, deref_Some, Ret_bind, Hw, Ret_bind. cbn.
  set (j := serverOf addr width) in *. assert (Hj : (j < length ws)%nat) by (by eapply lookup_lt_Some).
  eexists. split; [done|]. split; [|split; [|split]].
  - intros [Hlen Hall]. split; [by rewrite length_insert|by apply Forall_insert].
  - intros n wd (Hwd & Hall & Hn). split; [done|]. split; [by apply Forall_insert|]. intros a Ha.
    destruct (Hn a Ha) as (s1 & f & Hs1 & Hf & Hr). destruct (decide (serverOf a wd = j)) as [Heq|Hne].
    + exists s', f. rewrite Heq in Hs1 |- *. rewrite Hs in Hs1. injection Hs1 as <-.
      rewrite list_lookup_insert_eq by done. split; [done|]. by rewrite Hfs.
    + exists s1, f. rewrite list_lookup_insert_ne by done. done.
  - intros i Hi. unfold serversByte. assert (i < blockSize)%nat by (rewrite <- Hldi; by eapply lookup_lt_Some).
    rewrite serverOf_block; [|apply Hsrv|done..]. fold j. rewrite list_lookup_insert_eq by done. by apply Hdirty.
  - intros n wd x v Hx Hv Hclean. unfold serversByte in *. destruct (decide (serverOf x wd = j)) as [Heq|Hne].
    + rewrite Heq in *. rewrite list_lookup_insert_eq by done. rewrite Hs in Hv. cbn in *.
      pose proof (Hother n x Hx Hclean) as Ho. by rewrite Hv in Ho.
    + by rewrite list_lookup_insert_ne.
Qed.

#[export] Instance serversStubOk junk : FileServerStubOk (list FileServer) (FileServerStub0 := serversStub junk) := {
  served := serversServed;
  healthy := servicesOk;
  storedByte := serversByte;
  ReadBlock_ok ws name width addr := servers_ReadBlock junk ws name width addr;
  WriteBlock_ok ws name width addr data dirty := servers_WriteBlock junk ws name width addr data dirty }.

(** A file whose stripes were all created is served. *)
Lemma placed_served name width ws : 0 < width <= INT_MAX -> placed name width width ws -> serversServed ws name width.
Proof.
  intros Hw [[Hlen Hall] Hp]. split; [done|]. split; [done|]. intros addr Ha. unfold serverOf.
  set (id := stripIndex addr width). assert (Hid : 0 <= id < width) by (apply Z.mod_pos_bound; lia).
  assert (Hm : 0 <= id mod NUM_FILE_SERVERS < NUM_FILE_SERVERS) by (apply Z.mod_pos_bound; unfold_config; lia).
  destruct (lookup_lt_is_Some_2 ws (Z.to_nat (id mod NUM_FILE_SERVERS))) as [s Hs]; [unfold_config; lia|].
  destruct (Hp _ s Hs) as [Hfw Hst]. destruct (Hst id Hid) as (f & Hf & Hpf & _); [lia|].
  exists s, f. split; [done|]. split; [done|]. split; [by apply Hfw|]. by rewrite Hpf.
Qed.

(** The other files while stripes of the file [name] are created. *)
Record otherFilesKept (name : string) (ws ws' : list FileServer) : Prop := mkOtherFilesKept {
  ok_services : servicesOk ws -> servicesOk ws';
  ok_served n wd : n <> name -> serversServed ws n wd -> serversServed ws' n wd;
  ok_stored n wd x : n <> name -> servicesOk ws -> serversByte ws' n wd x = serversByte ws n wd x }.

(** A stripe of another file changes nothing that is stored of this one. *)
Lemma CreateFile_stored name width id s s' r n x :
  serverOk s -> 0 <= id <= INT_MAX -> n <> name -> FileServer.CreateFile name width id s = Ret (r, s') -> stored s' n x = stored s n x.
Proof.
  intros Hok Hid Hn Hr. destruct (CreateFile_lemma name width id s Hok Hid) as (s1 & f & Hc & _ & _ & _ & _ & Hdisk & Hother & _).
  rewrite Hr in Hc. injection Hc as _ ->. unfold stored. rewrite Hother by done.
  destruct (fs_files s !! n) as [f0|] eqn:Hf0; [|done]. cbn. destruct (stripPaths f0 !! _) as [path|] eqn:Hp; [|done]. cbn.
  destruct Hok as [_ Hok]. destruct (Hok n f0 _ path Hf0 Hp) as [-> _]. rewrite Hdisk, lookup_insert_ne; [done|].
  intros [Heq _]%stripeAddress_inj. congruence.
Qed.

Lemma createStripe_other name width i id ws r ws' :
  0 <= i < NUM_FILE_SERVERS -> 0 <= id <= INT_MAX -> servicesOk ws ->
  createStripe i name width id ws = Ret (r, ws') -> otherFilesKept name ws ws'.
Proof.
  intros Hi Hid [Hlen Hall] Hr. unfold createStripe, fileServers_service in Hr. apply bind_Ret in Hr as (s & Hs%deref_Ret & Hr).
  apply bind_Ret in Hr as ([r1 s'] & Hc & [= _ <-]). rewrite Forall_lookup in Hall. pose proof (Hall _ _ Hs) as Hok.
  pose proof (lookup_lt_Some _ _ _ Hs) as Hlt.
  assert (Hst : forall n x, n <> name -> stored s' n x = stored s n x) by (intros n x Hn; by apply (CreateFile_stored name width id s s' r1)).
  destruct (CreateFile_lemma name width id s Hok Hid) as (s1 & f & Hc1 & Hok1 & _ & _ & _ & _ & Hother & _).
  rewrite Hc in Hc1. injection Hc1 as _ ->.
  assert (Hall' : Forall serverOk (<[Z.to_nat i := s1]> ws)) by (apply Forall_insert; [by apply Forall_lookup|done]). cbn. split.
  - intros _. by split; [rewrite length_insert|].
  - intros n wd Hn (Hwd & _ & Haddr). split; [done|]. split; [done|]. intros ad Had. destruct (Haddr ad Had) as (s2 & f2 & Hs2 & Hf2 & Hrest).
    rewrite list_lookup_insert. destruct (decide (Z.to_nat i = serverOf ad wd)) as [Heq|Hne]; [|by exists s2, f2; rewrite decide_False by tauto].
    rewrite decide_True by (split; [done|lia]). exists s1, f2. split; [done|]. rewrite Hother by done. rewrite <- Heq, Hs in Hs2. by injection Hs2 as <-.
  - intros n wd x Hn _. unfold serversByte. rewrite list_lookup_insert. case_decide as Hd; [|done]. destruct Hd as [<- _]. rewrite Hs. by apply Hst.
Qed.

Lemma createStripes_other name width ws ws' :
  width <= INT_MAX -> servicesOk ws -> createStripes name width ws = Ret ws' -> otherFilesKept name ws ws'.
Proof.
  intros Hw. unfold createStripes.
  assert (Hall : Forall (fun i => Z.of_nat i <= INT_MAX) (seq 0 (Z.to_nat width))) by (apply Forall_forall; intros i Hi%elem_of_seq; lia).
  revert ws Hall. induction (seq 0 (Z.to_nat width)) as [|i l IH]; intros ws Hall Hok; cbn [foldM]; [by intros [= <-]|].
  apply Forall_cons in Hall as [Hi Hall]. intros Hr. apply bind_Ret in Hr as (ws1 & Hc & Hr).
  apply bind_Ret in Hc as ([r ws2] & Hc & Hc'). apply bind_Ret in Hc' as (u & _ & [= <-]).
  apply createStripe_other in Hc as [H1 H2 H3]; [|apply Z.mod_pos_bound; unfold_config; lia|lia|done].
  destruct (IH _ Hall (H1 Hok) Hr) as [H4 H5 H6]. split; [auto|auto|]. intros n wd x Hn Hs. rewrite H6 by auto. by apply H3.
Qed.

(** ** The LRU cache as a map *)

Definition cached (a : LRU) (k : Z * Z) : option CacheBlock := findKey k (cachedBlocks a).

Lemma cached_unfold a k :
  cached a k = match findKey k (recentBlocks a) with Some b => Some b | None => findKey k (dirtyBlocks a) end.
Proof. apply findKey_app. Qed.

Lemma cached_key a k b : cached a k = Some b -> key b = k.
Proof. by intros [_ ?]%findKey_Some. Qed.

Lemma findKey_cons k k' b l : key b = k -> findKey k' (b :: l) = if decide (k' = k) then Some b else findKey k' l.
Proof. intros Hk. case_decide; [apply findKey_cons_eq; congruence|apply findKey_cons_ne; congruence]. Qed.

Lemma findKey_removeKey_if k k' l : findKey k' (removeKey k l) = if decide (k' = k) then None else findKey k' l.
Proof. case_decide as E; [rewrite E; apply findKey_removeKey|by apply findKey_removeKey_ne]. Qed.

(** A cached block: its buffers are whole; a clean one has no dirty byte. *)
Lemma cached_wf a k b :
  wfLRU a -> cached a k = Some b -> fullBlock b /\ (clean b = true -> dirty b = noDirty).
Proof.
  intros [Hr Hd _ _] Hb. rewrite cached_unfold in Hb. rewrite Forall_forall in Hr, Hd.
  destruct (findKey k (recentBlocks a)) as [b'|] eqn:E.
  - injection Hb as ->. apply findKey_Some in E as [Hin _]. destruct (Hr b Hin) as (? & ? & ?). done.
  - apply findKey_Some in Hb as [Hin _]. destruct (Hd b Hin) as (Hc & ?). split; [done|]. congruence.
Qed.

Lemma specRead_cached k a :
  (specRead k a).1 = data <$> cached a k /\ (forall k', cached (specRead k a).2 k' = cached a k') /\
  freeBlocks (specRead k a).2 = freeBlocks a /\ semaphore (specRead k a).2 = semaphore a.
Proof.
  rewrite cached_unfold. unfold specRead.
  destruct (findKey k (recentBlocks a)) as [b|] eqn:E; [|destruct (findKey k (dirtyBlocks a)) as [b|] eqn:E2; [|done]];
    (split; [done|]); (split; [|done]); intros k'; rewrite !cached_unfold; cbn [recentBlocks dirtyBlocks snd].
  - rewrite (findKey_cons k) by (by apply findKey_Some in E as [_ ?]). rewrite findKey_removeKey_if.
    case_decide as Hk; [by rewrite Hk, E|done].
  - rewrite (findKey_cons k) by (by apply findKey_Some in E2 as [_ ?]). rewrite findKey_removeKey_if.
    case_decide as Hk; [by rewrite Hk, E, E2|done].
Qed.

Lemma specWrite_cached k off bs a b :
  cached a k = Some b ->
  let a' := (specWrite k off bs a).2 in
  (specWrite k off bs a).1 = true /\
  (forall k', cached a' k' = if decide (k' = k) then Some (writtenBlock off bs b) else cached a k') /\
  freeBlocks a' = freeBlocks a /\ semaphore a' = semaphore a.
Proof.
  intros Hb a'. unfold a', specWrite. unfold cached in Hb. rewrite Hb. cbn [fst snd freeBlocks semaphore]. split; [done|]. split; [|done]. intros k'.
  rewrite !cached_unfold. cbn [recentBlocks dirtyBlocks snd]. rewrite (findKey_cons k) by (by apply cached_key in Hb). rewrite !findKey_removeKey_if.
  by case_decide.
Qed.

Lemma specWrite_missed k off bs a : cached a k = None -> specWrite k off bs a = (false, a).
Proof. unfold specWrite, cached. by intros ->. Qed.

Lemma specAdd_cached k bs a n :
  (2 * S n <= semaphore a)%nat -> (S n < freeBlocks a)%nat ->
  exists a', specAdd k bs a = Ret a' /\
    (forall k', cached a' k' = if decide (k' = k) then Some (mkCacheBlock k.1 k.2 noDirty true true bs) else cached a k') /\
    (2 * n <= semaphore a')%nat /\ (n < freeBlocks a')%nat.
Proof.
  intros Hs Hf. unfold specAdd. destruct (semaphore a) as [|[|f]]; [lia|lia|]. destruct (freeBlocks a) as [|[|m]]; [lia|lia|].
  eexists. split; [done|]. split; [|cbn; lia]. intros k'. rewrite !cached_unfold. cbn [recentBlocks dirtyBlocks].
  rewrite (findKey_cons k) by (by destruct k). by case_decide.
Qed.

(** ** The state of a client *)

(** Name, descriptor as the cache has it, and stripe width of an open file. *)
Definition entry (f : ClientFile) : string * Z * Z :=
  (getName (cf_base f), u32 (getDescriptor f), getStripWidth (cf_base f)).

Definition table (s : PFSClient) : list (string * Z * Z) := entry <$> openedFiles s.

(** Block and position of an address. *)
Definition baseOf (x : Z) : Z := x / pfsBlockSizeInBytes * pfsBlockSizeInBytes.
Definition offOf (x : Z) : nat := Z.to_nat (x mod pfsBlockSizeInBytes).

(** A byte is [v]: in a cached block, dirty or stored as well, or else stored. *)
Definition valueAt (ob : option CacheBlock) (st : option byte) (i : nat) (v : byte) : Prop :=
  match ob with
  | Some b => data b !! i = Some v /\ (dirty b !! i = Some true \/ st = Some v)
  | None => st = Some v
  end.

(** ** Arithmetic of blocks *)

Lemma offOf_lt x : (offOf x < blockSize)%nat.
Proof. unfold offOf. pose proof (Z.mod_pos_bound x pfsBlockSizeInBytes eq_refl). lia. Qed.

Lemma base_off x : x = baseOf x + Z.of_nat (offOf x).
Proof. unfold baseOf, offOf. change pfsBlockSizeInBytes with 1024. word_lia. Qed.

Lemma base_off_unique ad i x :
  ad mod pfsBlockSizeInBytes = 0 -> (i < blockSize)%nat -> x = ad + Z.of_nat i -> baseOf x = ad /\ offOf x = i.
Proof. unfold baseOf, offOf. change pfsBlockSizeInBytes with 1024. intros H1 H2 ->. split; word_lia. Qed.

Lemma lookup_patched {A} o (bs l : list A) i :
  (o + length bs <= length l)%nat ->
  (take o l ++ bs ++ drop (o + length bs) l) !! i =
  if decide (o <= i < o + length bs)%nat then bs !! (i - o)%nat else l !! i.
Proof.
  intros Hl. destruct (decide (i < o)%nat) as [Hi|Hi].
  - rewrite lookup_app_l, lookup_take_lt by (rewrite ?length_take; lia). rewrite decide_False by lia. done.
  - rewrite lookup_app_r, length_take, Nat.min_l by (rewrite ?length_take; lia). case_decide as Hd.
    + by rewrite lookup_app_l by lia.
    + rewrite lookup_app_r, lookup_drop by lia. f_equal. lia.
Qed.

Lemma blockOf_spec x : is_u32 x -> blockOf x = baseOf x /\ 0 <= blockOf x <= x /\ blockOf x mod pfsBlockSizeInBytes = 0.
Proof.
  intros Hx. unfold blockOf, baseOf. change pfsBlockSizeInBytes with 1024. rewrite Z.quot_div_nonneg by word_lia.
  rewrite (u32_id (x / 1024)) by word_lia. rewrite u32_id by word_lia. split; [done|]. split; [word_lia|by apply Z.mod_mul].
Qed.

(** A range of bytes that the library can address. *)
Definition inFile (offset nbyte : Z) : Prop :=
  0 <= offset /\ offset + nbyte <= INT_MAX - pfsBlockSizeInBytes.

(** The number of blocks that a range touches. *)
Definition blocksIn (offset nbyte : Z) : nat :=
  if nbyte <=? 0 then 0%nat
  else Z.to_nat ((offset + nbyte - 1) / pfsBlockSizeInBytes - offset / pfsBlockSizeInBytes + 1).

Lemma blocksIn_fuel offset nbyte : 0 <= offset -> (blocksIn offset nbyte < loopFuel nbyte)%nat.
Proof.
  intros Ho. unfold blocksIn, loopFuel. change pfsBlockSizeInBytes with 1024. destruct (Z.leb_spec nbyte 0); word_lia.
Qed.

(** One turn: the chunk lies in one block, and the rest touches one block less. *)
Lemma chunk offset nbyte :
  inFile offset nbyte -> 0 < nbyte ->
  let n := actualSize offset nbyte in
  1 <= n <= nbyte /\ (offOf offset + Z.to_nat n <= blockSize)%nat /\ Z.rem offset pfsBlockSizeInBytes = Z.of_nat (offOf offset) /\
  blockAddr (baseOf offset) /\ is_u32 offset /\ inFile (offset + n) (nbyte - n) /\
  blocksIn offset nbyte = S (blocksIn (offset + n) (nbyte - n)) /\
  forall x, offset + n <= x < offset + nbyte -> baseOf x <> baseOf offset.
Proof.
  intros [Ho Hend] Hn n.
  assert (n = Z.min (1024 - offset mod 1024) nbyte) as Hdef.
  { unfold n, actualSize. change pfsBlockSizeInBytes with 1024 in *. rewrite Z.rem_mod_nonneg by lia. apply u32_id. word_lia. }
  rewrite Hdef. clearbody n. clear Hdef. unfold inFile, offOf, baseOf, blockAddr, blocksIn, INT_MAX in *.
  change pfsBlockSizeInBytes with 1024 in *. rewrite Z.rem_mod_nonneg by lia.
  assert (Hr := Z.mod_pos_bound offset 1024 eq_refl). assert (Hq := Z.div_mod offset 1024 ltac:(lia)).
  set (r := offset mod 1024) in *. set (q := offset / 1024) in *. set (k := Z.min (1024 - r) nbyte).
  assert (Hk : 1 <= k <= nbyte /\ k <= 1024 - r) by lia.
  split; [lia|]. split; [lia|]. split; [lia|]. split; [split; [lia|split; [lia|by apply Z.mod_mul]]|]. split; [unfold is_u32; lia|].
  split; [lia|]. split.
  - destruct (Z.leb_spec nbyte 0); [lia|]. destruct (Z.leb_spec (nbyte - k) 0).
    + assert ((offset + nbyte - 1) / 1024 = q) as -> by word_lia. lia.
    + assert (k = 1024 - r) as Hk' by lia. assert ((offset + k) / 1024 = q + 1) as -> by word_lia.
      replace (offset + k + (nbyte - k) - 1) with (offset + nbyte - 1) by lia.
      assert (q + 1 <= (offset + nbyte - 1) / 1024) by word_lia. lia.
  - intros x Hx Heq. assert (k = 1024 - r) as Hk' by lia. word_lia.
Qed.

Lemma copyOut_ok off n buf :
  0 <= n -> (off + Z.to_nat n <= length buf)%nat ->
  copyOut (Z.of_nat off) n buf = Ret (take (Z.to_nat n) (drop off buf)).
Proof.
  intros Hn Hl. unfold copyOut. rewrite (proj2 (Z.leb_le 0 _)), (proj2 (Z.leb_le (_ + _) _)) by lia. by rewrite Nat2Z.id.
Qed.

(** ** The state of an open client *)

Section State.
Context {W : Type} `{!FileServerStub W, !FileServerStubOk W}.
Implicit Types (s : PFSClient) (a : LRU) (w : W) (t : list (string * Z * Z)) (m : string -> Z -> option byte).

Record tableOk t w : Prop := mkTableOk {
  tb_names : NoDup ((fun e => e.1.1) <$> t);
  tb_descriptors : NoDup ((fun e => e.1.2) <$> t);
  tb_served n d wd : (n, d, wd) ∈ t -> 0 < wd <= INT_MAX /\ served w n wd }.

(** Cached blocks belong to open files. *)
Definition blocksOk t a : Prop :=
  forall d ad b, cached a (d, ad) = Some b -> blockAddr ad /\ exists n wd, (n, d, wd) ∈ t.

(** The bytes of [m] are what the client reads from its open files. *)
Definition inPlace m t a w : Prop :=
  forall n d wd x v, (n, d, wd) ∈ t -> 0 <= x -> m n x = Some v ->
    valueAt (cached a (d, baseOf x)) (storedByte w n wd x) (offOf x) v.

(** The open file of a descriptor. *)
Lemma find_entry l f n d wd i :
  NoDup ((fun e => e.1.2) <$> (entry <$> l)) -> l !! i = Some f -> entry f = (n, d, wd) ->
  find_from (fun f => u32 (getDescriptor f) =? d) 0 l = Some i.
Proof.
  intros Hnd Hf He. assert (Hl := Hf). apply take_drop_middle in Hl as <-. rewrite <- (length_take_le l i) at 3
    by (apply lookup_lt_Some in Hf; lia).
  rewrite find_from_middle; [done| |injection He as _ <- _; apply Z.eqb_refl].
  intros f' Hf'. apply Z.eqb_neq. intros Hd. apply list_elem_of_lookup in Hf' as (j & Hj).
  apply lookup_take_Some in Hj as [Hj Hlt].
  assert (j = i); [|lia]. eapply (NoDup_lookup _ j i d Hnd); rewrite !list_lookup_fmap; [rewrite Hj|rewrite Hf]; cbn; [by rewrite Hd|].
  by injection He as _ <- _.
Qed.

(** ** Blocks to and from the servers *)

(** The server the client asks is the server of the layout. *)
Lemma fileServerIndex_spec addr width :
  0 <= addr -> 0 < width <= INT_MAX -> fileServerIndex addr width = Ret (serverOf addr width).
Proof.
  intros Ha Hw. unfold fileServerIndex, serverOf, stripIndex, unitOf. rewrite (u32_id width) by word_lia.
  rewrite (proj2 (Z.eqb_neq _ _)) by lia. by rewrite Z.mul_1_l.
Qed.

Lemma stub_lookup addr width :
  (serverAddress <$> seq 0 (Z.to_nat NUM_FILE_SERVERS)) !! serverOf addr width = Some (serverAddress (serverOf addr width)).
Proof.
  rewrite list_lookup_fmap, lookup_seq_lt by apply serverOf_lt. done.
Qed.

(** No file is lost by the servers. *)
Definition keepsServed (w w' : W) : Prop := (healthy w -> healthy w') /\ forall n wd, served w n wd -> served w' n wd.

#[export] Instance keepsServed_PreOrder : PreOrder keepsServed.
Proof. split; [by split|]. intros w1 w2 w3 [H1 H2] [H3 H4]. split; [auto|]. intros n wd Hs. by apply H4, H2. Qed.

(** What a flush does to the stored bytes: those of the block get the value they
    have in the cache, the others and the clean ones keep theirs. *)
Definition flushed (n : string) (wd ad : Z) (b : CacheBlock) (w w' : W) : Prop :=
  keepsServed w w' /\
  (forall x v, 0 <= x -> baseOf x = ad -> valueAt (Some b) (storedByte w n wd x) (offOf x) v -> storedByte w' n wd x = Some v) /\
  (forall n' wd' x v, 0 <= x -> (n' = n -> baseOf x = ad -> dirty b !! offOf x <> Some true) ->
    storedByte w n' wd' x = Some v -> storedByte w' n' wd' x = Some v).

Lemma flush_ok s w n d wd ad b :
  fileServerStubs s = serverAddress <$> seq 0 (Z.to_nat NUM_FILE_SERVERS) -> tableOk (table s) w ->
  (n, d, wd) ∈ table s -> key b = (d, ad) -> blockAddr ad -> fullBlock b -> clean b = false ->
  exists w', store s b w = Ret w' /\ flushed n wd ad b w w'.
Proof.
  intros Hst Ht Hin Hk Had (Hld & Hldi & _) Hc. destruct (tb_served _ _ Ht _ _ _ Hin) as [Hwd Hsrv].
  apply list_elem_of_fmap in Hin as (f & He & (i & Hi)%list_elem_of_lookup).
  pose proof (find_entry _ f n d wd i (tb_descriptors _ _ Ht) Hi (eq_sym He)) as Hf. injection Hk as Hfd Haddr.
  injection He as Hn Hd Hw. pose proof (blockAddr_range ad Had) as Hr.
  destruct (WriteBlock_ok w n wd ad (data b) (dirty b) Hsrv Had Hld Hldi) as (w' & Hrpc & Hh' & Hs' & Hdirty & Hother).
  exists w'. split.
  - unfold store, flushBlock. rewrite Hc, Hfd, Haddr, Hf. cbn [negb assert_]. rewrite !Ret_bind, deref_Some, Ret_bind, Hi, deref_Some, Ret_bind.
    rewrite <- Hw, fileServerIndex_spec, Ret_bind, Hst, stub_lookup, deref_Some, Ret_bind by (done || apply Hr).
    rewrite <- Hn, i32_id by done. by rewrite Hrpc.
  - split; [done|]. split.
    + intros x v Hx Hb [Hv Hor]. pose proof (base_off x) as Hbx. rewrite Hb in Hbx.
      destruct (decide (dirty b !! offOf x = Some true)) as [Hdi|Hdi].
      * rewrite Hbx at 1. by rewrite Hdirty.
      * destruct Hor as [?|Hv']; [done|]. apply Hother; [done|done|]. intros _ j Hj. by assert (offOf x = j) as <- by lia.
    + intros n' wd' x v Hx Hne Hv. apply Hother; [done|done|]. intros -> j Hj Hdj.
      destruct (base_off_unique ad j x) as [Hb Ho]; [apply Had|rewrite <- Hldi; by eapply lookup_lt_Some|done|].
      apply Hne; [done|done|by rewrite Ho].
Qed.

Lemma getBlock_ok s w i f n d wd ad :
  fileServerStubs s = serverAddress <$> seq 0 (Z.to_nat NUM_FILE_SERVERS) -> tableOk (table s) w ->
  openedFiles s !! i = Some f -> entry f = (n, d, wd) -> blockAddr ad ->
  exists bs, getBlockFromFileServer i ad s w = Ret (bs, w) /\ length bs = blockSize /\
    forall x v, baseOf x = ad -> storedByte w n wd x = Some v -> bs !! offOf x = Some v.
Proof.
  intros Hst Ht Hi He Had. destruct (tb_served _ _ Ht n d wd) as [Hwd Hsrv].
  { apply list_elem_of_fmap. exists f. split; [done|]. by eapply list_elem_of_lookup_2. }
  injection He as Hn Hd Hw. pose proof (blockAddr_range ad Had) as Hr.
  destruct (ReadBlock_ok w n wd ad Hsrv Had) as (bs & Hrpc & Hl & Hbs). exists bs. split; [|split; [done|]].
  - unfold getBlockFromFileServer, fileAt. rewrite Hi, deref_Some, Ret_bind, Hw, fileServerIndex_spec, Ret_bind, Hst by (done || lia).
    rewrite stub_lookup, deref_Some, Ret_bind, Hn, i32_id, Hrpc, Ret_bind by done. cbn [fst snd status_ok assert_]. rewrite Ret_bind.
    rewrite Hl. reflexivity.
  - intros x v Hx Hv. apply Hbs; [apply offOf_lt|]. by rewrite <- Hx, <- base_off.
Qed.

(** ** Steps of the cache *)

Lemma table_unique t w n d wd n' wd' :
  tableOk t w -> (n, d, wd) ∈ t -> (n', d, wd') ∈ t -> n' = n /\ wd' = wd.
Proof.
  intros Ht (i & Hi)%list_elem_of_lookup (j & Hj)%list_elem_of_lookup.
  assert (i = j) as <-; [|split; congruence].
  eapply (NoDup_lookup _ i j d (tb_descriptors _ _ Ht)); rewrite list_lookup_fmap; [by rewrite Hi|by rewrite Hj].
Qed.

Lemma table_name_unique t w n d wd d' wd' :
  tableOk t w -> (n, d, wd) ∈ t -> (n, d', wd') ∈ t -> d' = d /\ wd' = wd.
Proof.
  intros Ht (i & Hi)%list_elem_of_lookup (j & Hj)%list_elem_of_lookup.
  assert (i = j) as <-; [|split; congruence].
  eapply (NoDup_lookup _ i j n (tb_names _ _ Ht)); rewrite list_lookup_fmap; [by rewrite Hi|by rewrite Hj].
Qed.

(** [m] with the bytes [bs] at [off] of the file [n]. *)
Definition updated m (n : string) (off : Z) (bs : bytes) (n' : string) (x : Z) : option byte :=
  if decide (n' = n /\ off <= x < off + Z.of_nat (length bs)) then bs !! Z.to_nat (x - off) else m n' x.

Lemma writtenBlock_lookup o bs b i :
  fullBlock b -> (o + length bs <= blockSize)%nat ->
  data (writtenBlock o bs b) !! i = (if decide (o <= i < o + length bs)%nat then bs !! (i - o)%nat else data b !! i) /\
  dirty (writtenBlock o bs b) !! i = (if decide (o <= i < o + length bs)%nat then Some true else dirty b !! i).
Proof.
  intros (Hld & Hldi & _) Hlen. cbn. split; [apply lookup_patched; lia|].
  replace (o + length bs)%nat with (o + length (replicate (length bs) true))%nat by (by rewrite length_replicate).
  rewrite lookup_patched by (rewrite length_replicate; lia). case_decide as Hi; [|done]. rewrite length_replicate in Hi.
  apply lookup_replicate. split; [done|lia].
Qed.

(** Adding a block as the server has it. *)
Lemma inPlace_add m t a a' w n d wd ad bs :
  tableOk t w -> (n, d, wd) ∈ t -> cached a (d, ad) = None -> inPlace m t a w ->
  (forall k', cached a' k' = if decide (k' = (d, ad)) then Some (mkCacheBlock d ad noDirty true true bs) else cached a k') ->
  (forall x v, baseOf x = ad -> storedByte w n wd x = Some v -> bs !! offOf x = Some v) ->
  inPlace m t a' w.
Proof.
  intros Ht Hin Hn Hh Hc Hbs n' d' wd' x v Hin' Hx Hv. specialize (Hh n' d' wd' x v Hin' Hx Hv). rewrite Hc.
  case_decide as Hk; [|done]. injection Hk as -> Hb. destruct (table_unique _ _ _ _ _ _ _ Ht Hin Hin') as [-> ->].
  rewrite Hb, Hn in Hh. cbn in *. split; [by apply Hbs|by right].
Qed.

(** Writing into a cached block. *)
Lemma inPlace_write m t a a' w n d wd b offset bs :
  tableOk t w -> (n, d, wd) ∈ t -> cached a (d, baseOf offset) = Some b -> fullBlock b -> inPlace m t a w ->
  0 <= offset -> (offOf offset + length bs <= blockSize)%nat ->
  (forall k', cached a' k' = if decide (k' = (d, baseOf offset)) then Some (writtenBlock (offOf offset) bs b) else cached a k') ->
  inPlace (updated m n offset bs) t a' w.
Proof.
  intros Ht Hin Hb Hfull Hh Ho Hlen Hc n' d' wd' x v Hin' Hx Hv. rewrite Hc. unfold updated in Hv.
  pose proof (base_off x) as Hbx. pose proof (base_off offset) as Hbo.
  destruct (decide ((d', baseOf x) = (d, baseOf offset))) as [Hk|Hk].
  - injection Hk as -> Hbase. destruct (table_unique _ _ _ _ _ _ _ Ht Hin Hin') as [-> ->]. unfold valueAt.
    destruct (writtenBlock_lookup (offOf offset) bs b (offOf x) Hfull Hlen) as [-> ->].
    destruct (decide (n = n /\ _)) as [Hr|Hr]; destruct (decide (_ <= _ < _)%nat) as [Hr'|Hr']; [|exfalso; lia|exfalso; apply Hr; split; [done|lia]|].
    + split; [by replace (offOf x - offOf offset)%nat with (Z.to_nat (x - offset)) by lia|]. by left.
    + specialize (Hh n d wd x v Hin' Hx Hv). rewrite Hbase, Hb in Hh. done.
  - apply Hh; [done|done|]. case_decide as Hr; [|done]. exfalso. destruct Hr as [-> Hr].
    destruct (table_name_unique _ _ _ _ _ _ _ Ht Hin Hin') as [-> ->]. apply Hk. f_equal.
    apply (base_off_unique (baseOf offset) (Z.to_nat (x - offset) + offOf offset) x); [apply Z.mod_mul; done|lia|lia].
Qed.

(** Flushing a block that stays, or goes. *)
Lemma inPlace_flush m t a a' w w' n d wd ad b ob :
  tableOk t w -> (n, d, wd) ∈ t -> cached a (d, ad) = Some b -> inPlace m t a w -> flushed n wd ad b w w' ->
  ob = None \/ ob = Some (resetDirty b) ->
  (forall k', cached a' k' = if decide (k' = (d, ad)) then ob else cached a k') ->
  inPlace m t a' w'.
Proof.
  intros Ht Hin Hb Hh (_ & Hhere & Hother) Hob Hc n' d' wd' x v Hin' Hx Hv. rewrite Hc.
  specialize (Hh n' d' wd' x v Hin' Hx Hv). case_decide as Hk.
  - injection Hk as -> Hbase. destruct (table_unique _ _ _ _ _ _ _ Ht Hin Hin') as [-> ->]. rewrite Hbase, Hb in Hh.
    assert (storedByte w' n wd x = Some v) by (by apply Hhere). destruct Hob as [->| ->]; [done|]. split; [apply Hh|by right].
  - assert (Hst : storedByte w n' wd' x = Some v -> storedByte w' n' wd' x = Some v).
    { apply Hother; [done|]. intros -> Hbase. exfalso. apply Hk.
      destruct (table_name_unique _ _ _ _ _ _ _ Ht Hin Hin') as [-> _]. by rewrite Hbase. }
    destruct (cached a (d', baseOf x)); cbn in *; [|auto]. destruct Hh as [? [?|?]]; auto.
Qed.

(** Dropping a block without a dirty byte. *)
Lemma inPlace_drop m t a a' w k b :
  cached a k = Some b -> dirty b = noDirty -> inPlace m t a w ->
  (forall k', cached a' k' = if decide (k' = k) then None else cached a k') -> inPlace m t a' w.
Proof.
  intros Hb Hd Hh Hc n' d' wd' x v Hin' Hx Hv. rewrite Hc. specialize (Hh n' d' wd' x v Hin' Hx Hv).
  case_decide as Hk; [|done]. rewrite Hk, Hb in Hh. destruct Hh as [_ [Hdi|Hst]]; [|done]. exfalso.
  rewrite Hd in Hdi. by apply lookup_replicate in Hdi as [? _].
Qed.

Lemma tableOk_served t w w' : keepsServed w w' -> tableOk t w -> tableOk t w'.
Proof. intros [_ Hs] [H1 H2 H3]. split; [done|done|]. intros n d wd Hin. destruct (H3 n d wd Hin). auto. Qed.

Lemma blocksOk_sub t a a' :
  (forall k b, cached a' k = Some b -> exists b', cached a k = Some b') -> blocksOk t a -> blocksOk t a'.
Proof. intros Hs Hb d ad b Hc. destruct (Hs _ _ Hc) as [b' Hc']. by eapply Hb. Qed.

(** A key is in one of the two lists only. *)
Lemma recent_not_dirty a k b : wfLRU a -> findKey k (recentBlocks a) = Some b -> findKey k (dirtyBlocks a) = None.
Proof.
  intros Hw [Hb Hk]%findKey_Some. destruct (findKey k (dirtyBlocks a)) as [b'|] eqn:E; [|done]. exfalso.
  apply findKey_Some in E as [Hb' Hk']. pose proof (wf_keys _ Hw) as Hnd. unfold cachedBlocks in Hnd.
  rewrite fmap_app in Hnd. apply NoDup_app in Hnd as (_ & Hd & _). apply (Hd k); apply list_elem_of_fmap; [by exists b|by exists b'].
Qed.

(** A dirty byte in the cache. *)
Definition dirtyAt t a (n : string) (x : Z) : Prop :=
  exists d wd b, (n, d, wd) ∈ t /\ cached a (d, baseOf x) = Some b /\ dirty b !! offOf x = Some true.

(** Blocks went from the cache to the servers: only dirty bytes are written there,
    and the cache has no new block and no new dirty byte. *)
Record drained t a w a' w' : Prop := mkDrained {
  dr_served : keepsServed w w';
  dr_stored n wd x v : 0 <= x -> ~ dirtyAt t a n x -> storedByte w n wd x = Some v -> storedByte w' n wd x = Some v;
  dr_cached k : is_Some (cached a' k) -> is_Some (cached a k);
  dr_dirty n x : dirtyAt t a' n x -> dirtyAt t a n x }.

Lemma drained_refl t a w : drained t a w a w.
Proof. by split. Qed.

Lemma drained_trans t a w a1 w1 a2 w2 : drained t a w a1 w1 -> drained t a1 w1 a2 w2 -> drained t a w a2 w2.
Proof. intros [H1 H2 H3 H4] [H5 H6 H7 H8]. split; [by etrans| |by auto|by auto]. intros n wd x v Hx Hnd Hv. apply H6; [done|by intros ?%H4|by apply H2]. Qed.

(** The cache of [a'] is that of [a], but for one block. *)
Lemma dirtyAt_replace t a a' k ob n x :
  (forall k', cached a' k' = if decide (k' = k) then ob else cached a k') ->
  (forall b, ob = Some b -> dirty b = noDirty) -> dirtyAt t a' n x -> dirtyAt t a n x.
Proof.
  intros Hc Hob (d & wd & b & Hin & Hb & Hd). exists d, wd, b. rewrite Hc in Hb. case_decide; [|done]. exfalso.
  rewrite (Hob b Hb) in Hd. by apply lookup_replicate in Hd as [? _].
Qed.

Lemma drained_replace t a w a' w' k ob :
  keepsServed w w' -> (forall k', cached a' k' = if decide (k' = k) then ob else cached a k') -> is_Some (cached a k) ->
  (forall b, ob = Some b -> dirty b = noDirty) ->
  (forall n wd x v, 0 <= x -> ~ dirtyAt t a n x -> storedByte w n wd x = Some v -> storedByte w' n wd x = Some v) -> drained t a w a' w'.
Proof.
  intros Hs Hc Hk Hob Hst. split; [done|done| |by intros n x; apply (dirtyAt_replace t a a' k ob)].
  intros k' Hk'. rewrite Hc in Hk'. by case_decide; subst.
Qed.

(** What a flush writes was dirty. *)
Lemma flushed_dirty t a w w' n d wd ad b n' wd' x v :
  flushed n wd ad b w w' -> (n, d, wd) ∈ t -> cached a (d, ad) = Some b ->
  0 <= x -> ~ dirtyAt t a n' x -> storedByte w n' wd' x = Some v -> storedByte w' n' wd' x = Some v.
Proof.
  intros (_ & _ & Hother) Hin Hb Hx Hnd. apply Hother; [done|]. intros -> Hbase Hdi. apply Hnd. exists d, wd, b. by rewrite Hbase.
Qed.

Lemma specEvict_cached s m a w k :
  fileServerStubs s = serverAddress <$> seq 0 (Z.to_nat NUM_FILE_SERVERS) ->
  wfLRU a -> tableOk (table s) w -> blocksOk (table s) a -> inPlace m (table s) a w ->
  exists a' w', specEvict (H := store s) k a w = Ret (a', w') /\
    (forall k', cached a' k' = if decide (k' = k) then None else cached a k') /\
    tableOk (table s) w' /\ blocksOk (table s) a' /\ inPlace m (table s) a' w' /\
    (freeBlocks a <= freeBlocks a')%nat /\ semaphore a' = semaphore a /\ drained (table s) a w a' w'.
Proof.
  intros Hst Hw Ht Hb Hh. unfold specEvict.
  assert (Hsub : forall a', (forall k', cached a' k' = if decide (k' = k) then None else cached a k') -> blocksOk (table s) a').
  { intros a' Hc. apply (blocksOk_sub _ a); [|done]. intros k' b'. rewrite Hc. case_decide; [done|eauto]. }
  destruct (findKey k (recentBlocks a)) as [b|] eqn:Er; [|destruct (findKey k (dirtyBlocks a)) as [b|] eqn:Ed].
  - assert (Hcb : cached a k = Some b) by (by rewrite cached_unfold, Er).
    eexists _, w. split; [done|]. set (a' := mkLRU _ _ _ _ _).
    assert (Hc : forall k', cached a' k' = if decide (k' = k) then None else cached a k').
    { intros k'. rewrite !cached_unfold. unfold a'. cbn [recentBlocks dirtyBlocks]. rewrite findKey_removeKey_if.
      case_decide as Hk; [|done]. rewrite Hk. by eapply recent_not_dirty. }
    split; [done|]. split; [done|]. split; [by apply Hsub|]. split; [|cbn; split; [lia|split; [done|]]; apply (drained_replace _ a w a' w k None); [reflexivity|done|by eexists|done|done]].
    apply (inPlace_drop m _ a a' w k b); [done| |done|done].
    pose proof (wf_recent _ Hw) as Hwr. rewrite Forall_forall in Hwr. apply Hwr. by apply findKey_Some in Er as [? _].
  - assert (Hcb : cached a k = Some b) by (by rewrite cached_unfold, Er). destruct k as [d ad].
    destruct (Hb d ad b Hcb) as [Had (n & wd & Hin)].
    destruct (cached_wf a _ b Hw Hcb) as [Hfull _]. pose proof (wf_dirty _ Hw) as Hwd. rewrite Forall_forall in Hwd.
    destruct (Hwd b) as [Hclean _]; [by apply findKey_Some in Ed as [? _]|].
    destruct (flush_ok s w n d wd ad b Hst Ht Hin (cached_key _ _ _ Hcb) Had Hfull Hclean) as (w' & Hfl & Hfd).
    eexists _, w'. split; [unfold flush; by rewrite Hfl|]. set (a' := mkLRU _ _ _ _ _).
    assert (Hc : forall k', cached a' k' = if decide (k' = (d, ad)) then None else cached a k').
    { intros k'. rewrite !cached_unfold. unfold a'. cbn [recentBlocks dirtyBlocks]. rewrite findKey_removeKey_if.
      case_decide as Hk; [|done]. by rewrite Hk, Er. }
    split; [done|]. split; [eapply tableOk_served; [apply Hfd|done]|]. split; [by apply Hsub|].
    split; [|cbn; split; [lia|split; [done|]]; apply (drained_replace _ a w a' w' (d, ad) None); [apply Hfd|done|by eexists|done|]].
    2: { intros n' wd' x v. by apply (flushed_dirty _ a w w' n d wd ad b). }
    apply (inPlace_flush m _ a a' w w' n d wd ad b None); auto.
  - exists a, w. split; [done|]. split; [|repeat (split; [done|]); apply drained_refl]. intros k'. case_decide as Hk; [|done].
    by rewrite Hk, cached_unfold, Er, Ed.
Qed.

(** A write makes the bytes of its range dirty. *)
Lemma dirtyAt_write t a a' w n d wd b offset bs n' x :
  tableOk t w -> (n, d, wd) ∈ t -> fullBlock b -> cached a (d, baseOf offset) = Some b -> (offOf offset + length bs <= blockSize)%nat ->
  (forall k', cached a' k' = if decide (k' = (d, baseOf offset)) then Some (writtenBlock (offOf offset) bs b) else cached a k') ->
  dirtyAt t a' n' x -> dirtyAt t a n' x \/ (n' = n /\ offset <= x < offset + Z.of_nat (length bs)).
Proof.
  intros Ht Hin Hfull Hb Hlen Hc (d' & wd' & b' & Hin' & Hb' & Hd). rewrite Hc in Hb'. case_decide as Hk; [|left; by exists d', wd', b'].
  injection Hk as -> Hbase. injection Hb' as <-. destruct (table_unique _ _ _ _ _ _ _ Ht Hin Hin') as [-> _].
  destruct (writtenBlock_lookup (offOf offset) bs b (offOf x) Hfull Hlen) as [_ Hdi]. rewrite Hdi in Hd.
  destruct (decide (_ <= offOf x < _)%nat) as [Hr|Hr]; [right|left; exists d, wd', b; by rewrite Hbase].
  pose proof (base_off x). pose proof (base_off offset). split; [done|lia].
Qed.

(** What a read or a write of a range does to the cache. *)
Record touched t a a' (n : string) (d offset nbyte : Z) (wr : bool) : Prop := mkTouched {
  to_cached k : is_Some (cached a' k) -> is_Some (cached a k) \/ (k.1 = d /\ exists x, offset <= x < offset + nbyte /\ k.2 = baseOf x);
  to_dirty n' x : dirtyAt t a' n' x -> dirtyAt t a n' x \/ (wr = true /\ n' = n /\ offset <= x < offset + nbyte) }.

Lemma touched_refl t a n d offset nbyte wr : touched t a a n d offset nbyte wr.
Proof. split; auto. Qed.

(** One turn of a data loop, and the rest of the range. *)
Lemma touched_step t a a1 a2 n d offset nbyte z wr :
  0 < z <= nbyte -> (forall k', k' <> (d, baseOf offset) -> cached a1 k' = cached a k') ->
  (forall n' x, dirtyAt t a1 n' x -> dirtyAt t a n' x \/ (wr = true /\ n' = n /\ offset <= x < offset + z)) ->
  touched t a1 a2 n d (offset + z) (nbyte - z) wr -> touched t a a2 n d offset nbyte wr.
Proof.
  intros Hz Hc Hd [H1 H2]. split.
  - intros k [Hk|(Hk & x & Hx & Hkx)]%H1; [|right; split; [done|]; exists x; split; [lia|done]].
    destruct (decide (k = (d, baseOf offset))) as [->|Hne]; [right; split; [done|]; exists offset; split; [lia|done]|].
    left. by rewrite <- Hc.
  - intros n' x [Hx|(-> & -> & Hx)]%H2; [|right; repeat (split; [done|]); lia].
    destruct (Hd n' x Hx) as [?|(-> & -> & ?)]; [by left|]. right. repeat (split; [done|]). lia.
Qed.

(** A write in two parts is one write. *)
Lemma updated_split m n offset (k : nat) bs n' x :
  (k <= length bs)%nat ->
  updated (updated m n offset (take k bs)) n (offset + Z.of_nat k) (drop k bs) n' x = updated m n offset bs n' x.
Proof.
  intros Hk. unfold updated. rewrite length_take, length_drop, Nat.min_l by done.
  destruct (decide (n' = n /\ offset <= x < offset + Z.of_nat (length bs))) as [[-> Hr]|Hr].
  - destruct (decide (x < offset + Z.of_nat k)).
    + rewrite decide_False by lia. rewrite decide_True by (split; [done|lia]). rewrite lookup_take_lt by lia. done.
    + rewrite decide_True by (split; [done|lia]). rewrite lookup_drop. f_equal. lia.
  - rewrite !decide_False; [done|intros [-> ?]; apply Hr; split; [done|lia]..].
Qed.

(** [n] more blocks can be added without waiting. *)
Definition budget (n : nat) a : Prop := (2 * n <= semaphore a)%nat /\ (n < freeBlocks a)%nat.

Lemma budget_le n n' a : (n' <= n)%nat -> budget n a -> budget n' a.
Proof. intros Hle [? ?]. split; lia. Qed.

(** All blocks of the range are cached. *)
Definition allCached a (d offset nbyte : Z) : Prop :=
  forall x, offset <= x < offset + nbyte -> is_Some (cached a (d, baseOf x)).

(** After a turn on the block of [offset], what is left of the range. *)
Lemma allCached_step a a' d offset nbyte h :
  inFile offset nbyte -> 0 < nbyte -> (h = true <-> is_Some (cached a (d, baseOf offset))) ->
  (forall k', k' <> (d, baseOf offset) -> cached a' k' = cached a k') ->
  let n := actualSize offset nbyte in
  allCached a d offset nbyte <-> h = true /\ allCached a' d (offset + n) (nbyte - n).
Proof.
  intros Hin Hpos Hh Hca n. destruct (chunk offset nbyte Hin Hpos) as (Hn & Hfit & _ & _ & _ & _ & _ & Hnew). fold n in Hn, Hfit, Hnew.
  assert (Hrest : forall x, offset + n <= x < offset + nbyte -> cached a' (d, baseOf x) = cached a (d, baseOf x)).
  { intros x Hx. apply Hca. intros [= Heq]. by apply (Hnew x). }
  split.
  - intros Hall. split; [apply Hh, Hall; lia|]. intros x Hx. rewrite Hrest by lia. apply Hall. lia.
  - intros [Ht%Hh Hall] x Hx. destruct (decide (x < offset + n)) as [Hlt|Hge].
    + destruct (base_off_unique (baseOf offset) (offOf offset + Z.to_nat (x - offset)) x) as [-> _]; [by apply Z.mod_mul|lia| |done].
      pose proof (base_off offset). lia.
    + rewrite <- Hrest by lia. apply Hall. lia.
Qed.

(** Bytes of the buffer agree with [m] from [offset] on. *)
Definition agrees m (n : string) (offset : Z) (bs : bytes) : Prop :=
  forall j v, (j < length bs)%nat -> m n (offset + Z.of_nat j) = Some v -> bs !! j = Some v.

Lemma agrees_app m n offset bs1 bs2 :
  agrees m n offset bs1 -> agrees m n (offset + Z.of_nat (length bs1)) bs2 -> agrees m n offset (bs1 ++ bs2).
Proof.
  intros H1 H2 j v Hj Hv. rewrite length_app in Hj. destruct (decide (j < length bs1)%nat).
  - rewrite lookup_app_l by done. by apply H1.
  - rewrite lookup_app_r by lia. apply H2; [lia|]. rewrite <- Hv. f_equal. lia.
Qed.

End State.

(** ** The operations of a client *)

Section Runs.
Context {W : Type} `{!FileServerStub W, !FileServerStubOk W} (std_hash : Z -> Z) (raw : nat -> CacheBlock).
Implicit Types (s : PFSClient) (a : LRU) (w : W) (m : string -> Z -> option byte).

Record clientOk m s a w : Prop := mkClientOk {
  ok_stubs : fileServerStubs s = serverAddress <$> seq 0 (Z.to_nat NUM_FILE_SERVERS);
  ok_cache : exists c, getInstance raw s = Ret c /\ represents std_hash c a;
  ok_table : tableOk (table s) w;
  ok_blocks : blocksOk (table s) a;
  ok_holds : inPlace m (table s) a w }.

Lemma represents_wf c a : represents std_hash c a -> wfLRU a.
Proof. by intros (R & D & F & B & _ & _ & _ & _ & _ & _ & ?). Qed.

(** One eviction by a client. *)
Lemma evict_ok m s a w fd ad :
  clientOk m s a w ->
  exists c c' a' w', getInstance raw s = Ret c /\ evictBlock (H := store s) std_hash fd ad c w = Ret (c', w') /\
    clientOk m (setInstance (Some c') s) a' w' /\
    (forall k', cached a' k' = if decide (k' = (u32 fd, ad)) then None else cached a k') /\
    (freeBlocks a <= freeBlocks a')%nat /\ semaphore a' = semaphore a /\ drained (table s) a w a' w'.
Proof.
  intros [Hst (c & Hc & Hrep) Ht Hb Hh].
  destruct (specEvict_cached s m a w (u32 fd, ad) Hst (represents_wf _ _ Hrep) Ht Hb Hh) as (a' & w' & Hr & Hca & Ht' & Hb' & Hh' & Hf & Hs & Hks).
  pose proof (evictBlock_refines (H := store s) std_hash fd ad c a w Hrep) as Hsim. rewrite Hr in Hsim.
  destruct Hsim as (c' & Hc' & Hrep'). exists c, c', a', w'. split; [done|]. split; [done|]. split; [|done].
  split; [done|by exists c'|done|done|done].
Qed.

(** ** The loops over blocks *)

(** Nothing but the cache has changed. *)
Definition sameButCache s s' : Prop := exists c, s' = setInstance c s.

Lemma sameButCache_trans s1 s2 s3 : sameButCache s1 s2 -> sameButCache s2 s3 -> sameButCache s1 s3.
Proof. intros [c1 ->] [c2 ->]. by exists c2. Qed.

Lemma sameButCache_files s s' : sameButCache s s' -> openedFiles s' = openedFiles s.
Proof. by intros [c ->]. Qed.

(** What is left in the cache after blocks were evicted. *)
Record evicted a a' : Prop := mkEvicted {
  ev_sub k b : cached a' k = Some b -> cached a k = Some b;
  ev_free : (freeBlocks a <= freeBlocks a')%nat;
  ev_semaphore : semaphore a' = semaphore a }.

#[local] Instance evicted_PreOrder : PreOrder evicted.
Proof.
  split.
  - intros a. split; auto.
  - intros a1 a2 a3 [H1 H2 H3] [H4 H5 H6]. split; [auto|lia|congruence].
Qed.

Lemma evictRange_ok fuel m s a w i f ad end_ :
  clientOk m s a w -> openedFiles s !! i = Some f ->
  0 <= ad -> ad mod pfsBlockSizeInBytes = 0 -> end_ + pfsBlockSizeInBytes < 4294967296 ->
  (end_ - ad) / pfsBlockSizeInBytes + 1 < Z.of_nat fuel -> (0 < fuel)%nat ->
  exists s' a' w', evictRange std_hash raw fuel i ad end_ s w = Ret (s', w') /\ clientOk m s' a' w' /\
    sameButCache s s' /\ evicted a a' /\ drained (table s) a w a' w' /\
    (forall x, ad <= x <= end_ -> x mod pfsBlockSizeInBytes = 0 -> cached a' (u32 (getDescriptor f), x) = None).
Proof.
  revert s a w ad. induction fuel as [|fuel IH]; intros s a w ad Hok Hi Had Hal Hend Hfuel Hpos; [lia|].
  change pfsBlockSizeInBytes with 1024 in *. cbn [evictRange]. destruct (Z.leb_spec ad end_) as [Hle|Hgt].
  - unfold fileAt. rewrite Hi, deref_Some, Ret_bind.
    destruct (evict_ok m s a w (getDescriptor f) ad Hok) as (c & c' & a1 & w1 & Hc & Hr & Hok1 & Hca & Hf & Hs & Hks).
    rewrite Hc, Ret_bind, Hr, Ret_bind. cbn [fst snd]. change pfsBlockSizeInBytes with 1024. rewrite u32_id by word_lia.
    destruct (IH (setInstance (Some c') s) a1 w1 (ad + 1024)) as (s' & a' & w' & Hr' & Hok' & Hsame & Hev & Hks' & Hgone);
      [done|done|lia|word_lia|done|word_lia|word_lia|].
    exists s', a', w'. split; [done|]. split; [done|]. split; [by eapply sameButCache_trans; [eexists|]|].
    assert (Hev1 : evicted a a1).
    { split; [|done|done]. intros k b. rewrite Hca. by case_decide. }
    split; [by etrans|]. split; [by eapply drained_trans|]. intros x Hx Hxm. destruct (decide (x = ad)) as [->|Hne]; [|apply Hgone; [word_lia|done]].
    destruct (cached a' (u32 (getDescriptor f), ad)) as [b|] eqn:E; [|done]. apply (ev_sub _ _ Hev) in E.
    by rewrite Hca, decide_True in E.
  - exists s, a, w. split; [done|]. split; [done|]. split; [by exists (instance_ s); destruct s|]. split; [done|]. split; [apply drained_refl|]. intros x Hx. lia.
Qed.

Lemma evictBlocks_ok m s a w i f start end_ :
  clientOk m s a w -> openedFiles s !! i = Some f -> is_u32 start -> end_ + pfsBlockSizeInBytes < 4294967296 ->
  exists s' a' w', evictBlocks std_hash raw i start end_ s w = Ret (s', w') /\ clientOk m s' a' w' /\
    sameButCache s s' /\ evicted a a' /\ drained (table s) a w a' w' /\
    (forall x, start <= x <= end_ -> cached a' (u32 (getDescriptor f), baseOf x) = None).
Proof.
  intros Hok Hi Hst Hend. destruct (blockOf_spec start Hst) as (Hb & Hr & Hal). unfold evictBlocks.
  destruct (evictRange_ok (S (S (Z.to_nat ((end_ - blockOf start) / pfsBlockSizeInBytes)))) m s a w i f (blockOf start) end_)
    as (s' & a' & w' & Hr' & Hok' & Hs & He & Hks & Hg); [done|done|lia|done|done|lia|lia|].
  exists s', a', w'. repeat (split; [done|]). intros x Hx. apply Hg; [|unfold baseOf; by apply Z.mod_mul].
  rewrite Hb. unfold baseOf. change pfsBlockSizeInBytes with 1024. word_lia.
Qed.

(** The blocks of all tokens of a vector. *)
Lemma evictTokens_ok m s a w i f ps :
  clientOk m s a w -> openedFiles s !! i = Some f ->
  Forall (fun p => is_u32 (start p) /\ end_ p + pfsBlockSizeInBytes < 4294967296) ps ->
  exists s' a' w', evictTokens std_hash raw i ps s w = Ret (s', w') /\ clientOk m s' a' w' /\
    sameButCache s s' /\ evicted a a' /\ drained (table s) a w a' w' /\
    (forall p x, p ∈ ps -> start p <= x <= end_ p -> cached a' (u32 (getDescriptor f), baseOf x) = None).
Proof.
  unfold evictTokens. intros Hok Hi Hps. revert s a w Hok Hi. induction Hps as [|p ps [Hst Hen] _ IH]; intros s a w Hok Hi; cbn [foldM].
  { exists s, a, w. split; [done|]. split; [done|]. split; [by exists (instance_ s); destruct s|]. split; [done|].
    split; [apply drained_refl|]. by intros p x ?%not_elem_of_nil. }
  destruct (evictBlocks_ok m s a w i f (start p) (end_ p) Hok Hi Hst Hen) as (s1 & a1 & w1 & Hr & Hok1 & [c1 ->] & He1 & Hd1 & Hg1).
  unfold getStart, getEnd. cbn [fst snd]. rewrite Hr, Ret_bind.
  destruct (IH (setInstance c1 s) a1 w1 Hok1 Hi) as (s2 & a2 & w2 & Hr2 & Hok2 & Hs2 & He2 & Hd2 & Hg2).
  exists s2, a2, w2. split; [done|]. split; [done|]. split; [eapply sameButCache_trans; [by eexists|exact Hs2]|]. split; [by etrans|].
  split; [by eapply drained_trans|]. intros q x [->|Hq]%elem_of_cons Hx; [|by eapply Hg2].
  destruct (cached a2 _) as [b|] eqn:E; [|done]. apply (ev_sub _ _ He2) in E. by rewrite Hg1 in E.
Qed.

(** A read of the cache. *)
Lemma cacheRead_ok m s a w fd ad :
  clientOk m s a w ->
  exists c c' a', getInstance raw s = Ret c /\
    readBlock std_hash fd ad c = Ret (data <$> cached a (u32 fd, ad), c') /\
    clientOk m (setInstance (Some c') s) a' w /\ (forall k', cached a' k' = cached a k') /\
    (forall n, budget n a -> budget n a').
Proof.
  intros [Hst (c & Hc & Hrep) Ht Hb Hh]. destruct (specRead_cached (u32 fd, ad) a) as (Hres & Hca & Hf & Hs).
  destruct (readBlock_refines std_hash fd ad c a Hrep) as (c' & Hr & Hrep'). rewrite Hres in Hr.
  exists c, c', (specRead (u32 fd, ad) a).2. split; [done|]. split; [done|]. split; [|split; [done|]].
  - split; [done|by exists c'|done| |].
    + intros d' ad' b. rewrite Hca. apply Hb.
    + intros n' d' wd' x v. rewrite Hca. apply Hh.
  - intros n [? ?]. split; rewrite ?Hf, ?Hs; done.
Qed.

(** A block that is not cached, from its server into the cache. *)
Lemma miss_ok k m s a w i f n d wd ad :
  clientOk m s a w -> openedFiles s !! i = Some f -> entry f = (n, d, wd) -> blockAddr ad ->
  cached a (d, ad) = None -> budget (S k) a ->
  exists bs c c' a', getBlockFromFileServer i ad s w = Ret (bs, w) /\ getInstance raw s = Ret c /\
    addBlock std_hash (getDescriptor f) ad bs c = Ret c' /\ length bs = blockSize /\
    clientOk m (setInstance (Some c') s) a' w /\ budget k a' /\
    (forall k', cached a' k' = if decide (k' = (d, ad)) then Some (mkCacheBlock d ad noDirty true true bs) else cached a k').
Proof.
  intros [Hst (c & Hc & Hrep) Ht Hb Hh] Hi He Had Hn [Hs Hf].
  assert (Hin : (n, d, wd) ∈ table s) by (apply list_elem_of_fmap; exists f; split; [done|by eapply list_elem_of_lookup_2]).
  destruct (getBlock_ok s w i f n d wd ad Hst Ht Hi He Had) as (bs & Hg & Hl & Hbs).
  destruct (specAdd_cached (d, ad) bs a k Hs Hf) as (a' & Ha & Hca & Hs' & Hf').
  assert (Hd : u32 (getDescriptor f) = d) by (by injection He).
  pose proof (addBlock_refines std_hash (getDescriptor f) ad bs c a Hrep (proj2 (proj2 Had)) Hl) as Hadd.
  rewrite Hd in Hadd. specialize (Hadd Hn). rewrite Ha in Hadd. destruct Hadd as (c' & Hc' & Hrep').
  exists bs, c, c', a'. split; [done|]. split; [done|]. split; [done|]. split; [done|]. split; [|done].
  split; [done|by exists c'|done| |].
  - intros d' ad' b. rewrite Hca. case_decide as Hk; [|apply Hb]. injection Hk as -> ->. intros _. split; [done|]. by exists n, wd.
  - by eapply inPlace_add.
Qed.

(** The bytes of a cached block are those of [m]. *)
Lemma inPlace_cached m t a w n d wd b x v :
  inPlace m t a w -> (n, d, wd) ∈ t -> cached a (d, baseOf x) = Some b -> 0 <= x -> m n x = Some v -> data b !! offOf x = Some v.
Proof. intros Hh Hin Hb Hx Hv. specialize (Hh n d wd x v Hin Hx Hv). rewrite Hb in Hh. apply Hh. Qed.

Lemma fetchBlock_ok k m s a w i f n d wd ad :
  clientOk m s a w -> openedFiles s !! i = Some f -> entry f = (n, d, wd) -> blockAddr ad -> budget (S k) a ->
  exists h bs s' a', fetchBlock std_hash raw i (getDescriptor f) ad s w = Ret (h, bs, s', w) /\
    clientOk m s' a' w /\ sameButCache s s' /\ budget k a' /\ length bs = blockSize /\
    (h = true <-> is_Some (cached a (d, ad))) /\ (forall k', k' <> (d, ad) -> cached a' k' = cached a k') /\
    (forall n' x, dirtyAt (table s) a' n' x -> dirtyAt (table s) a n' x) /\
    (forall x v, 0 <= x -> baseOf x = ad -> m n x = Some v -> bs !! offOf x = Some v).
Proof.
  intros Hok Hi He Had Hbud. assert (Hd : u32 (getDescriptor f) = d) by (by injection He).
  assert (Hin : (n, d, wd) ∈ table s) by (apply list_elem_of_fmap; exists f; split; [done|by eapply list_elem_of_lookup_2]).
  destruct (cacheRead_ok m s a w (getDescriptor f) ad Hok) as (c & c' & a1 & Hc & Hr & Hok1 & Hca & Hb1).
  unfold fetchBlock. rewrite Hc, Ret_bind, Hr, Ret_bind, Hd. cbn [fst snd].
  destruct (cached a (d, ad)) as [b|] eqn:Hcb; cbn [fmap option_fmap option_map].
  - exists true, (data b), (setInstance (Some c') s), a1. split; [done|]. split; [done|]. split; [by eexists|].
    split; [eapply budget_le; [|by apply Hb1]; lia|]. destruct Hok as [_ (c0 & _ & Hrep) _ _ Hh].
    split; [apply (cached_wf a _ b (represents_wf _ _ Hrep) Hcb)|]. split; [by split; [eexists|]|].
    split; [intros; apply Hca|]. split; [by intros n' x (d' & wd' & b' & ? & Hb' & ?); exists d', wd', b'; rewrite <- Hca|].
    intros x v Hx Hbx Hv. subst ad. by eapply inPlace_cached.
  - rewrite <- Hca in Hcb.
    destruct (miss_ok k m (setInstance (Some c') s) a1 w i f n d wd ad Hok1 Hi He Had Hcb (Hb1 _ Hbud))
      as (bs & c1 & c2 & a2 & Hg & Hc1 & Hadd & Hl & Hok2 & Hb2 & Hnew).
    rewrite Hg, Ret_bind, Hc1, Ret_bind. cbn [fst snd]. rewrite Hadd, Ret_bind.
    exists false, bs, (setInstance (Some c2) (setInstance (Some c') s)), a2. split; [done|]. split; [done|].
    split; [by eexists|]. split; [done|]. split; [done|]. split; [by split; [|intros [? ?]]|].
    split; [intros k' Hk'; by rewrite Hnew, decide_False|].
    split.
    { intros n' x Hd'. apply (dirtyAt_replace _ a1 a2 _ _ _ _ Hnew) in Hd' as (d' & wd' & b' & ? & Hb' & ?); [|by intros b' [= <-]].
      exists d', wd', b'. by rewrite <- Hca. }
    intros x v Hx Hbx Hv. subst ad. eapply (inPlace_cached m _ a2 w n d wd (mkCacheBlock d (baseOf x) noDirty true true bs) x v (ok_holds _ _ _ _ Hok2) Hin); [|done..].
    by rewrite Hnew, decide_True.
Qed.

(** A write into a cached block. *)
Lemma cacheWrite_ok m s a w f n d wd b offset bs :
  clientOk m s a w -> f ∈ openedFiles s -> entry f = (n, d, wd) -> cached a (d, baseOf offset) = Some b ->
  is_u32 offset -> (offOf offset + length bs <= blockSize)%nat ->
  exists c c' a', getInstance raw s = Ret c /\ Cache.write std_hash (getDescriptor f) offset bs c = Ret (true, c') /\
    clientOk (updated m n offset bs) (setInstance (Some c') s) a' w /\ (forall k, budget k a -> budget k a') /\
    (forall k', k' <> (d, baseOf offset) -> cached a' k' = cached a k') /\
    (forall n' x, dirtyAt (table s) a' n' x -> dirtyAt (table s) a n' x \/ (n' = n /\ offset <= x < offset + Z.of_nat (length bs))).
Proof.
  intros [Hst (c & Hc & Hrep) Ht Hb Hh] Hin He Hcb Ho Hlen. assert (Hd : u32 (getDescriptor f) = d) by (by injection He).
  assert (Hin' : (n, d, wd) ∈ table s) by (apply list_elem_of_fmap; by exists f).
  pose proof (represents_wf _ _ Hrep) as Hw. destruct (cached_wf a _ b Hw Hcb) as [Hfull _].
  destruct (write_refines std_hash (getDescriptor f) offset bs c a Hrep Ho) as (c' & Hc' & Hrep').
  { unfold offOf in Hlen. change pfsBlockSizeInBytes with 1024 in *. word_lia. }
  rewrite Hd in Hc', Hrep'. fold (baseOf offset) (offOf offset) in Hc', Hrep'.
  destruct (specWrite_cached (d, baseOf offset) (offOf offset) bs a b Hcb) as (Hhit & Hca & Hf & Hs). rewrite Hhit in Hc'.
  eexists c, c', _. split; [done|]. split; [done|]. split.
  - split; [done|by exists c'|done| |].
    + intros d' ad' b' Hb'. rewrite Hca in Hb'. case_decide as Hk; [|by eapply Hb]. injection Hk as -> ->. by eapply Hb.
    + apply (inPlace_write m _ a _ w n d wd b); try done. unfold is_u32 in Ho. lia.
  - split; [intros k [? ?]; split; rewrite ?Hf, ?Hs; done|]. split; [intros k' Hk'; by rewrite Hca, decide_False|].
    intros n' x. by eapply dirtyAt_write.
Qed.

(** A write that misses changes nothing. *)
Lemma cacheWrite_miss m s a w fd offset bs :
  clientOk m s a w -> cached a (u32 fd, baseOf offset) = None -> is_u32 offset -> (offOf offset + length bs <= blockSize)%nat ->
  exists c c', getInstance raw s = Ret c /\ Cache.write std_hash fd offset bs c = Ret (false, c') /\
    clientOk m (setInstance (Some c') s) a w.
Proof.
  intros [Hst (c & Hc & Hrep) Ht Hb Hh] Hn Ho Hlen.
  destruct (write_refines std_hash fd offset bs c a Hrep Ho) as (c' & Hc' & Hrep').
  { unfold offOf in Hlen. change pfsBlockSizeInBytes with 1024 in *. word_lia. }
  fold (baseOf offset) (offOf offset) in Hc', Hrep'. rewrite specWrite_missed in Hc', Hrep' by done.
  exists c, c'. split; [done|]. split; [done|]. split; [done|by exists c'|done..].
Qed.

Lemma writeChunk_ok k m s a w i f n d wd offset bs :
  clientOk m s a w -> openedFiles s !! i = Some f -> entry f = (n, d, wd) -> blockAddr (baseOf offset) ->
  is_u32 offset -> (offOf offset + length bs <= blockSize)%nat -> budget (S k) a ->
  exists h s' a', writeChunk std_hash raw i (getDescriptor f) offset bs s w = Ret (h, s', w) /\
    clientOk (updated m n offset bs) s' a' w /\ sameButCache s s' /\ budget k a' /\
    (h = true <-> is_Some (cached a (d, baseOf offset))) /\
    (forall k', k' <> (d, baseOf offset) -> cached a' k' = cached a k') /\
    (forall n' x, dirtyAt (table s) a' n' x -> dirtyAt (table s) a n' x \/ (n' = n /\ offset <= x < offset + Z.of_nat (length bs))).
Proof.
  intros Hok Hi He Had Ho Hlen Hbud. assert (Hd : u32 (getDescriptor f) = d) by (by injection He).
  assert (Hf : f ∈ openedFiles s) by (by eapply list_elem_of_lookup_2).
  unfold writeChunk. rewrite (u32_id offset Ho). rewrite (proj1 (blockOf_spec offset Ho)).
  destruct (cached a (d, baseOf offset)) as [b|] eqn:Hcb.
  - destruct (cacheWrite_ok m s a w f n d wd b offset bs Hok Hf He Hcb Ho Hlen) as (c & c' & a' & Hc & Hw & Hok' & Hb' & Hoth & Hdi).
    rewrite Hc, Ret_bind, Hw, Ret_bind. exists true, (setInstance (Some c') s), a'. split; [done|]. split; [done|].
    split; [by eexists|]. split; [|split; [by split; [eexists|]|by split]]. eapply budget_le; [|by apply Hb']. lia.
  - rewrite <- Hd in Hcb.
    destruct (cacheWrite_miss m s a w (getDescriptor f) offset bs Hok Hcb Ho Hlen) as (c & c' & Hc & Hw & Hok').
    rewrite Hc, Ret_bind, Hw, Ret_bind. rewrite Hd in Hcb.
    destruct (miss_ok k m (setInstance (Some c') s) a w i f n d wd (baseOf offset) Hok' Hi He Had Hcb Hbud)
      as (bs' & c1 & c2 & a2 & Hg & Hc1 & Hadd & Hl & Hok2 & Hb2 & Hnew).
    rewrite Hg, Ret_bind, Hc1, Ret_bind. cbn [fst snd]. rewrite Hadd, Ret_bind.
    destruct (cacheWrite_ok m (setInstance (Some c2) (setInstance (Some c') s)) a2 w f n d wd
      (mkCacheBlock d (baseOf offset) noDirty true true bs') offset bs Hok2 Hf He)
      as (c3 & c4 & a4 & Hc3 & Hw4 & Hok4 & Hb4 & Hoth & Hdi); [by rewrite Hnew, decide_True|done|done|].
    injection Hc3 as <-. rewrite Hw4, Ret_bind. exists false, (setInstance (Some c4) s), a4. split; [done|]. split; [done|].
    split; [by eexists|]. split; [by apply Hb4|]. split; [by split; [|intros [? ?]]|].
    split; [intros k' Hk'; by rewrite Hoth, Hnew, decide_False|]. intros n' x [Hd'|?]%Hdi; [left|by right].
    apply (dirtyAt_replace _ a a2 _ _ _ _ Hnew) in Hd'; [done|by intros b' [= <-]].
Qed.

(** ** The loops over the bytes of a request *)

Lemma readLoop_ok fuel k m s a w i f n d wd nbyte offset hit acc :
  clientOk m s a w -> openedFiles s !! i = Some f -> entry f = (n, d, wd) ->
  inFile offset nbyte -> budget (blocksIn offset nbyte + k) a -> (blocksIn offset nbyte < fuel)%nat ->
  exists h bs s' a', readLoop std_hash raw fuel i (getDescriptor f) nbyte offset hit acc s w = Ret (hit && h, acc ++ bs, s', w) /\
    clientOk m s' a' w /\ sameButCache s s' /\ budget k a' /\ Z.of_nat (length bs) = Z.max 0 nbyte /\ agrees m n offset bs /\
    (h = true <-> allCached a d offset nbyte) /\ touched (table s) a a' n d offset nbyte false.
Proof.
  revert s a nbyte offset hit acc. induction fuel as [|fuel IH]; intros s a nbyte offset hit acc Hok Hi He Hin Hbud Hfuel; [lia|].
  cbn [readLoop]. destruct (Z.ltb_spec 0 nbyte) as [Hpos|Hneg].
  - destruct (chunk offset nbyte Hin Hpos) as (Hn & Hfit & Hrem & Had & Hu & Hin' & Hblocks & _).
    rewrite Hblocks in Hbud, Hfuel. rewrite (proj1 (blockOf_spec offset Hu)).
    destruct (fetchBlock_ok _ m s a w i f n d wd (baseOf offset) Hok Hi He Had Hbud)
      as (h & bs & s1 & a1 & Hr & Hok1 & Hs1 & Hb1 & Hl & Hh & Hca & Hdi & Hbs).
    rewrite Hr, Ret_bind, Hrem. set (z := actualSize offset nbyte) in *.
    rewrite copyOut_ok, Ret_bind by (rewrite ?Hl; lia).
    destruct (IH s1 a1 (nbyte - z) (offset + z) (hit && h) (acc ++ take (Z.to_nat z) (drop (offOf offset) bs)))
      as (h' & bs' & s' & a' & Hr' & Hok' & Hs' & Hb' & Hl' & Hag & Hh' & Hto); [done| |done|done|done|lia|].
    { by rewrite (sameButCache_files _ _ Hs1). }
    assert (Hlc : length (take (Z.to_nat z) (drop (offOf offset) bs)) = Z.to_nat z) by (rewrite length_take, length_drop, Hl; lia).
    exists (h && h'), (take (Z.to_nat z) (drop (offOf offset) bs) ++ bs'), s', a'. rewrite Hr', !app_assoc, andb_assoc.
    split; [done|]. split; [done|]. split; [by eapply sameButCache_trans|]. split; [done|]. split; [rewrite length_app; lia|]. split.
    + apply agrees_app; [|by rewrite Hlc, Z2Nat.id by lia]. intros j v Hj Hv. rewrite Hlc in Hj.
      rewrite lookup_take_lt, lookup_drop by done. pose proof (base_off offset) as Hbo.
      destruct (base_off_unique (baseOf offset) (offOf offset + j) (offset + Z.of_nat j)) as [Hb1' Ho1]; [by apply Z.mod_mul|lia|lia|].
      rewrite <- Ho1. apply Hbs; [destruct Hin; lia|done|done].
    + split; [rewrite andb_true_iff, Hh'; symmetry; by apply (allCached_step a a1)|]. destruct Hs1 as [c1 ->].
      eapply (touched_step _ a a1); [|exact Hca| |exact Hto]; [lia|]. intros n' x Hx. left. by apply Hdi.
  - exists true, [], s, a. rewrite app_nil_r, andb_true_r. split; [done|]. split; [done|].
    split; [by exists (instance_ s); destruct s|]. split; [eapply budget_le; [|done]; lia|]. split; [cbn; lia|]. split; [intros j v Hj; cbn in Hj; lia|].
    split; [split; [|done]; intros _ x Hx; lia|apply touched_refl].
Qed.

Lemma clientOk_sub m m' s a w : (forall n x v, m' n x = Some v -> m n x = Some v) -> clientOk m s a w -> clientOk m' s a w.
Proof. intros Hm [H1 H2 H3 H4 H5]. split; [done..|]. intros n d wd x v Hin Hx Hv. apply H5; auto. Qed.

Lemma writeLoop_ok fuel k m s a w i f n d wd offset bs hit :
  let nbyte := Z.of_nat (length bs) in
  clientOk m s a w -> openedFiles s !! i = Some f -> entry f = (n, d, wd) ->
  inFile offset nbyte -> budget (blocksIn offset nbyte + k) a -> (blocksIn offset nbyte < fuel)%nat ->
  exists h s' a', writeLoop std_hash raw fuel i (getDescriptor f) offset bs hit s w = Ret (hit && h, s', w) /\
    clientOk (updated m n offset bs) s' a' w /\ sameButCache s s' /\ budget k a' /\
    (h = true <-> allCached a d offset nbyte) /\ touched (table s) a a' n d offset nbyte true.
Proof.
  revert m s a offset bs hit. induction fuel as [|fuel IH]; intros m s a offset bs hit nbyte Hok Hi He Hin Hbud Hfuel; [lia|].
  cbn [writeLoop]. fold nbyte. destruct (Z.ltb_spec 0 nbyte) as [Hpos|Hneg].
  - destruct (chunk offset nbyte Hin Hpos) as (Hn & Hfit & _ & Had & Hu & Hin' & Hblocks & _).
    rewrite Hblocks in Hbud, Hfuel. set (z := actualSize offset nbyte) in *.
    assert (Hlt : length (take (Z.to_nat z) bs) = Z.to_nat z) by (rewrite length_take; lia).
    assert (Hld : Z.of_nat (length (drop (Z.to_nat z) bs)) = nbyte - z) by (rewrite length_drop; lia).
    destruct (writeChunk_ok _ m s a w i f n d wd offset (take (Z.to_nat z) bs) Hok Hi He Had Hu ltac:(lia) Hbud)
      as (h & s1 & a1 & Hr & Hok1 & Hs1 & Hb1 & Hh & Hca & Hdi).
    rewrite Hr, Ret_bind. rewrite <- Hld in Hin', Hfuel, Hb1.
    destruct (IH (updated m n offset (take (Z.to_nat z) bs)) s1 a1 (offset + z) (drop (Z.to_nat z) bs) (hit && h))
      as (h' & s' & a' & Hr' & Hok' & Hs' & Hb' & Hh' & Hto); [done| |done|done|done|lia|].
    { by rewrite (sameButCache_files _ _ Hs1). }
    exists (h && h'), s', a'. rewrite Hr', andb_assoc. split; [done|].
    split; [|split; [by eapply sameButCache_trans|split; [done|]]].
    + eapply clientOk_sub; [|exact Hok']. intros n' x v Hv. rewrite <- Hv.
      replace (offset + z) with (offset + Z.of_nat (Z.to_nat z)) by lia. apply updated_split. lia.
    + split; [rewrite andb_true_iff, Hh', Hld; symmetry; by apply (allCached_step a a1)|]. destruct Hs1 as [c1 ->]. rewrite Hld in Hto.
      eapply (touched_step _ a a1); [|exact Hca| |exact Hto]; [lia|]. intros n' x [?|[-> Hx]]%Hdi; [by left|]. right.
      rewrite Hlt in Hx. repeat (split; [done|]). lia.
  - exists true, s, a. rewrite andb_true_r. split; [done|]. destruct bs as [|b bs]; [|cbn in *; lia].
    split; [|split; [by exists (instance_ s); destruct s|split; [eapply budget_le; [|done]; lia|split; [split; [|done]; intros _ x Hx; lia|apply touched_refl]]]].
    eapply clientOk_sub; [|exact Hok]. intros n' x v. unfold updated. by rewrite decide_False by (cbn; lia).
Qed.

End Runs.
