(* ===== verification/ClientFrame.v ===== *)
(** What the calls of a client leave alone.

    The data path of a client reaches the rest of the system only through the stubs
    of the file servers. Whatever those calls keep of the state behind the stubs (a
    preorder [R]) is kept by every loop of the client library and of its cache, and
    of the client itself they change nothing but the cache. These facts hold for
    every run that returns and need no invariant. *)

From Stdlib Require Import String Strings.Byte.
From stdpp Require Import strings.
From S2P Require Import Prelude Config Permission File FileServer MetadataManager ClientFile Cache CacheLists CacheSpec Client ClientSpec.
#[local] Open Scope Z_scope.

(** The calls of the file servers stay within [R]. *)
Class StubsKeep {W : Type} `{!FileServerStub W} (R : W -> W -> Prop) : Prop := {
  keep_order :: PreOrder R;
  ReadBlock_keeps stub name addr w r w' : rpc_ReadBlock stub name addr w = Ret (r, w') -> R w w';
  WriteBlock_keeps stub name addr data dirty w r w' : rpc_WriteBlock stub name addr data dirty w = Ret (r, w') -> R w w' }.

(** Nothing is required of the state. *)
#[export] Instance anything_keeps {W} `{!FileServerStub W} : StubsKeep (fun _ _ => True).
Proof. by split. Qed.

(** ** The cache *)

Section Cache.
Context {W : Type} `{BlockStore W} (std_hash : Z -> Z) (R : W -> W -> Prop) `{!PreOrder R}.
Hypothesis flush_keeps : forall b w w', flush b w = Ret w' -> R w w'.

Lemma evictBlock_keeps fd ad c w c' w' : evictBlock std_hash fd ad c w = Ret (c', w') -> R w w'.
Proof.
  unfold evictBlock. intros Hr. apply bind_Ret in Hr as ([x|] & _ & Hr); [|by injection Hr as _ <-].
  apply bind_Ret in Hr as (c1 & _ & Hr). apply bind_Ret in Hr as (n & _ & Hr). apply bind_Ret in Hr as ([c2 w2] & Hf & Hr).
  inv_ret. subst. destruct (clean (block n)); inv_ret; simplify_eq; [done|]. by eapply flush_keeps.
Qed.

Lemma harvestOne_keeps c w b c' w' : harvestOne c w = Ret (b, c', w') -> R w w'.
Proof.
  unfold harvestOne. intros Hr. apply bind_Ret in Hr as (r & _ & Hr). apply bind_Ret in Hr as ([x c1] & _ & Hr).
  apply bind_Ret in Hr as (c2 & _ & Hr). apply bind_Ret in Hr as (n & _ & Hr). apply bind_Ret in Hr as ([c3 w3] & Hf & Hr).
  inv_ret. subst. destruct (clean (block n)); inv_ret; simplify_eq; [done|]. by eapply flush_keeps.
Qed.

Lemma cacheHarvester_keeps c w c' w' : cacheHarvester c w = Ret (c', w') -> R w w'.
Proof.
  unfold cacheHarvester. intros Hr. apply bind_Ret in Hr as (h & _ & Hr). revert Hr.
  generalize (setSemaphores (freeBlockSemaphore c) h c) as c1. generalize (S (size (nodes c))) as fuel. intros fuel c1.
  generalize (freeBlockCount c1 <? 2020) as go. revert c1 w. induction fuel as [|fuel IH]; intros c1 w go; cbn [harvestLoop]; [done|].
  destruct go; [|by intros [= _ <-]]. intros Hr. apply bind_Ret in Hr as ([[go' c2] w2] & Ho%harvestOne_keeps & Hr%IH). by etrans.
Qed.

Lemma flushOne_keeps c w b c' w' : flushOne c w = Ret (b, c', w') -> R w w'.
Proof.
  unfold flushOne. intros Hr. apply bind_Ret in Hr as ([[x|] c1] & _ & Hr); cbn in Hr; [|by injection Hr as _ _ <-].
  apply bind_Ret in Hr as (n & _ & Hr). apply bind_Ret in Hr as (u & _ & Hr). apply bind_Ret in Hr as (w1 & Hf%flush_keeps & Hr).
  apply bind_Ret in Hr as (c2 & _ & [= _ _ <-]). done.
Qed.

Lemma cacheFlusher_keeps c w c' w' : cacheFlusher c w = Ret (c', w') -> R w w'.
Proof.
  unfold cacheFlusher. generalize (S (size (nodes c))) as fuel. intros fuel. revert c w.
  induction fuel as [|fuel IH]; intros c w; cbn [flusherLoop]; [done|]. intros Hr.
  apply bind_Ret in Hr as ([[go c1] w1] & Hf%flushOne_keeps & Hr). cbn in Hr. destruct go; [apply IH in Hr; by etrans|by injection Hr as _ <-].
Qed.

Lemma destroyCache_keeps c w w' : destroyCache c w = Ret w' -> R w w'.
Proof.
  unfold destroyCache. generalize (S (size (nodes c))) as fuel. intros fuel. revert c w.
  induction fuel as [|fuel IH]; intros c w; cbn [destroyLoop]; [done|]. intros Hr. apply bind_Ret in Hr as ([[x|] c1] & _ & Hr); cbn in Hr.
  - apply bind_Ret in Hr as (n & _ & Hr). apply bind_Ret in Hr as (u & _ & Hr). apply bind_Ret in Hr as (w1 & Hf%flush_keeps & Hr%IH). by etrans.
  - by injection Hr as <-.
Qed.

End Cache.

(** ** The client *)

Section Client.
Context {W : Type} `{!FileServerStub W} (std_hash : Z -> Z) (raw : nat -> CacheBlock) (R : W -> W -> Prop) `{!StubsKeep R}.
Implicit Types (s : PFSClient) (w : W).

(** A run that stays within [R] and changes only the cache of the client. *)
Definition framed s w s' w' : Prop := R w w' /\ sameButCache s s'.

Lemma framed_refl s w : framed s w s w.
Proof. split; [done|]. exists (instance_ s). by destruct s. Qed.

Lemma framed_trans s1 w1 s2 w2 s3 w3 : framed s1 w1 s2 w2 -> framed s2 w2 s3 w3 -> framed s1 w1 s3 w3.
Proof. intros [? ?] [? ?]. split; [by etrans|by eapply sameButCache_trans]. Qed.

Lemma framed_cache s w w' c : R w w' -> framed s w (setInstance c s) w'.
Proof. intros ?. split; [done|]. by exists c. Qed.

Lemma store_keeps s b w w' : store s b w = Ret w' -> R w w'.
Proof.
  unfold store, flushBlock. intros Hr. inv_ret. subst. match goal with v : _ * W |- _ => destruct v end. by eapply WriteBlock_keeps.
Qed.

Lemma getBlock_keeps i ad s w bs w' : getBlockFromFileServer i ad s w = Ret (bs, w') -> R w w'.
Proof.
  unfold getBlockFromFileServer. intros Hr. inv_ret. subst. match goal with v : _ * W |- _ => destruct v as [[? ?] ?] end.
  by eapply ReadBlock_keeps.
Qed.

Lemma fetchBlock_framed i fd ad s w h bs s' w' :
  fetchBlock std_hash raw i fd ad s w = Ret (h, bs, s', w') -> framed s w s' w'.
Proof.
  unfold fetchBlock. intros Hr. apply bind_Ret in Hr as (c & _ & Hr). apply bind_Ret in Hr as ([[d|] c1] & _ & Hr); cbn in Hr.
  - injection Hr as _ _ <- <-. by apply framed_cache.
  - apply bind_Ret in Hr as ([g w1] & Hg%getBlock_keeps & Hr). apply bind_Ret in Hr as (c2 & _ & Hr).
    injection Hr as _ _ <- <-. split; [done|]. by eexists.
Qed.

Lemma readLoop_framed fuel i fd nbyte offset hit acc s w h bs s' w' :
  readLoop std_hash raw fuel i fd nbyte offset hit acc s w = Ret (h, bs, s', w') -> framed s w s' w'.
Proof.
  revert nbyte offset hit acc s w. induction fuel as [|fuel IH]; intros nbyte offset hit acc s w; cbn [readLoop]; [done|].
  destruct (0 <? nbyte); [|intros [= _ _ <- <-]; apply framed_refl]. intros Hr.
  apply bind_Ret in Hr as ([[[h1 d] s1] w1] & Hf%fetchBlock_framed & Hr). apply bind_Ret in Hr as (b1 & _ & Hr%IH). by eapply framed_trans.
Qed.

Lemma writeChunk_framed i fd offset bs s w h s' w' :
  writeChunk std_hash raw i fd offset bs s w = Ret (h, s', w') -> framed s w s' w'.
Proof.
  unfold writeChunk. intros Hr. apply bind_Ret in Hr as (c & _ & Hr). apply bind_Ret in Hr as ([hit c0] & _ & Hr). destruct hit.
  - injection Hr as _ <- <-. by apply framed_cache.
  - apply bind_Ret in Hr as ([g w1] & Hg%getBlock_keeps & Hr). inv_ret. simplify_eq. split; [done|]. by eexists.
Qed.

Lemma writeLoop_framed fuel i fd offset bs hit s w h s' w' :
  writeLoop std_hash raw fuel i fd offset bs hit s w = Ret (h, s', w') -> framed s w s' w'.
Proof.
  revert offset bs hit s w. induction fuel as [|fuel IH]; intros offset bs hit s w; cbn [writeLoop]; [done|].
  destruct (0 <? _); [|intros [= _ <- <-]; apply framed_refl]. intros Hr.
  apply bind_Ret in Hr as ([[h1 s1] w1] & Hf%writeChunk_framed & Hr%IH). by eapply framed_trans.
Qed.

Lemma evictRange_framed fuel i ad en s w s' w' :
  evictRange std_hash raw fuel i ad en s w = Ret (s', w') -> framed s w s' w'.
Proof.
  revert ad s w. induction fuel as [|fuel IH]; intros ad s w; cbn [evictRange]; [done|].
  destruct (ad <=? en); [|intros [= <- <-]; apply framed_refl]. intros Hr.
  apply bind_Ret in Hr as (f & _ & Hr). apply bind_Ret in Hr as (c & _ & Hr). apply bind_Ret in Hr as ([c1 w1] & He & Hr%IH).
  eapply framed_trans; [|exact Hr]. apply framed_cache. exact (evictBlock_keeps (H := store s) std_hash R (store_keeps s) _ _ _ _ _ _ He).
Qed.

Lemma evictBlocks_framed i st en s w s' w' : evictBlocks std_hash raw i st en s w = Ret (s', w') -> framed s w s' w'.
Proof. apply evictRange_framed. Qed.

Lemma evictTokens_framed i ps s w s' w' : evictTokens std_hash raw i ps s w = Ret (s', w') -> framed s w s' w'.
Proof.
  unfold evictTokens. revert s w. induction ps as [|p ps IH]; intros s w; cbn [foldM].
  - intros [= <- <-]. apply framed_refl.
  - intros Hr. apply bind_Ret in Hr as ([s1 w1] & He%evictBlocks_framed & Hr%IH). by eapply framed_trans.
Qed.

(** One turn of a thread of the cache, as a run of its client. *)
Lemma flusher_framed s w c c' w' : cacheFlusher (H := store s) c w = Ret (c', w') -> framed s w (setInstance (Some c') s) w'.
Proof. intros Hr. apply framed_cache. exact (cacheFlusher_keeps (H := store s) R (store_keeps s) _ _ _ _ Hr). Qed.

Lemma harvester_framed s w c c' w' : cacheHarvester (H := store s) c w = Ret (c', w') -> framed s w (setInstance (Some c') s) w'.
Proof. intros Hr. apply framed_cache. exact (cacheHarvester_keeps (H := store s) R (store_keeps s) _ _ _ _ Hr). Qed.

Lemma finalize_framed s w s' w' : finalize s w = Ret (s', w') -> framed s w s' w'.
Proof.
  unfold finalize, removeInstance. intros Hr. apply bind_Ret in Hr as (w1 & Hd & Hr). injection Hr as <- <-. apply framed_cache.
  destruct (instance_ s) as [c|]; [|by injection Hd as <-]. exact (destroyCache_keeps (H := store s) R (store_keeps s) _ _ _ Hd).
Qed.

End Client.

(** ** Tokens *)

Section Tokens.
Context {W : Type} `{!ManagerStub W, !GrpcCodes}.
Implicit Types (s : PFSClient) (w : W).

(** The file with other permissions. *)
Definition withTokens (ps : list Permission) (f : ClientFile) : ClientFile := setBase (setPermissions ps (cf_base f)) f.

(** The ways in which [acquirePermission] returns: without an open file or with a
    refusal of the manager; with tokens the client has; with a grant. *)
Inductive acquires (fd st en : Z) (wr : bool) s w : Z -> PFSClient -> W -> Prop :=
| acquires_unopened : acquires fd st en wr s w ERROR_CLOSE_UNOPENED_FILE s w
| acquires_refused i f reply w' :
    openedFiles s !! i = Some f -> getDescriptor f = fd ->
    rpc_GetPermission (getName (cf_base f)) (u32 st) (u32 en) wr w = Ret (CANCELLED, reply, w') ->
    acquires fd st en wr s w (-1) s w'
| acquires_held i f :
    openedFiles s !! i = Some f -> getDescriptor f = fd ->
    hasPermission (u32 st) (u32 en) wr (permissions (cf_base f)) = true -> acquires fd st en wr s w (Z.of_nat i) s w
| acquires_granted i f reply ps w' :
    openedFiles s !! i = Some f -> getDescriptor f = fd ->
    rpc_GetPermission (getName (cf_base f)) (u32 st) (u32 en) wr w = Ret (OK, reply, w') ->
    addPermission (pr_start reply) (pr_end reply) wr (permissions (cf_base f)) true = Ret ps ->
    acquires fd st en wr s w (Z.of_nat i) (setFileAt i (withTokens ps f) s) w'.

Lemma acquire_inv fd st en wr s w z s' w' :
  acquirePermission fd st en wr s w = Ret (z, s', w') -> acquires fd st en wr s w z s' w'.
Proof.
  unfold acquirePermission. destruct (findDescriptor fd s) as [i|] eqn:Hfind; [|intros [= <- <- <-]; constructor].
  apply find_from_Some in Hfind as (j & f & -> & Hf & Hfd%Z.eqb_eq & _). rewrite Nat.add_0_l. unfold fileAt.
  rewrite Hf, deref_Some, Ret_bind. destruct (hasPermission _ _ _ _) eqn:Hhas; [intros [= <- <- <-]; by eapply acquires_held|].
  intros Hr. apply bind_Ret in Hr as ([[[] reply] w1] & Hrpc & Hr); cbn in Hr.
  - apply bind_Ret in Hr as (ps & Hadd & Hr). injection Hr as <- <- <-. by eapply acquires_granted.
  - injection Hr as <- <- <-. unfold negative. rewrite error_code_CANCELLED. by eapply acquires_refused.
Qed.

End Tokens.
