(* ===== verification/ClientProps.v ===== *)
(** Properties of the client library (client/pfs_client.cpp), from the lemmas of
    ClientSpec.v: what its calls return, where the bytes of open files are, and what
    is flushed before tokens are given up. *)

From Stdlib Require Import String Ascii Strings.Byte.
From stdpp Require Import gmap strings.
From S2P Require Import Prelude Config Permission File Tokens FileServer MetadataManager ClientFile Cache CacheLists CacheSpec CacheProps Client ClientSpec ClientFrame.
#[local] Open Scope Z_scope.

Section Lemmas.
Context {W : Type} `{!FileServerStub W, !FileServerStubOk W, !ManagerStub W, !GrpcCodes}.
Context (std_hash : Z -> Z) (raw : nat -> CacheBlock).
Implicit Types (s : PFSClient) (a : LRU) (w : W) (m : string -> Z -> option byte).

(** ** The vector of open files *)

Lemma findDescriptor_ok s w i f :
  tableOk (table s) w -> openedFiles s !! i = Some f -> findDescriptor (getDescriptor f) s = Some i.
Proof.
  intros Ht Hf. unfold findDescriptor. assert (Hl := Hf). apply take_drop_middle in Hl as <-.
  rewrite find_from_middle; [|intros f' Hf'|apply Z.eqb_refl].
  - rewrite length_take. apply lookup_lt_Some in Hf. f_equal. lia.
  - apply Z.eqb_neq. intros Hd. apply list_elem_of_lookup in Hf' as (j & [Hj Hlt]%lookup_take_Some).
    assert (j = i); [|lia]. eapply (NoDup_lookup _ j i (u32 (getDescriptor f)) (tb_descriptors _ _ Ht)); unfold table;
      rewrite !list_lookup_fmap; [rewrite Hj|rewrite Hf]; cbn; by rewrite ?Hd.
Qed.

Lemma table_setFileAt s i f f' : openedFiles s !! i = Some f -> entry f' = entry f -> table (setFileAt i f' s) = table s.
Proof.
  intros Hf He. unfold table, setFileAt. cbn. rewrite list_fmap_insert, He. apply list_insert_id. by rewrite list_lookup_fmap, Hf.
Qed.

Lemma clientOk_same m s s' a w :
  fileServerStubs s' = fileServerStubs s -> instance_ s' = instance_ s -> table s' = table s ->
  clientOk std_hash raw m s a w -> clientOk std_hash raw m s' a w.
Proof.
  intros H1 H2 H3 [Hst (c & Hc & Hrep) Ht Hb Hh]. split; rewrite ?H1, ?H3; try done.
  exists c. split; [|done]. unfold getInstance in *. by rewrite H2.
Qed.

Lemma clientOk_setFileAt m s i f f' a w :
  openedFiles s !! i = Some f -> entry f' = entry f ->
  clientOk std_hash raw m s a w -> clientOk std_hash raw m (setFileAt i f' s) a w.
Proof. intros Hf He. apply clientOk_same; [done|done|by eapply table_setFileAt]. Qed.

Lemma openedFiles_setFileAt s i f f' : openedFiles s !! i = Some f -> openedFiles (setFileAt i f' s) !! i = Some f'.
Proof. intros Hf. cbn. apply list_lookup_insert_eq. by eapply lookup_lt_Some. Qed.

(** The file after [unlockPermission]. *)
Definition unlockedFile (start end_ : Z) (write : bool) (f : ClientFile) : ClientFile :=
  setBase (setPermissions (unlockPermission (u32 start) (u32 end_) write (permissions (cf_base f))).1 (cf_base f)) f.

Lemma unlockFile_ok m s a w i f start end_ write :
  clientOk std_hash raw m s a w -> openedFiles s !! i = Some f ->
  exists s', unlockFile i start end_ write s = Ret s' /\ clientOk std_hash raw m s' a w /\
    stub_ s' = stub_ s /\ openedFiles s' = <[i := unlockedFile start end_ write f]> (openedFiles s) /\ descriptorCount s' = descriptorCount s.
Proof.
  intros Hok Hf. unfold unlockFile, fileAt. rewrite Hf, deref_Some, Ret_bind. eexists. split; [done|].
  split; [by eapply clientOk_setFileAt|done].
Qed.

(** A client that has the tokens does not ask for them. *)
Lemma acquire_held s w i f start end_ write :
  tableOk (table s) w -> openedFiles s !! i = Some f ->
  hasPermission (u32 start) (u32 end_) write (permissions (cf_base f)) = true ->
  acquirePermission (getDescriptor f) start end_ write s w = Ret (Z.of_nat i, s, w).
Proof.
  intros Ht Hf Hp. unfold acquirePermission. rewrite (findDescriptor_ok s w i f Ht Hf). unfold fileAt.
  rewrite Hf, deref_Some, Ret_bind. by rewrite Hp.
Qed.

(** ** readFile and writeFile after the tokens were acquired *)

Lemma readFile_run k m s s1 a w w1 i f n d wd nbyte offset :
  stub_ s = true -> acquirePermission (getDescriptor f) offset (offset + nbyte) false s w = Ret (Z.of_nat i, s1, w1) ->
  clientOk std_hash raw m s1 a w1 -> openedFiles s1 !! i = Some f -> entry f = (n, d, wd) ->
  0 <= nbyte -> inFile offset nbyte -> budget (blocksIn offset nbyte + k) a ->
  exists bs h s' a', readFile std_hash raw (getDescriptor f) nbyte offset s w = Ret (mkReadResult nbyte bs (Some h), s', w1) /\
    clientOk std_hash raw m s' a' w1 /\ budget k a' /\ stub_ s' = stub_ s1 /\
    openedFiles s' = <[i := unlockedFile offset (offset + nbyte) false f]> (openedFiles s1) /\
    Z.of_nat (length bs) = nbyte /\ agrees m n offset bs /\ (h = true <-> allCached a d offset nbyte) /\
    touched (table s1) a a' n d offset nbyte false /\ descriptorCount s' = descriptorCount s1.
Proof.
  intros Hst Hacq Hok Hf He Hpos Hin Hbud. unfold readFile. rewrite Hst, Hacq. cbn [negb]. rewrite Ret_bind.
  rewrite (proj2 (Z.ltb_ge _ _)), Nat2Z.id by lia.
  destruct (readLoop_ok std_hash raw (loopFuel nbyte) k m s1 a w1 i f n d wd nbyte offset true [])
    as (h & bs & s2 & a2 & Hr & Hok2 & Hs2 & Hb2 & Hl & Hag & Hh & Hto); [done..|apply blocksIn_fuel, Hin|].
  rewrite Hr, Ret_bind. destruct Hs2 as [c2 ->].
  destruct (unlockFile_ok m _ a2 w1 i f offset (offset + nbyte) false Hok2 Hf) as (s3 & Hu & Hok3 & Hst3 & Hf3 & Hcount).
  rewrite Hu, Ret_bind. exists bs, h, s3, a2. repeat (split; [done|]). split; [lia|done].
Qed.

Lemma writeFile_run k m s s1 a w w1 i f n d wd bs offset :
  let nbyte := Z.of_nat (length bs) in
  stub_ s = true -> acquirePermission (getDescriptor f) offset (offset + nbyte) true s w = Ret (Z.of_nat i, s1, w1) ->
  clientOk std_hash raw m s1 a w1 -> openedFiles s1 !! i = Some f -> entry f = (n, d, wd) ->
  inFile offset nbyte -> budget (blocksIn offset nbyte + k) a ->
  exists h s' a', writeFile std_hash raw (getDescriptor f) bs offset s w = Ret (nbyte, Some h, s', w1) /\
    clientOk std_hash raw (updated m n offset bs) s' a' w1 /\ budget k a' /\ stub_ s' = stub_ s1 /\
    openedFiles s' = <[i := unlockedFile offset (offset + nbyte) true (markModified (offset + nbyte) f)]> (openedFiles s1) /\
    (h = true <-> allCached a d offset nbyte) /\ touched (table s1) a a' n d offset nbyte true /\ descriptorCount s' = descriptorCount s1.
Proof.
  intros nbyte Hst Hacq Hok Hf He Hin Hbud. unfold writeFile. fold nbyte. rewrite Hst, Hacq. cbn [negb]. rewrite Ret_bind.
  rewrite (proj2 (Z.ltb_ge _ _)), Nat2Z.id by lia. unfold fileAt at 1. rewrite Hf, deref_Some, Ret_bind.
  set (f1 := markModified (offset + nbyte) f). assert (He1 : entry f1 = (n, d, wd)) by done.
  pose proof (openedFiles_setFileAt s1 i f f1 Hf) as Hf1.
  destruct (writeLoop_ok std_hash raw (loopFuel nbyte) k m (setFileAt i f1 s1) a w1 i f1 n d wd offset bs true)
    as (h & s2 & a2 & Hr & Hok2 & Hs2 & Hb2 & Hh & Hto);
    [by eapply clientOk_setFileAt; [| |exact Hok]; [done|rewrite He1, He]|done|done|done|done|apply blocksIn_fuel, Hin|].
  change (getDescriptor f1) with (getDescriptor f) in Hr. rewrite Hr, Ret_bind. destruct Hs2 as [c2 ->].
  destruct (unlockFile_ok _ _ a2 w1 i f1 offset (offset + nbyte) true Hok2 Hf1) as (s3 & Hu & Hok3 & Hst3 & Hf3 & Hcount).
  rewrite Hu, Ret_bind. exists h, s3, a2. split; [done|]. split; [done|]. split; [done|]. split; [done|].
  split; [|split; [done|split; [by rewrite (table_setFileAt s1 i f f1) in Hto|done]]]. rewrite Hf3. cbn. apply list_insert_insert_eq.
Qed.

(** The file that was replaced. *)
Lemma lookup_opened s s' i f g : openedFiles s !! i = Some f -> openedFiles s' = <[i := g]> (openedFiles s) -> openedFiles s' !! i = Some g.
Proof. intros Hf ->. apply list_lookup_insert_eq. by eapply lookup_lt_Some. Qed.

(** ** Revocation *)

Lemma find_name s w i f n :
  tableOk (table s) w -> openedFiles s !! i = Some f -> getName (cf_base f) = n ->
  find_from (fun f => String.eqb (getName (cf_base f)) n) 0 (openedFiles s) = Some i.
Proof.
  intros Ht Hf Hn. assert (Hl := Hf). apply take_drop_middle in Hl as <-.
  rewrite find_from_middle; [|intros f' Hf'|by apply String.eqb_eq].
  - rewrite length_take. apply lookup_lt_Some in Hf. f_equal. lia.
  - apply String.eqb_neq. intros Hd. apply list_elem_of_lookup in Hf' as (j & [Hj Hlt]%lookup_take_Some).
    assert (j = i); [|lia]. eapply (NoDup_lookup _ j i n (tb_names _ _ Ht)); unfold table;
      rewrite !list_lookup_fmap; [rewrite Hj|rewrite Hf]; cbn; by rewrite ?Hd, ?Hn.
Qed.

(** After an eviction the bytes of the range are on the servers. *)
Lemma evicted_stored m s a w n d wd x v :
  clientOk std_hash raw m s a w -> (n, d, wd) ∈ table s -> cached a (d, baseOf x) = None -> 0 <= x -> m n x = Some v ->
  storedByte w n wd x = Some v.
Proof. intros Hok Hin Hc Hx Hv. pose proof (ok_holds _ _ _ _ _ _ Hok n d wd x v Hin Hx Hv) as Hh. by rewrite Hc in Hh. Qed.

Lemma entry_in_table s i f n d wd : openedFiles s !! i = Some f -> entry f = (n, d, wd) -> (n, d, wd) ∈ table s.
Proof. intros Hf He. apply list_elem_of_fmap. exists f. split; [done|]. by eapply list_elem_of_lookup_2. Qed.

Lemma revoke_run m s a w i f n d wd st en wr sem :
  clientOk std_hash raw m s a w -> openedFiles s !! i = Some f -> entry f = (n, d, wd) ->
  is_u32 st -> is_u32 en -> en + pfsBlockSizeInBytes < 4294967296 ->
  existsb (fun p => isShared p st en && locked p) (permissions (cf_base f)) = false ->
  exists c a' w' ps, let s' := setInstance c (setFileAt i (withTokens ps f) s) in
    revokePermission std_hash raw n st en wr sem s w = Ret (s', w') /\ clientOk std_hash raw m s' a' w' /\
    revokeRange st en (permissions (cf_base f)) = Ret ps /\
    drained (table s) a w a' w' /\ (forall x, st <= x <= en -> cached a' (d, baseOf x) = None).
Proof.
  intros Hok Hf He Hst Hen Hend Hun. assert (Hn : getName (cf_base f) = n) by (by injection He).
  unfold revokePermission. rewrite (find_name s w i f n (ok_table _ _ _ _ _ _ Hok) Hf Hn). unfold fileAt.
  rewrite Hf, deref_Some, Ret_bind, revokePermission_lock, Hun.
  destruct (revokeRange_total st en (permissions (cf_base f))) as [ps Hps]. rewrite Hps, Ret_bind. fold (withTokens ps f).
  destruct (evictBlocks_ok std_hash raw m (setFileAt i (withTokens ps f) s) a w i (withTokens ps f) st en)
    as (s' & a' & w' & Hr & Hok' & [c ->] & _ & Hdr & Hgone);
    [by eapply clientOk_setFileAt|by eapply openedFiles_setFileAt|done|done|].
  exists c, a', w', ps. split; [done|]. split; [done|]. split; [done|]. split; [by rewrite (table_setFileAt s i f (withTokens ps f)) in Hdr|].
  intros x Hx. replace d with (u32 (getDescriptor (withTokens ps f))); [by apply Hgone|]. by injection He.
Qed.

(** The address of the loop is a block of the 32-bit address space, so it is never
    beyond the last one. *)
Lemma evictRange_endless fuel i ad end_ s w r :
  is_u32 ad -> ad mod pfsBlockSizeInBytes = 0 -> 4294967296 - pfsBlockSizeInBytes <= end_ -> evictRange std_hash raw fuel i ad end_ s w <> Ret r.
Proof.
  change pfsBlockSizeInBytes with 1024. revert ad s w. induction fuel as [|fuel IH]; intros ad s w Had Hal Hend; cbn [evictRange]; [done|].
  rewrite (proj2 (Z.leb_le ad end_)) by word_lia. intros Hr. apply bind_Ret in Hr as (f & _ & Hr). apply bind_Ret in Hr as (c & _ & Hr).
  apply bind_Ret in Hr as ([c1 w1] & _ & Hr). revert Hr. change pfsBlockSizeInBytes with 1024. apply IH; [apply u32_range|word_lia|done].
Qed.

(** A revocation that returned did not have to wait. *)
Lemma revoke_unlocked s w i f n st en wr sem r :
  tableOk (table s) w -> openedFiles s !! i = Some f -> getName (cf_base f) = n ->
  revokePermission std_hash raw n st en wr sem s w = Ret r ->
  existsb (fun p => isShared p st en && locked p) (permissions (cf_base f)) = false.
Proof.
  intros Ht Hf Hn. unfold revokePermission. rewrite (find_name s w i f n Ht Hf Hn). unfold fileAt.
  rewrite Hf, deref_Some, Ret_bind, revokePermission_lock. by destruct (existsb _ _).
Qed.

(** ** The threads of the cache *)

(** The least recently used dirty block is written and becomes a clean one. *)
Lemma flushLast_ok s m r l b w fb sm wk :
  let a := mkLRU r (l ++ [b]) fb sm wk in
  let a1 := mkLRU (resetDirty b :: r) l fb sm wk in
  fileServerStubs s = serverAddress <$> seq 0 (Z.to_nat NUM_FILE_SERVERS) ->
  NoDup (key <$> cachedBlocks a) -> clean b = false -> fullBlock b ->
  tableOk (table s) w -> blocksOk (table s) a -> inPlace m (table s) a w ->
  exists w1, store s b w = Ret w1 /\ tableOk (table s) w1 /\ blocksOk (table s) a1 /\ inPlace m (table s) a1 w1 /\
    drained (table s) a w a1 w1.
Proof.
  intros a a1 Hst Hnd Hclean Hfull Ht Hb Hp.
  assert (Hcb : cached a (key b) = Some b).
  { destruct (cached a (key b)) as [b'|] eqn:E.
    - apply findKey_Some in E as [Hin Hk]. f_equal.
      assert (b ∈ cachedBlocks a) as Hin2 by (unfold cachedBlocks, a; cbn; set_solver).
      apply list_elem_of_lookup in Hin as (j1 & Hj1), Hin2 as (j2 & Hj2).
      assert (j1 = j2); [|congruence]. eapply (NoDup_lookup _ j1 j2 (key b) Hnd); rewrite list_lookup_fmap; [rewrite Hj1|rewrite Hj2]; cbn; congruence.
    - exfalso. apply (findKey_None _ _ b E); [|done]. unfold cachedBlocks, a. cbn. set_solver. }
  destruct (key b) as [d ad] eqn:Hk. destruct (Hb d ad b Hcb) as [Had (n & wd & Hin)].
  destruct (flush_ok s w n d wd ad b Hst Ht Hin Hk Had Hfull Hclean) as (w1 & Hfl & Hfd).
  assert (Hca : forall k', cached a1 k' = if decide (k' = (d, ad)) then Some (resetDirty b) else cached a k').
  { intros k'. rewrite !cached_unfold. unfold a1, a. cbn [recentBlocks dirtyBlocks]. rewrite (findKey_cons (d, ad)) by done.
    case_decide as Hd; [done|]. rewrite findKey_app, (findKey_cons (d, ad)) by done. rewrite decide_False by done.
    by destruct (findKey k' r), (findKey k' l). }
  exists w1. split; [done|]. split; [eapply tableOk_served; [apply Hfd|done]|]. split; [|split].
  - intros d' ad' b'. rewrite Hca. case_decide as Hd; [injection Hd as -> ->; by eauto|apply Hb].
  - eapply (inPlace_flush m _ a a1 w w1 n d wd ad b); eauto.
  - apply (drained_replace _ _ _ _ _ (d, ad) (Some (resetDirty b))); [apply Hfd|done|by eexists|by intros b' [= <-]|].
    intros n' wd' x v. by apply (flushed_dirty _ a w w1 n d wd ad b).
Qed.

Lemma specFlush_ok s m l r w fb sm wk :
  let a := mkLRU r (rev l) fb sm wk in
  fileServerStubs s = serverAddress <$> seq 0 (Z.to_nat NUM_FILE_SERVERS) ->
  NoDup (key <$> cachedBlocks a) -> Forall (fun b => clean b = false /\ fullBlock b) l ->
  tableOk (table s) w -> blocksOk (table s) a -> inPlace m (table s) a w ->
  exists r' w', specFlush (H := store s) l r w = Ret (r', w') /\
    let a' := mkLRU r' [] fb sm wk in
    tableOk (table s) w' /\ blocksOk (table s) a' /\ inPlace m (table s) a' w' /\ drained (table s) a w a' w'.
Proof.
  revert r w. induction l as [|b l IH]; intros r w a Hst Hnd Hl Ht Hb Hp.
  { exists r, w. repeat (split; [done|]). apply drained_refl. }
  apply Forall_cons in Hl as [[Hclean Hfull] Hl].
  destruct (flushLast_ok s m r (rev l) b w fb sm wk Hst Hnd Hclean Hfull Ht Hb Hp) as (w1 & Hfl & Ht1 & Hb1 & Hp1 & Hdr).
  destruct (IH (resetDirty b :: r) w1) as (r' & w' & Hr & Ht' & Hb' & Hp' & Hdr'); [done| |done..|].
  - assert (Hperm : key <$> r ++ rev l ++ [b] ≡ₚ key <$> (resetDirty b :: r) ++ rev l).
    { rewrite app_assoc, fmap_app. cbn. by rewrite (Permutation_app_comm _ [key b]). }
    unfold cachedBlocks, a in Hnd. cbn [recentBlocks dirtyBlocks rev] in Hnd. by rewrite Hperm in Hnd.
  - exists r', w'. cbn [specFlush]. unfold flush. rewrite Hfl, Ret_bind. repeat (split; [done|]). by eapply drained_trans.
Qed.

Lemma flusher_run m s a w :
  clientOk std_hash raw m s a w ->
  exists c c' a' w', getInstance raw s = Ret c /\ cacheFlusher (H := store s) c w = Ret (c', w') /\
    clientOk std_hash raw m (setInstance (Some c') s) a' w' /\ dirtyBlocks a' = [] /\
    foldM (store s) (rev (dirtyBlocks a)) w = Ret w' /\ drained (table s) a w a' w'.
Proof.
  intros [Hst (c & Hc & Hrep) Ht Hb Hp]. pose proof (represents_wf std_hash c a Hrep) as Hw.
  destruct a as [r l fb sm wk]. cbn [dirtyBlocks].
  destruct (specFlush_ok s m (rev l) r w fb sm wk) as (r' & w' & Hr & Ht' & Hb' & Hp' & Hdr); rewrite ?rev_involutive in *; try done.
  { apply (wf_keys _ Hw). }
  { apply Forall_rev, (wf_dirty _ Hw). }
  pose proof (cacheFlusher_refines (H := store s) std_hash c _ w Hrep) as Hsim. cbn [recentBlocks dirtyBlocks] in Hsim.
  rewrite Hr in Hsim. destruct Hsim as (c' & Hc' & Hrep').
  exists c, c', (mkLRU r' [] fb sm wk), w'. split; [done|]. split; [done|]. split; [by split; [|by exists c'|..]|]. split; [done|].
  rewrite specFlush_run in Hr. change (foldM flush (rev l) w) with (foldM (store s) (rev l) w) in Hr.
  apply bind_Ret in Hr as (w2 & -> & Hr). by injection Hr as _ ->.
Qed.

(** Harvesting a block is evicting the least recently used one. *)
Lemma harvestOne_evicts s a w :
  wfLRU a -> cachedBlocks a <> [] ->
  exists b, b ∈ cachedBlocks a /\ specHarvestOne (H := store s) a w = specEvict (H := store s) (key b) a w.
Proof.
  intros Hw Hne. destruct a as [r l fb sm wk]. destruct (wf_keys_split _ Hw) as [Hkr Hkd]. unfold specHarvestOne, specEvict.
  cbn [recentBlocks dirtyBlocks cachedBlocks] in *. destruct r as [|b r _] using rev_ind.
  - destruct l as [|b l _] using rev_ind; [done|]. exists b. split; [set_solver|]. cbn [rev]. rewrite rev_app_distr. cbn [rev app].
    rewrite rev_involutive. rewrite removeKey_middle, app_nil_r by done. rewrite findKey_app.
    destruct (findKey (key b) l) as [b'|] eqn:E; [|by rewrite findKey_cons_eq]. exfalso.
    apply findKey_Some in E as [Hin Hk]. rewrite fmap_app in Hkd. apply NoDup_app in Hkd as (_ & Hd & _).
    apply (Hd (key b)); [apply list_elem_of_fmap; by exists b'|cbn; set_solver].
  - exists b. split; [set_solver|]. rewrite rev_app_distr. cbn [rev app]. rewrite rev_involutive, removeKey_middle, app_nil_r by done.
    rewrite findKey_app. destruct (findKey (key b) r) as [b'|] eqn:E; [|by rewrite findKey_cons_eq]. exfalso.
    apply findKey_Some in E as [Hin Hk]. rewrite fmap_app in Hkr. apply NoDup_app in Hkr as (_ & Hd & _).
    apply (Hd (key b)); [apply list_elem_of_fmap; by exists b'|cbn; set_solver].
Qed.

Lemma specHarvestOne_length s a w a' w' :
  specHarvestOne (H := store s) a w = Ret (a', w') -> length (cachedBlocks a) = S (length (cachedBlocks a')).
Proof.
  destruct a as [r l fb sm wk]. unfold specHarvestOne, cachedBlocks. cbn [recentBlocks dirtyBlocks].
  destruct r as [|b r _] using rev_ind; [destruct l as [|b l _] using rev_ind; [done|]|]; rewrite ?rev_app_distr; cbn [rev app].
  - intros Hr. apply bind_Ret in Hr as (w1 & _ & [= <- _]). cbn. rewrite rev_involutive, length_app. cbn. lia.
  - intros [= <- _]. cbn. rewrite rev_involutive, !length_app. cbn. lia.
Qed.

Lemma specHarvestOne_ok s m a w :
  fileServerStubs s = serverAddress <$> seq 0 (Z.to_nat NUM_FILE_SERVERS) ->
  wfLRU a -> cachedBlocks a <> [] -> tableOk (table s) w -> blocksOk (table s) a -> inPlace m (table s) a w ->
  exists a' w' fd ad, specHarvestOne (H := store s) a w = Ret (a', w') /\ specEvict (H := store s) (u32 fd, ad) a w = Ret (a', w') /\
    tableOk (table s) w' /\ blocksOk (table s) a' /\ inPlace m (table s) a' w' /\
    (freeBlocks a <= freeBlocks a')%nat /\ semaphore a' = semaphore a /\ drained (table s) a w a' w'.
Proof.
  intros Hst Hw Hne Ht Hb Hp. destruct (harvestOne_evicts s a w Hw Hne) as (b & Hin & Hev).
  destruct (specEvict_cached s m a w (key b) Hst Hw Ht Hb Hp) as (a1 & w1 & Hr & _ & Ht1 & Hb1 & Hp1 & Hf & Hs & Hdr).
  destruct (cached a (key b)) as [b'|] eqn:Hb'; [|by destruct (findKey_None _ _ b Hb' Hin)].
  destruct (key b) as [d ad]. destruct (Hb _ _ _ Hb') as [_ (n & wd & Hd)].
  apply list_elem_of_fmap in Hd as (f & [= _ -> _] & _). exists a1, w1, (getDescriptor f), ad. by rewrite Hev.
Qed.

Lemma specHarvest_ok k s m c a w :
  fileServerStubs s = serverAddress <$> seq 0 (Z.to_nat NUM_FILE_SERVERS) ->
  represents std_hash c a -> (k <= length (cachedBlocks a))%nat ->
  tableOk (table s) w -> blocksOk (table s) a -> inPlace m (table s) a w ->
  exists a' w', specHarvest (H := store s) k a w = Ret (a', w') /\
    tableOk (table s) w' /\ blocksOk (table s) a' /\ inPlace m (table s) a' w' /\ drained (table s) a w a' w'.
Proof.
  intros Hst. revert c a w. induction k as [|k IH]; intros c a w Hrep Hk Ht Hb Hp.
  { exists a, w. repeat (split; [done|]). apply drained_refl. }
  destruct (specHarvestOne_ok s m a w Hst (represents_wf _ _ _ Hrep)) as (a1 & w1 & fd & ad & Hr & Hev & Ht1 & Hb1 & Hp1 & _ & _ & Hdr);
    [by intros Hn; rewrite Hn in Hk; cbn in Hk; lia|done..|].
  pose proof (specHarvestOne_length s a w a1 w1 Hr) as Hlen.
  pose proof (evictBlock_refines (H := store s) std_hash fd ad c a w Hrep) as Hsim. rewrite Hev in Hsim. destruct Hsim as (c1 & _ & Hrep1).
  destruct (IH c1 a1 w1 Hrep1) as (a' & w' & Hr' & Ht' & Hb' & Hp' & Hdr'); [lia|done..|].
  exists a', w'. cbn [specHarvest]. rewrite Hr, Ret_bind. repeat (split; [done|]). by eapply drained_trans.
Qed.

(** The semaphore of the harvester. *)
Lemma represents_wakeups c r l fb sm wk wk' :
  represents std_hash c (mkLRU r l fb sm wk) ->
  represents std_hash (setSemaphores (freeBlockSemaphore c) wk' c) (mkLRU r l fb sm wk').
Proof.
  intros (R & D & F & B & Hi & HR & HD & HF & Hs & Hh & Hw). exists R, D, F, B. destruct Hi as [[] ? ? ? ?].
  split; [by split; [split|..]|]. repeat (split; [done|]). destruct Hw. by split.
Qed.

Lemma harvester_run m s a w :
  clientOk std_hash raw m s a w -> (2020 <= length (cachedBlocks a) + freeBlocks a)%nat -> (0 < wakeups a)%nat ->
  exists c c' a' w', getInstance raw s = Ret c /\ cacheHarvester (H := store s) c w = Ret (c', w') /\
    clientOk std_hash raw m (setInstance (Some c') s) a' w' /\ drained (table s) a w a' w'.
Proof.
  intros [Hst (c & Hc & Hrep) Ht Hb Hp] Htot Hwk.
  pose proof (cacheHarvester_refines (H := store s) std_hash c a w Hrep Htot) as Hsim.
  destruct a as [r l fb sm wk]. cbn [wakeups freeBlocks recentBlocks dirtyBlocks semaphore] in *.
  destruct wk as [|wk]; [lia|]. cbn [sem_wait] in Hsim. rewrite Ret_bind in Hsim.
  destruct (specHarvest_ok (2020 - fb) s m _ (mkLRU r l fb sm wk) w Hst (represents_wakeups _ _ _ _ _ _ wk Hrep)) as (a' & w' & Hr & Ht' & Hb' & Hp' & Hdr);
    [cbn in *; lia|done|exact Hb|exact Hp|].
  rewrite Hr in Hsim. destruct Hsim as (c' & Hc' & Hrep'). exists c, c', a', w'. split; [done|]. split; [done|].
  split; [by split; [|by exists c'|..]|]. destruct Hdr as [D1 D2 D3 D4]. split; [exact D1|exact D2|exact D3|exact D4].
Qed.

(** ** Other facts for the properties *)

Lemma hasPermission_read st en l : hasPermission st en true l = true -> hasPermission st en false l = true.
Proof.
  rewrite !hasPermission_true. intros (Hl & s & ps & pe & Hs & Hps & Hpe & Hst & Hen & Hc & Hw).
  split; [done|]. exists s, ps, pe. repeat (split; [done|]). done.
Qed.

(** A buffer that agrees with what was written is what was written. *)
Lemma agrees_updated m n offset bs r :
  Z.of_nat (length r) = Z.of_nat (length bs) -> agrees (updated m n offset bs) n offset r -> r = bs.
Proof.
  intros Hl Hag. apply list_eq. intros j. destruct (bs !! j) as [v|] eqn:E.
  - assert (j < length bs)%nat by (by eapply lookup_lt_Some). apply Hag; [lia|]. unfold updated.
    rewrite decide_True by (split; [done|lia]). rewrite <- E. f_equal. lia.
  - apply lookup_ge_None in E. apply lookup_ge_None. lia.
Qed.

(** In a cache without dirty blocks every byte is stored. *)
Lemma clean_stored m s a w n d wd x v :
  clientOk std_hash raw m s a w -> dirtyBlocks a = [] -> (n, d, wd) ∈ table s -> 0 <= x -> m n x = Some v ->
  storedByte w n wd x = Some v.
Proof.
  intros Hok Hd Hin Hx Hv. pose proof (ok_holds _ _ _ _ _ _ Hok n d wd x v Hin Hx Hv) as Hh.
  destruct (cached a (d, baseOf x)) as [b|] eqn:E; [|done]. destruct Hh as [_ [Hdi|?]]; [|done]. exfalso.
  destruct (ok_cache _ _ _ _ _ _ Hok) as (c & _ & Hrep). pose proof (wf_recent _ (represents_wf _ _ _ Hrep)) as Hr.
  apply findKey_Some in E as [Hb _]. unfold cachedBlocks in Hb. rewrite Hd, app_nil_r in Hb. rewrite Forall_forall in Hr.
  destruct (Hr b Hb) as (_ & Hn & _). rewrite Hn in Hdi. by apply lookup_replicate in Hdi as [? _].
Qed.

(** The end of a process: everything is stored and the cache is gone. *)
Definition freshLRU : LRU := mkLRU [] [] blockCount blockCount 0.

Lemma fresh_cached k : cached freshLRU k = None.
Proof. done. Qed.

Lemma finalize_run m s a w :
  clientOk std_hash raw m s a w ->
  exists w', finalize s w = Ret (setInstance None s, w') /\ drained (table s) a w freshLRU w' /\
    clientOk std_hash raw m (setInstance None s) freshLRU w'.
Proof.
  intros Hok. destruct (flusher_run m s a w Hok) as (c & c1 & a1 & w1 & Hc & _ & Hok1 & Hd & Hfold & Hdr).
  destruct (ok_cache _ _ _ _ _ _ Hok) as (c0 & Hc0 & Hrep). rewrite Hc in Hc0. injection Hc0 as <-.
  destruct (newCache_is_empty std_hash raw) as (cn & Hcn & Hrepn). exists w1. split; [|split].
  - pose proof (destroyCache_run (H := store s) std_hash c a w Hrep) as Hd1.
    change (foldM flush (rev (dirtyBlocks a)) w) with (foldM (store s) (rev (dirtyBlocks a)) w) in Hd1. rewrite Hfold in Hd1.
    unfold finalize, removeInstance, getInstance in *. destruct (instance_ s) as [c'|]; [injection Hc as ->; by rewrite Hd1|].
    rewrite Hc in Hcn. injection Hcn as <-. rewrite (destroyCache_run (H := store s) std_hash c _ w Hrepn) in Hd1. cbn in Hd1. by injection Hd1 as <-.
  - destruct Hdr as [D1 D2 _ _]. split; [done|done|by intros k [? ?]|]. by intros n x (d & wd & b & _ & Hb & _).
  - pose proof Hok1 as [H1 _ H3 _ _]. split; [exact H1|exists cn; split; [exact Hcn|exact Hrepn]|exact H3|by intros d ad b|]. intros n d wd x v Hin Hx Hv. rewrite fresh_cached.
    eapply clean_stored; [exact Hok1|exact Hd|exact Hin|exact Hx|exact Hv].
Qed.

End Lemmas.

(** What the manager promises about a grant: the range asked for is in it. *)
Class ManagerStubOk (W : Type) `{!ManagerStub W} : Prop :=
  GetPermission_covers n st en wr (w : W) reply w' :
    0 <= st <= en -> en <= INT_MAX -> rpc_GetPermission n st en wr w = Ret (OK, reply, w') ->
    0 <= pr_start reply <= st /\ en <= pr_end reply <= INT_MAX.

(** ** Properties *)

Section ManagerClaims.
Context {W : Type} `{!ManagerStub W, !GrpcCodes}.
Implicit Types (s : PFSClient) (w : W).

(** When [acquirePermission] returns an index, that file has the descriptor asked
    for and the client holds tokens for every byte of the range in the mode asked
    for: no read or write goes on without its tokens. *)
Lemma acquired_tokens_cover_request `{!ManagerStubOk W} s w s' w' fd st en wr z :
  (forall f, f ∈ openedFiles s -> small (permissions (cf_base f))) ->
  0 <= st <= en -> en <= INT_MAX ->
  acquirePermission fd st en wr s w = Ret (z, s', w') -> 0 <= z ->
  exists f, openedFiles s' !! Z.to_nat z = Some f /\ getDescriptor f = fd /\
    forall v b, requested st en wr v b -> holds (permissions (cf_base f)) v b.
Proof.
  intros Hsmall Hst Hen Hacq Hz. unfold acquirePermission in Hacq. rewrite !u32_id in Hacq by word_lia.
  destruct (findDescriptor fd s) as [i|] eqn:Hfind; [|injection Hacq as <- _ _; by vm_compute in Hz].
  apply find_from_Some in Hfind as (j & f & -> & Hf & Hfd%Z.eqb_eq & _). cbn [Nat.add] in *.
  unfold fileAt in Hacq. rewrite Hf, deref_Some, Ret_bind in Hacq.
  destruct (hasPermission st en wr (permissions (cf_base f))) eqn:Hhas.
  - injection Hacq as <- <- _. exists f. rewrite Nat2Z.id. split; [done|]. split; [done|].
    intros v b. by apply hasPermission_sound.
  - apply bind_Ret in Hacq as ([[[] reply] w1] & Hrpc & Hacq); cbn in Hacq.
    + apply bind_Ret in Hacq as (ps & Hadd & Hacq). injection Hacq as <- <- _.
      destruct (GetPermission_covers _ _ _ _ _ _ _ Hst Hen Hrpc) as [Hs1 Hs2].
      eexists. rewrite Nat2Z.id. split; [by eapply openedFiles_setFileAt|]. split; [done|]. intros v b [Hb Hv]. cbn.
      eapply (addPermission_lower _ _ wr); [| | |exact Hadd|]; [lia|lia| |by split; [lia|]].
      apply Hsmall. by eapply list_elem_of_lookup_2.
    + injection Hacq as <- _ _. unfold negative in Hz. rewrite error_code_CANCELLED in Hz. lia.
Qed.

(** An open that the manager refuses returns 1, which is the descriptor of the
    first file that the same client opens successfully. *)
Lemma openFile_failure_is_a_descriptor s w w1 w2 filename mode reply reply' :
  stub_ s = true -> descriptorCount s = 0 ->
  rpc_OpenFile filename (String mode EmptyString) w = Ret (CANCELLED, reply, w1) ->
  rpc_OpenFile filename (String mode EmptyString) w1 = Ret (OK, reply', w2) ->
  openFile filename mode s w = Ret (1, s, w1) /\
  exists s2, openFile filename mode s w1 = Ret (1, s2, w2) /\ length (openedFiles s2) = S (length (openedFiles s)).
Proof.
  intros Hst Hc H1 H2. unfold openFile. rewrite Hst, H1, H2. cbn [negb]. rewrite !Ret_bind. cbn. rewrite error_code_CANCELLED.
  split; [done|]. rewrite Hc. eexists. split; [done|]. cbn. rewrite length_app. cbn. lia.
Qed.

End ManagerClaims.

Section Claims.
Context {W : Type} `{!FileServerStub W, !FileServerStubOk W, !ManagerStub W, !GrpcCodes}.
Context (std_hash : Z -> Z) (raw : nat -> CacheBlock).
Implicit Types (s : PFSClient) (a : LRU) (w : W) (m : string -> Z -> option byte).

(** C11: a client that has the tokens for a range inside the addressable file, and
    whose cache has room for twice the blocks of the range (its semaphore and its free
    blocks), writes and then reads the range: both calls return, and the read gives back
    the bytes that were written, whichever blocks are cached and however the range lies
    across blocks and servers. *)
Theorem write_then_read m s a w i f n d wd bs offset :
  let nbyte := Z.of_nat (length bs) in
  clientOk std_hash raw m s a w -> stub_ s = true -> openedFiles s !! i = Some f -> entry f = (n, d, wd) ->
  hasPermission offset (offset + nbyte) true (permissions (cf_base f)) = true ->
  inFile offset nbyte -> budget (blocksIn offset nbyte + blocksIn offset nbyte) a ->
  exists h1 s1 h2 s2,
    writeFile std_hash raw (getDescriptor f) bs offset s w = Ret (nbyte, Some h1, s1, w) /\
    readFile std_hash raw (getDescriptor f) nbyte offset s1 w = Ret (mkReadResult nbyte bs (Some h2), s2, w).
Proof.
  intros nbyte Hok Hst Hf He Hp Hin Hbud. assert (is_u32 offset /\ is_u32 (offset + nbyte)) as [Hu1 Hu2].
  { destruct Hin. change pfsBlockSizeInBytes with 1024 in *. split; word_lia. }
  assert (Hacq : acquirePermission (getDescriptor f) offset (offset + nbyte) true s w = Ret (Z.of_nat i, s, w)).
  { apply acquire_held; [apply Hok|done|]. by rewrite !u32_id. }
  destruct (writeFile_run std_hash raw _ m s s a w w i f n d wd bs offset Hst Hacq Hok Hf He Hin Hbud)
    as (h1 & s1 & a1 & Hw & Hok1 & Hb1 & Hst1 & Hf1 & _). fold nbyte in Hw, Hf1.
  apply (lookup_opened s _ _ f) in Hf1; [|done]. set (f1 := unlockedFile _ _ _ _) in Hf1.
  assert (Hacq1 : acquirePermission (getDescriptor f1) offset (offset + nbyte) false s1 w = Ret (Z.of_nat i, s1, w)).
  { apply acquire_held; [apply Hok1|done|]. rewrite !u32_id by done. apply hasPermission_read.
    etrans; [|exact Hp]. apply hasPermission_same_tokens. unfold f1. cbn. rewrite !u32_id by done. apply unlockPermission_tokens. }
  destruct (readFile_run std_hash raw 0 (updated m n offset bs) s1 s1 a1 w w i f1 n d wd nbyte offset) as (r & h2 & s2 & a2 & Hr & _ & _ & _ & _ & Hl & Hag & _);
    [congruence|done|done|done|done|lia|done|by rewrite Nat.add_0_r|].
  change (getDescriptor f1) with (getDescriptor f) in Hr. rewrite (agrees_updated m n offset bs r Hl Hag) in Hr.
  by exists h1, s1, h2, s2.
Qed.

(** Once the tokens are acquired, [readFile] returns the number of bytes asked
    for; every byte of the range that was written before has its value in the
    buffer, [cache_hit] is 1 exactly when all blocks of the range were cached, the
    servers are not changed and no byte is lost. *)
Lemma readFile_returns_bytes m s s1 a w w1 i f n d wd nbyte offset :
  stub_ s = true -> acquirePermission (getDescriptor f) offset (offset + nbyte) false s w = Ret (Z.of_nat i, s1, w1) ->
  clientOk std_hash raw m s1 a w1 -> openedFiles s1 !! i = Some f -> entry f = (n, d, wd) ->
  0 <= nbyte -> inFile offset nbyte -> budget (blocksIn offset nbyte) a ->
  exists bs h s' a', readFile std_hash raw (getDescriptor f) nbyte offset s w = Ret (mkReadResult nbyte bs (Some h), s', w1) /\
    clientOk std_hash raw m s' a' w1 /\ Z.of_nat (length bs) = nbyte /\ agrees m n offset bs /\
    (h = true <-> allCached a d offset nbyte).
Proof.
  intros Hst Hacq Hok Hf He Hpos Hin Hbud.
  destruct (readFile_run std_hash raw 0 m s s1 a w w1 i f n d wd nbyte offset) as (bs & h & s' & a' & Hr & Hok' & _ & _ & _ & Hl & Hag & Hh & _);
    [done..|by rewrite Nat.add_0_r|]. by exists bs, h, s', a'.
Qed.

(** Once the tokens are acquired, [writeFile] returns the number of bytes; the
    file reads as before with the new bytes in place, nothing is sent to the
    servers, the size grows to the end of the range and the file is marked as
    modified. *)
Lemma writeFile_updates_bytes m s s1 a w w1 i f n d wd bs offset :
  let nbyte := Z.of_nat (length bs) in
  stub_ s = true -> acquirePermission (getDescriptor f) offset (offset + nbyte) true s w = Ret (Z.of_nat i, s1, w1) ->
  clientOk std_hash raw m s1 a w1 -> openedFiles s1 !! i = Some f -> entry f = (n, d, wd) ->
  inFile offset nbyte -> budget (blocksIn offset nbyte) a ->
  exists h s' a' f', writeFile std_hash raw (getDescriptor f) bs offset s w = Ret (nbyte, Some h, s', w1) /\
    clientOk std_hash raw (updated m n offset bs) s' a' w1 /\ openedFiles s' !! i = Some f' /\
    hasModified (cf_base f') = true /\ getSize (cf_base f') = Z.max (getSize (cf_base f)) (offset + nbyte) /\
    (h = true <-> allCached a d offset nbyte).
Proof.
  intros nbyte Hst Hacq Hok Hf He Hin Hbud.
  destruct (writeFile_run std_hash raw 0 m s s1 a w w1 i f n d wd bs offset) as (h & s' & a' & Hr & Hok' & _ & _ & Hf' & Hh & _);
    [done..|by rewrite Nat.add_0_r|]. apply (lookup_opened s1 _ _ f) in Hf'; [|done].
  eexists h, s', a', _. split; [done|]. split; [done|]. split; [done|]. split; [done|]. split; [|done].
  cbn. unfold getSize. cbn. pose proof (u32_range (pst_size (cf_base f))) as Hr1. destruct Hin as [? Hend].
  fold nbyte. change pfsBlockSizeInBytes with 1024 in *. rewrite (u32_id (offset + nbyte)) by word_lia.
  set (z := u32 (pst_size (cf_base f))) in *.
  assert (is_u32 (Z.max z (offset + nbyte))) by (clearbody z; word_lia). by rewrite !(u32_id (Z.max _ _)).
Qed.

(** C13: a revocation of a range that ends below the last block, when no token that
    overlaps the range is locked, returns. It takes exactly the bytes of the range out
    of the (sorted) vector of the file and keeps every other byte in its mode; the other
    open files, and the other fields of this one, are as before; no block of the range
    is cached any more, every byte of the range has its value on the servers, and all
    open files read as before. *)
Theorem revoke_flushes_range m s a w i f n d wd st en wr sem :
  clientOk std_hash raw m s a w -> openedFiles s !! i = Some f -> entry f = (n, d, wd) -> wf (permissions (cf_base f)) ->
  is_u32 st -> is_u32 en -> st <= en -> en + pfsBlockSizeInBytes < 4294967296 ->
  existsb (fun p => isShared p st en && locked p) (permissions (cf_base f)) = false ->
  exists s' a' w' ps, revokePermission std_hash raw n st en wr sem s w = Ret (s', w') /\
    openedFiles s' = <[i := withTokens ps f]> (openedFiles s) /\ wf ps /\
    (forall v b, holds ps v b <-> holds (permissions (cf_base f)) v b /\ ~ (st <= b < en)) /\
    (forall x, st <= x <= en -> cached a' (d, baseOf x) = None) /\
    (forall x v, st <= x <= en -> m n x = Some v -> storedByte w' n wd x = Some v) /\
    clientOk std_hash raw m s' a' w'.
Proof.
  intros Hok Hf He Hwf Hst Hen Hle Hend Hun.
  destruct (revoke_run std_hash raw m s a w i f n d wd st en wr sem) as (c & a' & w' & ps & Hr & Hok' & Hps & _ & Hgone); [done..|].
  destruct (revokeRange_exact st en (permissions (cf_base f))) as (ps' & Hps' & Hwf' & Hex); [done..|]. rewrite Hps in Hps'. injection Hps' as <-.
  assert (Hf' := openedFiles_setFileAt s i f (withTokens ps f) Hf).
  eexists _, a', w', ps. split; [done|]. split; [done|]. split; [done|]. split; [done|]. split; [done|]. split; [|done].
  intros x v Hx Hv. eapply evicted_stored; [done| |by apply Hgone|unfold is_u32 in Hst; lia|done]. by eapply (entry_in_table _ i (withTokens ps f)).
Qed.

(** C28: the loop over the blocks of a revoked range ends exactly when the range ends
    below the last block of the address space: then the revocation has enough turns to
    return; otherwise the address wraps around and the loop runs for ever. *)
Theorem eviction_ends_below_last_block m s a w i f st en :
  clientOk std_hash raw m s a w -> openedFiles s !! i = Some f -> is_u32 st -> is_u32 en ->
  (en < 4294967296 - pfsBlockSizeInBytes -> exists r, evictBlocks std_hash raw i st en s w = Ret r) /\
  ((exists fuel r, evictRange std_hash raw fuel i (blockOf st) en s w = Ret r) <-> en < 4294967296 - pfsBlockSizeInBytes).
Proof.
  intros Hok Hf Hst Hen. destruct (blockOf_spec st Hst) as (_ & Hb & Hal). assert (Hends : en < 4294967296 - pfsBlockSizeInBytes ->
    exists r, evictBlocks std_hash raw i st en s w = Ret r).
  { intros Hlt. destruct (evictBlocks_ok std_hash raw m s a w i f st en Hok Hf Hst) as (s' & a' & w' & Hr & _); [lia|by eexists]. }
  split; [done|]. split; [|intros Hlt; by eexists; apply Hends].
  intros (fuel & r & Hr). destruct (Z.lt_ge_cases en (4294967296 - pfsBlockSizeInBytes)) as [|Hge]; [done|]. exfalso.
  eapply evictRange_endless; [|exact Hal|exact Hge|exact Hr]. unfold is_u32 in *. lia.
Qed.

(** The flusher and the harvester do not change what the client reads from its
    open files; after the flusher every byte is stored on the servers. *)
Lemma background_threads_keep_bytes m s a w :
  clientOk std_hash raw m s a w -> (2020 <= length (cachedBlocks a) + freeBlocks a)%nat -> (0 < wakeups a)%nat ->
  exists c, getInstance raw s = Ret c /\
    (exists c' a' w', cacheFlusher (H := store s) c w = Ret (c', w') /\ clientOk std_hash raw m (setInstance (Some c') s) a' w' /\
      forall n d wd x v, (n, d, wd) ∈ table s -> 0 <= x -> m n x = Some v -> storedByte w' n wd x = Some v) /\
    (exists c' a' w', cacheHarvester (H := store s) c w = Ret (c', w') /\ clientOk std_hash raw m (setInstance (Some c') s) a' w').
Proof.
  intros Hok Htot Hwk. destruct (flusher_run std_hash raw m s a w Hok) as (c & c1 & a1 & w1 & Hc & Hr1 & Hok1 & Hd & _).
  destruct (harvester_run std_hash raw m s a w Hok Htot Hwk) as (c0 & c2 & a2 & w2 & Hc0 & Hr2 & Hok2 & _).
  rewrite Hc in Hc0. injection Hc0 as <-. exists c. split; [done|]. split; [|by exists c2, a2, w2].
  exists c1, a1, w1. split; [done|]. split; [done|]. intros n d wd x v Hin Hx Hv. by eapply clean_stored.
Qed.

(** [finalize] returns, and after it every byte that was written to an open file
    is stored on the servers. *)
Lemma finalize_stores_bytes m s a w :
  clientOk std_hash raw m s a w ->
  exists s' w', finalize s w = Ret (s', w') /\ instance_ s' = None /\
    forall n d wd x v, (n, d, wd) ∈ table s -> 0 <= x -> m n x = Some v -> storedByte w' n wd x = Some v.
Proof.
  intros Hok. destruct (finalize_run std_hash raw m s a w Hok) as (w' & Hr & _ & Hok'). exists (setInstance None s), w'. split; [done|].
  split; [done|]. intros n d wd x v Hin Hx Hv. by apply (ok_holds _ _ _ _ _ _ Hok' n d wd x v).
Qed.

(** A read that finds its tokens in the vector does not lock them: a revocation
    that arrives while the call runs is not held back until the call unlocks them,
    and takes the tokens away. *)
Lemma cached_tokens_are_not_protected m s a w i f n d wd st en sem :
  clientOk std_hash raw m s a w -> openedFiles s !! i = Some f -> entry f = (n, d, wd) -> bounded (permissions (cf_base f)) ->
  0 <= st < en -> en <= INT_MAX ->
  hasPermission st en false (permissions (cf_base f)) = true -> Forall (fun p => locked p = false) (permissions (cf_base f)) ->
  exists s1 s' w' f', acquirePermission (getDescriptor f) st en false s w = Ret (Z.of_nat i, s1, w) /\
    revokePermission std_hash raw n st en true sem s1 w = Ret (s', w') /\
    openedFiles s' !! i = Some f' /\ hasPermission st en false (permissions (cf_base f')) = false.
Proof.
  intros Hok Hf He Hbd Hst Hen Hp Hun. exists s. assert (is_u32 st /\ is_u32 en) as [Hu1 Hu2] by (split; word_lia).
  destruct (revoke_run std_hash raw m s a w i f n d wd st en true sem) as (c & a' & w' & ps & Hr & _ & Hps & _); [done..|change pfsBlockSizeInBytes with 1024; word_lia| |].
  { apply existsb_false. intros p Hin. rewrite Forall_forall in Hun. by rewrite (Hun p Hin), andb_false_r. }
  eexists _, w', (withTokens ps f). split; [apply acquire_held; [apply Hok|done|by rewrite !u32_id]|]. split; [done|].
  split; [exact (openedFiles_setFileAt s i f (withTokens ps f) Hf)|]. cbn.
  destruct (hasPermission st en false ps) eqn:Hp'; [|done]. exfalso.
  destruct (revokeRange_upper st en _ _ false st Hu1 Hu2 Hbd Hps) as [_ Hno]; [|lia].
  apply (hasPermission_sound st en false _ false st Hp'). by split; [lia|].
Qed.

(** What [acquirePermission] does not touch. *)
Lemma acquire_keeps fd st en wr s w i s1 w1 :
  acquirePermission fd st en wr s w = Ret (Z.of_nat i, s1, w1) ->
  instance_ s1 = instance_ s /\ fileServerStubs s1 = fileServerStubs s /\ is_Some (openedFiles s1 !! i).
Proof.
  intros Ha%acquire_inv. remember (Z.of_nat i) as z eqn:Hz. destruct Ha as [|j f reply w' _ _ _|j f Hf _ _|j f reply ps w' Hf _ _ _].
  - exfalso. change ERROR_CLOSE_UNOPENED_FILE with (-3) in Hz. lia.
  - lia.
  - apply Nat2Z.inj in Hz as ->. split; [done|]. split; [done|]. by eexists.
  - apply Nat2Z.inj in Hz as ->. split; [done|]. split; [done|]. eexists. by eapply (openedFiles_setFileAt s i f).
Qed.

(** C33: a block that is cached is never refreshed: when a read lies inside one block
    and the cache finds the block, the read returns the bytes that were cached, as a
    cache hit, whatever [acquirePermission] did before (also when the manager granted
    the tokens in this call and other clients flushed newer bytes for it) and whatever
    the servers hold afterwards. *)
Theorem cached_block_is_not_refreshed fd nbyte offset s w c cacheData c' i s1 w1 :
  stub_ s = true -> is_u32 offset -> 0 < nbyte -> offset mod pfsBlockSizeInBytes + nbyte <= pfsBlockSizeInBytes ->
  getInstance raw s = Ret c -> readBlock std_hash fd (blockOf offset) c = Ret (Some cacheData, c') -> length cacheData = blockSize ->
  acquirePermission fd offset (offset + nbyte) false s w = Ret (Z.of_nat i, s1, w1) ->
  exists s', readFile std_hash raw fd nbyte offset s w =
    Ret (mkReadResult nbyte (take (Z.to_nat nbyte) (drop (Z.to_nat (offset mod pfsBlockSizeInBytes)) cacheData)) (Some true), s', w1).
Proof.
  intros Hst Hu Hpos Hin Hc Hrb Hlen Hacq. destruct (acquire_keeps _ _ _ _ _ _ _ _ _ Hacq) as (Hi & _ & f & Hf).
  assert (Hc1 : getInstance raw s1 = Ret c) by (unfold getInstance in *; by rewrite Hi).
  assert (Hrem : Z.rem offset pfsBlockSizeInBytes = offset mod pfsBlockSizeInBytes) by (apply Z.rem_mod_nonneg; change pfsBlockSizeInBytes with 1024; word_lia).
  assert (Hn : actualSize offset nbyte = nbyte).
  { unfold actualSize. rewrite Hrem, Z.min_r by lia. change pfsBlockSizeInBytes with 1024 in *. pose proof (Z.mod_pos_bound offset 1024). apply u32_id. word_lia. }
  unfold readFile. rewrite Hst, Hacq, Ret_bind. cbn [negb]. rewrite (proj2 (Z.ltb_ge _ _)), Nat2Z.id by lia.
  unfold loopFuel. cbn [readLoop]. rewrite (proj2 (Z.ltb_lt _ _)) by lia. unfold fetchBlock. rewrite Hc1, Ret_bind, Hrb, !Ret_bind, Hn, Hrem.
  cbn [fst snd mbind outcome_bind]. unfold copyOut. change blockSize with (Z.to_nat pfsBlockSizeInBytes) in Hlen. pose proof (Z.mod_pos_bound offset pfsBlockSizeInBytes eq_refl).
  rewrite Hlen, Z2Nat.id by (change pfsBlockSizeInBytes with 1024; lia).
  rewrite (proj2 (Z.leb_le 0 (offset mod pfsBlockSizeInBytes))), (proj2 (Z.leb_le _ pfsBlockSizeInBytes)) by lia. cbn [andb mbind outcome_bind].
  rewrite Z.sub_diag. cbn [Z.ltb Z.compare]. rewrite Ret_bind. unfold unlockFile, fileAt. cbn [openedFiles setInstance].
  rewrite Hf, deref_Some, !Ret_bind. by eexists.
Qed.


(** [closeFile] of the third or a later open file closes the wrong one: the index
    is kept in a [bool], so on success the second file of the vector is removed and
    the file that was to be closed, and that the manager was told about, stays open. *)
Lemma closeFile_closes_second_file s w filedes i s' w' :
  findDescriptor filedes s = Some i -> (2 <= i)%nat -> stub_ s = true ->
  closeFile std_hash raw filedes s w = Ret (0, s', w') ->
  openedFiles s' = take 1 (openedFiles s) ++ drop 2 (openedFiles s) /\
  exists f, f ∈ openedFiles s' /\ getDescriptor f = filedes.
Proof.
  intros Hfind Hi Hst. unfold closeFile. rewrite Hst, Hfind. cbn [negb]. intros Hr.
  apply bind_Ret in Hr as (nm & _ & Hr). destruct i as [|i]; [lia|]. cbn [boolFoundAt] in Hr.
  apply bind_Ret in Hr as (f1 & _ & Hr). apply bind_Ret in Hr as ([s1 w1] & Hev & Hr).
  apply bind_Ret in Hr as ([[[] rep] w2] & _ & Hr); cbn in Hr.
  - injection Hr as <- _. apply (evictTokens_framed std_hash raw (fun _ _ => True)) in Hev as [_ [c ->]].
    assert (Hof : openedFiles (setOpenedFiles (erase_range 1 1 (openedFiles (setInstance c s))) (setInstance c s)) =
      take 1 (openedFiles s) ++ drop 2 (openedFiles s)) by done.
    split; [done|]. apply find_from_Some in Hfind as (j & f & Hj & Hf & Hfd%Z.eqb_eq & _). cbn in Hj. subst j.
    exists f. split; [|done]. rewrite Hof. apply elem_of_app. right. apply list_elem_of_lookup. exists (i - 1)%nat.
    rewrite lookup_drop. rewrite <- Hf. f_equal. lia.
  - injection Hr as Hneg _ _. unfold negative in Hneg. by rewrite error_code_CANCELLED in Hneg.
Qed.

End Claims.

(** ** A concrete installation *)

#[local] Instance exampleCodes : GrpcCodes := {|
  error_code st := match st with OK => 0 | CANCELLED => 1 end;
  error_code_OK := eq_refl;
  error_code_CANCELLED := eq_refl |}.

Definition zeroByte (i : nat) : byte := x00.

#[local] Instance exampleStub : FileServerStub (list FileServer) := serversStub zeroByte.
#[local] Instance exampleStubOk : FileServerStubOk (list FileServer) := serversStubOk zeroByte.

(** A manager that grants what is asked for and lets every file be closed. *)
#[local] Instance exampleManagerStub : ManagerStub (list FileServer) := {|
  rpc_ClientStart _ w := Ret (OK, emptyStatusReply, w);
  rpc_CreateFile _ _ w := Ret (CANCELLED, emptyStatusReply, w);
  rpc_OpenFile _ _ w := Ret (CANCELLED, emptyFileStatReply, w);
  rpc_GetPermission _ st en _ w := Ret (OK, mkPermissionReply 0 st en, w);
  rpc_CloseFile _ _ _ w := Ret (OK, emptyStatusReply, w);
  rpc_DeleteFile _ w := Ret (CANCELLED, emptyStatusReply, w);
  rpc_GetFileDesc _ w := Ret (CANCELLED, emptyFileStatReply, w) |}.

#[local] Instance exampleManagerStubOk : ManagerStubOk (list FileServer).
Proof. intros n st en wr w reply w' Hst Hen [= <- <-]. cbn. lia. Qed.

(** A client with the file [f], on three stripes, open, and a token for its first
    four blocks. *)
Definition exampleFileOf (name : string) (fd : Z) (ps : list Permission) : ClientFile :=
  mkClientFile (mkFile name 0 0 0 3 ps false) fd.

Definition exampleClientOf (files : list ClientFile) (c : option Cache) : PFSClient :=
  mkPFSClient true (serverAddress <$> seq 0 (Z.to_nat NUM_FILE_SERVERS)) files 1 c.

Definition openF : ClientFile := exampleFileOf "f" 1 [newPermission 0 4096 true].

Definition noBytes (n : string) (x : Z) : option byte := None.

Lemma noBytes_inPlace t a (ws : list FileServer) : inPlace noBytes t a ws.
Proof. by intros n d wd x v Hin Hx. Qed.

Lemma example_servers : exists ws : list FileServer, served ws "f" 3.
Proof.
  destruct (createStripes_placed "f" 3 ltac:(word_lia) freshServers (freshServers_placed _ _)) as (ws & _ & Hp).
  exists ws. apply placed_served; [word_lia|done].
Qed.

Lemma example_ok_of ps (ws : list FileServer) : served ws "f" 3 ->
  clientOk ids rawBlock noBytes (exampleClientOf [exampleFileOf "f" 1 ps] None) (mkLRU [] [] blockCount blockCount 0) ws.
Proof.
  intros Hs. split; [done|exact fresh_represents| |by intros d ad b|apply noBytes_inPlace].
  split; [apply NoDup_singleton|apply NoDup_singleton|]. intros n d wd Hin%list_elem_of_singleton.
  injection Hin as -> -> ->. split; [word_lia|done].
Qed.

Lemma example_ok (ws : list FileServer) : served ws "f" 3 ->
  clientOk ids rawBlock noBytes (exampleClientOf [openF] None) (mkLRU [] [] blockCount blockCount 0) ws.
Proof. apply example_ok_of. Qed.

Lemma blockCount_budget n : (2 * n < blockCount)%nat -> budget n (mkLRU [] [] blockCount blockCount 0).
Proof. intros Hn. split; cbn [semaphore freeBlocks]; lia. Qed.

Lemma write_then_read_witness : exists (ws : list FileServer) h1 s1 h2 s2,
  writeFile ids rawBlock 1 [x41; x42] 1023 (exampleClientOf [openF] None) ws = Ret (2, Some h1, s1, ws) /\
  readFile ids rawBlock 1 2 1023 s1 ws = Ret (mkReadResult 2 [x41; x42] (Some h2), s2, ws).
Proof.
  destruct example_servers as [ws Hs]. exists ws.
  apply (write_then_read ids rawBlock noBytes (exampleClientOf [openF] None) _ ws 0 openF "f" 1 3 [x41; x42] 1023 (example_ok ws Hs));
    [reflexivity..|split; by vm_compute|apply blockCount_budget, Nat.ltb_lt; vm_compute; reflexivity].
Defined.

(** The same client after the bytes [0x41 0x42] were written at address 5. *)
Definition writtenBytes : string -> Z -> option byte := updated noBytes "f" 5 [x41; x42].

Definition writtenF : ClientFile := unlockedFile 5 7 true (markModified 7 openF).

Lemma example_written : exists (ws : list FileServer) s a,
  clientOk ids rawBlock writtenBytes s a ws /\ stub_ s = true /\ openedFiles s !! 0%nat = Some writtenF /\ budget 5 a.
Proof.
  destruct example_servers as [ws Hs]. pose proof (example_ok ws Hs) as Hok.
  destruct (writeFile_run ids rawBlock 5 noBytes (exampleClientOf [openF] None) (exampleClientOf [openF] None)
    (mkLRU [] [] blockCount blockCount 0) ws ws 0 openF "f" 1 3 [x41; x42] 5)
    as (h & s' & a' & _ & Hok' & Hb & Hst & Hf & _);
    [done|reflexivity|done|done|done|split; by vm_compute|apply blockCount_budget, Nat.ltb_lt; vm_compute; reflexivity|].
  exists ws, s', a'. split; [exact Hok'|]. split; [exact Hst|]. split; [by apply (lookup_opened (exampleClientOf [openF] None) s' 0 openF)|exact Hb].
Qed.

Lemma revoke_flushes_range_witness : exists (ws : list FileServer) s s' ws' ps,
  revokePermission ids rawBlock "f" 0 100 true 0 s ws = Ret (s', ws') /\ storedByte ws' "f" 3 6 = Some x42 /\
  openedFiles s' = <[0%nat := withTokens ps writtenF]> (openedFiles s) /\ holds ps true 100.
Proof.
  destruct example_written as (ws & s & a & Hok & _ & Hf & _).
  destruct (revoke_flushes_range ids rawBlock writtenBytes s a ws 0 writtenF "f" 1 3 0 100 true 0 Hok Hf eq_refl)
    as (s' & a' & ws' & ps & Hr & Hof & _ & Hh & _ & Hst & _);
    [split; [repeat constructor; by vm_compute|by vm_compute]|word_lia|word_lia|lia|by vm_compute|reflexivity|].
  exists ws, s, s', ws', ps. split; [exact Hr|]. split; [apply (Hst 6 x42); [lia|reflexivity]|]. split; [exact Hof|].
  apply Hh. split; [|lia]. exists (mkPermission 0 4096 true false false []). split; [by left|]. split; [cbn; lia|done].
Defined.

Lemma eviction_ends_below_last_block_witness : exists (ws : list FileServer) s,
  (exists r, evictBlocks ids rawBlock 0 0 100 s ws = Ret r) /\ ~ exists fuel r, evictRange ids rawBlock fuel 0 (blockOf 0) 4294967295 s ws = Ret r.
Proof.
  destruct example_written as (ws & s & a & Hok & _ & Hf & _). exists ws, s. split.
  - apply (eviction_ends_below_last_block ids rawBlock writtenBytes s a ws 0 writtenF 0 100 Hok Hf); [word_lia|word_lia|by vm_compute].
  - intros Hr. apply (eviction_ends_below_last_block ids rawBlock writtenBytes s a ws 0 writtenF 0 4294967295 Hok Hf) in Hr; [by vm_compute in Hr|word_lia|word_lia].
Defined.

(** ** Created files *)

(** C26: a file whose name no file server knows can be created and used: CreateFile
    succeeds and records the file, and then the client library computes for every
    address the index of a file server that has the file with the stripe of the address
    in an existing host file. (Without the condition on the servers it fails:
    [recreated_file_keeps_width].) *)
Theorem created_file_is_served name width t1 t2 s ws addr :
  0 < width <= INT_MAX -> 0 <= addr -> filesLock s = false -> files s !! name = None ->
  servicesOk ws -> Forall (fun fsrv => fs_files fsrv !! name = None) ws ->
  exists s' ws' k fsrv, CreateFile name width t1 t2 s ws = Ret (OK, emptyStatusReply, s', ws') /\
    files s' !! name = Some (createdFile name width t1 t2) /\
    fileServerIndex addr width = Ret k /\ ws' !! k = Some fsrv /\
    serverOk fsrv /\ servesAddr fsrv name addr.
Proof.
  intros Hw Ha Hl Hn Hok Hnew.
  destruct (createStripes_placed name width Hw ws) as (ws' & Hcs & Hpl).
  { split; [done|]. intros idx fsrv Hi. rewrite Forall_lookup in Hnew. rewrite (Hnew idx fsrv Hi).
    split; [done|]. intros id Hid. lia. }
  destruct (placed_serves name width Hw ws' addr Hpl Ha) as (fsrv & Hi & Hsrv & Hserves).
  unfold CreateFile. rewrite Hl, Hn, Hcs, Ret_bind. eexists _, ws', _, fsrv. split; [done|]. cbn.
  split; [apply lookup_insert_eq|]. split; [by apply fileServerIndex_spec|done].
Qed.

Lemma created_file_is_served_witness :
  exists s' ws' k fsrv, CreateFile "g" 7 1 2 exampleManager freshServers = Ret (OK, emptyStatusReply, s', ws') /\
    files s' !! "g"%string = Some (createdFile "g" 7 1 2) /\
    fileServerIndex 99999 7 = Ret k /\ ws' !! k = Some fsrv /\ serverOk fsrv /\ servesAddr fsrv "g" 99999.
Proof.
  apply (created_file_is_served "g" 7 1 2 exampleManager freshServers 99999);
    [word_lia|lia|reflexivity|reflexivity|apply freshServers_ok|].
  apply Forall_forall. intros s (i & -> & _)%list_elem_of_fmap. reflexivity.
Defined.
