(* ===== verification/System.v ===== *)
(** The whole system: the metadata manager, the file servers and the clients.

    The interfaces of Client.v are implemented by the handlers of the other parts. A
    call of the manager runs its handler; a thread of GetPermission runs the revocation
    at the client it is for ([deliver]), and the handler waits for its threads in the
    order in which it joins them. A call of a client is one step of the system. *)

From Stdlib Require Import String Ascii Strings.Byte.
From stdpp Require Import gmap strings.
From S2P Require Import Prelude Config Permission File Tokens MMFile FileServer MetadataManager ClientFile Cache CacheLists CacheSpec CacheProps Client ClientSpec ClientFrame ClientProps.
#[local] Open Scope Z_scope.

(** ** State *)

(** The clients by the address of their service. *)
Record System : Type := mkSystem {
  sys_manager : MetadataManager;
  sys_servers : list FileServer;
  sys_clients : gmap string PFSClient }.

Definition setManager (mm : MetadataManager) (y : System) : System := mkSystem mm (sys_servers y) (sys_clients y).
Definition setServers (ws : list FileServer) (y : System) : System := mkSystem (sys_manager y) ws (sys_clients y).
Definition setClient (ip : string) (s : PFSClient) (y : System) : System :=
  mkSystem (sys_manager y) (sys_servers y) (<[ip := s]> (sys_clients y)).

Section System.
Context `{!GrpcCodes} (std_hash : Z -> Z) (raw : nat -> CacheBlock) (junk : nat -> byte) (now : Z).

(** ** The stubs *)

Definition systemServers : FileServerStub System := {|
  rpc_ReadBlock stub name addr y :=
    r ← rpc_ReadBlock (FileServerStub := serversStub junk) stub name addr (sys_servers y);
    Ret (r.1, setServers r.2 y);
  rpc_WriteBlock stub name addr data dirty y :=
    r ← rpc_WriteBlock (FileServerStub := serversStub junk) stub name addr data dirty (sys_servers y);
    Ret (r.1, setServers r.2 y) |}.

(** One revoke request at its client: ClientServiceImpl::RevokePermission. The
    manager ignores the status of the call, so a request to an address where no
    client listens has no effect. *)
Definition deliver (x : string * RevokeRequest) (y : System) : outcome System :=
  let '(ip, r) := x in
  match sys_clients y !! ip with
  | None => Ret y
  | Some s =>
      d ← RevokePermission (FileServerStub0 := serversStub junk) std_hash raw
            (rv_name r) (rv_start r) (rv_end r) (rv_iswrite r) 0 s (sys_servers y);
      Ret (setClient ip d.1.2 (setServers d.2 y))
  end.

#[local] Instance systemClients : ClientService System := fun ip r => deliver (ip, r).

(** The manager as the client with the connection [peer] sees it. *)
Definition systemManager (peer : string) : ManagerStub System := {|
  rpc_ClientStart ip y :=
    let '(st, reply, mm) := ClientStart peer ip (sys_manager y) in Ret (st, reply, setManager mm y);
  rpc_CreateFile name width y :=
    r ← MetadataManager.CreateFile name width now now (sys_manager y) (sys_servers y);
    let '(st, reply, mm, ws) := r in Ret (st, reply, setServers ws (setManager mm y));
  rpc_OpenFile name mode y :=
    r ← OpenFile peer name (sys_manager y);
    let '(st, reply, mm) := r in Ret (st, reply, setManager mm y);
  rpc_GetPermission name st en wr y :=
    r ← GetPermission peer name st en wr (sys_manager y) y;
    let '(s, reply, mm, y') := r in Ret (s, reply, setManager mm y');
  rpc_CloseFile name hasmodified size y :=
    r ← CloseFile peer name hasmodified size now (sys_manager y);
    let '(st, reply, mm) := r in Ret (st, reply, setManager mm y);
  rpc_DeleteFile name y :=
    r ← DeleteFile peer name (sys_manager y);
    let '(st, reply, mm) := r in Ret (st, reply, setManager mm y);
  rpc_GetFileDesc name y :=
    r ← GetFileDesc name (sys_manager y);
    let '(st, reply, mm) := r in Ret (st, reply, setManager mm y) |}.

(** ** Calls of the clients *)

(** The client at [ip] runs [op]; the manager does not send requests to the client
    whose call it serves, so its state is not touched in between. *)
Definition atClient {A} (ip : string) (op : PFSClient -> System -> outcome (A * PFSClient * System)) (y : System)
    : outcome (A * System) :=
  s ← deref (sys_clients y !! ip);
  r ← op s y;
  Ret (r.1.1, setClient ip r.1.2 r.2).

(** A process with number [no] starts: its service address is made from [no]. *)
Definition clientIp (no : string) : string := String.append "0.0.0.0:400" no.

Definition sysStart (no peer : string) (y : System) : outcome System :=
  r ← initialize (ManagerStub0 := systemManager peer) no newPFSClient y;
  Ret (setClient (clientIp no) r.1 r.2).

Definition sysCreate (no peer name : string) (width : Z) : System -> outcome (Z * System) :=
  atClient (clientIp no) (fun s y => r ← createFile (ManagerStub0 := systemManager peer) name width s y; Ret (r.1, s, r.2)).

Definition sysOpen (no peer name : string) (mode : ascii) : System -> outcome (Z * System) :=
  atClient (clientIp no) (openFile (ManagerStub0 := systemManager peer) name mode).

Definition sysRead (no peer : string) (filedes nbyte offset : Z) : System -> outcome (ReadResult * System) :=
  atClient (clientIp no)
    (readFile (ManagerStub0 := systemManager peer) (FileServerStub0 := systemServers) std_hash raw filedes nbyte offset).

Definition sysWrite (no peer : string) (filedes : Z) (bs : bytes) (offset : Z) : System -> outcome (Z * option bool * System) :=
  atClient (clientIp no)
    (writeFile (ManagerStub0 := systemManager peer) (FileServerStub0 := systemServers) std_hash raw filedes bs offset).

Definition sysClose (no peer : string) (filedes : Z) : System -> outcome (Z * System) :=
  atClient (clientIp no)
    (closeFile (ManagerStub0 := systemManager peer) (FileServerStub0 := systemServers) std_hash raw filedes).

Definition sysDelete (no peer name : string) : System -> outcome (Z * System) :=
  atClient (clientIp no) (fun s y => r ← deleteFile (ManagerStub0 := systemManager peer) name s y; Ret (r.1, s, r.2)).

Definition sysStat (no peer : string) (filedes : Z) : System -> outcome (Z * option pfs_stat * System) :=
  atClient (clientIp no)
    (fun s y => r ← getFileStat (ManagerStub0 := systemManager peer) filedes s y; Ret (r.1.1, r.1.2, s, r.2)).

Definition sysFinalize (no : string) (y : System) : outcome System :=
  r ← atClient (clientIp no) (fun s y => r ← finalize (FileServerStub0 := systemServers) s y; Ret (tt, r.1, r.2)) y;
  Ret r.2.

(** One activation of a thread of the cache of a client. *)
Definition sysThread (thread : PFSClient -> Cache -> System -> outcome (Cache * System)) (no : string) (y : System)
    : outcome System :=
  r ← atClient (clientIp no) (fun s y =>
        c ← getInstance raw s; r ← thread s c y; Ret (tt, setInstance (Some r.1) s, r.2)) y;
  Ret r.2.

Definition sysFlusher : string -> System -> outcome System :=
  sysThread (fun s => cacheFlusher (H := store (FileServerStub0 := systemServers) s)).

Definition sysHarvester : string -> System -> outcome System :=
  sysThread (fun s => cacheHarvester (H := store (FileServerStub0 := systemServers) s)).

(** Everything a client can do: the calls of its process and the activations of the
    two threads of its cache. *)
Inductive Call : Type :=
| CallStart
| CallCreate (name : string) (width : Z)
| CallOpen (name : string) (mode : ascii)
| CallRead (filedes nbyte offset : Z)
| CallWrite (filedes : Z) (bs : bytes) (offset : Z)
| CallClose (filedes : Z)
| CallDelete (name : string)
| CallStat (filedes : Z)
| CallFinalize
| CallFlusher
| CallHarvester.

Inductive Result : Type :=
| NoResult
| CodeResult (code : Z)
| DataResult (r : ReadResult)
| WriteResult (code : Z) (cache_hit : option bool)
| StatResult (code : Z) (st : option pfs_stat).

Definition sysCall (no peer : string) (c : Call) (y : System) : outcome (Result * System) :=
  match c with
  | CallStart => y' ← sysStart no peer y; Ret (NoResult, y')
  | CallCreate name width => r ← sysCreate no peer name width y; Ret (CodeResult r.1, r.2)
  | CallOpen name mode => r ← sysOpen no peer name mode y; Ret (CodeResult r.1, r.2)
  | CallRead fd nbyte offset => r ← sysRead no peer fd nbyte offset y; Ret (DataResult r.1, r.2)
  | CallWrite fd bs offset => r ← sysWrite no peer fd bs offset y; Ret (WriteResult r.1.1 r.1.2, r.2)
  | CallClose fd => r ← sysClose no peer fd y; Ret (CodeResult r.1, r.2)
  | CallDelete name => r ← sysDelete no peer name y; Ret (CodeResult r.1, r.2)
  | CallStat fd => r ← sysStat no peer fd y; Ret (StatResult r.1.1 r.1.2, r.2)
  | CallFinalize => y' ← sysFinalize no y; Ret (NoResult, y')
  | CallFlusher => y' ← sysFlusher no y; Ret (NoResult, y')
  | CallHarvester => y' ← sysHarvester no y; Ret (NoResult, y')
  end.

(** The manager and the servers, before any client. *)
Definition newSystem : System := mkSystem newMetadataManager freshServers ∅.

End System.

(** ** The interfaces are implemented *)

#[export] Instance systemServersOk junk : FileServerStubOk System (FileServerStub0 := systemServers junk).
Proof.
  refine {| served y := serversServed (sys_servers y); healthy y := servicesOk (sys_servers y); storedByte y := serversByte (sys_servers y) |}.
  - intros y name width addr Hs Hb. destruct (servers_ReadBlock junk (sys_servers y) name width addr Hs Hb) as (bs & Hr & Hrest).
    exists bs. split; [|done]. unfold rpc_ReadBlock at 1, systemServers. rewrite Hr, Ret_bind. cbn. by destruct y.
  - intros y name width addr data dirty Hs Hb Hd Hdi.
    destruct (servers_WriteBlock junk (sys_servers y) name width addr data dirty Hs Hb Hd Hdi) as (ws & Hr & Hrest).
    exists (setServers ws y). split; [|done]. unfold rpc_WriteBlock at 1, systemServers. by rewrite Hr.
Defined.

(** The threads do not look at the manager, so its state can be set before they run. *)
Lemma deliver_manager std_hash raw junk mm l y :
  foldM (deliver std_hash raw junk) l (setManager mm y) = (y' ← foldM (deliver std_hash raw junk) l y; Ret (setManager mm y')).
Proof.
  revert y. induction l as [|[ip r] l IH]; intros y; cbn [foldM]; [done|].
  cbn [deliver sys_clients sys_servers setManager]. destruct (sys_clients y !! ip) as [s|]; cbn [mbind outcome_bind]; [|apply IH].
  destruct (RevokePermission _ _ _ _ _ _ _ _ _) as [[[st s'] ws]| |]; [|done..]. cbn [mbind outcome_bind fst snd]. apply (IH (setClient ip s' (setServers ws y))).
Qed.

(** A permission request: the answer, and the threads before it is given. *)
Lemma rpc_GetPermission_split std_hash raw junk now peer name st en wr y :
  rpc_GetPermission (ManagerStub := systemManager std_hash raw junk now peer) name st en wr y =
    (r ← permissionAnswer peer name st en wr (sys_manager y);
     let '(s, reply, sent, mm) := r in
     y' ← foldM (deliver std_hash raw junk) sent (setManager mm y);
     Ret (s, reply, y')).
Proof.
  cbn [rpc_GetPermission systemManager]. rewrite GetPermission_split.
  destruct (permissionAnswer _ _ _ _ _ _) as [[[[s reply] sent] mm]| |]; [|done..]. cbn [mbind outcome_bind fst snd].
  rewrite deliver_manager. rewrite (foldM_ext (fun x => revokePermit x.1 x.2) (deliver std_hash raw junk)) by (by intros [ip r] ?).
  by destruct (foldM _ sent y).
Qed.

(** A grant of the manager contains the range asked for. *)
Lemma permissionAnswer_range peer name st en wr mm reply sent mm' :
  0 <= st <= en -> en <= INT_MAX -> permissionAnswer peer name st en wr mm = Ret (OK, reply, sent, mm') ->
  0 <= pr_start reply <= st /\ en <= pr_end reply <= INT_MAX.
Proof.
  intros Hst Hen Hr. unfold permissionAnswer in Hr. destruct (filesLock mm); [done|]. destruct (files mm !! name) as [file|]; [|done].
  destruct (mm_lock file); [done|]. destruct (negb _); [done|]. apply bind_Ret in Hr as ([[permit rq] file'] & Hw & Hr). apply bind_Ret in Hr as (snt & _ & Hr).
  injection Hr as <- _ _. cbn. unfold recordGrant in Hw. destruct (decide _); [done|].
  apply bind_Ret in Hw as (ls & _ & Hw). apply bind_Ret in Hw as (mine & _ & Hw). apply bind_Ret in Hw as (mine' & _ & Hw).
  injection Hw as <- _ _. unfold chosenPermit. destruct (_ || _); cbn; word_lia.
Qed.

#[export] Instance systemManagerOk std_hash raw junk now peer :
  ManagerStubOk System (ManagerStub0 := systemManager std_hash raw junk now peer).
Proof.
  intros n st en wr y reply y' Hst Hen Hr. rewrite rpc_GetPermission_split in Hr. apply bind_Ret in Hr as ([[[s rep] sent] mm] & Hg & Hr).
  apply bind_Ret in Hr as (y1 & _ & Hr). injection Hr as -> -> _. by eapply permissionAnswer_range.
Qed.

(** ** Clients of the system *)

Section Clients.
Context `{!GrpcCodes} (std_hash : Z -> Z) (raw : nat -> CacheBlock) (junk : nat -> byte) (now : Z).

Abbreviation clientOkAt := (clientOk (W := list FileServer) (FileServerStub0 := serversStub junk)
  (FileServerStubOk0 := serversStubOk junk) std_hash raw).
Abbreviation clientOkIn := (clientOk (W := System) (FileServerStub0 := systemServers junk)
  (FileServerStubOk0 := systemServersOk junk) std_hash raw).

(** A client sees nothing of the system but the file servers. *)
Lemma clientOk_servers m s a y : clientOkIn m s a y <-> clientOkAt m s a (sys_servers y).
Proof. split; intros [H1 H2 [H3 H4 H5] H6 H7]; (split; [done|done|by split|done|done]). Qed.

End Clients.

(** ** Concrete runs *)

#[local] Instance systemCodes : GrpcCodes := {|
  error_code st := match st with OK => 0 | CANCELLED => 1 end;
  error_code_OK := eq_refl;
  error_code_CANCELLED := eq_refl |}.

(** Two clients on one file. The client [a] writes address 0 and gets the whole
    file; [b] reads the first ten bytes, for which [a] gives up its token, and caches
    the block; [a], which still has the token for address 500, writes it. *)
Definition staleRun : outcome System :=
  let start := sysStart ids rawBlock zeroByte 0 in
  let create := sysCreate ids rawBlock zeroByte 0 in
  let open := sysOpen ids rawBlock zeroByte 0 in
  let read := sysRead ids rawBlock zeroByte 0 in
  let write := sysWrite ids rawBlock zeroByte 0 in
  y ← start "1"%string "a"%string newSystem;
  y ← start "2"%string "b"%string y;
  r ← create "1"%string "a"%string "f"%string 3 y;
  r ← open "1"%string "a"%string "f"%string "w"%char r.2;
  r ← open "2"%string "b"%string "f"%string "r"%char r.2;
  r ← write "1"%string "a"%string 1 [x41] 0 r.2;
  r ← read "2"%string "b"%string 1 10 0 r.2;
  r ← write "1"%string "a"%string 1 [x42] 500 r.2;
  Ret r.2.

(** What [b] has cached for address 500, and what the file servers hold there after
    [b] has acquired the token for it. *)
Definition staleView (o : outcome System) : option (byte * byte) :=
  match o with
  | Ret y =>
      s ← sys_clients y !! clientIp "2";
      match (c ← getInstance rawBlock s; readBlock ids 1 (blockOf 500) c),
        acquirePermission (ManagerStub0 := systemManager ids rawBlock zeroByte 0 "b") 1 500 501 false s y with
      | Ret (Some d, _), Ret (z, _, y1) =>
          old ← d !! 500%nat; new ← serversByte (sys_servers y1) "f" 3 500;
          if (length d =? blockSize)%nat && stub_ s && (z =? 0) then Some (old, new) else None
      | _, _ => None
      end
  | _ => None
  end.

Lemma staleView_inv o old new :
  staleView o = Some (old, new) ->
  exists y s c d c' s1 y1, o = Ret y /\ sys_clients y !! clientIp "2" = Some s /\ stub_ s = true /\
    getInstance rawBlock s = Ret c /\ readBlock ids 1 (blockOf 500) c = Ret (Some d, c') /\ length d = blockSize /\ d !! 500%nat = Some old /\
    acquirePermission (ManagerStub0 := systemManager ids rawBlock zeroByte 0 "b") 1 500 501 false s y = Ret (0, s1, y1) /\
    serversByte (sys_servers y1) "f" 3 500 = Some new.
Proof.
  unfold staleView. destruct o as [y| |]; [|done..]. intros (s & Hs & Hv)%bind_Some.
  destruct (getInstance rawBlock s) as [c| |] eqn:Hc; [|done..]. cbn [mbind outcome_bind] in Hv.
  destruct (readBlock ids 1 (blockOf 500) c) as [[[d|] c']| |] eqn:Hd; [|done..].
  destruct (acquirePermission 1 500 501 false s y) as [[[z s1] y1]| |] eqn:Ha; [|done..].
  apply bind_Some in Hv as (old' & Hold & (new' & Hnew & Hv)%bind_Some).
  destruct ((length d =? blockSize)%nat && stub_ s && (z =? 0)) eqn:Ht; [|done]. injection Hv as -> ->.
  apply andb_true_iff in Ht as [[Hl%Nat.eqb_eq Hst]%andb_true_iff ->%Z.eqb_eq]. by exists y, s, c, d, c', s1, y1.
Qed.

Lemma staleRun_view : staleView staleRun = Some (x00, x42).
Proof. vm_compute. reflexivity. Qed.

(** The servers hold 0x42 at address 500 when [b] reads 0x00 from it. *)
Lemma cached_block_is_not_refreshed_witness : exists y s s' y', staleRun = Ret y /\ sys_clients y !! clientIp "2" = Some s /\
  readFile (ManagerStub0 := systemManager ids rawBlock zeroByte 0 "b") (FileServerStub0 := systemServers zeroByte) ids rawBlock 1 1 500 s y = Ret (mkReadResult 1 [x00] (Some true), s', y') /\
  serversByte (sys_servers y') "f" 3 500 = Some x42.
Proof.
  destruct (staleView_inv _ _ _ staleRun_view) as (y & s & c & d & c' & s1 & y1 & Hy & Hs & Hst & Hc & Hd & Hl & Hold & Ha & Hnew).
  destruct (cached_block_is_not_refreshed (ManagerStub0 := systemManager ids rawBlock zeroByte 0 "b") (FileServerStub0 := systemServers zeroByte)
    ids rawBlock 1 1 500 s y c d c' 0 s1 y1 Hst)
    as [s' Hr]; [word_lia|lia|by vm_compute|exact Hc|exact Hd|exact Hl|exact Ha|].
  exists y, s, s', y1. split; [exact Hy|]. split; [exact Hs|]. split; [|exact Hnew]. rewrite Hr.
  change (Z.to_nat (500 mod pfsBlockSizeInBytes)) with 500%nat. rewrite (drop_S d x00 500 Hold). reflexivity.
Defined.
