(* ===== verification/SystemInv.v ===== *)
(** The invariant of the whole system: the tokens of the clients are the tokens that
    the manager has recorded for them.

    A client and the manager keep separate vectors of permissions, updated by the
    replies and the revoke requests. [mirrorOk] says that they agree, for every open
    file of every client; it holds after every sequence of the calls that [callOk]
    allows (a process starts once and closes only its first or second open file), so the
    exclusion that the manager enforces on its own records holds at the clients
    themselves. *)

From Stdlib Require Import String Ascii Strings.Byte.
From stdpp Require Import gmap strings.
From S2P Require Import Prelude Config Permission File Tokens MMFile FileServer MetadataManager ClientFile Cache CacheLists CacheSpec CacheProps Client ClientSpec ClientFrame ClientProps System.
#[local] Open Scope Z_scope.
#[local] Existing Instances promptClients promptClients_ok.

(** ** Vectors on both sides *)

(** The vector that the manager has for a client and a file. *)
Definition vectorOf (mm : MetadataManager) (p n : string) : option (list Permission) :=
  mf ← files mm !! n; clientPermissions mf !! p.

Definition fileName (f : ClientFile) : string := getName (cf_base f).
Definition fileTokens (f : ClientFile) : list Permission := permissions (cf_base f).

Section Matching.
Implicit Types (V : string -> option (list Permission)) (s : PFSClient) (f : ClientFile).

(** The file has the tokens of the vector with its name. *)
Definition fileMatches V f : Prop := exists l, V (fileName f) = Some l /\ same_tokens (fileTokens f) l.

Record clientMatches V s : Prop := mkClientMatches {
  cm_names : NoDup (fileName <$> openedFiles s);
  cm_files : Forall (fileMatches V) (openedFiles s) }.

Lemma clientMatches_files V s s' : openedFiles s' = openedFiles s -> clientMatches V s -> clientMatches V s'.
Proof. intros E [H1 H2]. split; by rewrite E. Qed.

Lemma clientMatches_cache V s s' : sameButCache s s' -> clientMatches V s -> clientMatches V s'.
Proof. intros [c ->]. by apply clientMatches_files. Qed.

Lemma clientMatches_ext V V' s :
  (forall f, f ∈ openedFiles s -> V' (fileName f) = V (fileName f)) -> clientMatches V s -> clientMatches V' s.
Proof.
  intros HV [H1 H2]. split; [done|]. rewrite Forall_forall in *. intros f Hf. unfold fileMatches. rewrite HV by done. by apply H2.
Qed.

Lemma clientMatches_lookup V s i f : clientMatches V s -> openedFiles s !! i = Some f -> fileMatches V f.
Proof. intros [_ H] Hf. rewrite Forall_forall in H. apply H. by eapply list_elem_of_lookup_2. Qed.

Lemma fileName_unique s i j f g :
  NoDup (fileName <$> openedFiles s) -> openedFiles s !! i = Some f -> openedFiles s !! j = Some g -> fileName f = fileName g -> i = j.
Proof. intros Hnd Hi Hj E. eapply (NoDup_lookup _ i j (fileName f) Hnd); rewrite list_lookup_fmap; [by rewrite Hi|by rewrite Hj, E]. Qed.

(** One file gets new tokens, and so does its vector. *)
Lemma clientMatches_set V V' s i f f' l' :
  clientMatches V s -> openedFiles s !! i = Some f -> fileName f' = fileName f ->
  V' (fileName f) = Some l' -> same_tokens (fileTokens f') l' -> (forall n, n <> fileName f -> V' n = V n) ->
  clientMatches V' (setFileAt i f' s).
Proof.
  intros [H1 H2] Hf Hn HV Ht Hother. split; cbn.
  - rewrite list_fmap_insert, Hn. by rewrite list_insert_id by (by rewrite list_lookup_fmap, Hf).
  - apply Forall_lookup. intros j g Hj. apply list_lookup_insert_Some in Hj as [(-> & <- & _)|[Hne Hj]].
    + exists l'. by rewrite Hn.
    + unfold fileMatches. rewrite Hother; [by rewrite Forall_lookup in H2; eapply H2|].
      intros E. apply Hne. by eapply (fileName_unique s i j f g).
Qed.

(** The same with the vector as it is: locks and other fields of the file change. *)
Lemma clientMatches_same V s i f f' :
  clientMatches V s -> openedFiles s !! i = Some f -> fileName f' = fileName f -> same_tokens (fileTokens f') (fileTokens f) ->
  clientMatches V (setFileAt i f' s).
Proof.
  intros H Hf Hn Ht. destruct (clientMatches_lookup V s i f H Hf) as (l & Hl & Hs).
  eapply clientMatches_set; [done..| |done]. by etrans.
Qed.

(** A new file, without tokens on both sides. *)
Lemma clientMatches_open V V' s s' f :
  clientMatches V s -> openedFiles s' = openedFiles s ++ [f] -> V (fileName f) = None ->
  V' (fileName f) = Some [] -> fileTokens f = [] -> (forall n, n <> fileName f -> V' n = V n) -> clientMatches V' s'.
Proof.
  intros [H1 H2] E Hnone HV Ht Hother. rewrite Forall_forall in H2.
  assert (Hnew : fileName f ∉ fileName <$> openedFiles s).
  { intros (g & Hg & Hin)%list_elem_of_fmap. destruct (H2 g Hin) as (l & Hl & _). congruence. }
  split; rewrite E.
  - rewrite fmap_app. apply NoDup_app. split; [done|]. split; [|apply NoDup_singleton]. by intros n Hn ->%list_elem_of_singleton.
  - apply Forall_app. split; [|apply Forall_singleton; exists []; by rewrite Ht].
    apply Forall_forall. intros g Hg. unfold fileMatches. rewrite Hother; [by apply H2|]. intros Heq. apply Hnew.
    rewrite <- Heq. apply list_elem_of_fmap. by exists g.
Qed.

(** A file is closed on both sides. *)
Lemma clientMatches_close V V' s s' i f :
  clientMatches V s -> openedFiles s !! i = Some f -> openedFiles s' = erase_range i i (openedFiles s) ->
  (forall n, n <> fileName f -> V' n = V n) -> clientMatches V' s'.
Proof.
  intros [H1 H2] Hf E Hother. assert (Hl := Hf). apply take_drop_middle in Hl. unfold erase_range in E.
  set (l1 := take i (openedFiles s)) in *. set (l2 := drop (S i) (openedFiles s)) in *. rewrite <- Hl in H1, H2.
  rewrite fmap_app, fmap_cons, NoDup_app, NoDup_cons in H1. destruct H1 as (Hn1 & Hdis & Hnf & Hn2).
  rewrite Forall_app, Forall_cons in H2. destruct H2 as (Hm1 & _ & Hm2). rewrite !Forall_forall in Hm1, Hm2. split; rewrite E.
  - rewrite fmap_app, NoDup_app. split; [done|]. split; [|done]. intros n Hn Hn'. apply (Hdis n Hn). by right.
  - apply Forall_forall. intros g [Hg|Hg]%elem_of_app; unfold fileMatches; (rewrite Hother; [first [by apply Hm1|by apply Hm2]|]); intros Heq.
    + apply (Hdis (fileName g)); [apply list_elem_of_fmap; by exists g|]. rewrite Heq. apply list_elem_of_here.
    + apply Hnf. rewrite <- Heq. apply list_elem_of_fmap. by exists g.
Qed.

End Matching.

(** ** Steps of the system *)

(** Only the file servers differ. *)
Definition onlyServers (y y' : System) : Prop := exists ws, y' = setServers ws y.

#[export] Instance onlyServers_PreOrder : PreOrder onlyServers.
Proof.
  split; [intros y; exists (sys_servers y); by destruct y|]. intros y1 y2 y3 [w2 ->] [w3 ->]. by exists w3.
Qed.

#[export] Instance systemServers_keep junk : StubsKeep (FileServerStub0 := systemServers junk) onlyServers.
Proof.
  split; [apply _|..].
  - intros stub n ad y r y' Hr. unfold rpc_ReadBlock, systemServers in Hr. apply bind_Ret in Hr as (v & _ & [= _ <-]). by eexists.
  - intros stub n ad da di y r y' Hr. unfold rpc_WriteBlock, systemServers in Hr. apply bind_Ret in Hr as (v & _ & [= _ <-]). by eexists.
Qed.

Section Steps.
Context `{!GrpcCodes} (std_hash : Z -> Z) (raw : nat -> CacheBlock) (junk : nat -> byte) (now : Z).
Implicit Types (y : System) (s : PFSClient) (vec : string -> string -> option (list Permission)).

(** Every client that the manager can reach has the tokens of [vec]. *)
Definition allMatch (stubs : gmap string string) (cs : gmap string PFSClient) vec : Prop :=
  forall p ip s, stubs !! p = Some ip -> cs !! ip = Some s -> clientMatches (vec p) s.

(** No two connections lead to the same client. *)
Definition injective (stubs : gmap string string) : Prop :=
  forall p q ip, stubs !! p = Some ip -> stubs !! q = Some ip -> p = q.

(** A client that gives up a range. *)
Lemma revoke_matches {W} `{!FileServerStub W} V n st en wr sem s (w : W) s' w' :
  clientMatches V s -> Client.revokePermission std_hash raw n st en wr sem s w = Ret (s', w') ->
  clientMatches (fun n' => if decide (n' = n) then cutVector st en <$> V n' else V n') s'.
Proof.
  intros Hm Hr. unfold Client.revokePermission in Hr. destruct (find_from _ 0 (openedFiles s)) as [i|] eqn:Hfind.
  - apply find_from_Some in Hfind as (j & f & -> & Hf & Hn%String.eqb_eq & _). rewrite Nat.add_0_l in Hr. unfold fileAt in Hr.
    rewrite Hf, deref_Some, Ret_bind in Hr. apply bind_Ret in Hr as (ps & Hps & Hr).
    apply (evictBlocks_framed std_hash raw (fun _ _ => True)) in Hr as [_ Hsame]. eapply clientMatches_cache; [exact Hsame|].
    rewrite revokePermission_lock in Hps. destruct (existsb _ _); [done|].
    destruct (clientMatches_lookup V s j f Hm Hf) as (l & Hl & Hst). destruct (revokeRange_total st en l) as [l' Hl'].
    unfold fileName in Hl. rewrite Hn in Hl.
    eapply (clientMatches_set V); [done|done|done| |by eapply revokeRange_same_tokens; [exact Hst|exact Hps|exact Hl']|].
    + unfold fileName. rewrite Hn, decide_True, Hl by done. cbn. by rewrite (cutVector_Ret _ _ _ _ Hl').
    + unfold fileName. rewrite Hn. intros n' Hne. by rewrite decide_False.
  - injection Hr as <- _. eapply clientMatches_ext; [|exact Hm]. intros f Hf. rewrite decide_False; [done|].
    rewrite find_from_None in Hfind. apply String.eqb_neq. by apply Hfind.
Qed.

(** One request of the manager is delivered. *)
Lemma deliver_matches stubs vec ip r y y' :
  injective stubs -> stubs !! rv_peer r = Some ip -> allMatch stubs (sys_clients y) vec -> deliver std_hash raw junk (ip, r) y = Ret y' ->
  allMatch stubs (sys_clients y') (fun p n =>
    if decide (p = rv_peer r /\ n = rv_name r) then cutVector (rv_start r) (rv_end r) <$> vec p n else vec p n) /\
  sys_manager y' = sys_manager y /\ (forall ip', ip' <> ip -> sys_clients y' !! ip' = sys_clients y !! ip').
Proof.
  intros Hinj Hstub Hall Hr. unfold deliver in Hr. destruct (sys_clients y !! ip) as [s|] eqn:Hs.
  - apply bind_Ret in Hr as ([[st s'] ws'] & Hd & Hr). injection Hr as <-. unfold RevokePermission in Hd.
    apply bind_Ret in Hd as ([s1 w1] & Hrev & Hd). injection Hd as _ <- _.
    split; [|split; [done|cbn; intros ip' Hne; by rewrite lookup_insert_ne]]. intros p ip1 s1' Hp. cbn. rewrite lookup_insert.
    destruct (decide (ip = ip1)) as [<-|Hne].
    + intros [= <-]. rewrite (Hinj _ _ _ Hp Hstub). eapply clientMatches_ext; [|exact (revoke_matches _ _ _ _ _ _ _ _ _ _ (Hall _ _ _ Hstub Hs) Hrev)].
      intros f _. cbn. apply decide_ext. tauto.
    + intros Hs1. eapply clientMatches_ext; [|exact (Hall _ _ _ Hp Hs1)]. intros f _. rewrite decide_False; [done|].
      intros [-> _]. congruence.
  - injection Hr as <-. split; [|done]. intros p ip1 s1 Hp Hs1. eapply clientMatches_ext; [|exact (Hall _ _ _ Hp Hs1)].
    intros f _. rewrite decide_False; [done|]. intros [-> _]. congruence.
Qed.

(** All requests of one grant are delivered. *)
Lemma deliverAll_matches stubs vec n st en wr rs sent y y' :
  injective stubs -> Forall2 (fun r x => x.2 = r /\ stubs !! rv_peer r = Some x.1) rs sent ->
  NoDup (rv_peer <$> rs) -> Forall (fun r => r = mkRevokeRequest (rv_peer r) n st en wr) rs ->
  allMatch stubs (sys_clients y) vec -> foldM (deliver std_hash raw junk) sent y = Ret y' ->
  allMatch stubs (sys_clients y') (fun p n' =>
    if decide (p ∈ rv_peer <$> rs /\ n' = n) then cutVector st en <$> vec p n' else vec p n') /\
  sys_manager y' = sys_manager y /\
  (forall p ip, stubs !! p = Some ip -> p ∉ rv_peer <$> rs -> sys_clients y' !! ip = sys_clients y !! ip).
Proof.
  intros Hinj Hf. revert vec y. induction Hf as [|r [ip r'] rs sent [Hr Hip] _ IH]; intros vec y Hnd Hrs Hall Hrun; cbn [foldM] in Hrun.
  { injection Hrun as <-. split; [|done]. intros p ip s Hp Hs. eapply clientMatches_ext; [|exact (Hall _ _ _ Hp Hs)].
    intros f _. rewrite decide_False; [done|]. by intros [?%not_elem_of_nil _]. }
  cbn in Hr, Hip. subst r'. apply bind_Ret in Hrun as (y1 & Hd & Hrun). rewrite fmap_cons, NoDup_cons in Hnd. destruct Hnd as [Hni Hnd].
  apply Forall_cons in Hrs as [Hre Hrs].
  destruct (deliver_matches stubs vec ip r y y1 Hinj Hip Hall Hd) as (Hall1 & Hm1 & Hc1). rewrite Hre in Hall1. cbn in Hall1.
  destruct (IH _ y1 Hnd Hrs Hall1 Hrun) as (Hall2 & Hm2 & Hc2). split; [|split; [congruence|]].
  - intros p ip' s Hp Hs. eapply clientMatches_ext; [|exact (Hall2 _ _ _ Hp Hs)]. intros f _. cbn.
    destruct (decide (fileName f = n)) as [->|Hn]; [|by rewrite !decide_False by tauto].
    destruct (decide (p = rv_peer r)) as [->|Hne].
    + rewrite decide_True by (split; [left|done]). rewrite decide_False by tauto. by rewrite decide_True.
    + destruct (decide (p ∈ rv_peer <$> rs)) as [Hin|Hin].
      * rewrite decide_True by (split; [by right|done]). rewrite decide_True by done. by rewrite decide_False by tauto.
      * rewrite decide_False by (intros [[?|?]%elem_of_cons _]; done). rewrite decide_False by tauto. by rewrite decide_False by tauto.
  - intros p ip' Hp Hnot. rewrite fmap_cons, not_elem_of_cons in Hnot. destruct Hnot as [Hne Hnot]. rewrite (Hc2 p ip' Hp Hnot). apply Hc1.
    intros ->. apply Hne. by eapply Hinj.
Qed.

(** ** The invariant *)

Record mirrorOk y : Prop := mkMirrorOk {
  mi_manager : managerOk (sys_manager y);
  mi_names n mf : files (sys_manager y) !! n = Some mf -> getName (base mf) = n;
  mi_stubs : injective (clientStubs (sys_manager y));
  mi_clients p ip : clientStubs (sys_manager y) !! p = Some ip -> is_Some (sys_clients y !! ip);
  mi_match : allMatch (clientStubs (sys_manager y)) (sys_clients y) (vectorOf (sys_manager y)) }.

(** What a grant does to the two sides: the other clients have the tokens that the
    manager has for them, the requester still has its old ones. *)
Record granted (peer n : string) (st en : Z) (wr : bool) y (reply : PermissionReply) y' : Prop := mkGranted {
  gr_manager : managerOk (sys_manager y');
  gr_names n' mf : files (sys_manager y') !! n' = Some mf -> getName (base mf) = n';
  gr_stubs : clientStubs (sys_manager y') = clientStubs (sys_manager y);
  gr_clients ip : is_Some (sys_clients y !! ip) -> is_Some (sys_clients y' !! ip);
  gr_own ip : clientStubs (sys_manager y) !! peer = Some ip -> sys_clients y' !! ip = sys_clients y !! ip;
  gr_match : allMatch (clientStubs (sys_manager y)) (sys_clients y') (fun p n' =>
    if decide (p = peer) then vectorOf (sys_manager y) p n' else vectorOf (sys_manager y') p n');
  gr_other n' : n' <> n -> vectorOf (sys_manager y') peer n' = vectorOf (sys_manager y) peer n';
  gr_vector : exists mine mine', vectorOf (sys_manager y) peer n = Some mine /\ vectorOf (sys_manager y') peer n = Some mine' /\
    addPermission (pr_start reply) (pr_end reply) wr mine false = Ret mine' }.

Lemma deliver_clients x y y' ip :
  deliver std_hash raw junk x y = Ret y' -> is_Some (sys_clients y !! ip) -> is_Some (sys_clients y' !! ip).
Proof.
  destruct x as [ip' r]. unfold deliver. destruct (sys_clients y !! ip'); [|by intros [= <-]]. intros Hr Hs.
  apply bind_Ret in Hr as (d & _ & [= <-]). cbn. rewrite lookup_insert. case_decide; [by eexists|done].
Qed.

Lemma deliverAll_clients sent y y' ip :
  foldM (deliver std_hash raw junk) sent y = Ret y' -> is_Some (sys_clients y !! ip) -> is_Some (sys_clients y' !! ip).
Proof.
  revert y. induction sent as [|x sent IH]; intros y; cbn [foldM]; [by intros [= <-]|]. intros Hr Hs.
  apply bind_Ret in Hr as (y1 & Hd & Hr). eapply IH; [exact Hr|]. by eapply deliver_clients.
Qed.

Lemma vectorOf_setFiles mm n mf p n' :
  vectorOf (setFiles (<[n := mf]> (files mm)) mm) p n' = if decide (n' = n) then clientPermissions mf !! p else vectorOf mm p n'.
Proof.
  unfold vectorOf. cbn. rewrite lookup_insert. destruct (decide (n' = n)) as [->|Hne]; [by rewrite decide_True|by rewrite decide_False].
Qed.

(** The manager's loop and the requests it sends cut the same vectors. *)
Lemma afterRevoke_requests peer n st en wr m p :
  p <> peer ->
  (if decide (p ∈ rv_peer <$> revokeRequests peer n st en wr m /\ n = n) then cutVector st en <$> m !! p else m !! p) =
  afterRevoke st en wr <$> m !! p.
Proof.
  intros Hne. destruct (m !! p) as [l|] eqn:Hl; [|by case_decide]. cbn. unfold afterRevoke. fold (cutVector st en l).
  destruct (existsb (conflicts st en wr) l) eqn:Hex.
  - rewrite decide_True; [done|]. split; [|done]. apply list_elem_of_fmap. exists (mkRevokeRequest p n st en wr). split; [done|].
    apply elem_of_revokeRequests. by exists p, l.
  - rewrite decide_False; [done|]. intros [(r & -> & Hr)%list_elem_of_fmap _]. apply elem_of_revokeRequests in Hr as (q & l' & -> & _ & Hq & Hex').
    cbn in Hl. congruence.
Qed.

(** What GetPermission has done when it returned. *)
Lemma GetPermission_inv peer n st en wr mm status reply sent mm' :
  managerOk mm -> is_u32 st -> is_u32 en -> permissionAnswer peer n st en wr mm = Ret (status, reply, sent, mm') ->
  (status = CANCELLED /\ sent = [] /\ mm' = mm) \/
  (status = OK /\ exists mf mf' mine mine', files mm !! n = Some mf /\ mm' = setFiles (<[n := mf']> (files mm)) mm /\ base mf' = base mf /\
    clientPermissions mf !! peer = Some mine /\ clientPermissions mf' !! peer = Some mine' /\
    addPermission (pr_start reply) (pr_end reply) wr mine false = Ret mine' /\
    (forall p, p <> peer -> clientPermissions mf' !! p = afterRevoke st en wr <$> clientPermissions mf !! p) /\
    ((pr_start reply = st /\ pr_end reply = en) \/ (pr_start reply = 0 /\ pr_end reply = INT_MAX)) /\
    Forall2 (fun r x => x.2 = r /\ clientStubs mm !! rv_peer r = Some x.1)
      (revokeRequests peer (getName (base mf)) st en wr (clientPermissions mf)) sent).
Proof.
  intros Hmm Hst Hen Hg. unfold permissionAnswer in Hg. rewrite (proj1 Hmm) in Hg.
  destruct (files mm !! n) as [mf|] eqn:Hmf; [|injection Hg as <- _ <- <-; by left].
  destruct (mm_lock mf); [done|]. destruct (isOpenedBy peer mf); cbn [negb] in Hg; [|injection Hg as <- _ <- <-; by left].
  apply bind_Ret in Hg as ([[permit rs] mf'] & Hw & Hg). apply bind_Ret in Hg as (sent' & Hsend & Hg). injection Hg as <- <- <- <-.
  destruct (recordGrant_inv _ _ _ _ _ _ _ _ Hst Hen Hw) as (mine & mine' & Hmine & Hbase & Hadd & Hmine' & Hothers & -> & Hpermit).
  apply sendAll_inv in Hsend. right. split; [done|]. exists mf, mf', mine, mine'.
  repeat (split; [done|]). split; [|done]. destruct Hpermit as [[_ ->]|[_ ->]]; [by left|by right].
Qed.

Lemma GetPermission_granted peer n st en wr y status reply y' :
  mirrorOk y -> is_u32 st -> is_u32 en ->
  rpc_GetPermission (ManagerStub := systemManager std_hash raw junk now peer) n st en wr y = Ret (status, reply, y') ->
  match status with OK => granted peer n st en wr y reply y' | CANCELLED => y' = y end.
Proof.
  intros [Hmm Hnames Hinj Hcl Hmatch] Hst Hen Hr. rewrite rpc_GetPermission_split in Hr. apply bind_Ret in Hr as ([[[status' reply'] sent] mm'] & Hg & Hr).
  apply bind_Ret in Hr as (y1 & Hdel & [= -> -> ->]).
  destruct (permissionAnswer_total peer n st en wr (sys_manager y) Hst Hen Hmm) as (? & ? & ? & Hg' & Hmm'). rewrite Hg in Hg'. injection Hg' as <- <- <-.
  assert (Hsame : setManager (sys_manager y) y = y) by (by destruct y).
  apply GetPermission_inv in Hg as [(-> & -> & ->)|(-> & mf & mf' & mine & mine' & Hmf & -> & Hbase & Hmine & Hmine' & Hadd & Hothers & _ & Hsent)];
    [rewrite Hsame in Hdel; by injection Hdel as <-| |done..].
  rewrite (Hnames n mf Hmf) in *.
  set (rs := revokeRequests peer n st en wr (clientPermissions mf)) in *. set (mm' := setFiles _ _) in *.
  destruct (deliverAll_matches (clientStubs (sys_manager y)) (vectorOf (sys_manager y)) n st en wr rs sent (setManager mm' y) y')
    as (Hall & Hman & Hown); [done|done|apply revokeRequests_peers_NoDup| |done|done|].
  { apply Forall_forall. intros r (q & l & -> & _)%elem_of_revokeRequests. done. }
  assert (Hnot : peer ∉ rv_peer <$> rs).
  { intros (r & Hpr & (q & l & -> & Hq & _)%elem_of_revokeRequests)%list_elem_of_fmap. cbn in Hpr. congruence. }
  assert (Hvec : forall p n', vectorOf mm' p n' = if decide (n' = n) then clientPermissions mf' !! p else vectorOf (sys_manager y) p n')
    by (intros; apply vectorOf_setFiles).
  split; rewrite ?Hman; cbn [sys_manager setManager].
  - exact Hmm'.
  - intros n' f. cbn. rewrite lookup_insert. case_decide as Hn; [intros [= <-]; subst n'; rewrite Hbase; by apply Hnames|apply Hnames].
  - done.
  - intros ip Hip. by eapply deliverAll_clients.
  - intros ip Hip. by apply (Hown peer ip).
  - intros p ip s Hp Hs. eapply clientMatches_ext; [|exact (Hall p ip s Hp Hs)]. intros f _. cbn.
    destruct (decide (p = peer)) as [->|Hne]; [by rewrite decide_False by tauto|]. rewrite Hvec.
    destruct (decide (fileName f = n)) as [->|Hn]; [|by rewrite decide_False by tauto]. rewrite Hothers by done.
    replace (vectorOf (sys_manager y) p n) with (clientPermissions mf !! p) by (unfold vectorOf; by rewrite Hmf). symmetry. by apply afterRevoke_requests.
  - intros n' Hne. by rewrite Hvec, decide_False.
  - exists mine, mine'. rewrite Hvec, decide_True by done. unfold vectorOf. rewrite Hmf. done.
Qed.

(** ** Calls keep the invariant *)

(** The state of one client is replaced. *)
Lemma mirror_replace peer ip s' y :
  managerOk (sys_manager y) -> (forall n mf, files (sys_manager y) !! n = Some mf -> getName (base mf) = n) ->
  injective (clientStubs (sys_manager y)) -> clientStubs (sys_manager y) !! peer = Some ip ->
  (forall p ip', clientStubs (sys_manager y) !! p = Some ip' -> p <> peer -> is_Some (sys_clients y !! ip')) ->
  (forall p ip' s, clientStubs (sys_manager y) !! p = Some ip' -> p <> peer -> sys_clients y !! ip' = Some s ->
    clientMatches (vectorOf (sys_manager y) p) s) ->
  clientMatches (vectorOf (sys_manager y) peer) s' -> mirrorOk (setClient ip s' y).
Proof.
  intros Hmm Hn Hinj Hp Hcl Hother Hown. split; [done|done|done|..].
  - intros p ip' Hp'. cbn. rewrite lookup_insert. case_decide; [by eexists|]. eapply Hcl; [done|]. intros ->. cbn in Hp'. congruence.
  - intros p ip' s Hp'. cbn. rewrite lookup_insert. case_decide as Hip.
    + intros [= <-]. subst ip'. by rewrite (Hinj _ _ _ Hp' Hp).
    + intros Hs. eapply Hother; [done| |done]. intros ->. cbn in Hp'. congruence.
Qed.

(** A run of the client that calls only the file servers. *)
Lemma mirror_local ip s s' y y' :
  mirrorOk (setClient ip s y) -> onlyServers y y' -> (forall V, clientMatches V s -> clientMatches V s') ->
  mirrorOk (setClient ip s' y').
Proof.
  intros [Hmm Hn Hinj Hcl Hm] [ws ->] Hs. split; [done|done|done|..].
  - intros p ip' Hp. specialize (Hcl p ip' Hp). cbn in *. rewrite lookup_insert in *. by case_decide.
  - intros p ip' s1 Hp. specialize (Hm p ip'). cbn in *. rewrite lookup_insert in *. case_decide; [intros [= <-]; apply Hs; by apply Hm|by apply Hm].
Qed.

Lemma mirror_framed ip s s' y y' :
  mirrorOk (setClient ip s y) -> framed onlyServers s y s' y' -> mirrorOk (setClient ip s' y').
Proof. intros Hm [Hy Hs]. eapply mirror_local; [exact Hm|exact Hy|]. intros V. by apply clientMatches_cache. Qed.

Lemma setClient_id ip s y : sys_clients y !! ip = Some s -> setClient ip s y = y.
Proof. intros Hs. destruct y. unfold setClient. cbn in *. by rewrite insert_id. Qed.

Lemma acquire_mirror peer ip fd st en wr s y z s' y' :
  mirrorOk y -> clientStubs (sys_manager y) !! peer = Some ip -> sys_clients y !! ip = Some s ->
  acquirePermission (ManagerStub0 := systemManager std_hash raw junk now peer) fd st en wr s y = Ret (z, s', y') ->
  mirrorOk (setClient ip s' y').
Proof.
  intros Hok Hp Hs Hacq%acquire_inv. assert (Hsame := setClient_id ip s y Hs).
  destruct Hacq as [|i f reply y' Hf Hfd Hrpc|i f Hf Hfd Hhas|i f reply ps y' Hf Hfd Hrpc Hadd]; [by rewrite Hsame| |by rewrite Hsame|].
  - apply GetPermission_granted in Hrpc as ->; [by rewrite Hsame|done|apply u32_range..].
  - apply GetPermission_granted in Hrpc as [Hmm Hn Hst Hcl Hown Hm Hoth (mine & mine' & Hv & Hv' & Hadd')]; [|done|apply u32_range..].
    destruct (Hok) as [_ _ Hinj Hcl0 Hm0]. rewrite <- Hst in Hinj, Hp. apply (mirror_replace peer); [done|done|done|done|..].
    + intros p ip' Hp' _. apply Hcl. rewrite Hst in Hp'. by eapply Hcl0.
    + intros p ip' s1 Hp' Hne Hs1. rewrite Hst in Hp'. eapply clientMatches_ext; [|exact (Hm _ _ _ Hp' Hs1)]. intros g _. cbn. by rewrite decide_False.
    + rewrite Hst in Hp. specialize (Hm0 peer ip s Hp Hs). destruct (clientMatches_lookup _ _ _ _ Hm0 Hf) as (l & Hl & Hsame').
      unfold fileName in Hl. rewrite Hv in Hl. injection Hl as <-.
      eapply (clientMatches_set _ _ s i f); [exact Hm0|done|done|exact Hv'|by eapply addPermission_same_tokens|exact Hoth].
Qed.

Lemma unlockFile_matches i st en wr s s' V : unlockFile i st en wr s = Ret s' -> clientMatches V s -> clientMatches V s'.
Proof.
  unfold unlockFile. intros Hr Hm. apply bind_Ret in Hr as (f & Hf%deref_Ret & [= <-]).
  eapply clientMatches_same; [done|exact Hf|done|]. apply unlockPermission_tokens.
Qed.

(** Names, sizes and times at the manager change, its vectors do not. *)
Lemma mirror_manager y mm' ws :
  mirrorOk y -> managerOk mm' -> (forall n mf, files mm' !! n = Some mf -> getName (base mf) = n) ->
  clientStubs mm' = clientStubs (sys_manager y) -> (forall p n, vectorOf mm' p n = vectorOf (sys_manager y) p n) ->
  mirrorOk (setServers ws (setManager mm' y)).
Proof.
  intros [Hmm Hn Hinj Hcl Hm] Hmm' Hn' Hst Hv. split; cbn; rewrite ?Hst; try done.
  intros p ip s Hp Hs. eapply clientMatches_ext; [|exact (Hm p ip s Hp Hs)]. intros f _. apply Hv.
Qed.

Lemma setServers_id y : setServers (sys_servers y) y = y.
Proof. by destruct y. Qed.

Lemma start_mirror no peer y y' :
  mirrorOk y -> clientStubs (sys_manager y) !! peer = None -> sys_clients y !! clientIp no = None ->
  sysStart std_hash raw junk now no peer y = Ret y' -> mirrorOk y'.
Proof.
  intros [Hmm Hn Hinj Hcl Hm] Hp Hip Hr. unfold sysStart, initialize in Hr. cbn in Hr. injection Hr as <-. fold (clientIp no).
  assert (Hfresh : forall q, clientStubs (sys_manager y) !! q <> Some (clientIp no)).
  { intros q Hq%Hcl. rewrite Hip in Hq. by destruct Hq. }
  apply (mirror_replace peer); cbn.
  - eapply (handle_keeps (ReqStart peer (clientIp no)) (sys_manager y) freshServers OK _ _ freshServers); [done|done|done|apply freshServers_ok|done].
  - done.
  - intros p q ip. cbn. rewrite !lookup_insert. repeat case_decide; [congruence| | |by apply Hinj].
    + intros [= <-] Hq. by destruct (Hfresh q).
    + intros Hq [= <-]. by destruct (Hfresh p).
  - apply lookup_insert_eq.
  - intros p ip Hp' Hne. rewrite lookup_insert_ne in Hp' by done. by eapply Hcl.
  - intros p ip s Hp' Hne Hs. rewrite lookup_insert_ne in Hp' by done. by eapply Hm.
  - split; [apply NoDup_nil_2|constructor].
Qed.

(** ** One lemma per handler of the manager *)

(** [atClient] with the client that runs. *)
Lemma atClient_inv {A} ip (op : PFSClient -> System -> outcome (A * PFSClient * System)) y a y' :
  atClient ip op y = Ret (a, y') ->
  exists s s' y1, sys_clients y !! ip = Some s /\ op s y = Ret (a, s', y1) /\ y' = setClient ip s' y1.
Proof.
  unfold atClient. intros Hr. apply bind_Ret in Hr as (s & Hs%deref_Ret & Hr). apply bind_Ret in Hr as ([[a' s'] y1] & Hop & [= <- <-]).
  by exists s, s', y1.
Qed.

Lemma CreateFile_mirror peer n width y r y' :
  mirrorOk y -> rpc_CreateFile (ManagerStub := systemManager std_hash raw junk now peer) n width y = Ret (r, y') ->
  mirrorOk y' /\ sys_clients y' = sys_clients y.
Proof.
  intros Hok Hr. cbn in Hr. apply bind_Ret in Hr as ([[[st rep] mm'] ws'] & Hc & [= _ <-]). split; [|done].
  destruct (Hok) as [Hmm Hn _ _ _]. unfold MetadataManager.CreateFile in Hc. rewrite (proj1 Hmm) in Hc.
  destruct (files (sys_manager y) !! n) as [mf|] eqn:Hf; [injection Hc as _ _ <- <-; by apply mirror_manager|].
  apply bind_Ret in Hc as (ws1 & _ & [= _ _ <- _]). apply mirror_manager; [done|..].
  - apply managerOk_insert; cbn; [done|done|by intros ?? ?%lookup_empty_Some|by intros ????? _ ?%lookup_empty_Some|by intros p [? ?%lookup_empty_Some]].
  - intros n' mf. cbn. rewrite lookup_insert. case_decide as E; [by intros [= <-]|apply Hn].
  - done.
  - intros p n'. rewrite vectorOf_setFiles. case_decide as E; [|done]. unfold vectorOf. subst n'. by rewrite Hf.
Qed.

(** A handler that only looks. *)
Lemma mirror_same_manager y : mirrorOk y -> mirrorOk (setManager (sys_manager y) y).
Proof. by destruct y. Qed.

Lemma OpenFile_mirror peer ip n mode s y st rep y' :
  mirrorOk y -> clientStubs (sys_manager y) !! peer = Some ip -> sys_clients y !! ip = Some s ->
  rpc_OpenFile (ManagerStub := systemManager std_hash raw junk now peer) n mode y = Ret (st, rep, y') ->
  match st with
  | OK => forall s' f, openedFiles s' = openedFiles s ++ [f] -> fileName f = n -> fileTokens f = [] -> mirrorOk (setClient ip s' y')
  | CANCELLED => y' = y
  end.
Proof.
  intros Hok Hp Hs Hr. cbn in Hr. apply bind_Ret in Hr as ([[st' rep'] mm'] & Ho & [= -> -> <-]).
  assert (Hsame : setManager (sys_manager y) y = y) by (by destruct y).
  destruct (Hok) as [Hmm Hn Hinj Hcl Hm]. assert (Hkeep : managerOk mm').
  { eapply (handle_keeps (ReqOpen peer n) (sys_manager y) freshServers st _ mm' freshServers); [done|by eexists|done|apply freshServers_ok|].
    cbn. by rewrite Ho. }
  unfold OpenFile in Ho. rewrite (proj1 Hmm) in Ho. destruct (files (sys_manager y) !! n) as [mf|] eqn:Hf; [|by injection Ho as <- _ <-].
  destruct (mm_lock mf); [done|]. unfold open in Ho. destruct (clientPermissions mf !! peer) eqn:Hpe; cbn in Ho; [by injection Ho as <- _ <-|].
  injection Ho as <- _ <-. intros s' f Hs' Hfn Hft. apply (mirror_replace peer); cbn; [done| |done|done|..].
  - intros n' mf'. rewrite lookup_insert. case_decide as E; [intros [= <-]; subst n'; exact (Hn n mf Hf)|apply Hn].
  - intros p ip' Hp' _. by eapply Hcl.
  - intros p ip' s1 Hp' Hne Hs1. eapply clientMatches_ext; [|exact (Hm _ _ _ Hp' Hs1)]. intros g _. rewrite vectorOf_setFiles. cbn.
    case_decide as E; [|done]. rewrite lookup_insert_ne by done. unfold vectorOf. by rewrite E, Hf.
  - eapply (clientMatches_open _ _ s s' f (Hm _ _ _ Hp Hs) Hs'); rewrite ?Hfn; [unfold vectorOf; by rewrite Hf|..|done|].
    + rewrite vectorOf_setFiles, decide_True by done. cbn. apply lookup_insert_eq.
    + intros n' Hne. by rewrite vectorOf_setFiles, decide_False.
Qed.

Lemma CloseFile_mirror peer ip n hm sz s y st rep y' i f :
  mirrorOk y -> clientStubs (sys_manager y) !! peer = Some ip -> sys_clients y !! ip = Some s -> is_u32 sz ->
  openedFiles s !! i = Some f -> fileName f = n ->
  rpc_CloseFile (ManagerStub := systemManager std_hash raw junk now peer) n hm sz y = Ret (st, rep, y') ->
  st = OK /\ forall s', openedFiles s' = erase_range i i (openedFiles s) -> mirrorOk (setClient ip s' y').
Proof.
  intros Hok Hp Hs Hsz Hf Hfn Hr. cbn in Hr. apply bind_Ret in Hr as ([[st' rep'] mm'] & Hc & [= -> -> <-]).
  destruct (Hok) as [Hmm Hn Hinj Hcl Hm]. assert (Hkeep : managerOk mm').
  { eapply (handle_keeps (ReqClose peer n hm sz now) (sys_manager y) freshServers st _ mm' freshServers); [done|done|done|apply freshServers_ok|].
    cbn. by rewrite Hc. }
  destruct (clientMatches_lookup _ _ _ _ (Hm _ _ _ Hp Hs) Hf) as (l & Hl & _). rewrite Hfn in Hl. unfold vectorOf in Hl.
  unfold CloseFile in Hc. rewrite (proj1 Hmm) in Hc. destruct (files (sys_manager y) !! n) as [mf|] eqn:Hmf; [|done]. cbn in Hl.
  set (mf1 := if hm then _ else mf) in Hc. assert (Hcp : clientPermissions mf1 = clientPermissions mf) by (unfold mf1; by destruct hm).
  assert (Hnm : getName (base mf1) = n) by (unfold mf1; destruct hm; exact (Hn n mf Hmf)).
  destruct (mm_lock mf1); [done|]. unfold close in Hc. rewrite Hcp, Hl in Hc. cbn in Hc. injection Hc as <- _ <-. split; [done|]. intros s' Hs'.
  apply (mirror_replace peer); cbn; [done| |done|done|..].
  - intros n' mf'. rewrite lookup_insert. case_decide as E; [intros [= <-]; by subst n'|apply Hn].
  - intros p ip' Hp' _. by eapply Hcl.
  - intros p ip' s1 Hp' Hne Hs1. eapply clientMatches_ext; [|exact (Hm _ _ _ Hp' Hs1)]. intros g _. rewrite vectorOf_setFiles. cbn.
    case_decide as E; [|done]. rewrite lookup_delete_ne by done. unfold vectorOf. by rewrite E, Hmf.
  - eapply (clientMatches_close _ _ s s' i f (Hm _ _ _ Hp Hs) Hf Hs'). rewrite Hfn. intros n' Hne. by rewrite vectorOf_setFiles, decide_False.
Qed.

Lemma DeleteFile_mirror peer n y r y' :
  mirrorOk y -> rpc_DeleteFile (ManagerStub := systemManager std_hash raw junk now peer) n y = Ret (r, y') ->
  mirrorOk y' /\ sys_clients y' = sys_clients y.
Proof.
  intros Hok Hr. cbn in Hr. apply bind_Ret in Hr as ([[st rep] mm'] & Hd & [= _ <-]). split; [|done].
  destruct (Hok) as [Hmm Hn _ _ _]. assert (Hkeep : managerOk mm').
  { eapply (handle_keeps (ReqDelete peer n) (sys_manager y) freshServers st _ mm' freshServers); [done|done|done|apply freshServers_ok|].
    cbn. by rewrite Hd. }
  unfold DeleteFile in Hd. rewrite (proj1 Hmm) in Hd.
  destruct (files (sys_manager y) !! n) as [mf|] eqn:Hf; [|injection Hd as _ _ <-; by apply mirror_same_manager].
  destruct (mm_lock mf); [done|]. unfold isOpen in Hd. destruct (decide (clientPermissions mf = ∅)) as [He|He]; [|injection Hd as _ _ <-; by apply mirror_same_manager].
  injection Hd as _ _ <-. rewrite <- (setServers_id (setManager _ y)). apply mirror_manager; [done|done| |done|].
  - intros n' mf'. cbn. intros [_ ?]%lookup_delete_Some. by apply Hn.
  - intros p n'. unfold vectorOf. cbn. rewrite lookup_delete. case_decide as E; [|done]. subst n'. rewrite Hf. cbn. by rewrite He, lookup_empty.
Qed.

Lemma GetFileDesc_mirror peer n y r y' :
  mirrorOk y -> rpc_GetFileDesc (ManagerStub := systemManager std_hash raw junk now peer) n y = Ret (r, y') -> y' = y.
Proof.
  intros Hok Hr. cbn in Hr. apply bind_Ret in Hr as ([[st rep] mm'] & Hd & [= _ <-]).
  unfold GetFileDesc in Hd. rewrite (proj1 (mi_manager y Hok)) in Hd. destruct (files _ !! n); injection Hd as _ _ <-; by destruct y.
Qed.

(** ** Calls of the clients *)

(** What is asked of a process: it starts once, under a number and a connection of
    its own, makes its calls over that connection, and closes only its first or
    second open file ([closeFile] mistakes the others, see
    [closeFile_closes_second_file]). *)
Definition closesEarly (ip : string) (fd : Z) y : bool :=
  match s ← sys_clients y !! ip; findDescriptor fd s with Some i => (i <? 2)%nat | None => false end.

Definition callOk (no peer : string) (c : Call) y : Prop :=
  match c with
  | CallStart => clientStubs (sys_manager y) !! peer = None /\ sys_clients y !! clientIp no = None
  | CallClose fd => clientStubs (sys_manager y) !! peer = Some (clientIp no) /\ closesEarly (clientIp no) fd y = true
  | _ => clientStubs (sys_manager y) !! peer = Some (clientIp no)
  end.

#[export] Instance callOk_dec no peer c y : Decision (callOk no peer c y).
Proof. destruct c; cbn; apply _. Defined.

Lemma mirror_servers y ws : mirrorOk y -> mirrorOk (setServers ws y).
Proof. intros [H1 H2 H3 H4 H5]. by split. Qed.

Lemma readFile_mirror peer ip fd nbyte offset s y r s' y' :
  mirrorOk y -> clientStubs (sys_manager y) !! peer = Some ip -> sys_clients y !! ip = Some s ->
  readFile (ManagerStub0 := systemManager std_hash raw junk now peer) (FileServerStub0 := systemServers junk) std_hash raw
    fd nbyte offset s y = Ret (r, s', y') -> mirrorOk (setClient ip s' y').
Proof.
  intros Hok Hp Hs Hr. unfold readFile in Hr. destruct (negb (stub_ s)); [injection Hr as _ <- <-; by rewrite setClient_id|].
  apply bind_Ret in Hr as ([[z s1] y1] & Hacq & Hr). pose proof (acquire_mirror _ _ _ _ _ _ _ _ _ _ _ Hok Hp Hs Hacq) as Hok1.
  destruct (z <? 0); [by injection Hr as _ <- <-|]. apply bind_Ret in Hr as ([[[h bs] s2] y2] & Hl & Hr).
  apply bind_Ret in Hr as (s3 & Hu & [= _ <- <-]). apply (readLoop_framed _ _ onlyServers) in Hl.
  eapply mirror_local; [eapply mirror_framed; [exact Hok1|exact Hl]|reflexivity|]. intros V. by apply (unlockFile_matches _ _ _ _ _ _ _ Hu).
Qed.

Lemma writeFile_mirror peer ip fd bs offset s y r s' y' :
  mirrorOk y -> clientStubs (sys_manager y) !! peer = Some ip -> sys_clients y !! ip = Some s ->
  writeFile (ManagerStub0 := systemManager std_hash raw junk now peer) (FileServerStub0 := systemServers junk) std_hash raw
    fd bs offset s y = Ret (r, s', y') -> mirrorOk (setClient ip s' y').
Proof.
  intros Hok Hp Hs Hr. unfold writeFile in Hr. destruct (negb (stub_ s)); [injection Hr as _ <- <-; by rewrite setClient_id|].
  apply bind_Ret in Hr as ([[z s1] y1] & Hacq & Hr). pose proof (acquire_mirror _ _ _ _ _ _ _ _ _ _ _ Hok Hp Hs Hacq) as Hok1.
  destruct (z <? 0); [by injection Hr as _ <- <-|]. apply bind_Ret in Hr as (f & Hf%deref_Ret & Hr).
  apply bind_Ret in Hr as ([[h s2] y2] & Hl & Hr). apply bind_Ret in Hr as (s3 & Hu & [= _ <- <-]). apply (writeLoop_framed _ _ onlyServers) in Hl.
  eapply mirror_local; [eapply mirror_framed; [|exact Hl]|reflexivity|intros V; by apply (unlockFile_matches _ _ _ _ _ _ _ Hu)].
  eapply mirror_local; [exact Hok1|reflexivity|]. intros V Hm. by eapply clientMatches_same.
Qed.

Lemma closeFile_mirror peer ip fd i s y r s' y' :
  mirrorOk y -> clientStubs (sys_manager y) !! peer = Some ip -> sys_clients y !! ip = Some s ->
  findDescriptor fd s = Some i -> (i < 2)%nat ->
  closeFile (ManagerStub0 := systemManager std_hash raw junk now peer) (FileServerStub0 := systemServers junk) std_hash raw
    fd s y = Ret (r, s', y') -> mirrorOk (setClient ip s' y').
Proof.
  intros Hok Hp Hs Hfind Hi Hr. unfold closeFile in Hr. destruct (negb (stub_ s)); [injection Hr as _ <- <-; by rewrite setClient_id|].
  rewrite Hfind in Hr. assert (boolFoundAt (Some i) = i) as Hb by (destruct i as [|[|i]]; [done|done|lia]). rewrite Hb in Hr.
  apply bind_Ret in Hr as (n & Hn & Hr). apply bind_Ret in Hr as (f & Hf%deref_Ret & Hr).
  unfold requestName in Hn. apply bind_Ret in Hn as (f' & Hf'%deref_Ret & [= <-]). rewrite Hf in Hf'. injection Hf' as <-.
  apply bind_Ret in Hr as ([s1 y1] & Hev & Hr). apply (evictTokens_framed _ _ onlyServers) in Hev as [[ws ->] Hsame].
  apply bind_Ret in Hr as ([[st rep] y2] & Hc & Hr).
  apply (CloseFile_mirror peer ip _ _ _ s (setServers ws y) st rep y2 i f) in Hc as [-> Hc]; [|by apply mirror_servers|done|done|apply u32_range|done|done].
  cbn in Hr. injection Hr as _ <- <-. apply Hc. cbn. by rewrite (sameButCache_files _ _ Hsame).
Qed.

Lemma openFile_mirror peer ip n mode s y r s' y' :
  mirrorOk y -> clientStubs (sys_manager y) !! peer = Some ip -> sys_clients y !! ip = Some s ->
  openFile (ManagerStub0 := systemManager std_hash raw junk now peer) n mode s y = Ret (r, s', y') -> mirrorOk (setClient ip s' y').
Proof.
  intros Hok Hp Hs Hr. unfold openFile in Hr. destruct (negb (stub_ s)); [injection Hr as _ <- <-; by rewrite setClient_id|].
  apply bind_Ret in Hr as ([[st rep] y1] & Ho & Hr). pose proof (OpenFile_mirror _ _ _ _ _ _ _ _ _ Hok Hp Hs Ho) as Hm.
  destruct st; cbn in Hr; injection Hr as _ <- <-; [by eapply Hm|]. subst y1. by rewrite setClient_id.
Qed.

(** Calls that change the manager only. *)
Lemma createFile_mirror peer n width s y r y' :
  mirrorOk y -> createFile (ManagerStub0 := systemManager std_hash raw junk now peer) n width s y = Ret (r, y') ->
  mirrorOk y' /\ sys_clients y' = sys_clients y.
Proof.
  intros Hok Hr. unfold createFile in Hr. destruct (negb (stub_ s)); [by injection Hr as _ <-|].
  apply bind_Ret in Hr as ([st y1] & Hr & [= _ <-]). by apply (CreateFile_mirror _ _ _ _ _ _ Hok Hr).
Qed.

Lemma deleteFile_mirror peer n s y r y' :
  mirrorOk y -> deleteFile (ManagerStub0 := systemManager std_hash raw junk now peer) n s y = Ret (r, y') ->
  mirrorOk y' /\ sys_clients y' = sys_clients y.
Proof.
  intros Hok Hr. unfold deleteFile in Hr. destruct (negb (stub_ s)); [by injection Hr as _ <-|].
  apply bind_Ret in Hr as ([st y1] & Hr & [= _ <-]). by apply (DeleteFile_mirror _ _ _ _ _ Hok Hr).
Qed.

Lemma getFileStat_same peer fd s y r y' :
  mirrorOk y -> getFileStat (ManagerStub0 := systemManager std_hash raw junk now peer) fd s y = Ret (r, y') -> y' = y.
Proof.
  intros Hok Hr. unfold getFileStat in Hr. destruct (negb (stub_ s)); [by injection Hr as _ <-|].
  apply bind_Ret in Hr as (nm & _ & Hr). apply bind_Ret in Hr as ([[st rep] y1] & Hr & Hr'). apply (GetFileDesc_mirror _ _ _ _ _ Hok) in Hr as ->.
  destruct (status_ok st); by injection Hr' as _ <-.
Qed.

Lemma atClient_manager {A} ip (op : PFSClient -> System -> outcome (A * PFSClient * System)) y a y' :
  (forall s s' y1, op s y = Ret (a, s', y1) -> s' = s /\ mirrorOk y1 /\ sys_clients y1 = sys_clients y) ->
  atClient ip op y = Ret (a, y') -> mirrorOk y'.
Proof.
  intros Hop (s & s' & y1 & Hs & Hr & ->)%atClient_inv. destruct (Hop _ _ _ Hr) as (-> & Hok & Hcl). rewrite setClient_id; [done|by rewrite Hcl].
Qed.

(** Calls that change the cache and the file servers only. *)
Lemma atClient_framed {A} ip (op : PFSClient -> System -> outcome (A * PFSClient * System)) y a y' :
  mirrorOk y -> (forall s s' y1, op s y = Ret (a, s', y1) -> framed onlyServers s y s' y1) -> atClient ip op y = Ret (a, y') -> mirrorOk y'.
Proof. intros Hok Hop (s & s' & y1 & Hs & Hr & ->)%atClient_inv. eapply mirror_framed; [by rewrite setClient_id|by apply Hop]. Qed.

Lemma thread_mirror thread no y y' :
  mirrorOk y -> (forall s c c' y1, thread s c y = Ret (c', y1) -> framed onlyServers s y (setInstance (Some c') s) y1) ->
  sysThread raw thread no y = Ret y' -> mirrorOk y'.
Proof.
  intros Hok Hth Hr. unfold sysThread in Hr. apply bind_Ret in Hr as ([[] y1] & Hr & [= <-]). eapply atClient_framed; [exact Hok| |exact Hr].
  intros s s' y2 Hop. apply bind_Ret in Hop as (c & _ & Hop). apply bind_Ret in Hop as ([c3 y3] & Hop & [= <- <-]). by eapply Hth.
Qed.

(** Every call keeps the invariant. *)
Lemma call_mirror no peer c y r y' :
  mirrorOk y -> callOk no peer c y -> sysCall std_hash raw junk now no peer c y = Ret (r, y') -> mirrorOk y'.
Proof.
  intros Hok Hc Hr. destruct c as [|n width|n mode|fd nbyte offset|fd bs offset|fd|n|fd| | |]; cbn [sysCall callOk] in *;
    apply bind_Ret in Hr as (v & Hr & Hv); injection Hv as _ <-; try match type of v with (_ * _)%type => destruct v as [z y1] end.
  - destruct Hc as [Hp Hip]. by eapply start_mirror.
  - eapply atClient_manager; [|exact Hr]. intros s s' y2 Hop. apply bind_Ret in Hop as ([z2 y3] & Hop & [= _ <- <-]).
    split; [done|]. by eapply createFile_mirror.
  - apply atClient_inv in Hr as (s & s' & y2 & Hs & Hr & ->). by eapply openFile_mirror.
  - apply atClient_inv in Hr as (s & s' & y2 & Hs & Hr & ->). by eapply readFile_mirror.
  - apply atClient_inv in Hr as (s & s' & y2 & Hs & Hr & ->). by eapply writeFile_mirror.
  - destruct Hc as [Hp Hi]. apply atClient_inv in Hr as (s & s' & y2 & Hs & Hr & ->). unfold closesEarly in Hi. rewrite Hs in Hi.
    cbn in Hi. destruct (findDescriptor fd s) as [i|] eqn:Hfind; [|done]. apply Nat.leb_le in Hi. eapply closeFile_mirror; [done..|lia|done].
  - eapply atClient_manager; [|exact Hr]. intros s s' y2 Hop. apply bind_Ret in Hop as ([z2 y3] & Hop & [= _ <- <-]).
    split; [done|]. by eapply deleteFile_mirror.
  - eapply atClient_manager; [|exact Hr]. intros s s' y2 Hop. apply bind_Ret in Hop as ([z2 y3] & Hop%(getFileStat_same _ _ _ _ _ _ Hok) & [= _ <- <-]).
    cbn. by subst y3.
  - unfold sysFinalize in Hr. apply bind_Ret in Hr as ([[] y1] & Hr & [= <-]). eapply atClient_framed; [exact Hok| |exact Hr].
    intros s s' y2 Hop. apply bind_Ret in Hop as ([s3 y3] & Hop & [= <- <-]). exact (finalize_framed onlyServers _ _ _ _ Hop).
  - eapply thread_mirror; [exact Hok| |exact Hr]. intros s c c' y1. apply (flusher_framed onlyServers).
  - eapply thread_mirror; [exact Hok| |exact Hr]. intros s c c' y1. apply (harvester_framed onlyServers).
Qed.

(** The states that sequences of calls lead to. *)
Inductive sysReachable : System -> Prop :=
| reach_init : sysReachable newSystem
| reach_call no peer c y r y' :
    sysReachable y -> callOk no peer c y -> sysCall std_hash raw junk now no peer c y = Ret (r, y') -> sysReachable y'.

Lemma newSystem_mirror : mirrorOk newSystem.
Proof.
  split; cbn; [|by intros ?? ?%lookup_empty_Some|by intros ??? ?%lookup_empty_Some|by intros ?? ?%lookup_empty_Some|by intros ??? ?%lookup_empty_Some].
  split; [done|]. cbn. by intros ?? ?%lookup_empty_Some.
Qed.

Lemma reachable_mirror y : sysReachable y -> mirrorOk y.
Proof. induction 1 as [|no peer c y r y' _ IH Hc Hr]; [apply newSystem_mirror|by eapply call_mirror]. Qed.

(** The exclusion of the manager, at the clients. *)
Lemma mirror_exclusive y p q ip iq sp sq f g b :
  mirrorOk y -> clientStubs (sys_manager y) !! p = Some ip -> clientStubs (sys_manager y) !! q = Some iq -> p <> q ->
  sys_clients y !! ip = Some sp -> sys_clients y !! iq = Some sq -> f ∈ openedFiles sp -> g ∈ openedFiles sq -> fileName f = fileName g ->
  holds (fileTokens f) true b -> ~ holds (fileTokens g) false b.
Proof.
  intros Hy Hp Hq Hne Hsp Hsq Hf Hg Hfg.
  destruct (mi_match y Hy p ip sp Hp Hsp) as [_ H1]. destruct (mi_match y Hy q iq sq Hq Hsq) as [_ H2]. rewrite Forall_forall in H1, H2.
  destruct (H1 f Hf) as (lf & Hlf & ->). destruct (H2 g Hg) as (lg & Hlg & ->). unfold vectorOf in Hlf, Hlg. rewrite <- Hfg in Hlg.
  destruct (files (sys_manager y) !! fileName f) as [mf|] eqn:Hmf; [|done]. cbn in Hlf, Hlg.
  destruct (mi_manager y Hy) as [_ Hall]. destruct (Hall _ _ Hmf) as (_ & _ & Hex & _). by eapply (Hex p q).
Qed.

(** A list of calls, run one after the other. *)
Definition runCalls (l : list (string * string * Call)) (y : System) : outcome System :=
  foldM (fun x y => let '(no, peer, c) := x in
    if decide (callOk no peer c y) then r ← sysCall std_hash raw junk now no peer c y; Ret r.2 else Blocked) l y.

Lemma runCalls_reachable l y y' : sysReachable y -> runCalls l y = Ret y' -> sysReachable y'.
Proof.
  unfold runCalls. revert y. induction l as [|[[no peer] c] l IH]; intros y Hy; cbn [foldM]; [by intros [= <-]|]. intros Hr.
  apply bind_Ret in Hr as (y1 & Hc & Hr). destruct (decide (callOk no peer c y)) as [Hok|]; [|done].
  apply bind_Ret in Hc as ([r y2] & Hc & [= <-]). eapply IH; [by eapply reach_call|exact Hr].
Qed.

(** ** Properties *)

(** C20: in every state that a sequence of whole calls leads to, if each process starts
    once, with an address that is new to the manager, and then makes its own calls, and a
    client closes only the first or the second of its open files, the tokens that a
    client has for an open file are exactly those that the manager has recorded for it:
    replies and revoke requests keep the two sides in step. (A close of a later file
    breaks it: [closeFile_closes_second_file].) *)
Theorem client_tokens_mirrored y p ip s f :
  sysReachable y -> clientStubs (sys_manager y) !! p = Some ip -> sys_clients y !! ip = Some s -> f ∈ openedFiles s ->
  exists l, vectorOf (sys_manager y) p (fileName f) = Some l /\ same_tokens (fileTokens f) l.
Proof.
  intros Hy%reachable_mirror Hp Hs Hf. destruct (mi_match y Hy p ip s Hp Hs) as [_ Hall]. rewrite Forall_forall in Hall. by apply Hall.
Qed.

(** In every state that calls of the clients lead to, a byte of a file that one
    client may write by its own tokens is not accessible to any other client by its
    own tokens, although each works on a vector of its own. *)
Lemma client_tokens_exclusive y p q ip iq sp sq f g b :
  sysReachable y -> clientStubs (sys_manager y) !! p = Some ip -> clientStubs (sys_manager y) !! q = Some iq -> p <> q ->
  sys_clients y !! ip = Some sp -> sys_clients y !! iq = Some sq -> f ∈ openedFiles sp -> g ∈ openedFiles sq -> fileName f = fileName g ->
  holds (fileTokens f) true b -> ~ holds (fileTokens g) false b.
Proof.
  intros Hy%reachable_mirror. by apply mirror_exclusive.
Qed.

End Steps.

(** ** A concrete run *)

#[local] Instance invCodes : GrpcCodes := {|
  error_code st := match st with OK => 0 | CANCELLED => 1 end;
  error_code_OK := eq_refl;
  error_code_CANCELLED := eq_refl |}.

(** Two clients on one file: [a] writes one byte and gets the whole file, [b] then
    reads the bytes 1024 to 2047. *)
Definition twoClients : list (string * string * Call) :=
  [("1"%string, "a"%string, CallStart); ("2"%string, "b"%string, CallStart);
   ("1"%string, "a"%string, CallCreate "f" 3); ("1"%string, "a"%string, CallOpen "f" "w"%char); ("2"%string, "b"%string, CallOpen "f" "r"%char);
   ("1"%string, "a"%string, CallWrite 1 [x41] 0); ("2"%string, "b"%string, CallRead 1 1024 1024)].

(** Name and tokens of the first open file of a client. *)
Definition firstFile (ip : string) (y : System) : option (string * list (Z * Z * bool)) :=
  s ← sys_clients y !! ip; f ← openedFiles s !! 0%nat; Some (fileName f, (fun p => (getStart p, getEnd p, isWrite p)) <$> fileTokens f).

Lemma firstFile_inv ip y n ts :
  firstFile ip y = Some (n, ts) ->
  exists s f, sys_clients y !! ip = Some s /\ f ∈ openedFiles s /\ fileName f = n /\
    (fun p => (getStart p, getEnd p, isWrite p)) <$> fileTokens f = ts.
Proof.
  unfold firstFile. intros (s & Hs & (f & Hf & [= <- <-])%bind_Some)%bind_Some. exists s, f. split; [done|].
  split; [by eapply list_elem_of_lookup_2|done].
Qed.

Lemma twoClients_run : exists y, sysReachable ids rawBlock zeroByte 0 y /\
  clientStubs (sys_manager y) !! "a"%string = Some (clientIp "1") /\ clientStubs (sys_manager y) !! "b"%string = Some (clientIp "2") /\
  firstFile (clientIp "1") y = Some ("f"%string, [(0, 1024, true); (2048, INT_MAX, true)]) /\
  firstFile (clientIp "2") y = Some ("f"%string, [(1024, 2048, false)]).
Proof.
  assert (Hrun : match runCalls ids rawBlock zeroByte 0 twoClients newSystem with
    | Ret y => (clientStubs (sys_manager y) !! "a"%string, clientStubs (sys_manager y) !! "b"%string, firstFile (clientIp "1") y, firstFile (clientIp "2") y)
    | _ => (None, None, None, None) end =
    (Some (clientIp "1"), Some (clientIp "2"), Some ("f"%string, [(0, 1024, true); (2048, INT_MAX, true)]), Some ("f"%string, [(1024, 2048, false)])))
    by (vm_compute; reflexivity).
  destruct (runCalls ids rawBlock zeroByte 0 twoClients newSystem) as [y| |] eqn:E; [|discriminate Hrun..]. exists y.
  split; [eapply runCalls_reachable; [constructor|exact E]|]. clear E. injection Hrun as H1 H2 H3 H4.
  split; [exact H1|]. split; [exact H2|]. split; [exact H3|exact H4].
Qed.

Lemma client_tokens_mirrored_witness : exists y s f l,
  sys_clients y !! clientIp "2" = Some s /\ f ∈ openedFiles s /\
  vectorOf (sys_manager y) "b" (fileName f) = Some l /\ same_tokens (fileTokens f) l.
Proof.
  destruct twoClients_run as (y & Hy & _ & Hb & _ & Hf). apply firstFile_inv in Hf as (s & f & Hs & Hf & _).
  destruct (client_tokens_mirrored ids rawBlock zeroByte 0 y "b" (clientIp "2") s f Hy Hb Hs Hf) as (l & Hl & Hsame).
  exists y, s, f, l. split; [exact Hs|]. split; [exact Hf|]. split; [exact Hl|exact Hsame].
Defined.

(** The client [a] opens a file that [b] has open too. *)
Definition bothOpen : list (string * string * Call) :=
  [("1"%string, "a"%string, CallStart); ("2"%string, "b"%string, CallStart);
   ("1"%string, "a"%string, CallCreate "f" 3); ("1"%string, "a"%string, CallOpen "f" "w"%char); ("2"%string, "b"%string, CallOpen "f" "r"%char)].

(** The tokens that [a] has acquired for a write of no bytes at offset 0. *)
Definition emptyRequest (o : outcome System) : option (list Permission) :=
  match o with
  | Ret y =>
      s ← sys_clients y !! clientIp "1";
      match acquirePermission (ManagerStub0 := systemManager ids rawBlock zeroByte 0 "a") 1 0 0 true s y with
      | Ret (z, s1, _) =>
          match openedFiles s1 with
          | [f] => if stub_ s && (z =? 0) && String.eqb (fileName f) "f" then Some (fileTokens f) else None
          | _ => None
          end
      | _ => None
      end
  | _ => None
  end.

Lemma emptyRequest_inv o ps :
  emptyRequest o = Some ps ->
  exists y s s1 y1 f, o = Ret y /\ sys_clients y !! clientIp "1" = Some s /\ stub_ s = true /\
    acquirePermission (ManagerStub0 := systemManager ids rawBlock zeroByte 0 "a") 1 0 0 true s y = Ret (0, s1, y1) /\
    openedFiles s1 = [f] /\ fileName f = "f"%string /\ fileTokens f = ps.
Proof.
  unfold emptyRequest. destruct o as [y| |]; [|done..]. intros (s & Hs & Hv)%bind_Some.
  destruct (acquirePermission 1 0 0 true s y) as [[[z s1] y1]| |] eqn:Ha; [|done..]. destruct (openedFiles s1) as [|f [|]] eqn:Hf; [done| |done].
  destruct (stub_ s && (z =? 0) && String.eqb (fileName f) "f") eqn:Ht; [|done]. injection Hv as <-.
  apply andb_true_iff in Ht as [[Hst ->%Z.eqb_eq]%andb_true_iff Hn%String.eqb_eq]. by exists y, s, s1, y1, f.
Qed.

Lemma bothOpen_request :
  emptyRequest (runCalls ids rawBlock zeroByte 0 bothOpen newSystem) = Some [mkPermission 0 INT_MAX true true true []].
Proof. vm_compute. reflexivity. Qed.

