(* ===== verification/Consistency.v ===== *)
(** Sequential consistency of the whole system.

    A ghost map [M] has the byte that was last written to each address of each file.
    [consistent] says where these bytes are: a byte that a client may access by its
    tokens is in place at that client (in its cache, or stored), and a byte that no
    client may write is stored on the file servers. The invariant is kept by every
    call of an orderly client, whatever tokens move between the clients meanwhile,
    and under it every read returns the bytes of [M]. *)

From Stdlib Require Import String Ascii Strings.Byte.
From stdpp Require Import gmap strings.
From S2P Require Import Prelude Config Permission File Tokens MMFile FileServer MetadataManager ClientFile Cache CacheLists CacheSpec CacheProps Client ClientSpec ClientFrame ClientProps System SystemInv.
#[local] Open Scope Z_scope.

(** ** Access *)

#[export] Instance holds_dec l w b : Decision (holds l w b).
Proof. apply (list_exist_dec (fun p => grants p w b)). intros p. apply _. Defined.

(** The bytes that a client may read, or write, by the tokens it has. *)
Definition mayAccess (s : PFSClient) (w : bool) (n : string) (x : Z) : Prop :=
  exists f, f ∈ openedFiles s /\ (fileName f = n /\ holds (fileTokens f) w x).

#[export] Instance mayAccess_dec s w n x : Decision (mayAccess s w n x).
Proof. apply (list_exist_dec (fun f => fileName f = n /\ holds (fileTokens f) w x)). intros f. apply _. Defined.

(** The bytes of [M] that the client may access. *)
Definition heldBytes (M : string -> Z -> option byte) (s : PFSClient) (n : string) (x : Z) : option byte :=
  if decide (mayAccess s false n x) then M n x else None.

Lemma heldBytes_Some M s n x v : heldBytes M s n x = Some v <-> mayAccess s false n x /\ M n x = Some v.
Proof. unfold heldBytes. case_decide; [tauto|]. split; [done|tauto]. Qed.

Lemma mayAccess_weaken s n x : mayAccess s true n x -> mayAccess s false n x.
Proof. intros (f & Hf & Hn & Hh). exists f. split; [done|]. split; [done|]. by apply holds_weaken. Qed.

(** One file of the vector is replaced. *)
Lemma mayAccess_set s s' i f f' w n x :
  NoDup (fileName <$> openedFiles s) -> openedFiles s !! i = Some f -> openedFiles s' = <[i := f']> (openedFiles s) -> fileName f' = fileName f ->
  mayAccess s' w n x <-> (if decide (n = fileName f) then holds (fileTokens f') w x else mayAccess s w n x).
Proof.
  intros Hnd Hf Hs' Hn. unfold mayAccess. rewrite Hs'. split.
  - intros (g & (j & Hj)%list_elem_of_lookup & Hgn & Hg). apply list_lookup_insert_Some in Hj as [(-> & <- & _)|[Hne Hj]].
    + by rewrite decide_True by congruence.
    + rewrite decide_False; [exists g; split; [by eapply list_elem_of_lookup_2|done]|].
      intros ->. apply Hne. by eapply (fileName_unique s i j f g).
  - case_decide as Hd; [intros Hh; exists f'; split; [|by rewrite Hn, Hd]|].
    + apply list_elem_of_lookup. exists i. apply list_lookup_insert_eq. by eapply lookup_lt_Some.
    + intros (g & (j & Hj)%list_elem_of_lookup & Hgn & Hg). exists g. split; [|done]. apply list_elem_of_lookup. exists j.
      rewrite list_lookup_insert_ne; [done|]. intros ->. rewrite Hf in Hj. congruence.
Qed.

Lemma mayAccess_same s s' i f f' w n x :
  NoDup (fileName <$> openedFiles s) -> openedFiles s !! i = Some f -> openedFiles s' = <[i := f']> (openedFiles s) -> fileName f' = fileName f ->
  same_tokens (fileTokens f') (fileTokens f) -> mayAccess s' w n x <-> mayAccess s w n x.
Proof.
  intros Hnd Hf Hs' Hn Ht. rewrite (mayAccess_set s s' i f f') by done. case_decide as Hd; [|done]. rewrite Ht, Hd. split.
  - intros Hh. exists f. split; [by eapply list_elem_of_lookup_2|done].
  - intros (g & (j & Hj)%list_elem_of_lookup & Hgn & Hg). assert (i = j) as <- by (by eapply (fileName_unique s i j f g)). congruence.
Qed.

Lemma mayAccess_lookup s i f w x :
  NoDup (fileName <$> openedFiles s) -> openedFiles s !! i = Some f -> mayAccess s w (fileName f) x <-> holds (fileTokens f) w x.
Proof.
  intros Hnd Hf. split.
  - intros (g & (j & Hj)%list_elem_of_lookup & Hgn & Hg). assert (i = j) as <- by (by eapply (fileName_unique s i j f g)). congruence.
  - intros Hh. exists f. split; [by eapply list_elem_of_lookup_2|done].
Qed.

(** The stripe width that the manager has for a file. *)
Definition widthOf (mm : MetadataManager) (n : string) : option Z := (fun mf => getStripWidth (base mf)) <$> files mm !! n.

(** The client of a connection. *)
Definition isClient (y : System) (p : string) (s : PFSClient) : Prop :=
  exists ip, clientStubs (sys_manager y) !! p = Some ip /\ sys_clients y !! ip = Some s.

Lemma table_names s : (fun e => e.1.1) <$> table s = fileName <$> openedFiles s.
Proof. unfold table. by rewrite <- list_fmap_compose. Qed.

Section Consistency.
Context `{!GrpcCodes} (std_hash : Z -> Z) (raw : nat -> CacheBlock) (junk : nat -> byte) (now : Z).
Implicit Types (y : System) (s : PFSClient) (a : LRU) (ws : list FileServer) (M : string -> Z -> option byte).

Abbreviation clientOkAt := (clientOk (W := list FileServer) (FileServerStub0 := serversStub junk)
  (FileServerStubOk0 := serversStubOk junk) std_hash raw).
Abbreviation drainedAt := (drained (W := list FileServer) (FileServerStub0 := serversStub junk)
  (FileServerStubOk0 := serversStubOk junk)).
Abbreviation keepsServedAt := (keepsServed (W := list FileServer) (FileServerStub0 := serversStub junk)
  (FileServerStubOk0 := serversStubOk junk)).

(** ** The invariant *)

(** One client: the bytes it may access are in place, every byte of a cached block is
    covered by its tokens, and every dirty byte by a write token. *)
Record clientGood M ws s a : Prop := mkClientGood {
  cg_ok : clientOkAt (heldBytes M s) s a ws;
  cg_covered n d wd x : (n, d, wd) ∈ table s -> is_Some (cached a (d, baseOf x)) -> mayAccess s false n x;
  cg_owned n x : dirtyAt (table s) a n x -> mayAccess s true n x;
  cg_tokens f : f ∈ openedFiles s -> sorted_from 0 (fileTokens f) /\ small (fileTokens f);
  cg_descriptors f : f ∈ openedFiles s -> 0 < getDescriptor f <= descriptorCount s;
  cg_count : 0 <= descriptorCount s <= INT_MAX;
  cg_stub : stub_ s = true }.

Record consistent M y : Prop := mkConsistent {
  co_services : servicesOk (sys_servers y);
  co_client p s : isClient y p s -> exists a, clientGood M (sys_servers y) s a;
  co_exclusive p q sp sq n x : isClient y p sp -> isClient y q sq -> p <> q -> mayAccess sp true n x -> ~ mayAccess sq false n x;
  co_width p s n d wd : isClient y p s -> (n, d, wd) ∈ table s -> widthOf (sys_manager y) n = Some wd;
  co_served n wd : widthOf (sys_manager y) n = Some wd -> 0 < wd <= INT_MAX /\ serversServed (sys_servers y) n wd;
  co_stored n wd x v : widthOf (sys_manager y) n = Some wd -> 0 <= x -> M n x = Some v ->
    (forall p s, isClient y p s -> ~ mayAccess s true n x) -> serversByte (sys_servers y) n wd x = Some v }.

Lemma cg_names M ws s a : clientGood M ws s a -> NoDup (fileName <$> openedFiles s).
Proof. intros Hg. rewrite <- table_names. apply (tb_names _ _ (ok_table _ _ _ _ _ _ (cg_ok _ _ _ _ Hg))). Qed.

(** The servers change, but not where the client looks. *)
Lemma clientGood_frame M M' ws ws' s a :
  clientGood M ws s a -> keepsServedAt ws ws' ->
  (forall n x v, mayAccess s false n x -> M' n x = Some v -> M n x = Some v) ->
  (forall n wd x v, 0 <= x -> mayAccess s false n x -> serversByte ws n wd x = Some v -> serversByte ws' n wd x = Some v) ->
  clientGood M' ws' s a.
Proof.
  intros [[H1 H2 H3 H4 H5] Hc Ho Ht Hd Hn Hst] Hs HM Hb. split; [|done..]. split; [done|done| |done|].
  - by eapply tableOk_served.
  - intros n d wd x v Hin Hx [Hacc Hv]%heldBytes_Some. specialize (H5 n d wd x v Hin Hx (proj2 (heldBytes_Some _ _ _ _ _) (conj Hacc (HM _ _ _ Hacc Hv)))).
    specialize (Hb n wd x v Hx Hacc). unfold valueAt in *. destruct (cached a (d, baseOf x)); [|by apply Hb].
    destruct H5 as [? [?|?]]; [split; auto|]. split; [done|]. right. by apply Hb.
Qed.

Lemma isClient_set y p ip q s sq ws' :
  injective (clientStubs (sys_manager y)) -> clientStubs (sys_manager y) !! p = Some ip ->
  isClient (setClient ip s (setServers ws' y)) q sq -> (q = p /\ sq = s) \/ (q <> p /\ isClient y q sq).
Proof.
  intros Hinj Hp (iq & Hq & Hs). cbn in Hq, Hs. rewrite lookup_insert in Hs. case_decide as Hd.
  - injection Hs as <-. left. split; [|done]. subst iq. by eapply Hinj.
  - right. split; [intros ->; congruence|]. by exists iq.
Qed.

(** The state of the client [p] and the servers are replaced. *)
Lemma consistent_replace M M' y p ip s' a' ws' :
  consistent M y -> injective (clientStubs (sys_manager y)) -> clientStubs (sys_manager y) !! p = Some ip ->
  clientGood M' ws' s' a' -> keepsServedAt (sys_servers y) ws' ->
  (forall n d wd, (n, d, wd) ∈ table s' -> widthOf (sys_manager y) n = Some wd) ->
  (forall q sq n x, isClient y q sq -> q <> p ->
    (mayAccess s' true n x -> ~ mayAccess sq false n x) /\ (mayAccess sq true n x -> ~ mayAccess s' false n x)) ->
  (forall q sq n wd x v, isClient y q sq -> q <> p -> 0 <= x -> mayAccess sq false n x ->
    serversByte (sys_servers y) n wd x = Some v -> serversByte ws' n wd x = Some v) ->
  (forall q sq n x v, isClient y q sq -> q <> p -> mayAccess sq false n x -> M' n x = Some v -> M n x = Some v) ->
  (forall n wd x v, widthOf (sys_manager y) n = Some wd -> 0 <= x -> M' n x = Some v -> ~ mayAccess s' true n x ->
    (forall q sq, isClient y q sq -> q <> p -> ~ mayAccess sq true n x) -> serversByte ws' n wd x = Some v) ->
  consistent M' (setClient ip s' (setServers ws' y)).
Proof.
  intros [Hsv Hcl Hex Hwi Hse Hst] Hinj Hp Hgood Hks Htab Hex' Hoth HM Hst'. split; [by apply Hks|..].
  - intros q sq Hq. apply (isClient_set _ p) in Hq as [[-> ->]|[Hne Hq]]; [by exists a'| |done|done].
    destruct (Hcl q sq Hq) as [a Ha]. exists a. eapply clientGood_frame; [exact Ha|exact Hks|by intros n x v; apply (HM q)|by intros n wd x v; apply (Hoth q sq)].
  - intros q r sq sr n x Hq Hr Hne. apply (isClient_set _ p) in Hq as [[-> ->]|[Hq1 Hq]]; [| |done|done];
      (apply (isClient_set _ p) in Hr as [[-> ->]|[Hr1 Hr]]; [| |done|done]); [done|by eapply (Hex' r)|by eapply (Hex' q)|by eapply (Hex q r)].
  - intros q sq n d wd Hq. apply (isClient_set _ p) in Hq as [[-> ->]|[Hne Hq]]; [by apply Htab|by eapply Hwi|done|done].
  - intros n wd Hw. destruct (Hse n wd Hw) as [? ?]. split; [done|]. by apply Hks.
  - intros n wd x v Hw Hx Hv Hno. apply (Hst' n wd x v Hw Hx Hv).
    + apply (Hno p). exists ip. split; [done|]. cbn. apply lookup_insert_eq.
    + intros q sq Hq Hne. apply (Hno q). destruct Hq as (iq & Hq & Hs). exists iq. split; [done|]. cbn. rewrite lookup_insert_ne; [done|].
      intros <-. apply Hne. by eapply Hinj.
Qed.

Lemma entry_of f s : f ∈ openedFiles s -> entry f ∈ table s.
Proof. intros Hf. apply list_elem_of_fmap. by exists f. Qed.

(** ** Bytes go to the servers *)

(** A client puts blocks on the servers and may lose tokens: what it loses write
    access to is stored. *)
Lemma consistent_drain M y p ip s s' a a' ws' :
  consistent M y -> injective (clientStubs (sys_manager y)) -> clientStubs (sys_manager y) !! p = Some ip -> sys_clients y !! ip = Some s ->
  clientGood M (sys_servers y) s a -> drainedAt (table s) a (sys_servers y) a' ws' -> clientGood M ws' s' a' ->
  (forall e, e ∈ table s' -> e ∈ table s) -> (forall w n x, mayAccess s' w n x -> mayAccess s w n x) ->
  (forall n d wd x v, (n, d, wd) ∈ table s -> 0 <= x -> M n x = Some v -> mayAccess s true n x -> ~ mayAccess s' true n x ->
    serversByte ws' n wd x = Some v) ->
  consistent M (setClient ip s' (setServers ws' y)).
Proof.
  intros Hcon Hinj Hp Hs Hg Hdr Hg' Htab Hacc Hlost. assert (Hc : isClient y p s) by (by exists ip).
  assert (Hdirty : forall n x, dirtyAt (table s) a n x -> mayAccess s true n x) by (apply (cg_owned _ _ _ _ Hg)).
  apply (consistent_replace M M y p ip s' a' ws'); [done|done|done|done|apply Hdr|..].
  - intros n d wd Hin%Htab. by eapply (co_width _ _ Hcon).
  - intros q sq n x Hq Hne. split.
    + intros Hm%Hacc. by apply (co_exclusive _ _ Hcon p q s sq n x Hc Hq (not_eq_sym Hne)).
    + intros Hm Hm'%Hacc. by apply (co_exclusive _ _ Hcon q p sq s n x Hq Hc Hne Hm).
  - intros q sq n wd x v Hq Hne Hx Hm. apply (dr_stored _ _ _ _ _ Hdr); [done|]. intros Hd%Hdirty.
    by apply (co_exclusive _ _ Hcon p q s sq n x Hc Hq (not_eq_sym Hne) Hd).
  - done.
  - intros n wd x v Hw Hx Hv Hno Hoth. destruct (decide (mayAccess s true n x)) as [Hm|Hm].
    + assert (Hm' := Hm). destruct Hm' as (f & Hf%entry_of & Hfn & _). destruct (entry f) as [[n' d] wd'] eqn:He.
      assert (n' = n) as -> by (injection He as <- _ _; exact Hfn). pose proof (co_width _ _ Hcon p s n d wd' Hc Hf) as Hw'.
      rewrite Hw in Hw'. injection Hw' as <-. by apply (Hlost n d wd x v).
    + apply (dr_stored _ _ _ _ _ Hdr); [done|by intros ?%Hdirty|]. apply (co_stored _ _ Hcon n wd x v Hw Hx Hv). intros q sq Hq.
      destruct (decide (q = p)) as [->|Hne]; [|by apply (Hoth q sq)]. destruct Hq as (ip' & Hq & Hsq). congruence.
Qed.

(** ** Revocation *)

(** The tokens of one file change; a client keeps its other fields. *)
Lemma table_withTokens s i f ps c :
  openedFiles s !! i = Some f -> table (setInstance c (setFileAt i (withTokens ps f) s)) = table s.
Proof. intros Hf. by apply (table_setFileAt s i f). Qed.

Lemma elem_of_withTokens s i f ps c g :
  g ∈ openedFiles (setInstance c (setFileAt i (withTokens ps f) s)) -> g = withTokens ps f \/ g ∈ openedFiles s.
Proof.
  intros (j & Hj)%list_elem_of_lookup. cbn in Hj. apply list_lookup_insert_Some in Hj as [(_ & <- & _)|[_ Hj]]; [by left|right].
  by eapply list_elem_of_lookup_2.
Qed.

Lemma revoke_good M ws s a i f n st en wr sem s' ws' :
  clientGood M ws s a -> openedFiles s !! i = Some f -> fileName f = n -> 0 <= st <= en -> en <= INT_MAX ->
  Client.revokePermission (FileServerStub0 := serversStub junk) std_hash raw n st en wr sem s ws = Ret (s', ws') ->
  exists a', clientGood M ws' s' a' /\ drainedAt (table s) a ws a' ws' /\ table s' = table s /\
    (forall w n' x, mayAccess s' w n' x <-> mayAccess s w n' x /\ ~ (n' = n /\ st <= x < en)) /\
    (forall d wd x v, (n, d, wd) ∈ table s -> st <= x < en -> mayAccess s false n x -> M n x = Some v -> serversByte ws' n wd x = Some v).
Proof.
  intros Hg Hf Hn Hst Hen Hr. assert (Hok := cg_ok _ _ _ _ Hg). assert (Hnd := cg_names _ _ _ _ Hg).
  pose proof (revoke_unlocked (W := list FileServer) (FileServerStub0 := serversStub junk) (FileServerStubOk0 := serversStubOk junk)
    std_hash raw s ws i f n st en wr sem _ (ok_table _ _ _ _ _ _ Hok) Hf Hn Hr) as Hun.
  destruct (entry f) as [[n0 d] wd] eqn:He. assert (n0 = n) as -> by (injection He as <- _ _; exact Hn).
  destruct (revoke_run (W := list FileServer) (FileServerStub0 := serversStub junk) (FileServerStubOk0 := serversStubOk junk)
    std_hash raw (heldBytes M s) s a ws i f n d wd st en wr sem) as (c & a' & ws1 & ps & Hr1 & Hok' & Hps & Hdr & Hgone);
    [done|done|done|word_lia|word_lia|change pfsBlockSizeInBytes with 1024; word_lia|done|].
  rewrite Hr in Hr1. injection Hr1 as -> ->. set (s1 := setInstance _ _) in *.
  destruct (cg_tokens _ _ _ _ Hg f ltac:(by eapply list_elem_of_lookup_2)) as [Hsort Hsm].
  destruct (revokeRange_exact st en (fileTokens f)) as (ps' & Hps' & [_ Hsort'] & Hh);
    [word_lia|word_lia|by split; [apply small_bounded|]|lia|].
  assert (ps' = ps) as -> by (unfold fileTokens in Hps'; rewrite Hps in Hps'; by injection Hps').
  assert (Htab : table s1 = table s) by (by apply table_withTokens).
  assert (Hacc : forall w n' x, mayAccess s1 w n' x <-> mayAccess s w n' x /\ ~ (n' = n /\ st <= x < en)).
  { intros w n' x. rewrite (mayAccess_set s s1 i f (withTokens ps f)) by done. rewrite Hn. case_decide as Hd; [|tauto].
    subst n'. change (fileTokens (withTokens ps f)) with ps. rewrite Hh, <- Hn, (mayAccess_lookup s i f w x Hnd Hf). tauto. }
  assert (Hstay : forall n' d' wd' x, (n', d', wd') ∈ table s -> is_Some (cached a' (d', baseOf x)) -> ~ (n' = n /\ st <= x < en)).
  { intros n' d' wd' x Hin Hc [-> Hx].
    destruct (table_name_unique _ _ _ _ _ _ _ (ok_table _ _ _ _ _ _ Hok) (entry_in_table s i f n d wd Hf He) Hin) as [-> _].
    rewrite Hgone in Hc by lia. by destruct Hc. }
  exists a'. split; [|split; [done|split; [done|split; [done|]]]].
  - split; [|..|apply (cg_count _ _ _ _ Hg)|apply (cg_stub _ _ _ _ Hg)].
    + eapply clientOk_sub; [|exact Hok']. intros n' x v [Hm Hv]%heldBytes_Some. apply Hacc in Hm as [? _]. by apply heldBytes_Some.
    + intros n' d' wd' x Hin Hc. rewrite Htab in Hin. apply Hacc. split; [|by eapply Hstay].
      eapply (cg_covered _ _ _ _ Hg); [exact Hin|]. by apply (dr_cached _ _ _ _ _ Hdr).
    + intros n' x Hd. rewrite Htab in Hd. apply Hacc. split; [apply (cg_owned _ _ _ _ Hg); by apply (dr_dirty _ _ _ _ _ Hdr)|].
      destruct Hd as (d' & wd' & b & Hin & Hc & _). eapply Hstay; [exact Hin|by eexists].
    + intros g [->|Hin]%elem_of_withTokens; [|by apply (cg_tokens _ _ _ _ Hg)]. split; [done|].
      apply (revokeRange_Pvec (fun z => 0 <= z <= INT_MAX) st en (fileTokens f)); [lia|lia|word_lia|word_lia|by apply small_bounded|exact Hsm|exact Hps'].
    + intros g [->|Hin]%elem_of_withTokens; [|by apply (cg_descriptors _ _ _ _ Hg)].
      apply (cg_descriptors _ _ _ _ Hg f). by eapply list_elem_of_lookup_2.
  - intros d' wd' x v Hin Hx Hm Hv.
    destruct (table_name_unique _ _ _ _ _ _ _ (ok_table _ _ _ _ _ _ Hok) (entry_in_table s i f n d wd Hf He) Hin) as [-> ->].
    eapply (evicted_stored (W := list FileServer) (FileServerStub0 := serversStub junk) std_hash raw (heldBytes M s) s1 a' ws1 n d wd x v Hok');
      [by rewrite Htab|apply Hgone; lia|lia|by apply heldBytes_Some].
Qed.

Lemma deliver_consistent M y q ip r y' :
  consistent M y -> injective (clientStubs (sys_manager y)) -> clientStubs (sys_manager y) !! q = Some ip ->
  0 <= rv_start r <= rv_end r -> rv_end r <= INT_MAX -> deliver std_hash raw junk (ip, r) y = Ret y' ->
  consistent M y' /\ sys_manager y' = sys_manager y.
Proof.
  intros Hcon Hinj Hq Hst Hen Hr. unfold deliver in Hr. destruct (sys_clients y !! ip) as [s|] eqn:Hs; [|by injection Hr as <-].
  apply bind_Ret in Hr as ([[st0 s'] ws'] & Hd & Hr). injection Hr as <-. split; [|done]. unfold RevokePermission in Hd.
  apply bind_Ret in Hd as ([s1 w1] & Hrev & Hd). injection Hd as _ <- <-. cbn [fst snd].
  destruct (co_client _ _ Hcon q s) as [a Hg]; [by exists ip|].
  destruct (find_from (fun f => String.eqb (getName (cf_base f)) (rv_name r)) 0 (openedFiles s)) as [i|] eqn:Hfind.
  - apply find_from_Some in Hfind as (j & f & _ & Hf & Hn%String.eqb_eq & _).
    destruct (revoke_good _ _ _ _ _ _ _ _ _ _ _ _ _ Hg Hf Hn Hst Hen Hrev) as (a' & Hg' & Hdr & Htab & Hacc & Hst').
    apply (consistent_drain M y q ip s s1 a a' w1); [done..|by rewrite Htab|by intros w n x [? _]%Hacc|].
    intros n d wd x v Hin Hx Hv Hm Hno. destruct (decide (n = rv_name r /\ rv_start r <= x < rv_end r)) as [[-> Hr]|Hr].
    + apply (Hst' d wd x v Hin Hr); [by apply mayAccess_weaken|done].
    + exfalso. apply Hno, Hacc. done.
  - unfold Client.revokePermission in Hrev. rewrite Hfind in Hrev. injection Hrev as <- <-. rewrite setServers_id. by rewrite setClient_id.
Qed.

(** A grant's requests at all their clients. *)
Lemma deliverAll_consistent M y rs sent y' :
  consistent M y -> injective (clientStubs (sys_manager y)) ->
  Forall2 (fun r x => x.2 = r /\ clientStubs (sys_manager y) !! rv_peer r = Some x.1) rs sent ->
  Forall (fun r => 0 <= rv_start r <= rv_end r /\ rv_end r <= INT_MAX) rs ->
  foldM (deliver std_hash raw junk) sent y = Ret y' -> consistent M y'.
Proof.
  intros Hcon Hinj Hf Hrs. revert y Hcon Hinj Hf. revert sent. induction Hrs as [|r rs [Hst Hen] _ IH]; intros sent y Hcon Hinj Hf Hr.
  { apply Forall2_nil_inv_l in Hf as ->. by injection Hr as <-. }
  apply Forall2_cons_inv_l in Hf as ([ip r'] & sent' & [Hr' Hip] & Hf & ->). cbn in Hr', Hip. subst r'. cbn [foldM] in Hr.
  apply bind_Ret in Hr as (y1 & Hd & Hr). destruct (deliver_consistent M y _ ip r y1 Hcon Hinj Hip Hst Hen Hd) as [Hcon1 Hm1].
  apply (IH sent' y1); [done|by rewrite Hm1|by rewrite Hm1|done].
Qed.

(** ** Grants *)

Lemma consistent_manager M y mm' :
  clientStubs mm' = clientStubs (sys_manager y) -> (forall n, widthOf mm' n = widthOf (sys_manager y) n) ->
  consistent M y -> consistent M (setManager mm' y).
Proof.
  intros Hst Hw [H0 H1 H2 H3 H4 H5].
  assert (Hc : forall p s, isClient (setManager mm' y) p s <-> isClient y p s) by (intros p s; unfold isClient; cbn; by rewrite Hst).
  split; cbn; [done|..].
  - intros p s. rewrite Hc. apply H1.
  - intros p q sp sq n x. rewrite !Hc. apply H2.
  - intros p s n d wd. rewrite Hc, Hw. apply H3.
  - intros n wd. rewrite Hw. apply H4.
  - intros n wd x v. rewrite Hw. intros Hn Hx Hv Hno. apply (H5 n wd x v Hn Hx Hv). intros p s Hp. apply (Hno p). by apply Hc.
Qed.

Lemma isClient_exclusive y p q sp sq n x :
  mirrorOk y -> isClient y p sp -> isClient y q sq -> p <> q -> mayAccess sp true n x -> ~ mayAccess sq false n x.
Proof.
  intros Hm (ip & Hp & Hsp) (iq & Hq & Hsq) Hne (f & Hf & Hfn & Hh) (g & Hg & Hgn & Hh').
  by apply (mirror_exclusive y p q ip iq sp sq f g x Hm Hp Hq Hne Hsp Hsq Hf Hg ltac:(congruence) Hh).
Qed.

(** More tokens: a byte that becomes accessible is not cached, so it is stored, since
    nobody could write it. *)
Lemma grant_good M y p s a i f ps :
  consistent M y -> isClient y p s -> clientGood M (sys_servers y) s a -> openedFiles s !! i = Some f ->
  sorted_from 0 ps -> small ps -> (forall v b, holds (fileTokens f) v b -> holds ps v b) ->
  let s1 := setFileAt i (withTokens ps f) s in
  (forall q sq n x, isClient y q sq -> q <> p -> mayAccess sq true n x -> ~ mayAccess s1 false n x) ->
  clientGood M (sys_servers y) s1 a.
Proof.
  intros Hcon Hc Hg Hf Hsort Hsm Hmore s1 Hex. assert (Hnd := cg_names _ _ _ _ Hg).
  assert (Htab : table s1 = table s) by (by apply (table_setFileAt s i f)).
  assert (Hacc : forall w n x, mayAccess s w n x -> mayAccess s1 w n x).
  { intros w n x Hm. apply (mayAccess_set s s1 i f (withTokens ps f)); [done..|]. case_decide as Hd; [|done]. subst n.
    apply Hmore. by apply (mayAccess_lookup s i f w x Hnd Hf). }
  destruct Hg as [[H1 H2 H3 H4 H5] Hcov Hown Htok Hdesc Hcount Hstub]. split; rewrite ?Htab.
  - split; rewrite ?Htab; [done|done|done|done|]. intros n d wd x v Hin Hx [Hm Hv]%heldBytes_Some.
    destruct (decide (mayAccess s false n x)) as [Hm0|Hm0]; [apply (H5 n d wd x v Hin Hx); by apply heldBytes_Some|].
    destruct (cached a (d, baseOf x)) as [b|] eqn:Hcb; [exfalso; apply Hm0; eapply Hcov; [exact Hin|by rewrite Hcb]|]. cbn.
    apply (co_stored _ _ Hcon n wd x v); [by eapply (co_width _ _ Hcon)|done|done|]. intros q sq Hq Hm1.
    destruct (decide (q = p)) as [->|Hne]; [|by apply (Hex q sq n x Hq Hne Hm1)].
    apply Hm0. destruct Hc as (ip & Hp & Hs), Hq as (iq & Hq & Hsq). assert (sq = s) as -> by congruence. by apply mayAccess_weaken.
  - intros n d wd x Hin Hcb. apply Hacc. by eapply Hcov.
  - intros n x Hd. apply Hacc. by apply Hown.
  - intros g Hin. apply (elem_of_withTokens s i f ps (instance_ s)) in Hin as [->|Hin]; [by split|by apply Htok].
  - intros g Hin. apply (elem_of_withTokens s i f ps (instance_ s)) in Hin as [->|Hin]; [|by apply Hdesc].
    apply (Hdesc f). by eapply list_elem_of_lookup_2.
  - done.
  - done.
Qed.

(** The requester records the grant: it touches at most one of its tokens, so none is
    lost. *)
Definition grantFits (y : System) (peer : string) (f : ClientFile) (st en : Z) (wr : bool) : Prop :=
  forall reply sent mm, permissionAnswer peer (fileName f) st en wr (sys_manager y) = Ret (OK, reply, sent, mm) ->
    touches_one (pr_start reply) (pr_end reply) (fileTokens f).

(** The grant at the other clients: they have given up what the manager took. *)
Lemma GetPermission_consistent M y peer n st en wr reply y' :
  consistent M y -> mirrorOk y -> 0 <= st < en -> en <= INT_MAX ->
  rpc_GetPermission (ManagerStub := systemManager std_hash raw junk now peer) n st en wr y = Ret (OK, reply, y') ->
  consistent M y' /\ 0 <= pr_start reply <= st /\ en <= pr_end reply <= INT_MAX /\
  exists sent mm, permissionAnswer peer n st en wr (sys_manager y) = Ret (OK, reply, sent, mm).
Proof.
  intros Hcon Hok Hst Hen Hr. rewrite rpc_GetPermission_split in Hr. apply bind_Ret in Hr as ([[[status' reply'] sent] mm'] & Hg & Hr).
  apply bind_Ret in Hr as (y1 & Hdel & [= -> -> ->]). assert (Hg' := Hg).
  assert (is_u32 st /\ is_u32 en) as [Hu1 Hu2] by (split; word_lia).
  apply GetPermission_inv in Hg as [(Hbad & _)|(_ & mf & mf' & mine & mine' & Hmf & -> & Hbase & _ & _ & _ & _ & Hrange & Hsent)];
    [done| |apply Hok|done|done].
  split; [|split; [destruct Hrange as [[-> _]|[-> _]]; lia|split; [destruct Hrange as [[_ ->]|[_ ->]]; lia|by eexists _, _]]].
  set (y0 := setManager _ y) in Hdel. apply (deliverAll_consistent M y0 _ _ _) with (2 := mi_stubs y Hok) (3 := Hsent) (5 := Hdel).
  - apply consistent_manager; [done| |done]. intros n'. unfold widthOf. cbn. rewrite lookup_insert. case_decide as Hd; [|done].
    subst n'. rewrite Hmf. cbn. by rewrite Hbase.
  - apply Forall_forall. intros r (q & l & -> & _)%elem_of_revokeRequests. cbn. lia.
Qed.

Lemma isClient_other y ip s p q sq :
  injective (clientStubs (sys_manager y)) -> clientStubs (sys_manager y) !! p = Some ip -> q <> p -> isClient y q sq -> isClient (setClient ip s y) q sq.
Proof.
  intros Hinj Hp Hne (iq & Hq & Hsq). exists iq. split; [done|]. cbn. rewrite lookup_insert_ne; [done|]. intros <-. apply Hne. by eapply Hinj.
Qed.

Lemma grant_consistent M y peer ip s i f st en wr reply ps y' :
  consistent M y -> mirrorOk y -> clientStubs (sys_manager y) !! peer = Some ip -> sys_clients y !! ip = Some s ->
  openedFiles s !! i = Some f -> 0 <= st < en -> en <= INT_MAX -> grantFits y peer f st en wr ->
  rpc_GetPermission (ManagerStub := systemManager std_hash raw junk now peer) (fileName f) st en wr y = Ret (OK, reply, y') ->
  addPermission (pr_start reply) (pr_end reply) wr (fileTokens f) true = Ret ps ->
  let s1 := setFileAt i (withTokens ps f) s in
  mirrorOk (setClient ip s1 y') -> consistent M (setClient ip s1 y') /\ forall v x, requested st en wr v x -> mayAccess s1 v (fileName f) x.
Proof.
  intros Hcon Hok Hp Hs Hf Hst Hen Hfits Hr Hadd s1 Hok1.
  destruct (GetPermission_consistent M y peer (fileName f) st en wr reply y' Hcon Hok Hst Hen Hr) as (Hcon' & Hr1 & Hr2 & sent & mm & Hg).
  apply GetPermission_granted in Hr as [_ _ Hstubs _ Hown _ _ _]; [|done|word_lia|word_lia].
  rewrite <- Hstubs in Hp. assert (Hs' : sys_clients y' !! ip = Some s) by (rewrite Hown; congruence).
  assert (Hc : isClient y' peer s) by (by exists ip). destruct (co_client _ _ Hcon' peer s Hc) as [a Hgood].
  destruct (cg_tokens _ _ _ _ Hgood f ltac:(by eapply list_elem_of_lookup_2)) as [Hsort Hsm].
  destruct (addPermission_fits (pr_start reply) (pr_end reply) wr (fileTokens f) ps true) as (Hsort' & Hsm' & Hmore);
    [lia|lia|lia|done|done|by eapply Hfits|done|].
  assert (Hinj := mi_stubs _ Hok1). cbn in Hinj.
  assert (Hc1 : isClient (setClient ip s1 y') peer s1) by (exists ip; split; [done|apply lookup_insert_eq]).
  assert (Hex : forall q sq, isClient y' q sq -> q <> peer -> isClient (setClient ip s1 y') q sq) by (intros q sq Hq Hne; by eapply isClient_other).
  assert (Hgood1 : clientGood M (sys_servers y') s1 a).
  { apply (grant_good M y' peer); [done|done|done|done|done|done|intros v x ?; apply Hmore; by left|]. intros q sq n x Hq Hne.
    by apply (isClient_exclusive _ q peer sq s1 n x Hok1 (Hex q sq Hq Hne) Hc1). }
  split.
  - rewrite <- (setServers_id y'). apply (consistent_replace M M y' peer ip s1 a (sys_servers y')); [done|done|done|done|by split|..|done|done|].
    + intros n d wd Hin. unfold s1 in Hin. rewrite (table_setFileAt s i f) in Hin by done. by eapply (co_width _ _ Hcon').
    + intros q sq n x Hq Hne. split.
      * by apply (isClient_exclusive _ peer q s1 sq n x Hok1 Hc1 (Hex q sq Hq Hne) (not_eq_sym Hne)).
      * by apply (isClient_exclusive _ q peer sq s1 n x Hok1 (Hex q sq Hq Hne) Hc1 Hne).
    + intros n wd x v Hw Hx Hv Hno Hoth. apply (co_stored _ _ Hcon' n wd x v Hw Hx Hv). intros q sq Hq Hm.
      destruct (decide (q = peer)) as [->|Hne]; [|by apply (Hoth q sq Hq Hne)]. destruct Hq as (iq & Hq & Hsq). assert (sq = s) as -> by congruence.
      apply Hno. apply (mayAccess_set s s1 i f (withTokens ps f)); [by eapply cg_names|done..|]. case_decide as Hd; [|done]. subst n.
      apply Hmore. left. apply (mayAccess_lookup s i f); [by eapply cg_names|done|done].
  - intros v x [Hx Hv]. exists (withTokens ps f). split; [apply list_elem_of_lookup; exists i; by eapply openedFiles_setFileAt|]. split; [done|].
    apply Hmore. right. split; [lia|done].
Qed.

(** ** Reads and writes *)

Lemma acquire_consistent M y peer ip fd st en wr s z s' y' :
  consistent M y -> mirrorOk y -> clientStubs (sys_manager y) !! peer = Some ip -> sys_clients y !! ip = Some s ->
  0 <= st < en -> en <= INT_MAX -> (forall f, f ∈ openedFiles s -> getDescriptor f = fd -> grantFits y peer f st en wr) ->
  acquirePermission (ManagerStub0 := systemManager std_hash raw junk now peer) fd st en wr s y = Ret (z, s', y') ->
  consistent M (setClient ip s' y') /\ instance_ s' = instance_ s /\ clientStubs (sys_manager y') = clientStubs (sys_manager y) /\
  (0 <= z -> exists f f', openedFiles s !! Z.to_nat z = Some f /\ openedFiles s' !! Z.to_nat z = Some f' /\
    getDescriptor f = fd /\ getDescriptor f' = fd /\ fileName f' = fileName f /\
    forall v x, requested st en wr v x -> mayAccess s' v (fileName f) x).
Proof.
  intros Hcon Hok Hp Hs Hst Hen Hfits Hacq. assert (Hok' := acquire_mirror _ _ _ _ _ _ _ _ _ _ _ _ _ _ _ Hok Hp Hs Hacq).
  apply acquire_inv in Hacq. assert (Hsame := setClient_id ip s y Hs).
  assert (u32 st = st /\ u32 en = en) as [Hu1 Hu2] by (split; apply u32_id; word_lia).
  destruct Hacq as [|i f reply y' Hf Hfd Hrpc|i f Hf Hfd Hhas|i f reply ps y' Hf Hfd Hrpc Hadd]; rewrite ?Hsame; rewrite ?Hu1, ?Hu2 in *.
  - split; [done|]. split; [done|]. split; [done|]. by vm_compute.
  - apply GetPermission_granted in Hrpc as ->; [|done|word_lia|word_lia]. rewrite Hsame. split; [done|]. split; [done|]. split; [done|]. lia.
  - split; [done|]. split; [done|]. split; [done|]. intros _. exists f, f. rewrite Nat2Z.id. repeat (split; [done|]).
    intros v x Hx. exists f. split; [by eapply list_elem_of_lookup_2|]. split; [done|]. by eapply hasPermission_sound.
  - assert (Hin : f ∈ openedFiles s) by (by eapply list_elem_of_lookup_2).
    destruct (grant_consistent M y peer ip s i f st en wr reply ps y') as [Hcon' Hreq]; try done; [by apply Hfits|].
    split; [done|]. split; [done|]. split; [|intros _; exists f, (withTokens ps f); rewrite Nat2Z.id; split; [done|]; split; [by eapply openedFiles_setFileAt|done]].
    apply GetPermission_granted in Hrpc as [_ _ Hstubs _ _ _ _ _]; [done|done|word_lia|word_lia].
Qed.

(** Whole blocks. *)
Definition aligned (offset nbyte : Z) : Prop := offset mod pfsBlockSizeInBytes = 0 /\ nbyte mod pfsBlockSizeInBytes = 0.

Lemma aligned_block offset nbyte x x0 :
  aligned offset nbyte -> offset <= x0 < offset + nbyte -> baseOf x = baseOf x0 -> offset <= x < offset + nbyte.
Proof. unfold aligned, baseOf. change pfsBlockSizeInBytes with 1024. intros [H1 H2] Hx Hb. word_lia. Qed.

(** The client after its cache was used for a range that its tokens cover. *)
Lemma touched_good M M' ws s s' a a' i f f' n d wd offset nbyte wr :
  clientGood M ws s a -> openedFiles s !! i = Some f -> entry f = (n, d, wd) -> openedFiles s' = <[i := f']> (openedFiles s) ->
  entry f' = entry f -> getDescriptor f' = getDescriptor f -> same_tokens (fileTokens f') (fileTokens f) ->
  descriptorCount s' = descriptorCount s -> stub_ s' = true -> clientOkAt (heldBytes M' s') s' a' ws ->
  touched (table s) a a' n d offset nbyte wr -> aligned offset nbyte ->
  (forall v x, requested offset (offset + nbyte) wr v x -> mayAccess s v n x) -> clientGood M' ws s' a'.
Proof.
  intros Hg Hf He Hs' He' Hd' Hsame Hcount Hstub Hok' [Hto1 Hto2] Hal Hreq. assert (Hnd := cg_names _ _ _ _ Hg).
  assert (Htab : table s' = table s).
  { unfold table. rewrite Hs', list_fmap_insert, He'. apply list_insert_id. by rewrite list_lookup_fmap, Hf. }
  assert (Hacc : forall w n x, mayAccess s' w n x <-> mayAccess s w n x).
  { intros w n' x. apply (mayAccess_same s s' i f f'); [done..| |done]. by injection He'. }
  assert (Hfiles : forall g, g ∈ openedFiles s' -> g = f' \/ g ∈ openedFiles s).
  { intros g (j & Hj)%list_elem_of_lookup. rewrite Hs' in Hj. apply list_lookup_insert_Some in Hj as [(_ & <- & _)|[_ Hj]]; [by left|].
    right. by eapply list_elem_of_lookup_2. }
  assert (Hfin : f ∈ openedFiles s) by (by eapply list_elem_of_lookup_2). split; [done|..|by rewrite Hcount; apply Hg|done].
  - intros n' d' wd' x Hin Hc. rewrite Htab in Hin. apply Hacc. apply Hto1 in Hc as [Hc|(Hd & x0 & Hx0 & Hb)]; [by eapply (cg_covered _ _ _ _ Hg)|].
    cbn in Hd, Hb. subst d'.
    destruct (table_unique _ _ _ _ _ _ _ (ok_table _ _ _ _ _ _ (cg_ok _ _ _ _ Hg)) (entry_in_table s i f n d wd Hf He) Hin) as [-> _].
    apply Hreq. split; [by eapply aligned_block|done].
  - intros n' x Hd. rewrite Htab in Hd. apply Hacc. apply Hto2 in Hd as [Hd|(Hw & -> & Hx)]; [by apply (cg_owned _ _ _ _ Hg)|].
    apply Hreq. by split.
  - intros g [->|Hin]%Hfiles; [|by apply (cg_tokens _ _ _ _ Hg)]. destruct (cg_tokens _ _ _ _ Hg f Hfin) as [H1 H2].
    split; [eapply same_tokens_sorted; [symmetry; exact Hsame|exact H1]|by eapply (same_tokens_ranges (fun z => 0 <= z <= INT_MAX)); [symmetry; exact Hsame|exact H2]].
  - intros g [->|Hin]%Hfiles; rewrite Hcount; [rewrite Hd'|]; by apply (cg_descriptors _ _ _ _ Hg).
Qed.

Lemma setClient_twice ip s s' y : setClient ip s' (setServers (sys_servers y) (setClient ip s y)) = setClient ip s' y.
Proof. destruct y. unfold setClient, setServers. cbn. by rewrite insert_insert_eq. Qed.

(** The client [p] has used its cache; the map changed only where it may write. *)
Lemma data_consistent M M' y p ip s s' a' :
  consistent M (setClient ip s y) -> injective (clientStubs (sys_manager y)) -> clientStubs (sys_manager y) !! p = Some ip ->
  clientGood M' (sys_servers y) s' a' -> table s' = table s -> (forall w n x, mayAccess s' w n x <-> mayAccess s w n x) ->
  (forall n x v, M' n x = Some v -> M n x = Some v \/ mayAccess s true n x) -> consistent M' (setClient ip s' y).
Proof.
  intros Hcon Hinj Hp Hg Htab Hacc HM. rewrite <- (setClient_twice ip s). set (y1 := setClient ip s y) in *.
  assert (Hc : isClient y1 p s) by (exists ip; split; [done|apply lookup_insert_eq]).
  apply (consistent_replace M M' y1 p ip s' a' (sys_servers y)); [done|done|done|done|by split|..|done| |].
  - rewrite Htab. intros n d wd. by apply (co_width _ _ Hcon p s).
  - intros q sq n x Hq Hne. rewrite !Hacc. split.
    + by apply (co_exclusive _ _ Hcon p q s sq n x Hc Hq (not_eq_sym Hne)).
    + by apply (co_exclusive _ _ Hcon q p sq s n x Hq Hc Hne).
  - intros q sq n x v Hq Hne Hm [?|Hw]%HM; [done|]. exfalso. by apply (co_exclusive _ _ Hcon p q s sq n x Hc Hq (not_eq_sym Hne) Hw).
  - intros n wd x v Hw Hx Hv Hno Hoth. rewrite Hacc in Hno. apply (co_stored _ _ Hcon n wd x v Hw Hx); [by apply HM in Hv as [?|?]|].
    intros q sq Hq. destruct (decide (q = p)) as [->|Hne]; [|by apply (Hoth q sq)]. destruct Hq as (iq & Hq & Hsq), Hc as (ic & Hc & Hsc).
    congruence.
Qed.

(** The cache of the client has room for [k] more blocks. *)
Definition roomFor s (k : nat) : Prop :=
  exists c, getInstance raw s = Ret c /\ (2 * k <= freeBlockSemaphore c)%nat /\ Z.of_nat k < freeBlockCount c.

Lemma room_budget M ws s s0 a k : clientGood M ws s a -> instance_ s = instance_ s0 -> roomFor s0 k -> budget k a.
Proof.
  intros Hg Hi (c & Hc & Hs & Hf). destruct (ok_cache _ _ _ _ _ _ (cg_ok _ _ _ _ Hg)) as (c' & Hc' & Hrep).
  unfold getInstance in *. rewrite Hi, Hc in Hc'. injection Hc' as <-. destruct (represents_counts _ _ _ Hrep) as (E1 & E2 & _).
  rewrite E1 in Hf. rewrite E2 in Hs. split; [done|lia].
Qed.

(** A data call once it has its tokens. *)
Record dataReady M (peer ip : string) s (s1 : PFSClient) (y1 : System) (z fd st en : Z) (wr : bool) (f f' : ClientFile) (d wd : Z) a : Prop := mkDataReady {
  da_file : f ∈ openedFiles s;
  da_descriptor : getDescriptor f = fd;
  da_descriptor' : getDescriptor f' = fd;
  da_lookup : openedFiles s1 !! Z.to_nat z = Some f';
  da_entry : entry f' = (fileName f, d, wd);
  da_consistent : consistent M (setClient ip s1 y1);
  da_good : clientGood M (sys_servers y1) s1 a;
  da_room k : roomFor s k -> budget k a;
  da_access v x : requested st en wr v x -> mayAccess s1 v (fileName f) x;
  da_injective : injective (clientStubs (sys_manager y1));
  da_stub : clientStubs (sys_manager y1) !! peer = Some ip }.

Lemma acquire_data M y peer ip s fd st en wr z s1 y1 :
  consistent M y -> mirrorOk y -> clientStubs (sys_manager y) !! peer = Some ip -> sys_clients y !! ip = Some s ->
  0 <= st < en -> en <= INT_MAX -> (forall f, f ∈ openedFiles s -> getDescriptor f = fd -> grantFits y peer f st en wr) ->
  acquirePermission (ManagerStub0 := systemManager std_hash raw junk now peer) fd st en wr s y = Ret (z, s1, y1) ->
  consistent M (setClient ip s1 y1) /\ (0 <= z -> exists f f' d wd a, dataReady M peer ip s s1 y1 z fd st en wr f f' d wd a).
Proof.
  intros Hcon Hok Hp Hs Hst Hen Hfits Hacq.
  destruct (acquire_consistent M y peer ip fd st en wr s z s1 y1) as (Hcon1 & Hinst & Hstubs & Hz); [done..|]. split; [done|]. intros Hpos.
  destruct (Hz Hpos) as (f & f' & Hf & Hf' & Hfd & Hfd' & Hn & Hreq).
  destruct (co_client _ _ Hcon1 peer s1) as [a Hg]; [exists ip; rewrite <- Hstubs in Hp; split; [done|apply lookup_insert_eq]|]. cbn in Hg.
  destruct (entry f') as [[n d] wd] eqn:He. assert (n = fileName f) as -> by (injection He as <- _ _; exact Hn).
  exists f, f', d, wd, a. split; [by eapply list_elem_of_lookup_2|done|done|done|done|done|done| |done|rewrite Hstubs; apply Hok|by rewrite Hstubs].
  intros k. by eapply room_budget.
Qed.

Lemma inFile_range offset nbyte : 0 < nbyte -> inFile offset nbyte -> 0 <= offset < offset + nbyte /\ offset + nbyte <= INT_MAX.
Proof. intros Hpos Hin. destruct Hin. change pfsBlockSizeInBytes with 1024 in *. lia. Qed.

Lemma table_insert s s' i f f' :
  openedFiles s !! i = Some f -> openedFiles s' = <[i := f']> (openedFiles s) -> entry f' = entry f -> table s' = table s.
Proof. intros Hf Hs' He. unfold table. rewrite Hs', list_fmap_insert, He. apply list_insert_id. by rewrite list_lookup_fmap, Hf. Qed.

Lemma read_consistent M y peer ip s fd nbyte offset r s' y' :
  consistent M y -> mirrorOk y -> clientStubs (sys_manager y) !! peer = Some ip -> sys_clients y !! ip = Some s ->
  0 < nbyte -> inFile offset nbyte -> aligned offset nbyte -> roomFor s (blocksIn offset nbyte) ->
  (forall f, f ∈ openedFiles s -> getDescriptor f = fd -> grantFits y peer f offset (offset + nbyte) false) ->
  readFile (ManagerStub0 := systemManager std_hash raw junk now peer) (FileServerStub0 := systemServers junk) std_hash raw
    fd nbyte offset s y = Ret (r, s', y') ->
  consistent M (setClient ip s' y') /\
  (0 <= rd_result r -> exists f, f ∈ openedFiles s /\ getDescriptor f = fd /\ rd_result r = nbyte /\
    Z.of_nat (length (rd_bytes r)) = nbyte /\ agrees M (fileName f) offset (rd_bytes r)).
Proof.
  intros Hcon Hok Hp Hs Hpos Hin Hal Hroom Hfits Hr. destruct (inFile_range _ _ Hpos Hin) as [Ho1 Ho2].
  destruct (co_client _ _ Hcon peer s) as [a0 Hg0]; [by exists ip|]. assert (Hst := cg_stub _ _ _ _ Hg0).
  assert (Hr' := Hr). unfold readFile in Hr'. rewrite Hst in Hr'. cbn [negb] in Hr'. apply bind_Ret in Hr' as ([[z s1] y1] & Hacq & Hr').
  destruct (acquire_data M y peer ip s fd offset (offset + nbyte) false z s1 y1) as [Hcon1 Hz]; [done..|].
  destruct (Z.ltb_spec z 0) as [Hneg|Hpos']; [injection Hr' as <- <- <-; split; [done|cbn; lia]|clear Hr'].
  destruct (Hz Hpos') as (f & f' & d & wd & a & [Hf Hfd Hfd' Hf' He _ Hg Hbud Hreq Hinj Hip]). subst fd. rewrite <- Hfd' in Hr, Hacq.
  rewrite <- (Z2Nat.id z Hpos') in Hacq.
  destruct (readFile_run (W := System) (FileServerStub0 := systemServers junk) (FileServerStubOk0 := systemServersOk junk)
    (ManagerStub0 := systemManager std_hash raw junk now peer) std_hash raw 0 (heldBytes M s1) s s1 a y y1 (Z.to_nat z) f' (fileName f) d wd nbyte offset)
    as (bs & h & s2 & a2 & Hr2 & Hok2 & _ & Hst2 & Hf2 & Hl & Hag & _ & Hto & Hcount);
    [done|exact Hacq|apply clientOk_servers, Hg|done|done|lia|done|rewrite Nat.add_0_r; by apply Hbud|].
  rewrite Hr in Hr2. injection Hr2 as -> -> ->. cbn [rd_result rd_bytes]. set (f2 := unlockedFile _ _ _ _) in Hf2.
  assert (Hun : same_tokens (fileTokens f2) (fileTokens f')) by apply unlockPermission_tokens.
  assert (Hacc : forall w n x, mayAccess s2 w n x <-> mayAccess s1 w n x).
  { intros w n x. apply (mayAccess_same s1 s2 (Z.to_nat z) f' f2); [by eapply cg_names|done..]. }
  split.
  - eapply (data_consistent M M y1 peer ip s1); [done|done|done| |by eapply table_insert|done|by auto].
    eapply (touched_good M M); [exact Hg|exact Hf'|exact He|exact Hf2|done|done|done|done|rewrite Hst2; apply Hg| |exact Hto|done|done].
    eapply clientOk_sub; [|apply clientOk_servers, Hok2]. intros n x v. by rewrite !heldBytes_Some, Hacc.
  - intros _. exists f. repeat (split; [done|]). intros j v Hj Hv. apply Hag; [done|]. apply heldBytes_Some.
    split; [|done]. apply Hreq. split; [lia|done].
Qed.

Lemma write_consistent M y peer ip s fd bs offset code hit s' y' :
  let nbyte := Z.of_nat (length bs) in
  consistent M y -> mirrorOk y -> clientStubs (sys_manager y) !! peer = Some ip -> sys_clients y !! ip = Some s ->
  0 < nbyte -> inFile offset nbyte -> aligned offset nbyte -> roomFor s (blocksIn offset nbyte) ->
  (forall f, f ∈ openedFiles s -> getDescriptor f = fd -> grantFits y peer f offset (offset + nbyte) true) ->
  writeFile (ManagerStub0 := systemManager std_hash raw junk now peer) (FileServerStub0 := systemServers junk) std_hash raw
    fd bs offset s y = Ret (code, hit, s', y') ->
  (code < 0 -> consistent M (setClient ip s' y')) /\
  (0 <= code -> exists f, f ∈ openedFiles s /\ getDescriptor f = fd /\ code = nbyte /\
    consistent (updated M (fileName f) offset bs) (setClient ip s' y')).
Proof.
  intros nbyte Hcon Hok Hp Hs Hpos Hin Hal Hroom Hfits Hr. destruct (inFile_range _ _ Hpos Hin) as [Ho1 Ho2].
  destruct (co_client _ _ Hcon peer s) as [a0 Hg0]; [by exists ip|]. assert (Hst := cg_stub _ _ _ _ Hg0).
  assert (Hr' := Hr). unfold writeFile in Hr'. rewrite Hst in Hr'. cbn [negb] in Hr'. apply bind_Ret in Hr' as ([[z s1] y1] & Hacq & Hr').
  destruct (acquire_data M y peer ip s fd offset (offset + nbyte) true z s1 y1) as [Hcon1 Hz]; [done..|].
  destruct (Z.ltb_spec z 0) as [Hneg|Hpos']; [injection Hr' as <- _ <- <-; split; [done|lia]|clear Hr'].
  destruct (Hz Hpos') as (f & f' & d & wd & a & [Hf Hfd Hfd' Hf' He _ Hg Hbud Hreq Hinj Hip]). subst fd. rewrite <- Hfd' in Hr, Hacq.
  rewrite <- (Z2Nat.id z Hpos') in Hacq.
  destruct (writeFile_run (W := System) (FileServerStub0 := systemServers junk) (FileServerStubOk0 := systemServersOk junk)
    (ManagerStub0 := systemManager std_hash raw junk now peer) std_hash raw 0 (heldBytes M s1) s s1 a y y1 (Z.to_nat z) f' (fileName f) d wd bs offset)
    as (h & s2 & a2 & Hr2 & Hok2 & _ & Hst2 & Hf2 & _ & Hto & Hcount);
    [done|exact Hacq|apply clientOk_servers, Hg|done|done|done|rewrite Nat.add_0_r; by apply Hbud|].
  rewrite Hr in Hr2. injection Hr2 as -> -> -> ->. set (f2 := unlockedFile _ _ _ _) in Hf2.
  assert (Hun : same_tokens (fileTokens f2) (fileTokens f')) by apply unlockPermission_tokens.
  assert (Hacc : forall w n x, mayAccess s2 w n x <-> mayAccess s1 w n x).
  { intros w n x. apply (mayAccess_same s1 s2 (Z.to_nat z) f' f2); [by eapply cg_names|done..]. }
  split; [lia|]. intros _. exists f. repeat (split; [done|]).
  eapply (data_consistent M _ y1 peer ip s1); [done|done|done| |by eapply table_insert|done|].
  - eapply (touched_good M); [exact Hg|exact Hf'|exact He|exact Hf2|done|done|done|done|rewrite Hst2; apply Hg| |exact Hto|done|done].
    eapply clientOk_sub; [|apply clientOk_servers, Hok2]. intros n x v [Hm Hv]%heldBytes_Some. apply Hacc in Hm. unfold updated in *.
    destruct (decide _); [done|]. by apply heldBytes_Some.
  - intros n x v. unfold updated. case_decide as Hd; [|by left]. intros _. right. destruct Hd as [-> Hx]. apply Hreq. by split.
Qed.

(** ** The threads of the cache and the end of a process *)

(** The client has put blocks on the servers and has its tokens as before. *)
Lemma drain_same M y p ip s a c a' ws' :
  consistent M y -> injective (clientStubs (sys_manager y)) -> clientStubs (sys_manager y) !! p = Some ip -> sys_clients y !! ip = Some s ->
  clientGood M (sys_servers y) s a -> drainedAt (table s) a (sys_servers y) a' ws' -> clientOkAt (heldBytes M s) (setInstance c s) a' ws' ->
  consistent M (setClient ip (setInstance c s) (setServers ws' y)).
Proof.
  intros Hcon Hinj Hp Hs Hg Hdr Hok. eapply (consistent_drain M y p ip s (setInstance c s) a a' ws'); [done..| |done|done|done].
  destruct Hg as [_ Hcov Hown Htok Hdesc Hcount Hstub]. split; [done|..|done|done|done|done].
  - intros n d wd x Hin Hc. eapply Hcov; [exact Hin|]. by apply (dr_cached _ _ _ _ _ Hdr).
  - intros n x Hd. apply Hown. by apply (dr_dirty _ _ _ _ _ Hdr).
Qed.

(** A run on the system, seen at its servers. *)
Lemma drained_servers t a y a' y' :
  drained (W := System) (FileServerStub0 := systemServers junk) (FileServerStubOk0 := systemServersOk junk) t a y a' y' ->
  drainedAt t a (sys_servers y) a' (sys_servers y').
Proof. intros [D1 D2 D3 D4]. split; [exact D1|exact D2|exact D3|exact D4]. Qed.

Lemma onlyServers_eq y y' : onlyServers y y' -> y' = setServers (sys_servers y') y.
Proof. by intros [ws ->]. Qed.

Lemma flusher_consistent M y p ip s c c' y' :
  consistent M y -> injective (clientStubs (sys_manager y)) -> clientStubs (sys_manager y) !! p = Some ip -> sys_clients y !! ip = Some s ->
  getInstance raw s = Ret c -> cacheFlusher (H := store (FileServerStub0 := systemServers junk) s) c y = Ret (c', y') ->
  consistent M (setClient ip (setInstance (Some c') s) y').
Proof.
  intros Hcon Hinj Hp Hs Hc Hr. destruct (co_client _ _ Hcon p s) as [a Hg]; [by exists ip|].
  destruct (flusher_run (W := System) (FileServerStub0 := systemServers junk) (FileServerStubOk0 := systemServersOk junk) std_hash raw
    (heldBytes M s) s a y) as (c0 & c1 & a' & y1 & Hc0 & Hr1 & Hok' & _ & _ & Hdr); [apply clientOk_servers, Hg|].
  rewrite Hc in Hc0. injection Hc0 as <-. assert (Hfr := Hr). apply (flusher_framed onlyServers) in Hfr as [Hy _].
  rewrite Hr in Hr1. injection Hr1 as <- <-. rewrite (onlyServers_eq _ _ Hy).
  eapply drain_same; [done..|exact Hg|by apply drained_servers|by apply clientOk_servers].
Qed.

Lemma harvester_consistent M y p ip s c c' y' :
  consistent M y -> injective (clientStubs (sys_manager y)) -> clientStubs (sys_manager y) !! p = Some ip -> sys_clients y !! ip = Some s ->
  getInstance raw s = Ret c -> (2020 <= size (nodes c))%nat ->
  cacheHarvester (H := store (FileServerStub0 := systemServers junk) s) c y = Ret (c', y') ->
  consistent M (setClient ip (setInstance (Some c') s) y').
Proof.
  intros Hcon Hinj Hp Hs Hc Hsz Hr. destruct (co_client _ _ Hcon p s) as [a Hg]; [by exists ip|].
  destruct (ok_cache _ _ _ _ _ _ (cg_ok _ _ _ _ Hg)) as (c0 & Hc0 & Hrep). rewrite Hc in Hc0. injection Hc0 as <-.
  assert (Hwk : (0 < wakeups a)%nat).
  { destruct (represents_counts _ _ _ Hrep) as (_ & _ & E). rewrite <- E. unfold cacheHarvester in Hr. destruct (harvesterSemaphore c); [done|lia]. }
  destruct (harvester_run (W := System) (FileServerStub0 := systemServers junk) (FileServerStubOk0 := systemServersOk junk) std_hash raw
    (heldBytes M s) s a y) as (c0 & c1 & a' & y1 & Hc0 & Hr1 & Hok' & Hdr);
    [apply clientOk_servers, Hg|by rewrite <- (represents_size _ _ _ Hrep)|done|].
  rewrite Hc in Hc0. injection Hc0 as <-. assert (Hfr := Hr). apply (harvester_framed onlyServers) in Hfr as [Hy _].
  rewrite Hr in Hr1. injection Hr1 as <- <-. rewrite (onlyServers_eq _ _ Hy).
  eapply drain_same; [done..|exact Hg|by apply drained_servers|by apply clientOk_servers].
Qed.

Lemma finalize_consistent M y p ip s s' y' :
  consistent M y -> injective (clientStubs (sys_manager y)) -> clientStubs (sys_manager y) !! p = Some ip -> sys_clients y !! ip = Some s ->
  finalize (FileServerStub0 := systemServers junk) s y = Ret (s', y') -> consistent M (setClient ip s' y').
Proof.
  intros Hcon Hinj Hp Hs Hr. destruct (co_client _ _ Hcon p s) as [a Hg]; [by exists ip|].
  destruct (finalize_run (W := System) (FileServerStub0 := systemServers junk) (FileServerStubOk0 := systemServersOk junk) std_hash raw
    (heldBytes M s) s a y) as (y1 & Hr1 & Hdr & Hok'); [apply clientOk_servers, Hg|].
  assert (Hfr := Hr). apply (finalize_framed onlyServers) in Hfr as [Hy _]. rewrite Hr in Hr1. injection Hr1 as -> <-.
  rewrite (onlyServers_eq _ _ Hy). eapply drain_same; [done..|exact Hg|by apply drained_servers|by apply clientOk_servers].
Qed.

(** ** Processes and names *)

Lemma fresh_client_good M ws s :
  stub_ s = true -> fileServerStubs s = serverAddress <$> seq 0 (Z.to_nat NUM_FILE_SERVERS) -> openedFiles s = [] ->
  descriptorCount s = 0 -> instance_ s = None -> clientGood M ws s freshLRU.
Proof.
  intros Hst Hstubs Hof Hcount Hinst.
  assert (Hno : forall f, f ∉ openedFiles s) by (intros f; rewrite Hof; apply not_elem_of_nil).
  assert (Htab : table s = []) by (unfold table; by rewrite Hof).
  assert (Hne : forall e, e ∉ table s) by (intros e; rewrite Htab; apply not_elem_of_nil).
  split.
  - split; [exact Hstubs|unfold getInstance; rewrite Hinst; apply newCache_is_empty|rewrite Htab; split; [apply NoDup_nil_2|apply NoDup_nil_2|]|by intros d ad b|].
    + intros n d wd Hin. by apply not_elem_of_nil in Hin.
    + intros n d wd x v Hin. by apply Hne in Hin.
  - intros n d wd x Hin. by apply Hne in Hin.
  - intros n x (d & wd & b & Hin & _). by apply Hne in Hin.
  - intros f Hf. by apply Hno in Hf.
  - intros f Hf. by apply Hno in Hf.
  - rewrite Hcount. word_lia.
  - exact Hst.
Qed.

Lemma start_consistent M y no peer y' :
  consistent M y -> mirrorOk y -> clientStubs (sys_manager y) !! peer = None -> sys_clients y !! clientIp no = None ->
  sysStart std_hash raw junk now no peer y = Ret y' -> consistent M y'.
Proof.
  intros [H0 H1 H2 H3 H4 H5] Hok Hp Hip Hr. unfold sysStart, initialize in Hr. cbn in Hr. injection Hr as <-. fold (clientIp no).
  set (s := mkPFSClient _ _ _ _ _). set (y' := setClient _ _ _).
  assert (Hc : forall q sq, isClient y' q sq <-> (q = peer /\ sq = s) \/ isClient y q sq).
  { intros q sq. unfold isClient, y'. cbn. split.
    - intros (iq & Hq & Hsq). rewrite lookup_insert in Hq. rewrite lookup_insert in Hsq. destruct (decide (peer = q)) as [<-|Hne].
      + injection Hq as <-. rewrite decide_True in Hsq by done. injection Hsq as <-. by left.
      + right. exists iq. split; [done|]. case_decide as Hd; [|done]. subst iq. apply (mi_clients y Hok) in Hq as [? Hq]. cbn in Hq. congruence.
    - intros [[-> ->]|(iq & Hq & Hsq)]; [exists (clientIp no); by rewrite !lookup_insert_eq|]. exists iq.
      rewrite !lookup_insert_ne by congruence. done. }
  assert (Hno : forall w n x, ~ mayAccess s w n x) by (by intros w n x (f & ?%not_elem_of_nil & _)). split; cbn.
  - done.
  - intros q sq [[-> ->]|Hq]%Hc; [exists freshLRU; by apply fresh_client_good|by eapply H1].
  - intros q r sq sr n x [[-> ->]|Hq]%Hc [[-> ->]|Hr]%Hc Hne Hm; [done|by apply Hno in Hm|by apply Hno|by eapply (H2 q r)].
  - intros q sq n d wd [[-> ->]|Hq]%Hc; [by intros ?%not_elem_of_nil|by apply (H3 q)].
  - done.
  - intros n wd x v Hw Hx Hv Hn. apply (H5 n wd x v Hw Hx Hv). intros q sq Hq. apply (Hn q). apply Hc. by right.
Qed.

(** A new file has no bytes. *)
Definition forget (n : string) M (n' : string) (x : Z) : option byte := if decide (n' = n) then None else M n' x.

(** No server knows the name. *)
Definition newName (n : string) ws : Prop := Forall (fun fsrv => fs_files fsrv !! n = None) ws.

Lemma newName_unserved n ws wd : newName n ws -> ~ serversServed ws n wd.
Proof.
  intros Hn (_ & _ & Haddr). destruct (Haddr 0) as (fsrv & f & Hs & Hf & _); [done|]. unfold newName in Hn. rewrite Forall_lookup in Hn.
  rewrite (Hn _ _ Hs) in Hf. done.
Qed.

Lemma newName_unstored n ws wd x : newName n ws -> serversByte ws n wd x = None.
Proof.
  intros Hn. unfold serversByte. destruct (ws !! _) as [fsrv|] eqn:Hs; [|done]. cbn. unfold stored. unfold newName in Hn. rewrite Forall_lookup in Hn.
  by rewrite (Hn _ _ Hs).
Qed.

(** An open file is known to the manager. *)
Lemma mirror_open y p s n d wd : mirrorOk y -> isClient y p s -> (n, d, wd) ∈ table s ->
  exists mf, files (sys_manager y) !! n = Some mf /\ clientPermissions mf <> ∅.
Proof.
  intros Hok (ip & Hp & Hs) (f & He & Hf)%list_elem_of_fmap. destruct (mi_match y Hok p ip s Hp Hs) as [_ Hall].
  rewrite Forall_forall in Hall. destruct (Hall f Hf) as (l & Hl & _). assert (fileName f = n) as Hn by (by injection He). rewrite Hn in Hl.
  unfold vectorOf in Hl. destruct (files (sys_manager y) !! n) as [mf|]; [|done]. exists mf. split; [done|]. intros Hempty. cbn in Hl.
  by rewrite Hempty, lookup_empty in Hl.
Qed.

Lemma create_consistent M y peer n width s code y' :
  consistent M y -> mirrorOk y -> stub_ s = true -> 0 < width <= INT_MAX -> newName n (sys_servers y) ->
  createFile (ManagerStub0 := systemManager std_hash raw junk now peer) n width s y = Ret (code, y') ->
  consistent (if code =? 0 then forget n M else M) y'.
Proof.
  intros Hcon Hok Hst Hw Hnew Hr. unfold createFile in Hr. rewrite Hst, u32_id in Hr by word_lia. cbn in Hr.
  apply bind_Ret in Hr as (r & Hr & [= <- <-]). apply bind_Ret in Hr as ([[[st rep] mm'] ws'] & Hc & [= <-]). cbn [fst snd].
  unfold MetadataManager.CreateFile in Hc. rewrite (proj1 (mi_manager y Hok)) in Hc.
  destruct (files (sys_manager y) !! n) as [mf|] eqn:Hf.
  { injection Hc as <- _ <- <-. cbn. unfold negative. rewrite error_code_CANCELLED. cbn. by destruct y. }
  apply bind_Ret in Hc as (ws1 & Hcs & [= <- _ <- <-]). cbn [status_ok Z.eqb]. destruct (Hcon) as [H0 H1 H2 H3 H4 H5].
  destruct (createStripes_placed n width Hw (sys_servers y)) as (ws2 & Hcs2 & Hpl).
  { split; [done|]. intros idx fsrv Hi. unfold newName in Hnew. rewrite Forall_lookup in Hnew. rewrite (Hnew idx fsrv Hi). split; [done|]. intros id Hid. lia. }
  rewrite Hcs in Hcs2. injection Hcs2 as <-. destruct (createStripes_other n width (sys_servers y) ws1 (proj2 Hw) H0 Hcs) as [K1 K2 K3].
  assert (Hbyte : forall n' wd x v, serversByte (sys_servers y) n' wd x = Some v -> serversByte ws1 n' wd x = Some v).
  { intros n' wd x v Hv. destruct (decide (n' = n)) as [->|Hne]; [by rewrite newName_unstored in Hv|]. by rewrite K3. }
  assert (Hwidth : forall n', n' <> n -> widthOf (setFiles (<[n := createdFile n width now now]> (files (sys_manager y))) (sys_manager y)) n' = widthOf (sys_manager y) n').
  { intros n' Hne. unfold widthOf. cbn. by rewrite lookup_insert_ne. }
  split; cbn.
  - by apply K1.
  - intros p sp Hp. destruct (H1 p sp Hp) as [a Ha]. exists a. eapply (clientGood_frame M); [exact Ha|split; [exact K1|]|..].
    + intros n' wd Hs. destruct (decide (n' = n)) as [->|Hne]; [by apply newName_unserved in Hs|by apply K2].
    + intros n' x v _. unfold forget. by case_decide.
    + intros n' wd x v _ _. apply Hbyte.
  - exact H2.
  - intros p sp n' d wd Hp Hin. destruct (decide (n' = n)) as [->|Hne]; [|rewrite Hwidth by done; by eapply H3].
    destruct (mirror_open y p sp n d wd Hok Hp Hin) as (mf & Hmf & _). congruence.
  - intros n' wd. destruct (decide (n' = n)) as [->|Hne].
    + unfold widthOf. cbn. rewrite lookup_insert_eq. cbn. unfold getStripWidth. cbn. rewrite i32_id by lia. intros [= <-]. split; [done|].
      by apply placed_served.
    + rewrite Hwidth by done. intros [? ?]%H4. split; [done|by apply K2].
  - intros n' wd x v. unfold forget. case_decide as Hd; [done|]. rewrite Hwidth by done. intros Hn Hx Hv Hno. apply Hbyte. by apply H5.
Qed.

Lemma delete_consistent M y peer n s code y' :
  consistent M y -> mirrorOk y -> deleteFile (ManagerStub0 := systemManager std_hash raw junk now peer) n s y = Ret (code, y') -> consistent M y'.
Proof.
  intros Hcon Hok Hr. unfold deleteFile in Hr. destruct (negb (stub_ s)); [by injection Hr as _ <-|]. cbn in Hr.
  apply bind_Ret in Hr as (r & Hr & [= _ <-]). apply bind_Ret in Hr as ([[st rep] mm'] & Hd & [= <-]). cbn [snd].
  unfold DeleteFile in Hd. rewrite (proj1 (mi_manager y Hok)) in Hd. assert (Hsame : setManager (sys_manager y) y = y) by (by destruct y).
  destruct (files (sys_manager y) !! n) as [mf|] eqn:Hf; [|injection Hd as _ _ <-; by rewrite Hsame].
  destruct (mm_lock mf); [done|]. unfold isOpen in Hd. destruct (decide (clientPermissions mf = ∅)) as [He|He]; [|injection Hd as _ _ <-; by rewrite Hsame].
  injection Hd as _ _ <-. destruct (Hcon) as [H0 H1 H2 H3 H4 H5].
  assert (Hwidth : forall n' wd, widthOf (setFiles (delete n (files (sys_manager y))) (sys_manager y)) n' = Some wd -> widthOf (sys_manager y) n' = Some wd).
  { intros n' wd. unfold widthOf. cbn. rewrite lookup_delete. by case_decide. }
  split; cbn; [done|exact H1|exact H2| | |].
  - intros p sp n' d wd Hp Hin. destruct (decide (n' = n)) as [->|Hne].
    + destruct (mirror_open y p sp n d wd Hok Hp Hin) as (mf' & Hmf' & Hne). congruence.
    + unfold widthOf. cbn. rewrite lookup_delete_ne by done. by eapply H3.
  - intros n' wd Hn%Hwidth. by apply H4.
  - intros n' wd x v Hn%Hwidth. by apply H5.
Qed.

(** ** Opening and closing *)

Lemma OpenFile_inv peer n mode y rep y' :
  mirrorOk y -> rpc_OpenFile (ManagerStub := systemManager std_hash raw junk now peer) n mode y = Ret (OK, rep, y') ->
  exists mm', y' = setManager mm' y /\ clientStubs mm' = clientStubs (sys_manager y) /\
    (forall n', widthOf mm' n' = widthOf (sys_manager y) n') /\ widthOf (sys_manager y) n = Some (fr_stripWidth rep).
Proof.
  intros Hok Hr. cbn in Hr. apply bind_Ret in Hr as ([[st rep'] mm'] & Ho & [= -> -> <-]). exists mm'. split; [done|].
  unfold OpenFile in Ho. rewrite (proj1 (mi_manager y Hok)) in Ho. destruct (files (sys_manager y) !! n) as [mf|] eqn:Hf; [|done].
  destruct (mm_lock mf); [done|]. unfold open in Ho. destruct (clientPermissions mf !! peer); cbn in Ho; [done|]. injection Ho as <- <-. split; [done|]. split.
  - intros n'. unfold widthOf. cbn. rewrite lookup_insert. case_decide as Hd; [|done]. subst n'. by rewrite Hf.
  - unfold widthOf. by rewrite Hf.
Qed.

(** A file without tokens is added to the vector. *)
Lemma open_good M ws s s' a f wd :
  clientGood M ws s a -> descriptorCount s < INT_MAX -> openedFiles s' = openedFiles s ++ [f] -> NoDup (fileName <$> openedFiles s') ->
  getDescriptor f = descriptorCount s + 1 -> getStripWidth (cf_base f) = wd -> fileTokens f = [] -> 0 < wd <= INT_MAX -> serversServed ws (fileName f) wd ->
  fileServerStubs s' = fileServerStubs s -> instance_ s' = instance_ s -> stub_ s' = stub_ s -> descriptorCount s' = descriptorCount s + 1 ->
  clientGood M ws s' a /\ forall w n x, mayAccess s' w n x <-> mayAccess s w n x.
Proof.
  intros Hg Hlt Hs' Hnd Hd Hwd Hft Hw Hserv E1 E2 E3 E4.
  assert (Hacc : forall w n x, mayAccess s' w n x <-> mayAccess s w n x).
  { intros w n x. unfold mayAccess. rewrite Hs'. split.
    - intros (g & [Hg'| ->%list_elem_of_singleton]%elem_of_app & Hgn & Hh); [by exists g|]. rewrite Hft in Hh. by apply holds_nil in Hh.
    - intros (g & Hg' & Hrest). exists g. split; [apply elem_of_app; by left|done]. }
  split; [|done]. destruct Hg as [[H1 (c & Hc & Hrep) [T1 T2 T3] H4 H5] Hcov Hown Htok Hdesc Hcount Hstub].
  assert (Htab : table s' = table s ++ [entry f]) by (unfold table; by rewrite Hs', fmap_app).
  assert (Hfresh : forall n d wd, (n, d, wd) ∈ table s -> d <> u32 (getDescriptor f)).
  { intros n d wd' (g & [= _ -> _] & Hin)%list_elem_of_fmap. specialize (Hdesc g Hin). rewrite !u32_id by (rewrite ?Hd; word_lia). lia. }
  assert (Hnew : forall ad, cached a (u32 (getDescriptor f), ad) = None).
  { intros ad. destruct (cached a _) as [b|] eqn:E; [|done]. destruct (H4 _ _ _ E) as (_ & n & wd' & Hin). by apply Hfresh in Hin. }
  assert (Hentry : forall n d wd', (n, d, wd') ∈ table s' -> (n, d, wd') ∈ table s \/ (n, d, wd') = entry f).
  { intros n d wd'. rewrite Htab, elem_of_app, list_elem_of_singleton. tauto. }
  split.
  - split; [by rewrite E1|exists c; split; [|done]; unfold getInstance in *; by rewrite E2| | |].
    + split.
      * by rewrite table_names.
      * rewrite Htab, fmap_app. apply NoDup_app. split; [done|]. split; [|apply NoDup_singleton]. intros d Hd' ->%list_elem_of_singleton.
        apply list_elem_of_fmap in Hd' as ([[n d'] wd'] & Hd' & Hin). cbn in Hd'. by eapply Hfresh.
      * intros n d wd' [Hin|[= -> -> ->]]%Hentry; [by eapply T3|]. rewrite Hwd. done.
    + intros d ad b Hb. destruct (H4 d ad b Hb) as (Had & n & wd' & Hin). split; [done|]. exists n, wd'. rewrite Htab. apply elem_of_app. by left.
    + intros n d wd' x v [Hin|[= -> -> ->]]%Hentry Hx [Hm Hv]%heldBytes_Some; apply Hacc in Hm as Hm0.
      * apply H5; [done|done|]. by apply heldBytes_Some.
      * exfalso. destruct Hm as (g & (j & Hj)%list_elem_of_lookup & Hgn & Hh).
        assert (Hl : openedFiles s' !! length (openedFiles s) = Some f) by (rewrite Hs', lookup_app_r, Nat.sub_diag by lia; done).
        assert (j = length (openedFiles s)) as -> by (by eapply (fileName_unique s' j _ g f)). assert (g = f) as -> by congruence.
        rewrite Hft in Hh. by apply holds_nil in Hh.
  - intros n d wd' x [Hin|[= -> -> ->]]%Hentry Hc'; [apply Hacc; by eapply Hcov|]. rewrite Hnew in Hc'. by destruct Hc'.
  - intros n x (d & wd' & b & [Hin|[= -> -> ->]]%Hentry & Hb & Hdi); [apply Hacc, Hown; by exists d, wd', b|]. by rewrite Hnew in Hb.
  - intros g. rewrite Hs'. intros [Hin| ->%list_elem_of_singleton]%elem_of_app; [by apply Htok|]. rewrite Hft. split; [done|constructor].
  - intros g. rewrite Hs', E4. intros [Hin| ->%list_elem_of_singleton]%elem_of_app; [specialize (Hdesc g Hin); lia|]. rewrite Hd. lia.
  - rewrite E4. lia.
  - congruence.
Qed.

Lemma open_consistent M y peer ip n mode s code s' y' :
  consistent M y -> mirrorOk y -> clientStubs (sys_manager y) !! peer = Some ip -> sys_clients y !! ip = Some s -> descriptorCount s < INT_MAX ->
  openFile (ManagerStub0 := systemManager std_hash raw junk now peer) n mode s y = Ret (code, s', y') -> consistent M (setClient ip s' y').
Proof.
  intros Hcon Hok Hp Hs Hlt Hr. assert (Hok' := openFile_mirror _ _ _ _ _ _ _ _ _ _ _ _ _ Hok Hp Hs Hr).
  destruct (co_client _ _ Hcon peer s) as [a Hg]; [by exists ip|]. unfold openFile in Hr. rewrite (cg_stub _ _ _ _ Hg) in Hr. cbn [negb] in Hr.
  apply bind_Ret in Hr as ([[st rep] y1] & Ho & Hr). destruct st; cbn [status_ok] in Hr.
  2:{ injection Hr as _ <- <-. pose proof (OpenFile_mirror _ _ _ _ _ _ _ _ _ _ _ _ _ Hok Hp Hs Ho) as ->. by rewrite setClient_id. }
  apply OpenFile_inv in Ho as (mm' & -> & Hst & Hw & Hwn); [|done]. destruct (newClientFile _ _) as [f count] eqn:Hf. injection Hr as _ <- <-.
  assert (Hcon1 : consistent M (setManager mm' y)) by (by apply consistent_manager).
  destruct (co_served _ _ Hcon n _ Hwn) as [Hwd Hserv]. pose proof (cg_count _ _ _ _ Hg) as Hcount.
  unfold newClientFile, openedFile in Hf. rewrite (i32_id (descriptorCount s + 1)), (i32_id (fr_stripWidth rep)) in Hf by lia. injection Hf as <- <-.
  set (f := mkClientFile _ _). set (s' := mkPFSClient _ _ _ _ _) in *.
  destruct (open_good M (sys_servers y) s s' a f (fr_stripWidth rep)) as [Hg' Hacc]; try done.
  { eapply (cm_names (vectorOf mm' peer)), (mi_match _ Hok' peer ip s'); [cbn; by rewrite Hst|apply lookup_insert_eq]. }
  { symmetry. apply (cg_stub _ _ _ _ Hg). }
  rewrite <- (setServers_id (setManager mm' y)).
  assert (Hc : isClient (setManager mm' y) peer s) by (exists ip; cbn; by rewrite Hst).
  apply (consistent_replace M M (setManager mm' y) peer ip s' a (sys_servers y)); cbn; [done|rewrite Hst; apply Hok|by rewrite Hst|done|by split|..|done|done|].
  - intros n' d wd. unfold table. cbn. rewrite fmap_app. intros [Hin|Hin]%elem_of_app; [by eapply (co_width _ _ Hcon1)|].
    apply list_elem_of_singleton in Hin. injection Hin as -> _ ->. by rewrite Hw.
  - intros q sq n' x Hq Hne. rewrite !Hacc. split.
    + by apply (co_exclusive _ _ Hcon1 peer q s sq n' x Hc Hq (not_eq_sym Hne)).
    + by apply (co_exclusive _ _ Hcon1 q peer sq s n' x Hq Hc Hne).
  - intros n' wd x v Hwx Hx Hv Hno Hoth. rewrite Hacc in Hno. apply (co_stored _ _ Hcon1 n' wd x v Hwx Hx Hv). intros q sq Hq.
    destruct (decide (q = peer)) as [->|Hne]; [|by apply (Hoth q sq)]. destruct Hq as (iq & Hq & Hsq), Hc as (ic & Hc & Hsc). congruence.
Qed.

Lemma CloseFile_inv peer n hm sz y st rep y' :
  mirrorOk y -> rpc_CloseFile (ManagerStub := systemManager std_hash raw junk now peer) n hm sz y = Ret (st, rep, y') ->
  exists mm', y' = setManager mm' y /\ clientStubs mm' = clientStubs (sys_manager y) /\ (forall n', widthOf mm' n' = widthOf (sys_manager y) n').
Proof.
  intros Hok Hr. cbn in Hr. apply bind_Ret in Hr as ([[st' rep'] mm'] & Hc & [= -> -> <-]). exists mm'. split; [done|].
  unfold CloseFile in Hc. rewrite (proj1 (mi_manager y Hok)) in Hc. destruct (files (sys_manager y) !! n) as [mf|] eqn:Hf; [|by injection Hc as _ _ <-].
  set (mf1 := if hm then _ else mf) in Hc. assert (Hb : getStripWidth (base mf1) = getStripWidth (base mf)) by (unfold mf1; by destruct hm).
  assert (Hcl : getStripWidth (base (close peer mf1).2) = getStripWidth (base mf)) by (unfold close; by destruct (clientPermissions mf1 !! peer)).
  destruct (mm_lock mf1); [done|]. destruct (close peer mf1) as [b mf2]. cbn in Hcl. assert (mm' = setFiles (<[n := mf2]> (files (sys_manager y))) (sys_manager y)) as ->
    by (destruct b; by injection Hc as _ _ <-). split; [done|]. intros n'. unfold widthOf. cbn. rewrite lookup_insert. case_decide as Hd; [|done].
  subst n'. rewrite Hf. cbn. by rewrite Hcl.
Qed.

(** The files that stay open. *)
Lemma erase_file s s' i f :
  NoDup (fileName <$> openedFiles s) -> openedFiles s !! i = Some f -> openedFiles s' = erase_range i i (openedFiles s) ->
  forall g, g ∈ openedFiles s' <-> g ∈ openedFiles s /\ fileName g <> fileName f.
Proof.
  intros Hnd Hf Hs' g. assert (Hl := Hf). apply take_drop_middle in Hl. unfold erase_range in Hs'.
  set (l1 := take i (openedFiles s)) in *. set (l2 := drop (S i) (openedFiles s)) in *. rewrite <- Hl in Hnd |- *.
  rewrite Hs', !elem_of_app, elem_of_cons. rewrite fmap_app, fmap_cons, NoDup_app, NoDup_cons in Hnd. destruct Hnd as (_ & Hdis & Hnf & _). split.
  - intros Hg. split; [tauto|]. intros Heq. destruct Hg as [Hg|Hg].
    + apply (Hdis (fileName g)); [apply list_elem_of_fmap; by exists g|]. rewrite Heq. apply list_elem_of_here.
    + apply Hnf. rewrite <- Heq. apply list_elem_of_fmap. by exists g.
  - intros [[?|[->|?]] Hne]; [by left|done|by right].
Qed.

Lemma NoDup_erase {A B} (h : A -> B) i (l : list A) : NoDup (h <$> l) -> NoDup (h <$> erase_range i i l).
Proof.
  unfold erase_range. intros Hnd. rewrite fmap_app, fmap_take, fmap_drop. set (k := h <$> l) in *.
  destruct (decide (i < length k)%nat) as [Hi|Hi]; [|rewrite drop_ge, app_nil_r by lia; by eapply sublist_NoDup, sublist_take].
  destruct (lookup_lt_is_Some_2 k i Hi) as [x Hx]. apply take_drop_middle in Hx. rewrite <- Hx in Hnd. rewrite NoDup_app, NoDup_cons in *.
  destruct Hnd as (H1 & H2 & H3 & H4). split; [done|]. split; [|done]. intros z Hz1 Hz2. apply (H2 z Hz1). by right.
Qed.

(** The client after the blocks of a file were put on the servers and the file was
    removed: its blocks were covered by its tokens, so none is left. *)
Lemma close_good M ws ws' s s' a a' i f :
  clientGood M ws s a -> openedFiles s !! i = Some f -> drainedAt (table s) a ws a' ws' ->
  (forall p x, p ∈ fileTokens f -> start p <= x <= end_ p -> cached a' (u32 (getDescriptor f), baseOf x) = None) ->
  clientOkAt (heldBytes M s) (setInstance (instance_ s') s) a' ws' -> s' = setOpenedFiles (erase_range i i (openedFiles s)) (setInstance (instance_ s') s) ->
  clientGood M ws' s' a' /\ forall w n x, mayAccess s' w n x <-> mayAccess s w n x /\ n <> fileName f.
Proof.
  intros Hg Hf Hdr Hgone Hok Hs'. assert (Hnd := cg_names _ _ _ _ Hg).
  assert (Hof : openedFiles s' = erase_range i i (openedFiles s)) by (by rewrite Hs').
  assert (Hin : forall g, g ∈ openedFiles s' <-> g ∈ openedFiles s /\ fileName g <> fileName f) by (by eapply erase_file).
  assert (Hacc : forall w n x, mayAccess s' w n x <-> mayAccess s w n x /\ n <> fileName f).
  { intros w n x. unfold mayAccess. split.
    - intros (g & [Hg1 Hg2]%Hin & <- & Hh). split; [by exists g|done].
    - intros [(g & Hg1 & <- & Hh) Hne]. exists g. split; [by apply Hin|done]. }
  assert (Htab : forall n d wd, (n, d, wd) ∈ table s' <-> (n, d, wd) ∈ table s /\ n <> fileName f).
  { intros n d wd. unfold table. rewrite !list_elem_of_fmap. split.
    - intros (g & He & [Hg1 Hg2]%Hin). split; [by exists g|]. assert (n = fileName g) as -> by (by injection He). done.
    - intros [(g & He & Hg1) Hne]. exists g. split; [done|]. apply Hin. split; [done|]. by assert (n = fileName g) as <- by (by injection He). }
  assert (Hleft : forall n d wd ad b, cached a' (d, ad) = Some b -> (n, d, wd) ∈ table s -> n <> fileName f).
  { intros n d wd ad b Hb Hn ->. destruct (ok_blocks _ _ _ _ _ _ Hok d ad b Hb) as [Had _].
    destruct (base_off_unique ad 0 ad) as [Hbase _]; [apply Had|by apply Nat.ltb_lt|lia|].
    assert (Hm : mayAccess s false (fileName f) ad).
    { eapply (cg_covered _ _ _ _ Hg); [exact Hn|]. apply (dr_cached _ _ _ _ _ Hdr). rewrite Hbase. by eexists. }
    apply (mayAccess_lookup s i f) in Hm as (p & Hp & Hx & _); [|done|done]. destruct (entry f) as [[n' d'] wd'] eqn:He.
    assert (fileName f = n' /\ u32 (getDescriptor f) = d') as [<- Hd'] by (by injection He).
    destruct (table_name_unique _ _ _ _ _ _ _ (ok_table _ _ _ _ _ _ (cg_ok _ _ _ _ Hg)) (entry_in_table s i f _ _ _ Hf He) Hn) as [-> _].
    specialize (Hgone p ad Hp ltac:(lia)). rewrite Hd', Hbase in Hgone. congruence. }
  split; [|done]. destruct Hok as [K1 (c & Hc & Hrep) [T1 T2 T3] K4 K5]. split.
  - split; [by rewrite Hs'|exists c; split; [|done]; rewrite Hs'; exact Hc| | |].
    + split; [rewrite table_names, Hof; by apply NoDup_erase| |].
      * replace (table s') with (erase_range i i (table s)) by (unfold table; rewrite Hof; unfold erase_range; by rewrite fmap_app, fmap_take, fmap_drop).
        by apply NoDup_erase.
      * intros n d wd [Hn _]%Htab. by eapply T3.
    + intros d ad b Hb. destruct (K4 d ad b Hb) as (Had & n & wd & Hn). split; [done|]. exists n, wd. apply Htab. split; [done|]. by eapply Hleft.
    + intros n d wd x v [Hn _]%Htab Hx [Hm Hv]%heldBytes_Some. apply (K5 n d wd x v Hn Hx). apply heldBytes_Some. split; [by apply Hacc in Hm as [? _]|done].
  - intros n d wd x [Hn Hne]%Htab Hcx. apply Hacc. split; [|done]. eapply (cg_covered _ _ _ _ Hg); [exact Hn|by apply (dr_cached _ _ _ _ _ Hdr)].
  - intros n x (d & wd & b & [Hn Hne]%Htab & Hb & Hdi). apply Hacc. split; [|done]. apply (cg_owned _ _ _ _ Hg), (dr_dirty _ _ _ _ _ Hdr). by exists d, wd, b.
  - intros g [Hg1 _]%Hin. by apply (cg_tokens _ _ _ _ Hg).
  - intros g [Hg1 _]%Hin. rewrite Hs'. by apply (cg_descriptors _ _ _ _ Hg).
  - rewrite Hs'. apply (cg_count _ _ _ _ Hg).
  - rewrite Hs'. apply (cg_stub _ _ _ _ Hg).
Qed.

(** The tokens of a vector as [evictTokens] takes them. *)
Lemma small_evictable l : small l -> Forall (fun p => is_u32 (start p) /\ end_ p + pfsBlockSizeInBytes < 4294967296) l.
Proof. intros Hl. eapply Forall_impl; [exact Hl|]. intros p [Hp1 Hp2]. change pfsBlockSizeInBytes with 1024. split; word_lia. Qed.

Lemma close_consistent M y peer ip fd i s r s' y' :
  consistent M y -> mirrorOk y -> clientStubs (sys_manager y) !! peer = Some ip -> sys_clients y !! ip = Some s ->
  findDescriptor fd s = Some i -> (i < 2)%nat ->
  closeFile (ManagerStub0 := systemManager std_hash raw junk now peer) (FileServerStub0 := systemServers junk) std_hash raw
    fd s y = Ret (r, s', y') -> consistent M (setClient ip s' y').
Proof.
  intros Hcon Hok Hp Hs Hfind Hi Hr. destruct (co_client _ _ Hcon peer s) as [a Hg]; [by exists ip|].
  unfold closeFile in Hr. rewrite (cg_stub _ _ _ _ Hg), Hfind in Hr. cbn [negb] in Hr.
  assert (boolFoundAt (Some i) = i) as Hb by (destruct i as [|[|i]]; [done|done|lia]). rewrite Hb in Hr.
  apply bind_Ret in Hr as (n & Hn & Hr). apply bind_Ret in Hr as (f & Hf%deref_Ret & Hr).
  unfold requestName in Hn. apply bind_Ret in Hn as (f' & Hf'%deref_Ret & [= <-]). rewrite Hf in Hf'. injection Hf' as <-.
  apply bind_Ret in Hr as ([s1 y1] & Hev & Hr). assert (Hfr := Hev). apply (evictTokens_framed _ _ onlyServers) in Hfr as [[ws ->] Hsame].
  apply bind_Ret in Hr as ([[st rep] y2] & Hc & Hr).
  destruct (CloseFile_mirror std_hash raw junk now peer ip (fileName f) (hasModified (cf_base f)) (getSize (cf_base f)) s (setServers ws y) st rep y2 i f)
    as [-> _];
    [by apply mirror_servers|done|done|apply u32_range|done|done|exact Hc|].
  apply CloseFile_inv in Hc as (mm' & -> & Hst & Hw); [|by apply mirror_servers]. cbn in Hr. injection Hr as _ <- <-.
  destruct (cg_tokens _ _ _ _ Hg f ltac:(by eapply list_elem_of_lookup_2)) as [_ Hsm].
  destruct (evictTokens_ok (W := System) (FileServerStub0 := systemServers junk) (FileServerStubOk0 := systemServersOk junk) std_hash raw
    (heldBytes M s) s a y i f (fileTokens f)) as (s2 & a' & y2 & Hev2 & Hok2 & _ & _ & Hdr & Hgone);
    [apply clientOk_servers, Hg|done|by apply small_evictable|]. unfold fileTokens in Hev2. rewrite Hev in Hev2. injection Hev2 as <- <-.
  destruct Hsame as [c ->]. set (s' := setOpenedFiles _ _). apply clientOk_servers in Hok2. apply drained_servers in Hdr. cbn in Hok2, Hdr.
  destruct (close_good M (sys_servers y) ws s s' a a' i f) as [Hg' Hacc]; [done..|].
  apply (consistent_manager M (setClient ip s' (setServers ws y)) mm'); [done|done|].
  assert (Hnd := cg_names _ _ _ _ Hg). apply (consistent_drain M y peer ip s s' a a' ws); [done|apply Hok|done|done|done|done|done|..].
  - intros [[n d] wd] (g & He & Hgin)%list_elem_of_fmap. apply list_elem_of_fmap. exists g. split; [done|].
    by eapply (erase_file s s' i f Hnd Hf).
  - by intros w n x [? _]%Hacc.
  - intros n d wd x v Hin Hx Hv Hm Hno. destruct (decide (n = fileName f)) as [->|Hne]; [|by destruct Hno; apply Hacc].
    destruct (entry f) as [[n' d'] wd'] eqn:He. assert (fileName f = n' /\ u32 (getDescriptor f) = d') as [<- Hd'] by (by injection He).
    destruct (table_name_unique _ _ _ _ _ _ _ (ok_table _ _ _ _ _ _ (cg_ok _ _ _ _ Hg)) (entry_in_table s i f _ _ _ Hf He) Hin) as [-> ->].
    assert (Hm' := Hm). apply (mayAccess_lookup s i f) in Hm' as (p & Hpin & Hpx & _); [|done|done].
    eapply (evicted_stored (W := list FileServer) (FileServerStub0 := serversStub junk) std_hash raw (heldBytes M s) _ a' ws (fileName f) _ _ x v Hok2);
      [exact Hin|rewrite <- Hd'; apply (Hgone p); [done|lia]|done|]. apply heldBytes_Some. split; [by apply mayAccess_weaken|done].
Qed.

End Consistency.
