(* ===== verification/History.v ===== *)
(** Histories of the whole system and what reads return.

    A history is a sequence of calls of the clients, each run to its end. Beside the
    state it carries the map [M] of the bytes last written to every file. On orderly
    histories the invariant of Consistency.v holds, so a read of any client returns
    the last bytes written by any client, and it returns when no token that it needs
    is locked. *)

From Stdlib Require Import String Ascii Strings.Byte.
From stdpp Require Import gmap strings.
From S2P Require Import Prelude Config Permission File Tokens MMFile FileServer MetadataManager ClientFile Cache CacheLists CacheSpec CacheProps Client ClientSpec ClientFrame ClientProps System SystemInv Consistency.
#[local] Open Scope Z_scope.

(** The name of the file that a client has open under a descriptor. *)
Definition nameOf (y : System) (no : string) (fd : Z) : option string :=
  s ← sys_clients y !! clientIp no; i ← findDescriptor fd s; f ← openedFiles s !! i; Some (fileName f).

Section History.
Context `{!GrpcCodes} (std_hash : Z -> Z) (raw : nat -> CacheBlock) (junk : nat -> byte) (now : Z).
Implicit Types (y : System) (s : PFSClient) (M : string -> Z -> option byte).

(** ** Orderly calls *)

(** A read or write of whole blocks inside the address range, with room in the
    cache, whose grant the vector of the client can record. *)
Record dataOrderly (peer : string) (fd nbyte offset : Z) (wr : bool) y s : Prop := mkDataOrderly {
  do_positive : 0 < nbyte;
  do_inFile : inFile offset nbyte;
  do_aligned : aligned offset nbyte;
  do_room : roomFor raw s (blocksIn offset nbyte);
  do_fits f : f ∈ openedFiles s -> getDescriptor f = fd -> grantFits y peer f offset (offset + nbyte) wr }.

Definition orderly (no peer : string) (c : Call) y : Prop :=
  callOk no peer c y /\ forall s, sys_clients y !! clientIp no = Some s ->
  match c with
  | CallCreate n width => 0 < width <= INT_MAX /\ newName n (sys_servers y)
  | CallOpen _ _ => descriptorCount s < INT_MAX
  | CallRead fd nbyte offset => dataOrderly peer fd nbyte offset false y s
  | CallWrite fd bs offset => dataOrderly peer fd (Z.of_nat (length bs)) offset true y s
  | CallHarvester => forall k, getInstance raw s = Ret k -> (2020 <= size (nodes k))%nat
  | _ => True
  end.

(** ** Histories *)

(** What a call does to the files, as a reader sees them. *)
Definition ghostStep (no : string) (c : Call) (r : Result) y M : string -> Z -> option byte :=
  match c, r with
  | CallCreate n _, CodeResult 0 => forget n M
  | CallWrite fd bs offset, WriteResult code _ =>
      if 0 <=? code then match nameOf y no fd with Some n => updated M n offset bs | None => M end else M
  | _, _ => M
  end.

Inductive sysHistory : (string -> Z -> option byte) -> System -> Prop :=
| sysHistory_init : sysHistory (fun _ _ => None) newSystem
| sysHistory_call M no peer c y r y' :
    sysHistory M y -> orderly no peer c y -> sysCall std_hash raw junk now no peer c y = Ret (r, y') ->
    sysHistory (ghostStep no c r y M) y'.

Abbreviation consistentAt := (consistent std_hash raw junk).

Lemma newSystem_consistent : consistentAt (fun _ _ => None) newSystem.
Proof.
  assert (Hno : forall p s, ~ isClient newSystem p s) by (intros p s (ip & Hp & _); cbn in Hp; by rewrite lookup_empty in Hp).
  split; [apply freshServers_ok|..].
  - by intros p s ?%Hno.
  - by intros p q sp sq n x ?%Hno.
  - by intros p s n d wd ?%Hno.
  - intros n wd Hw. unfold widthOf in Hw. cbn in Hw. by rewrite lookup_empty in Hw.
  - done.
Qed.

(** The open file of a descriptor. *)
Lemma nameOf_file M y no peer s f :
  consistentAt M y -> clientStubs (sys_manager y) !! peer = Some (clientIp no) -> sys_clients y !! clientIp no = Some s -> f ∈ openedFiles s ->
  nameOf y no (getDescriptor f) = Some (fileName f).
Proof.
  intros Hcon Hp Hs (i & Hf)%list_elem_of_lookup. destruct (co_client _ _ _ _ _ Hcon peer s) as [a Hg]; [by exists (clientIp no)|].
  unfold nameOf. rewrite Hs. cbn.
  rewrite (findDescriptor_ok (W := list FileServer) (FileServerStub0 := serversStub junk) (FileServerStubOk0 := serversStubOk junk)
    s (sys_servers y) i f (ok_table _ _ _ _ _ _ (cg_ok _ _ _ _ _ _ _ Hg)) Hf). cbn. by rewrite Hf.
Qed.

(** A call that runs a client and changes only the manager and the servers. *)
Lemma atClient_same {A} ip (op : PFSClient -> System -> outcome (A * System)) y a y' :
  atClient ip (fun s y => r ← op s y; Ret (r.1, s, r.2)) y = Ret (a, y') ->
  exists s y1, sys_clients y !! ip = Some s /\ op s y = Ret (a, y1) /\ y' = setClient ip s y1.
Proof.
  intros (s & s' & y1 & Hs & Hop & ->)%atClient_inv. apply bind_Ret in Hop as ([a' y2] & Hop & [= <- <- <-]). by exists s, y2.
Qed.

Lemma thread_inv thread no y y' :
  sysThread raw thread no y = Ret y' ->
  exists s c c' y1, sys_clients y !! clientIp no = Some s /\ getInstance raw s = Ret c /\ thread s c y = Ret (c', y1) /\
    y' = setClient (clientIp no) (setInstance (Some c') s) y1.
Proof.
  unfold sysThread. intros Hr. apply bind_Ret in Hr as ([[] y1] & Hr & [= <-]). apply atClient_inv in Hr as (s & s' & y2 & Hs & Hop & ->).
  apply bind_Ret in Hop as (c & Hc & Hop). apply bind_Ret in Hop as ([c' y3] & Hop & [= <- <-]). by exists s, c, c', y3.
Qed.

(** Every orderly call keeps the bytes where readers find them. *)
Lemma call_consistent M no peer c y r y' :
  consistentAt M y -> mirrorOk y -> orderly no peer c y -> sysCall std_hash raw junk now no peer c y = Ret (r, y') ->
  consistentAt (ghostStep no c r y M) y'.
Proof.
  intros Hcon Hok [Hc Hord] Hr. assert (Hinj := mi_stubs y Hok).
  destruct c as [|n width|n mode|fd nbyte offset|fd bs offset|fd|n|fd| | |]; cbn [sysCall callOk] in *;
    apply bind_Ret in Hr as (v & Hr & Hv); injection Hv as <- <-; try match type of v with (_ * _)%type => destruct v as [z y1] end; cbn [fst snd ghostStep].
  - destruct Hc. by eapply start_consistent.
  - apply atClient_same in Hr as (s & y2 & Hs & Hr & ->). destruct (Hord s Hs) as [Hw Hn].
    destruct (co_client _ _ _ _ _ Hcon peer s) as [a Hg]; [by exists (clientIp no)|].
    destruct (createFile_mirror _ _ _ _ _ _ _ _ _ _ _ Hok Hr) as [_ Hcl]. rewrite setClient_id by (by rewrite Hcl).
    apply (create_consistent _ _ _ _ M) in Hr; [|done|done|apply Hg|done|done]. destruct z; exact Hr.
  - apply atClient_inv in Hr as (s & s' & y2 & Hs & Hr & ->). specialize (Hord s Hs). by eapply open_consistent.
  - apply atClient_inv in Hr as (s & s' & y2 & Hs & Hr & ->). destruct (Hord s Hs). by eapply read_consistent.
  - apply atClient_inv in Hr as (s & s' & y2 & Hs & Hr & ->). destruct (Hord s Hs), z as [code hit]. cbn [fst snd].
    apply (write_consistent _ _ _ _ M) with (peer := peer) (ip := clientIp no) in Hr as [Hneg Hpos]; try done.
    destruct (Z.leb_spec 0 code) as [Hle|Hlt]; [|by apply Hneg]. destruct (Hpos Hle) as (f & Hf & <- & _ & Hcon').
    by rewrite (nameOf_file M y no peer s f).
  - destruct Hc as [Hp Hi]. apply atClient_inv in Hr as (s & s' & y2 & Hs & Hr & ->). unfold closesEarly in Hi. rewrite Hs in Hi.
    cbn in Hi. destruct (findDescriptor fd s) as [i|] eqn:Hfind; [|done]. apply Nat.leb_le in Hi. eapply close_consistent; [done..|lia|done].
  - apply atClient_same in Hr as (s & y2 & Hs & Hr & ->). destruct (deleteFile_mirror _ _ _ _ _ _ _ _ _ _ Hok Hr) as [_ Hcl].
    rewrite setClient_id by (by rewrite Hcl). by eapply delete_consistent.
  - apply atClient_inv in Hr as (s & s' & y2 & Hs & Hop & ->). apply bind_Ret in Hop as ([z2 y3] & Hop%(getFileStat_same _ _ _ _ _ _ _ _ _ _ Hok) & [= _ <- <-]).
    cbn. subst y3. by rewrite setClient_id.
  - unfold sysFinalize in Hr. apply bind_Ret in Hr as ([[] y1] & Hr & [= <-]). apply atClient_inv in Hr as (s & s' & y2 & Hs & Hop & ->).
    apply bind_Ret in Hop as ([s3 y3] & Hop & [= <- <-]). by eapply finalize_consistent.
  - apply thread_inv in Hr as (s & k & k' & y2 & Hs & Hk & Hr & ->). by eapply flusher_consistent.
  - apply thread_inv in Hr as (s & k & k' & y2 & Hs & Hk & Hr & ->). specialize (Hord s Hs k Hk). by eapply harvester_consistent.
Qed.

Lemma history_reachable M y : sysHistory M y -> sysReachable std_hash raw junk now y.
Proof. induction 1 as [|M no peer c y r y' _ IH [Hc _] Hr]; [constructor|by eapply reach_call]. Qed.

Lemma history_mirror M y : sysHistory M y -> mirrorOk y.
Proof. intros Hh%history_reachable. by eapply reachable_mirror. Qed.

Lemma history_consistent M y : sysHistory M y -> consistentAt M y.
Proof.
  induction 1 as [|M no peer c y r y' Hh IH Hc Hr]; [apply newSystem_consistent|]. eapply call_consistent; [exact IH|by eapply history_mirror|done|done].
Qed.

(** ** Calls return *)

(** No call is using a token of the vector. *)
Definition idle (l : list Permission) : Prop := Forall (fun p => locked p = false /\ permitLock p = false) l.

(** No call is using a token of the file: no client has one locked. *)
Definition quiet y (n : string) : Prop :=
  forall p s f, isClient y p s -> f ∈ openedFiles s -> fileName f = n -> idle (fileTokens f).

Lemma idle_revocable st en l : idle l -> existsb (fun p => isShared p st en && locked p) l = false.
Proof. induction 1 as [|p l [Hp _] _ IH]; [done|]. cbn. by rewrite Hp, andb_false_r. Qed.

Lemma idle_lockable b l : idle l -> lockable b l.
Proof. intros Hl _. eapply Forall_impl; [exact Hl|]. by intros p [_ ?]. Qed.

(** A revoke request returns at a client that uses no token of the file. *)
Lemma deliver_returns M y q ip r :
  consistentAt M y -> clientStubs (sys_manager y) !! q = Some ip -> 0 <= rv_start r <= rv_end r -> rv_end r <= INT_MAX ->
  (forall s f, isClient y q s -> f ∈ openedFiles s -> fileName f = rv_name r -> idle (fileTokens f)) ->
  exists y', deliver std_hash raw junk (ip, r) y = Ret y' /\ forall ip', ip' <> ip -> sys_clients y' !! ip' = sys_clients y !! ip'.
Proof.
  intros Hcon Hq Hst Hen Hidle. unfold deliver. destruct (sys_clients y !! ip) as [s|] eqn:Hs; [|by exists y].
  assert (Hc : isClient y q s) by (by exists ip). destruct (co_client _ _ _ _ _ Hcon q s Hc) as [a Hg].
  assert (Hrev : exists s' ws', Client.revokePermission (FileServerStub0 := serversStub junk) std_hash raw (rv_name r) (rv_start r) (rv_end r)
    (rv_iswrite r) 0 s (sys_servers y) = Ret (s', ws')).
  { destruct (find_from (fun f => String.eqb (getName (cf_base f)) (rv_name r)) 0 (openedFiles s)) as [i|] eqn:Hfind;
      [|unfold Client.revokePermission; rewrite Hfind; by eexists _, _].
    apply find_from_Some in Hfind as (j & f & _ & Hf & Hn%String.eqb_eq & _). destruct (entry f) as [[n d] wd] eqn:He.
    assert (n = rv_name r) as -> by (injection He as <- _ _; exact Hn).
    destruct (revoke_run (W := list FileServer) (FileServerStub0 := serversStub junk) (FileServerStubOk0 := serversStubOk junk)
      std_hash raw (heldBytes M s) s a (sys_servers y) j f (rv_name r) d wd (rv_start r) (rv_end r) (rv_iswrite r) 0)
      as (c & a' & ws1 & ps & Hr1 & _); [apply Hg|done|done|word_lia|word_lia|change pfsBlockSizeInBytes with 1024; word_lia| |by eexists _, _].
    apply idle_revocable. apply (Hidle s f Hc); [by eapply list_elem_of_lookup_2|done]. }
  destruct Hrev as (s' & ws' & Hrev). unfold RevokePermission. rewrite Hrev, !Ret_bind. eexists. split; [done|]. intros ip' Hne. cbn.
  by rewrite lookup_insert_ne.
Qed.

Lemma deliverAll_returns M y rs sent n :
  consistentAt M y -> injective (clientStubs (sys_manager y)) -> NoDup (rv_peer <$> rs) ->
  Forall2 (fun r x => x.2 = r /\ clientStubs (sys_manager y) !! rv_peer r = Some x.1) rs sent ->
  Forall (fun r => rv_name r = n /\ 0 <= rv_start r <= rv_end r /\ rv_end r <= INT_MAX) rs ->
  (forall r s f, r ∈ rs -> isClient y (rv_peer r) s -> f ∈ openedFiles s -> fileName f = n -> idle (fileTokens f)) ->
  exists y', foldM (deliver std_hash raw junk) sent y = Ret y'.
Proof.
  intros Hcon Hinj Hnd Hf Hrs. revert y Hcon Hinj Hf. revert sent. induction Hrs as [|r rs (Hn & Hst & Hen) _ IH]; intros sent y Hcon Hinj Hf Hidle.
  { apply Forall2_nil_inv_l in Hf as ->. by exists y. }
  apply Forall2_cons_inv_l in Hf as ([ip r'] & sent' & [Hr' Hip] & Hf & ->). cbn in Hr', Hip. subst r'. cbn [foldM].
  rewrite fmap_cons, NoDup_cons in Hnd. destruct Hnd as [Hnot Hnd].
  destruct (deliver_returns M y (rv_peer r) ip r Hcon Hip Hst Hen) as (y1 & Hd & Hother).
  { intros s f Hc Hin Hfn. apply (Hidle r s f); [left|done|done|congruence]. }
  destruct (deliver_consistent _ _ _ M y _ ip r y1 Hcon Hinj Hip Hst Hen Hd) as [Hcon1 Hm1].
  rewrite Hd, Ret_bind. apply (IH Hnd sent' y1); [done|by rewrite Hm1|by rewrite Hm1|].
  intros r' s f Hin (ip' & Hp' & Hs') Hfin Hfn. rewrite Hm1 in Hp'. apply (Hidle r' s f); [by right| |done|done]. exists ip'. split; [done|].
  rewrite <- Hother; [done|]. intros ->. apply Hnot. rewrite (Hinj _ _ _ Hip Hp'). apply list_elem_of_fmap. by exists r'.
Qed.

(** The manager grants what a client asks for a file that it has open. *)
Lemma GetPermission_returns y peer ip s f st en wr :
  mirrorOk y -> clientStubs (sys_manager y) !! peer = Some ip -> sys_clients y !! ip = Some s -> f ∈ openedFiles s -> is_u32 st -> is_u32 en ->
  exists reply sent mm, permissionAnswer peer (fileName f) st en wr (sys_manager y) = Ret (OK, reply, sent, mm).
Proof.
  intros Hok Hp Hs Hf Hst Hen. destruct (mi_match y Hok peer ip s Hp Hs) as [_ Hall]. rewrite Forall_forall in Hall.
  destruct (Hall f Hf) as (l & Hl & _). unfold vectorOf in Hl. unfold permissionAnswer. destruct (mi_manager y Hok) as [-> Hmm].
  destruct (files (sys_manager y) !! fileName f) as [mf|] eqn:Hmf; [|done]. cbn in Hl. unfold isOpenedBy. rewrite Hl. cbn [negb].
  destruct (Hmm _ _ Hmf) as (-> & _ & _ & Hstubs).
  destruct (recordGrant_spec peer st en wr mf l Hst Hen Hl) as (permit & mine' & mf' & -> & _). rewrite Ret_bind.
  destruct (sendAll_total (clientStubs (sys_manager y)) (revokeRequests peer (getName (base mf)) st en wr (clientPermissions mf)))
    as (sent & -> & _); [intros r Hr%revokeRequests_peer; by apply Hstubs|]. by eexists _, _, _.
Qed.

(** A client that has the file open gets the tokens it asks for when no other call is
    using a token of the file. *)
Lemma acquire_returns M y peer ip s i f st en wr :
  consistentAt M y -> mirrorOk y -> clientStubs (sys_manager y) !! peer = Some ip -> sys_clients y !! ip = Some s ->
  openedFiles s !! i = Some f -> 0 <= st < en -> en <= INT_MAX -> quiet y (fileName f) ->
  exists s' y', acquirePermission (ManagerStub0 := systemManager std_hash raw junk now peer) (getDescriptor f) st en wr s y = Ret (Z.of_nat i, s', y').
Proof.
  intros Hcon Hok Hp Hs Hf Hst Hen Hq. assert (Hc : isClient y peer s) by (by exists ip). destruct (co_client _ _ _ _ _ Hcon peer s Hc) as [a Hg].
  assert (Hin : f ∈ openedFiles s) by (by eapply list_elem_of_lookup_2). assert (is_u32 st /\ is_u32 en) as [Hu1 Hu2] by (split; word_lia).
  unfold acquirePermission.
  rewrite (findDescriptor_ok (W := list FileServer) (FileServerStub0 := serversStub junk) (FileServerStubOk0 := serversStubOk junk)
    s (sys_servers y) i f (ok_table _ _ _ _ _ _ (cg_ok _ _ _ _ _ _ _ Hg)) Hf). unfold fileAt. rewrite Hf, deref_Some, Ret_bind, !u32_id by done.
  destruct (hasPermission _ _ _ _); [by eexists _, _|]. rewrite rpc_GetPermission_split.
  destruct (GetPermission_returns y peer ip s f st en wr) as (reply & sent & mm & Hget); [done..|]. assert (Hget' := Hget).
  unfold fileName in Hget. rewrite Hget, Ret_bind.
  apply GetPermission_inv in Hget' as [(? & _)|(_ & mf & mf' & mine & mine' & Hmf & -> & Hbase & _ & _ & _ & _ & _ & Hsent)]; [done| |apply Hok|done|done].
  rewrite (mi_names y Hok _ _ Hmf) in Hsent.
  set (mm := setFiles _ _). destruct (deliverAll_returns M (setManager mm y) (revokeRequests peer (fileName f) st en wr (clientPermissions mf)) sent (fileName f))
    as [y1 Hd].
  - apply consistent_manager; [done| |done]. intros n'. unfold widthOf. cbn. rewrite lookup_insert. case_decide as Hd; [|done].
    subst n'. rewrite Hmf. cbn. by rewrite Hbase.
  - apply Hok.
  - apply revokeRequests_peers_NoDup.
  - exact Hsent.
  - apply Forall_forall. intros r (q & l & -> & _)%elem_of_revokeRequests. cbn. split; [done|lia].
  - intros r s' g _ Hcl. by apply (Hq (rv_peer r) s' g).
  - rewrite Hd, !Ret_bind. cbn [status_ok].
    destruct (addPermission_returns (pr_start reply) (pr_end reply) wr (permissions (cf_base f)) true) as [ps ->]; [|by eexists _, _].
    apply idle_lockable. by apply (Hq peer s f).
Qed.

(** The file of a descriptor. *)
Lemma nameOf_lookup y no fd n s :
  sys_clients y !! clientIp no = Some s -> nameOf y no fd = Some n ->
  exists i f, findDescriptor fd s = Some i /\ openedFiles s !! i = Some f /\ getDescriptor f = fd /\ fileName f = n.
Proof.
  intros Hs. unfold nameOf. rewrite Hs. cbn. intros (i & Hi & (f & Hf & [= <-])%bind_Some)%bind_Some. exists i, f. split; [done|]. split; [done|].
  split; [|done]. unfold findDescriptor in Hi. apply find_from_Some in Hi as (j & g & -> & Hg & Hd%Z.eqb_eq & _). cbn in Hf. congruence.
Qed.

Lemma read_returns M y no peer fd n nbyte offset :
  consistentAt M y -> mirrorOk y -> orderly no peer (CallRead fd nbyte offset) y -> nameOf y no fd = Some n -> quiet y n ->
  exists r y', sysCall std_hash raw junk now no peer (CallRead fd nbyte offset) y = Ret (DataResult r, y') /\
    rd_result r = nbyte /\ Z.of_nat (length (rd_bytes r)) = nbyte /\ agrees M n offset (rd_bytes r).
Proof.
  intros Hcon Hok [Hp Hord] Hn Hq. destruct (mi_clients y Hok peer _ Hp) as [s Hs]. destruct (Hord s Hs) as [Hpos Hin Hal Hroom Hfits].
  destruct (nameOf_lookup y no fd n s Hs Hn) as (i & f & _ & Hf & <- & <-). destruct (inFile_range _ _ Hpos Hin) as [Ho1 Ho2].
  destruct (acquire_returns M y peer (clientIp no) s i f offset (offset + nbyte) false) as (s1 & y1 & Hacq); [done..|].
  destruct (acquire_data std_hash raw junk now M y peer (clientIp no) s (getDescriptor f) offset (offset + nbyte) false (Z.of_nat i) s1 y1) as [_ Hz]; [done..|].
  destruct (Hz ltac:(lia)) as (f0 & f' & d & wd & a & [Hf0 Hfd Hfd' Hf' He _ Hg Hbud Hreq _ _]).
  assert (Hst : stub_ s = true) by (destruct (co_client _ _ _ _ _ Hcon peer s) as [? Hg0]; [by exists (clientIp no)|apply Hg0]).
  rewrite Nat2Z.id in Hf'. assert (Hacq' := Hacq). rewrite <- Hfd' in Hacq'.
  destruct (readFile_run (W := System) (FileServerStub0 := systemServers junk) (FileServerStubOk0 := systemServersOk junk)
    (ManagerStub0 := systemManager std_hash raw junk now peer) std_hash raw 0 (heldBytes M s1) s s1 a y y1 i f' (fileName f0) d wd nbyte offset)
    as (bs & h & s2 & a2 & Hr2 & _); [done|exact Hacq'|apply clientOk_servers, Hg|done|done|lia|done|rewrite Nat.add_0_r; by apply Hbud|].
  rewrite Hfd' in Hr2. exists (mkReadResult nbyte bs (Some h)), (setClient (clientIp no) s2 y1). split.
  { cbn [sysCall]. unfold sysRead, atClient. by rewrite Hs, deref_Some, Ret_bind, Hr2. }
  destruct (read_consistent _ _ _ _ M _ _ _ _ _ _ _ _ _ _ Hcon Hok Hp Hs Hpos Hin Hal Hroom Hfits Hr2) as [_ Hres].
  destruct (Hres ltac:(cbn; lia)) as (f2 & Hf2 & Hd2 & _ & Hl & Hag). split; [done|]. split; [done|].
  assert (Hn2 := nameOf_file M y no peer s f2 Hcon Hp Hs Hf2). rewrite Hd2, Hn in Hn2. by injection Hn2 as ->.
Qed.

Lemma write_returns M y no peer fd n bs offset :
  consistentAt M y -> mirrorOk y -> orderly no peer (CallWrite fd bs offset) y -> nameOf y no fd = Some n -> quiet y n ->
  exists hit y', sysCall std_hash raw junk now no peer (CallWrite fd bs offset) y = Ret (WriteResult (Z.of_nat (length bs)) (Some hit), y').
Proof.
  intros Hcon Hok [Hp Hord] Hn Hq. destruct (mi_clients y Hok peer _ Hp) as [s Hs]. destruct (Hord s Hs) as [Hpos Hin Hal Hroom Hfits].
  destruct (nameOf_lookup y no fd n s Hs Hn) as (i & f & _ & Hf & <- & <-). destruct (inFile_range _ _ Hpos Hin) as [Ho1 Ho2].
  set (nbyte := Z.of_nat (length bs)) in *.
  destruct (acquire_returns M y peer (clientIp no) s i f offset (offset + nbyte) true) as (s1 & y1 & Hacq); [done..|].
  destruct (acquire_data std_hash raw junk now M y peer (clientIp no) s (getDescriptor f) offset (offset + nbyte) true (Z.of_nat i) s1 y1) as [_ Hz]; [done..|].
  destruct (Hz ltac:(lia)) as (f0 & f' & d & wd & a & [Hf0 Hfd Hfd' Hf' He _ Hg Hbud Hreq _ _]).
  assert (Hst : stub_ s = true) by (destruct (co_client _ _ _ _ _ Hcon peer s) as [? Hg0]; [by exists (clientIp no)|apply Hg0]).
  rewrite Nat2Z.id in Hf'. assert (Hacq' := Hacq). rewrite <- Hfd' in Hacq'.
  destruct (writeFile_run (W := System) (FileServerStub0 := systemServers junk) (FileServerStubOk0 := systemServersOk junk)
    (ManagerStub0 := systemManager std_hash raw junk now peer) std_hash raw 0 (heldBytes M s1) s s1 a y y1 i f' (fileName f0) d wd bs offset)
    as (h & s2 & a2 & Hr2 & _); [done|exact Hacq'|apply clientOk_servers, Hg|done|done|done|rewrite Nat.add_0_r; by apply Hbud|].
  rewrite Hfd' in Hr2. exists h, (setClient (clientIp no) s2 y1). cbn [sysCall]. unfold sysWrite, atClient. by rewrite Hs, deref_Some, Ret_bind, Hr2.
Qed.

(** ** Properties *)

(** C2: sequential consistency. After any sequence of orderly calls of any clients, a
    read of any client that returns a count has returned the bytes that were last
    written to its range, no matter which client wrote them and whether they were on a
    server or only in the cache of that client. *)
Theorem reads_return_last_writes M y no peer fd nbyte offset r y' :
  sysHistory M y -> orderly no peer (CallRead fd nbyte offset) y ->
  sysCall std_hash raw junk now no peer (CallRead fd nbyte offset) y = Ret (DataResult r, y') -> 0 <= rd_result r ->
  exists n, nameOf y no fd = Some n /\ rd_result r = nbyte /\ Z.of_nat (length (rd_bytes r)) = nbyte /\ agrees M n offset (rd_bytes r).
Proof.
  intros Hh [Hp Hord] Hr Hpos. assert (Hcon := history_consistent _ _ Hh). assert (Hok := history_mirror _ _ Hh).
  cbn [sysCall] in Hr. apply bind_Ret in Hr as ([z y1] & Hr & [= <- <-]). apply atClient_inv in Hr as (s & s' & y2 & Hs & Hr & ->).
  destruct (Hord s Hs) as [Hp0 Hin Hal Hroom Hfits].
  destruct (read_consistent _ _ _ _ M _ _ _ _ _ _ _ _ _ _ Hcon Hok Hp Hs Hp0 Hin Hal Hroom Hfits Hr) as [_ Hres].
  destruct (Hres Hpos) as (f & Hf & Hd & Hres'). exists (fileName f). split; [|done]. rewrite <- Hd. by eapply nameOf_file.
Qed.

(** C19: an orderly read or write returns its count when no call is using a token of
    the file: the manager answers, every revoked client flushes and answers, and the
    loops over the blocks end. *)
Theorem orderly_data_calls_return M y no peer fd n :
  sysHistory M y -> nameOf y no fd = Some n -> quiet y n ->
  (forall nbyte offset, orderly no peer (CallRead fd nbyte offset) y ->
    exists r y', sysCall std_hash raw junk now no peer (CallRead fd nbyte offset) y = Ret (DataResult r, y') /\ rd_result r = nbyte) /\
  (forall bs offset, orderly no peer (CallWrite fd bs offset) y ->
    exists hit y', sysCall std_hash raw junk now no peer (CallWrite fd bs offset) y = Ret (WriteResult (Z.of_nat (length bs)) (Some hit), y')).
Proof.
  intros Hh Hn Hq. assert (Hcon := history_consistent _ _ Hh). assert (Hok := history_mirror _ _ Hh). split.
  - intros nbyte offset Ho. destruct (read_returns M y no peer fd n nbyte offset Hcon Hok Ho Hn Hq) as (r & y' & Hr & Hres & _). by exists r, y'.
  - intros bs offset Ho. by apply (write_returns M y no peer fd n bs offset).
Qed.

(** C18: after any sequence of orderly calls, a byte that was written to a file and that
    no client may write now is stored on the server of its stripe. *)
Theorem written_bytes_are_stored M y n wd x v :
  sysHistory M y -> widthOf (sys_manager y) n = Some wd -> 0 <= x -> M n x = Some v ->
  (forall p s, isClient y p s -> ~ mayAccess s true n x) -> serversByte (sys_servers y) n wd x = Some v.
Proof. intros Hh%history_consistent. by apply (co_stored _ _ _ _ _ Hh). Qed.
End History.

(** ** Histories that can be run *)

Section Run.
Context `{!GrpcCodes} (std_hash : Z -> Z) (raw : nat -> CacheBlock) (junk : nat -> byte) (now : Z).
Implicit Types (y : System) (s : PFSClient) (M : string -> Z -> option byte).

Definition grantFitsb (y : System) (peer : string) (st en : Z) (wr : bool) (f : ClientFile) : bool :=
  match permissionAnswer peer (fileName f) st en wr (sys_manager y) with
  | Ret (OK, reply, _, _) => (length (List.filter (fun p => isInclusiveShared p (pr_start reply) (pr_end reply)) (fileTokens f)) <=? 1)%nat
  | _ => true
  end.

Definition roomForb (s : PFSClient) (k : nat) : bool :=
  match getInstance raw s with
  | Ret c => (2 * k <=? freeBlockSemaphore c)%nat && (Z.of_nat k <? freeBlockCount c)
  | _ => false
  end.

Definition dataOrderlyb (peer : string) (fd nbyte offset : Z) (wr : bool) (y : System) (s : PFSClient) : bool :=
  (0 <? nbyte) && (0 <=? offset) && (offset + nbyte <=? INT_MAX - pfsBlockSizeInBytes) &&
  (offset mod pfsBlockSizeInBytes =? 0) && (nbyte mod pfsBlockSizeInBytes =? 0) && roomForb s (blocksIn offset nbyte) &&
  forallb (fun f => negb (getDescriptor f =? fd) || grantFitsb y peer offset (offset + nbyte) wr f) (openedFiles s).

Definition orderlyb (no peer : string) (c : Call) (y : System) : bool :=
  bool_decide (callOk no peer c y) &&
  match sys_clients y !! clientIp no with
  | None => true
  | Some s =>
      match c with
      | CallCreate n width => (0 <? width) && (width <=? INT_MAX) && forallb (fun fsrv => bool_decide (fs_files fsrv !! n = None)) (sys_servers y)
      | CallOpen _ _ => descriptorCount s <? INT_MAX
      | CallRead fd nbyte offset => dataOrderlyb peer fd nbyte offset false y s
      | CallWrite fd bs offset => dataOrderlyb peer fd (Z.of_nat (length bs)) offset true y s
      | CallHarvester => match getInstance raw s with Ret k => (2020 <=? size (nodes k))%nat | _ => true end
      | _ => true
      end
  end.

Lemma roomForb_sound s k : roomForb s k = true -> roomFor raw s k.
Proof.
  unfold roomForb, roomFor. destruct (getInstance raw s) as [c| |]; [|done..]. intros [H1%Nat.leb_le H2%Z.ltb_lt]%andb_true_iff. by exists c.
Qed.

Lemma grantFitsb_sound y peer st en wr f : grantFitsb y peer st en wr f = true -> grantFits y peer f st en wr.
Proof. unfold grantFitsb, grantFits. intros Hb reply sent mm Hg. rewrite Hg in Hb. by apply filter_one_touches. Qed.

Lemma dataOrderlyb_sound peer fd nbyte offset wr y s :
  dataOrderlyb peer fd nbyte offset wr y s = true -> dataOrderly raw peer fd nbyte offset wr y s.
Proof.
  unfold dataOrderlyb. rewrite !andb_true_iff, Z.ltb_lt, !Z.leb_le, !Z.eqb_eq, forallb_forall.
  intros [[[[[[H1 H2] H3] H4] H5] H6%roomForb_sound] H7]. split; [done|by split|by split|done|]. intros f Hf%list_elem_of_In Hd.
  apply grantFitsb_sound. specialize (H7 f Hf). by rewrite Hd, Z.eqb_refl in H7.
Qed.

Lemma orderlyb_sound no peer c y : orderlyb no peer c y = true -> orderly raw no peer c y.
Proof.
  unfold orderlyb. intros [Hc%bool_decide_eq_true Hb]%andb_true_iff. split; [done|]. intros s Hs. rewrite Hs in Hb. destruct c; try done.
  - rewrite !andb_true_iff, Z.ltb_lt, Z.leb_le, forallb_forall in Hb. destruct Hb as [Hw Hn]. split; [done|]. apply Forall_forall.
    intros fsrv Hf%list_elem_of_In. apply Hn in Hf. by apply bool_decide_eq_true in Hf.
  - by apply Z.ltb_lt.
  - by apply dataOrderlyb_sound.
  - by apply dataOrderlyb_sound.
  - intros k Hk. rewrite Hk in Hb. by apply Nat.leb_le.
Qed.

(** Calls one after the other, with the bytes written so far. *)
Definition runHistory (l : list (string * string * Call)) (st : (string -> Z -> option byte) * System)
    : outcome ((string -> Z -> option byte) * System) :=
  foldM (fun x st => let '(no, peer, c) := x in
    if orderlyb no peer c st.2
    then r ← sysCall std_hash raw junk now no peer c st.2; Ret (ghostStep no c r.1 st.2 st.1, r.2) else Blocked) l st.

Lemma runHistory_sound l M y M' y' :
  sysHistory std_hash raw junk now M y -> runHistory l (M, y) = Ret (M', y') -> sysHistory std_hash raw junk now M' y'.
Proof.
  unfold runHistory. revert M y. induction l as [|[[no peer] c] l IH]; intros M y Hy; cbn [foldM]; [by intros [= <- <-]|]. intros Hr.
  apply bind_Ret in Hr as ([M1 y1] & Hc & Hr). cbn [fst snd] in Hc. destruct (orderlyb no peer c y) eqn:Ho; [|done].
  apply bind_Ret in Hc as ([r y2] & Hc & [= <- <-]). eapply IH; [|exact Hr]. by eapply sysHistory_call; [|apply orderlyb_sound|].
Qed.

(** No client has a token of the file locked; no client may write the byte. *)
Definition quietb (y : System) (n : string) : bool :=
  forallb (fun e => forallb (fun f => negb (String.eqb (fileName f) n) || forallb (fun p => negb (locked p) && negb (permitLock p)) (fileTokens f))
    (openedFiles e.2)) (map_to_list (sys_clients y)).

Definition unwritten (y : System) (n : string) (x : Z) : bool :=
  forallb (fun e => negb (bool_decide (mayAccess e.2 true n x))) (map_to_list (sys_clients y)).

Lemma isClient_entry y p s : isClient y p s -> exists ip, In (ip, s) (map_to_list (sys_clients y)).
Proof. intros (ip & _ & Hs). exists ip. by apply list_elem_of_In, elem_of_map_to_list. Qed.

Lemma quietb_sound y n : quietb y n = true -> quiet y n.
Proof.
  unfold quietb. rewrite forallb_forall. intros Hb p s f (ip & Hin)%isClient_entry Hf%list_elem_of_In Hn. specialize (Hb _ Hin). cbn in Hb.
  rewrite forallb_forall in Hb. specialize (Hb f Hf). rewrite Hn, String.eqb_refl in Hb. cbn in Hb. rewrite forallb_forall in Hb.
  apply Forall_forall. intros q Hq%list_elem_of_In. by apply Hb, andb_true_iff in Hq as [?%negb_true_iff ?%negb_true_iff].
Qed.

Lemma unwritten_sound y n x : unwritten y n x = true -> forall p s, isClient y p s -> ~ mayAccess s true n x.
Proof.
  unfold unwritten. rewrite forallb_forall. intros Hb p s (ip & Hin)%isClient_entry. specialize (Hb _ Hin). cbn in Hb.
  by apply negb_true_iff, bool_decide_eq_false in Hb.
Qed.

End Run.

(** ** A concrete history *)

#[local] Instance historyCodes : GrpcCodes := {|
  error_code st := match st with OK => 0 | CANCELLED => 1 end;
  error_code_OK := eq_refl;
  error_code_CANCELLED := eq_refl |}.

(** The client [a] writes the first block of a file that [b] has open too. *)
Definition blockOfA : bytes := repeat x41 1024.

Definition sharedWrite : list (string * string * Call) :=
  [("1"%string, "a"%string, CallStart); ("2"%string, "b"%string, CallStart);
   ("1"%string, "a"%string, CallCreate "f" 3); ("1"%string, "a"%string, CallOpen "f" "w"%char); ("2"%string, "b"%string, CallOpen "f" "r"%char);
   ("1"%string, "a"%string, CallWrite 1 blockOfA 0)].

Definition readOfB : string * string * Call := ("2"%string, "b"%string, CallRead 1 1024 0).

Lemma sharedWrite_run : exists M y, sysHistory ids rawBlock zeroByte 0 M y /\ M "f"%string 5 = Some x41 /\
  nameOf y "2" 1 = Some "f"%string /\ quiet y "f" /\ orderly rawBlock "2" "b" (CallRead 1 1024 0) y.
Proof.
  assert (Hrun : match runHistory ids rawBlock zeroByte 0 sharedWrite (fun _ _ => None, newSystem) with
    | Ret (M, y) => (M "f"%string 5, nameOf y "2" 1, quietb y "f", orderlyb rawBlock "2" "b" (CallRead 1 1024 0) y)
    | _ => (None, None, false, false) end = (Some x41, Some "f"%string, true, true)) by (vm_compute; reflexivity).
  destruct (runHistory ids rawBlock zeroByte 0 sharedWrite _) as [[M y]| |] eqn:E; [|discriminate Hrun..]. exists M, y.
  split; [eapply runHistory_sound; [constructor|exact E]|]. clear E. injection Hrun as H1 H2 H3 H4.
  split; [exact H1|]. split; [exact H2|]. split; [by apply quietb_sound|by apply orderlyb_sound].
Qed.

Lemma orderly_data_calls_return_witness : exists y r y',
  sysCall ids rawBlock zeroByte 0 "2" "b" (CallRead 1 1024 0) y = Ret (DataResult r, y') /\ rd_result r = 1024.
Proof.
  destruct sharedWrite_run as (M & y & Hh & _ & Hn & Hq & Ho). exists y.
  exact (proj1 (orderly_data_calls_return ids rawBlock zeroByte 0 M y "2" "b" 1 "f" Hh Hn Hq) 1024 0 Ho).
Defined.

Lemma reads_return_last_writes_witness : exists y r y',
  sysCall ids rawBlock zeroByte 0 "2" "b" (CallRead 1 1024 0) y = Ret (DataResult r, y') /\ rd_bytes r !! 5%nat = Some x41.
Proof.
  destruct sharedWrite_run as (M & y & Hh & HM & Hn & Hq & Ho).
  destruct (read_returns ids rawBlock zeroByte 0 M y "2" "b" 1 "f" 1024 0) as (r & y' & Hr & Hres & _);
    [by eapply history_consistent|by eapply history_mirror|exact Ho|exact Hn|exact Hq|].
  exists y, r, y'. split; [exact Hr|].
  destruct (reads_return_last_writes ids rawBlock zeroByte 0 M y "2" "b" 1 1024 0 r y' Hh Ho Hr) as (n & Hn' & _ & Hl & Hag); [lia|].
  rewrite Hn in Hn'. injection Hn' as <-. apply (Hag 5%nat x41); [lia|exact HM].
Defined.

Lemma sharedRead_run : exists M y, sysHistory ids rawBlock zeroByte 0 M y /\ M "f"%string 5 = Some x41 /\
  widthOf (sys_manager y) "f" = Some 3 /\ unwritten y "f" 5 = true.
Proof.
  assert (Hrun : match runHistory ids rawBlock zeroByte 0 (sharedWrite ++ [readOfB]) (fun _ _ => None, newSystem) with
    | Ret (M, y) => (M "f"%string 5, widthOf (sys_manager y) "f", unwritten y "f" 5)
    | _ => (None, None, false) end = (Some x41, Some 3, true)) by (vm_compute; reflexivity).
  destruct (runHistory ids rawBlock zeroByte 0 _ _) as [[M y]| |] eqn:E; [|discriminate Hrun..]. exists M, y.
  split; [eapply runHistory_sound; [constructor|exact E]|]. clear E. injection Hrun as H1 H2 H3. done.
Qed.

Lemma written_bytes_are_stored_witness : exists y, serversByte (sys_servers y) "f" 3 5 = Some x41.
Proof.
  destruct sharedRead_run as (M & y & Hh & HM & Hw & Hu). exists y.
  apply (written_bytes_are_stored ids rawBlock zeroByte 0 M y "f" 3 5 x41 Hh Hw); [lia|exact HM|exact (unwritten_sound y "f" 5 Hu)].
Defined.
