(* ===== verification/Programs.v ===== *)
(** The programs of the repository: pfs_MM.cpp, pfs_file_server.cpp, the test clients
    test1-c1.cpp, test1-c2.cpp, test1-c3.cpp and pfs-client.cpp.

    A client program is a run of its process on the system: the calls of the C
    interface in the order of [main], the early exits, and what it prints. The local
    file that a program reads, the memory that [malloc] returns and the connection of
    the process are arguments. *)

From Stdlib Require Import String Ascii Strings.Byte.
From stdpp Require Import gmap strings pretty.
From S2P Require Import Prelude Config Permission File Tokens MMFile FileServer MetadataManager ClientFile Cache CacheLists CacheSpec CacheProps Client ClientSpec ClientFrame ClientProps System SystemInv Consistency History.
#[local] Open Scope Z_scope.

(** ** The servers *)

(** What a server process does before it waits: it refuses to start, with its exit
    code, or it listens. *)
Inductive Launch (S : Type) : Type :=
| Refuses (code : Z)
| Listens (address : string) (service : S).
Arguments Refuses {S}.
Arguments Listens {S}.

Definition pfs_MM_main : Launch MetadataManager := Listens "0.0.0.0:50051" newMetadataManager.

(** [d] is the disk of the machine. *)
Definition pfs_file_server_main (argv : list string) (d : gmap string bytes) : Launch FileServer :=
  match argv !! 1%nat with
  | None => Refuses (-1)
  | Some server_no =>
      let server_address := String.append "0.0.0.0:3000" server_no in
      Listens server_address (newFileServer server_address d)
  end.

(** ** Pieces of the C library *)

(** [strcpy] into an array of [size] bytes, with the terminating byte. *)
Definition strcpy (size : nat) (src : string) : outcome string :=
  if (String.length src <? size)%nat then Ret src else Crash.

(** Bytes stored at the start of a buffer. *)
Definition fill (bs buf : bytes) : bytes := bs ++ drop (length bs) buf.

(** [pread(open(...), buf, n, off)]: at most [n] bytes of the local file; nothing when
    the file could not be opened. *)
Definition pread (file : option bytes) (n off : nat) (buf : bytes) : bytes :=
  match file with
  | Some content => fill (take n (drop off content)) buf
  | None => buf
  end.

(** [printf("%s", buf)]: the bytes up to the first zero. Without one the library reads
    past the buffer. *)
Definition printed (buf : bytes) : outcome bytes :=
  match find_from (Byte.eqb x00) 0 buf with
  | Some i => Ret (take i buf)
  | None => Crash
  end.

(** [atoi]: an optional sign and digits, after white space. The value of a number that
    no [int] holds is undefined. *)
Definition isSpace (c : ascii) : bool := let n := nat_of_ascii c in (n =? 32)%nat || ((9 <=? n)%nat && (n <=? 13)%nat).
Definition digitOf (c : ascii) : option Z :=
  let n := nat_of_ascii c in if (48 <=? n)%nat && (n <=? 57)%nat then Some (Z.of_nat n - 48) else None.

Fixpoint digits (acc : Z) (s : string) : Z :=
  match s with
  | String c s' => match digitOf c with Some d => digits (10 * acc + d) s' | None => acc end
  | EmptyString => acc
  end.

Fixpoint skipSpace (s : string) : string :=
  match s with String c s' => if isSpace c then skipSpace s' else s | EmptyString => s end.

Definition atoi (s : string) : outcome Z :=
  let n := match skipSpace s with
           | String "-"%char s' => - digits 0 s'
           | String "+"%char s' => digits 0 s'
           | s' => digits 0 s'
           end in
  if (-2147483648 <=? n) && (n <=? INT_MAX) then Ret n else Crash.

(** [int] to [char]. *)
Definition charOf (n : Z) : byte := default x00 (Byte.of_N (Z.to_N (n mod 256))).

(** ** Output *)

(** The lines that the programs print. *)
Inductive Line : Type :=
| Usage
| UnableToCreate
| ErrorOpening
| Descriptor (fdes : Z)
| Wrote (n : Z)
| WroteHit (n : Z) (cache_hit : option bool)
| Read (n : Z)
| ReadHit (n : Z) (cache_hit : option bool)
| Metadata (mystat : option pfs_stat)
| Text (bs : bytes)
| Values (bs : bytes).

Section Programs.
Context `{!GrpcCodes} (std_hash : Z -> Z) (raw : nat -> CacheBlock) (junk : nat -> byte) (now : Z).

(** The local files, the content of fresh memory, the connection of the process. *)
Context (local_file : string -> option bytes) (heap : nat -> byte) (peer : string).

Definition malloc (n : Z) : bytes := heap <$> seq 0 (Z.to_nat n).

Abbreviation start := (sysStart std_hash raw junk now).
Abbreviation create := (sysCreate std_hash raw junk now).
Abbreviation open := (sysOpen std_hash raw junk now).
Abbreviation read := (sysRead std_hash raw junk now).
Abbreviation write := (sysWrite std_hash raw junk now).
Abbreviation close := (sysClose std_hash raw junk now).
Abbreviation unlink := (sysDelete std_hash raw junk now).
Abbreviation fstat := (sysStat std_hash raw junk now).
Abbreviation finish := (sysFinalize junk).

Definition ONEKB : Z := 1024.

(** [initialize(argc, argv)] uses [argv[2]] without a check. *)
Definition main_c1 (argv : list string) (y : System) : outcome (list Line * System) :=
  no ← deref (argv !! 2%nat);
  y ← start no peer y;
  if (length argv <? 2)%nat then Ret ([Usage], y)
  else
    name ← deref (argv !! 1%nat);
    input_fname ← strcpy 20 name;
    let buf := pread (local_file input_fname) (Z.to_nat (4 * ONEKB)) 0 (malloc (5 * ONEKB)) in
    r ← create no peer "pfs_file1" 3 y;
    if r.1 <? 0 then Ret ([UnableToCreate], r.2)
    else
      r ← open no peer "pfs_file1" "w"%char r.2;
      let fdes := r.1 in
      if fdes <? 0 then Ret ([ErrorOpening], r.2)
      else
        w ← write no peer fdes (take (Z.to_nat (4 * ONEKB)) buf) 0 r.2;
        c ← close no peer fdes w.2;
        y ← finish no c.2;
        Ret ([Wrote (i32 w.1.1)], y).

Definition main_c2 (argv : list string) (y : System) : outcome (list Line * System) :=
  no ← deref (argv !! 2%nat);
  y ← start no peer y;
  if (length argv <? 2)%nat then Ret ([Usage], y)
  else
    name ← deref (argv !! 1%nat);
    input_fname ← strcpy 20 name;
    let buf := pread (local_file input_fname) (Z.to_nat (4 * ONEKB)) (Z.to_nat (4 * ONEKB)) (malloc (5 * ONEKB)) in
    r ← open no peer "pfs_file1" "w"%char y;
    let fdes := r.1 in
    if fdes <? 0 then Ret ([ErrorOpening], r.2)
    else
      w ← write no peer fdes (take (Z.to_nat (4 * ONEKB)) buf) (4 * ONEKB) r.2;
      c ← close no peer fdes w.2;
      y ← finish no c.2;
      Ret ([Wrote (i32 w.1.1)], y).

(** The read stores its bytes in the buffer that the write used, and the whole buffer
    is printed as a string. *)
Definition main_c3 (argv : list string) (y : System) : outcome (list Line * System) :=
  no ← deref (argv !! 2%nat);
  y ← start no peer y;
  if (length argv <? 2)%nat then Ret ([Usage], y)
  else
    name ← deref (argv !! 1%nat);
    input_fname ← strcpy 20 name;
    let buf := pread (local_file input_fname) (Z.to_nat (3 * ONEKB)) (Z.to_nat (8 * ONEKB)) (malloc (4 * ONEKB)) in
    r ← open no peer "pfs_file1" "w"%char y;
    let fdes := r.1 in
    if fdes <? 0 then Ret ([ErrorOpening], r.2)
    else
      t ← fstat no peer fdes r.2;
      w ← write no peer fdes (take (Z.to_nat (3 * ONEKB)) buf) (8 * ONEKB) t.2;
      d ← read no peer fdes (2 * ONEKB) ONEKB w.2;
      text ← printed (fill (rd_bytes d.1) buf);
      c ← close no peer fdes d.2;
      u ← unlink no peer "pfs_file1" c.2;
      y ← finish no u.2;
      Ret ([Metadata t.1.2; Wrote (i32 w.1.1); Read (i32 (rd_result d.1)); Text text], y).

(** [first] and [last] are the [int]s [start] and [end]; [cache_hit] keeps the value of
    the write when the read fails. A count that the buffer does not hold, or a negative
    one, is undefined: the write reads past [buf], or [new] throws. *)
Definition pfs_client_main (argv : list string) (y : System) : outcome (list Line * System) :=
  if (length argv <? 6)%nat then Ret ([Usage], y)
  else
    a3 ← deref (argv !! 3%nat);
    a4 ← deref (argv !! 4%nat);
    a5 ← deref (argv !! 5%nat);
    first ← atoi a3;
    last ← atoi a4;
    no ← deref (argv !! 2%nat);
    y ← start no peer y;
    name ← deref (argv !! 1%nat);
    pfs_fname ← strcpy 20 name;
    value ← if 0 <? last then atoi a5 else Ret 0;
    let buf := replicate (Z.to_nat last) (charOf value) in
    let count := last - first in
    r ← create no peer pfs_fname 7 y;
    let created := if r.1 <? 0 then [UnableToCreate] else [] in
    r ← open no peer pfs_fname "w"%char r.2;
    let fdes := r.1 in
    if fdes <? 0 then Ret (created ++ [ErrorOpening], r.2)
    else
      _ ← assert_ ((0 <=? count) && (count <=? Z.of_nat (length buf)));
      w ← write no peer fdes (take (Z.to_nat count) buf) first r.2;
      d ← read no peer fdes count first w.2;
      c ← close no peer fdes d.2;
      y ← finish no c.2;
      Ret (created ++ [Descriptor fdes; WroteHit (i32 w.1.1) w.1.2; ReadHit (i32 (rd_result d.1)) (match rd_hit d.1 with Some h => Some h | None => w.1.2 end);
             Values (fill (rd_bytes d.1) (malloc count))], y).

End Programs.
