(* ===== verification/ProgramProps.v ===== *)
(** What the programs of Programs.v print and leave behind.

    A session is the time between [pfs_open] and [pfs_close] of a process that is the
    only one to have the file open: it gets the token for the whole file with its first
    request. Each call of a session returns, continues the history of the system and
    leads to a session again, so that the programs are run call by call. *)

From Stdlib Require Import String Ascii Strings.Byte.
From stdpp Require Import gmap strings pretty.
From S2P Require Import Prelude Config Permission File Tokens MMFile FileServer MetadataManager ClientFile Cache CacheLists CacheSpec CacheProps Client ClientSpec ClientFrame ClientProps System SystemInv Consistency History Programs.
#[local] Open Scope Z_scope.

(** The clients that the manager knows and the processes that were started. *)
Definition population (y : System) : gmap string string * gset string := (clientStubs (sys_manager y), dom (sys_clients y)).

(** The token for the whole file, and the same while a call uses it. *)
Definition wholeFile : Permission := mkPermission 0 INT_MAX true false false [].
Definition wholeFileLocked : Permission := mkPermission 0 INT_MAX true true true [].

(** The record of a file at the manager: width, size, and who has it open. *)
Definition recorded (now : Z) (mm : MetadataManager) (n : string) (wd size : Z) (openers : gset string) : Prop :=
  exists mf, files mm !! n = Some mf /\ dom (clientPermissions mf) = openers /\ getStripWidth (base mf) = wd /\
    getSize (base mf) = size /\ getLastModifiedTime (base mf) = now /\ getCreationTime (base mf) = now.

Section Session.
Context `{!GrpcCodes} (std_hash : Z -> Z) (raw : nat -> CacheBlock) (junk : nat -> byte) (now : Z).
Implicit Types (y : System) (s : PFSClient) (M : string -> Z -> option byte).

Abbreviation historyAt := (sysHistory std_hash raw junk now).
Abbreviation recordedAt := (recorded now).

(** The process [no] has the file [n] open, as its only file, and nobody else has. The
    cache has room for [k] more blocks. *)
Record session M y (no peer n : string) (wd size : Z) s f (k : nat) (pop : gmap string string * gset string) : Prop := mkSession {
  ss_history : historyAt M y;
  ss_stub : clientStubs (sys_manager y) !! peer = Some (clientIp no);
  ss_client : sys_clients y !! clientIp no = Some s;
  ss_files : openedFiles s = [f];
  ss_descriptor : getDescriptor f = 1;
  ss_name : fileName f = n;
  ss_room : roomFor raw s k;
  ss_recorded : recordedAt (sys_manager y) n wd size {[peer]};
  ss_population : population y = pop }.

(** The tokens of the file when no call is running. *)
Definition sessionTokens f : Prop := fileTokens f = [] \/ fileTokens f = [wholeFile].

Lemma touches_short st en (l : list Permission) : (length l <= 1)%nat -> touches_one st en l.
Proof. intros Hl i j p q Hp%lookup_lt_Some Hq%lookup_lt_Some _ _. lia. Qed.

Lemma sessionTokens_short f : sessionTokens f -> (length (fileTokens f) <= 1)%nat.
Proof. intros [->| ->]; cbn; lia. Qed.

Section Facts.
Context M y no peer n wd size s f k pop (Hs : session M y no peer n wd size s f k pop).

Lemma session_file i g : openedFiles s !! i = Some g -> i = 0%nat /\ g = f.
Proof. rewrite (ss_files _ _ _ _ _ _ _ _ _ _ _ Hs). destruct i as [|i]; [by intros [= ->]|done]. Qed.

Lemma session_in g : g ∈ openedFiles s -> g = f.
Proof. intros (i & Hi)%list_elem_of_lookup. by apply session_file in Hi as [_ ->]. Qed.

Lemma session_lookup : openedFiles s !! 0%nat = Some f.
Proof. by rewrite (ss_files _ _ _ _ _ _ _ _ _ _ _ Hs). Qed.

Lemma session_find : findDescriptor 1 s = Some 0%nat.
Proof.
  unfold findDescriptor. rewrite (ss_files _ _ _ _ _ _ _ _ _ _ _ Hs). cbn. by rewrite (ss_descriptor _ _ _ _ _ _ _ _ _ _ _ Hs).
Qed.

Lemma session_nameOf : nameOf y no 1 = Some n.
Proof.
  unfold nameOf. rewrite (ss_client _ _ _ _ _ _ _ _ _ _ _ Hs). cbn. rewrite session_find. cbn. rewrite session_lookup. cbn.
  by rewrite (ss_name _ _ _ _ _ _ _ _ _ _ _ Hs).
Qed.

Lemma session_isClient : isClient y peer s.
Proof. exists (clientIp no). split; apply Hs. Qed.

Lemma session_consistent : consistent std_hash raw junk M y.
Proof. eapply history_consistent, Hs. Qed.

Lemma session_mirror : mirrorOk y.
Proof. eapply history_mirror, Hs. Qed.

(** A call of the session whose grant is recorded. *)
Lemma session_orderly nbyte offset wr :
  sessionTokens f -> 0 < nbyte -> inFile offset nbyte -> aligned offset nbyte -> (blocksIn offset nbyte <= k)%nat ->
  dataOrderly raw peer 1 nbyte offset wr y s.
Proof.
  intros Ht Hpos Hin Hal Hk. split; [done..| |].
  - destruct (ss_room _ _ _ _ _ _ _ _ _ _ _ Hs) as (c & Hc & H1 & H2). exists c. split; [done|]. lia.
  - intros g ->%session_in _ reply sent mm _. by apply touches_short, sessionTokens_short.
Qed.

End Facts.

Lemma budget_room m s a y k :
  clientOk (W := System) (FileServerStub0 := systemServers junk) (FileServerStubOk0 := systemServersOk junk) std_hash raw m s a y ->
  budget k a -> roomFor raw s k.
Proof.
  intros Hok [H1 H2]. destruct (ok_cache _ _ _ _ _ _ Hok) as (c & Hc & Hrep). exists c. split; [done|].
  destruct (represents_counts _ _ _ Hrep) as (E1 & E2 & _). rewrite E1, E2. lia.
Qed.

Lemma population_client y ip s s' : sys_clients y !! ip = Some s -> population (setClient ip s' y) = population y.
Proof. intros Hs. unfold population. cbn. f_equal. apply dom_insert_lookup_L. by eexists. Qed.

(** ** Tokens of a session *)

Lemma alone_requests peer n st en wr m : dom m = {[peer]} -> revokeRequests peer n st en wr m = [].
Proof.
  intros Hd. destruct (revokeRequests _ _ _ _ _ _) as [|r rs] eqn:E; [done|]. exfalso.
  assert (Hr : r ∈ revokeRequests peer n st en wr m) by (rewrite E; left). apply elem_of_revokeRequests in Hr as (q & l & _ & Hne & Hq & _).
  apply Hne. apply elem_of_dom_2 in Hq. rewrite Hd in Hq. by apply elem_of_singleton in Hq.
Qed.

(** The only client of a file asks for a part of it and gets all of it. *)
Lemma GetPermission_alone mm peer n wd size st en :
  managerOk mm -> (forall n' mf, files mm !! n' = Some mf -> getName (base mf) = n') -> recordedAt mm n wd size {[peer]} ->
  is_u32 st -> is_u32 en ->
  exists mm', permissionAnswer peer n st en true mm = Ret (OK, mkPermissionReply 0 0 INT_MAX, [], mm') /\
    recordedAt mm' n wd size {[peer]} /\ clientStubs mm' = clientStubs mm.
Proof.
  intros Hmm Hn (mf & Hmf & Hdom & Hrest) Hst Hen. unfold permissionAnswer. rewrite (proj1 Hmm), Hmf.
  assert (is_Some (clientPermissions mf !! peer)) as [l Hl] by (apply elem_of_dom; rewrite Hdom; by apply elem_of_singleton).
  unfold isOpenedBy. rewrite (proj1 (proj2 Hmm _ _ Hmf)), Hl. cbn [negb].
  destruct (recordGrant_spec peer st en true mf l Hst Hen Hl) as (permit & l' & mf' & -> & Hbase & Hadd & Hl' & Hoth & Hpermit).
  rewrite Ret_bind, alone_requests by done. unfold sendAll. cbn [foldM]. rewrite Ret_bind. eexists. split; [|split].
  - destruct Hpermit as [[(q & lq & Hne & Hq & _) _]|[_ ->]]; [|reflexivity]. exfalso. apply Hne. apply elem_of_dom_2 in Hq.
    rewrite Hdom in Hq. by apply elem_of_singleton in Hq.
  - exists mf'. cbn. rewrite lookup_insert_eq, Hbase. split; [done|]. split; [|done]. apply set_eq. intros q. rewrite elem_of_dom, elem_of_singleton.
    destruct (decide (q = peer)) as [->|Hne]; [rewrite Hl'; by split|]. rewrite Hoth, fmap_is_Some by done.
    rewrite <- elem_of_dom, Hdom, elem_of_singleton. done.
  - done.
Qed.

Lemma setFileAt_id s i f : openedFiles s !! i = Some f -> setFileAt i (withTokens (fileTokens f) f) s = s.
Proof.
  intros Hf. assert (withTokens (fileTokens f) f = f) as -> by (by destruct f as [[]]).
  unfold setFileAt, setOpenedFiles. rewrite list_insert_id by done. by destruct s.
Qed.

Lemma whole_held st en wr : 0 <= st < en -> en <= INT_MAX -> hasPermission st en wr [wholeFile] = true.
Proof.
  intros Hst Hen. unfold hasPermission, hasSpanStart, hasSpanEnd. cbn. rewrite (proj2 (Z.ltb_ge st 0)) by lia. cbn.
  rewrite (proj2 (Z.leb_le en INT_MAX)) by lia. cbn. rewrite (proj2 (Z.ltb_ge st 0)), (proj2 (Z.ltb_ge INT_MAX en)) by lia.
  by destruct wr.
Qed.

Lemma acquire_session M y no peer n wd size s f k pop st en :
  session M y no peer n wd size s f k pop -> sessionTokens f -> 0 <= st < en -> en <= INT_MAX ->
  exists tk mm', acquirePermission (ManagerStub0 := systemManager std_hash raw junk now peer) 1 st en true s y =
      Ret (0, setFileAt 0 (withTokens [tk] f) s, setManager mm' y) /\
    (tk = wholeFile \/ tk = wholeFileLocked) /\ recordedAt mm' n wd size {[peer]} /\ clientStubs mm' = clientStubs (sys_manager y).
Proof.
  intros Hs Ht Hst Hen. assert (Hf := session_lookup _ _ _ _ _ _ _ _ _ _ _ Hs). assert (Hok := session_mirror _ _ _ _ _ _ _ _ _ _ _ Hs).
  assert (is_u32 st /\ is_u32 en) as [Hu1 Hu2] by (split; word_lia).
  unfold acquirePermission. rewrite (session_find _ _ _ _ _ _ _ _ _ _ _ Hs). unfold fileAt. rewrite Hf, deref_Some, Ret_bind, !u32_id by done.
  destruct Ht as [Ht|Ht]; assert (Ht' := Ht); unfold fileTokens in Ht'; rewrite Ht'.
  - cbn [hasPermission length Nat.eqb].
    destruct (GetPermission_alone (sys_manager y) peer n wd size st en) as (mm' & Hg & Hrec & Hst');
      [apply Hok|apply Hok|apply Hs|done|done|]. rewrite <- (ss_name _ _ _ _ _ _ _ _ _ _ _ Hs) in Hg. unfold fileName in Hg.
    exists wholeFileLocked, mm'. rewrite rpc_GetPermission_split, Hg, Ret_bind. cbn [foldM]. rewrite !Ret_bind. cbn [status_ok].
    split; [reflexivity|]. split; [by right|done].
  - rewrite whole_held by done. exists wholeFile, (sys_manager y). rewrite <- Ht, (setFileAt_id s 0 f Hf). split; [by destruct y|].
    split; [by left|]. split; [apply Hs|done].
Qed.

(** ** Calls of a session *)

(** The requested range lies in the whole file, so the call releases its token. *)
Lemma unlock_whole tk st en wr f :
  0 <= st < en -> en <= INT_MAX -> tk = wholeFile \/ tk = wholeFileLocked -> fileTokens f = [tk] ->
  fileTokens (unlockedFile st en wr f) = [wholeFile].
Proof.
  intros Hst Hen Htk Hf. unfold fileTokens in *. unfold unlockedFile. cbn. rewrite Hf. cbn. rewrite !u32_id by word_lia.
  assert (isShared tk st en = true) as -> by (apply isShared_true; destruct Htk as [->| ->]; cbn; lia). cbn. by destruct Htk as [->| ->].
Qed.

Lemma markModified_size en f : is_u32 en -> getSize (cf_base (markModified en f)) = Z.max (getSize (cf_base f)) en.
Proof.
  intros Hen. unfold markModified, getSize. cbn. pose proof (u32_range (pst_size (cf_base f))) as Hr. rewrite (u32_id en) by done.
  assert (is_u32 (Z.max (u32 (pst_size (cf_base f))) en)) by (unfold is_u32 in *; lia). by rewrite !(u32_id (Z.max _ _)).
Qed.

(** The state after a call of the session. *)
Lemma session_next M M' y no peer n wd size s f k k' pop s' f' mm' :
  session M y no peer n wd size s f k pop -> historyAt M' (setClient (clientIp no) s' (setManager mm' y)) ->
  openedFiles s' = [f'] -> getDescriptor f' = 1 -> fileName f' = n -> roomFor raw s' k' ->
  recordedAt mm' n wd size {[peer]} -> clientStubs mm' = clientStubs (sys_manager y) ->
  session M' (setClient (clientIp no) s' (setManager mm' y)) no peer n wd size s' f' k' pop.
Proof.
  intros Hs Hh Hf Hd Hn Hroom Hrec Hstubs. split; [done|cbn; rewrite Hstubs; apply Hs|apply lookup_insert_eq|done..|].
  rewrite (population_client (setManager mm' y) _ s) by apply Hs. rewrite <- (ss_population _ _ _ _ _ _ _ _ _ _ _ Hs).
  unfold population. cbn. by rewrite Hstubs.
Qed.

Lemma session_write M y no peer n wd size s f k pop bs offset :
  let nbyte := Z.of_nat (length bs) in
  session M y no peer n wd size s f (blocksIn offset nbyte + k) pop -> sessionTokens f -> 0 < nbyte -> inFile offset nbyte -> aligned offset nbyte ->
  exists hit y' s' f', sysWrite std_hash raw junk now no peer 1 bs offset y = Ret (nbyte, Some hit, y') /\
    session (updated M n offset bs) y' no peer n wd size s' f' k pop /\ fileTokens f' = [wholeFile] /\
    getSize (cf_base f') = Z.max (getSize (cf_base f)) (offset + nbyte) /\ hasModified (cf_base f') = true.
Proof.
  intros nbyte Hs Ht Hpos Hin Hal. destruct (inFile_range _ _ Hpos Hin) as [Ho1 Ho2].
  assert (Hord : orderly raw no peer (CallWrite 1 bs offset) y).
  { split; [apply Hs|]. intros s0 Hs0. rewrite (ss_client _ _ _ _ _ _ _ _ _ _ _ Hs) in Hs0. injection Hs0 as <-.
    apply (session_orderly _ _ _ _ _ _ _ _ _ _ _ Hs); [done..|]. fold nbyte. lia. }
  destruct (acquire_session _ _ _ _ _ _ _ _ _ _ _ offset (offset + nbyte) Hs Ht Ho1 Ho2) as (tk & mm' & Hacq & Htk & Hrec & Hstubs).
  set (f1 := withTokens [tk] f) in *. set (s1 := setFileAt 0 f1 s) in *. assert (Hord' := Hord). destruct Hord' as [_ Hd].
  destruct (Hd s (ss_client _ _ _ _ _ _ _ _ _ _ _ Hs)) as [_ _ _ _ Hfits]. fold nbyte in Hfits.
  destruct (acquire_data std_hash raw junk now M y peer (clientIp no) s 1 offset (offset + nbyte) true 0 s1 (setManager mm' y)) as [_ Hz];
    [by eapply session_consistent|by eapply session_mirror|apply Hs|apply Hs|done|done|done|exact Hacq|].
  destruct (Hz ltac:(lia)) as (f0 & f' & d & wd' & a & [Hf0 Hfd Hfd' Hf' He _ Hg Hbud Hreq _ _]).
  assert (Hlook : openedFiles s1 !! 0%nat = Some f1) by (eapply openedFiles_setFileAt, session_lookup, Hs).
  change (Z.to_nat 0) with 0%nat in Hf'. rewrite Hlook in Hf'. injection Hf' as <-.
  assert (Hstub : stub_ s = true) by (destruct (co_client _ _ _ _ _ (session_consistent _ _ _ _ _ _ _ _ _ _ _ Hs) peer s) as [? Hg0];
    [by eapply session_isClient|apply Hg0]).
  destruct (writeFile_run (W := System) (FileServerStub0 := systemServers junk) (FileServerStubOk0 := systemServersOk junk)
    (ManagerStub0 := systemManager std_hash raw junk now peer) std_hash raw k (heldBytes M s1) s s1 a y (setManager mm' y) 0 f1 (fileName f0) d wd' bs offset)
    as (h & s2 & a2 & Hr2 & Hok2 & Hbud2 & Hst2 & Hf2 & _ & Hto & Hcount);
    [done|rewrite Hfd'; exact Hacq|apply clientOk_servers, Hg|done|done|done|apply Hbud, Hs|].
  rewrite Hfd' in Hr2. fold nbyte in Hr2, Hf2. set (f2 := unlockedFile _ _ _ _) in Hf2.
  assert (Hcall : sysWrite std_hash raw junk now no peer 1 bs offset y = Ret (nbyte, Some h, setClient (clientIp no) s2 (setManager mm' y))).
  { unfold sysWrite, atClient. by rewrite (ss_client _ _ _ _ _ _ _ _ _ _ _ Hs), deref_Some, Ret_bind, Hr2. }
  exists h, (setClient (clientIp no) s2 (setManager mm' y)), s2, f2. split; [done|]. split; [|split; [|split; [|done]]].
  - eapply (session_next M _ y); [exact Hs| |by rewrite Hf2; cbn; rewrite (ss_files _ _ _ _ _ _ _ _ _ _ _ Hs)|apply Hs|apply Hs| |done|done].
    + replace (updated M n offset bs) with (ghostStep no (CallWrite 1 bs offset) (WriteResult nbyte (Some h)) y M).
      * eapply sysHistory_call; [apply Hs|exact Hord|]. cbn [sysCall]. by rewrite Hcall.
      * cbn [ghostStep]. rewrite (proj2 (Z.leb_le 0 nbyte)) by lia. by rewrite (session_nameOf _ _ _ _ _ _ _ _ _ _ _ Hs).
    + by eapply budget_room.
  - by apply (unlock_whole tk).
  - apply (markModified_size (offset + nbyte) f1). word_lia.
Qed.

Lemma session_stub M y no peer n wd size s f k pop : session M y no peer n wd size s f k pop -> stub_ s = true.
Proof.
  intros Hs. destruct (co_client _ _ _ _ _ (session_consistent _ _ _ _ _ _ _ _ _ _ _ Hs) peer s) as [? Hg]; [by eapply session_isClient|apply Hg].
Qed.

Lemma setManager_id y : setManager (sys_manager y) y = y.
Proof. by destruct y. Qed.

Lemma session_read M y no peer n wd size s f k pop nbyte offset :
  session M y no peer n wd size s f (blocksIn offset nbyte + k) pop -> fileTokens f = [wholeFile] -> 0 < nbyte -> inFile offset nbyte -> aligned offset nbyte ->
  exists bs hit y' s' f', sysRead std_hash raw junk now no peer 1 nbyte offset y = Ret (mkReadResult nbyte bs (Some hit), y') /\
    session M y' no peer n wd size s' f' k pop /\ Z.of_nat (length bs) = nbyte /\ agrees M n offset bs /\
    fileTokens f' = [wholeFile] /\ getSize (cf_base f') = getSize (cf_base f) /\ hasModified (cf_base f') = hasModified (cf_base f).
Proof.
  intros Hs Ht Hpos Hin Hal. destruct (inFile_range _ _ Hpos Hin) as [Ho1 Ho2]. assert (Hc := ss_client _ _ _ _ _ _ _ _ _ _ _ Hs).
  assert (Hok := session_mirror _ _ _ _ _ _ _ _ _ _ _ Hs). assert (Hcon := session_consistent _ _ _ _ _ _ _ _ _ _ _ Hs).
  assert (Hord : orderly raw no peer (CallRead 1 nbyte offset) y).
  { split; [apply Hs|]. intros s0 Hs0. rewrite Hc in Hs0. injection Hs0 as <-.
    apply (session_orderly _ _ _ _ _ _ _ _ _ _ _ Hs); [by right|done..|lia]. }
  assert (Hord' := Hord). destruct Hord' as [_ Hd]. destruct (Hd s Hc) as [_ _ _ Hroom Hfits]. clear Hd.
  destruct (co_client _ _ _ _ _ Hcon peer s) as [a Hg]; [by eapply session_isClient|].
  assert (Hf := session_lookup _ _ _ _ _ _ _ _ _ _ _ Hs). assert (Hfd := ss_descriptor _ _ _ _ _ _ _ _ _ _ _ Hs).
  assert (Hacq : acquirePermission (ManagerStub0 := systemManager std_hash raw junk now peer) (getDescriptor f) offset (offset + nbyte) false s y = Ret (Z.of_nat 0, s, y)).
  { rewrite Hfd. unfold acquirePermission. rewrite (session_find _ _ _ _ _ _ _ _ _ _ _ Hs). unfold fileAt. rewrite Hf, deref_Some, Ret_bind, !u32_id by word_lia.
    unfold fileTokens in Ht. by rewrite Ht, whole_held. }
  destruct (entry f) as [[n' d] wd'] eqn:He. assert (n' = n) as -> by (rewrite <- (ss_name _ _ _ _ _ _ _ _ _ _ _ Hs); by injection He).
  destruct (readFile_run (W := System) (FileServerStub0 := systemServers junk) (FileServerStubOk0 := systemServersOk junk)
    (ManagerStub0 := systemManager std_hash raw junk now peer) std_hash raw k (heldBytes M s) s s a y y 0 f n d wd' nbyte offset)
    as (bs & h & s2 & a2 & Hr2 & Hok2 & Hbud2 & _ & Hf2 & Hl & _);
    [by eapply session_stub|exact Hacq|apply clientOk_servers, Hg|done|done|lia|done|by eapply room_budget; [exact Hg| |apply Hs]|].
  rewrite Hfd in Hr2. set (f2 := unlockedFile _ _ _ _) in Hf2.
  destruct (read_consistent _ _ _ _ M _ _ _ _ _ _ _ _ _ _ Hcon Hok (ss_stub _ _ _ _ _ _ _ _ _ _ _ Hs) Hc Hpos Hin Hal Hroom Hfits Hr2) as [_ Hres].
  destruct (Hres ltac:(cbn; lia)) as (g & Hg' & _ & _ & _ & Hag). apply (session_in _ _ _ _ _ _ _ _ _ _ _ Hs) in Hg' as ->.
  rewrite (ss_name _ _ _ _ _ _ _ _ _ _ _ Hs) in Hag.
  assert (Hcall : sysRead std_hash raw junk now no peer 1 nbyte offset y = Ret (mkReadResult nbyte bs (Some h), setClient (clientIp no) s2 y)).
  { unfold sysRead, atClient. by rewrite Hc, deref_Some, Ret_bind, Hr2. }
  exists bs, h, (setClient (clientIp no) s2 y), s2, f2. split; [done|]. split; [|split; [done|split; [done|split; [by apply (unlock_whole wholeFile); [..|left|]|done]]]].
  rewrite <- (setManager_id y) at 1. eapply (session_next M M y); [exact Hs| | |apply Hs|apply Hs|by eapply budget_room|apply Hs|done].
  - rewrite setManager_id. change M with (ghostStep no (CallRead 1 nbyte offset) (DataResult (mkReadResult nbyte bs (Some h))) y M).
    eapply sysHistory_call; [apply Hs|exact Hord|]. cbn [sysCall]. by rewrite Hcall.
  - rewrite Hf2, (ss_files _ _ _ _ _ _ _ _ _ _ _ Hs). done.
Qed.

Lemma session_stat M y no peer n wd size s f k pop :
  session M y no peer n wd size s f k pop ->
  sysStat std_hash raw junk now no peer 1 y = Ret (0, Some (mkPfsStat now now size), y).
Proof.
  intros Hs. assert (Hok := session_mirror _ _ _ _ _ _ _ _ _ _ _ Hs). assert (Hc := ss_client _ _ _ _ _ _ _ _ _ _ _ Hs).
  unfold sysStat, atClient. rewrite Hc, deref_Some, Ret_bind. unfold getFileStat.
  rewrite (session_stub _ _ _ _ _ _ _ _ _ _ _ Hs), (session_find _ _ _ _ _ _ _ _ _ _ _ Hs). cbn [negb requestName]. unfold fileAt.
  rewrite (session_lookup _ _ _ _ _ _ _ _ _ _ _ Hs), deref_Some, !Ret_bind. cbn [rpc_GetFileDesc systemManager].
  destruct (ss_recorded _ _ _ _ _ _ _ _ _ _ _ Hs) as (mf & Hmf & _ & _ & Hsz & Hmt & Hct).
  assert (Hn := ss_name _ _ _ _ _ _ _ _ _ _ _ Hs). unfold fileName in Hn.
  unfold GetFileDesc. rewrite (proj1 (mi_manager y Hok)), Hn, Hmf, Hsz, Hmt, Hct, !Ret_bind. cbn. rewrite setManager_id.
  by rewrite setClient_id.
Qed.

(** The close records the size of a file that was written, and nobody has it open. *)
Lemma CloseFile_alone mm peer n wd size hm sz :
  managerOk mm -> recordedAt mm n wd size {[peer]} -> is_u32 sz ->
  exists mm', CloseFile peer n hm sz now mm = Ret (OK, emptyStatusReply, mm') /\
    recordedAt mm' n wd (if hm then Z.max sz size else size) ∅ /\ clientStubs mm' = clientStubs mm.
Proof.
  intros Hmm (mf & Hmf & Hdom & Hwd & Hsz & Hmt & Hct) Hu. unfold CloseFile. rewrite (proj1 Hmm), Hmf.
  set (mf1 := if hm then _ else mf). assert (Hcp : clientPermissions mf1 = clientPermissions mf) by (unfold mf1; by destruct hm).
  assert (Hlk : mm_lock mf1 = false) by (unfold mf1; destruct hm; apply (proj2 Hmm _ _ Hmf)). rewrite Hlk.
  assert (is_Some (clientPermissions mf !! peer)) as [l Hl] by (apply elem_of_dom; rewrite Hdom; by apply elem_of_singleton).
  unfold close. rewrite Hcp, Hl. cbn [negb]. eexists. split; [reflexivity|]. split; [|done]. eexists. cbn. rewrite lookup_insert_eq.
  split; [done|]. cbn. rewrite dom_delete_L, Hdom, difference_diag_L. split; [done|]. unfold mf1. destruct hm; [|done]. cbn.
  split; [done|]. split; [|done]. unfold getSize. cbn. pose proof (u32_range (pst_size (base mf))) as Hr.
  unfold getSize in Hsz. rewrite Hsz in *. assert (is_u32 (Z.max sz size)) by (unfold is_u32 in *; lia). by rewrite !(u32_id (Z.max _ _)).
Qed.

Lemma session_close M y no peer n wd size s f k pop :
  session M y no peer n wd size s f k pop ->
  exists y', sysClose std_hash raw junk now no peer 1 y = Ret (0, y') /\ historyAt M y' /\
    clientStubs (sys_manager y') !! peer = Some (clientIp no) /\ is_Some (sys_clients y' !! clientIp no) /\
    recordedAt (sys_manager y') n wd (if hasModified (cf_base f) then Z.max (getSize (cf_base f)) size else size) ∅ /\ population y' = pop.
Proof.
  intros Hs. assert (Hc := ss_client _ _ _ _ _ _ _ _ _ _ _ Hs). assert (Hf := session_lookup _ _ _ _ _ _ _ _ _ _ _ Hs).
  assert (Hok := session_mirror _ _ _ _ _ _ _ _ _ _ _ Hs). assert (Hcon := session_consistent _ _ _ _ _ _ _ _ _ _ _ Hs).
  destruct (co_client _ _ _ _ _ Hcon peer s) as [a Hg]; [by eapply session_isClient|].
  destruct (cg_tokens _ _ _ _ _ _ _ Hg f ltac:(by eapply list_elem_of_lookup_2)) as [_ Hsm].
  destruct (evictTokens_ok (W := System) (FileServerStub0 := systemServers junk) (FileServerStubOk0 := systemServersOk junk) std_hash raw
    (heldBytes M s) s a y 0 f (fileTokens f)) as (s1 & a' & y1 & Hev & _); [apply clientOk_servers, Hg|done|by apply small_evictable|].
  assert (Hfr := Hev). apply (evictTokens_framed _ _ onlyServers) in Hfr as [[ws ->] [c ->]].
  destruct (CloseFile_alone (sys_manager y) peer n wd size (hasModified (cf_base f)) (getSize (cf_base f)))
    as (mm' & Hclose & Hrec & Hstubs); [apply Hok|apply Hs|apply u32_range|].
  assert (Hn := ss_name _ _ _ _ _ _ _ _ _ _ _ Hs). unfold fileName in Hn.
  set (s' := setOpenedFiles [] (setInstance c s)). set (y' := setClient (clientIp no) s' (setManager mm' (setServers ws y))).
  assert (Hcall : sysClose std_hash raw junk now no peer 1 y = Ret (0, y')).
  { unfold sysClose, atClient. rewrite Hc, deref_Some, Ret_bind. unfold closeFile.
    rewrite (session_stub _ _ _ _ _ _ _ _ _ _ _ Hs), (session_find _ _ _ _ _ _ _ _ _ _ _ Hs). cbn [negb requestName boolFoundAt]. unfold fileAt.
    rewrite Hf, deref_Some, !Ret_bind, Hn. unfold fileTokens in Hev. rewrite Hev, Ret_bind. cbn [rpc_CloseFile systemManager sys_manager setServers].
    rewrite Hclose, !Ret_bind. cbn. by rewrite (ss_files _ _ _ _ _ _ _ _ _ _ _ Hs). }
  exists y'. split; [done|]. split; [|split; [cbn; rewrite Hstubs; apply Hs|split; [exists s'; apply lookup_insert_eq|split; [exact Hrec|]]]].
  - change M with (ghostStep no (CallClose 1) (CodeResult 0) y M). eapply sysHistory_call; [apply Hs| |cbn [sysCall]; by rewrite Hcall].
    split; [|done]. cbn. split; [apply Hs|]. unfold closesEarly. rewrite Hc. cbn. by rewrite (session_find _ _ _ _ _ _ _ _ _ _ _ Hs).
  - unfold y'. rewrite (population_client (setManager mm' (setServers ws y)) _ s) by done. rewrite <- (ss_population _ _ _ _ _ _ _ _ _ _ _ Hs).
    unfold population. cbn. by rewrite Hstubs.
Qed.

(** ** The calls around a session *)

(** A process that has just been started. *)
Record started M y (no peer : string) s (pop : gmap string string * gset string) : Prop := mkStarted {
  sd_history : historyAt M y;
  sd_stub : clientStubs (sys_manager y) !! peer = Some (clientIp no);
  sd_client : sys_clients y !! clientIp no = Some s;
  sd_ready : stub_ s = true;
  sd_files : openedFiles s = [];
  sd_count : descriptorCount s = 0;
  sd_cache : instance_ s = None;
  sd_population : population y = pop }.

Definition joined (no peer : string) (pop : gmap string string * gset string) : gmap string string * gset string :=
  (<[peer := clientIp no]> pop.1, {[clientIp no]} ∪ pop.2).

(** The number and the connection are not used yet. *)
Definition fresh (no peer : string) (pop : gmap string string * gset string) : Prop :=
  pop.1 !! peer = None /\ clientIp no ∉ pop.2.

Lemma start_runs M y no peer :
  historyAt M y -> fresh no peer (population y) ->
  exists y' s, sysStart std_hash raw junk now no peer y = Ret y' /\ started M y' no peer s (joined no peer (population y)) /\
    files (sys_manager y') = files (sys_manager y) /\ sys_servers y' = sys_servers y.
Proof.
  intros Hh [Hp Hn]. cbn in Hp, Hn. assert (Hstart : exists y' s, sysStart std_hash raw junk now no peer y = Ret y' /\
    y' = setClient (clientIp no) s (setManager (mkMetadataManager (files (sys_manager y)) (<[peer := clientIp no]> (clientStubs (sys_manager y)))
      (filesLock (sys_manager y))) y) /\ stub_ s = true /\ openedFiles s = [] /\ descriptorCount s = 0 /\ instance_ s = None) by (by eexists _, _).
  destruct Hstart as (y' & s & Hr & -> & H1 & H2 & H3 & H4). eexists _, s. split; [exact Hr|]. split; [|done].
  split; [|apply lookup_insert_eq|apply lookup_insert_eq|done|done|done|done|].
  - change M with (ghostStep no CallStart NoResult y M). eapply sysHistory_call; [exact Hh| |cbn [sysCall]; by rewrite Hr].
    split; [|done]. cbn. split; [done|]. by apply not_elem_of_dom.
  - unfold population, joined. cbn. by rewrite dom_insert_L.
Qed.

Lemma create_runs M y no peer s pop n width :
  started M y no peer s pop -> files (sys_manager y) !! n = None -> newName n (sys_servers y) -> 0 < width <= INT_MAX ->
  exists y', sysCreate std_hash raw junk now no peer n width y = Ret (0, y') /\ started (forget n M) y' no peer s pop /\
    recordedAt (sys_manager y') n width 0 ∅.
Proof.
  intros [Hh Hst Hc Hr Hf Hd Hi Hp] Hn Hnew Hw. assert (Hok := history_mirror _ _ _ _ _ _ Hh).
  destruct (createStripes_ok n width (sys_servers y)) as (ws & Hws & _); [lia|apply (co_services _ _ _ _ _ (history_consistent _ _ _ _ _ _ Hh))|].
  set (mm' := setFiles (<[n := createdFile n width now now]> (files (sys_manager y))) (sys_manager y)).
  assert (Hcall : sysCreate std_hash raw junk now no peer n width y = Ret (0, setServers ws (setManager mm' y))).
  { unfold sysCreate, atClient. rewrite Hc, deref_Some, Ret_bind. unfold createFile. rewrite Hr, u32_id by word_lia. cbn [negb rpc_CreateFile systemManager].
    unfold MetadataManager.CreateFile. rewrite (proj1 (mi_manager y Hok)), Hn, Hws, !Ret_bind. cbn. by rewrite setClient_id. }
  exists (setServers ws (setManager mm' y)). split; [done|]. split; [split; [|done..]|].
  - change (forget n M) with (ghostStep no (CallCreate n width) (CodeResult 0) y M). eapply sysHistory_call; [exact Hh| |cbn [sysCall]; by rewrite Hcall].
    split; [done|]. by intros s0 _.
  - eexists. cbn. rewrite lookup_insert_eq. split; [done|]. cbn. unfold getStripWidth, getSize. cbn. rewrite i32_id by lia. done.
Qed.

(** The first file that a process opens gets the descriptor 1. *)
Lemma open_runs M y no peer s pop n mode wd size k :
  started M y no peer s pop -> recordedAt (sys_manager y) n wd size ∅ -> (2 * k <= blockCount)%nat -> (k < blockCount)%nat ->
  exists y' s' f, sysOpen std_hash raw junk now no peer n mode y = Ret (1, y') /\ session M y' no peer n wd size s' f k pop /\
    fileTokens f = [] /\ getSize (cf_base f) = size /\ hasModified (cf_base f) = false.
Proof.
  intros [Hh Hst Hc Hr Hf Hd Hi Hp] (mf & Hmf & Hdom & Hwd & Hsz & Hmt & Hct) Hk1 Hk2. assert (Hok := history_mirror _ _ _ _ _ _ Hh).
  assert (Hempty : clientPermissions mf !! peer = None) by (apply not_elem_of_dom; rewrite Hdom; apply not_elem_of_empty).
  set (mm' := setFiles (<[n := setClientPermissions (<[peer := []]> (clientPermissions mf)) mf]> (files (sys_manager y))) (sys_manager y)).
  set (f := mkClientFile (openedFile n (mkFileStatReply 0 now now size wd)) 1).
  set (s' := mkPFSClient true (fileServerStubs s) [f] 1 (instance_ s)). set (y' := setClient (clientIp no) s' (setManager mm' y)).
  assert (Hcall : sysOpen std_hash raw junk now no peer n mode y = Ret (1, y')).
  { unfold sysOpen, atClient. rewrite Hc, deref_Some, Ret_bind. unfold openFile. rewrite Hr. cbn [negb rpc_OpenFile systemManager].
    unfold OpenFile. rewrite (proj1 (mi_manager y Hok)), Hmf, (proj1 (proj2 (mi_manager y Hok) _ _ Hmf)). unfold MMFile.open. rewrite Hempty. cbn [negb]. rewrite !Ret_bind. cbn [status_ok].
    cbn. rewrite Hwd, Hsz, Hmt, Hct, Hd, Hf. reflexivity. }
  exists y', s', f. split; [done|]. split; [split|].
  - change M with (ghostStep no (CallOpen n mode) (CodeResult 1) y M). eapply sysHistory_call; [exact Hh| |cbn [sysCall]; by rewrite Hcall].
    split; [done|]. intros s0 Hs0. rewrite Hc in Hs0. injection Hs0 as <-. rewrite Hd. by vm_compute.
  - done.
  - apply lookup_insert_eq.
  - done.
  - done.
  - done.
  - destruct (newCache_is_empty std_hash raw) as (c & Hnew & Hrep). exists c. split; [unfold getInstance, s'; cbn; by rewrite Hi|].
    destruct (represents_counts _ _ _ Hrep) as (E1 & E2 & _). rewrite E1, E2. cbn [semaphore freeBlocks]. lia.
  - eexists. cbn. rewrite lookup_insert_eq. split; [done|]. cbn. rewrite dom_insert_L, Hdom, union_empty_r_L. done.
  - unfold y'. by rewrite (population_client (setManager mm' y) _ s).
  - split; [done|]. split; [|done]. unfold f, getSize. cbn. unfold getSize in Hsz. rewrite <- Hsz. by rewrite !(u32_id (u32 _)) by apply u32_range.
Qed.

Lemma finalize_runs M y no peer :
  historyAt M y -> clientStubs (sys_manager y) !! peer = Some (clientIp no) -> is_Some (sys_clients y !! clientIp no) ->
  exists y', sysFinalize junk no y = Ret y' /\ historyAt M y' /\ sys_manager y' = sys_manager y /\ population y' = population y.
Proof.
  intros Hh Hst [s Hc]. destruct (co_client _ _ _ _ _ (history_consistent _ _ _ _ _ _ Hh) peer s) as [a Hg]; [by exists (clientIp no)|].
  destruct (finalize_run (W := System) (FileServerStub0 := systemServers junk) (FileServerStubOk0 := systemServersOk junk) std_hash raw
    (heldBytes M s) s a y) as (y1 & Hr & _); [apply clientOk_servers, Hg|].
  assert (Hfr := Hr). apply (finalize_framed onlyServers) in Hfr as [[ws ->] _].
  set (y' := setClient (clientIp no) (setInstance None s) (setServers ws y)).
  assert (Hcall : sysFinalize junk no y = Ret y') by (unfold sysFinalize, atClient; by rewrite Hc, deref_Some, Ret_bind, Hr).
  exists y'. split; [done|]. split; [|split; [done|]].
  - change M with (ghostStep no CallFinalize NoResult y M). eapply sysHistory_call; [exact Hh| |cbn [sysCall]; by rewrite Hcall]. by split.
  - unfold y'. by rewrite (population_client (setServers ws y) _ s).
Qed.

Lemma delete_runs M y no peer n wd size :
  historyAt M y -> clientStubs (sys_manager y) !! peer = Some (clientIp no) -> is_Some (sys_clients y !! clientIp no) ->
  recordedAt (sys_manager y) n wd size ∅ ->
  exists y', sysDelete std_hash raw junk now no peer n y = Ret (0, y') /\ historyAt M y' /\
    clientStubs (sys_manager y') !! peer = Some (clientIp no) /\ is_Some (sys_clients y' !! clientIp no) /\
    files (sys_manager y') !! n = None /\ population y' = population y.
Proof.
  intros Hh Hst [s Hc] (mf & Hmf & Hdom & _). assert (Hok := history_mirror _ _ _ _ _ _ Hh). apply dom_empty_inv_L in Hdom.
  destruct (co_client _ _ _ _ _ (history_consistent _ _ _ _ _ _ Hh) peer s) as [a Hg]; [by exists (clientIp no)|].
  set (mm' := setFiles (delete n (files (sys_manager y))) (sys_manager y)).
  assert (Hcall : sysDelete std_hash raw junk now no peer n y = Ret (0, setManager mm' y)).
  { unfold sysDelete, atClient. rewrite Hc, deref_Some, Ret_bind. unfold deleteFile. rewrite (cg_stub _ _ _ _ _ _ _ Hg). cbn [negb rpc_DeleteFile systemManager].
    unfold DeleteFile. rewrite (proj1 (mi_manager y Hok)), Hmf, (proj1 (proj2 (mi_manager y Hok) _ _ Hmf)). unfold isOpen. rewrite decide_True by done. rewrite !Ret_bind. cbn.
    by rewrite setClient_id. }
  exists (setManager mm' y). split; [done|]. split; [|split; [done|split; [by exists s|split; [apply lookup_delete_eq|done]]]].
  change M with (ghostStep no (CallDelete n) (CodeResult 0) y M). eapply sysHistory_call; [exact Hh| |cbn [sysCall]; by rewrite Hcall]. by split.
Qed.
End Session.

(** ** Buffers *)

Lemma fill_length bs buf : (length bs <= length buf)%nat -> length (fill bs buf) = length buf.
Proof. intros Hl. unfold fill. rewrite length_app, length_drop. lia. Qed.

Lemma malloc_length heap n : length (malloc heap n) = Z.to_nat n.
Proof. unfold malloc. by rewrite length_fmap, length_seq. Qed.

Lemma pread_length file n off buf : (n <= length buf)%nat -> length (pread file n off buf) = length buf.
Proof. intros Hn. destruct file as [content|]; [|done]. apply fill_length. rewrite length_take. lia. Qed.

(** A local file that is long enough fills the buffer. *)
Lemma pread_full content n off buf : (off + n <= length content)%nat -> take n (pread (Some content) n off buf) = take n (drop off content).
Proof.
  intros Hn. cbn [pread]. unfold fill. rewrite take_app_le by (rewrite length_take, length_drop; lia). apply take_ge. rewrite length_take. lia.
Qed.

Lemma take_length_eq {A} n (l : list A) : (n <= length l)%nat -> length (take n l) = n.
Proof. intros Hn. rewrite length_take. lia. Qed.

(** The bytes that were written, as a reader gets them. *)
Lemma agrees_exact M n offset bs l :
  agrees M n offset bs -> length bs = length l -> (forall j v, l !! j = Some v -> M n (offset + Z.of_nat j) = Some v) -> bs = l.
Proof.
  intros Hag Hl HM. apply list_eq. intros j. destruct (l !! j) as [v|] eqn:Hj.
  - apply Hag; [rewrite Hl; by eapply lookup_lt_Some|by apply HM].
  - apply lookup_ge_None in Hj. apply lookup_ge_None. lia.
Qed.

Lemma updated_in m n offset bs x v : offset <= x -> bs !! Z.to_nat (x - offset) = Some v -> updated m n offset bs n x = Some v.
Proof.
  intros Hx Hv. unfold updated. rewrite decide_True; [done|]. apply lookup_lt_Some in Hv as Hl. split; [done|]. lia.
Qed.

Lemma updated_out m n offset bs x : x < offset \/ offset + Z.of_nat (length bs) <= x -> updated m n offset bs n x = m n x.
Proof. intros Hx. unfold updated. rewrite decide_False; [done|]. lia. Qed.

(** ** The programs *)

(** The command line of a program. *)
Ltac arguments :=
  repeat match goal with
  | |- context [?argv !! ?i] => let o := eval cbv in (argv !! i) in change (argv !! i) with o; rewrite deref_Some, ?Ret_bind
  end; cbn [length Nat.ltb Nat.leb]; rewrite ?Ret_bind.

Section Mains.
Context `{!GrpcCodes} (std_hash : Z -> Z) (raw : nat -> CacheBlock) (junk : nat -> byte) (now : Z) (local_file : string -> option bytes).
Implicit Types (y : System) (M : string -> Z -> option byte).

Abbreviation historyAt := (sysHistory std_hash raw junk now).
Abbreviation recordedAt := (recorded now).

(** The bytes that a program has in its buffer when it writes [n] bytes of the local
    file from [off] on. *)
Definition inputAt (heap : nat -> byte) (fname : string) (n off size : Z) : bytes :=
  take (Z.to_nat n) (pread (local_file fname) (Z.to_nat n) (Z.to_nat off) (malloc heap size)).

Lemma inputAt_length heap fname n off size : 0 <= n <= size -> Z.of_nat (length (inputAt heap fname n off size)) = n.
Proof.
  intros Hn. unfold inputAt. rewrite take_length_eq; [lia|]. rewrite pread_length; rewrite malloc_length; lia.
Qed.

(** Write and close, the end of all the programs. *)
Lemma write_close_runs M y no peer n wd size s f k pop bs offset :
  let nbyte := Z.of_nat (length bs) in
  session std_hash raw junk now M y no peer n wd size s f (blocksIn offset nbyte + k) pop -> fileTokens f = [] -> getSize (cf_base f) = size ->
  0 < nbyte -> inFile offset nbyte -> aligned offset nbyte -> 0 <= size ->
  exists hit y1 y2 y3, sysWrite std_hash raw junk now no peer 1 bs offset y = Ret (nbyte, Some hit, y1) /\
    sysClose std_hash raw junk now no peer 1 y1 = Ret (0, y2) /\ sysFinalize junk no y2 = Ret y3 /\
    historyAt (updated M n offset bs) y3 /\ recordedAt (sys_manager y3) n wd (Z.max size (offset + nbyte)) ∅ /\ population y3 = pop.
Proof.
  intros nbyte Hs Ht Hsz Hpos Hin Hal Hsize.
  destruct (session_write _ _ _ _ M y no peer n wd size s f k pop bs offset Hs) as (hit & y1 & s1 & f1 & Hw & Hs1 & _ & Hsz1 & Hm1);
    [by left|done..|]. fold nbyte in Hw, Hsz1.
  destruct (session_close _ _ _ _ _ _ _ _ _ _ _ _ _ _ _ Hs1) as (y2 & Hc & Hh2 & Hst2 & Hcl2 & Hrec2 & Hp2). rewrite Hm1, Hsz1, Hsz in Hrec2.
  destruct (finalize_runs _ _ _ _ _ _ _ _ Hh2 Hst2 Hcl2) as (y3 & Hfin & Hh3 & Hmm3 & Hp3).
  exists hit, y1, y2, y3. repeat (split; [done|]). split; [|congruence]. rewrite Hmm3.
  by replace (Z.max size (offset + nbyte)) with (Z.max (Z.max size (offset + nbyte)) size) by lia.
Qed.

Lemma main_c1_runs heap peer M y prog fname no :
  historyAt M y -> fresh no peer (population y) -> files (sys_manager y) !! "pfs_file1"%string = None -> newName "pfs_file1" (sys_servers y) ->
  (String.length fname < 20)%nat ->
  exists y', main_c1 std_hash raw junk now local_file heap peer [prog; fname; no] y = Ret ([Wrote 4096], y') /\
    historyAt (updated (forget "pfs_file1" M) "pfs_file1" 0 (inputAt heap fname 4096 0 5120)) y' /\
    recordedAt (sys_manager y') "pfs_file1" 3 4096 ∅ /\ population y' = joined no peer (population y).
Proof.
  intros Hh Hfr Hnone Hnew Hlen. destruct (start_runs _ _ _ _ M y no peer Hh Hfr) as (y1 & s1 & Hstart & Hs1 & Hf1 & Hw1).
  destruct (create_runs _ _ _ _ M y1 no peer s1 _ "pfs_file1" 3 Hs1) as (y2 & Hcreate & Hs2 & Hrec2);
    [by rewrite Hf1|by rewrite Hw1|word_lia|].
  destruct (open_runs _ _ _ _ _ y2 no peer s1 _ "pfs_file1" "w"%char 3 0 4 Hs2 Hrec2) as (y3 & s3 & f3 & Hopen & Hs3 & Ht3 & Hsz3 & _);
    [by apply Nat.leb_le|by apply Nat.ltb_lt|].
  set (bs := inputAt heap fname 4096 0 5120). assert (Hl : Z.of_nat (length bs) = 4096) by (by apply inputAt_length).
  destruct (write_close_runs (forget "pfs_file1" M) y3 no peer "pfs_file1" 3 0 s3 f3 0 (joined no peer (population y)) bs 0) as (hit & y4 & y5 & y6 & Hwr & Hcl & Hfin & Hh6 & Hrec6 & Hp6);
    [by rewrite Hl|done|done|by rewrite Hl|rewrite Hl; by vm_compute|by rewrite Hl|done|]. rewrite Hl in Hwr, Hrec6.
  exists y6. split; [|done]. unfold main_c1. arguments.
  rewrite Hstart, Ret_bind. arguments. unfold strcpy. rewrite (proj2 (Nat.ltb_lt _ _) Hlen), Ret_bind, Hcreate, Ret_bind.
  cbn [fst snd Z.ltb Z.compare]. rewrite Hopen, Ret_bind. cbn [fst snd Z.ltb Z.compare].
  change (take _ (pread _ _ _ _)) with bs. rewrite Hwr, Ret_bind. cbn [fst snd].
  rewrite Hcl, Ret_bind. cbn [fst snd]. by rewrite Hfin.
Qed.

Lemma main_c2_runs heap peer M y prog fname no :
  historyAt M y -> fresh no peer (population y) -> recordedAt (sys_manager y) "pfs_file1" 3 4096 ∅ -> (String.length fname < 20)%nat ->
  exists y', main_c2 std_hash raw junk now local_file heap peer [prog; fname; no] y = Ret ([Wrote 4096], y') /\
    historyAt (updated M "pfs_file1" 4096 (inputAt heap fname 4096 4096 5120)) y' /\
    recordedAt (sys_manager y') "pfs_file1" 3 8192 ∅ /\ population y' = joined no peer (population y).
Proof.
  intros Hh Hfr Hrec Hlen. destruct (start_runs _ _ _ _ M y no peer Hh Hfr) as (y1 & s1 & Hstart & Hs1 & Hf1 & _).
  destruct (open_runs _ _ _ _ _ y1 no peer s1 _ "pfs_file1" "w"%char 3 4096 4 Hs1) as (y3 & s3 & f3 & Hopen & Hs3 & Ht3 & Hsz3 & _);
    [unfold recorded in *; by rewrite Hf1|by apply Nat.leb_le|by apply Nat.ltb_lt|].
  set (bs := inputAt heap fname 4096 4096 5120). assert (Hl : Z.of_nat (length bs) = 4096) by (by apply inputAt_length).
  destruct (write_close_runs M y3 no peer "pfs_file1" 3 4096 s3 f3 0 (joined no peer (population y)) bs 4096) as (hit & y4 & y5 & y6 & Hwr & Hcl & Hfin & Hh6 & Hrec6 & Hp6);
    [by rewrite Hl|done|done|by rewrite Hl|rewrite Hl; by vm_compute|by rewrite Hl|done|]. rewrite Hl in Hwr, Hrec6.
  exists y6. split; [|done]. unfold main_c2. arguments.
  rewrite Hstart, Ret_bind. arguments. unfold strcpy. rewrite (proj2 (Nat.ltb_lt _ _) Hlen), Ret_bind, Hopen, Ret_bind.
  cbn [fst snd Z.ltb Z.compare]. change (take _ (pread _ _ _ _)) with bs. change (4 * ONEKB) with 4096. rewrite Hwr, Ret_bind. cbn [fst snd].
  rewrite Hcl, Ret_bind. cbn [fst snd]. by rewrite Hfin.
Qed.

(** [expected] is what the file has where the program reads. *)
Lemma main_c3_runs heap peer M y prog fname no expected text :
  let buf := pread (local_file fname) (Z.to_nat 3072) (Z.to_nat 8192) (malloc heap 4096) in
  historyAt M y -> fresh no peer (population y) -> recordedAt (sys_manager y) "pfs_file1" 3 8192 ∅ -> (String.length fname < 20)%nat ->
  length expected = Z.to_nat 2048 -> (forall j v, expected !! j = Some v -> M "pfs_file1"%string (1024 + Z.of_nat j) = Some v) ->
  printed (fill expected buf) = Ret text ->
  exists y', main_c3 std_hash raw junk now local_file heap peer [prog; fname; no] y =
      Ret ([Metadata (Some (mkPfsStat now now 8192)); Wrote 3072; Read 2048; Text text], y') /\
    (exists M', historyAt M' y') /\ files (sys_manager y') !! "pfs_file1"%string = None.
Proof.
  intros buf Hh Hfr Hrec Hlen Hexp HM Htext. destruct (start_runs _ _ _ _ M y no peer Hh Hfr) as (y1 & s1 & Hstart & Hs1 & Hf1 & _).
  destruct (open_runs _ _ _ _ _ y1 no peer s1 _ "pfs_file1" "w"%char 3 8192 5 Hs1) as (y2 & s2 & f2 & Hopen & Hs2 & Ht2 & _ & _);
    [unfold recorded in *; by rewrite Hf1|by apply Nat.leb_le|by apply Nat.ltb_lt|]. assert (Hstat := session_stat _ _ _ _ _ _ _ _ _ _ _ _ _ _ _ Hs2).
  set (bs := inputAt heap fname 3072 8192 4096). assert (Hl : Z.of_nat (length bs) = 3072) by (by apply inputAt_length).
  destruct (session_write std_hash raw junk now M y2 no peer "pfs_file1" 3 8192 s2 f2 2 (joined no peer (population y)) bs 8192)
    as (hit & y3 & s3 & f3 & Hwr & Hs3 & Ht3 & _ & _); [by rewrite Hl|by left|by rewrite Hl|rewrite Hl; by vm_compute|by rewrite Hl|].
  destruct (session_read std_hash raw junk now _ y3 no peer "pfs_file1" 3 8192 s3 f3 0 _ 2048 1024 Hs3) as (r & hit' & y4 & s4 & f4 & Hrd & Hs4 & Hlr & Hag & _);
    [done|done|by vm_compute|done|].
  assert (r = expected) as ->.
  { eapply agrees_exact; [exact Hag|lia|]. intros j v Hj. rewrite updated_out; [by apply HM|]. apply lookup_lt_Some in Hj. lia. }
  destruct (session_close _ _ _ _ _ _ _ _ _ _ _ _ _ _ _ Hs4) as (y5 & Hcl & Hh5 & Hst5 & Hcl5 & Hrec5 & _).
  destruct (delete_runs _ _ _ _ _ _ no peer "pfs_file1" _ _ Hh5 Hst5 Hcl5 Hrec5) as (y6 & Hdel & Hh6 & Hst6 & Hcl6 & Hnone & _).
  destruct (finalize_runs _ _ _ _ _ _ _ _ Hh6 Hst6 Hcl6) as (y7 & Hfin & Hh7 & Hmm7 & _).
  exists y7. split; [|split; [by eexists|by rewrite Hmm7]]. unfold main_c3. arguments. rewrite Hstart, Ret_bind. arguments. unfold strcpy.
  rewrite (proj2 (Nat.ltb_lt _ _) Hlen), Ret_bind, Hopen, Ret_bind. cbn [fst snd Z.ltb Z.compare]. rewrite Hstat, Ret_bind. cbn [fst snd].
  change (take _ (pread _ _ _ _)) with bs. change (8 * ONEKB) with 8192. rewrite Hwr, Ret_bind. cbn [fst snd].
  change (sysRead _ _ _ _ _ _ _ _ ONEKB) with (sysRead std_hash raw junk now no peer 1 2048 1024). rewrite Hrd, Ret_bind. cbn [fst snd rd_bytes].
  change (pread _ _ _ _) with buf. rewrite Htext, Ret_bind, Hcl, Ret_bind. cbn [fst snd]. rewrite Hdel, Ret_bind. cbn [fst snd]. rewrite Hfin, Ret_bind, Hl. done.
Qed.

(** ** Properties *)

(** C10: the test of the repository passes. The programs test1-c1, test1-c2 and test1-c3,
    run one after the other by fresh processes on a system that does not know the
    name, write 11 KB of a local file, and the last one prints the size 8 KB and the
    bytes 1024 to 3071 of the local file, which the first one wrote, followed by what
    its buffer still has of its own write; in the end the file is deleted. *)
Theorem test1_writes_and_reads M y fname input heap1 heap2 heap3 no1 no2 no3 p1 p2 p3 prog1 prog2 prog3 text :
  historyAt M y -> files (sys_manager y) !! "pfs_file1"%string = None -> newName "pfs_file1" (sys_servers y) ->
  fresh no1 p1 (population y) -> fresh no2 p2 (joined no1 p1 (population y)) ->
  fresh no3 p3 (joined no2 p2 (joined no1 p1 (population y))) ->
  (String.length fname < 20)%nat -> local_file fname = Some input -> 11264 <= Z.of_nat (length input) ->
  printed (fill (take (Z.to_nat 2048) (drop (Z.to_nat 1024) input))
    (fill (take (Z.to_nat 3072) (drop (Z.to_nat 8192) input)) (malloc heap3 4096))) = Ret text ->
  exists y1 y2 y3,
    main_c1 std_hash raw junk now local_file heap1 p1 [prog1; fname; no1] y = Ret ([Wrote 4096], y1) /\
    main_c2 std_hash raw junk now local_file heap2 p2 [prog2; fname; no2] y1 = Ret ([Wrote 4096], y2) /\
    main_c3 std_hash raw junk now local_file heap3 p3 [prog3; fname; no3] y2 =
      Ret ([Metadata (Some (mkPfsStat now now 8192)); Wrote 3072; Read 2048; Text text], y3) /\
    files (sys_manager y3) !! "pfs_file1"%string = None.
Proof.
  intros Hh Hnone Hnew Hf1 Hf2 Hf3 Hlen Hin Hl Htext.
  destruct (main_c1_runs heap1 p1 M y prog1 fname no1) as (y1 & Hr1 & Hh1 & Hrec1 & Hp1); [done..|].
  destruct (main_c2_runs heap2 p2 _ y1 prog2 fname no2 Hh1) as (y2 & Hr2 & Hh2 & Hrec2 & Hp2); [by rewrite Hp1|done|done|].
  destruct (main_c3_runs heap3 p3 _ y2 prog3 fname no3 (take (Z.to_nat 2048) (drop (Z.to_nat 1024) input)) text Hh2)
    as (y3 & Hr3 & _ & Hn3); [by rewrite Hp2, Hp1|done|done|rewrite length_take, length_drop; lia| |by rewrite Hin|by exists y1, y2, y3].
  intros j v Hj. assert (Hj' := lookup_lt_Some _ _ _ Hj). rewrite length_take in Hj'. rewrite updated_out by lia.
  apply updated_in; [lia|]. unfold inputAt. rewrite Hin, pread_full by lia. rewrite drop_0.
  rewrite lookup_take_lt, lookup_drop in Hj by lia. rewrite lookup_take_lt by lia. by replace (Z.to_nat _) with (Z.to_nat 1024 + j)%nat by lia.
Qed.

(** Test1-c2 without the file does not report that it could not open it: the error
    code of the open is positive, so the program goes on with it as a descriptor, the
    write fails, and the close uses an entry of an empty vector. *)
Lemma main_c2_crashes_without_file heap peer M y prog fname no :
  historyAt M y -> fresh no peer (population y) -> files (sys_manager y) !! "pfs_file1"%string = None -> (String.length fname < 20)%nat ->
  main_c2 std_hash raw junk now local_file heap peer [prog; fname; no] y = Crash.
Proof.
  intros Hh Hfr Hnone Hlen. destruct (start_runs _ _ _ _ M y no peer Hh Hfr) as (y1 & s & Hstart & [Hh1 _ Hc Hr Hf _ _ _] & Hf1 & _).
  assert (Hok := history_mirror _ _ _ _ _ _ Hh1). assert (Hmm := proj1 (mi_manager y1 Hok)).
  assert (Hopen : sysOpen std_hash raw junk now no peer "pfs_file1" "w"%char y1 = Ret (1, y1)).
  { unfold sysOpen, atClient. rewrite Hc, deref_Some, Ret_bind. unfold openFile. rewrite Hr. cbn [negb rpc_OpenFile systemManager].
    unfold OpenFile. rewrite Hmm, Hf1, Hnone, !Ret_bind. cbn [status_ok]. rewrite error_code_CANCELLED, setManager_id, Ret_bind. cbn [fst snd]. by rewrite setClient_id. }
  assert (Hfind : findDescriptor 1 s = None) by (unfold findDescriptor; by rewrite Hf).
  assert (Hwr : forall bs offset, sysWrite std_hash raw junk now no peer 1 bs offset y1 = Ret (ERROR_CLOSE_UNOPENED_FILE, None, y1)).
  { intros bs offset. unfold sysWrite, atClient. rewrite Hc, deref_Some, Ret_bind. unfold writeFile, acquirePermission. rewrite Hr, Hfind.
    cbn [negb]. rewrite Ret_bind. cbn. by rewrite setClient_id. }
  assert (Hcl : sysClose std_hash raw junk now no peer 1 y1 = Crash).
  { unfold sysClose, atClient. rewrite Hc, deref_Some, Ret_bind. unfold closeFile. rewrite Hr, Hfind. cbn [negb requestName boolFoundAt].
    rewrite Ret_bind. unfold fileAt. by rewrite Hf. }
  unfold main_c2. arguments. rewrite Hstart, Ret_bind. arguments. unfold strcpy.
  rewrite (proj2 (Nat.ltb_lt _ _) Hlen), Ret_bind, Hopen, Ret_bind. cbn [fst snd Z.ltb Z.compare]. rewrite Hwr, Ret_bind. cbn [fst snd].
  by rewrite Hcl.
Qed.

End Mains.

Section Client.
Context `{!GrpcCodes} (std_hash : Z -> Z) (raw : nat -> CacheBlock) (junk : nat -> byte) (now : Z).

(** Pfs-client on a new name writes the value of its last argument to the range of
    its other arguments and reads it back: it prints the count of both calls and the
    value once per byte. *)
Lemma pfs_client_reads_back heap peer M y prog fname no first_arg last_arg value_arg first last value :
  let count := last - first in
  sysHistory std_hash raw junk now M y -> fresh no peer (population y) -> files (sys_manager y) !! fname = None -> newName fname (sys_servers y) ->
  (String.length fname < 20)%nat -> atoi first_arg = Ret first -> atoi last_arg = Ret last -> atoi value_arg = Ret value ->
  0 <= first < last -> inFile first count -> aligned first count -> (blocksIn first count <= 512)%nat ->
  exists hit1 hit2 y', pfs_client_main std_hash raw junk now heap peer [prog; fname; no; first_arg; last_arg; value_arg] y =
    Ret ([Descriptor 1; WroteHit count hit1; ReadHit count hit2; Values (replicate (Z.to_nat count) (charOf value))], y').
Proof.
  intros count Hh Hfr Hnone Hnew Hlen Ha1 Ha2 Ha3 Hrange Hin Hal Hblocks. set (bs := replicate (Z.to_nat count) (charOf value)).
  assert (Hl : Z.of_nat (length bs) = count) by (unfold bs; rewrite length_replicate; unfold count; lia).
  destruct (start_runs _ _ _ _ M y no peer Hh Hfr) as (y1 & s1 & Hstart & Hs1 & Hf1 & Hw1).
  destruct (create_runs _ _ _ _ M y1 no peer s1 _ fname 7 Hs1) as (y2 & Hcreate & Hs2 & Hrec2); [by rewrite Hf1|by rewrite Hw1|word_lia|].
  set (k := blocksIn first count) in *.
  destruct (open_runs _ _ _ _ _ y2 no peer s1 _ fname "w"%char 7 0 (k + k) Hs2 Hrec2) as (y3 & s3 & f3 & Hopen & Hs3 & Ht3 & _);
    [change blockCount with (2048%nat); lia|change blockCount with (2048%nat); lia|].
  destruct (session_write std_hash raw junk now (forget fname M) y3 no peer fname 7 0 s3 f3 k (joined no peer (population y)) bs first)
    as (hit1 & y4 & s4 & f4 & Hwr & Hs4 & Ht4 & _); [by rewrite Hl|by left|lia|by rewrite Hl|by rewrite Hl|].
  destruct (session_read std_hash raw junk now (updated (forget fname M) fname first bs) y4 no peer fname 7 0 s4 f4 0 (joined no peer (population y)) count first)
    as (r & hit2 & y5 & s5 & f5 & Hrd & Hs5 & Hlr & Hag & _); [by rewrite Nat.add_0_r|done|lia|done|done|].
  assert (r = bs) as ->.
  { eapply agrees_exact; [exact Hag|lia|]. intros j v Hj. apply updated_in; [lia|]. by replace (Z.to_nat _) with j by lia. }
  destruct (session_close _ _ _ _ _ _ _ _ _ _ _ _ _ _ _ Hs5) as (y6 & Hcl & Hh6 & Hst6 & Hcl6 & _ & _).
  destruct (finalize_runs _ _ _ _ _ _ _ _ Hh6 Hst6 Hcl6) as (y7 & Hfin & _).
  exists (Some hit1), (Some hit2), y7. unfold pfs_client_main. arguments. rewrite Ha1, Ret_bind, Ha2, Ret_bind. arguments. rewrite Hstart, Ret_bind. arguments.
  unfold strcpy. rewrite (proj2 (Nat.ltb_lt _ _) Hlen), Ret_bind, (proj2 (Z.ltb_lt 0 last)), Ha3, Ret_bind, Hcreate, Ret_bind by lia.
  cbn [fst snd Z.ltb Z.compare]. rewrite Hopen, Ret_bind. cbn [fst snd Z.ltb Z.compare]. fold count. rewrite length_replicate, Z2Nat.id by lia.
  rewrite (proj2 (Z.leb_le 0 count)), (proj2 (Z.leb_le count last)) by (unfold count; lia). cbn [andb assert_]. rewrite Ret_bind.
  replace (take (Z.to_nat count) (replicate (Z.to_nat last) (charOf value))) with bs.
  - rewrite Hwr, Ret_bind. cbn [fst snd]. rewrite Hrd, Ret_bind. cbn [fst snd]. rewrite Hcl, Ret_bind. cbn [fst snd]. rewrite Hfin, Ret_bind, Hl. cbn [app rd_result rd_hit rd_bytes].
    rewrite i32_id by (destruct Hin; change pfsBlockSizeInBytes with 1024 in *; lia). unfold fill. rewrite drop_ge, app_nil_r; [done|].
    rewrite malloc_length. lia.
  - unfold bs. rewrite take_replicate. f_equal. unfold count. lia.
Qed.

End Client.

(** ** Concrete runs *)

#[local] Instance programCodes : GrpcCodes := {|
  error_code st := match st with OK => 0 | CANCELLED => 1 end;
  error_code_OK := eq_refl;
  error_code_CANCELLED := eq_refl |}.

#[local] Instance fresh_dec no peer pop : Decision (fresh no peer pop).
Proof. unfold fresh. apply _. Defined.

Lemma newSystem_newName n : newName n (sys_servers newSystem).
Proof. apply Forall_forall. intros s (i & -> & _)%list_elem_of_fmap. done. Qed.

(** A local file of 11 KB. *)
Definition exampleInput : bytes := replicate (Z.to_nat 11264) x41.
Definition exampleLocal (fname : string) : option bytes := Some exampleInput.

Lemma test1_writes_and_reads_witness : exists y1 y2 y3 text,
  main_c1 ids rawBlock zeroByte 0 exampleLocal zeroByte "a" ["c1"; "in"; "1"]%string newSystem = Ret ([Wrote 4096], y1) /\
  main_c2 ids rawBlock zeroByte 0 exampleLocal zeroByte "b" ["c2"; "in"; "2"]%string y1 = Ret ([Wrote 4096], y2) /\
  main_c3 ids rawBlock zeroByte 0 exampleLocal zeroByte "c" ["c3"; "in"; "3"]%string y2 =
    Ret ([Metadata (Some (mkPfsStat 0 0 8192)); Wrote 3072; Read 2048; Text text], y3) /\
  files (sys_manager y3) !! "pfs_file1"%string = None.
Proof.
  assert (Htext : exists text, printed (fill (take (Z.to_nat 2048) (drop (Z.to_nat 1024) exampleInput))
    (fill (take (Z.to_nat 3072) (drop (Z.to_nat 8192) exampleInput)) (malloc zeroByte 4096))) = Ret text) by (eexists; vm_compute; reflexivity).
  destruct Htext as [text Htext].
  destruct (test1_writes_and_reads ids rawBlock zeroByte 0 exampleLocal (fun _ _ => None) newSystem "in" exampleInput zeroByte zeroByte zeroByte
    "1" "2" "3" "a" "b" "c" "c1" "c2" "c3" text) as (y1 & y2 & y3 & Hr).
  - constructor.
  - reflexivity.
  - apply newSystem_newName.
  - apply (bool_decide_unpack _). vm_compute. exact I.
  - apply (bool_decide_unpack _). vm_compute. exact I.
  - apply (bool_decide_unpack _). vm_compute. exact I.
  - apply Nat.ltb_lt. reflexivity.
  - reflexivity.
  - unfold exampleInput. rewrite length_replicate. lia.
  - exact Htext.
  - exists y1, y2, y3, text. exact Hr.
Defined.

(** The file servers listen at the addresses that the client library calls. *)
Lemma file_servers_listen i prog :
  (i < Z.to_nat NUM_FILE_SERVERS)%nat ->
  exists srv, pfs_file_server_main [prog; pretty (N.of_nat i)] ∅ = Listens (serverAddress i) srv /\ freshServers !! i = Some srv.
Proof.
  intros Hi. assert (i = 0 \/ i = 1 \/ i = 2 \/ i = 3 \/ i = 4)%nat as [->|[->|[->|[->| ->]]]] by (unfold_config; lia);
    (eexists; split; reflexivity).
Qed.
