(* ===== verification/ClientThreads.v ===== *)
(** The threads of one client, step by step: client/pfs_client.cpp and
    client/cache.cpp.

    In [Client] a call runs to its end before anything else happens. Here the
    application thread, in the data loop of a read or a write, is interleaved with the
    service thread that revokes a range, with the flusher and with the harvester. A
    method of the cache changes the lists and the hash table in one critical section of
    [cacheLock], so a step is one call of a method of the cache, one RPC to a file
    server, or one turn of a loop of the other threads. The free list has a lock of its
    own; what a method does to it is part of its step, since between the two sections
    the block is in no list and only that thread has it. *)

From Stdlib Require Import String Ascii Strings.Byte.
From stdpp Require Import gmap strings.
From S2P Require Import Prelude Config Permission File Tokens FileServer MetadataManager ClientFile Cache CacheLists CacheSpec CacheProps Client ClientSpec ClientFrame ClientProps.
#[local] Open Scope Z_scope.

(** ** State *)

(** Where the application thread is in its loop. For a write: before the first
    [Cache::write] of a turn; after it missed; with the block from its server; after
    [addBlock], before the second [Cache::write]. For a read: before [readBlock]; after
    it missed; with the block. [bs] are the bytes still to be written, [nbyte] those
    still to be read, [acc] those read so far. *)
Inductive AppState : Type :=
| WriteNext (offset : Z) (bs : bytes) (hit : bool)
| WriteMissed (offset : Z) (bs : bytes)
| WriteFetched (offset : Z) (bs : bytes) (cacheData : bytes)
| WriteAdded (offset : Z) (bs : bytes)
| ReadNext (offset nbyte : Z) (acc : bytes) (hit : bool)
| ReadMissed (offset nbyte : Z) (acc : bytes)
| ReadFetched (offset nbyte : Z) (acc : bytes) (cacheData : bytes)
| Finished (hit : bool) (acc : bytes).

(** [svc]: the service thread evicts the blocks from an address to an end, for the
    file at an index; [harvesting]: the harvester is in its inner loop. *)
Record Threads (W : Type) : Type := mkThreads {
  app : AppState;
  svc : option (nat * Z * Z);
  harvesting : bool;
  client : PFSClient;
  world : W }.
Arguments mkThreads {W} app svc harvesting client world.
Arguments app {W} t.
Arguments svc {W} t.
Arguments harvesting {W} t.
Arguments client {W} t.
Arguments world {W} t.

Section Threads.
Context {W : Type} `{!FileServerStub W} (std_hash : Z -> Z) (raw : nat -> CacheBlock).

(** ** Steps *)

(** A write of the bytes of one turn into the cache. *)
Definition cacheWrite (filedes offset : Z) (bs : bytes) (s : PFSClient) : outcome (bool * PFSClient) :=
  c ← getInstance raw s;
  r ← Cache.write std_hash filedes (u32 offset) bs c;
  Ret (r.1, setInstance (Some r.2) s).

Definition cacheAdd (filedes offset : Z) (cacheData : bytes) (s : PFSClient) : outcome PFSClient :=
  c ← getInstance raw s;
  c' ← addBlock std_hash filedes (blockOf offset) cacheData c;
  Ret (setInstance (Some c') s).

(** The application thread; the result of the second [Cache::write] is not used. *)
Definition appStep (foundAt : nat) (filedes : Z) (st : AppState) (s : PFSClient) (w : W)
    : outcome (AppState * PFSClient * W) :=
  match st with
  | WriteNext offset bs hit =>
      let nbyte := Z.of_nat (length bs) in
      if 0 <? nbyte
      then
        let n := actualSize offset nbyte in
        r ← cacheWrite filedes offset (take (Z.to_nat n) bs) s;
        if r.1 : bool
        then Ret (WriteNext (offset + n) (drop (Z.to_nat n) bs) hit, r.2, w)
        else Ret (WriteMissed offset bs, r.2, w)
      else Ret (Finished hit [], s, w)
  | WriteMissed offset bs =>
      g ← getBlockFromFileServer foundAt (blockOf offset) s w;
      Ret (WriteFetched offset bs g.1, s, g.2)
  | WriteFetched offset bs cacheData =>
      s' ← cacheAdd filedes offset cacheData s;
      Ret (WriteAdded offset bs, s', w)
  | WriteAdded offset bs =>
      let n := actualSize offset (Z.of_nat (length bs)) in
      r ← cacheWrite filedes offset (take (Z.to_nat n) bs) s;
      Ret (WriteNext (offset + n) (drop (Z.to_nat n) bs) false, r.2, w)
  | ReadNext offset nbyte acc hit =>
      if 0 <? nbyte
      then
        let n := actualSize offset nbyte in
        c ← getInstance raw s;
        r ← readBlock std_hash filedes (blockOf offset) c;
        let s1 := setInstance (Some r.2) s in
        match r.1 with
        | Some cacheData =>
            bs ← copyOut (Z.rem offset pfsBlockSizeInBytes) n cacheData;
            Ret (ReadNext (offset + n) (nbyte - n) (acc ++ bs) hit, s1, w)
        | None => Ret (ReadMissed offset nbyte acc, s1, w)
        end
      else Ret (Finished hit acc, s, w)
  | ReadMissed offset nbyte acc =>
      g ← getBlockFromFileServer foundAt (blockOf offset) s w;
      Ret (ReadFetched offset nbyte acc g.1, s, g.2)
  | ReadFetched offset nbyte acc cacheData =>
      let n := actualSize offset nbyte in
      s' ← cacheAdd filedes offset cacheData s;
      bs ← copyOut (Z.rem offset pfsBlockSizeInBytes) n cacheData;
      Ret (ReadNext (offset + n) (nbyte - n) (acc ++ bs) false, s', w)
  | Finished _ _ => Blocked
  end.

(** PFSClient::revokePermission up to the loop: without a locked token of the range the
    service thread cuts it at once. *)
Definition svcCut (filename : string) (start end_ : Z) (write : bool) (s : PFSClient)
    : outcome (option (nat * Z * Z) * PFSClient) :=
  match find_from (fun f => String.eqb (getName (cf_base f)) filename) 0 (openedFiles s) with
  | None => Ret (None, s)
  | Some i =>
      f ← fileAt i s;
      ps ← File.revokePermission start end_ write true 0 (permissions (cf_base f));
      Ret (Some (i, blockOf start, end_), setFileAt i (setBase (setPermissions ps (cf_base f)) f) s)
  end.

(** One turn of its loop over the blocks. *)
Definition svcEvict (i : nat) (blockAddr end_ : Z) (s : PFSClient) (w : W)
    : outcome (option (nat * Z * Z) * PFSClient * W) :=
  if blockAddr <=? end_
  then
    f ← fileAt i s;
    c ← getInstance raw s;
    r ← evictBlock (H := store s) std_hash (getDescriptor f) blockAddr c w;
    Ret (Some (i, u32 (blockAddr + pfsBlockSizeInBytes), end_), setInstance (Some r.1) s, r.2)
  else Ret (None, s, w).

Inductive ThreadEvent : Type :=
| TApp
| TRevoke (filename : string) (start end_ : Z) (write : bool)
| TEvict
| TFlush
| TWake
| THarvest.

Definition threadStep (foundAt : nat) (filedes : Z) (ev : ThreadEvent) (t : Threads W) : outcome (Threads W) :=
  let s := client t in
  let w := world t in
  match ev with
  | TApp =>
      r ← appStep foundAt filedes (app t) s w;
      Ret (mkThreads r.1.1 (svc t) (harvesting t) r.1.2 r.2)
  | TRevoke filename start end_ write =>
      match svc t with
      | Some _ => Blocked
      | None =>
          r ← svcCut filename start end_ write s;
          Ret (mkThreads (app t) r.1 (harvesting t) r.2 w)
      end
  | TEvict =>
      match svc t with
      | None => Blocked
      | Some (i, blockAddr, end_) =>
          r ← svcEvict i blockAddr end_ s w;
          Ret (mkThreads (app t) r.1.1 (harvesting t) r.1.2 r.2)
      end
  | TFlush =>
      c ← getInstance raw s;
      r ← flushOne (H := store s) c w;
      Ret (mkThreads (app t) (svc t) (harvesting t) (setInstance (Some r.1.2) s) r.2)
  | TWake =>
      if harvesting t then Blocked
      else
        c ← getInstance raw s;
        h ← sem_wait (harvesterSemaphore c);
        Ret (mkThreads (app t) (svc t) (freeBlockCount c <? 2020)
               (setInstance (Some (setSemaphores (freeBlockSemaphore c) h c)) s) w)
  | THarvest =>
      if harvesting t
      then
        c ← getInstance raw s;
        r ← harvestOne (H := store s) c w;
        Ret (mkThreads (app t) (svc t) r.1.1 (setInstance (Some r.1.2) s) r.2)
      else Blocked
  end.

Definition threadRun (foundAt : nat) (filedes : Z) (evs : list ThreadEvent) (t : Threads W) : outcome (Threads W) :=
  foldM (threadStep foundAt filedes) evs t.

(** ** Calm interleavings *)

(** The block that the application thread has just added is still in the cache. *)
Definition addedStays (filedes : Z) (t : Threads W) : bool :=
  match app t with
  | WriteAdded offset _ =>
      match getInstance raw (client t) with
      | Ret c => match readBlock std_hash filedes (blockOf offset) c with Ret (Some _, _) => true | _ => false end
      | _ => false
      end
  | _ => true
  end.

(** Every step leaves it there. *)
Fixpoint calmRun (foundAt : nat) (filedes : Z) (evs : list ThreadEvent) (t : Threads W) : outcome (Threads W) :=
  match evs with
  | [] => Ret t
  | ev :: evs' =>
      t' ← threadStep foundAt filedes ev t;
      if addedStays filedes t' then calmRun foundAt filedes evs' t' else Blocked
  end.

End Threads.

#[export] Instance ThreadEvent_eq_dec : EqDecision ThreadEvent.
Proof. solve_decision. Defined.
