(* ===== verification/ThreadSpec.v ===== *)
(** The steps of the threads of a client (ClientThreads.v): what a step of another
    thread leaves to the application thread, what each step of the application thread
    does, and the invariant of a call in progress. *)

From Stdlib Require Import String Ascii Strings.Byte.
From stdpp Require Import gmap strings.
From S2P Require Import Prelude Config Permission File Tokens FileServer MetadataManager ClientFile Cache CacheLists CacheSpec CacheProps Client ClientSpec ClientFrame ClientProps ClientThreads.
#[local] Open Scope Z_scope.

(** ** The steps of the application thread are the loops *)

Section Alone.
Context {W : Type} `{!FileServerStub W} (std_hash : Z -> Z) (raw : nat -> CacheBlock).
Implicit Types (s : PFSClient) (w : W).

(** The application thread takes [k] steps. *)
Definition appRun (i : nat) (fd : Z) (k : nat) (t : Threads W) : outcome (Threads W) :=
  threadRun std_hash raw i fd (replicate k TApp) t.

Lemma appRun_step i fd k st st' v hv s s' w w' t :
  appStep std_hash raw i fd st s w = Ret (st', s', w') -> appRun i fd k (mkThreads st' v hv s' w') = Ret t ->
  appRun i fd (S k) (mkThreads st v hv s w) = Ret t.
Proof. intros Hs Hr. unfold appRun, threadRun in *. cbn [replicate foldM threadStep app svc harvesting client world]. rewrite Hs. exact Hr. Qed.

Lemma writeLoop_steps fuel i fd offset bs hit v hv s w h s' w' :
  writeLoop std_hash raw fuel i fd offset bs hit s w = Ret (h, s', w') ->
  exists k, appRun i fd k (mkThreads (WriteNext offset bs hit) v hv s w) = Ret (mkThreads (Finished h []) v hv s' w').
Proof.
  revert offset bs hit s w. induction fuel as [|fuel IH]; intros offset bs hit s w; cbn [writeLoop]; [done|].
  destruct (0 <? Z.of_nat (length bs)) eqn:Hpos.
  2: { intros [= <- <- <-]. exists 1%nat. eapply appRun_step; [|reflexivity]. cbn. by rewrite Hpos. }
  intros Hr. apply bind_Ret in Hr as ([[h1 s1] w1] & Hc & Hr). destruct (IH _ _ _ _ _ Hr) as [k Hk]. clear IH Hr.
  unfold writeChunk in Hc. apply bind_Ret in Hc as (c & Hc & Hw). apply bind_Ret in Hw as ([b c0] & Hw & Hm).
  destruct b.
  - injection Hm as <- <- <-. rewrite andb_true_r in Hk. exists (S k). eapply appRun_step; [|exact Hk].
    cbn [appStep]. rewrite Hpos. unfold cacheWrite. by rewrite Hc, Ret_bind, Hw.
  - apply bind_Ret in Hm as ([blk w2] & Hg & Hm). apply bind_Ret in Hm as (c1 & Hc1 & Hm). apply bind_Ret in Hm as (c2 & Ha & Hm).
    apply bind_Ret in Hm as ([b2 c3] & Hw2 & [= <- <- <-]). rewrite andb_false_r in Hk. exists (S (S (S (S k)))).
    eapply appRun_step; [cbn [appStep]; rewrite Hpos; unfold cacheWrite; rewrite Hc, Ret_bind, Hw, !Ret_bind; cbn [fst snd]; reflexivity|].
    eapply appRun_step; [cbn [appStep]; rewrite Hg, Ret_bind; cbn [fst snd]; reflexivity|].
    eapply appRun_step; [cbn [appStep]; unfold cacheAdd; rewrite Hc1, Ret_bind; cbn [fst snd] in Ha; rewrite Ha, !Ret_bind; reflexivity|].
    eapply appRun_step; [|exact Hk]. cbn [appStep]. unfold cacheWrite. cbn [getInstance setInstance instance_]. rewrite Ret_bind.
    by rewrite Hw2.
Qed.

Lemma readLoop_steps fuel i fd nbyte offset hit acc v hv s w h bs s' w' :
  readLoop std_hash raw fuel i fd nbyte offset hit acc s w = Ret (h, bs, s', w') ->
  exists k, appRun i fd k (mkThreads (ReadNext offset nbyte acc hit) v hv s w) = Ret (mkThreads (Finished h bs) v hv s' w').
Proof.
  revert nbyte offset hit acc s w. induction fuel as [|fuel IH]; intros nbyte offset hit acc s w; cbn [readLoop]; [done|].
  destruct (0 <? nbyte) eqn:Hpos.
  2: { intros [= <- <- <- <-]. exists 1%nat. eapply appRun_step; [|reflexivity]. cbn. by rewrite Hpos. }
  intros Hr. apply bind_Ret in Hr as ([[[h1 blk] s1] w1] & Hf & Hr). apply bind_Ret in Hr as (bs1 & Hcp & Hr).
  destruct (IH _ _ _ _ _ _ Hr) as [k Hk]. clear IH Hr.
  unfold fetchBlock in Hf. apply bind_Ret in Hf as (c & Hc & Hf). apply bind_Ret in Hf as ([[blk'|] c0] & Hrd & Hm); cbn in Hm.
  - injection Hm as <- <- <- <-. rewrite andb_true_r in Hk. exists (S k). eapply appRun_step; [|exact Hk].
    cbn [appStep]. rewrite Hpos, Hc, Ret_bind, Hrd, Ret_bind. cbn [fst snd]. by rewrite Hcp.
  - apply bind_Ret in Hm as ([blk' w2] & Hg & Hm).
    apply bind_Ret in Hm as (c2 & Ha & [= <- <- <- <-]). rewrite andb_false_r in Hk. exists (S (S (S k))).
    eapply appRun_step; [cbn [appStep]; rewrite Hpos, Hc, Ret_bind, Hrd, Ret_bind; cbn [fst snd]; reflexivity|].
    eapply appRun_step; [cbn [appStep]; rewrite Hg, Ret_bind; cbn [fst snd]; reflexivity|].
    eapply appRun_step; [|exact Hk]. cbn [appStep fst snd]. unfold cacheAdd. cbn [getInstance setInstance instance_].
    rewrite Ret_bind. cbn [fst] in Ha, Hcp. by rewrite Ha, !Ret_bind, Hcp.
Qed.
End Alone.

(** ** The other threads *)

Section Others.
Context {W : Type} `{!FileServerStub W, !FileServerStubOk W} (std_hash : Z -> Z) (raw : nat -> CacheBlock).
Implicit Types (s : PFSClient) (a : LRU) (w : W) (m : string -> Z -> option byte) (t : Threads W).

(** What a step of another thread leaves to the application thread: no block is new in
    the cache, as many blocks can be added, and the file at [i] is the same but for its
    tokens. *)
Record undisturbed (i : nat) s s' a a' : Prop := mkUndisturbed {
  un_cached k : cached a k = None -> cached a' k = None;
  un_budget n : budget n a -> budget n a';
  un_file f : openedFiles s !! i = Some f ->
    exists f', openedFiles s' !! i = Some f' /\ entry f' = entry f /\ getDescriptor f' = getDescriptor f }.

Lemma drained_undisturbed i s c a a' w w' :
  drained (table s) a w a' w' -> (freeBlocks a <= freeBlocks a')%nat -> semaphore a' = semaphore a ->
  undisturbed i s (setInstance c s) a a'.
Proof.
  intros Hdr Hf Hs. split.
  - intros k Hk. destruct (cached a' k) as [b|] eqn:E; [|done]. destruct (dr_cached _ _ _ _ _ Hdr k) as [b' Hb']; [by rewrite E|congruence].
  - intros n [? ?]. split; [by rewrite Hs|lia].
  - intros f Hf'. by exists f.
Qed.

Lemma flushOne_ok i m s a w c b c' w' :
  clientOk std_hash raw m s a w -> getInstance raw s = Ret c -> flushOne (H := store s) c w = Ret (b, c', w') ->
  exists a', clientOk std_hash raw m (setInstance (Some c') s) a' w' /\ undisturbed i s (setInstance (Some c') s) a a' /\ drained (table s) a w a' w'.
Proof.
  intros [Hst (c0 & Hc & Hrep) Ht Hb Hp] Hc0 Hr. rewrite Hc0 in Hc. injection Hc as <-. destruct a as [r l fb sm wk].
  destruct l as [|b0 l _] using rev_ind.
  - rewrite (flushOne_none (H := store s) std_hash c _ w Hrep eq_refl) in Hr. injection Hr as _ <- <-.
    eexists. split; [split; [done|by exists c|done..]|]. split; [|apply drained_refl].
    eapply drained_undisturbed; [apply (drained_refl _ _ w)|done|done].
  - pose proof (represents_wf _ _ _ Hrep) as Hw. pose proof (wf_dirty _ Hw) as Hd. cbn in Hd.
    apply Forall_app in Hd as [_ [[Hcl Hfull] _]%Forall_cons].
    destruct (flushLast_ok raw s m r l b0 w fb sm wk Hst (wf_keys _ Hw) Hcl Hfull Ht Hb Hp) as (w1 & Hfl & Ht1 & Hb1 & Hp1 & Hdr).
    pose proof (flushOne_refines (H := store s) std_hash c r l b0 fb sm wk w Hrep) as Hsim. unfold flush in Hsim. rewrite Hfl, Ret_bind in Hsim.
    destruct Hsim as (c1 & Hc1 & Hrep1). rewrite Hr in Hc1. injection Hc1 as _ -> ->.
    eexists. split; [split; [done|by exists c1|done..]|]. split; [by eapply drained_undisturbed|done].
Qed.

Lemma harvestOne_ok i m s a w c b c' w' :
  clientOk std_hash raw m s a w -> getInstance raw s = Ret c -> harvestOne (H := store s) c w = Ret (b, c', w') ->
  exists a', clientOk std_hash raw m (setInstance (Some c') s) a' w' /\ undisturbed i s (setInstance (Some c') s) a a' /\ drained (table s) a w a' w'.
Proof.
  intros [Hst (c0 & Hc & Hrep) Ht Hb Hp] Hc0 Hr. rewrite Hc0 in Hc. injection Hc as <-.
  pose proof (harvestOne_refines (H := store s) std_hash c a w Hrep) as Hsim.
  destruct (decide (cachedBlocks a = [])) as [Hn|Hn].
  { destruct a as [r l fb sm wk]. apply app_nil in Hn as [Hn1 Hn2]. cbn in Hn1, Hn2. subst r l. cbn in Hsim. congruence. }
  destruct (specHarvestOne_ok raw s m a w Hst (represents_wf _ _ _ Hrep) Hn Ht Hb Hp) as (a1 & w1 & fd & ad & He & _ & Ht1 & Hb1 & Hp1 & Hf & Hs & Hdr).
  rewrite He in Hsim. destruct Hsim as (c1 & Hc1 & Hrep1 & _). rewrite Hr in Hc1. injection Hc1 as _ -> ->.
  eexists. split; [split; [done|by exists c1|done..]|]. split; [by eapply drained_undisturbed|done].
Qed.

Lemma wake_ok i m s a w c h :
  clientOk std_hash raw m s a w -> getInstance raw s = Ret c ->
  let s' := setInstance (Some (setSemaphores (freeBlockSemaphore c) h c)) s in
  exists a', clientOk std_hash raw m s' a' w /\ undisturbed i s s' a a' /\ drained (table s) a w a' w.
Proof.
  intros [Hst (c0 & Hc & Hrep) Ht Hb Hp] Hc0. rewrite Hc0 in Hc. injection Hc as <-. destruct a as [r l fb sm wk].
  exists (mkLRU r l fb sm h). split; [split; [done|eexists; split; [done|by eapply represents_wakeups]|done..]|].
  split; [|by split]. split; [done|done|]. intros f Hf. by exists f.
Qed.

Lemma evictStep_ok i m s a w c fd ad c' w' :
  clientOk std_hash raw m s a w -> getInstance raw s = Ret c -> evictBlock (H := store s) std_hash fd ad c w = Ret (c', w') ->
  exists a', clientOk std_hash raw m (setInstance (Some c') s) a' w' /\ undisturbed i s (setInstance (Some c') s) a a' /\
    drained (table s) a w a' w' /\ cached a' (u32 fd, ad) = None.
Proof.
  intros Hok Hc Hr. destruct (evict_ok std_hash raw m s a w fd ad Hok) as (c0 & c1 & a1 & w1 & Hc0 & Hr1 & Hok1 & Hca & Hf & Hs & Hdr).
  rewrite Hc in Hc0. injection Hc0 as <-. rewrite Hr in Hr1. injection Hr1 as <- <-. exists a1. split; [done|].
  split; [by eapply drained_undisturbed|]. split; [done|]. by rewrite Hca, decide_True.
Qed.

Lemma cut_ok i m s a w j f ps :
  clientOk std_hash raw m s a w -> openedFiles s !! j = Some f ->
  let s' := setFileAt j (withTokens ps f) s in clientOk std_hash raw m s' a w /\ undisturbed i s s' a a.
Proof.
  intros Hok Hj s'. split; [by eapply clientOk_setFileAt|]. split; [done|done|]. intros f0 Hf0.
  destruct (decide (j = i)) as [->|Hne].
  - rewrite Hj in Hf0. injection Hf0 as <-. exists (withTokens ps f). split; [by eapply openedFiles_setFileAt|done].
  - exists f0. split; [|done]. unfold s'. cbn. by rewrite list_lookup_insert_ne.
Qed.

Lemma undisturbed_refl i s a : undisturbed i s s a a.
Proof. split; [done|done|]. intros f Hf. by exists f. Qed.

(** A step of any other thread keeps the bytes of the files. *)
Lemma others_ok i fd m t a ev t' :
  ev <> TApp -> clientOk std_hash raw m (client t) a (world t) -> threadStep std_hash raw i fd ev t = Ret t' ->
  app t' = app t /\ exists a', clientOk std_hash raw m (client t') a' (world t') /\ undisturbed i (client t) (client t') a a' /\
    drained (table (client t)) a (world t) a' (world t').
Proof.
  intros Hev Hok. destruct t as [st v hv s w]. destruct ev as [|name st0 en wr| | | |]; cbn [threadStep app svc harvesting client world] in *; [done|..].
  - destruct v; [done|]. intros Hr. apply bind_Ret in Hr as ([v' s'] & Hcut & [= <-]). cbn. split; [done|].
    unfold svcCut in Hcut. destruct (find_from _ _ _) as [j|]; [|injection Hcut as _ <-; exists a; split; [done|split; [apply undisturbed_refl|apply drained_refl]]].
    apply bind_Ret in Hcut as (f & Hj%deref_Ret & Hcut). apply bind_Ret in Hcut as (ps & _ & [= _ <-]). exists a.
    destruct (cut_ok i m s a w j f ps Hok Hj) as [? ?]. split; [done|]. split; [done|apply drained_refl].
  - destruct v as [[[j ad] en]|]; [|done]. intros Hr. apply bind_Ret in Hr as ([[v' s'] w'] & He & [= <-]). cbn. split; [done|].
    unfold svcEvict in He. destruct (ad <=? en); [|injection He as _ <- <-; exists a; split; [done|split; [apply undisturbed_refl|apply drained_refl]]].
    apply bind_Ret in He as (f & _ & He). apply bind_Ret in He as (c & Hc & He). apply bind_Ret in He as ([c' w1] & He & [= _ <- <-]).
    edestruct evictStep_ok as (a' & ? & ? & ? & _); [exact Hok|exact Hc|exact He|]. by exists a'.
  - intros Hr. apply bind_Ret in Hr as (c & Hc & Hr). apply bind_Ret in Hr as ([[b c'] w'] & Hf & [= <-]). split; [done|]. by eapply flushOne_ok.
  - destruct hv; [done|]. intros Hr. apply bind_Ret in Hr as (c & Hc & Hr). apply bind_Ret in Hr as (h & _ & [= <-]). split; [done|]. by eapply wake_ok.
  - destruct hv; [|done]. intros Hr. apply bind_Ret in Hr as (c & Hc & Hr). apply bind_Ret in Hr as ([[b c'] w'] & Hf & [= <-]). split; [done|].
    by eapply harvestOne_ok.
Qed.

End Others.

(** ** The application thread *)

Section App.
Context {W : Type} `{!FileServerStub W, !FileServerStubOk W} (std_hash : Z -> Z) (raw : nat -> CacheBlock).
Implicit Types (s : PFSClient) (a : LRU) (w : W) (m : string -> Z -> option byte) (t : Threads W).

(** The bytes of a block of the file [n] agree with [m]. *)
Definition blockAgrees m (n : string) (offset : Z) (blk : bytes) : Prop :=
  length blk = blockSize /\ forall x v, 0 <= x -> baseOf x = baseOf offset -> m n x = Some v -> blk !! offOf x = Some v.

(** A call on the file [n] with descriptor [d] in progress: what is left of its range
    can be addressed; after a miss its block is not cached; a fetched block has the
    bytes of the file, and so have the bytes that were read from [start] on, [total]
    in the end. *)
Definition callOk m (n : string) (d start total : Z) a (st : AppState) : Prop :=
  let writes offset bs := inFile offset (Z.of_nat (length bs)) /\ total = 0 in
  let reads offset nbyte acc :=
    inFile offset nbyte /\ agrees m n start acc /\ offset = start + Z.of_nat (length acc) /\
    total = Z.of_nat (length acc) + nbyte /\ 0 <= nbyte in
  match st with
  | WriteNext offset bs _ => writes offset bs
  | WriteMissed offset bs => writes offset bs /\ bs <> [] /\ cached a (d, baseOf offset) = None
  | WriteFetched offset bs blk => writes offset bs /\ bs <> [] /\ cached a (d, baseOf offset) = None /\ blockAgrees m n offset blk
  | WriteAdded offset bs => writes offset bs /\ bs <> []
  | ReadNext offset nbyte acc _ => reads offset nbyte acc
  | ReadMissed offset nbyte acc => reads offset nbyte acc /\ 0 < nbyte /\ cached a (d, baseOf offset) = None
  | ReadFetched offset nbyte acc blk =>
      reads offset nbyte acc /\ 0 < nbyte /\ cached a (d, baseOf offset) = None /\ blockAgrees m n offset blk
  | Finished _ acc => agrees m n start acc /\ total = Z.of_nat (length acc)
  end.

(** The file once the rest of the call is done. *)
Definition promised m (n : string) (st : AppState) : string -> Z -> option byte :=
  match st with
  | WriteNext offset bs _ | WriteMissed offset bs | WriteFetched offset bs _ | WriteAdded offset bs => updated m n offset bs
  | _ => m
  end.

(** The blocks that the rest of the call may have to add. *)
Definition needs (st : AppState) : nat :=
  match st with
  | WriteNext offset bs _ | WriteMissed offset bs | WriteFetched offset bs _ => blocksIn offset (Z.of_nat (length bs))
  | WriteAdded offset bs => pred (blocksIn offset (Z.of_nat (length bs)))
  | ReadNext offset nbyte _ _ | ReadMissed offset nbyte _ | ReadFetched offset nbyte _ _ => blocksIn offset nbyte
  | Finished _ _ => 0
  end.

(** The steps that are left, at most. *)
Definition stepsLeft (st : AppState) : nat :=
  match st with
  | WriteNext offset bs _ => S (4 * blocksIn offset (Z.of_nat (length bs)))
  | WriteMissed offset bs => 4 * blocksIn offset (Z.of_nat (length bs))
  | WriteFetched offset bs _ => pred (4 * blocksIn offset (Z.of_nat (length bs)))
  | WriteAdded offset bs => pred (pred (4 * blocksIn offset (Z.of_nat (length bs))))
  | ReadNext offset nbyte _ _ => S (4 * blocksIn offset nbyte)
  | ReadMissed offset nbyte _ => 4 * blocksIn offset nbyte
  | ReadFetched offset nbyte _ _ => pred (4 * blocksIn offset nbyte)
  | Finished _ _ => 0
  end.

(** The block of a write that is between [addBlock] and the second [Cache::write]. *)
Definition addedCached (d : Z) a (st : AppState) : Prop :=
  match st with WriteAdded offset _ => is_Some (cached a (d, baseOf offset)) | _ => True end.

(** Other threads do not disturb the call. *)
Lemma callOk_undisturbed i m n d start total s s' a a' st :
  undisturbed i s s' a a' -> callOk m n d start total a st -> callOk m n d start total a' st.
Proof. intros [Hc _ _]. destruct st; cbn; intuition auto. Qed.

(** The addresses that the rest of the call is about. *)
Definition ahead (st : AppState) (x : Z) : Prop :=
  match st with
  | WriteNext offset bs _ | WriteMissed offset bs | WriteFetched offset bs _ | WriteAdded offset bs =>
      offset <= x < offset + Z.of_nat (length bs)
  | ReadNext offset nbyte _ _ | ReadMissed offset nbyte _ | ReadFetched offset nbyte _ _ => offset <= x < offset + nbyte
  | Finished _ _ => False
  end.

Definition isWriting (st : AppState) : bool :=
  match st with WriteNext _ _ _ | WriteMissed _ _ | WriteFetched _ _ _ | WriteAdded _ _ => true | _ => false end.

(** What a step of the call adds to the cache: blocks of the rest of its range, and dirty
    bytes there if it writes. *)
Record touchesAhead (tab : list (string * Z * Z)) (n : string) (d : Z) (st : AppState) a a' : Prop := mkTouchesAhead {
  ta_cached k : is_Some (cached a' k) -> is_Some (cached a k) \/ exists x, ahead st x /\ k = (d, baseOf x);
  ta_dirty n' x : dirtyAt tab a' n' x -> dirtyAt tab a n' x \/ (isWriting st = true /\ n' = n /\ ahead st x) }.

Lemma touchesAhead_same tab n d st a a' : (forall k, cached a' k = cached a k) -> touchesAhead tab n d st a a'.
Proof.
  intros Hc. split; [intros k; rewrite Hc; by left|]. intros n' x (d' & wd' & b & Hin & Hb & Hd). left. exists d', wd', b. by rewrite <- Hc.
Qed.

Lemma touchesAhead_block tab n d st a a' offset :
  ahead st offset -> (forall k, k <> (d, baseOf offset) -> cached a' k = cached a k) ->
  (forall n' x, dirtyAt tab a' n' x -> dirtyAt tab a n' x \/ (isWriting st = true /\ n' = n /\ ahead st x)) -> touchesAhead tab n d st a a'.
Proof.
  intros Ho Hc Hd. split; [|done]. intros k Hk. destruct (decide (k = (d, baseOf offset))) as [->|Hne]; [right; by exists offset|].
  left. by rewrite <- Hc.
Qed.

(** What a step of the call does. *)
Record stepped (n : string) (d start total : Z) m s w a (st st' : AppState) s' w' : Prop := mkStepped {
  st_next : exists m' a', clientOk std_hash raw m' s' a' w' /\ callOk m' n d start total a' st' /\ addedCached d a' st' /\
    (forall k, budget (needs st + k) a -> budget (needs st' + k) a') /\
    (addedCached d a st -> forall n' x, promised m' n st' n' x = promised m n st n' x) /\ touchesAhead (table s) n d st a a';
  st_files : openedFiles s' = openedFiles s;
  st_world : w' = w;
  st_ahead x : ahead st' x -> ahead st x;
  st_less : (stepsLeft st' < stepsLeft st)%nat }.

(** A block from its server, added to the cache with bytes that agree with [m]. *)
Lemma cacheAdd_ok m s a w i f n d wd offset blk :
  clientOk std_hash raw m s a w -> openedFiles s !! i = Some f -> entry f = (n, d, wd) -> is_u32 offset -> blockAddr (baseOf offset) ->
  cached a (d, baseOf offset) = None -> blockAgrees m n offset blk ->
  match cacheAdd std_hash raw (getDescriptor f) offset blk s with
  | Ret s' => exists a', clientOk std_hash raw m s' a' w /\ openedFiles s' = openedFiles s /\
      (forall k, budget (S k) a -> budget k a') /\
      (forall k', cached a' k' = if decide (k' = (d, baseOf offset)) then Some (mkCacheBlock d (baseOf offset) noDirty true true blk) else cached a k')
  | _ => forall k, ~ budget (S k) a
  end.
Proof.
  intros [Hst (c & Hc & Hrep) Ht Hb Hh] Hi He Ho Had Hn [Hl Hag]. unfold cacheAdd. rewrite Hc, Ret_bind, (proj1 (blockOf_spec offset Ho)).
  assert (Hd : u32 (getDescriptor f) = d) by (by injection He). pose proof (entry_in_table s i f n d wd Hi He) as Hin.
  pose proof (addBlock_refines std_hash (getDescriptor f) (baseOf offset) blk c a Hrep (proj2 (proj2 Had)) Hl) as Hadd.
  rewrite Hd in Hadd. specialize (Hadd Hn).
  assert (Hbud : forall k, budget (S k) a -> exists a', specAdd (d, baseOf offset) blk a = Ret a' /\ budget k a').
  { intros k [Hs Hf]. destruct (specAdd_cached (d, baseOf offset) blk a k Hs Hf) as (a' & Ha & _ & Hs' & Hf'). by exists a'. }
  destruct (specAdd (d, baseOf offset) blk a) as [a'| |] eqn:Ha.
  2, 3: rewrite Hadd; intros k Hk; destruct (Hbud k Hk) as (a' & [=] & _).
  destruct Hadd as (c' & -> & Hrep'). rewrite Ret_bind. exists a'.
  assert (Hca : forall k', cached a' k' = if decide (k' = (d, baseOf offset)) then Some (mkCacheBlock d (baseOf offset) noDirty true true blk) else cached a k').
  { intros k'. unfold specAdd in Ha. destruct (semaphore a) as [|[|]]; [done..|]. destruct (freeBlocks a) as [|[|]]; [done..|].
    injection Ha as <-. rewrite !cached_unfold. cbn [recentBlocks dirtyBlocks fst snd]. rewrite (findKey_cons (d, baseOf offset)) by done. by case_decide. }
  split; [|split; [done|split; [|done]]].
  2: { intros k Hk. destruct (Hbud k Hk) as (a1 & [= <-] & ?). done. }
  split; [done|by exists c'|done| |].
  - intros d' ad' b. rewrite Hca. case_decide as Hk; [|apply Hb]. injection Hk as -> ->. intros _. split; [done|]. by exists n, wd.
  - intros n' d' wd' x v Hin' Hx Hv. pose proof (Hh n' d' wd' x v Hin' Hx Hv) as Hval. rewrite Hca. case_decide as Hk; [|done].
    injection Hk as -> Hbase. destruct (table_unique _ _ _ _ _ _ _ Ht Hin Hin') as [-> ->]. rewrite Hbase, Hn in Hval. cbn in Hval.
    split; [by apply Hag|by right].
Qed.

Lemma touchesAhead_add tab n d st a a' offset blk :
  ahead st offset ->
  (forall k', cached a' k' = if decide (k' = (d, baseOf offset)) then Some (mkCacheBlock d (baseOf offset) noDirty true true blk) else cached a k') ->
  touchesAhead tab n d st a a'.
Proof.
  intros Ho Hca. apply (touchesAhead_block _ _ _ _ _ _ offset); [done|intros k Hk; by rewrite Hca, decide_False|].
  intros n' x Hx. left. eapply dirtyAt_replace; [exact Hca|by intros b [= <-]|exact Hx].
Qed.

(** One turn of a write. *)
Lemma writeTurn offset bs :
  inFile offset (Z.of_nat (length bs)) -> bs <> [] ->
  let z := actualSize offset (Z.of_nat (length bs)) in
  let bs1 := take (Z.to_nat z) bs in
  let bs2 := drop (Z.to_nat z) bs in
  is_u32 offset /\ blockAddr (baseOf offset) /\ (offOf offset + length bs1 <= blockSize)%nat /\
  inFile (offset + z) (Z.of_nat (length bs2)) /\
  blocksIn offset (Z.of_nat (length bs)) = S (blocksIn (offset + z) (Z.of_nat (length bs2))) /\
  (Z.of_nat (length bs1) = z /\ Z.of_nat (length bs2) = Z.of_nat (length bs) - z /\ 0 < z <= Z.of_nat (length bs)) /\
  forall m n n' x, updated (updated m n offset bs1) n (offset + z) bs2 n' x = updated m n offset bs n' x.
Proof.
  intros Hin Hne z bs1 bs2. assert (Hpos : 0 < Z.of_nat (length bs)) by (destruct bs; [done|cbn; lia]).
  destruct (chunk offset _ Hin Hpos) as (Hn & Hfit & _ & Had & Hu & Hin' & Hblocks & _). fold z in Hn, Hfit, Hin', Hblocks.
  assert (Hlt : length bs1 = Z.to_nat z) by (unfold bs1; rewrite length_take; lia).
  assert (Hld : Z.of_nat (length bs2) = Z.of_nat (length bs) - z) by (unfold bs2; rewrite length_drop; lia).
  rewrite Hlt, Hld. repeat (split; [done|]). split; [lia|]. intros m n n' x. replace (offset + z) with (offset + Z.of_nat (Z.to_nat z)) by lia.
  apply updated_split. lia.
Qed.

(** A write of the bytes of one turn: they are in the cached block, or there is none. *)
Lemma cacheWrite_step m s a w i f n d wd offset bs :
  clientOk std_hash raw m s a w -> openedFiles s !! i = Some f -> entry f = (n, d, wd) ->
  is_u32 offset -> (offOf offset + length bs <= blockSize)%nat ->
  exists h s' a', cacheWrite std_hash raw (getDescriptor f) offset bs s = Ret (h, s') /\ openedFiles s' = openedFiles s /\
    (forall k, budget k a -> budget k a') /\ (forall k', k' <> (d, baseOf offset) -> cached a' k' = cached a k') /\
    (forall n' x, dirtyAt (table s) a' n' x -> dirtyAt (table s) a n' x \/ (n' = n /\ offset <= x < offset + Z.of_nat (length bs))) /\
    (if h : bool then clientOk std_hash raw (updated m n offset bs) s' a' w
     else clientOk std_hash raw m s' a' w /\ cached a (d, baseOf offset) = None /\ a' = a).
Proof.
  intros Hok Hi He Ho Hlen. assert (Hd : u32 (getDescriptor f) = d) by (by injection He). unfold cacheWrite. rewrite (u32_id offset Ho).
  destruct (cached a (d, baseOf offset)) as [b|] eqn:Hcb.
  - destruct (cacheWrite_ok std_hash raw m s a w f n d wd b offset bs Hok) as (c & c' & a' & Hc & Hr & Hok' & Hb & Hca & Hdi);
      [by eapply list_elem_of_lookup_2|done..|].
    rewrite Hc, Ret_bind, Hr, Ret_bind. exists true, (setInstance (Some c') s), a'. done.
  - rewrite <- Hd in Hcb. destruct (cacheWrite_miss std_hash raw m s a w (getDescriptor f) offset bs Hok Hcb Ho Hlen) as (c & c' & Hc & Hr & Hok').
    rewrite Hc, Ret_bind, Hr, Ret_bind. exists false, (setInstance (Some c') s), a. by auto 10.
Qed.

(** The outcome of a step: it does what it has to, or the cache is full. *)
Definition stepOk (n : string) (d start total : Z) m s w a (st : AppState) (r : outcome (AppState * PFSClient * W)) : Prop :=
  match r with
  | Ret (st', s', w') => stepped n d start total m s w a st st' s' w'
  | _ => ~ budget (needs st) a
  end.

Lemma writeNext_ok m s a w i f n d wd start total offset bs hit :
  clientOk std_hash raw m s a w -> openedFiles s !! i = Some f -> entry f = (n, d, wd) ->
  callOk m n d start total a (WriteNext offset bs hit) ->
  stepOk n d start total m s w a (WriteNext offset bs hit) (appStep std_hash raw i (getDescriptor f) (WriteNext offset bs hit) s w).
Proof.
  intros Hok Hi He [Hin Htot]. cbn [appStep]. destruct (Z.ltb_spec 0 (Z.of_nat (length bs))) as [Hpos|Hneg].
  - assert (Hne : bs <> []) by (by intros ->). destruct (writeTurn offset bs Hin Hne) as (Ho & Had & Hlen & Hin' & Hbl & Hz & Hup).
    destruct (cacheWrite_step m s a w i f n d wd offset _ Hok Hi He Ho Hlen) as (h & s' & a' & -> & Hf & Hb & Hca & Hdi & Hh). rewrite Ret_bind. cbn [fst snd].
    destruct h; split; [|done|done|intros x; cbn; lia|cbn; lia| |done|done|done|cbn; lia].
    + eexists _, a'. split; [exact Hh|]. split; [by split|]. split; [done|]. cbn [needs promised].
      split; [intros k Hk; eapply budget_le; [|by apply Hb]; lia|]. split; [by intros _ n' x; rewrite Hup|].
      apply (touchesAhead_block _ _ _ _ _ _ offset); [cbn; lia|done|]. intros n' x [?|[-> Hx]]%Hdi; [by left|right]. split; [done|]. split; [done|]. cbn. lia.
    + destruct Hh as (Hok' & Hn & ->). exists m, a. repeat (split; [done|]). by apply touchesAhead_same.
  - destruct bs as [|b bs]; [|cbn in Hneg; lia]. split; [|done|done|done|cbn; lia]. exists m, a. split; [done|]. split; [by split; [intros j v Hj; cbn in Hj; lia|]|].
    split; [done|]. split; [intros k Hk; eapply budget_le; [|done]; cbn; lia|]. split; [|by apply touchesAhead_same]. intros _ n' x. cbn. unfold updated. by rewrite decide_False by (cbn; lia).
Qed.

Lemma fetched_ok m s a w i f n d wd offset :
  clientOk std_hash raw m s a w -> openedFiles s !! i = Some f -> entry f = (n, d, wd) -> is_u32 offset -> blockAddr (baseOf offset) ->
  cached a (d, baseOf offset) = None ->
  exists blk, getBlockFromFileServer i (blockOf offset) s w = Ret (blk, w) /\ blockAgrees m n offset blk.
Proof.
  intros [Hst _ Ht _ Hh] Hi He Ho Had Hn. rewrite (proj1 (blockOf_spec offset Ho)).
  destruct (getBlock_ok s w i f n d wd (baseOf offset) Hst Ht Hi He Had) as (blk & Hg & Hl & Hbs). exists blk. split; [done|].
  split; [done|]. intros x v Hx Hb Hv. apply Hbs; [done|].
  specialize (Hh n d wd x v (entry_in_table s i f n d wd Hi He) Hx Hv). by rewrite Hb, Hn in Hh.
Qed.

Lemma writeMissed_ok m s a w i f n d wd start total offset bs :
  clientOk std_hash raw m s a w -> openedFiles s !! i = Some f -> entry f = (n, d, wd) ->
  callOk m n d start total a (WriteMissed offset bs) ->
  stepOk n d start total m s w a (WriteMissed offset bs) (appStep std_hash raw i (getDescriptor f) (WriteMissed offset bs) s w).
Proof.
  intros Hok Hi He ([Hin Htot] & Hne & Hn). destruct (writeTurn offset bs Hin Hne) as (Ho & Had & _ & _ & Hbl & _).
  destruct (fetched_ok m s a w i f n d wd offset Hok Hi He Ho Had Hn) as (blk & Hg & Hag). cbn [appStep]. rewrite Hg, Ret_bind.
  split; [|done|done|done|cbn; lia]. exists m, a. repeat (split; [done|]). by apply touchesAhead_same.
Qed.

Lemma writeFetched_ok m s a w i f n d wd start total offset bs blk :
  clientOk std_hash raw m s a w -> openedFiles s !! i = Some f -> entry f = (n, d, wd) ->
  callOk m n d start total a (WriteFetched offset bs blk) ->
  stepOk n d start total m s w a (WriteFetched offset bs blk) (appStep std_hash raw i (getDescriptor f) (WriteFetched offset bs blk) s w).
Proof.
  intros Hok Hi He ([Hin Htot] & Hne & Hn & Hag). destruct (writeTurn offset bs Hin Hne) as (Ho & Had & _ & _ & Hbl & Hz & _).
  pose proof (cacheAdd_ok m s a w i f n d wd offset blk Hok Hi He Ho Had Hn Hag) as Hadd. cbn [appStep].
  destruct (cacheAdd _ _ _ _ _ _) as [s'| |]; [|intros Hb; cbn [needs] in Hb; rewrite Hbl in Hb; by eapply Hadd..].
  destruct Hadd as (a' & Hok' & Hf & Hb & Hca). rewrite Ret_bind. split; [|done|done|done|cbn; lia]. exists m, a'. split; [done|]. split; [by split|].
  split; [by cbn; rewrite Hca, decide_True|]. split; [intros k; cbn [needs]; rewrite Hbl; apply Hb|]. split; [done|].
  eapply touchesAhead_add; [|exact Hca]. cbn. lia.
Qed.

Lemma writeAdded_ok m s a w i f n d wd start total offset bs :
  clientOk std_hash raw m s a w -> openedFiles s !! i = Some f -> entry f = (n, d, wd) ->
  callOk m n d start total a (WriteAdded offset bs) ->
  stepOk n d start total m s w a (WriteAdded offset bs) (appStep std_hash raw i (getDescriptor f) (WriteAdded offset bs) s w).
Proof.
  intros Hok Hi He ([Hin Htot] & Hne). destruct (writeTurn offset bs Hin Hne) as (Ho & Had & Hlen & Hin' & Hbl & Hz & Hup).
  destruct (cacheWrite_step m s a w i f n d wd offset _ Hok Hi He Ho Hlen) as (h & s' & a' & Hr & Hf & Hb & Hca & Hdi & Hh). cbn [appStep].
  rewrite Hr, Ret_bind. cbn [fst snd].
  assert (Hbud : forall k, budget (needs (WriteAdded offset bs) + k) a ->
    budget (blocksIn (offset + actualSize offset (Z.of_nat (length bs))) (Z.of_nat (length (drop (Z.to_nat (actualSize offset (Z.of_nat (length bs)))) bs))) + k) a').
  { intros k. cbn [needs]. rewrite Hbl. apply Hb. }
  destruct h; (split; [|done|done|intros x; cbn; lia|cbn; lia]).
  - eexists _, a'. split; [exact Hh|]. split; [by split|]. split; [done|]. split; [done|]. split; [intros _ n' x; cbn [promised]; by rewrite Hup|].
    apply (touchesAhead_block _ _ _ _ _ _ offset); [cbn; lia|done|]. intros n' x [?|[-> Hx]]%Hdi; [by left|right]. split; [done|]. split; [done|]. cbn. lia.
  - destruct Hh as (Hok' & Hn & ->). exists m, a. split; [done|]. split; [by split|]. split; [done|]. split; [done|]. split; [|by apply touchesAhead_same]. cbn. by rewrite Hn; intros [? ?].
Qed.

(** The bytes of one turn of a read, from a block that agrees with [m]. *)
Lemma readTurn m n start offset nbyte acc blk :
  inFile offset nbyte -> 0 < nbyte -> agrees m n start acc -> offset = start + Z.of_nat (length acc) -> blockAgrees m n offset blk ->
  let z := actualSize offset nbyte in
  exists bs, copyOut (Z.rem offset pfsBlockSizeInBytes) z blk = Ret bs /\ Z.of_nat (length bs) = z /\ 0 < z <= nbyte /\
    agrees m n start (acc ++ bs) /\ inFile (offset + z) (nbyte - z) /\ blocksIn offset nbyte = S (blocksIn (offset + z) (nbyte - z)).
Proof.
  intros Hin Hpos Hag Hoff [Hl Hbs] z. destruct (chunk offset nbyte Hin Hpos) as (Hn & Hfit & Hrem & _ & _ & Hin' & Hblocks & _).
  fold z in Hn, Hfit, Hin', Hblocks. rewrite Hrem, copyOut_ok by lia. eexists. split; [done|].
  assert (Hlen : length (take (Z.to_nat z) (drop (offOf offset) blk)) = Z.to_nat z) by (rewrite length_take, length_drop; lia).
  rewrite Hlen. split; [lia|]. split; [lia|]. split; [|done]. apply agrees_app; [done|]. rewrite <- Hoff. intros j v Hj Hv. rewrite Hlen in Hj.
  rewrite lookup_take_lt, lookup_drop by lia. pose proof (base_off offset) as Hbo.
  destruct (base_off_unique (baseOf offset) (offOf offset + j) (offset + Z.of_nat j)) as [Hb <-]; [by apply Z.mod_mul|lia|lia|].
  apply Hbs; [destruct Hin; lia|done|done].
Qed.

Lemma readNext_ok m s a w i f n d wd start total offset nbyte acc hit :
  clientOk std_hash raw m s a w -> openedFiles s !! i = Some f -> entry f = (n, d, wd) ->
  callOk m n d start total a (ReadNext offset nbyte acc hit) ->
  stepOk n d start total m s w a (ReadNext offset nbyte acc hit) (appStep std_hash raw i (getDescriptor f) (ReadNext offset nbyte acc hit) s w).
Proof.
  intros Hok Hi He (Hin & Hag & Hoff & Htot & Hnn). cbn [appStep]. assert (Hd : u32 (getDescriptor f) = d) by (by injection He).
  destruct (Z.ltb_spec 0 nbyte) as [Hpos|Hneg].
  - destruct (chunk offset nbyte Hin Hpos) as (_ & _ & _ & Had & Hu & _ & Hbl & _).
    destruct (cacheRead_ok std_hash raw m s a w (getDescriptor f) (blockOf offset) Hok) as (c & c' & a' & Hc & Hr & Hok' & Hca & Hb).
    rewrite Hc, Ret_bind, Hr, Ret_bind, Hd, (proj1 (blockOf_spec offset Hu)). cbn [fst snd].
    destruct (cached a (d, baseOf offset)) as [b|] eqn:Hcb; cbn [fmap option_fmap option_map].
    + destruct (readTurn m n start offset nbyte acc (data b) Hin Hpos Hag Hoff) as (bs & Hcp & Hl & Hz & Hag' & Hin' & Hbl').
      { destruct Hok as [_ (c0 & _ & Hrep) _ _ Hh]. split; [apply (cached_wf a _ b (represents_wf _ _ _ Hrep) Hcb)|]. intros x v Hx Hbx Hv.
        eapply inPlace_cached; [done|by eapply entry_in_table|by rewrite Hbx|done|done]. }
      rewrite Hcp, Ret_bind. split; [|done|done|intros x; cbn; lia|cbn; lia]. exists m, a'. split; [done|]. cbn [callOk]. rewrite length_app. split; [split; [done|]; split; [done|lia]|].
      split; [done|]. split; [intros k Hk; eapply budget_le; [|by apply Hb]; cbn; lia|]. split; [done|]. by apply touchesAhead_same.
    + split; [|done|done|done|cbn; lia]. exists m, a'. split; [done|]. split; [|split; [done|split; [by intros k; apply Hb|split; [done|by apply touchesAhead_same]]]].
      split; [done|]. split; [done|]. by rewrite Hca.
  - assert (nbyte = 0) as -> by lia. split; [|done|done|done|cbn; lia]. exists m, a. split; [done|]. split; [split; [done|lia]|]. split; [done|].
    split; [intros k Hk; eapply budget_le; [|done]; cbn; lia|]. split; [done|]. by apply touchesAhead_same.
Qed.

Lemma readMissed_ok m s a w i f n d wd start total offset nbyte acc :
  clientOk std_hash raw m s a w -> openedFiles s !! i = Some f -> entry f = (n, d, wd) ->
  callOk m n d start total a (ReadMissed offset nbyte acc) ->
  stepOk n d start total m s w a (ReadMissed offset nbyte acc) (appStep std_hash raw i (getDescriptor f) (ReadMissed offset nbyte acc) s w).
Proof.
  intros Hok Hi He (Hrd & Hpos & Hn). destruct (chunk offset nbyte (proj1 Hrd) Hpos) as (_ & _ & _ & Had & Hu & _ & Hbl & _).
  destruct (fetched_ok m s a w i f n d wd offset Hok Hi He Hu Had Hn) as (blk & Hg & Hag). cbn [appStep]. rewrite Hg, Ret_bind.
  split; [|done|done|done|cbn; lia]. exists m, a. repeat (split; [done|]). by apply touchesAhead_same.
Qed.

Lemma readFetched_ok m s a w i f n d wd start total offset nbyte acc blk :
  clientOk std_hash raw m s a w -> openedFiles s !! i = Some f -> entry f = (n, d, wd) ->
  callOk m n d start total a (ReadFetched offset nbyte acc blk) ->
  stepOk n d start total m s w a (ReadFetched offset nbyte acc blk) (appStep std_hash raw i (getDescriptor f) (ReadFetched offset nbyte acc blk) s w).
Proof.
  intros Hok Hi He ((Hin & Hag & Hoff & Htot & Hnn) & Hpos & Hn & Hblk). destruct (chunk offset nbyte Hin Hpos) as (_ & _ & _ & Had & Hu & _).
  destruct (readTurn m n start offset nbyte acc blk Hin Hpos Hag Hoff Hblk) as (bs & Hcp & Hl & Hz & Hag' & Hin' & Hbl).
  pose proof (cacheAdd_ok m s a w i f n d wd offset blk Hok Hi He Hu Had Hn Hblk) as Hadd. cbn [appStep].
  destruct (cacheAdd _ _ _ _ _ _) as [s'| |]; [|intros Hb; cbn [needs] in Hb; rewrite Hbl in Hb; by eapply Hadd..].
  destruct Hadd as (a' & Hok' & Hf & Hb & Hca). rewrite Ret_bind, Hcp, Ret_bind. split; [|done|done|intros x; cbn; lia|cbn; lia].
  exists m, a'. split; [done|]. cbn [callOk]. rewrite length_app. split; [split; [done|]; split; [done|lia]|].
  split; [done|]. split; [intros k; cbn [needs]; rewrite Hbl; apply Hb|]. split; [done|]. eapply touchesAhead_add; [|exact Hca]. cbn. lia.
Qed.

Definition isFinished (st : AppState) : bool := match st with Finished _ _ => true | _ => false end.

(** A step of the application thread. *)
Lemma appStep_ok m s a w i f n d wd start total st :
  clientOk std_hash raw m s a w -> openedFiles s !! i = Some f -> entry f = (n, d, wd) -> callOk m n d start total a st ->
  isFinished st = false -> stepOk n d start total m s w a st (appStep std_hash raw i (getDescriptor f) st s w).
Proof.
  intros Hok Hi He Hc Hnf. destruct st; [by eapply writeNext_ok|by eapply writeMissed_ok|by eapply writeFetched_ok|by eapply writeAdded_ok|
    by eapply readNext_ok|by eapply readMissed_ok|by eapply readFetched_ok|done].
Qed.

(** ** Interleaved calls *)

(** A call on the open file at [i] in progress, which has what it needs; when it is
    [calm], the files will be [M] in the end. *)
Definition inCall (calm : bool) (M : string -> Z -> option byte) (i : nat) (fd : Z) (n : string) (d wd start total : Z) t : Prop :=
  exists m a f, clientOk std_hash raw m (client t) a (world t) /\
    openedFiles (client t) !! i = Some f /\ entry f = (n, d, wd) /\ getDescriptor f = fd /\
    callOk m n d start total a (app t) /\ budget (needs (app t)) a /\
    (calm = true -> forall n' x, promised m n (app t) n' x = M n' x).

(** [addedStays] is about the block of the call. *)
Lemma addedStays_cached m t a i f n d wd start total :
  clientOk std_hash raw m (client t) a (world t) -> openedFiles (client t) !! i = Some f -> entry f = (n, d, wd) ->
  callOk m n d start total a (app t) -> addedStays std_hash raw (getDescriptor f) t = true <-> addedCached d a (app t).
Proof.
  intros Hok Hi He Hcall. destruct t as [st v hv s w]. unfold addedStays. cbn [app client world] in *. destruct st; try done.
  destruct Hcall as [[Hin _] Hne]. destruct (writeTurn offset bs Hin Hne) as (Ho & _).
  destruct (cacheRead_ok std_hash raw m s a w (getDescriptor f) (blockOf offset) Hok) as (c & c' & a' & Hc & Hr & _).
  assert (Hd : u32 (getDescriptor f) = d) by (by injection He).
  rewrite Hc, Hr, Hd, (proj1 (blockOf_spec offset Ho)). cbn [addedCached]. destruct (cached a (d, baseOf offset)); cbn; [by split; [eexists|]|].
  split; [done|by intros [? ?]].
Qed.

Lemma inCall_app calm M i fd n d wd start total t :
  inCall calm M i fd n d wd start total t -> (calm = true -> addedStays std_hash raw fd t = true) -> isFinished (app t) = false ->
  exists t', threadStep std_hash raw i fd TApp t = Ret t' /\ inCall calm M i fd n d wd start total t' /\
    addedStays std_hash raw fd t' = true /\ (stepsLeft (app t') < stepsLeft (app t))%nat.
Proof.
  intros (m & a & f & Hok & Hi & He & <- & Hcall & Hbud & HM) Hcalm Hnf.
  pose proof (addedStays_cached m t a i f n d wd start total Hok Hi He Hcall) as Hadd. destruct t as [st v hv s w]. cbn [app client world] in *.
  pose proof (appStep_ok m s a w i f n d wd start total st Hok Hi He Hcall Hnf) as Hst. unfold threadStep. cbn [app svc harvesting client world].
  destruct (appStep _ _ _ _ _ _ _) as [[[st' s'] w']| |]; [|by destruct Hst..].
  destruct Hst as [(m' & a' & Hok' & Hcall' & Hadd' & Hb & Hp & _) Hf _ _ Hless]. eexists. split; [reflexivity|]. cbn [fst snd app]. rewrite <- Hf in Hi.
  split; [|split; [by eapply addedStays_cached|done]]. exists m', a', f. split; [done|]. split; [done|]. split; [done|]. split; [done|]. split; [done|]. split.
  - specialize (Hb 0%nat). rewrite !Nat.add_0_r in Hb. by apply Hb.
  - intros Hc n' x. cbn [app]. rewrite Hp; [by apply HM|by apply Hadd, Hcalm].
Qed.

(** Any step of an interleaving. *)
Lemma inCall_step calm M i fd n d wd start total ev t t' :
  inCall calm M i fd n d wd start total t -> (calm = true -> addedStays std_hash raw fd t = true) ->
  threadStep std_hash raw i fd ev t = Ret t' -> inCall calm M i fd n d wd start total t'.
Proof.
  intros Hin Hcalm Hr. destruct (decide (ev = TApp)) as [->|Hev].
  - destruct (isFinished (app t)) eqn:Hfin; [destruct t as [[] ? ? ? ?]; done|].
    destruct (inCall_app _ _ _ _ _ _ _ _ _ _ Hin Hcalm Hfin) as (t1 & Hr1 & Hin1 & _). rewrite Hr in Hr1. by injection Hr1 as <-.
  - destruct Hin as (m & a & f & Hok & Hi & He & Hfd & Hcall & Hbud & HM).
    destruct (others_ok std_hash raw i fd m t a ev t' Hev Hok Hr) as (Happ & a' & Hok' & Hun & _).
    destruct (un_file _ _ _ _ _ Hun f Hi) as (f' & Hi' & He' & Hfd'). exists m, a', f'. rewrite Happ, He', Hfd'.
    repeat (split; [done|]). split; [by eapply callOk_undisturbed|]. split; [by eapply un_budget|done].
Qed.

Lemma inCall_run M i fd n d wd start total evs t t' :
  inCall false M i fd n d wd start total t -> threadRun std_hash raw i fd evs t = Ret t' -> inCall false M i fd n d wd start total t'.
Proof.
  unfold threadRun. revert t. induction evs as [|ev evs IH]; intros t Hin; cbn [foldM]; [by intros [= <-]|].
  intros Hr. apply bind_Ret in Hr as (t1 & Hs & Hr). eapply IH; [|exact Hr]. by eapply inCall_step.
Qed.

Lemma inCall_calmRun M i fd n d wd start total evs t t' :
  inCall true M i fd n d wd start total t -> addedStays std_hash raw fd t = true ->
  calmRun std_hash raw i fd evs t = Ret t' -> inCall true M i fd n d wd start total t'.
Proof.
  revert t. induction evs as [|ev evs IH]; intros t Hin Hst; cbn [calmRun]; [by intros [= <-]|].
  intros Hr. apply bind_Ret in Hr as (t1 & Hs & Hr). destruct (addedStays std_hash raw fd t1) eqn:Hst1; [|done].
  eapply IH; [|exact Hst1|exact Hr]. by eapply inCall_step.
Qed.

(** The application thread alone finishes the call. *)
Lemma inCall_finishes M i fd n d wd start total t :
  inCall false M i fd n d wd start total t ->
  exists k t', appRun std_hash raw i fd k t = Ret t' /\ isFinished (app t') = true.
Proof.
  remember (stepsLeft (app t)) as left eqn:Hl. revert t Hl. induction (lt_wf left) as [left _ IH]. intros t -> Hin.
  destruct (isFinished (app t)) eqn:Hfin; [by exists 0%nat, t|].
  destruct (inCall_app _ _ _ _ _ _ _ _ _ _ Hin ltac:(done) Hfin) as (t1 & Hr1 & Hin1 & _ & Hless).
  destruct (IH _ Hless t1 eq_refl Hin1) as (k & t' & Hr & Hf). exists (S k), t'. split; [|done].
  unfold appRun, threadRun in *. cbn [replicate foldM]. by rewrite Hr1, Ret_bind.
Qed.

(** The bytes of a call that only reads are never at stake. *)
Lemma threadStep_reading i fd ev t t' :
  threadStep std_hash raw i fd ev t = Ret t' -> isWriting (app t) = false -> isWriting (app t') = false.
Proof.
  destruct t as [st v hv s w]. destruct ev; cbn [threadStep app svc harvesting client world].
  - intros Hr. apply bind_Ret in Hr as ([[st' s'] w'] & Ha & [= <-]). cbn. intros Hw. destruct st; try discriminate Hw; cbn [appStep] in Ha.
    + destruct (0 <? nbyte); [|by injection Ha as <- _ _]. apply bind_Ret in Ha as (c & _ & Ha). apply bind_Ret in Ha as ([[blk|] c'] & _ & Ha); cbn in Ha.
      * apply bind_Ret in Ha as (bs & _ & [= <- _ _]). done.
      * by injection Ha as <- _ _.
    + by apply bind_Ret in Ha as (g & _ & [= <- _ _]).
    + apply bind_Ret in Ha as (s1 & _ & Ha). by apply bind_Ret in Ha as (bs & _ & [= <- _ _]).
    + discriminate Ha.
  - destruct v; [done|]. intros Hr. by apply bind_Ret in Hr as (r & _ & [= <-]).
  - destruct v as [[[j ad] en]|]; [|done]. intros Hr. by apply bind_Ret in Hr as (r & _ & [= <-]).
  - intros Hr. apply bind_Ret in Hr as (c & _ & Hr). by apply bind_Ret in Hr as (r & _ & [= <-]).
  - destruct hv; [done|]. intros Hr. apply bind_Ret in Hr as (c & _ & Hr). by apply bind_Ret in Hr as (r & _ & [= <-]).
  - destruct hv; [|done]. intros Hr. apply bind_Ret in Hr as (c & _ & Hr). by apply bind_Ret in Hr as (r & _ & [= <-]).
Qed.

Lemma reading_calm i fd evs t t' :
  isWriting (app t) = false -> threadRun std_hash raw i fd evs t = Ret t' -> calmRun std_hash raw i fd evs t = Ret t'.
Proof.
  unfold threadRun. revert t. induction evs as [|ev evs IH]; intros t Hw; cbn [foldM calmRun]; [done|].
  intros Hr. apply bind_Ret in Hr as (t1 & Hs & Hr). pose proof (threadStep_reading _ _ _ _ _ Hs Hw) as Hw1. rewrite Hs, Ret_bind.
  assert (addedStays std_hash raw fd t1 = true) as ->; [|by apply IH]. unfold addedStays. by destruct (app t1).
Qed.

(** The start of a call. *)
Lemma write_inCall m s a w i f n d wd offset bs hit v hv :
  clientOk std_hash raw m s a w -> openedFiles s !! i = Some f -> entry f = (n, d, wd) ->
  inFile offset (Z.of_nat (length bs)) -> budget (blocksIn offset (Z.of_nat (length bs))) a ->
  inCall true (updated m n offset bs) i (getDescriptor f) n d wd offset 0 (mkThreads (WriteNext offset bs hit) v hv s w).
Proof. intros Hok Hi He Hin Hb. by exists m, a, f. Qed.

Lemma read_inCall m s a w i f n d wd offset nbyte hit v hv :
  clientOk std_hash raw m s a w -> openedFiles s !! i = Some f -> entry f = (n, d, wd) ->
  inFile offset nbyte -> 0 <= nbyte -> budget (blocksIn offset nbyte) a ->
  inCall true m i (getDescriptor f) n d wd offset nbyte (mkThreads (ReadNext offset nbyte [] hit) v hv s w).
Proof.
  intros Hok Hi He Hin Hn Hb. exists m, a, f. repeat (split; [done|]). split; [|done]. cbn. split; [done|]. split; [by intros j v' Hj; cbn in Hj; lia|lia].
Qed.

Lemma inCall_weaken M i fd n d wd start total t :
  inCall true M i fd n d wd start total t -> inCall false M i fd n d wd start total t.
Proof. intros (m & a & f & ? & ? & ? & ? & ? & ? & _). by exists m, a, f. Qed.

(** What is left when a calm call has finished. *)
Lemma inCall_finished M i fd n d wd start total t hit acc :
  inCall true M i fd n d wd start total t -> app t = Finished hit acc ->
  exists a, clientOk std_hash raw M (client t) a (world t) /\ Z.of_nat (length acc) = total /\ agrees M n start acc.
Proof.
  intros (m & a & f & Hok & _ & _ & _ & Hcall & _ & HM) Happ. specialize (HM eq_refl). rewrite Happ in Hcall, HM. destruct Hcall as [Hag ->].
  exists a. split; [|split; [done|]]; [eapply clientOk_sub; [|exact Hok]; intros n' x v; by rewrite <- HM|]. intros j v Hj. rewrite <- HM. by apply Hag.
Qed.

End App.
