(* ===== verification/ThreadProps.v ===== *)
(** What the threads of a client do to the bytes of a call in progress, from the lemmas
    of ThreadSpec.v: without interference the steps of the application thread are the
    loops of the calls; with it, a call still completes, a read returns the bytes of the
    file, and a write stores its own as long as the block that it has just added stays
    in the cache; and two ways in which another thread takes that block, so that the
    write is lost. *)

From Stdlib Require Import String Ascii Strings.Byte.
From stdpp Require Import gmap strings.
From S2P Require Import Prelude Config Permission File Tokens FileServer MetadataManager ClientFile Cache CacheLists CacheSpec CacheProps Client ClientSpec ClientFrame ClientProps ClientThreads ThreadSpec.
#[local] Open Scope Z_scope.

(** ** Writes whose block is gone *)

Section Lost.
Context {W : Type} `{!FileServerStub W, !FileServerStubOk W} (std_hash : Z -> Z) (raw : nat -> CacheBlock).
Implicit Types (s : PFSClient) (a : LRU) (w : W) (m : string -> Z -> option byte) (t : Threads W).

(** The write of the bytes of a turn is over, the call goes on as after a write that was
    done, but the files read as before, [m]: the block is not cached, and the servers
    hold the bytes that it had before. *)
Definition bytesLost m (n : string) (d wd offset : Z) (bs : bytes) t : Prop :=
  let z := actualSize offset (Z.of_nat (length bs)) in
  app t = WriteNext (offset + z) (drop (Z.to_nat z) bs) false /\
  exists a, clientOk std_hash raw m (client t) a (world t) /\ cached a (d, baseOf offset) = None /\
    forall x v, 0 <= x -> baseOf x = baseOf offset -> m n x = Some v -> storedByte (world t) n wd x = Some v.

(** The second [Cache::write] of a turn misses, and nobody looks at its result. *)
Lemma write_lost m s a w i f n d wd offset bs v hv :
  clientOk std_hash raw m s a w -> openedFiles s !! i = Some f -> entry f = (n, d, wd) ->
  inFile offset (Z.of_nat (length bs)) -> bs <> [] -> cached a (d, baseOf offset) = None ->
  exists t, threadStep std_hash raw i (getDescriptor f) TApp (mkThreads (WriteAdded offset bs) v hv s w) = Ret t /\
    bytesLost m n d wd offset bs t /\ world t = w /\ openedFiles (client t) = openedFiles s.
Proof.
  intros Hok Hi He Hin Hne Hn. destruct (writeTurn offset bs Hin Hne) as (Ho & _ & Hlen & _).
  assert (Hd : u32 (getDescriptor f) = d) by (by injection He).
  destruct (cacheWrite_miss std_hash raw m s a w (getDescriptor f) offset (take (Z.to_nat (actualSize offset (Z.of_nat (length bs)))) bs)) as (c & c' & Hc & Hw & Hok');
    [done|by rewrite Hd|done|done|].
  eexists. split; [cbn; unfold cacheWrite; rewrite Hc, Ret_bind, (u32_id offset), Hw, !Ret_bind by done; reflexivity|].
  split; [|done]. split; [done|]. exists a. split; [done|]. split; [done|]. cbn. intros x v' Hx Hb Hv.
  eapply (evicted_stored std_hash raw m s a w n d wd x v' Hok); [by eapply entry_in_table|by rewrite Hb|done|done].
Qed.

(** The harvester takes the least recently used clean block; nothing is flushed. *)
Lemma harvest_clean m s a w r b :
  clientOk std_hash raw m s a w -> recentBlocks a = r ++ [b] ->
  exists c c' a' x, getInstance raw s = Ret c /\ harvestOne (H := store s) c w = Ret (x, c', w) /\
    clientOk std_hash raw m (setInstance (Some c') s) a' w /\ cached a' (key b) = None.
Proof.
  intros [Hst (c & Hc & Hrep) Ht Hb Hp] Hr. assert (Hw := represents_wf _ _ _ Hrep).
  destruct (specHarvestOne_ok raw s m a w Hst Hw) as (a' & w' & fd & ad & He & _ & Ht' & Hb' & Hp' & _);
    [unfold cachedBlocks; rewrite Hr; by destruct r|done..|].
  pose proof (harvestOne_refines (H := store s) std_hash c a w Hrep) as Hsim. rewrite He in Hsim.
  destruct Hsim as (c' & Hc' & Hrep' & _). unfold specHarvestOne in He. rewrite Hr, rev_app_distr in He. cbn in He. injection He as <- <-.
  eexists c, c', _, _. split; [done|]. split; [exact Hc'|]. split; [split; [done|by exists c'|done..]|].
  destruct (cached _ (key b)) as [b'|] eqn:E; [|done]. exfalso. apply findKey_Some in E as [Hin Hk].
  pose proof (wf_keys a Hw) as Hnd. unfold cachedBlocks in Hnd, Hin. cbn in Hin. rewrite rev_involutive in Hin.
  rewrite Hr, <- app_assoc in Hnd. cbn [Datatypes.app] in Hnd. rewrite <- Permutation_middle, fmap_cons in Hnd. apply NoDup_cons in Hnd as [Hnd _]. apply Hnd, list_elem_of_fmap. by exists b'.
Qed.

(** The loop of the service thread ends, and its last turn is for the block at [en]. *)
Lemma evictions_end k m s a w i f st hv ad en :
  clientOk std_hash raw m s a w -> openedFiles s !! i = Some f -> 0 <= ad -> en = ad + pfsBlockSizeInBytes * Z.of_nat k ->
  en + pfsBlockSizeInBytes < 4294967296 ->
  exists c a' w', threadRun std_hash raw i (getDescriptor f) (replicate (S (S k)) TEvict) (mkThreads st (Some (i, ad, en)) hv s w) =
      Ret (mkThreads st None hv (setInstance c s) w') /\
    clientOk std_hash raw m (setInstance c s) a' w' /\ cached a' (u32 (getDescriptor f), en) = None.
Proof.
  revert s a w ad. change pfsBlockSizeInBytes with 1024. induction k as [|k IH]; intros s a w ad Hok Hf Had Hen Hlt.
  all: destruct (evict_ok std_hash raw m s a w (getDescriptor f) ad Hok) as (c & c' & a' & w' & Hc & Hr & Hok' & Hca & _).
  all: assert (Hstep : threadStep std_hash raw i (getDescriptor f) TEvict (mkThreads st (Some (i, ad, en)) hv s w) =
    Ret (mkThreads st (Some (i, ad + 1024, en)) hv (setInstance (Some c') s) w')) by
    (cbn; unfold svcEvict, fileAt; rewrite (proj2 (Z.leb_le ad en)), Hf, deref_Some, Ret_bind, Hc, Ret_bind, Hr by lia; cbn;
     change pfsBlockSizeInBytes with 1024; by rewrite (u32_id (ad + 1024)) by word_lia).
  all: unfold threadRun in *; cbn [replicate foldM]; rewrite Hstep, Ret_bind.
  - exists (Some c'), a', w'. cbn. unfold svcEvict. rewrite (proj2 (Z.leb_gt (ad + 1024) en)) by lia. split; [done|]. split; [done|].
    rewrite Hca, decide_True; [done|]. f_equal. lia.
  - destruct (IH (setInstance (Some c') s) a' w' (ad + 1024) Hok' Hf) as (c2 & a2 & w2 & Hr2 & Hrest); [lia|lia|done|].
    cbn [replicate foldM] in Hr2. by exists c2, a2, w2.
Qed.
End Lost.

Section Claims.
Context {W : Type} `{!FileServerStub W, !FileServerStubOk W} (std_hash : Z -> Z) (raw : nat -> CacheBlock).
Implicit Types (s : PFSClient) (a : LRU) (w : W) (m : string -> Z -> option byte) (t : Threads W).

(** Without a step of another thread, the steps of the application thread are the
    loops of [writeFile] and [readFile]: whatever a loop returns, a number of steps
    returns with the same client and the same servers. *)
Lemma app_steps_are_loops fuel i fd offset v hv s w :
  (forall bs hit h s' w', writeLoop std_hash raw fuel i fd offset bs hit s w = Ret (h, s', w') ->
    exists k, appRun std_hash raw i fd k (mkThreads (WriteNext offset bs hit) v hv s w) = Ret (mkThreads (Finished h []) v hv s' w')) /\
  (forall nbyte hit acc h bs s' w', readLoop std_hash raw fuel i fd nbyte offset hit acc s w = Ret (h, bs, s', w') ->
    exists k, appRun std_hash raw i fd k (mkThreads (ReadNext offset nbyte acc hit) v hv s w) = Ret (mkThreads (Finished h bs) v hv s' w')).
Proof. split; intros *; [apply writeLoop_steps|apply readLoop_steps]. Qed.

(** C9: A read returns the bytes of the file, all of them, however its steps are
    interleaved with revocations, evictions, flushes and the harvester of the same
    client; the bytes of the open files are kept. *)
Theorem interleaved_read_returns_bytes m s a w i f n d wd offset nbyte evs t hit acc :
  clientOk std_hash raw m s a w -> openedFiles s !! i = Some f -> entry f = (n, d, wd) ->
  inFile offset nbyte -> 0 <= nbyte -> budget (blocksIn offset nbyte) a ->
  threadRun std_hash raw i (getDescriptor f) evs (mkThreads (ReadNext offset nbyte [] true) None false s w) = Ret t ->
  app t = Finished hit acc ->
  Z.of_nat (length acc) = nbyte /\ agrees m n offset acc /\ exists a', clientOk std_hash raw m (client t) a' (world t).
Proof.
  intros Hok Hi He Hin Hn Hb Hr Happ. pose proof (read_inCall std_hash raw m s a w i f n d wd offset nbyte true None false Hok Hi He Hin Hn Hb) as Hc.
  apply reading_calm in Hr; [|done]. apply (inCall_calmRun std_hash raw _ _ _ _ _ _ _ _ _ _ _ Hc) in Hr; [|done].
  destruct (inCall_finished std_hash raw _ _ _ _ _ _ _ _ _ _ _ Hr Happ) as (a' & Hok' & Hl & Hag). split; [done|]. split; [done|]. by exists a'.
Qed.

(** C8: A write that has finished has stored its bytes, and changed no others, in every
    interleaving with revocations, evictions, flushes and the harvester of the same
    client in which the block that it adds stays in the cache until it is written. *)
Theorem interleaved_write_stores_bytes m s a w i f n d wd offset bs evs t hit acc :
  clientOk std_hash raw m s a w -> openedFiles s !! i = Some f -> entry f = (n, d, wd) ->
  inFile offset (Z.of_nat (length bs)) -> budget (blocksIn offset (Z.of_nat (length bs))) a ->
  calmRun std_hash raw i (getDescriptor f) evs (mkThreads (WriteNext offset bs true) None false s w) = Ret t ->
  app t = Finished hit acc ->
  exists a', clientOk std_hash raw (updated m n offset bs) (client t) a' (world t).
Proof.
  intros Hok Hi He Hin Hb Hr Happ. pose proof (write_inCall std_hash raw m s a w i f n d wd offset bs true None false Hok Hi He Hin Hb) as Hc.
  apply (inCall_calmRun std_hash raw _ _ _ _ _ _ _ _ _ _ _ Hc) in Hr; [|done].
  destruct (inCall_finished std_hash raw _ _ _ _ _ _ _ _ _ _ _ Hr Happ) as (a' & Hok' & _). by exists a'.
Qed.

(** C17: Other threads do not keep a call from completing: after any interleaving the
    application thread alone finishes a read or a write for whose blocks the cache had
    room. *)
Theorem interleaved_call_completes m s a w i f n d wd offset bs st evs t :
  clientOk std_hash raw m s a w -> openedFiles s !! i = Some f -> entry f = (n, d, wd) ->
  inFile offset (Z.of_nat (length bs)) -> budget (blocksIn offset (Z.of_nat (length bs))) a ->
  st = WriteNext offset bs true \/ st = ReadNext offset (Z.of_nat (length bs)) [] true ->
  threadRun std_hash raw i (getDescriptor f) evs (mkThreads st None false s w) = Ret t ->
  exists k t' hit acc, appRun std_hash raw i (getDescriptor f) k t = Ret t' /\ app t' = Finished hit acc.
Proof.
  intros Hok Hi He Hin Hb Hst Hr.
  assert (Hc : exists M total, inCall std_hash raw false M i (getDescriptor f) n d wd offset total t).
  { destruct Hst as [-> | ->].
    - eexists _, 0. eapply inCall_run; [|exact Hr]. apply inCall_weaken. by eapply write_inCall.
    - eexists m, (Z.of_nat (length bs)). eapply inCall_run; [|exact Hr]. apply inCall_weaken. eapply read_inCall; [done..|lia|done]. }
  destruct Hc as (M & total & Hc). apply inCall_finishes in Hc as (k & t' & Hr' & Hf). exists k, t'. destruct (app t') as [| | | | | | |hit acc] eqn:Happ; try done. by exists hit, acc.
Qed.

(** C39: The harvester can take the block that a write has just added. When it is in its
    loop, the write is between [addBlock] and its second [Cache::write], and the added
    block is the least recently used clean one (it is when all others are dirty), then
    its next turn takes that block, and the second [Cache::write], whose result nobody
    looks at, misses: the call goes on as after a write that was done, but the bytes of
    the turn are neither cached nor stored, and the servers are not written. *)
Theorem harvester_loses_write m s a w i f n d wd offset bs r b v :
  clientOk std_hash raw m s a w -> openedFiles s !! i = Some f -> entry f = (n, d, wd) ->
  inFile offset (Z.of_nat (length bs)) -> bs <> [] -> recentBlocks a = r ++ [b] -> key b = (d, baseOf offset) ->
  exists t, threadRun std_hash raw i (getDescriptor f) [THarvest; TApp] (mkThreads (WriteAdded offset bs) v true s w) = Ret t /\
    bytesLost std_hash raw m n d wd offset bs t /\ world t = w.
Proof.
  intros Hok Hi He Hin Hne Hr Hk. destruct (harvest_clean std_hash raw m s a w r b Hok Hr) as (c & c' & a' & x & Hc & Hh & Hok' & Hn).
  rewrite Hk in Hn.
  destruct (write_lost std_hash raw m (setInstance (Some c') s) a' w i f n d wd offset bs v x Hok' Hi He Hin Hne Hn) as (t & Ht & Hl & Hw & _).
  assert (Hs : threadStep std_hash raw i (getDescriptor f) THarvest (mkThreads (WriteAdded offset bs) v true s w) =
    Ret (mkThreads (WriteAdded offset bs) v x (setInstance (Some c') s) w))
    by (cbn [threadStep harvesting client world app svc]; by rewrite Hc, Ret_bind, Hh).
  exists t. split; [|done]. unfold threadRun. cbn [foldM]. by rewrite Hs, Ret_bind, Ht.
Qed.

(** C40: A revocation of a range that ends on a block boundary evicts the block behind
    its end, too, which is not part of the range. When a write is between [addBlock] and
    its second [Cache::write] for that block, and the service thread revokes the range
    (no locked token overlaps it), the client keeps all its tokens from the end of the
    range on, so also those of the write, but the bytes of the turn are lost. *)
Theorem adjacent_revocation_loses_write m s a w i f n d wd offset bs st wr hv :
  clientOk std_hash raw m s a w -> openedFiles s !! i = Some f -> entry f = (n, d, wd) -> wf (permissions (cf_base f)) ->
  inFile offset (Z.of_nat (length bs)) -> bs <> [] -> is_u32 st -> st <= baseOf offset ->
  existsb (fun p => isShared p st (baseOf offset) && locked p) (permissions (cf_base f)) = false ->
  exists k t ps, threadRun std_hash raw i (getDescriptor f) (TRevoke n st (baseOf offset) wr :: replicate k TEvict ++ [TApp])
      (mkThreads (WriteAdded offset bs) None hv s w) = Ret t /\
    openedFiles (client t) = <[i := withTokens ps f]> (openedFiles s) /\
    (forall v x, holds ps v x <-> holds (permissions (cf_base f)) v x /\ ~ (st <= x < baseOf offset)) /\
    bytesLost std_hash raw m n d wd offset bs t.
Proof.
  intros Hok Hi He Hwf Hin Hne Hst Hle Hun. destruct (writeTurn offset bs Hin Hne) as (Ho & Had & _). destruct Had as (Had & Hmax & Hal).
  destruct (blockOf_spec st Hst) as (_ & Hb & Hbal). set (en := baseOf offset) in *.
  destruct (revokeRange_exact st en (permissions (cf_base f))) as (ps & Hps & _ & Hex); [done|change pfsBlockSizeInBytes with 1024 in *; word_lia|done|done|].
  set (k := Z.to_nat ((en - blockOf st) / pfsBlockSizeInBytes)).
  assert (Hen : en = blockOf st + pfsBlockSizeInBytes * Z.of_nat k).
  { unfold k. change pfsBlockSizeInBytes with 1024 in *. rewrite Z2Nat.id by (apply Z.div_pos; lia).
clearbody en. clear -Hal Hbal. Z.div_mod_to_equations. lia. }
  set (s1 := setFileAt i (withTokens ps f) s). assert (Hf1 := openedFiles_setFileAt s i f (withTokens ps f) Hi).
  assert (Hok1 : clientOk std_hash raw m s1 a w) by (by eapply clientOk_setFileAt).
  destruct (evictions_end std_hash raw k m s1 a w i (withTokens ps f) (WriteAdded offset bs) hv (blockOf st) en) as (c & a' & w' & Hev & Hok2 & Hn);
    [done|done|lia|done|change pfsBlockSizeInBytes with 1024 in *; word_lia|].
  destruct (write_lost std_hash raw m (setInstance c s1) a' w' i (withTokens ps f) n d wd offset bs None hv) as (t & Ht & Hl & _ & Hof);
    [done|done|done|done|done|by injection He as _ <- _|].
  exists (S (S k)), t, ps. split; [|done]. unfold threadRun in *. cbn [foldM]. cbn [threadStep svc client world app harvesting].
  unfold svcCut. rewrite (find_name s w i f n (ok_table _ _ _ _ _ _ Hok) Hi) by (by injection He). unfold fileAt.
  rewrite Hi, deref_Some, Ret_bind, revokePermission_lock, Hun, Hps, !Ret_bind. cbn [fst snd]. fold (withTokens ps f). fold s1.
  rewrite foldM_app. change (getDescriptor (withTokens ps f)) with (getDescriptor f) in *. rewrite Hev, Ret_bind. cbn [foldM]. by rewrite Ht.
Qed.

End Claims.

(** ** A concrete installation *)

#[local] Instance threadStub : FileServerStub (list FileServer) := serversStub zeroByte.
#[local] Instance threadStubOk : FileServerStubOk (list FileServer) := serversStubOk zeroByte.

(** The servers of [example_servers]. *)
Definition stripedServers : list FileServer :=
  match createStripes "f" 3 freshServers with Ret ws => ws | _ => [] end.

Lemma stripedServers_served : served stripedServers "f" 3.
Proof.
  unfold stripedServers. destruct (createStripes_placed "f" 3 ltac:(word_lia) freshServers (freshServers_placed _ _)) as (ws & -> & Hp).
  apply placed_served; [word_lia|done].
Qed.

Definition stripedClient : PFSClient := exampleClientOf [openF] None.

Definition stripedStart (st : AppState) : Threads (list FileServer) := mkThreads st None false stripedClient stripedServers.

(** A run that ends with the call finished. *)
Definition finishes (r : outcome (Threads (list FileServer))) : option (bool * bytes) :=
  match r with Ret t => match app t with Finished hit acc => Some (hit, acc) | _ => None end | _ => None end.

Lemma finishes_run r x : finishes r = Some x -> exists t, r = Ret t /\ app t = Finished x.1 x.2.
Proof. destruct r as [t| |]; [|done..]. cbn. destruct (app t) eqn:E; try done. intros [= <-]. by exists t. Qed.

(** A revocation, a flush and the writes and reads of two blocks. *)
Definition mixedWrite : list ThreadEvent :=
  [TApp; TApp; TRevoke "f" 0 100 true; TApp; TFlush; TApp; TFlush; TEvict; TApp; TApp; TApp; TEvict; TApp; TApp].

Definition mixedRead : list ThreadEvent :=
  [TApp; TApp; TRevoke "f" 0 100 true; TApp; TFlush; TEvict; TApp; TApp; TEvict; TApp; TApp].

Lemma mixedWrite_finishes : finishes (calmRun ids rawBlock 0 1 mixedWrite (stripedStart (WriteNext 1022 [x41; x42; x43] true))) = Some (false, []).
Proof. vm_compute. reflexivity. Qed.

Lemma mixedRead_finishes : finishes (threadRun ids rawBlock 0 1 mixedRead (stripedStart (ReadNext 1022 3 [] true))) = Some (false, [x00; x00; x00]).
Proof. vm_compute. reflexivity. Qed.

Lemma interleaved_read_returns_bytes_witness : exists t a',
  threadRun ids rawBlock 0 1 mixedRead (stripedStart (ReadNext 1022 3 [] true)) = Ret t /\ clientOk ids rawBlock noBytes (client t) a' (world t).
Proof.
  destruct (finishes_run _ _ mixedRead_finishes) as (t & Hr & Happ).
  destruct (interleaved_read_returns_bytes ids rawBlock noBytes stripedClient _ stripedServers 0 openF "f" 1 3 1022 3 mixedRead t false [x00; x00; x00]
    (example_ok _ stripedServers_served)) as (_ & _ & a' & Hok);
    [reflexivity|reflexivity|split; by vm_compute|lia|apply blockCount_budget, Nat.ltb_lt; vm_compute; reflexivity|exact Hr|exact Happ|].
  exists t, a'. split; [exact Hr|exact Hok].
Defined.

Lemma interleaved_write_stores_bytes_witness : exists t a',
  calmRun ids rawBlock 0 1 mixedWrite (stripedStart (WriteNext 1022 [x41; x42; x43] true)) = Ret t /\
  clientOk ids rawBlock (updated noBytes "f" 1022 [x41; x42; x43]) (client t) a' (world t).
Proof.
  destruct (finishes_run _ _ mixedWrite_finishes) as (t & Hr & Happ).
  destruct (interleaved_write_stores_bytes ids rawBlock noBytes stripedClient _ stripedServers 0 openF "f" 1 3 1022 [x41; x42; x43] mixedWrite t false []
    (example_ok _ stripedServers_served)) as (a' & Hok);
    [reflexivity|reflexivity|split; by vm_compute|apply blockCount_budget, Nat.ltb_lt; vm_compute; reflexivity|exact Hr|exact Happ|].
  exists t, a'. split; [exact Hr|exact Hok].
Defined.

Lemma interleaved_call_completes_witness : exists t k t' hit acc,
  threadRun ids rawBlock 0 1 mixedRead (stripedStart (ReadNext 1022 3 [] true)) = Ret t /\
  appRun ids rawBlock 0 1 k t = Ret t' /\ app t' = Finished hit acc.
Proof.
  destruct (finishes_run _ _ mixedRead_finishes) as (t & Hr & _). exists t.
  destruct (interleaved_call_completes ids rawBlock noBytes stripedClient _ stripedServers 0 openF "f" 1 3 1022 [x41; x42; x43]
    (ReadNext 1022 3 [] true) mixedRead t (example_ok _ stripedServers_served)) as (k & t' & hit & acc & Hk & Ha);
    [reflexivity|reflexivity|split; by vm_compute|apply blockCount_budget, Nat.ltb_lt; vm_compute; reflexivity|right; reflexivity|exact Hr|].
  exists k, t', hit, acc. split; [exact Hr|]. split; [exact Hk|exact Ha].
Defined.

(** ** Writes that are lost *)

(** A client with room for [k] more blocks and the tokens of the first 64 blocks. *)
Definition ready (k : nat) (sw : PFSClient * list FileServer) : Prop :=
  exists m a f, clientOk ids rawBlock m sw.1 a sw.2 /\ stub_ sw.1 = true /\ openedFiles sw.1 = [f] /\ entry f = ("f"%string, 1, 3) /\
    getDescriptor f = 1 /\ same_tokens (permissions (cf_base f)) [newPermission 0 65536 true] /\ budget k a.

#[local] Instance threadCodes : GrpcCodes := {|
  error_code st := match st with OK => 0 | CANCELLED => 1 end;
  error_code_OK := eq_refl;
  error_code_CANCELLED := eq_refl |}.

(** A manager that grants what is asked for. *)
#[local] Instance threadManagerStub : ManagerStub (list FileServer) := {|
  rpc_ClientStart _ w := Ret (OK, emptyStatusReply, w);
  rpc_CreateFile _ _ w := Ret (CANCELLED, emptyStatusReply, w);
  rpc_OpenFile _ _ w := Ret (CANCELLED, emptyFileStatReply, w);
  rpc_GetPermission _ st en _ w := Ret (OK, mkPermissionReply 0 st en, w);
  rpc_CloseFile _ _ _ w := Ret (OK, emptyStatusReply, w);
  rpc_DeleteFile _ w := Ret (CANCELLED, emptyStatusReply, w);
  rpc_GetFileDesc _ w := Ret (CANCELLED, emptyFileStatReply, w) |}.

(** One byte at the start of a block. *)
Definition writeOne (b : nat) (sw : PFSClient * list FileServer) : outcome (PFSClient * list FileServer) :=
  r ← writeFile ids rawBlock 1 [x41] (1024 * Z.of_nat b) sw.1 sw.2; Ret (r.1.2, r.2).

Lemma writeOne_ready k b sw : (b < 64)%nat -> ready (S k) sw -> exists sw', writeOne b sw = Ret sw' /\ ready k sw'.
Proof.
  intros Hb (m & a & f & Hok & Hst & Hof & He & Hfd & Htok & Hbud). destruct sw as [s ws]. cbn [fst snd] in *.
  assert (Hi : openedFiles s !! 0%nat = Some f) by (by rewrite Hof). set (x := 1024 * Z.of_nat b).
  assert (Hin : inFile x 1) by (split; unfold x; change pfsBlockSizeInBytes with 1024; word_lia).
  assert (Hbl : blocksIn x 1 = 1%nat).
  { unfold blocksIn, x. change pfsBlockSizeInBytes with 1024. cbn [Z.leb Z.compare]. rewrite (Z.mul_comm 1024), Z.div_mul by lia.
    replace ((Z.of_nat b * 1024 + 1 - 1) / 1024) with (Z.of_nat b) by (rewrite Z.add_simpl_r, Z.div_mul; lia). lia. }
  assert (Hacq : acquirePermission (getDescriptor f) x (x + 1) true s ws = Ret (Z.of_nat 0, s, ws)).
  { apply acquire_held; [apply Hok|done|]. rewrite (hasPermission_same_tokens _ _ _ _ _ Htok), !u32_id by (unfold x; word_lia).
    apply hasPermission_complete; [by vm_compute|lia|]. intros y Hy. exists (mkPermission 0 65536 true false false []). split; [by left|]. unfold x in *. split; [cbn; lia|done]. }
  destruct (writeFile_run ids rawBlock k m s s a ws ws 0 f "f" 1 3 [x41] x Hst Hacq Hok Hi He Hin) as (h & s' & a' & Hr & Hok' & Hb' & Hst' & Hof' & _).
  { change (Z.of_nat (length [x41])) with 1. rewrite Hbl. done. }
  exists (s', ws). split; [unfold writeOne; cbn [fst snd]; rewrite <- Hfd; fold x; rewrite Hr; done|].
  eexists _, a', _. split; [exact Hok'|]. split; [cbn; congruence|]. split; [cbn; rewrite Hof', Hof; reflexivity|].
  split; [exact He|]. split; [exact Hfd|]. split; [|exact Hb']. cbn. etrans; [apply unlockPermission_tokens|exact Htok].
Qed.

Lemma writes_ready l k sw : Forall (fun b => b < 64)%nat l -> ready (length l + k) sw -> exists sw', foldM writeOne l sw = Ret sw' /\ ready k sw'.
Proof.
  revert sw. induction l as [|b l IH]; intros sw Hl Hr; [by exists sw|]. apply Forall_cons in Hl as [Hb Hl].
  destruct (writeOne_ready (length l + k) b sw Hb Hr) as (sw1 & H1 & Hr1). destruct (IH sw1 Hl Hr1) as (sw2 & H2 & Hr2).
  exists sw2. split; [cbn [foldM]; by rewrite H1, Ret_bind|done].
Qed.

(** One byte in each of the first 47 blocks of the file, whose whole range is held. *)
Definition fullerCache : outcome (PFSClient * list FileServer) :=
  foldM writeOne (seq 0 47) (exampleClientOf [exampleFileOf "f" 1 [newPermission 0 65536 true]] None, stripedServers).

Lemma fullerCache_ready : exists sw, fullerCache = Ret sw /\ ready 1 sw.
Proof.
  apply (writes_ready (seq 0 47) 1); [apply Forall_forall; intros b Hb%elem_of_seq; lia|].
  eexists noBytes, _, _. split; [apply (example_ok_of _ _ stripedServers_served)|]. repeat (split; [done|]).
  apply blockCount_budget, Nat.ltb_lt. vm_compute. reflexivity.
Qed.

(** What the threads of the client are doing after the events, and the blocks on the
    recency list. *)
Definition threadView (st : AppState) (evs : list ThreadEvent) (o : outcome (PFSClient * list FileServer))
    : option (AppState * option (nat * Z * Z) * bool * list (Z * bool) * list (list Permission)) :=
  match o with
  | Ret (s, ws) =>
      match threadRun ids rawBlock 0 1 evs (mkThreads st None false s ws) with
      | Ret t =>
          match (c ← getInstance rawBlock (client t); printRecencyList c) with
          | Ret r => Some (app t, svc t, harvesting t, (fun v => (v.1.2, v.2)) <$> r, (fun f => permissions (cf_base f)) <$> openedFiles (client t))
          | _ => None
          end
      | _ => None
      end
  | _ => None
  end.

Lemma threadView_inv st evs s ws st' v hv r ps :
  threadView st evs (Ret (s, ws)) = Some (st', v, hv, r, ps) ->
  exists s' ws' c l, threadRun ids rawBlock 0 1 evs (mkThreads st None false s ws) = Ret (mkThreads st' v hv s' ws') /\
    getInstance rawBlock s' = Ret c /\ printRecencyList c = Ret l /\ (fun v => (v.1.2, v.2)) <$> l = r /\ (fun f => permissions (cf_base f)) <$> openedFiles s' = ps.
Proof.
  unfold threadView. destruct (threadRun _ _ _ _ _ _) as [[st0 v0 hv0 s' ws']| |]; [|done..]. cbn [client app svc harvesting].
  destruct (getInstance rawBlock s') as [c| |] eqn:Hc; [|done..]. cbn [mbind outcome_bind]. destruct (printRecencyList c) as [l| |] eqn:Hl; [|done..].
  intros [= <- <- <- <- <-]. by exists s', ws', c, l.
Qed.

(** The next write adds its block and wakes the harvester; its block is the only clean one. *)
Lemma fullerCache_view :
  threadView (WriteNext 48128 [x42] true) [TApp; TApp; TApp; TWake] fullerCache =
    Some (WriteAdded 48128 [x42], None, true, [(48128, true)], [[mkPermission 0 65536 true false false []]]).
Proof. vm_compute. reflexivity. Qed.

(** The only clean block of a client with one open file. *)
Lemma only_recent m s a w c l n d wd ad :
  clientOk ids rawBlock m s a w -> table s = [(n, d, wd)] -> getInstance rawBlock s = Ret c -> printRecencyList c = Ret l ->
  (fun v => (v.1.2, v.2)) <$> l = [(ad, true)] -> exists b, recentBlocks a = [b] /\ key b = (d, ad).
Proof.
  intros [_ (c0 & Hc0 & Hrep) _ Hb _] Ht Hc Hl He. rewrite Hc in Hc0. injection Hc0 as <-.
  destruct (lists_are_printed _ _ _ Hrep) as (r & dl & Hr & _ & Er & _). rewrite Hl in Hr. injection Hr as <-. rewrite He in Er.
  destruct (recentBlocks a) as [|b [|]] eqn:Ha; [done| |done]. injection Er as Had _. exists b. split; [done|].
  destruct (Hb (fdes b) (addr b) b) as (_ & n' & wd' & Hin).
  { rewrite cached_unfold, Ha. by rewrite findKey_cons_eq. }
  rewrite Ht in Hin. apply list_elem_of_singleton in Hin. injection Hin as _ <- _. unfold key. by rewrite <- Had.
Qed.

(** The client in the middle of a write, at the end of a view. *)
Lemma view_client evs s ws a f x st' v hv r ps m :
  threadView (WriteNext x [x42] true) evs (Ret (s, ws)) = Some (st', v, hv, r, [ps]) ->
  clientOk ids rawBlock m s a ws -> openedFiles s = [f] -> entry f = ("f"%string, 1, 3) -> getDescriptor f = 1 -> inFile x 1 -> budget (blocksIn x 1) a ->
  exists s' ws' c l m' a' f', threadRun ids rawBlock 0 1 evs (mkThreads (WriteNext x [x42] true) None false s ws) = Ret (mkThreads st' v hv s' ws') /\
    getInstance rawBlock s' = Ret c /\ printRecencyList c = Ret l /\ (fun v => (v.1.2, v.2)) <$> l = r /\
    clientOk ids rawBlock m' s' a' ws' /\ openedFiles s' = [f'] /\ entry f' = ("f"%string, 1, 3) /\ getDescriptor f' = 1 /\ permissions (cf_base f') = ps.
Proof.
  intros Hv Hok Hof He Hfd Hin Hb. destruct (threadView_inv _ _ _ _ _ _ _ _ _ Hv) as (s' & ws' & c & l & Hr & Hc & Hl & Hlr & Hps).
  pose proof (write_inCall ids rawBlock m s a ws 0 f "f" 1 3 x [x42] true None false Hok) as Hcall. rewrite Hof, Hfd in Hcall.
  apply inCall_weaken in Hcall; [|done..]. apply (inCall_run ids rawBlock _ _ _ _ _ _ _ _ _ _ _ Hcall) in Hr as Hcall'.
  destruct Hcall' as (m' & a' & f' & Hok' & Hi' & He' & Hfd' & _). cbn [client world] in *.
  destruct (openedFiles s') as [|g [|]] eqn:Hof'; [done| |done]. injection Hi' as ->. injection Hps as Hps.
  by exists s', ws', c, l, m', a', f'.
Qed.

Lemma harvester_loses_write_witness : exists sw t0 t, fullerCache = Ret sw /\
  threadRun ids rawBlock 0 1 [TApp; TApp; TApp; TWake] (mkThreads (WriteNext 48128 [x42] true) None false sw.1 sw.2) = Ret t0 /\
  threadRun ids rawBlock 0 1 [THarvest; TApp] t0 = Ret t /\ app t = WriteNext 48129 [] false /\ world t = world t0.
Proof.
  destruct fullerCache_ready as ([s ws] & Hsw & m & a & f & Hok & _ & Hof & He & Hfd & _ & Hb).
  pose proof fullerCache_view as Hv. rewrite Hsw in Hv. cbn [fst snd] in *.
  destruct (view_client _ _ _ _ _ _ _ _ _ _ _ _ Hv Hok Hof He Hfd) as (s' & ws' & c & l & m' & a' & f' & Hr & Hc & Hl & Hlr & Hok' & Hof' & He' & Hfd' & _);
    [split; by vm_compute|exact Hb|].
  destruct (only_recent m' s' a' ws' c l "f" 1 3 48128 Hok' ltac:(unfold table; rewrite Hof'; cbn; by rewrite He') Hc Hl Hlr) as (b & Hrb & Hk).
  destruct (harvester_loses_write ids rawBlock m' s' a' ws' 0 f' "f" 1 3 48128 [x42] [] b None Hok') as (t & Ht & Hlost & Hw);
    [by rewrite Hof'|exact He'|split; by vm_compute|discriminate|exact Hrb|exact Hk|].
  rewrite Hfd' in Ht. exists (s, ws), (mkThreads (WriteAdded 48128 [x42]) None true s' ws'), t.
  split; [exact Hsw|]. split; [exact Hr|]. split; [exact Ht|]. split; [apply Hlost|exact Hw].
Defined.

(** A token for reading [0, 2048) and one that was granted for writing [2048, 3072). *)
Definition adjacentTokens : list Permission := [newPermission 0 2048 false; mkPermission 2048 3072 true true true []].

Lemma adjacentTokens_wf : wf adjacentTokens.
Proof.
  change adjacentTokens with [mkPermission 0 2048 false false false []; mkPermission 2048 3072 true true true []].
  split; [|cbn; lia]. apply Forall_cons. split; [cbn; word_lia|]. apply Forall_cons. split; [cbn; word_lia|done].
Qed.

Lemma adjacentTokens_view :
  threadView (WriteNext 2048 [x42] true) [TApp; TApp; TApp] (Ret (exampleClientOf [exampleFileOf "f" 1 adjacentTokens] None, stripedServers)) =
    Some (WriteAdded 2048 [x42], None, false, [(2048, true)], [adjacentTokens]).
Proof. vm_compute. reflexivity. Qed.

Lemma adjacent_revocation_loses_write_witness : exists t0 k t f,
  threadRun ids rawBlock 0 1 [TApp; TApp; TApp]
    (mkThreads (WriteNext 2048 [x42] true) None false (exampleClientOf [exampleFileOf "f" 1 adjacentTokens] None) stripedServers) = Ret t0 /\
  threadRun ids rawBlock 0 1 (TRevoke "f" 1024 2048 true :: replicate k TEvict ++ [TApp]) t0 = Ret t /\
  app t = WriteNext 2049 [] false /\ openedFiles (client t) !! 0%nat = Some f /\ holds (permissions (cf_base f)) true 2048.
Proof.
  pose proof (example_ok_of adjacentTokens stripedServers stripedServers_served) as Hok.
  destruct (view_client [TApp; TApp; TApp] (exampleClientOf [exampleFileOf "f" 1 adjacentTokens] None) stripedServers (mkLRU [] [] blockCount blockCount 0)
    (exampleFileOf "f" 1 adjacentTokens) 2048 (WriteAdded 2048 [x42]) None false [(2048, true)] adjacentTokens noBytes adjacentTokens_view Hok eq_refl eq_refl eq_refl)
    as (s' & ws' & c & l & m' & a' & f' & Hr & _ & _ & _ & Hok' & Hof' & He' & Hfd' & Hps);
    [split; by vm_compute|apply blockCount_budget, Nat.ltb_lt; vm_compute; reflexivity|].
  assert (H1 : openedFiles s' !! 0%nat = Some f') by (rewrite Hof'; reflexivity).
  assert (H2 : wf (permissions (cf_base f'))) by (rewrite Hps; apply adjacentTokens_wf).
  assert (H3 : inFile 2048 (Z.of_nat (length [x42]))) by (split; by vm_compute).
  assert (H4 : existsb (fun p => isShared p 1024 (baseOf 2048) && locked p) (permissions (cf_base f')) = false) by (rewrite Hps; vm_compute; reflexivity).
  destruct (adjacent_revocation_loses_write ids rawBlock m' s' a' ws' 0 f' "f" 1 3 2048 [x42] 1024 true false Hok' H1 He' H2 H3) as (k & t & ps & Ht & Hof & Hh & Hlost);
    [discriminate|word_lia|by vm_compute|exact H4|].
  rewrite Hfd' in Ht. exists (mkThreads (WriteAdded 2048 [x42]) None false s' ws'), k, t, (withTokens ps f').
  split; [exact Hr|]. split; [exact Ht|]. split; [apply Hlost|]. split; [rewrite Hof, Hof'; reflexivity|].
  apply Hh. rewrite Hps. split; [|change (baseOf 2048) with 2048; lia].
  exists (mkPermission 2048 3072 true true true []). split; [right; by left|]. split; [cbn; lia|done].
Defined.
