(* ===== verification/Interleaving.v ===== *)
(** The token protocol of one file, step by step.

    [System] runs a call of a client in one step. Here the threads of the parts are
    interleaved: the application thread of each client (acquirePermission and
    unlockPermission of client/pfs_client.cpp and client/client_file.cpp), the thread
    of the manager that serves GetPermission, and the service threads of the clients
    that run File::revokePermission. The state has one file; a step is a part of a
    method between two points where it waits: for a message, for the mutex of the
    file at the manager, for the threads that it joins, or for a semaphore. The
    mutex of a file object at a client is free at these points.

    [step] is executable: [Blocked] when the thread waits at that point, [Crash] when
    it leaves the defined behaviour. *)

From Stdlib Require Import String.
From stdpp Require Import gmap strings.
From S2P Require Import Prelude Permission File Tokens MMFile ClientFile.
#[local] Open Scope Z_scope.

(** ** State *)

(** Where the application thread of a client is. [Asking]: the request is sent and
    waits for the reply; [Replied]: the reply with the range [[rs, re)] is on its
    way; [Using]: the data is read or written, [granted] if acquirePermission called
    the manager and not if it found the tokens in the vector. *)
Inductive CallState : Type :=
| Idle
| Asking (st en : Z) (wr : bool)
| Replied (st en : Z) (wr : bool) (rs re : Z)
| Using (st en : Z) (wr granted : bool).

(** The file object of a client and its application thread. *)
Record Peer : Type := mkPeer {
  tokens : list Permission;
  call : CallState }.

(** A thread that the manager started: the request is on its way, or the service
    thread of the client waits for [count] more posts of its semaphore. *)
Inductive Revoker : Type :=
| Sent
| Waiting (sem : SemId) (count : nat).

(** The request that the manager serves, while the mutex of the file is held. *)
Record Busy : Type := mkBusy {
  bz_peer : string;
  bz_start : Z;
  bz_end : Z;
  bz_write : bool;
  bz_permit : Permission }.

(** [sems] has the semaphores whose [sem_t] is alive, with their values. *)
Record State : Type := mkState {
  mgr : MMFile;
  busy : option Busy;
  revokers : gmap string Revoker;
  peers : gmap string Peer;
  sems : gmap SemId nat;
  nextSem : SemId }.

Definition newState (b : File) : State := mkState (newMMFile b) None ∅ ∅ ∅ 0.

Definition setPeer (p : string) (x : Peer) (s : State) : State :=
  mkState (mgr s) (busy s) (revokers s) (<[p := x]> (peers s)) (sems s) (nextSem s).

(** ** Steps *)

(** What the threads do next. *)
Inductive Event : Type :=
| EvOpen (p : string)
| EvClose (p : string)
| EvCall (p : string) (st en : Z) (wr : bool)
| EvServe (p : string)
| EvRevoke (q : string)
| EvWake (q : string)
| EvCut (q : string)
| EvGrant
| EvReply (p : string)
| EvDone (p : string).

(** The application thread of [p] is not in a call. *)
Definition isIdle (p : string) (s : State) : bool :=
  match peers s !! p with
  | None => true
  | Some x => match call x with Idle => true | _ => false end
  end.

(** MMFile::open for a client that is not in a call; it has the mutex for itself.
    The client makes its file object when the manager accepts. *)
Definition evOpen (p : string) (s : State) : outcome State :=
  match busy s with
  | Some _ => Blocked
  | None =>
      if isIdle p s
      then
        let '(ok, f) := open p (mgr s) in
        if ok : bool
        then Ret (mkState f None (revokers s) (<[p := mkPeer [] Idle]> (peers s)) (sems s) (nextSem s))
        else Ret s
      else Blocked
  end.

(** MMFile::close; the client deletes its file object. *)
Definition evClose (p : string) (s : State) : outcome State :=
  match busy s with
  | Some _ => Blocked
  | None =>
      if isIdle p s
      then
        let '(ok, f) := close p (mgr s) in
        if ok : bool
        then Ret (mkState f None (revokers s) (delete p (peers s)) (sems s) (nextSem s))
        else Ret s
      else Blocked
  end.

(** A data call starts: acquirePermission up to the RPC. *)
Definition evCall (p : string) (st en : Z) (wr : bool) (s : State) : outcome State :=
  match peers s !! p with
  | Some (mkPeer ts Idle) =>
      if hasPermission (u32 st) (u32 en) wr ts
      then Ret (setPeer p (mkPeer ts (Using (u32 st) (u32 en) wr false)) s)
      else Ret (setPeer p (mkPeer ts (Asking (u32 st) (u32 en) wr)) s)
  | _ => Blocked
  end.

(** The manager takes up the request of [p]: waitAndGetPermissionFor from the lock of
    the mutex to the last thread that it starts and the token that it records, before
    it joins the threads. A client without the file gets an error. *)
Definition evServe (p : string) (s : State) : outcome State :=
  match busy s, peers s !! p with
  | None, Some (mkPeer ts (Asking st en wr)) =>
      if isOpenedBy p (mgr s)
      then
        r ← recordGrant p st en wr (mgr s);
        let '(permit, msgs, f) := r in
        Ret (mkState f (Some (mkBusy p st en wr permit))
               (list_to_map ((fun m => (rv_peer m, Sent)) <$> msgs)) (peers s) (sems s) (nextSem s))
      else Ret (setPeer p (mkPeer ts Idle) s)
  | _, _ => Blocked
  end.

(** The request reaches the client: File::revokePermission up to the first
    [sem_wait]. Without the file the service answers at once. *)
Definition evRevoke (q : string) (s : State) : outcome State :=
  match busy s, revokers s !! q with
  | Some bz, Some Sent =>
      match peers s !! q with
      | None => Ret (mkState (mgr s) (busy s) (delete q (revokers s)) (peers s) (sems s) (nextSem s))
      | Some x =>
          let '(ts, count) := registerWaiters (bz_start bz) (bz_end bz) (nextSem s) (tokens x) in
          Ret (mkState (mgr s) (busy s) (<[q := Waiting (nextSem s) count]> (revokers s))
                 (<[q := mkPeer ts (call x)]> (peers s)) (<[nextSem s := 0%nat]> (sems s)) (nextSem s + 1))
      end
  | _, _ => Blocked
  end.

(** One [sem_wait] that returns. *)
Definition evWake (q : string) (s : State) : outcome State :=
  match revokers s !! q with
  | Some (Waiting sem (S count)) =>
      match sems s !! sem with
      | Some (S v) =>
          Ret (mkState (mgr s) (busy s) (<[q := Waiting sem count]> (revokers s)) (peers s)
                 (<[sem := v]> (sems s)) (nextSem s))
      | _ => Blocked
      end
  | _ => Blocked
  end.

(** The rest of File::revokePermission after the last [sem_wait]: the range is cut
    out of the vector, the method returns, its [sem_t] is gone and the thread of the
    manager ends. *)
Definition evCut (q : string) (s : State) : outcome State :=
  match busy s, revokers s !! q with
  | Some bz, Some (Waiting sem O) =>
      x ← deref (peers s !! q);
      ts ← revokeRange (bz_start bz) (bz_end bz) (tokens x);
      Ret (mkState (mgr s) (busy s) (delete q (revokers s)) (<[q := mkPeer ts (call x)]> (peers s))
             (delete sem (sems s)) (nextSem s))
  | _, _ => Blocked
  end.

(** All threads are joined: the mutex is released and the reply is sent. *)
Definition evGrant (s : State) : outcome State :=
  match busy s with
  | Some bz =>
      if decide (revokers s = ∅)
      then
        let ps :=
          match peers s !! bz_peer bz with
          | Some x => <[bz_peer bz := mkPeer (tokens x) (Replied (bz_start bz) (bz_end bz) (bz_write bz)
                          (getStart (bz_permit bz)) (getEnd (bz_permit bz)))]> (peers s)
          | None => peers s
          end in
        Ret (mkState (mgr s) None ∅ ps (sems s) (nextSem s))
      else Blocked
  | None => Blocked
  end.

(** The reply arrives: the rest of acquirePermission. *)
Definition evReply (p : string) (s : State) : outcome State :=
  match peers s !! p with
  | Some (mkPeer ts (Replied st en wr rs re)) =>
      ts' ← addPermission rs re wr ts true;
      Ret (setPeer p (mkPeer ts' (Using st en wr true)) s)
  | _ => Blocked
  end.

(** [sem_post] on a semaphore: its [sem_t] must be alive. *)
Definition post (sem : SemId) (m : gmap SemId nat) : outcome (gmap SemId nat) :=
  match m !! sem with
  | Some v => Ret (<[sem := S v]> m)
  | None => Crash
  end.

(** The data call ends with unlockPermission. *)
Definition evDone (p : string) (s : State) : outcome State :=
  match peers s !! p with
  | Some (mkPeer ts (Using st en wr _)) =>
      let '(ts', posts) := unlockPermission st en wr ts in
      m ← foldM post posts (sems s);
      Ret (mkState (mgr s) (busy s) (revokers s) (<[p := mkPeer ts' Idle]> (peers s)) m (nextSem s))
  | _ => Blocked
  end.

Definition step (ev : Event) : State -> outcome State :=
  match ev with
  | EvOpen p => evOpen p
  | EvClose p => evClose p
  | EvCall p st en wr => evCall p st en wr
  | EvServe p => evServe p
  | EvRevoke q => evRevoke q
  | EvWake q => evWake q
  | EvCut q => evCut q
  | EvGrant => evGrant
  | EvReply p => evReply p
  | EvDone p => evDone p
  end.

Definition run (evs : list Event) (s : State) : outcome State := foldM step evs s.

(** ** Orderly interleavings *)

(** The reply to [p] has left the manager and is not yet applied. *)
Definition inFlight (p : string) (s : State) : bool :=
  match peers s !! p with
  | Some (mkPeer _ (Replied _ _ _ _ _)) => true
  | _ => false
  end.

(** The grant that the manager makes for [p] touches at most one token of [p]. *)
Definition grantTouchesOne (p : string) (s : State) : bool :=
  match peers s !! p, clientPermissions (mgr s) !! p with
  | Some (mkPeer _ (Asking st en wr)), Some mine =>
      match recordGrant p st en wr (mgr s) with
      | Ret (permit, _, _) =>
          (length (List.filter (fun t => isInclusiveShared t (start permit) (end_ permit)) mine) <=? 1)%nat
      | _ => true
      end
  | _, _ => true
  end.

(** Requests are for a positive number of bytes with addresses that an [int] can
    hold, a grant touches at most one token of its client, and a client takes up a
    revoke request only after the reply that the manager sent it before. *)
Definition orderly (ev : Event) (s : State) : bool :=
  match ev with
  | EvCall _ st en _ => (0 <=? st) && (st <? en) && (en <=? INT_MAX)
  | EvServe p => grantTouchesOne p s
  | EvRevoke q => negb (inFlight q s)
  | _ => true
  end.

(** The states that orderly interleavings lead to. *)
Inductive reachable (b : File) : State -> Prop :=
| reach_new : reachable b (newState b)
| reach_next ev s s' : reachable b s -> orderly ev s = true -> step ev s = Ret s' -> reachable b s'.

(** The same as a run, with the test of every step. *)
Fixpoint orderlyRun (evs : list Event) (s : State) : outcome State :=
  match evs with
  | [] => Ret s
  | ev :: evs' => if orderly ev s then s' ← step ev s; orderlyRun evs' s' else Blocked
  end.

Lemma orderlyRun_reachable b evs s s' : reachable b s -> orderlyRun evs s = Ret s' -> reachable b s'.
Proof.
  revert s. induction evs as [|ev evs IH]; intros s Hs; cbn; [by intros [= <-]|].
  destruct (orderly ev s) eqn:Ho; [|done]. intros (s1 & H1 & H2)%bind_Ret. eapply IH; [|done]. by econstructor.
Qed.

(** ** What a step that returned has done *)

Lemma evOpen_inv p s s' :
  evOpen p s = Ret s' ->
  busy s = None /\ isIdle p s = true /\
  (s' = s \/
   clientPermissions (mgr s) !! p = None /\
   s' = mkState (setClientPermissions (<[p := []]> (clientPermissions (mgr s))) (mgr s)) None (revokers s)
          (<[p := mkPeer [] Idle]> (peers s)) (sems s) (nextSem s)).
Proof.
  unfold evOpen, open. destruct (busy s); [done|]. destruct (isIdle p s); [|done].
  destruct (clientPermissions (mgr s) !! p); intros [= <-]; auto.
Qed.

Lemma evClose_inv p s s' :
  evClose p s = Ret s' ->
  busy s = None /\ isIdle p s = true /\
  (s' = s \/
   s' = mkState (setClientPermissions (delete p (clientPermissions (mgr s))) (mgr s)) None (revokers s)
          (delete p (peers s)) (sems s) (nextSem s)).
Proof.
  unfold evClose, close. destruct (busy s); [done|]. destruct (isIdle p s); [|done].
  destruct (clientPermissions (mgr s) !! p); intros [= <-]; auto.
Qed.

Lemma evCall_inv p st en wr s s' :
  evCall p st en wr s = Ret s' ->
  exists ts c, peers s !! p = Some (mkPeer ts Idle) /\ s' = setPeer p (mkPeer ts c) s /\
    (c = Using (u32 st) (u32 en) wr false \/ c = Asking (u32 st) (u32 en) wr).
Proof.
  unfold evCall. destruct (peers s !! p) as [[ts [| | |]]|]; try done.
  destruct (hasPermission _ _ _ _); intros [= <-]; eexists _, _; auto.
Qed.

Lemma evServe_inv p s s' :
  evServe p s = Ret s' ->
  busy s = None /\ exists ts st en wr, peers s !! p = Some (mkPeer ts (Asking st en wr)) /\
    ((clientPermissions (mgr s) !! p = None /\ s' = setPeer p (mkPeer ts Idle) s) \/
     exists permit msgs f, recordGrant p st en wr (mgr s) = Ret (permit, msgs, f) /\
       s' = mkState f (Some (mkBusy p st en wr permit)) (list_to_map ((fun m => (rv_peer m, Sent)) <$> msgs))
              (peers s) (sems s) (nextSem s)).
Proof.
  unfold evServe, isOpenedBy. destruct (busy s); [done|]. destruct (peers s !! p) as [[ts [|st en wr| |]]|]; try done.
  intros Hs. split; [done|]. exists ts, st, en, wr. split; [done|].
  destruct (clientPermissions (mgr s) !! p); [right|by injection Hs as <-; left].
  apply bind_Ret in Hs as ([[permit msgs] f] & Hr & [= <-]). by exists permit, msgs, f.
Qed.

Lemma evRevoke_inv q s s' :
  evRevoke q s = Ret s' ->
  exists bz, busy s = Some bz /\ revokers s !! q = Some Sent /\
    ((peers s !! q = None /\ s' = mkState (mgr s) (busy s) (delete q (revokers s)) (peers s) (sems s) (nextSem s)) \/
     exists x ts count, peers s !! q = Some x /\
       registerWaiters (bz_start bz) (bz_end bz) (nextSem s) (tokens x) = (ts, count) /\
       s' = mkState (mgr s) (busy s) (<[q := Waiting (nextSem s) count]> (revokers s))
              (<[q := mkPeer ts (call x)]> (peers s)) (<[nextSem s := 0%nat]> (sems s)) (nextSem s + 1)).
Proof.
  unfold evRevoke. intros Hs. destruct (busy s) as [bz|]; [|done]. destruct (revokers s !! q) as [[|]|]; try done.
  exists bz. split; [done|]. split; [done|]. destruct (peers s !! q) as [x|]; [right|by injection Hs as <-; left].
  destruct (registerWaiters _ _ _ _) as [ts count] eqn:Hw. injection Hs as <-. by exists x, ts, count.
Qed.

Lemma evWake_inv q s s' :
  evWake q s = Ret s' ->
  exists sem count v, revokers s !! q = Some (Waiting sem (S count)) /\ sems s !! sem = Some (S v) /\
    s' = mkState (mgr s) (busy s) (<[q := Waiting sem count]> (revokers s)) (peers s) (<[sem := v]> (sems s)) (nextSem s).
Proof.
  unfold evWake. destruct (revokers s !! q) as [[|sem [|count]]|]; try done.
  destruct (sems s !! sem) as [[|v]|] eqn:Hv; try done. intros [= <-]. by exists sem, count, v.
Qed.

Lemma evCut_inv q s s' :
  evCut q s = Ret s' ->
  exists bz sem x ts, busy s = Some bz /\ revokers s !! q = Some (Waiting sem 0) /\ peers s !! q = Some x /\
    revokeRange (bz_start bz) (bz_end bz) (tokens x) = Ret ts /\
    s' = mkState (mgr s) (busy s) (delete q (revokers s)) (<[q := mkPeer ts (call x)]> (peers s))
           (delete sem (sems s)) (nextSem s).
Proof.
  unfold evCut. intros Hs. destruct (busy s) as [bz|]; [|done]. destruct (revokers s !! q) as [[|sem [|count]]|]; try done.
  apply bind_Ret in Hs as (x & Hx%deref_Ret & Hs). apply bind_Ret in Hs as (ts & Hr & [= <-]). by exists bz, sem, x, ts.
Qed.

Lemma evGrant_inv s s' :
  evGrant s = Ret s' ->
  exists bz, busy s = Some bz /\ revokers s = ∅ /\
    s' = mkState (mgr s) None ∅
           (match peers s !! bz_peer bz with
            | Some x => <[bz_peer bz := mkPeer (tokens x) (Replied (bz_start bz) (bz_end bz) (bz_write bz)
                            (start (bz_permit bz)) (end_ (bz_permit bz)))]> (peers s)
            | None => peers s
            end) (sems s) (nextSem s).
Proof.
  unfold evGrant. destruct (busy s) as [bz|]; [|done]. destruct (decide _); [|done]. intros [= <-]. by exists bz.
Qed.

Lemma evReply_inv p s s' :
  evReply p s = Ret s' ->
  exists ts st en wr rs re ts', peers s !! p = Some (mkPeer ts (Replied st en wr rs re)) /\
    addPermission rs re wr ts true = Ret ts' /\ s' = setPeer p (mkPeer ts' (Using st en wr true)) s.
Proof.
  unfold evReply. intros Hs. destruct (peers s !! p) as [[ts [| |st en wr rs re|]]|]; try done.
  apply bind_Ret in Hs as (ts' & Ha & [= <-]). by exists ts, st, en, wr, rs, re, ts'.
Qed.

Lemma evDone_inv p s s' :
  evDone p s = Ret s' ->
  exists ts st en wr g ts' posts m, peers s !! p = Some (mkPeer ts (Using st en wr g)) /\
    unlockPermission st en wr ts = (ts', posts) /\ foldM post posts (sems s) = Ret m /\
    s' = mkState (mgr s) (busy s) (revokers s) (<[p := mkPeer ts' Idle]> (peers s)) m (nextSem s).
Proof.
  unfold evDone. intros Hs. destruct (peers s !! p) as [[ts [| | |st en wr g]]|]; try done.
  destruct (unlockPermission st en wr ts) as [ts' posts] eqn:Hu. apply bind_Ret in Hs as (m & Hm & [= <-]).
  by exists ts, st, en, wr, g, ts', posts, m.
Qed.
