(* ===== verification/InterleavingInv.v ===== *)
(** Invariants of the orderly interleavings of the token protocol: the vector of a
    client and the record of the manager differ by the messages that are under way
    ([tokensOk]), tokens and grants under way are exclusive ([exclusiveOk]), a thread
    that waits has its posts coming ([semsOk]), and the tokens of a granted call stay
    locked while the call runs ([protectedOk]). *)

From Stdlib Require Import String.
From stdpp Require Import gmap strings.
From S2P Require Import Prelude Permission File Tokens MMFile ClientFile Interleaving.
#[local] Open Scope Z_scope.

(** ** What is under way to a client *)

(** The grant that the manager recorded and the client has not applied. *)
Definition unapplied (bo : option Busy) (p : string) (x : Peer) : option (Z * Z * bool) :=
  match call x with
  | Replied _ _ wr rs re => Some (rs, re, wr)
  | _ =>
      match bo with
      | Some bz =>
          if decide (bz_peer bz = p) then Some (start (bz_permit bz), end_ (bz_permit bz), bz_write bz) else None
      | None => None
      end
  end.

(** The range that the manager took out of its record and the client still has to
    cut. *)
Definition uncut (s : State) (p : string) : option (Z * Z) :=
  match busy s, revokers s !! p with
  | Some bz, Some _ => Some (bz_start bz, bz_end bz)
  | _, _ => None
  end.

Definition added (g : Z * Z * bool) (l : list Permission) : list Permission :=
  match addPermission g.1.1 g.1.2 g.2 l false with Ret l' => l' | _ => l end.

(** The vector of a client once it has applied the grant and then the cut. *)
Definition expected (g : option (Z * Z * bool)) (c : option (Z * Z)) (l : list Permission) : list Permission :=
  let l1 := match g with Some g => added g l | None => l end in
  match c with Some (st, en) => cutVector st en l1 | None => l1 end.

(** A range of a request, and a grant that its client applies without loss. *)
Definition rangeOk (st en : Z) : Prop := 0 <= st /\ st < en /\ en <= INT_MAX.

Definition fits (g : Z * Z * bool) (l : list Permission) : Prop :=
  rangeOk g.1.1 g.1.2 /\ touches_one g.1.1 g.1.2 l.

Definition callOk (c : CallState) : Prop :=
  match c with
  | Idle => True
  | Asking st en _ | Using st en _ _ => rangeOk st en
  | Replied st en _ rs re => rangeOk st en /\ rs <= st /\ en <= re
  end.

Definition isReplied (c : CallState) : bool := match c with Replied _ _ _ _ _ => true | _ => false end.

Record tokensOk (b : File) (s : State) : Prop := {
  to_mgr : mm_reachable b (mgr s);
  to_dom : forall p, is_Some (peers s !! p) <-> is_Some (clientPermissions (mgr s) !! p);
  to_mirror : forall p x l, peers s !! p = Some x -> clientPermissions (mgr s) !! p = Some l ->
    same_tokens (expected (unapplied (busy s) p x) (uncut s p) (tokens x)) l;
  to_wf : forall p x, peers s !! p = Some x -> small (tokens x) /\ sorted_from 0 (tokens x);
  to_fits : forall p x g, peers s !! p = Some x -> unapplied (busy s) p x = Some g -> fits g (tokens x);
  to_call : forall p x, peers s !! p = Some x -> callOk (call x);
  to_busy : forall bz, busy s = Some bz ->
    revokers s !! bz_peer bz = None /\
    (start (bz_permit bz) <= bz_start bz /\ bz_end bz <= end_ (bz_permit bz)) /\
    exists x, peers s !! bz_peer bz = Some x /\ call x = Asking (bz_start bz) (bz_end bz) (bz_write bz);
  to_quiet : busy s = None -> revokers s = ∅;
  to_revokers : forall q, is_Some (revokers s !! q) -> is_Some (peers s !! q) }.

(** ** Lemmas *)

Lemma added_same_tokens g l1 l2 : same_tokens l1 l2 -> same_tokens (added g l1) (added g l2).
Proof.
  intros Hs. unfold added. destruct (addPermission_total g.1.1 g.1.2 g.2 l1) as [r1 H1].
  destruct (addPermission_total g.1.1 g.1.2 g.2 l2) as [r2 H2]. rewrite H1, H2.
  by eapply (addPermission_same_tokens _ _ _ l1 false r1 l2 false r2).
Qed.

Lemma cutVector_same_tokens st en l1 l2 : same_tokens l1 l2 -> same_tokens (cutVector st en l1) (cutVector st en l2).
Proof.
  intros Hs. unfold cutVector. destruct (revokeRange_total st en l1) as [r1 H1].
  destruct (revokeRange_total st en l2) as [r2 H2]. rewrite H1, H2. by eapply revokeRange_same_tokens.
Qed.

#[export] Instance expected_Proper : Proper ((=) ==> (=) ==> same_tokens ==> same_tokens) expected.
Proof.
  intros g ? <- c ? <- l1 l2 Hs. unfold expected. destruct g, c as [[]|]; cbn;
    repeat first [apply cutVector_same_tokens|apply added_same_tokens]; done.
Qed.

Lemma added_Ret g l l' : addPermission g.1.1 g.1.2 g.2 l true = Ret l' -> same_tokens l' (added g l).
Proof.
  intros Ha. unfold added. destruct (addPermission_total g.1.1 g.1.2 g.2 l) as [r Hr]. rewrite Hr.
  by eapply (addPermission_same_tokens _ _ _ l true l' l false r).
Qed.

Lemma same_tokens_touches st en l1 l2 : same_tokens l1 l2 -> touches_one st en l1 -> touches_one st en l2.
Proof.
  intros Hs Ht i j p q Hi Hj Hp Hq.
  assert (Hl : forall k t, l2 !! k = Some t -> exists t', l1 !! k = Some t' /\ token t' = token t).
  { intros k t Hk. pose proof (f_equal (fun m => m !! k) Hs) as He. cbn in He. rewrite !list_lookup_fmap, Hk in He.
    destruct (l1 !! k) as [t'|]; [|done]. exists t'. split; [done|]. cbn in He. congruence. }
  destruct (Hl i p Hi) as (p' & Hi' & [= E1 E2 _]). destruct (Hl j q Hj) as (q' & Hj' & [= E3 E4 _]).
  apply (Ht i j p' q' Hi' Hj'); apply isInclusiveShared_true; [apply isInclusiveShared_true in Hp|apply isInclusiveShared_true in Hq]; lia.
Qed.

(** What a grant under way adds to a vector, and what a cut leaves. *)
Lemma holds_added g l v x : small l -> sorted_from 0 l -> fits g l ->
  holds (added g l) v x <-> holds l v x \/ requested g.1.1 g.1.2 g.2 v x.
Proof.
  intros Hsm Hs [(H1 & H2 & H3) Ht]. unfold added. destruct (addPermission_total g.1.1 g.1.2 g.2 l) as [r Hr]. rewrite Hr.
  apply (addPermission_fits g.1.1 g.1.2 g.2 l r false); [lia|lia|done..].
Qed.

Lemma cutVector_wf st en l :
  rangeOk st en -> small l -> sorted_from 0 l ->
  small (cutVector st en l) /\ sorted_from 0 (cutVector st en l) /\
  forall v x, holds (cutVector st en l) v x <-> holds l v x /\ ~ (st <= x < en).
Proof.
  intros (H1 & H2 & H3) Hsm Hs. assert (is_u32 st /\ is_u32 en) as [U1 U2] by word_lia.
  destruct (revokeRange_exact st en l U1 U2) as (l' & Hr & [_ Hs'] & Hh); [by split; [apply small_bounded|]|lia|].
  rewrite (cutVector_Ret _ _ _ _ Hr). split; [|done].
  eapply (revokeRange_Pvec (fun x => 0 <= x <= INT_MAX) st en l); [lia|lia|done|done|by apply small_bounded|done..].
Qed.

(** ** The manager's record and the vectors *)

Section Tokens.
Context (b : File).
Implicit Types (s : State) (p q r : string) (x : Peer).

(** A step that changes one peer, and the request under way to it. *)
Lemma tokensOk_local s s' p x x' :
  tokensOk b s -> mgr s' = mgr s -> busy s' = busy s -> peers s !! p = Some x -> peers s' = <[p := x']> (peers s) ->
  (forall r, revokers s !! r = None -> revokers s' !! r = None) ->
  (forall r, r <> p -> uncut s' r = uncut s r) ->
  same_tokens (expected (unapplied (busy s) p x') (uncut s' p) (tokens x'))
              (expected (unapplied (busy s) p x) (uncut s p) (tokens x)) ->
  small (tokens x') -> sorted_from 0 (tokens x') ->
  (forall g, unapplied (busy s) p x' = Some g -> fits g (tokens x')) ->
  callOk (call x') -> (forall bz, busy s = Some bz -> bz_peer bz = p -> call x' = call x) ->
  tokensOk b s'.
Proof.
  intros [Hm Hd Hmi Hw Hf Hc Hb Hq Hrv] Em Eb Hx Ep Hr Hu Hsame Hsm Hs Hfx Hcx Hbx.
  assert (Hl : forall r y, peers s' !! r = Some y -> (r = p /\ y = x') \/ (r <> p /\ peers s !! r = Some y)).
  { intros r y. rewrite Ep, lookup_insert. case_decide; [intros [= <-]; by left|]. right. split; [congruence|done]. }
  split; rewrite ?Em, ?Eb; try done.
  - intros r. rewrite <- Hd, Ep, lookup_insert. case_decide as Hpr; [subst r; rewrite Hx; split; by eexists|done].
  - intros r y l [[-> ->]|[Hne Hy]]%Hl Hlr; [rewrite Hsame; by apply Hmi|]. rewrite Hu by done. by apply Hmi.
  - intros r y [[-> ->]|[Hne Hy]]%Hl; [done|by eapply Hw].
  - intros r y g [[-> ->]|[Hne Hy]]%Hl; [apply Hfx|by eapply Hf].
  - intros r y [[-> ->]|[Hne Hy]]%Hl; [done|by eapply Hc].
  - intros bz Hbz. destruct (Hb bz Hbz) as (H1 & H2 & y & Hy & Hcy). split; [by apply Hr|]. split; [done|].
    rewrite Ep, lookup_insert. case_decide as Hpr; [|by exists y]. exists x'. split; [done|]. rewrite (Hbx bz Hbz ltac:(done)). congruence.
  - intros Hn. apply map_empty. intros r. apply Hr. by rewrite (Hq Hn), lookup_empty.
  - intros r Hsr. rewrite Ep, lookup_insert. case_decide; [by eexists|]. apply Hrv.
    destruct (revokers s !! r) eqn:Hn; [by eexists|]. rewrite (Hr r Hn) in Hsr. by destruct Hsr.
Qed.

(** A call of a client that has no grant under way has its vector as it is. *)
Lemma unapplied_idle bo p ts c c' :
  isReplied c = false -> isReplied c' = false -> unapplied bo p (mkPeer ts c) = unapplied bo p (mkPeer ts c').
Proof. unfold unapplied. by destruct c, c'. Qed.

(** The request under way is the same when the thread only gets further. *)
Lemma uncut_ext s s' p : busy s' = busy s -> (is_Some (revokers s' !! p) <-> is_Some (revokers s !! p)) -> uncut s' p = uncut s p.
Proof.
  unfold uncut. intros -> Hr. destruct (busy s); [|done].
  destruct (revokers s' !! p), (revokers s !! p); [done| | |done]; exfalso; [by eapply is_Some_None, Hr|by eapply is_Some_None, Hr].
Qed.

(** The application thread of the requester that is served does not move. *)
Lemma busy_not_at s p x bz : tokensOk b s -> peers s !! p = Some x -> (forall st en wr, call x <> Asking st en wr) ->
  busy s = Some bz -> bz_peer bz <> p.
Proof. intros Hok Hx Hn Hb <-. destruct (to_busy b s Hok bz Hb) as (_ & _ & y & Hy & Hc). simplify_eq. by eapply Hn. Qed.

(** No grant is under way to a client that is neither served nor replied to. *)
Lemma unapplied_other bo p x :
  isReplied (call x) = false -> (forall bz, bo = Some bz -> bz_peer bz <> p) -> unapplied bo p x = None.
Proof.
  intros Hr Hn. unfold unapplied. destruct (call x); try done; (destruct bo as [bz|]; [|done]); rewrite decide_False; auto.
Qed.

Lemma unapplied_None s p x : tokensOk b s -> peers s !! p = Some x -> (forall st en wr, call x <> Asking st en wr) ->
  isReplied (call x) = false -> unapplied (busy s) p x = None.
Proof. intros Hok Hx Hn Hr. apply unapplied_other; [done|]. intros bz. by eapply busy_not_at. Qed.

Lemma evCall_tokens p st en wr s s' :
  tokensOk b s -> rangeOk st en -> evCall p st en wr s = Ret s' -> tokensOk b s'.
Proof.
  intros Hok (H1 & H2 & H3) (ts & c & Hp & -> & Hcase)%evCall_inv. rewrite !u32_id in Hcase by word_lia.
  assert (Hc : callOk c /\ isReplied c = false) by (by destruct Hcase as [-> | ->]). destruct Hc as [Hc Hr].
  assert (Hu := unapplied_None s p _ Hok Hp ltac:(done) ltac:(done)).
  rewrite (unapplied_idle _ _ _ _ c) in Hu by done.
  apply (tokensOk_local s _ p (mkPeer ts Idle) (mkPeer ts c)); try done.
  - rewrite Hu, (unapplied_None s p _ Hok Hp) by done. done.
  - apply (to_wf b s Hok p _ Hp).
  - apply (to_wf b s Hok p _ Hp).
  - rewrite Hu. done.
  - intros bz Hb Hbp. by destruct (busy_not_at s p _ bz Hok Hp).
Qed.

Lemma evDone_tokens p s s' : tokensOk b s -> evDone p s = Ret s' -> tokensOk b s'.
Proof.
  intros Hok (ts & st & en & wr & g & ts' & posts & m & Hp & Hu & _ & ->)%evDone_inv.
  pose proof (unlockPermission_tokens st en wr ts) as Hsame. rewrite Hu in Hsame. cbn in Hsame. clear Hu. destruct (to_wf b s Hok p _ Hp) as [Hsm Hso]. cbn in Hsm, Hso.
  assert (Hu : forall c, isReplied c = false -> unapplied (busy s) p (mkPeer ts' c) = None).
  { intros c Hc. rewrite <- (unapplied_None s p _ Hok Hp) by done. unfold unapplied. by destruct c. }
  apply (tokensOk_local s _ p (mkPeer ts (Using st en wr g)) (mkPeer ts' Idle)); try done; cbn [tokens call].
  - rewrite Hu, (unapplied_None s p _ Hok Hp) by done. by apply expected_Proper.
  - by eapply (same_tokens_ranges (fun z => 0 <= z <= INT_MAX)); [symmetry|].
  - by eapply same_tokens_sorted; [symmetry|].
  - rewrite Hu; done.
  - intros bz Hb Hbp. by destruct (busy_not_at s p _ bz Hok Hp).
Qed.

(** The reply is applied: what was under way is now in the vector. *)
Lemma reply_fits s p ts st en wr rs re ts' :
  tokensOk b s -> peers s !! p = Some (mkPeer ts (Replied st en wr rs re)) -> addPermission rs re wr ts true = Ret ts' ->
  sorted_from 0 ts' /\ small ts' /\ forall v a, holds ts' v a <-> holds ts v a \/ requested rs re wr v a.
Proof.
  intros Hok Hp Ha. destruct (to_wf b s Hok p _ Hp) as [Hsm Hso].
  destruct (to_fits b s Hok p _ (rs, re, wr) Hp ltac:(done)) as [(H1 & H2 & H3) Ht]. cbn in *.
  apply (addPermission_fits rs re wr ts ts' true); [lia|lia|done..].
Qed.

Lemma evReply_tokens p s s' : tokensOk b s -> evReply p s = Ret s' -> tokensOk b s'.
Proof.
  intros Hok (ts & st & en & wr & rs & re & ts' & Hp & Ha & ->)%evReply_inv.
  destruct (reply_fits s p ts st en wr rs re ts' Hok Hp Ha) as (Hso' & Hsm' & _).
  assert (Hu : unapplied (busy s) p (mkPeer ts' (Using st en wr true)) = None).
  { unfold unapplied; cbn. destruct (busy s) as [bz|] eqn:Hb; [|done]. rewrite decide_False; [done|].
    by apply (busy_not_at s p _ bz Hok Hp). }
  eapply (tokensOk_local s _ p _ (mkPeer ts' (Using st en wr true))); try done; cbn [tokens call].
  - rewrite Hu. cbn. change (uncut (setPeer _ _ s) p) with (uncut s p).
    assert (Hsame := added_Ret (rs, re, wr) ts ts' Ha). unfold expected.
    destruct (uncut s p) as [[c1 c2]|]; [by apply cutVector_same_tokens|done].
  - rewrite Hu; done.
  - destruct (to_call b s Hok p _ Hp) as [? _]. done.
  - intros bz Hb Hbp. by destruct (busy_not_at s p _ bz Hok Hp).
Qed.

Lemma evRevoke_tokens q s s' : tokensOk b s -> evRevoke q s = Ret s' -> tokensOk b s'.
Proof.
  intros Hok (bz & Hb & Hq & [[Hx _]|(x & ts & count & Hx & Hw & ->)])%evRevoke_inv.
  - destruct (to_revokers b s Hok q) as [y Hy]; [by rewrite Hq|congruence].
  - pose proof (registerWaiters_tokens (bz_start bz) (bz_end bz) (nextSem s) (tokens x)) as Hsame.
    rewrite Hw in Hsame. cbn in Hsame. destruct (to_wf b s Hok q _ Hx) as [Hsm Hso]. set (s1 := mkState _ _ _ _ _ _).
    apply (tokensOk_local s s1 q x (mkPeer ts (call x))); try done; cbn [tokens call].
    + intros r Hr. cbn. rewrite lookup_insert_ne; [done|]. intros ->. congruence.
    + intros r Hr. apply uncut_ext; [done|]. cbn. by rewrite lookup_insert_ne.
    + rewrite (uncut_ext s1 s q); [|done|cbn; rewrite lookup_insert_eq, Hq; split; by eexists].
      change (unapplied (busy s) q (mkPeer ts (call x))) with (unapplied (busy s) q x). by apply expected_Proper.
    + by eapply (same_tokens_ranges (fun z => 0 <= z <= INT_MAX)); [symmetry|].
    + by eapply same_tokens_sorted; [symmetry|].
    + intros g Hg. destruct (to_fits b s Hok q x g Hx Hg) as [? ?]. split; [done|]. by eapply same_tokens_touches; [symmetry|].
    + by eapply to_call.
Qed.

Lemma busy_range s bz : tokensOk b s -> busy s = Some bz -> rangeOk (bz_start bz) (bz_end bz).
Proof. intros Hok Hb. destruct (to_busy b s Hok bz Hb) as (_ & _ & x & Hx & Hc). pose proof (to_call b s Hok _ _ Hx) as H. by rewrite Hc in H. Qed.

Lemma evWake_tokens q s s' : tokensOk b s -> evWake q s = Ret s' -> tokensOk b s'.
Proof.
  intros Hok (sem & count & v & Hq & _ & ->)%evWake_inv. set (s1 := mkState _ _ _ _ _ _).
  destruct (to_revokers b s Hok q) as [x Hx]; [by rewrite Hq|]. destruct (to_wf b s Hok q _ Hx).
  assert (Hu : forall r, uncut s1 r = uncut s r).
  { intros r. apply uncut_ext; [done|]. cbn. rewrite lookup_insert. case_decide; [subst; rewrite Hq; split; by eexists|done]. }
  apply (tokensOk_local s s1 q x x); try done.
  - cbn. by rewrite insert_id.
  - intros r Hr. cbn. rewrite lookup_insert_ne; [done|]. intros ->. congruence.
  - by rewrite Hu.
  - intros g. exact (to_fits b s Hok q x g Hx).
  - by eapply to_call.
Qed.

Lemma evCut_tokens q s s' :
  tokensOk b s -> (forall sem k x, revokers s !! q = Some (Waiting sem k) -> peers s !! q = Some x -> isReplied (call x) = false) ->
  evCut q s = Ret s' -> tokensOk b s'.
Proof.
  intros Hok Hnr (bz & sem & x & ts & Hb & Hq & Hx & Hr & ->)%evCut_inv. set (s1 := mkState _ _ _ _ _ _).
  specialize (Hnr sem 0%nat x Hq Hx). destruct (to_wf b s Hok q x Hx) as [Hsm Hso].
  assert (Hne : forall bz', busy s = Some bz' -> bz_peer bz' <> q).
  { intros bz' Hb' <-. destruct (to_busy b s Hok bz' Hb') as [Hn _]. congruence. }
  destruct (cutVector_wf (bz_start bz) (bz_end bz) (tokens x)) as (Hsm' & Hso' & _); [by eapply busy_range|done..|].
  rewrite (cutVector_Ret _ _ _ _ Hr) in Hsm', Hso'.
  apply (tokensOk_local s s1 q x (mkPeer ts (call x))); try done; cbn [tokens call].
  - intros r Hn. cbn. rewrite lookup_delete. by case_decide.
  - intros r Hn. apply uncut_ext; [done|]. cbn. by rewrite lookup_delete_ne.
  - rewrite !unapplied_other by done. unfold uncut, s1. cbn. rewrite Hb, lookup_delete_eq, Hq. cbn.
    by rewrite (cutVector_Ret _ _ _ _ Hr).
  - rewrite unapplied_other by done. done.
  - by eapply to_call.
Qed.

(** Between two requests a client has what the manager recorded, up to its reply. *)
Lemma quiet_mirror s p x l : tokensOk b s -> busy s = None -> isReplied (call x) = false ->
  peers s !! p = Some x -> clientPermissions (mgr s) !! p = Some l -> same_tokens (tokens x) l.
Proof.
  intros Hok Hb Hr Hx Hl. pose proof (to_mirror b s Hok p x l Hx Hl) as Hm. unfold uncut in Hm.
  rewrite Hb, unapplied_other in Hm by done. exact Hm.
Qed.

(** The threads that the manager starts. *)
Definition sentTo (msgs : list RevokeRequest) : gmap string Revoker := list_to_map ((fun m => (rv_peer m, Sent)) <$> msgs).

Lemma sentTo_lookup msgs q : sentTo msgs !! q = if decide (q ∈ rv_peer <$> msgs) then Some Sent else None.
Proof.
  unfold sentTo. case_decide as Hin.
  - destruct (_ !! q) as [r|] eqn:Hl; [apply elem_of_list_to_map_2, list_elem_of_fmap in Hl as (m & [= _ ->] & _); done|].
    apply not_elem_of_list_to_map in Hl as []. rewrite <- list_fmap_compose. exact Hin.
  - apply not_elem_of_list_to_map. rewrite <- list_fmap_compose. exact Hin.
Qed.

(** What the manager has done when it joins its threads. *)
Lemma serve_inv s p ts st en wr permit msgs f :
  tokensOk b s -> busy s = None -> peers s !! p = Some (mkPeer ts (Asking st en wr)) ->
  grantTouchesOne p s = true -> recordGrant p st en wr (mgr s) = Ret (permit, msgs, f) ->
  exists mine', clientPermissions f !! p = Some mine' /\
    same_tokens (added (start permit, end_ permit, wr) ts) mine' /\ fits (start permit, end_ permit, wr) ts /\
    (start permit <= st /\ en <= end_ permit) /\ sentTo msgs !! p = None /\
    (forall q, is_Some (sentTo msgs !! q) -> is_Some (peers s !! q)) /\
    forall q, q <> p -> clientPermissions f !! q =
      (fun l => match sentTo msgs !! q with Some _ => cutVector st en l | None => l end) <$> clientPermissions (mgr s) !! q.
Proof.
  intros Hok Hb Hp Hg Hr. destruct (to_call b s Hok p _ Hp) as (H1 & H2 & H3).
  destruct (recordGrant_inv p st en wr (mgr s) permit msgs f ltac:(word_lia) ltac:(word_lia) Hr)
    as (mine & mine' & Hm & _ & Ha & Hm' & Ho & -> & Hperm).
  assert (Hsame : same_tokens ts mine) by (by eapply (quiet_mirror s p (mkPeer ts (Asking st en wr)))).
  assert (Hrange : rangeOk (start permit) (end_ permit) /\ start permit <= st /\ en <= end_ permit).
  { destruct Hperm as [[_ ->]|[_ ->]]; cbn; unfold rangeOk, INT_MAX in *; lia. }
  assert (Hin : forall q, is_Some (sentTo (revokeRequests p (getName (base (mgr s))) st en wr (clientPermissions (mgr s))) !! q) ->
    q <> p /\ is_Some (clientPermissions (mgr s) !! q)).
  { intros q. rewrite sentTo_lookup. case_decide as Hd; [|by intros []]. intros _.
    apply list_elem_of_fmap in Hd as (r & -> & (q' & l & -> & Hq & Hl & _)%elem_of_revokeRequests). split; [done|by eexists]. }
  exists mine'. split; [done|]. split; [|split; [split; [apply Hrange|]|split; [apply Hrange|split; [|split]]]].
  - etransitivity; [by apply added_same_tokens|]. unfold added; cbn. by rewrite Ha.
  - unfold grantTouchesOne in Hg. rewrite Hp, Hm, Hr in Hg. eapply same_tokens_touches; [symmetry; exact Hsame|].
    by apply filter_one_touches.
  - destruct (sentTo _ !! p) eqn:Hs; [|done]. destruct (Hin p); [by eexists|done].
  - intros q [_ Hq]%Hin. by apply (to_dom b s Hok).
  - intros q Hq. rewrite Ho by done. destruct (clientPermissions (mgr s) !! q) as [l|] eqn:Hl; [|done]. cbn. f_equal.
    rewrite sentTo_lookup. unfold afterRevoke. fold (cutVector st en l). destruct (existsb (conflicts st en wr) l) eqn:Hex.
    + rewrite decide_True; [done|]. apply list_elem_of_fmap. exists (mkRevokeRequest q (getName (base (mgr s))) st en wr).
      split; [done|]. apply elem_of_revokeRequests. by exists q, l.
    + rewrite decide_False; [done|]. intros (r & -> & (q' & l' & -> & _ & Hl' & Hex')%elem_of_revokeRequests)%list_elem_of_fmap. cbn in Hl. congruence.
Qed.

Lemma evServe_tokens p s s' : tokensOk b s -> orderly (EvServe p) s = true -> evServe p s = Ret s' -> tokensOk b s'.
Proof.
  intros Hok Ho (Hb & ts & st & en & wr & Hp & Hcase)%evServe_inv. destruct (to_call b s Hok p _ Hp) as (H1 & H2 & H3).
  destruct Hcase as [[Hn _]|(permit & msgs & f & Hr & ->)].
  { destruct (proj1 (to_dom b s Hok p)) as [l Hl]; [by rewrite Hp|congruence]. }
  destruct (serve_inv s p ts st en wr permit msgs f Hok Hb Hp Ho Hr) as (mine' & Hm' & Hsame & Hfit & Hrange & Hnp & Hsent & Hoth).
  fold (sentTo msgs). split; cbn [mgr busy peers revokers].
  - eapply mm_reach_step; [apply Hok|]. eapply mm_step_grant; [| |exact Hr]; word_lia.
  - intros q. destruct (decide (q = p)) as [->|Hne]; [rewrite Hp, Hm'; split; by eexists|].
    rewrite Hoth, fmap_is_Some by done. apply Hok.
  - intros q x l Hx Hl. unfold uncut; cbn. destruct (decide (q = p)) as [->|Hne].
    + simplify_eq. rewrite Hnp. unfold unapplied; cbn. by rewrite decide_True.
    + rewrite Hoth in Hl by done. destruct (clientPermissions (mgr s) !! q) as [l0|] eqn:Hl0; [|done]. injection Hl as <-.
      pose proof (to_mirror b s Hok q x l0 Hx Hl0) as Hmi. rewrite Hb in Hmi. unfold uncut in Hmi. rewrite Hb in Hmi.
      assert (unapplied (Some (mkBusy p st en wr permit)) q x = unapplied None q x) as ->.
      { unfold unapplied; cbn. destruct (call x); try done; by rewrite decide_False. }
      destruct (sentTo msgs !! q); [by apply cutVector_same_tokens|done].
  - apply Hok.
  - intros q x g Hx. unfold unapplied; cbn. destruct (call x) eqn:Hc; [| |intros Hg; apply (to_fits b s Hok q x g Hx); unfold unapplied; by rewrite Hc|];
      (destruct (decide (p = q)) as [<-|]; [|done]); intros [= <-]; simplify_eq; done.
  - apply Hok.
  - intros bz [= <-]; cbn. repeat (split; [done|]). by eexists.
  - done.
  - exact Hsent.
Qed.

(** The mutex is released: the record of the requester is its vector with the reply. *)
Lemma evGrant_tokens s s' : tokensOk b s -> evGrant s = Ret s' -> tokensOk b s'.
Proof.
  intros Hok (bz & Hb & Hr & ->)%evGrant_inv. destruct (to_busy b s Hok bz Hb) as (_ & Hrange & x & Hx & Hc). rewrite Hx.
  set (x' := mkPeer _ _).
  assert (Hl : forall r y, <[bz_peer bz := x']> (peers s) !! r = Some y -> exists y0, peers s !! r = Some y0 /\ tokens y = tokens y0 /\
    unapplied None r y = unapplied (busy s) r y0 /\ (callOk (call y0) -> callOk (call y))).
  { intros r y. rewrite lookup_insert. destruct (decide (bz_peer bz = r)) as [<-|Hne].
    - intros [= <-]. exists x. split; [done|]. split; [done|]. rewrite Hb, Hc. split; [|done].
      unfold unapplied; cbn. rewrite Hc. by rewrite decide_True.
    - intros Hy. exists y. split; [done|]. split; [done|]. split; [|done]. rewrite Hb. unfold unapplied.
      destruct (call y); try done; by rewrite decide_False. }
  split; cbn [mgr busy peers revokers].
  - apply Hok.
  - intros r. rewrite <- (to_dom b s Hok), lookup_insert. case_decide; [subst; rewrite Hx; split; by eexists|done].
  - intros r y l (y0 & Hy & -> & -> & _)%Hl Hlr. pose proof (to_mirror b s Hok r y0 l Hy Hlr) as Hm.
    unfold uncut in *; cbn. rewrite Hb, Hr, lookup_empty in Hm. by rewrite Hb.
  - intros r y (y0 & Hy & -> & _)%Hl. by apply (to_wf b s Hok r).
  - intros r y g (y0 & Hy & -> & -> & _)%Hl. by apply (to_fits b s Hok r).
  - intros r y (y0 & Hy & _ & _ & H)%Hl. apply H. by eapply to_call.
  - done.
  - done.
  - intros q. rewrite lookup_empty. by intros [].
Qed.

Lemma evOpen_tokens p s s' : tokensOk b s -> evOpen p s = Ret s' -> tokensOk b s'.
Proof.
  intros Hok (Hb & _ & [-> |[Hn ->]])%evOpen_inv; [done|]. assert (Hr := to_quiet b s Hok Hb).
  assert (Hl : forall r y, <[p := mkPeer [] Idle]> (peers s) !! r = Some y -> (r = p /\ y = mkPeer [] Idle) \/ (r <> p /\ peers s !! r = Some y)).
  { intros r y. rewrite lookup_insert. case_decide; [intros [= <-]; by left|]. right. split; [congruence|done]. }
  split; cbn [mgr busy peers revokers].
  - eapply mm_reach_step; [apply Hok|]. pose proof (mm_step_open p (mgr s)) as Ho. unfold open in Ho. by rewrite Hn in Ho.
  - intros r. cbn. rewrite !lookup_insert. case_decide; [split; by eexists|apply Hok].
  - intros r y l [[-> ->]|[Hne Hy]]%Hl; cbn.
    + rewrite lookup_insert_eq. intros [= <-]. done.
    + rewrite lookup_insert_ne by done. intros Hlr. pose proof (to_mirror b s Hok r y l Hy Hlr) as Hm.
      unfold uncut in *. by rewrite Hb in Hm.
  - intros r y [[-> ->]|[Hne Hy]]%Hl; [by split; [constructor|]|by apply (to_wf b s Hok r)].
  - intros r y g [[-> ->]|[Hne Hy]]%Hl; [done|]. rewrite <- Hb. by apply (to_fits b s Hok r).
  - intros r y [[-> ->]|[Hne Hy]]%Hl; [done|by eapply to_call].
  - done.
  - done.
  - intros q. rewrite Hr, lookup_empty. by intros [].
Qed.

Lemma evClose_tokens p s s' : tokensOk b s -> evClose p s = Ret s' -> tokensOk b s'.
Proof.
  intros Hok (Hb & _ & [-> | ->])%evClose_inv; [done|]. assert (Hr := to_quiet b s Hok Hb).
  assert (Hl : forall A (m : gmap string A) r y, delete p m !! r = Some y -> m !! r = Some y) by (intros A m r y; rewrite lookup_delete; by case_decide).
  split; cbn [mgr busy peers revokers].
  - eapply mm_reach_step; [apply Hok|]. pose proof (mm_step_close p (mgr s)) as Ho.
    unfold close in Ho. destruct (clientPermissions (mgr s) !! p) eqn:Hn; [done|]. by rewrite delete_id; destruct (mgr s).
  - intros r. cbn. rewrite !lookup_delete. case_decide; [split; intros [? ?]; done|apply Hok].
  - intros r y l Hy%Hl Hlr%Hl. pose proof (to_mirror b s Hok r y l Hy Hlr) as Hm. unfold uncut in *. by rewrite Hb in Hm.
  - intros r y Hy%Hl. by apply (to_wf b s Hok r).
  - intros r y g Hy%Hl. rewrite <- Hb. by apply (to_fits b s Hok r).
  - intros r y Hy%Hl. by eapply to_call.
  - done.
  - done.
  - intros q. rewrite Hr, lookup_empty. by intros [].
Qed.
End Tokens.

(** ** Exclusion *)

(** What a client can access, or will once its reply arrives. *)
Definition underWay (c : CallState) (w : bool) (a : Z) : Prop :=
  match c with Replied _ _ wr rs re => requested rs re wr w a | _ => False end.

Definition reaches (x : Peer) (w : bool) (a : Z) : Prop := holds (tokens x) w a \/ underWay (call x) w a.

Definition exclusiveOk (s : State) : Prop :=
  forall p q x y a, p <> q -> peers s !! p = Some x -> peers s !! q = Some y -> reaches x true a -> ~ reaches y false a.

Section Exclusion.
Context (b : File).
Implicit Types (s : State) (p q : string) (x y : Peer).

(** Between two requests everything a client has or will have is in the record. *)
Lemma reaches_record s p x w a :
  tokensOk b s -> busy s = None -> peers s !! p = Some x -> reaches x w a ->
  exists l, clientPermissions (mgr s) !! p = Some l /\ holds l w a.
Proof.
  intros Hok Hb Hx Hr. destruct (proj1 (to_dom b s Hok p)) as [l Hl]; [by rewrite Hx|]. exists l. split; [done|].
  pose proof (to_mirror b s Hok p x l Hx Hl) as Hm. rewrite <- Hm. destruct (to_wf b s Hok p x Hx) as [Hsm Hso].
  unfold uncut. rewrite Hb. cbn. destruct Hr as [Hh|Hu].
  - destruct (unapplied None p x) as [g|] eqn:Hg; [|done]. rewrite holds_added; [by left|done|done|].
    apply (to_fits b s Hok p x g Hx). by rewrite Hb.
  - unfold underWay in Hu. destruct (call x) as [| |st en wr rs re|] eqn:Hc; try done.
    assert (Hg : unapplied None p x = Some (rs, re, wr)) by (unfold unapplied; by rewrite Hc). rewrite Hg.
    rewrite holds_added; [by right|done|done|]. apply (to_fits b s Hok p x _ Hx). by rewrite Hb.
Qed.

Lemma quiet_exclusive s : tokensOk b s -> busy s = None -> exclusiveOk s.
Proof.
  intros Hok Hb p q x y a Hne Hx Hy Hrx Hry.
  destruct (reaches_record s p x true a Hok Hb Hx Hrx) as (lx & Hlx & Hhx).
  destruct (reaches_record s q y false a Hok Hb Hy Hry) as (ly & Hly & Hhy).
  destruct (mm_reachable_invariant b (mgr s)) as [_ Hex]; [apply Hok|]. by eapply (Hex p q).
Qed.

(** Nobody gains anything. *)
Lemma exclusiveOk_shrink s s' p x x' :
  exclusiveOk s -> peers s !! p = Some x -> peers s' = <[p := x']> (peers s) ->
  (forall w a, reaches x' w a -> reaches x w a) -> exclusiveOk s'.
Proof.
  intros Hex Hx Ep Hsub r q y z a Hne.
  assert (Hl : forall r y, peers s' !! r = Some y -> exists y0, peers s !! r = Some y0 /\ forall w a, reaches y w a -> reaches y0 w a).
  { intros r' y'. rewrite Ep, lookup_insert. case_decide; [intros [= <-]; subst; by exists x|]. intros Hy. by exists y'. }
  intros (y0 & Hy0 & H1)%Hl (z0 & Hz0 & H2)%Hl ?%H1 ?%H2. by eapply (Hex r q).
Qed.

Lemma holds_reaches (x x' : Peer) :
  same_tokens (tokens x') (tokens x) -> underWay (call x') = underWay (call x) -> forall w a, reaches x' w a -> reaches x w a.
Proof. unfold reaches. intros Hs -> w a. by rewrite Hs. Qed.

Lemma step_exclusive ev s s' : tokensOk b s -> tokensOk b s' -> exclusiveOk s -> step ev s = Ret s' -> exclusiveOk s'.
Proof.
  intros Hok Hok' Hex Hs. destruct (busy s') eqn:Hb'; [|by apply quiet_exclusive].
  destruct ev as [p|p|p st en wr|p|q|q|q| |p|p]; cbn in Hs.
  - apply evOpen_inv in Hs as (_ & _ & [-> |[_ ->]]); done.
  - apply evClose_inv in Hs as (_ & _ & [-> | ->]); done.
  - apply evCall_inv in Hs as (ts & c & Hp & -> & Hc). eapply exclusiveOk_shrink; [exact Hex|exact Hp|reflexivity|].
    destruct Hc as [-> | ->]; by apply holds_reaches.
  - apply evServe_inv in Hs as (_ & ts & st & en & wr & Hp & [[_ ->]|(permit & msgs & f & _ & ->)]); [|exact Hex].
    eapply exclusiveOk_shrink; [exact Hex|exact Hp|reflexivity|by apply holds_reaches].
  - apply evRevoke_inv in Hs as (bz & _ & _ & [[_ ->]|(x & ts & count & Hx & Hw & ->)]); [exact Hex|].
    pose proof (registerWaiters_tokens (bz_start bz) (bz_end bz) (nextSem s) (tokens x)) as Hsame. rewrite Hw in Hsame.
    eapply exclusiveOk_shrink; [exact Hex|exact Hx|reflexivity|by apply holds_reaches].
  - apply evWake_inv in Hs as (sem & count & v & _ & _ & ->). exact Hex.
  - apply evCut_inv in Hs as (bz & sem & x & ts & Hb & _ & Hx & Hr & ->).
    eapply exclusiveOk_shrink; [exact Hex|exact Hx|reflexivity|]. unfold reaches; cbn. intros w a [Hh|?]; [left|by right].
    destruct (cutVector_wf (bz_start bz) (bz_end bz) (tokens x)) as (_ & _ & Hcut); [by eapply busy_range|by apply (to_wf b s Hok q)..|].
    rewrite (cutVector_Ret _ _ _ _ Hr) in Hcut. by apply Hcut.
  - by apply evGrant_inv in Hs as (bz & _ & _ & ->).
  - apply evReply_inv in Hs as (ts & st & en & wr & rs & re & ts' & Hp & Ha & ->).
    destruct (reply_fits b s p ts st en wr rs re ts' Hok Hp Ha) as (_ & _ & Hh).
    eapply exclusiveOk_shrink; [exact Hex|exact Hp|reflexivity|]. unfold reaches; cbn. intros w a [?|[]]. by apply Hh.
  - apply evDone_inv in Hs as (ts & st & en & wr & g & ts' & posts & m & Hp & Hu & _ & ->).
    pose proof (unlockPermission_tokens st en wr ts) as Hsame. rewrite Hu in Hsame.
    eapply exclusiveOk_shrink; [exact Hex|exact Hp|reflexivity|by apply holds_reaches].
Qed.
End Exclusion.

(** ** Semaphores *)

Definition lockedShared (st en : Z) (l : list Permission) : nat :=
  length (List.filter (fun t => isShared t st en && locked t) l).

(** The locked tokens that will post [sem] when they are unlocked. *)
Definition lockedWith (sem : SemId) (l : list Permission) : nat :=
  length (List.filter (fun t => locked t && bool_decide (sem ∈ waitingSemaphores t)) l).

(** The semaphores that the tokens of a vector know. *)
Definition knows (l : list Permission) (sem : SemId) : Prop := exists t, t ∈ l /\ sem ∈ waitingSemaphores t.

Record semsOk (s : State) : Prop := {
  se_wait : forall q sem k, revokers s !! q = Some (Waiting sem k) ->
    exists x v, peers s !! q = Some x /\ isReplied (call x) = false /\ sems s !! sem = Some v /\
      (k <= v + lockedWith sem (tokens x))%nat /\
      (forall bz st en wr, busy s = Some bz -> call x = Using st en wr true ->
         v = 0%nat /\ k = lockedShared (bz_start bz) (bz_end bz) (tokens x));
  se_fresh : forall q sem k, revokers s !! q = Some (Waiting sem k) -> sem < nextSem s;
  se_inj : forall q q' sem k k', revokers s !! q = Some (Waiting sem k) -> revokers s !! q' = Some (Waiting sem k') -> q = q';
  se_known : forall p x sem, peers s !! p = Some x -> knows (tokens x) sem -> sem < nextSem s;
  se_owner : forall p x sem q k, peers s !! p = Some x -> knows (tokens x) sem ->
    revokers s !! q = Some (Waiting sem k) -> q = p }.

Lemma registerWaiters_registers st en sem l l' n :
  registerWaiters st en sem l = (l', n) ->
  n = lockedShared st en l' /\ (n <= lockedWith sem l')%nat /\ forall sem', knows l' sem' -> sem' = sem \/ knows l sem'.
Proof.
  unfold lockedShared, lockedWith. revert l' n. induction l as [|t l IH]; cbn; intros l' n.
  { intros [= <- <-]. split; [done|]. split; [lia|]. auto. }
  destruct (registerWaiters st en sem l) as [rest count]. destruct (IH rest count eq_refl) as (H1 & H2 & H3). clear IH.
  assert (Hk : forall t', (forall sem', sem' ∈ waitingSemaphores t' -> sem' = sem \/ sem' ∈ waitingSemaphores t) ->
    forall sem', knows (t' :: rest) sem' -> sem' = sem \/ knows (t :: l) sem').
  { intros t' Ht' sem' (u & [->|Hu]%elem_of_cons & Hs); [destruct (Ht' sem' Hs) as [?|?]; [by left|]; right; exists t; split; [constructor|done]|].
    destruct (H3 sem') as [?|(u' & ? & ?)]; [by exists u|by left|]. right. exists u'. split; [by constructor|done]. }
  unfold addWaitingSemaphore. destruct (isShared t st en) eqn:Hs; [destruct (locked t) eqn:Hl|]; intros [= <- <-]; cbn;
    rewrite ?Hs, ?Hl; cbn.
  - assert (isShared (mkPermission (start t) (end_ t) (write t) (permitLock t) true (waitingSemaphores t ++ [sem])) st en = true) as -> by done.
    rewrite bool_decide_true by set_solver. cbn. split; [lia|]. split; [lia|]. apply Hk. cbn. set_solver.
  - split; [lia|]. split; [lia|]. apply Hk. auto.
  - split; [lia|]. split; [destruct (locked t && _); cbn; lia|]. apply Hk. auto.
Qed.

(** [unlockPermission] posts for every token that it unlocks. *)
Lemma unlockPermission_posts st en wr l l' posts :
  unlockPermission st en wr l = (l', posts) ->
  (forall sem, knows l' sem -> knows l sem) /\ (forall sem, sem ∈ posts -> knows l sem) /\
  forall sem, (lockedWith sem l <= lockedWith sem l' + count_occ Z.eq_dec posts sem)%nat.
Proof.
  unfold lockedWith. revert l' posts. induction l as [|t l IH]; cbn; intros l' posts.
  { intros [= <- <-]. split; [done|]. split; [by intros ? ?%not_elem_of_nil|]. intros sem. cbn. lia. }
  destruct (unlockPermission st en wr l) as [rest ps]. destruct (IH rest ps eq_refl) as (H1 & H2 & H3). clear IH.
  assert (Hl : forall sem, knows l sem -> knows (t :: l) sem) by (intros sem (u & ? & ?); exists u; split; [by constructor|done]).
  assert (Ht : forall sem, sem ∈ waitingSemaphores t -> knows (t :: l) sem) by (intros sem ?; exists t; split; [constructor|done]).
  destruct (isShared t st en); intros [= <- <-]; (split; [|split]).
  - intros sem (u & [->|Hu]%elem_of_cons & Hs); [by apply Ht|]. apply Hl, H1. by exists u.
  - intros sem [?|?]%elem_of_app; auto.
  - intros sem. unfold SemId in *. cbn. rewrite count_occ_app. specialize (H3 sem). destruct (locked t); cbn; [|lia].
    case_bool_decide as Hin; cbn; [|lia]. apply list_elem_of_In, (count_occ_In Z.eq_dec) in Hin. lia.
  - intros sem (u & [->|Hu]%elem_of_cons & Hs); [by apply Ht|]. apply Hl, H1. by exists u.
  - auto.
  - intros sem. cbn. specialize (H3 sem). destruct (locked t && _); cbn; lia.
Qed.

(** What a sequence of posts does to one semaphore. *)
Lemma posts_lookup (posts : list SemId) (m m' : gmap SemId nat) (sem : SemId) :
  foldM post posts m = Ret m' -> m' !! sem = (fun v => (v + count_occ Z.eq_dec posts sem)%nat) <$> m !! sem.
Proof.
  revert m. induction posts as [|a posts IH]; intros m; cbn.
  { intros [= <-]. destruct (m !! sem); cbn; [f_equal; lia|done]. }
  intros (m1 & Hp & Hr)%bind_Ret. rewrite (IH m1 Hr). unfold post in Hp. destruct (m !! a) as [v|] eqn:Ha; [|done]. injection Hp as <-.
  unfold SemId in *. destruct (Z.eq_dec a sem) as [->|Hne]; [rewrite lookup_insert_eq, Ha; cbn; f_equal; lia|by rewrite lookup_insert_ne].
Qed.

(** The operations on a vector bring in no semaphores. *)
Section Known.
Context (K : SemId -> Prop).
Let known (l : list Permission) : Prop := forall sem, knows l sem -> K sem.

Lemma known_insert_at i t l : (forall sem, sem ∈ waitingSemaphores t -> K sem) -> known l -> known (insert_at i t l).
Proof. intros Ht Hl sem (u & [->|Hu]%elem_of_insert_at & Hs); [by apply Ht|]. apply Hl. by exists u. Qed.

Lemma known_elem l l' : known l -> (forall t, t ∈ l' -> t ∈ l) -> known l'.
Proof. intros Hl Hsub sem (u & Hu & Hs). apply Hl. exists u. auto. Qed.

Lemma known_erase_range i j l : known l -> known (erase_range i j l).
Proof. intros Hl. eapply known_elem; [done|]. intros t. apply elem_of_erase_range. Qed.

Lemma maybeLock_sems lk t t' : maybeLock lk t = Ret t' -> waitingSemaphores t' = waitingSemaphores t.
Proof. unfold maybeLock, lock. destruct lk; [destruct (permitLock t)|]; by intros [= <-]. Qed.

Lemma known_new lk i st en w t l : maybeLock lk (newPermission st en w) = Ret t -> known l -> known (insert_at i t l).
Proof. intros Hm. apply known_insert_at. rewrite (maybeLock_sems _ _ _ Hm). by intros sem ?%not_elem_of_nil. Qed.

Lemma known_insertOpt_new i (c : bool) st en w l :
  known l -> known (insertOpt i (if c then Some (newPermission st en w) else None) l).
Proof. destruct c; cbn; [|done]. by eapply (known_new false). Qed.

Lemma addReadLoop_known lk i wps newEnd m r : known wps -> known m -> addReadLoop lk i wps newEnd m = Ret r -> known r.2.
Proof.
  revert newEnd m. induction wps as [|wp wps IH]; intros newEnd m Hw Hm; cbn; [by intros [= <-]|].
  intros H. inv_ret. eapply IH; [| |exact H]; [by eapply known_elem; [|intros t; by constructor]|].
  apply known_insert_at; [|by eapply known_new]. rewrite (maybeLock_sems _ _ _ E0). intros sem Hs. apply Hw. exists wp. split; [constructor|done].
Qed.

Lemma addReadLast_known lk i ns ne m m' : known m -> addReadLast lk i ns ne m = Ret m' -> known m'.
Proof. unfold addReadLast. intros Hm H. case_match; inv_ret; subst; [by eapply known_new|done]. Qed.

Lemma addPermission_known st en w l lk l' : known l -> addPermission st en w l lk = Ret l' -> known l'.
Proof.
  intros Hl. unfold addPermission. destruct (sharedSpan st en l) as [[i j]|]; [destruct w|].
  - unfold addWrite. intros H. inv_ret. subst. apply known_insertOpt_new. eapply known_new; [done|].
    by apply known_insertOpt_new, known_erase_range.
  - unfold addRead. intros H. inv_ret.
    assert (Hw : known (reverse (List.filter isWrite (slice i j l)))).
    { eapply known_elem; [exact Hl|]. intros t (n & _ & Hn)%elem_of_writePermits. by eapply list_elem_of_lookup_2. }
    destruct (reverse _) as [|wl rest]; [|destruct (_ && _)]; inv_ret; subst.
    + eapply known_new; [done|by apply known_erase_range].
    + assert (Hrest : known rest) by (eapply known_elem; [exact Hw|intros t; by constructor]).
      eapply addReadLast_known; [|exact H]. eapply addReadLoop_known; [exact Hrest| |exact E2].
      apply known_insert_at; [|by apply known_erase_range]. rewrite (maybeLock_sems _ _ _ E1). intros sem Hs. apply Hw. exists wl. split; [constructor|done].
    + eapply addReadLast_known; [|exact H]. eapply addReadLoop_known; [exact Hw| |exact E1]. by apply known_erase_range.
  - intros (t & Hm & Hin)%addUnshared_elem. intros sem (u & [->|Hu]%Hin & Hs); [|apply Hl; by exists u].
    rewrite (maybeLock_sems _ _ _ Hm) in Hs. by apply not_elem_of_nil in Hs.
Qed.

Lemma revokeRange_known st en l l' : known l -> revokeRange st en l = Ret l' -> known l'.
Proof.
  intros Hl Hr sem (u & Hu & Hs). apply Hl.
  destruct (revokeRange_elem st en l l' u Hr Hu) as [[Hin _]|(t & Hin & _ & _ & [Hsub _] & _)]; [by exists u|]. exists t. auto.
Qed.
End Known.

Section Sems.
Context (b : File).
Implicit Types (s : State) (p q r : string) (x y : Peer).

(** Nobody waits, and the vectors are the same or new. *)
Lemma semsOk_quiet s s' :
  semsOk s -> nextSem s' = nextSem s -> (forall q sem k, revokers s' !! q <> Some (Waiting sem k)) ->
  (forall p x', peers s' !! p = Some x' -> tokens x' = [] \/ exists x, peers s !! p = Some x /\ tokens x' = tokens x) ->
  semsOk s'.
Proof.
  intros Hok Hn Hr Hp. split; [intros q sem k H; by destruct (Hr q sem k)|intros q sem k H; by destruct (Hr q sem k)|intros q q' sem k k' H; by destruct (Hr q sem k)|
    |intros p x sem q k _ _ H; by destruct (Hr q sem k)].
  intros p x' sem [->|(x & Hx & ->)]%Hp Hk; [by destruct Hk as (t & Ht%not_elem_of_nil & _)|]. rewrite Hn. by eapply se_known.
Qed.

(** One client moves, the threads that wait stay where they are. *)
Lemma semsOk_local s s' p x x' :
  semsOk s -> nextSem s' = nextSem s -> busy s' = busy s -> revokers s' = revokers s ->
  peers s !! p = Some x -> peers s' = <[p := x']> (peers s) ->
  (forall sem, knows (tokens x') sem -> knows (tokens x) sem) ->
  (forall sem, ~ knows (tokens x) sem -> sems s' !! sem = sems s !! sem) ->
  (forall sem k v, revokers s !! p = Some (Waiting sem k) -> isReplied (call x) = false -> sems s !! sem = Some v ->
     (k <= v + lockedWith sem (tokens x))%nat ->
     isReplied (call x') = false /\ (forall st en wr, call x' <> Using st en wr true) /\
     exists v', sems s' !! sem = Some v' /\ (k <= v' + lockedWith sem (tokens x'))%nat) ->
  semsOk s'.
Proof.
  intros [Hw Hf Hi Hk Ho] En Eb Er Hx Ep Hkn Hse Hp. split; rewrite ?En, ?Er; [|done|done| |].
  - intros q sem k Hq. destruct (Hw q sem k Hq) as (y & v & Hy & Hr & Hv & Hle & Hg). rewrite Ep, Eb, lookup_insert.
    destruct (decide (p = q)) as [<-|Hne].
    + simplify_eq. destruct (Hp sem k v Hq Hr Hv Hle) as (Hr' & Hu & v' & Hv' & Hle'). exists x', v'. repeat (split; [done|]).
      intros bz st en wr _ Hc. by destruct (Hu st en wr).
    + exists y, v. repeat (split; [done|]). split; [|done]. rewrite Hse; [done|]. intros Hkx. by destruct Hne, (Ho p x sem q k Hx Hkx Hq).
  - intros q y sem. rewrite Ep, lookup_insert. case_decide; [intros [= <-] ?%Hkn; by eapply Hk|apply Hk].
  - intros q y sem r k. rewrite Ep, lookup_insert. case_decide; [intros [= <-] ?%Hkn; subst; by eapply Ho|apply Ho].
Qed.

Lemma evRevoke_sems q s s' : semsOk s -> inFlight q s = false -> evRevoke q s = Ret s' -> semsOk s'.
Proof.
  intros [Hw Hf Hi Hk Ho] Hfl (bz & Hb & Hq & [[Hx ->]|(x & ts & count & Hx & Hreg & ->)])%evRevoke_inv.
  { assert (Hd : forall r R, delete q (revokers s) !! r = Some R -> revokers s !! r = Some R) by (intros r R; rewrite lookup_delete; by case_decide).
    split; cbn; [intros r sem k ?%Hd; by apply Hw|intros r sem k ?%Hd; by eapply Hf|intros r r' sem k k' ?%Hd ?%Hd; by eapply Hi
      |done|intros p y sem r k ? ? ?%Hd; by eapply Ho]. }
  destruct (registerWaiters_registers _ _ _ _ _ _ Hreg) as (Hn & Hle & Hkn).
  assert (Hl : forall r sem k, <[q := Waiting (nextSem s) count]> (revokers s) !! r = Some (Waiting sem k) ->
    (r = q /\ sem = nextSem s /\ k = count) \/ (r <> q /\ sem < nextSem s /\ revokers s !! r = Some (Waiting sem k))).
  { intros r sem k. rewrite lookup_insert. case_decide; [intros [= <- <-]; by left|]. intros Hr. right. split; [done|]. split; [by eapply Hf|done]. }
  split; cbn [mgr busy revokers peers sems nextSem].
  - intros r sem k [(-> & -> & ->)|(Hne & Hlt & Hr)]%Hl.
    + exists (mkPeer ts (call x)), 0%nat. rewrite !lookup_insert_eq. cbn. repeat (split; [done|]).
      split; [unfold inFlight in Hfl; rewrite Hx in Hfl; destruct x as [? []]; done|]. split; [done|]. split; [done|].
      intros bz' st en wr Hb' _. rewrite Hb in Hb'. by injection Hb' as <-.
    + destruct (Hw r sem k Hr) as (y & v & Hy & Hrest). exists y, v. rewrite !lookup_insert_ne by (done || lia). by split.
  - intros r sem k [(-> & -> & ->)|(Hne & Hlt & Hr)]%Hl; lia.
  - intros r r' sem k k' [(-> & -> & ->)|(Hne & Hlt & Hr)]%Hl [(-> & Hs & ->)|(Hne' & Hlt' & Hr')]%Hl; [done|lia|lia|by eapply Hi].
  - intros p y sem. rewrite lookup_insert. case_decide; [intros [= <-] [->|Hkx]%Hkn; [lia|]|intros Hy Hky];
      [specialize (Hk q x sem Hx Hkx)|specialize (Hk p y sem Hy Hky)]; lia.
  - intros p y sem r k. rewrite lookup_insert. case_decide as Hpq.
    + subst p. intros [= <-] Hkt [(-> & _)|(Hne & Hlt & Hr)]%Hl; [done|]. destruct (Hkn sem Hkt) as [->|?]; [lia|]. by eapply Ho.
    + intros Hy Hky [(-> & -> & ->)|(Hne & Hlt & Hr)]%Hl; [|by eapply Ho]. specialize (Hk p y (nextSem s) Hy Hky). lia.
Qed.

Lemma evWake_sems q s s' : semsOk s -> evWake q s = Ret s' -> semsOk s'.
Proof.
  intros [Hw Hf Hi Hk Ho] (sem & count & v & Hq & Hv & ->)%evWake_inv.
  assert (Hl : forall r sem' k, <[q := Waiting sem count]> (revokers s) !! r = Some (Waiting sem' k) ->
    exists k0, revokers s !! r = Some (Waiting sem' k0) /\ ((r = q /\ sem' = sem /\ k0 = S count /\ k = count) \/ (r <> q /\ sem' <> sem /\ k0 = k))).
  { intros r sem' k. rewrite lookup_insert. destruct (decide (q = r)) as [<-|Hne]; [intros [= <- <-]; exists (S count); split; [done|]; left; by repeat split|].
    intros Hr. exists k. split; [done|]. right. split; [done|]. split; [|done]. intros ->. by destruct Hne, (Hi q r sem _ _ Hq Hr). }
  split; cbn [mgr busy revokers peers sems nextSem].
  - intros r sem' k (k0 & Hr & Hcase)%Hl. destruct (Hw r sem' k0 Hr) as (y & v0 & Hy & Hrep & Hv0 & Hle & Hg).
    destruct Hcase as [(-> & -> & -> & ->)|(Hne & Hns & ->)].
    + rewrite Hv in Hv0. injection Hv0 as <-. exists y, v. rewrite lookup_insert_eq. repeat (split; [done|]). split; [lia|].
      intros bz st en wr Hb Hc. by destruct (Hg bz st en wr Hb Hc).
    + exists y, v0. rewrite lookup_insert_ne by done. by repeat (split; [done|]).
  - intros r sem' k (k0 & Hr & _)%Hl. by eapply Hf.
  - intros r r' sem' k k' (k0 & Hr & _)%Hl (k1 & Hr' & _)%Hl. by eapply Hi.
  - done.
  - intros p y sem' r k Hy Hky (k0 & Hr & _)%Hl. by eapply Ho.
Qed.

Lemma evCut_sems q s s' : semsOk s -> evCut q s = Ret s' -> semsOk s'.
Proof.
  intros [Hw Hf Hi Hk Ho] (bz & sem & x & ts & Hb & Hq & Hx & Hr & ->)%evCut_inv.
  assert (Hkn : forall sem', knows ts sem' -> knows (tokens x) sem') by (apply (revokeRange_known (knows (tokens x)) _ _ _ _ (fun _ H => H) Hr)).
  assert (Hl : forall r sem' k, delete q (revokers s) !! r = Some (Waiting sem' k) ->
    r <> q /\ sem' <> sem /\ revokers s !! r = Some (Waiting sem' k)).
  { intros r sem' k. rewrite lookup_delete. destruct (decide (q = r)) as [|Hne]; [done|]. intros Hr'. split; [done|]. split; [|done].
    intros ->. by destruct Hne, (Hi q r sem _ _ Hq Hr'). }
  split; cbn [mgr busy revokers peers sems nextSem].
  - intros r sem' k (Hne & Hns & Hr')%Hl. destruct (Hw r sem' k Hr') as (y & v & Hy & Hrest). exists y, v.
    rewrite lookup_insert_ne, lookup_delete_ne by done. by split.
  - intros r sem' k (Hne & Hns & Hr')%Hl. by eapply Hf.
  - intros r r' sem' k k' (_ & _ & Hr1)%Hl (_ & _ & Hr2)%Hl. by eapply Hi.
  - intros p y sem'. rewrite lookup_insert. case_decide; [intros [= <-] ?%Hkn; by eapply Hk|apply Hk].
  - intros p y sem' r k. rewrite lookup_insert. case_decide as Hpq; intros Hy Hky (Hne & _ & Hr')%Hl; [|by eapply Ho].
    injection Hy as <-. subst p. eapply (Ho q x sem'); [done|by apply Hkn|done].
Qed.

Lemma step_sems ev s s' : tokensOk b s -> semsOk s -> orderly ev s = true -> step ev s = Ret s' -> semsOk s'.
Proof.
  intros Htok Hok Ho Hs. destruct ev as [p|p|p st en wr|p|q|q|q| |p|p]; cbn in Ho, Hs.
  - apply evOpen_inv in Hs as (Hb & _ & [-> |[_ ->]]); [done|]. apply (semsOk_quiet s); [done|done|..]; cbn.
    + intros q sem k. by rewrite (to_quiet b s Htok Hb), lookup_empty.
    + intros q x. rewrite lookup_insert. case_decide; [intros [= <-]; by left|]. intros Hx. right. by exists x.
  - apply evClose_inv in Hs as (Hb & _ & [-> | ->]); [done|]. apply (semsOk_quiet s); [done|done|..]; cbn.
    + intros q sem k. by rewrite (to_quiet b s Htok Hb), lookup_empty.
    + intros q x. rewrite lookup_delete. case_decide; [done|]. intros Hx. right. by exists x.
  - apply evCall_inv in Hs as (ts & c & Hp & -> & Hc). eapply (semsOk_local s _ p); try done.
    intros sem k v _ _ Hv Hle. cbn. destruct Hc as [-> | ->]; (split; [done|]; split; [done|]; by exists v).
  - apply evServe_inv in Hs as (Hb & ts & st & en & wr & Hp & [[_ ->]|(permit & msgs & f & _ & ->)]).
    + eapply (semsOk_local s _ p); try done. intros sem k v _ _ Hv Hle. cbn. split; [done|]. split; [done|]. by exists v.
    + apply (semsOk_quiet s); [done|done|..]; cbn; [|intros q x Hx; right; by exists x].
      intros q sem k. fold (sentTo msgs). rewrite sentTo_lookup. by case_decide.
  - apply (evRevoke_sems q s); [done|by apply negb_true_iff|done].
  - by apply (evWake_sems q s).
  - by apply (evCut_sems q s).
  - apply evGrant_inv in Hs as (bz & Hb & Hr & ->). apply (semsOk_quiet s); [done|done|by intros ???|]; cbn.
    intros q x'. destruct (peers s !! bz_peer bz) as [x|] eqn:Hx; [|intros ?; right; by exists x'].
    rewrite lookup_insert. case_decide; [intros [= <-]; subst; right; by exists x|]. intros ?. right. by exists x'.
  - apply evReply_inv in Hs as (ts & st & en & wr & rs & re & ts' & Hp & Ha & ->). eapply (semsOk_local s _ p); try done.
    apply (addPermission_known (knows ts) _ _ _ _ _ _ (fun _ H => H) Ha).
  - apply evDone_inv in Hs as (ts & st & en & wr & g & ts' & posts & m & Hp & Hu & Hm & ->).
    destruct (unlockPermission_posts _ _ _ _ _ _ Hu) as (Hk & Hpk & Hle). eapply (semsOk_local s _ p); try done; cbn.
    + intros sem Hn. rewrite (posts_lookup _ _ _ sem Hm), (proj1 (count_occ_not_In Z.eq_dec posts sem)).
      * destruct (sems s !! sem); cbn; [f_equal; lia|done].
      * intros Hin. apply Hn, Hpk. by apply list_elem_of_In.
    + intros sem k v _ _ Hv Hle'. split; [done|]. split; [done|]. eexists. rewrite (posts_lookup _ _ _ sem Hm), Hv. split; [done|].
      specialize (Hle sem). unfold lockedWith, SemId in *. lia.
Qed.
End Sems.

(** ** Calls in progress *)

(** The tokens of a call that the manager granted stay locked until it ends. *)
Definition protectedOk (s : State) : Prop :=
  forall p x st en wr a, peers s !! p = Some x -> call x = Using st en wr true -> st <= a < en -> holdsLocked true (tokens x) wr a.

Lemma registerWaiters_locked st en sem l l' n w a :
  registerWaiters st en sem l = (l', n) -> holdsLocked true l w a -> holdsLocked true l' w a.
Proof.
  intros Hr (t & Ht & Hl & Hg).
  assert (exists t', t' ∈ l' /\ locked t' = locked t /\ token t' = token t) as (t' & Ht' & Hl' & Htok).
  { clear Hl Hg. revert l' n Hr. induction l as [|u l IH]; cbn; [by apply not_elem_of_nil in Ht|].
    destruct (registerWaiters st en sem l) as [rest count]. intros l' n. unfold addWaitingSemaphore.
    assert (Hin : t = u \/ exists t', t' ∈ rest /\ locked t' = locked t /\ token t' = token t).
    { apply elem_of_cons in Ht as [->|Ht]; [by left|]. right. by eapply IH. }
    destruct (isShared u st en), (locked u) eqn:Hu; intros [= <- <-]; (destruct Hin as [->|(t' & ? & ? & ?)];
      [eexists; split; [constructor|]; done|exists t'; split; [by constructor|done]]). }
  exists t'. split; [done|]. rewrite Hl', (grants_token t' t) by done. auto.
Qed.

Lemma step_protected b ev s s' :
  tokensOk b s -> semsOk s -> protectedOk s -> step ev s = Ret s' -> protectedOk s'.
Proof.
  intros Htok Hsem Hok Hs.
  (* one client moves *)
  assert (Hlocal : forall p x', peers s' = <[p := x']> (peers s) ->
    (forall st en wr a, call x' = Using st en wr true -> st <= a < en -> holdsLocked true (tokens x') wr a) -> protectedOk s').
  { intros p x' Ep Hx' q y st en wr a. rewrite Ep, lookup_insert. case_decide; [intros [= <-]; apply Hx'|apply Hok]. }
  destruct ev as [p|p|p st en wr|p|q|q|q| |p|p]; cbn in Hs.
  - apply evOpen_inv in Hs as (_ & _ & [-> |[_ ->]]); [done|]. by eapply Hlocal.
  - apply evClose_inv in Hs as (_ & _ & [-> | ->]); [done|]. intros q x st en wr a. cbn. rewrite lookup_delete. case_decide; [done|apply Hok].
  - apply evCall_inv in Hs as (ts & c & Hp & -> & Hc). eapply Hlocal; [done|]. by destruct Hc as [-> | ->].
  - apply evServe_inv in Hs as (_ & ts & st & en & wr & Hp & [[_ ->]|(permit & msgs & f & _ & ->)]); [by eapply Hlocal|exact Hok].
  - apply evRevoke_inv in Hs as (bz & _ & _ & [[_ ->]|(x & ts & count & Hx & Hw & ->)]); [exact Hok|].
    eapply Hlocal; [done|]. cbn. intros st en wr a Hc Ha. eapply registerWaiters_locked; [done|by eapply Hok].
  - apply evWake_inv in Hs as (sem & count & v & _ & _ & ->). exact Hok.
  - apply evCut_inv in Hs as (bz & sem & x & ts & Hb & Hq & Hx & Hr & ->). eapply Hlocal; [done|]. cbn. intros st en wr a Hc Ha.
    destruct (se_wait s Hsem q sem 0%nat Hq) as (x0 & v & Hx0 & _ & _ & _ & Hg). simplify_eq.
    destruct (Hg bz st en wr Hb Hc) as [_ Hz]. destruct (Hok q x st en wr a Hx Hc Ha) as (t & Ht & Hl & Hgr).
    exists t. split; [|done]. eapply revokeRange_keeps; [by apply (to_wf b s Htok q)|exact Hr|done|].
    destruct (isShared t _ _) eqn:Hsh; [|done]. exfalso. unfold lockedShared in Hz. symmetry in Hz. apply nil_length_inv in Hz.
    assert (In t []) as []. rewrite <- Hz. apply filter_In. split; [by apply list_elem_of_In|]. by rewrite Hsh, Hl.
  - apply evGrant_inv in Hs as (bz & _ & _ & ->). destruct (peers s !! bz_peer bz) eqn:Hx; [by eapply Hlocal|exact Hok].
  - apply evReply_inv in Hs as (ts & st & en & wr & rs & re & ts' & Hp & Ha & ->). eapply Hlocal; [done|]. cbn.
    intros ? ? ? a [= <- <- <-] Hin. destruct (to_call b s Htok p _ Hp) as (_ & H1 & H2).
    destruct (to_fits b s Htok p _ (rs, re, wr) Hp ltac:(done)) as [(H3 & H4 & H5) _]. cbn in *.
    eapply (addPermission_locks rs re wr true ts); [lia|lia|by apply (to_wf b s Htok p _ Hp)|done|]. split; [lia|done].
  - apply evDone_inv in Hs as (ts & st & en & wr & g & ts' & posts & m & Hp & _ & _ & ->). by eapply Hlocal.
Qed.

(** ** All invariants *)

Lemma step_tokens b ev s s' : tokensOk b s -> semsOk s -> orderly ev s = true -> step ev s = Ret s' -> tokensOk b s'.
Proof.
  intros Hok Hsem Ho Hs. destruct ev as [p|p|p st en wr|p|q|q|q| |p|p]; cbn in Hs.
  - by eapply evOpen_tokens.
  - by eapply evClose_tokens.
  - cbn in Ho. eapply evCall_tokens; [done| |exact Hs]. zbool. by split.
  - by eapply evServe_tokens.
  - by eapply evRevoke_tokens.
  - by eapply evWake_tokens.
  - eapply evCut_tokens; [done| |done]. intros sem k x Hq Hx. destruct (se_wait s Hsem q sem k Hq) as (y & v & Hy & Hr & _). by simplify_eq.
  - by eapply evGrant_tokens.
  - by eapply evReply_tokens.
  - by eapply evDone_tokens.
Qed.

Record invariant (b : File) (s : State) : Prop := {
  iv_tokens : tokensOk b s;
  iv_exclusive : exclusiveOk s;
  iv_sems : semsOk s;
  iv_protected : protectedOk s }.

Lemma newState_invariant b : invariant b (newState b).
Proof.
  split; [split|..]; cbn; try done; try (by intros ? ? ?%lookup_empty_Some); try (by intros ? ? ? ?%lookup_empty_Some).
  - constructor.
  - intros p. split; intros [? ?]; done.
  - intros q [? ?]; done.
Qed.

Lemma reachable_invariant b s : reachable b s -> invariant b s.
Proof.
  induction 1 as [|ev s s' _ [H1 H2 H3 H4] Ho Hs]; [apply newState_invariant|].
  assert (H1' := step_tokens b ev s s' H1 H3 Ho Hs).
  split; [done|exact (step_exclusive b ev s s' H1 H1' H2 Hs)|exact (step_sems b ev s s' H1 H3 Ho Hs)|exact (step_protected b ev s s' H1 H3 H4 Hs)].
Qed.
