(* ===== verification/InterleavingProps.v ===== *)
(** What holds in every orderly interleaving of the token protocol, and what goes
    wrong in the others: exclusion of the clients, protection of the calls that the
    manager granted, completion of a grant, and concrete interleavings that break the
    protocol. *)

From Stdlib Require Import String.
From stdpp Require Import gmap strings.
From S2P Require Import Prelude Permission File Tokens MMFile ClientFile Interleaving InterleavingInv.
#[local] Open Scope Z_scope.

(** ** Progress of the threads *)

Section Progress.
Context (b : File).
Implicit Types (s : State) (p q r : string) (x y : Peer).

Lemma orderlyRun_app evs1 evs2 s s1 s2 :
  orderlyRun evs1 s = Ret s1 -> orderlyRun evs2 s1 = Ret s2 -> orderlyRun (evs1 ++ evs2) s = Ret s2.
Proof.
  revert s. induction evs1 as [|ev evs1 IH]; intros s; cbn; [by intros [= ->]|].
  destruct (orderly ev s); [|done]. intros (s3 & H1 & H2)%bind_Ret H3. rewrite H1. by apply IH.
Qed.

(** Posts that are there let a thread return from all its waits. *)
Lemma wakes q sem n v s :
  revokers s !! q = Some (Waiting sem n) -> sems s !! sem = Some (n + v)%nat ->
  exists s', orderlyRun (replicate n (EvWake q)) s = Ret s' /\ revokers s' = <[q := Waiting sem 0]> (revokers s) /\
    mgr s' = mgr s /\ busy s' = busy s /\ peers s' = peers s.
Proof.
  revert s. induction n as [|n IH]; intros s Hq Hv.
  { exists s. by rewrite insert_id. }
  cbn [replicate orderlyRun orderly step]. unfold evWake. rewrite Hq, Hv. cbn [Nat.add mbind outcome_bind].
  edestruct IH as (s' & Hr & Hrev & Hrest); [|shelve|exists s'; split; [exact Hr|]; split; [|exact Hrest]].
  - cbn. by rewrite lookup_insert_eq.
  - rewrite Hrev. cbn. by rewrite insert_insert_eq.
  Unshelve. cbn. by rewrite lookup_insert_eq.
Qed.

(** The last part of a revocation always returns. *)
Lemma cut_returns q sem bz x s :
  busy s = Some bz -> revokers s !! q = Some (Waiting sem 0) -> peers s !! q = Some x ->
  exists s' x', orderlyRun [EvCut q] s = Ret s' /\ revokers s' = delete q (revokers s) /\ mgr s' = mgr s /\ busy s' = busy s /\
    peers s' = <[q := x']> (peers s) /\ call x' = call x.
Proof.
  intros Hb Hq Hx. cbn. unfold evCut. rewrite Hb, Hq, Hx. cbn.
  destruct (revokeRange_total (bz_start bz) (bz_end bz) (tokens x)) as [ts ->]. cbn.
  eexists _, (mkPeer ts (call x)). split; [reflexivity|]. done.
Qed.

Lemma registerWaiters_free st en sem l :
  (forall t, t ∈ l -> locked t = false) -> registerWaiters st en sem l = (l, 0%nat).
Proof.
  intros Hl. pose proof (registerWaiters_count st en sem l) as Hc. pose proof (registerWaiters_unlocked st en sem l) as Hu.
  destruct (registerWaiters st en sem l) as [l' n]. cbn in *.
  assert (n = 0%nat) as ->; [|by rewrite Hu]. rewrite Hc. destruct (List.filter _ l) as [|t r] eqn:Hf; [done|].
  assert (In t (t :: r)) as Hin by (by left). rewrite <- Hf in Hin. apply filter_In in Hin as [Hin%list_elem_of_In [_ Ht]%andb_true_iff].
  rewrite Hl in Ht; done.
Qed.

Lemma lockedWith_free sem l : (forall t, t ∈ l -> locked t = false) -> lockedWith sem l = 0%nat.
Proof.
  intros Hl. unfold lockedWith. destruct (List.filter _ l) as [|t r] eqn:Hf; [done|].
  assert (In t (t :: r)) as Hin by (by left). rewrite <- Hf in Hin. apply filter_In in Hin as [Hin%list_elem_of_In [Ht _]%andb_true_iff].
  rewrite Hl in Ht; done.
Qed.

(** A client without a reply under way and without locked tokens: it comes to the cut of
    its vector, and answers. *)
Definition free (x : Peer) : Prop := isReplied (call x) = false /\ forall t, t ∈ tokens x -> locked t = false.

Lemma revoker_ready q R x s :
  invariant b s -> revokers s !! q = Some R -> peers s !! q = Some x -> free x ->
  exists evs sem s', orderlyRun evs s = Ret s' /\ Forall (fun ev => ev = EvRevoke q \/ ev = EvWake q) evs /\
    revokers s' = <[q := Waiting sem 0]> (revokers s) /\ mgr s' = mgr s /\ busy s' = busy s /\ peers s' = peers s.
Proof.
  intros [Htok _ Hsem _] Hq Hx [Hr Hfree].
  destruct (busy s) as [bz|] eqn:Hb; [|by rewrite (to_quiet b s Htok Hb), lookup_empty in Hq].
  destruct R as [|sem k].
  - exists [EvRevoke q], (nextSem s). eexists. split; [|split; [by repeat constructor; left|]].
    + cbn. unfold inFlight, evRevoke. rewrite Hx, Hb, Hq, registerWaiters_free by done. destruct x as [ts []]; done.
    + cbn. split; [done|]. split; [done|]. split; [done|]. apply insert_id. by destruct x.
  - destruct (se_wait s Hsem q sem k Hq) as (y & v & Hy & _ & Hv & Hle & _). simplify_eq. rewrite lockedWith_free in Hle by done.
    destruct (wakes q sem k (v - k) s Hq) as (s1 & H1 & Hr1 & Hm1 & Hb1 & Hp1); [rewrite Hv; f_equal; lia|].
    exists (replicate k (EvWake q)), sem, s1. split; [done|]. split; [|by rewrite Hb1]. apply Forall_replicate. by right.
Qed.

Lemma revoker_finishes q R x s :
  invariant b s -> revokers s !! q = Some R -> peers s !! q = Some x -> free x ->
  exists evs s' x', orderlyRun evs s = Ret s' /\ revokers s' = delete q (revokers s) /\ mgr s' = mgr s /\ busy s' = busy s /\
    peers s' = <[q := x']> (peers s) /\ call x' = call x.
Proof.
  intros Hinv Hq Hx Hfree. destruct (revoker_ready q R x s Hinv Hq Hx Hfree) as (evs & sem & s1 & H1 & _ & Hr1 & Hm1 & Hb1 & Hp1).
  destruct (busy s) as [bz|] eqn:Hb; [|by rewrite (to_quiet b s (iv_tokens b s Hinv) Hb), lookup_empty in Hq].
  destruct (cut_returns q sem bz x s1) as (s2 & x2 & H2 & Hr2 & Hm2 & Hb2 & Hp2 & Hc2); [done|rewrite Hr1; apply lookup_insert_eq|by rewrite Hp1|].
  exists (evs ++ [EvCut q]), s2, x2. split; [by eapply orderlyRun_app|]. rewrite Hr2, Hr1, Hp2, Hp1, Hm2, Hb2, Hb1, Hm1, delete_insert_eq. done.
Qed.

(** All threads that the manager started end. *)
Lemma revokers_finish n s bz :
  reachable b s -> busy s = Some bz -> size (revokers s) = n ->
  (forall q x, is_Some (revokers s !! q) -> peers s !! q = Some x -> free x) ->
  exists evs s', orderlyRun evs s = Ret s' /\ reachable b s' /\ busy s' = Some bz /\ revokers s' = ∅.
Proof.
  revert s. induction n as [|n IH]; intros s Hs Hb Hn Hfree.
  { exists [], s. split; [done|]. split; [done|]. split; [done|]. by apply map_size_empty_iff. }
  destruct (map_choose (revokers s)) as (q & R & Hq); [intros He; by rewrite He, map_size_empty in Hn|].
  assert (Hinv := reachable_invariant b s Hs).
  destruct (to_revokers b s (iv_tokens b s Hinv) q) as [x Hx]; [by rewrite Hq|].
  destruct (revoker_finishes q R x s Hinv Hq Hx) as (evs & s1 & x1 & H1 & Hr1 & Hm1 & Hb1 & Hp1 & Hc1); [apply (Hfree q x); by rewrite ?Hq|].
  destruct (IH s1) as (evs' & s2 & H2 & Hrest).
  - by eapply orderlyRun_reachable.
  - congruence.
  - rewrite Hr1, map_size_delete_Some by (by eexists). lia.
  - intros r y. rewrite Hr1, Hp1, lookup_delete, lookup_insert. case_decide; [by intros []|]. apply Hfree.
  - exists (evs ++ evs'), s2. split; [by eapply orderlyRun_app|done].
Qed.

(** No token of the vector is locked. *)
Definition unlocked (l : list Permission) : Prop := forall t, t ∈ l -> locked t = false /\ permitLock t = false.

Lemma unlocked_lockable l : unlocked l -> lockable true l.
Proof. intros Hl _. apply Forall_forall. intros t Ht. by apply Hl. Qed.

(** A reply that is recorded covers its range with locked tokens. *)
Lemma reply_locks rs re wr l :
  rangeOk rs re -> small l -> lockable true l ->
  exists l', addPermission rs re wr l true = Ret l' /\ forall a, rs <= a < re -> holdsLocked true l' wr a.
Proof.
  intros (H1 & H2 & H3) Hsm Hl. destruct (addPermission_returns rs re wr l true Hl) as [l' Ha]. exists l'. split; [done|].
  intros a Hin. eapply (addPermission_locks rs re wr true l); [lia|lia|done|done|by split].
Qed.

Lemma reply_recorded p s ts st en wr rs re ts' :
  peers s !! p = Some (mkPeer ts (Replied st en wr rs re)) -> addPermission rs re wr ts true = Ret ts' ->
  evReply p s = Ret (setPeer p (mkPeer ts' (Using st en wr true)) s).
Proof. intros Hp Ha. unfold evReply. by rewrite Hp, Ha. Qed.

(** The thread at [q] waits for posts that only another call of [q] can bring. *)
Definition stuck (q : string) (bz : Busy) (s : State) : Prop :=
  busy s = Some bz /\ exists sem k v x, revokers s !! q = Some (Waiting sem k) /\ sems s !! sem = Some v /\ (v < k)%nat /\
    peers s !! q = Some x /\ call x = Idle.

Lemma stuck_step q bz ev s s' :
  invariant b s -> stuck q bz s -> (forall st en wr, ev <> EvCall q st en wr) -> step ev s = Ret s' -> stuck q bz s'.
Proof.
  intros [_ _ [_ Hf Hi _ Ho] _] (Hb & sem & k & v & x & Hq & Hv & Hlt & Hx & Hc) Hev Hs.
  assert (Hkeep : forall r y, r <> q -> peers s' = <[r := y]> (peers s) -> busy s' = busy s -> revokers s' !! q = revokers s !! q ->
    sems s' !! sem = sems s !! sem -> stuck q bz s').
  { intros r y Hr Ep Eb Er Es. split; [congruence|]. exists sem, k, v, x. rewrite Er, Es, Ep, lookup_insert_ne by done. done. }
  destruct ev as [p|p|p st en wr|p|r|r|r| |p|p]; cbn in Hs.
  - apply evOpen_inv in Hs as (Hb' & _). congruence.
  - apply evClose_inv in Hs as (Hb' & _). congruence.
  - apply evCall_inv in Hs as (ts & c & Hp & -> & _). eapply (Hkeep p); try done. intros ->. by destruct (Hev st en wr).
  - apply evServe_inv in Hs as (Hb' & _). congruence.
  - apply evRevoke_inv in Hs as (bz' & _ & Hr & [[Hn ->]|(y & ts & count & Hy & _ & ->)]).
    + assert (r <> q) by (intros ->; congruence). split; [done|]. exists sem, k, v, x. cbn. rewrite lookup_delete_ne by done. done.
    + assert (r <> q) by (intros ->; congruence). specialize (Hf q sem k Hq). eapply (Hkeep r); cbn; try done; by rewrite lookup_insert_ne by (done || lia).
  - apply evWake_inv in Hs as (sem' & n & v' & Hr & Hv' & ->). destruct (decide (r = q)) as [->|Hne].
    + simplify_eq. split; [done|]. exists sem, n, v', x. cbn. rewrite !lookup_insert_eq. split; [done|]. split; [done|]. split; [lia|done].
    + assert (sem' <> sem) by (intros ->; by destruct Hne, (Hi r q sem _ _ Hr Hq)). split; [done|].
      exists sem, k, v, x. cbn. rewrite !lookup_insert_ne by done. done.
  - apply evCut_inv in Hs as (bz' & sem' & y & ts & _ & Hr & Hy & _ & ->).
    destruct (decide (r = q)) as [->|Hne]; [simplify_eq; lia|].
    assert (sem' <> sem) by (intros ->; by destruct Hne, (Hi r q sem _ _ Hr Hq)).
    eapply (Hkeep r); cbn; try done; by rewrite lookup_delete_ne.
  - apply evGrant_inv in Hs as (bz' & _ & Hr & _). by rewrite Hr, lookup_empty in Hq.
  - apply evReply_inv in Hs as (ts & st & en & wr & rs & re & ts' & Hp & _ & ->). eapply (Hkeep p); try done. intros ->. by simplify_eq.
  - apply evDone_inv in Hs as (ts & st & en & wr & g & ts' & posts & m & Hp & Hu & Hm & ->).
    assert (p <> q) by (intros ->; by simplify_eq). eapply (Hkeep p); try done. cbn.
    rewrite (posts_lookup _ _ _ sem Hm), (proj1 (count_occ_not_In Z.eq_dec posts sem)); [destruct (sems s !! sem); cbn; [f_equal; lia|done]|].
    intros Hin%list_elem_of_In. destruct (unlockPermission_posts _ _ _ _ _ _ Hu) as (_ & Hk & _).
    by destruct (Ho p _ sem q k Hp (Hk sem Hin) Hq).
Qed.
End Progress.

(** ** Concrete interleavings *)

Definition exampleBase : File := mkFile "data" 0 0 0 3 [] false.

(** The state after an orderly interleaving (the new state if it is not orderly). *)
Definition runTo (evs : list Event) : State :=
  match orderlyRun evs (newState exampleBase) with Ret s => s | _ => newState exampleBase end.

Lemma runTo_reachable evs : reachable exampleBase (runTo evs).
Proof.
  unfold runTo. destruct (orderlyRun evs _) as [s| |] eqn:Hr; [|constructor..].
  eapply orderlyRun_reachable; [constructor|exact Hr].
Qed.

(** [b] has the whole file, [a] gets 20 to 30 for writing from it, and writes. *)
Definition firstWrites : list Event :=
  [EvOpen "a"; EvOpen "b"; EvCall "b" 1000 1010 true; EvServe "b"; EvGrant; EvReply "b"; EvDone "b";
   EvCall "a" 20 30 true; EvServe "a"; EvRevoke "b"; EvCut "b"; EvGrant; EvReply "a"]%string.

(** [b] asks for the same bytes while [a] writes them: its thread waits. *)
Definition contended : list Event := firstWrites ++ [EvCall "b" 25 35 true; EvServe "b"; EvRevoke "a"]%string.

(** The same when [a] has finished and the thread has been posted. *)
Definition posted : list Event := contended ++ [EvDone "a"]%string.

(** After the write [a] reads the bytes before its write token, which locks the write
    token for good; then [b] asks for it. *)
Definition abandoned : list Event :=
  firstWrites ++ [EvOpen "c"; EvDone "a"; EvCall "a" 10 20 false; EvServe "a"; EvRevoke "b"; EvCut "b"; EvGrant; EvReply "a"; EvDone "a";
    EvCall "b" 20 30 true; EvServe "b"; EvRevoke "a"]%string.

(** [a] is granted 0 to 10, and before it has recorded the reply [b] asks for the same
    bytes. *)
Definition overtaking : list Event :=
  [EvOpen "a"; EvOpen "b"; EvCall "b" 1000 1010 true; EvServe "b"; EvGrant; EvReply "b"; EvDone "b";
   EvCall "a" 0 10 true; EvServe "a"; EvRevoke "b"; EvCut "b"; EvGrant; EvCall "b" 0 10 true; EvServe "b"]%string.

(** ** Properties *)

(** C7: in every orderly interleaving of the threads of the clients and of the
    manager, at every point of the revocations and grants, a byte that one client may
    write is accessible to no other client. *)
Theorem interleaved_exclusion b s p q x y a :
  reachable b s -> p <> q -> peers s !! p = Some x -> peers s !! q = Some y ->
  holds (tokens x) true a -> ~ holds (tokens y) false a.
Proof.
  intros Hs Hne Hx Hy Hh Hf. apply (iv_exclusive b s (reachable_invariant b s Hs) p q x y a Hne Hx Hy); by left.
Qed.

Lemma interleaved_exclusion_witness : exists x y,
  peers (runTo contended) !! "a"%string = Some x /\ peers (runTo contended) !! "b"%string = Some y /\
  holds (tokens x) true 25 /\ ~ holds (tokens y) false 25.
Proof.
  eexists _, _. split; [vm_compute; reflexivity|]. split; [vm_compute; reflexivity|].
  assert (Hh : holds (tokens (mkPeer [mkPermission 20 30 true true true [1]] (Using 20 30 true true))) true 25).
  { eexists. split; [constructor|]. split; [cbn; lia|done]. }
  split; [exact Hh|].
  eapply (interleaved_exclusion exampleBase (runTo contended) "a" "b"); [apply runTo_reachable|done|vm_compute; reflexivity..|exact Hh].
Defined.

(** C3: at every point of an orderly interleaving where a call that the manager granted
    is in progress, every byte of its range is covered by a locked token of the client,
    and no other client has write access to it, nor any access if the call writes.
    (Interleavings where a revocation overtakes a reply are not orderly, and there it
    fails: [grant_overtaken_by_revocation].) *)
Theorem granted_call_is_protected b s p x st en wr a :
  reachable b s -> peers s !! p = Some x -> call x = Using st en wr true -> st <= a < en ->
  holdsLocked true (tokens x) wr a /\
  forall q y, q <> p -> peers s !! q = Some y -> ~ holds (tokens y) true a /\ (wr = true -> ~ holds (tokens y) false a).
Proof.
  intros Hs Hx Hc Ha. destruct (reachable_invariant b s Hs) as [_ Hex _ Hpr].
  assert (Hl := Hpr p x st en wr a Hx Hc Ha). assert (Hh := holdsLocked_holds _ _ _ _ Hl). split; [done|]. intros q y Hne Hy. split.
  - intros Hw. apply (Hex q p y x a); [done|done|done|by left|]. left. destruct wr; [by apply holds_weaken|done].
  - intros -> Hr. apply (Hex p q x y a); [done|done|done|by left|by left].
Qed.

Lemma granted_call_is_protected_witness : exists x,
  peers (runTo contended) !! "a"%string = Some x /\ call x = Using 20 30 true true /\ holdsLocked true (tokens x) true 27.
Proof.
  eexists. split; [vm_compute; reflexivity|]. split; [reflexivity|].
  eapply (granted_call_is_protected exampleBase (runTo contended) "a" _ 20 30);
    [apply runTo_reachable|vm_compute; reflexivity|reflexivity|lia].
Defined.

(** C14: the orderly interleavings refine the manager whose grants are one step: in
    every state that an orderly interleaving leads to, the record is one that a sequence
    of opens, closes and whole grants gives, and if no grant is in progress a client
    that has no reply under way has exactly the tokens of the record. *)
Theorem interleavings_refine_manager b s :
  reachable b s ->
  mm_reachable b (mgr s) /\
  (busy s = None -> forall p x, peers s !! p = Some x -> inFlight p s = false ->
     exists l, clientPermissions (mgr s) !! p = Some l /\ same_tokens (tokens x) l).
Proof.
  intros Hs. assert (Hok := iv_tokens b s (reachable_invariant b s Hs)). split; [apply Hok|].
  intros Hb p x Hx Hf. destruct (proj1 (to_dom b s Hok p)) as [l Hl]; [by rewrite Hx|]. exists l. split; [done|].
  eapply (quiet_mirror b s p x); [done..| |done|done]. unfold inFlight in Hf. rewrite Hx in Hf. by destruct x as [ts []].
Qed.

Lemma interleavings_refine_manager_witness : exists x l,
  peers (runTo firstWrites) !! "a"%string = Some x /\
  clientPermissions (mgr (runTo firstWrites)) !! "a"%string = Some l /\ same_tokens (tokens x) l.
Proof.
  destruct (interleavings_refine_manager exampleBase (runTo firstWrites) (runTo_reachable _)) as [_ Hm].
  destruct (peers (runTo firstWrites) !! "a"%string) as [x|] eqn:Hx; [|vm_compute in Hx; discriminate].
  destruct (Hm ltac:(vm_compute; reflexivity) "a"%string x Hx ltac:(vm_compute; reflexivity)) as (l & Hl & Hs). exists x, l. exact (conj eq_refl (conj Hl Hs)).
Defined.

(** C16: a grant completes: from every point of an orderly interleaving where the manager
    serves a request and the clients that still have to answer a revocation have no
    token locked and no reply under way, the threads can run on, in an orderly way,
    until the manager has sent its reply and released the file; in particular, in the
    orderly interleavings the posts that a waiting thread needs are not lost. *)
Theorem grant_completes b s bz :
  reachable b s -> busy s = Some bz ->
  (forall q x, is_Some (revokers s !! q) -> peers s !! q = Some x -> free x) ->
  exists evs s' x, orderlyRun evs s = Ret s' /\ busy s' = None /\ peers s' !! bz_peer bz = Some x /\
    call x = Replied (bz_start bz) (bz_end bz) (bz_write bz) (start (bz_permit bz)) (end_ (bz_permit bz)).
Proof.
  intros Hs Hb Hfree. destruct (revokers_finish b _ s bz Hs Hb eq_refl Hfree) as (evs & s1 & H1 & Hs1 & Hb1 & Hr1).
  destruct (to_busy b s1 (iv_tokens b s1 (reachable_invariant b s1 Hs1)) bz Hb1) as (_ & _ & x & Hx & _).
  exists (evs ++ [EvGrant]). eexists _, _. split; [eapply orderlyRun_app; [exact H1|]|].
  - cbn. unfold evGrant. rewrite Hb1, decide_True, Hx by done. reflexivity.
  - cbn. split; [done|]. split; [apply lookup_insert_eq|done].
Qed.

Lemma grant_completes_witness : exists evs s' x, orderlyRun evs (runTo posted) = Ret s' /\ busy s' = None /\
  peers s' !! "b"%string = Some x /\ call x = Replied 25 35 true 25 35.
Proof.
  apply (grant_completes exampleBase (runTo posted) (mkBusy "b" 25 35 true (mkPermission 25 35 true false false [])));
    [apply runTo_reachable|vm_compute; reflexivity|].
  assert (Hr : revokers (runTo posted) = {["a"%string := Waiting 1 1]}) by (vm_compute; reflexivity).
  assert (Hp : peers (runTo posted) !! "a"%string = Some (mkPeer [mkPermission 20 30 true false false [1]] Idle)) by (vm_compute; reflexivity).
  intros q x. rewrite Hr. intros [R [<- _]%lookup_singleton_Some] Hx. rewrite Hp in Hx. injection Hx as <-.
  split; [done|]. by intros t ->%list_elem_of_singleton.
Defined.

(** C35: a lock that no call will release blocks the file: when, in an orderly
    interleaving, a revocation waits for more posts than there are at a client that is in
    no call, the manager serves nothing else for the file, however the threads go on in
    an orderly way, until that client makes another call. *)
Theorem abandoned_lock_blocks_file b s bz q evs s' :
  reachable b s -> stuck q bz s -> (forall st en wr, EvCall q st en wr ∉ evs) -> orderlyRun evs s = Ret s' -> busy s' = Some bz.
Proof.
  revert s. induction evs as [|ev evs IH]; intros s Hs Hst Hev; cbn; [intros [= <-]; apply Hst|].
  destruct (orderly ev s) eqn:Ho; [|done]. intros (s1 & H1 & H2)%bind_Ret. eapply (IH s1); [by econstructor| |set_solver|done].
  eapply stuck_step; [by apply reachable_invariant|done| |done]. intros st en wr ->. apply (Hev st en wr). constructor.
Qed.

Lemma abandoned_lock_blocks_file_witness : exists s', orderlyRun [EvCall "c"%string 100 110 false] (runTo abandoned) = Ret s' /\
  busy s' = Some (mkBusy "b" 20 30 true (mkPermission 20 30 true false false [])).
Proof.
  destruct (orderlyRun [EvCall "c"%string 100 110 false] (runTo abandoned)) as [s'| |] eqn:Hr; [|vm_compute in Hr; discriminate..].
  exists s'. split; [reflexivity|].
  apply (abandoned_lock_blocks_file exampleBase (runTo abandoned) _ "a" [EvCall "c"%string 100 110 false] s'); [apply runTo_reachable| | |exact Hr].
  - split; [vm_compute; reflexivity|]. eexists _, _, _, _. split; [vm_compute; reflexivity|]. split; [vm_compute; reflexivity|].
    split; [lia|]. split; [vm_compute; reflexivity|reflexivity].
  - intros st en wr [=]%list_elem_of_singleton.
Defined.

(** C36: a revocation that overtakes the reply is lost. Take any point of an orderly
    interleaving where the reply with a grant is on its way to [p], and the manager
    already serves the next request, of another client, which takes bytes away from [p]
    only; the two clients have no locked tokens. If the revocation now reaches [p]
    before the reply, it returns without waiting, both replies are recorded, and both
    clients are in the middle of granted calls, each with every byte of its whole range
    covered by locked tokens of its mode, also the bytes that the two ranges share. *)
Theorem grant_overtaken_by_revocation b s bz p ts st en wr rs re y :
  reachable b s -> busy s = Some bz -> revokers s = {[p := Sent]} ->
  peers s !! p = Some (mkPeer ts (Replied st en wr rs re)) -> peers s !! bz_peer bz = Some y ->
  unlocked ts -> unlocked (tokens y) ->
  exists s' x' y', run [EvRevoke p; EvCut p; EvGrant; EvReply p; EvReply (bz_peer bz)] s = Ret s' /\
    peers s' !! p = Some x' /\ call x' = Using st en wr true /\ (forall a, st <= a < en -> holdsLocked true (tokens x') wr a) /\
    peers s' !! bz_peer bz = Some y' /\ call y' = Using (bz_start bz) (bz_end bz) (bz_write bz) true /\
    (forall a, bz_start bz <= a < bz_end bz -> holdsLocked true (tokens y') (bz_write bz) a).
Proof.
  intros Hs Hb Hr Hp Hy Hts Hty. assert (Hok := iv_tokens b s (reachable_invariant b s Hs)).
  destruct (to_busy b s Hok bz Hb) as (Hbr & [Hb1 Hb2] & y0 & Hy0 & Hyc). simplify_eq.
  assert (Hne : p <> bz_peer bz) by (intros ->; by simplify_eq).
  destruct (to_call b s Hok p _ Hp) as (_ & Hr1 & Hr2).
  destruct (to_fits b s Hok p _ (rs, re, wr) Hp ltac:(done)) as [Hrr _].
  destruct (to_fits b s Hok _ y (start (bz_permit bz), end_ (bz_permit bz), bz_write bz) Hy) as [Hbb _];
    [unfold unapplied; rewrite Hb, Hyc; by rewrite decide_True|].
  destruct (revokeRange_total (bz_start bz) (bz_end bz) ts) as [ts1 Hcut].
  destruct (cutVector_wf (bz_start bz) (bz_end bz) ts) as (Hsm1 & _); [by eapply busy_range|apply (to_wf b s Hok p _ Hp)..|].
  rewrite (cutVector_Ret _ _ _ _ Hcut) in Hsm1.
  destruct (reply_locks rs re wr ts1) as (ts2 & Ha2 & Hl2); [done|done|by eapply revokeRange_lockable, unlocked_lockable|].
  destruct (reply_locks (start (bz_permit bz)) (end_ (bz_permit bz)) (bz_write bz) (tokens y)) as (ty & Hay & Hly);
    [done|apply (to_wf b s Hok _ _ Hy)|by apply unlocked_lockable|].
  eexists _, (mkPeer ts2 _), (mkPeer ty _). split.
  - unfold run. cbn. unfold evRevoke. rewrite Hb, Hr, lookup_singleton_eq, Hp. cbn. rewrite registerWaiters_free by (by intros t [? _]%Hts).
    cbn. unfold evCut. cbn. rewrite lookup_insert_eq, lookup_insert_eq. cbn. rewrite Hcut. cbn. unfold evGrant. cbn.
    rewrite delete_insert_eq, delete_singleton_eq, decide_True, insert_insert_eq by done. rewrite (lookup_insert_ne _ _ _ _ Hne), Hy. cbn.
    erewrite (reply_recorded p); [|cbn; by rewrite lookup_insert_ne, lookup_insert_eq by done|exact Ha2]. cbn.
    erewrite (reply_recorded (bz_peer bz)); [|cbn; by rewrite lookup_insert_ne, lookup_insert_eq by done|exact Hay]. reflexivity.
  - cbn. rewrite lookup_insert_ne, lookup_insert_eq, lookup_insert_eq by done. split; [done|]. split; [done|]. split; [intros a Ha; apply Hl2; lia|].
    split; [done|]. split; [done|]. intros a Ha. apply Hly. lia.
Qed.

Lemma grant_overtaken_by_revocation_witness : exists s' x y,
  run [EvRevoke "a"; EvCut "a"; EvGrant; EvReply "a"; EvReply "b"]%string (runTo overtaking) = Ret s' /\
  peers s' !! "a"%string = Some x /\ call x = Using 0 10 true true /\ (forall a, 0 <= a < 10 -> holdsLocked true (tokens x) true a) /\
  peers s' !! "b"%string = Some y /\ call y = Using 0 10 true true /\ (forall a, 0 <= a < 10 -> holdsLocked true (tokens y) true a).
Proof.
  eapply (grant_overtaken_by_revocation exampleBase (runTo overtaking) (mkBusy "b" 0 10 true (mkPermission 0 10 true false false [])) "a");
    [apply runTo_reachable|vm_compute; reflexivity..| |]; cbn; [by intros t ?%not_elem_of_nil|].
  intros t [->|?%not_elem_of_nil]%elem_of_cons; done.
Defined.

(** C37: a semaphore is posted after it is gone: [a] has 0 to 10 and writes 20 to 30 when
    [b] asks for 5 to 25, so the thread at [a] registers its semaphore, a local variable,
    with the second token; the revocation only moves the bounds of the two tokens, and
    the next call of [a] that ends on the rest of the second one posts the semaphore of
    a method that has returned. The interleaving is orderly. *)
Theorem dangling_semaphore_post : exists s,
  reachable exampleBase s /\ sems s = ∅ /\ step (EvDone "a") s = Crash.
Proof.
  exists (runTo [EvOpen "a"; EvOpen "b"; EvCall "b" 1000 1010 true; EvServe "b"; EvGrant; EvReply "b"; EvDone "b";
    EvCall "a" 0 10 true; EvServe "a"; EvRevoke "b"; EvCut "b"; EvGrant; EvReply "a"; EvDone "a";
    EvCall "a" 20 30 true; EvServe "a"; EvRevoke "b"; EvCut "b"; EvGrant; EvReply "a";
    EvCall "b" 5 25 true; EvServe "b"; EvRevoke "a"; EvDone "a"; EvWake "a"; EvCut "a"; EvGrant; EvReply "b"; EvDone "b";
    EvCall "a" 26 28 true]%string).
  split; [apply runTo_reachable|]. split; vm_compute; reflexivity.
Qed.

(** C38: a call that finds its tokens in the vector does not lock them: [a] writes bytes
    20 to 30 with the token of its last call, [b] asks for 25 to 35, the revocation does
    not wait, and both clients are in the middle of a write to bytes 25 to 30. The
    interleaving is orderly. *)
Theorem cached_call_is_not_protected : exists s x y,
  reachable exampleBase s /\
  peers s !! "a"%string = Some x /\ call x = Using 20 30 true false /\
  peers s !! "b"%string = Some y /\ call y = Using 25 35 true true /\ hasPermission 25 35 true (tokens y) = true.
Proof.
  exists (runTo (firstWrites ++ [EvDone "a"; EvCall "a" 20 30 true;
    EvCall "b" 25 35 true; EvServe "b"; EvRevoke "a"; EvCut "a"; EvGrant; EvReply "b"]%string)).
  eexists _, _. split; [apply runTo_reachable|]. do 4 (split; [vm_compute; reflexivity|]). vm_compute. reflexivity.
Qed.
