(* ===== verification/Concurrent.v ===== *)
(** Several clients at the same time: the token protocol of Interleaving.v and the data
    loops of ClientThreads.v together.

    The state has the protocol of one file, one process per client that has the file
    open, and the file servers. A call asks for its tokens by the steps of the protocol
    and then runs its data loop; a revocation ends at a client when its blocks have been
    evicted (PFSClient::revokePermission), and the manager joins it only then. The token
    vector of a client is that of the protocol state; the vector in the file object of
    the process is not used. The clients open the file before and close it after the
    history. *)

From Stdlib Require Import String Strings.Byte.
From stdpp Require Import gmap strings.
From S2P Require Import Prelude Config Permission File Tokens FileServer MetadataManager ClientFile Cache CacheLists CacheSpec CacheProps Client ClientSpec ClientFrame ClientProps ClientThreads Interleaving.
#[local] Open Scope Z_scope.

(** ** State *)

(** A process: where the file is in its vector of open files (the index that
    acquirePermission finds by the descriptor and revokePermission by the name), and its
    threads. *)
Record Proc : Type := mkProc {
  slot : nat;
  descriptor : Z;
  prApp : AppState;
  prSvc : option (nat * Z * Z);
  prHarvesting : bool;
  process : PFSClient }.

Definition setApp (st : AppState) (pr : Proc) : Proc :=
  mkProc (slot pr) (descriptor pr) st (prSvc pr) (prHarvesting pr) (process pr).

Definition setSvc (v : option (nat * Z * Z)) (pr : Proc) : Proc :=
  mkProc (slot pr) (descriptor pr) (prApp pr) v (prHarvesting pr) (process pr).

Record World (W : Type) : Type := mkWorld {
  proto : State;
  procs : gmap string Proc;
  servers : W }.
Arguments mkWorld {W} proto procs servers.
Arguments proto {W} w.
Arguments procs {W} w.
Arguments servers {W} w.

(** The data of a call: pfs_write of some bytes, pfs_read of a number of bytes. *)
Inductive Task : Type :=
| TaskWrite (bs : bytes)
| TaskRead (nbyte : Z).

Definition taskSize (k : Task) : Z := match k with TaskWrite bs => Z.of_nat (length bs) | TaskRead n => n end.
Definition taskWrites (k : Task) : bool := match k with TaskWrite _ => true | TaskRead _ => false end.

(** Its data loop before the first turn. *)
Definition taskStart (offset : Z) (k : Task) : AppState :=
  match k with TaskWrite bs => WriteNext offset bs true | TaskRead n => ReadNext offset n [] true end.

(** ** Steps *)

Inductive ConcEvent : Type :=
| CCall (p : string) (offset : Z) (k : Task)
| CServe (p : string)
| CRevoke (q : string)
| CWakeUp (q : string)
| CCut (q : string)
| CGrant
| CReply (p : string)
| CDone (p : string)
| CThread (p : string) (ev : ThreadEvent).

Section Steps.
Context {W : Type} `{!FileServerStub W} (std_hash : Z -> Z) (raw : nat -> CacheBlock).

(** The data loop runs between acquirePermission and unlockPermission. *)
Definition isUsing (p : string) (s : State) : bool :=
  match peers s !! p with
  | Some x => match call x with Using _ _ _ _ => true | _ => false end
  | None => false
  end.

(** Lines 319-321 of writeFile, when a write has its tokens. *)
Definition enter (p : string) (s : State) (pr : Proc) : outcome Proc :=
  match isUsing p s, prApp pr with
  | true, WriteNext offset bs _ =>
      f ← fileAt (slot pr) (process pr);
      Ret (mkProc (slot pr) (descriptor pr) (prApp pr) (prSvc pr) (prHarvesting pr)
             (setFileAt (slot pr) (markModified (offset + Z.of_nat (length bs)) f) (process pr)))
  | _, _ => Ret pr
  end.

(** No service thread has blocks left to evict. *)
Definition evictionsDone (l : gmap string Proc) : bool :=
  forallb (fun e => match prSvc e.2 with None => true | Some _ => false end) (map_to_list l).

Definition concProto (ev : Event) (w : World W) : outcome (World W) :=
  s ← step ev (proto w);
  Ret (mkWorld s (procs w) (servers w)).

(** A thread of a process takes a step; the revocations are those of the manager. *)
Definition concThread (p : string) (ev : ThreadEvent) (w : World W) : outcome (World W) :=
  pr ← deref (procs w !! p);
  let go :=
    t ← threadStep std_hash raw (slot pr) (descriptor pr) ev
          (mkThreads (prApp pr) (prSvc pr) (prHarvesting pr) (process pr) (servers w));
    Ret (mkWorld (proto w) (<[p := mkProc (slot pr) (descriptor pr) (app t) (svc t) (harvesting t) (client t)]> (procs w)) (world t)) in
  match ev with
  | TRevoke _ _ _ _ => Blocked
  | TApp => if isUsing p (proto w) then go else Blocked
  | _ => go
  end.

Definition concStep (ev : ConcEvent) (w : World W) : outcome (World W) :=
  match ev with
  | CCall p offset k =>
      pr ← deref (procs w !! p);
      s ← step (EvCall p offset (offset + taskSize k) (taskWrites k)) (proto w);
      pr' ← enter p s (setApp (taskStart offset k) pr);
      Ret (mkWorld s (<[p := pr']> (procs w)) (servers w))
  | CServe p => concProto (EvServe p) w
  | CRevoke q => concProto (EvRevoke q) w
  | CWakeUp q => concProto (EvWake q) w
  | CCut q =>
      bz ← deref (busy (proto w));
      pr ← deref (procs w !! q);
      match prSvc pr with
      | Some _ => Blocked
      | None =>
          s ← step (EvCut q) (proto w);
          Ret (mkWorld s (<[q := setSvc (Some (slot pr, blockOf (bz_start bz), bz_end bz)) pr]> (procs w)) (servers w))
      end
  | CGrant => if evictionsDone (procs w) then concProto EvGrant w else Blocked
  | CReply p =>
      pr ← deref (procs w !! p);
      s ← step (EvReply p) (proto w);
      pr' ← enter p s pr;
      Ret (mkWorld s (<[p := pr']> (procs w)) (servers w))
  | CDone p =>
      pr ← deref (procs w !! p);
      match prApp pr with
      | Finished _ _ => concProto (EvDone p) w
      | _ => Blocked
      end
  | CThread p ev => concThread p ev w
  end.

(** ** Calm histories *)

(** What is asked of a step: whole blocks; the conditions of [orderly]; and no cut of the
    range of a call that did not ask the manager for its tokens. *)
Definition quiet (ev : ConcEvent) (w : World W) : bool :=
  match ev with
  | CCall p offset k =>
      (offset mod pfsBlockSizeInBytes =? 0) && (taskSize k mod pfsBlockSizeInBytes =? 0) &&
      (0 <=? offset) && (0 <? taskSize k) && (offset + taskSize k <=? INT_MAX - pfsBlockSizeInBytes)
  | CServe p => orderly (EvServe p) (proto w)
  | CRevoke q => orderly (EvRevoke q) (proto w)
  | CCut q =>
      match peers (proto w) !! q, busy (proto w) with
      | Some x, Some bz =>
          match call x with
          | Using st en _ false => (en <=? bz_start bz) || (bz_end bz <=? st)
          | _ => true
          end
      | _, _ => true
      end
  | _ => true
  end.

(** No process has lost the block that its write has just added. *)
Definition allStay (w : World W) : bool :=
  forallb (fun e => addedStays std_hash raw (descriptor e.2)
                      (mkThreads (prApp e.2) (prSvc e.2) (prHarvesting e.2) (process e.2) (servers w))) (map_to_list (procs w)).

(** The bytes last written: a write counts from the moment its client has the tokens. *)
Definition lastWritten (n : string) (ev : ConcEvent) (w' : World W) (M : string -> Z -> option byte) : string -> Z -> option byte :=
  match ev with
  | CCall p _ _ | CReply p =>
      match procs w' !! p with
      | Some pr =>
          match isUsing p (proto w'), prApp pr with
          | true, WriteNext offset bs _ => updated M n offset bs
          | _, _ => M
          end
      | None => M
      end
  | _ => M
  end.

(** A history, with the bytes last written to the file [n] beside it. *)
Fixpoint calmHistory (n : string) (evs : list ConcEvent) (w : World W) (M : string -> Z -> option byte)
    : outcome (World W * (string -> Z -> option byte)) :=
  match evs with
  | [] => Ret (w, M)
  | ev :: evs' =>
      if quiet ev w
      then
        w' ← concStep ev w;
        if allStay w' then calmHistory n evs' w' (lastWritten n ev w' M) else Blocked
      else Blocked
  end.

End Steps.
