(* ===== verification/ConcurrentInv.v ===== *)
(** The invariant of calm histories of several clients (Concurrent.v): at every point of
    every interleaving, the bytes that a client may access are where it will look for
    them, a client whose tokens were cut keeps the others from its blocks until they are
    evicted, and what no client may write is stored. *)

From Stdlib Require Import String Strings.Byte.
From stdpp Require Import gmap strings.
From S2P Require Import Prelude Config Permission File Tokens FileServer MetadataManager MMFile ClientFile Cache CacheLists CacheSpec CacheProps Client ClientSpec ClientFrame ClientProps ClientThreads Interleaving InterleavingInv ThreadSpec Consistency Concurrent.
#[local] Open Scope Z_scope.

(** ** Ranges of calls *)

(** A call is for whole blocks that the library can address. *)
Definition wholeBlocks (st en : Z) : Prop :=
  st mod pfsBlockSizeInBytes = 0 /\ en mod pfsBlockSizeInBytes = 0 /\ st < en /\ inFile st (en - st).

Lemma wholeBlocks_block st en x x0 : wholeBlocks st en -> st <= x0 < en -> baseOf x = baseOf x0 -> st <= x < en.
Proof. unfold wholeBlocks, baseOf. change pfsBlockSizeInBytes with 1024. intros (H1 & H2 & _) Hx Hb. word_lia. Qed.

(** The data loop before its first turn. *)
Definition started (st en : Z) (wr : bool) (s : AppState) : Prop :=
  if wr then exists bs, s = WriteNext st bs true /\ Z.of_nat (length bs) = en - st
  else s = ReadNext st (en - st) [] true.

(** The bytes of the process when the call in progress is done. *)
Definition view (m : string -> Z -> option byte) (n : string) (c : CallState) (s : AppState) : string -> Z -> option byte :=
  match c with Using _ _ _ _ => promised m n s | _ => m end.

Lemma promised_total m n s n' z v : m n' z = Some v -> exists v', promised m n s n' z = Some v'.
Proof.
  intros Hv. assert (Hu : forall off bs, exists v', updated m n off bs n' z = Some v').
  { intros off bs. unfold updated. case_decide as Hd; [|by exists v]. apply lookup_lt_is_Some_2. lia. }
  destruct s; cbn; eauto.
Qed.

Lemma view_total m n c s n' z v : m n' z = Some v -> exists v', view m n c s n' z = Some v'.
Proof. destruct c; cbn; eauto using promised_total. Qed.

(** Outside the rest of the range nothing is promised. *)
Lemma promised_outside m n s n' z : ~ (n' = n /\ ahead s z) -> promised m n s n' z = m n' z.
Proof. destruct s; cbn; intros Hn; unfold updated; by rewrite ?decide_False. Qed.

Section Invariant.
Context {W : Type} `{!FileServerStub W, !FileServerStubOk W} (std_hash : Z -> Z) (raw : nat -> CacheBlock).
Context (b : File) (n : string) (wd : Z).
Implicit Types (w : World W) (ws : W) (x : Peer) (pr : Proc) (a : LRU) (M m : string -> Z -> option byte) (eff : list Permission).

(** ** One client *)

(** Where the call of a client is. *)
Definition inProgress m (d : Z) a x (s : AppState) : Prop :=
  match call x with
  | Idle => isFinished s = true
  | Asking st en wr | Replied st en wr _ _ => wholeBlocks st en /\ started st en wr s
  | Using st en wr g =>
      wholeBlocks st en /\ ThreadSpec.callOk m n d st (if wr then 0 else en - st) a s /\
      (forall z, ahead s z -> st <= z < en) /\ (wr = false -> isWriting s = false) /\
      forall z, st <= z < en -> holds (tokens x) wr z
  end.

(** The tokens [eff] that a client has, or that were cut while it still has to evict the
    blocks; the blocks below [ad] are gone. *)
Definition evicting (bo : option Busy) (d : Z) x pr a eff : Prop :=
  match prSvc pr with
  | None => forall v z, holds eff v z <-> holds (tokens x) v z
  | Some (i, ad, e) =>
      i = slot pr /\ isReplied (call x) = false /\ exists bz, bo = Some bz /\ e = bz_end bz /\ wholeBlocks (bz_start bz) (bz_end bz) /\
        ad mod pfsBlockSizeInBytes = 0 /\ bz_start bz <= ad <= bz_end bz + pfsBlockSizeInBytes /\
        (forall v z, holds (tokens x) v z -> holds eff v z /\ ~ (bz_start bz <= z < bz_end bz)) /\
        (forall v z, holds eff v z -> holds (tokens x) v z \/ bz_start bz <= z < bz_end bz) /\
        (forall z, bz_start bz <= z < bz_end bz -> z < ad -> cached a (d, baseOf z) = None)
  end.

Record procGood M ws (bo : option Busy) x pr eff m a (d : Z) : Prop := mkProcGood {
  pg_file : exists f, openedFiles (process pr) !! slot pr = Some f /\ entry f = (n, d, wd) /\ getDescriptor f = descriptor pr;
  pg_ok : clientOk std_hash raw m (process pr) a ws;
  pg_view n' z v : view m n (call x) (prApp pr) n' z = Some v <-> n' = n /\ holds eff false z /\ M n z = Some v;
  pg_call : inProgress m d a x (prApp pr);
  pg_covered z : is_Some (cached a (d, baseOf z)) -> holds eff false z;
  pg_owned z : dirtyAt (table (process pr)) a n z -> holds eff true z;
  pg_added : addedCached d a (prApp pr);
  pg_evicting : evicting bo d x pr a eff }.

(** What is in the map of a client is what the client may access. *)
Lemma pg_known M ws bo x pr eff m a d n' z v :
  procGood M ws bo x pr eff m a d -> m n' z = Some v -> n' = n /\ holds eff false z.
Proof.
  intros Hg Hv. destruct (view_total m n (call x) (prApp pr) n' z v Hv) as [v' Hv'].
  by apply (pg_view _ _ _ _ _ _ _ _ _ Hg) in Hv' as (? & ? & _).
Qed.

Lemma pg_table M ws bo x pr eff m a d wd' :
  procGood M ws bo x pr eff m a d -> (n, d, wd) ∈ table (process pr) /\ (forall d', (n, d', wd') ∈ table (process pr) -> d' = d /\ wd' = wd).
Proof.
  intros [(f & Hf & He & _) Hok _ _ _ _ _ _]. assert (Hin : (n, d, wd) ∈ table (process pr)) by (by eapply entry_in_table).
  split; [done|]. intros d' Hin'. by eapply (table_name_unique _ _ n d wd d' wd' (ok_table _ _ _ _ _ _ Hok)).
Qed.

(** The servers, the bytes and the tokens change elsewhere. *)
Lemma procGood_frame M M' ws ws' bo bo' x x' pr eff m a d :
  procGood M ws bo x pr eff m a d -> keepsServed ws ws' ->
  (forall z v, 0 <= z -> holds eff false z -> storedByte ws n wd z = Some v -> storedByte ws' n wd z = Some v) ->
  (forall z, holds eff false z -> M' n z = M n z) ->
  call x' = call x -> same_tokens (tokens x') (tokens x) -> (prSvc pr <> None -> bo' = bo) ->
  procGood M' ws' bo' x' pr eff m a d.
Proof.
  intros Hg Hs Hb HM Hc Ht Hbo. assert (Hg' := Hg). destruct Hg' as [Hf [H1 H2 H3 H4 H5] Hv Hp Hco Ho Ha He]. split; [done| | | |done|done|done|].
  - split; [done|done|by eapply tableOk_served|done|]. intros n' d' wd' z v Hin Hz Hm. specialize (H5 n' d' wd' z v Hin Hz Hm).
    destruct (pg_known _ _ _ _ _ _ _ _ _ _ _ _ Hg Hm) as [-> Hh]. destruct (proj2 (pg_table _ _ _ _ _ _ _ _ _ wd' Hg) d' Hin) as [-> ->].
    specialize (Hb z v Hz Hh). unfold valueAt in *. destruct (cached a (d, baseOf z)); [|by apply Hb].
    destruct H5 as [? [?|?]]; (split; [done|]); [by left|right; by apply Hb].
  - intros n' z v. rewrite Hc, Hv. split; intros (-> & Hh & HMz); (split; [done|]; split; [done|]); [by rewrite HM|by rewrite <- HM].
  - unfold inProgress in *. rewrite Hc. destruct (call x); [done|done|done|]. destruct Hp as (? & ? & ? & ? & Hh). repeat (split; [done|]).
    intros z Hz. rewrite Ht. by apply Hh.
  - unfold evicting in *. rewrite Hc. destruct (prSvc pr) as [[[i ad] e]|] eqn:Hsv.
    + rewrite Hbo by done. destruct He as (? & ? & bz & ? & ? & ? & ? & ? & Hin & Hout & ?). split; [done|]. split; [done|]. exists bz.
      repeat (split; [done|]). split; [intros v z; rewrite Ht; apply Hin|]. split; [intros v z; rewrite Ht; apply Hout|done].
    + intros v z. by rewrite Ht.
Qed.

(** ** All clients *)

(** What a client may access, will access when its reply arrives, or still has to evict. *)
Definition extent (eff : list Permission) x (v : bool) (z : Z) : Prop := holds eff v z \/ underWay (call x) v z.

Record concOk M w (E : string -> list Permission) : Prop := mkConcOk {
  cc_reachable : reachable b (proto w);
  cc_client p x : peers (proto w) !! p = Some x ->
    exists pr m a d, procs w !! p = Some pr /\ procGood M (servers w) (busy (proto w)) x pr (E p) m a d;
  cc_procs p : is_Some (procs w !! p) -> is_Some (peers (proto w) !! p);
  cc_exclusive p q x y z : p <> q -> peers (proto w) !! p = Some x -> peers (proto w) !! q = Some y ->
    extent (E p) x true z -> ~ extent (E q) y false z;
  cc_stored z v : 0 <= z -> M n z = Some v -> (forall p, is_Some (peers (proto w) !! p) -> ~ holds (E p) true z) ->
    storedByte (servers w) n wd z = Some v }.

(** ** Steps of the threads of a client *)

Lemma pg_tokens M ws bo x pr eff m a d v z : procGood M ws bo x pr eff m a d -> holds (tokens x) v z -> holds eff v z.
Proof.
  intros [_ _ _ _ _ _ _ He]. unfold evicting in He. destruct (prSvc pr) as [[[i ad] e]|]; [|by rewrite He].
  destruct He as (_ & _ & bz & _ & _ & _ & _ & _ & Hin & _). intros Hh. by apply Hin.
Qed.

(** The addresses ahead of a call are those of its tokens. *)
Lemma pg_ahead m d a x s z st en wr g :
  inProgress m d a x s -> call x = Using st en wr g -> ahead s z -> st <= z < en /\ holds (tokens x) wr z.
Proof. unfold inProgress. intros Hp Hc Hz. rewrite Hc in Hp. destruct Hp as (_ & _ & Ha & _ & Hh). auto. Qed.

(** A step of one client, which may give up part of its extent. *)
Lemma concOk_local M w E p x pr pr' eff' m m' a a' d ws' :
  concOk M w E -> peers (proto w) !! p = Some x -> procs w !! p = Some pr ->
  procGood M (servers w) (busy (proto w)) x pr (E p) m a d -> procGood M ws' (busy (proto w)) x pr' eff' m' a' d ->
  keepsServed (servers w) ws' ->
  (forall z v, 0 <= z -> ~ holds (E p) true z -> storedByte (servers w) n wd z = Some v -> storedByte ws' n wd z = Some v) ->
  (forall v z, holds eff' v z -> holds (E p) v z) ->
  (forall z v, 0 <= z -> M n z = Some v -> holds (E p) true z -> ~ holds eff' true z -> storedByte ws' n wd z = Some v) ->
  concOk M (mkWorld (proto w) (<[p := pr']> (procs w)) ws') (fun q => if decide (q = p) then eff' else E q).
Proof.
  intros [Hr Hcl Hpr Hex Hst] Hx Hp Hg Hg' Hks Hkeep Hsub Hlost.
  assert (HE : forall q v z, holds (if decide (q = p) then eff' else E q) v z -> holds (E q) v z) by (intros q v z; case_decide; subst; auto).
  split; cbn [proto procs servers]; [done|..].
  - intros q y Hy. destruct (decide (q = p)) as [->|Hne]; [rewrite Hx in Hy; injection Hy as <-; exists pr', m', a', d; by rewrite lookup_insert_eq|].
    destruct (Hcl q y Hy) as (pq & mq & aq & dq & Hpq & Hgq). exists pq, mq, aq, dq. rewrite lookup_insert_ne by done. split; [done|].
    eapply procGood_frame; [exact Hgq|done| |done..]. intros z v Hz Hh. apply Hkeep; [done|]. intros Hw.
    by apply (Hex p q x y z (not_eq_sym Hne) Hx Hy); left.
  - intros q Hq. destruct (decide (q = p)) as [->|Hne]; [by rewrite Hx|]. rewrite lookup_insert_ne in Hq by done. auto.
  - intros q r y y' z Hne Hy Hy' H1 H2. apply (Hex q r y y' z Hne Hy Hy').
    + destruct H1 as [?%HE|?]; [by left|by right].
    + destruct H2 as [?%HE|?]; [by left|by right].
  - intros z v Hz Hv Hno. destruct (decide (holds (E p) true z)) as [Hh|Hh].
    + apply Hlost; [done..|]. specialize (Hno p). rewrite decide_True in Hno by done. apply Hno. by rewrite Hx.
    + apply Hkeep; [done..|]. apply Hst; [done..|]. intros q Hq Hqh. destruct (decide (q = p)) as [->|Hne]; [done|].
      apply (Hno q Hq). by rewrite decide_False.
Qed.

(** A turn of the data loop. *)
Lemma app_good M ws bo x pr eff m a d v hv t st en wr g :
  procGood M ws bo x pr eff m a d -> call x = Using st en wr g ->
  threadStep std_hash raw (slot pr) (descriptor pr) TApp (mkThreads (prApp pr) v hv (process pr) ws) = Ret t ->
  svc t = v /\ harvesting t = hv /\ world t = ws /\
  exists m' a', procGood M ws bo x (mkProc (slot pr) (descriptor pr) (app t) (prSvc pr) (prHarvesting pr) (client t)) eff m' a' d.
Proof.
  intros Hg Hu Hr. assert (Hg' := Hg). destruct Hg' as [(f & Hf & He & Hfd) Hok Hv Hp Hco Ho Ha Hev].
  assert (Hread := threadStep_reading std_hash raw _ _ _ _ _ Hr). cbn [app] in Hread.
  assert (Hp' := Hp). unfold inProgress in Hp'. rewrite Hu in Hp'. destruct Hp' as (Hwb & Hcall & Hah & Hwr & Hh).
  assert (Hnf : isFinished (prApp pr) = false) by (destruct (prApp pr); done).
  pose proof (appStep_ok std_hash raw m (process pr) a ws (slot pr) f n d wd _ _ _ Hok Hf He Hcall Hnf) as Hst. rewrite Hfd in Hst.
  unfold threadStep in Hr. cbn [app svc harvesting client world] in Hr. apply bind_Ret in Hr as ([[s' c'] w'] & Ha' & [= <-]). cbn in Hread |- *.
  rewrite Ha' in Hst. destruct Hst as [(m' & a' & Hok' & Hcall' & Hadd' & _ & Hpro & [Htc Htd]) Hfiles -> Hahead _].
  repeat (split; [done|]). exists m', a'.
  assert (Hnew : forall z, is_Some (cached a' (d, baseOf z)) -> is_Some (cached a (d, baseOf z)) \/ st <= z < en).
  { intros z [?|(x0 & Hx0%Hah & [= Hb])]%Htc; [by left|right]. by eapply wholeBlocks_block. }
  split; cbn [slot descriptor prApp prSvc prHarvesting process].
  - exists f. by rewrite Hfiles.
  - done.
  - intros n' z v'. rewrite <- Hv, Hu. cbn [view]. by rewrite Hpro.
  - unfold inProgress. rewrite Hu. repeat (split; [done|]). split; [intros z Hz; auto|]. split; [intros ->; auto|done].
  - intros z [?|Hz]%Hnew; [auto|]. apply (pg_tokens M ws bo x pr eff m a d); [done|]. specialize (Hh z Hz). destruct wr; [by apply holds_weaken|done].
  - intros z Hz. unfold table in Hz. rewrite Hfiles in Hz. apply Htd in Hz as [?|(Hw & _ & Hz%Hah)]; [auto|].
    apply (pg_tokens M ws bo x pr eff m a d); [done|]. destruct wr; [auto|]. by rewrite Hwr in Hw.
  - done.
  - unfold evicting in *. cbn [prSvc slot]. destruct (prSvc pr) as [[[i ad] e]|]; [|done].
    destruct Hev as (? & ? & bz & ? & ? & ? & ? & ? & Hin & ? & Hgone). split; [done|]. split; [done|]. exists bz. repeat (split; [done|]).
    intros z Hz Hzad. destruct (cached a' (d, baseOf z)) as [blk|] eqn:Hc; [|done].
    destruct (Hnew z) as [Hs|Hz']; [by rewrite Hc| |].
    + rewrite (Hgone z Hz Hzad) in Hs. by destruct Hs.
    + by destruct (proj2 (Hin wr z (Hh z Hz'))).
Qed.

(** [addedStays] is about the block of the call. *)
Lemma pg_stays m ws x pr d a s' v hv f :
  clientOk std_hash raw m s' a ws -> openedFiles s' !! slot pr = Some f -> entry f = (n, d, wd) -> getDescriptor f = descriptor pr ->
  inProgress m d a x (prApp pr) -> addedStays std_hash raw (descriptor pr) (mkThreads (prApp pr) v hv s' ws) = true ->
  addedCached d a (prApp pr).
Proof.
  intros Hok Hf He <- Hp Hs. unfold inProgress in Hp. destruct (call x).
  - by destruct (prApp pr).
  - destruct Hp as [_ Hst]. unfold started in Hst. destruct wr; [by destruct Hst as (bs & -> & _)|by rewrite Hst].
  - destruct Hp as [_ Hst]. unfold started in Hst. destruct wr; [by destruct Hst as (bs & -> & _)|by rewrite Hst].
  - destruct Hp as (_ & Hcall & _). by eapply (addedStays_cached std_hash raw m (mkThreads (prApp pr) v hv s' ws) a (slot pr) f n d wd) in Hcall; [apply Hcall|..].
Qed.

(** What a thread that puts blocks on the servers leaves of a client. *)
Lemma drained_good M ws ws' bo x pr s' v' hv' eff m a a' d :
  procGood M ws bo x pr eff m a d -> clientOk std_hash raw m s' a' ws' -> undisturbed (slot pr) (process pr) s' a a' ->
  drained (table (process pr)) a ws a' ws' -> table s' = table (process pr) ->
  addedStays std_hash raw (descriptor pr) (mkThreads (prApp pr) v' hv' s' ws') = true ->
  evicting bo d x (mkProc (slot pr) (descriptor pr) (prApp pr) v' hv' s') a' eff ->
  procGood M ws' bo x (mkProc (slot pr) (descriptor pr) (prApp pr) v' hv' s') eff m a' d.
Proof.
  intros [(f & Hf & He & Hfd) Hok Hv Hp Hco Ho Ha Hev] Hok' Hun Hdr Htab Ha' Hev'.
  destruct (un_file _ _ _ _ _ Hun f Hf) as (f' & Hf' & He' & Hfd'). rewrite <- He' in He. rewrite <- Hfd' in Hfd.
  assert (Hp' : inProgress m d a' x (prApp pr)).
  { unfold inProgress in *. destruct (call x); [done|done|done|]. destruct Hp as (? & Hc & Hrest). split; [done|]. split; [|done].
    by eapply callOk_undisturbed. }
  split; cbn [slot descriptor prApp process]; [by exists f'|done|done|done| | |by eapply pg_stays|done].
  - intros z Hz. apply Hco. by apply (dr_cached _ _ _ _ _ Hdr).
  - intros z Hz. rewrite Htab in Hz. apply Ho. by apply (dr_dirty _ _ _ _ _ Hdr).
Qed.

(** What a thread stores was in the extent of its client. *)
Lemma drained_keeps M ws ws' bo x pr eff m a a' d z v :
  procGood M ws bo x pr eff m a d -> drained (table (process pr)) a ws a' ws' -> 0 <= z -> ~ holds eff true z ->
  storedByte ws n wd z = Some v -> storedByte ws' n wd z = Some v.
Proof. intros Hg Hdr Hz Hno. apply (dr_stored _ _ _ _ _ Hdr); [done|]. intros Hd%(pg_owned _ _ _ _ _ _ _ _ _ Hg). done. Qed.

(** An eviction that goes on keeps what was evicted before. *)
Lemma evicting_undisturbed bo d x pr a a' eff s s' v' hv' :
  v' = prSvc pr -> undisturbed (slot pr) s s' a a' -> evicting bo d x pr a eff ->
  evicting bo d x (mkProc (slot pr) (descriptor pr) (prApp pr) v' hv' s') a' eff.
Proof.
  unfold evicting. cbn [prSvc slot]. intros -> Hun. destruct (prSvc pr) as [[[i ad] e]|]; [|done].
  intros (? & ? & bz & ? & ? & ? & ? & ? & ? & ? & Hgone). split; [done|]. split; [done|]. exists bz. repeat (split; [done|]).
  intros z Hz Hzad. apply (un_cached _ _ _ _ _ Hun). auto.
Qed.

(** The flusher and the harvester change the cache of their client. *)
Lemma background_table ev i fd t t' :
  ev = TFlush \/ ev = TWake \/ ev = THarvest -> threadStep std_hash raw (W := W) i fd ev t = Ret t' ->
  svc t' = svc t /\ table (client t') = table (client t).
Proof.
  intros [->|[->| ->]]; unfold threadStep; destruct t as [st v hv s w]; cbn [app svc harvesting client world].
  - intros Hr. apply bind_Ret in Hr as (c & _ & Hr). by apply bind_Ret in Hr as (r & _ & [= <-]).
  - destruct hv; [done|]. intros Hr. apply bind_Ret in Hr as (c & _ & Hr). by apply bind_Ret in Hr as (r & _ & [= <-]).
  - destruct hv; [|done]. intros Hr. apply bind_Ret in Hr as (c & _ & Hr). by apply bind_Ret in Hr as (r & _ & [= <-]).
Qed.

Lemma background_good M ws bo x pr eff m a d ev t :
  procGood M ws bo x pr eff m a d -> ev = TFlush \/ ev = TWake \/ ev = THarvest ->
  threadStep std_hash raw (slot pr) (descriptor pr) ev (mkThreads (prApp pr) (prSvc pr) (prHarvesting pr) (process pr) ws) = Ret t ->
  addedStays std_hash raw (descriptor pr) t = true ->
  exists a', procGood M (world t) bo x (mkProc (slot pr) (descriptor pr) (app t) (svc t) (harvesting t) (client t)) eff m a' d /\
    drained (table (process pr)) a ws a' (world t).
Proof.
  intros Hg Hev Hr Hs. destruct (background_table ev _ _ _ _ Hev Hr) as [Hsv Htab]. cbn in Hsv, Htab.
  assert (Hne : ev <> TApp) by (by destruct Hev as [->|[->| ->]]).
  destruct (others_ok std_hash raw (slot pr) (descriptor pr) m (mkThreads (prApp pr) (prSvc pr) (prHarvesting pr) (process pr) ws) a ev t Hne
    (pg_ok _ _ _ _ _ _ _ _ _ Hg) Hr) as (Happ & a' & Hok' & Hun & Hdr). cbn in Happ, Hun, Hdr.
  destruct t as [st v hv s' ws']. cbn in *. subst st v. exists a'. split; [|done].
  eapply drained_good; [done..|]. eapply evicting_undisturbed; [done|exact Hun|apply Hg].
Qed.

(** A map with fewer bytes asks less of a call in progress. *)
Lemma callOk_sub m m' d start total a s :
  (forall n' z v, m' n' z = Some v -> m n' z = Some v) ->
  ThreadSpec.callOk m n d start total a s -> ThreadSpec.callOk m' n d start total a s.
Proof.
  intros Hm. assert (Ha : forall o bs, agrees m n o bs -> agrees m' n o bs) by (intros o bs H j v Hj Hv; apply H; auto).
  assert (Hb : forall o blk, blockAgrees m n o blk -> blockAgrees m' n o blk) by (intros o blk [Hl H]; split; [done|]; intros z v Hz Hbz Hv; auto).
  destruct s; cbn; intuition auto.
Qed.

(** The bytes of the map that the tokens cover. *)
Definition under (ts : list Permission) m (n' : string) (z : Z) : option byte := if decide (holds ts false z) then m n' z else None.

Lemma under_Some ts m n' z v : under ts m n' z = Some v <-> holds ts false z /\ m n' z = Some v.
Proof. unfold under. case_decide; [tauto|]. split; [done|tauto]. Qed.


Lemma view_local m m' c s n' z : m n' z = m' n' z -> view m n c s n' z = view m' n c s n' z.
Proof. intros Hm. destruct c; cbn; try done. destruct s; cbn; try done; unfold updated; by rewrite Hm. Qed.

(** The last turn of an eviction: the extent of the client is that of its tokens again. *)
Lemma evicted_good M ws bo x pr eff m a d i ad e :
  procGood M ws bo x pr eff m a d -> prSvc pr = Some (i, ad, e) -> e < ad ->
  procGood M ws bo x (setSvc None pr) (tokens x) (under (tokens x) m) a d /\
  (forall z v, 0 <= z -> M n z = Some v -> holds eff true z -> ~ holds (tokens x) true z -> storedByte ws n wd z = Some v).
Proof.
  intros Hg Hsv Had. assert (Hg' := Hg). destruct Hg' as [(f & Hf & He & Hfd) Hok Hv Hp Hco Ho Ha Hev].
  unfold evicting in Hev. rewrite Hsv in Hev. destruct Hev as (-> & Hnr & bz & Hbz & -> & Hwb & Hal & Hadr & Hin & Hout & Hgone).
  assert (Hnone : forall v z, holds eff v z -> ~ holds (tokens x) v z -> cached a (d, baseOf z) = None /\ ~ (exists v, holds (tokens x) v z)).
  { intros v z [?|Hz]%Hout Hn; [done|]. split; [apply Hgone; [done|lia]|]. intros (v' & Hv'). by apply (Hin v' z Hv'). }
  assert (Hnah : forall st en wr g z, call x = Using st en wr g -> ahead (prApp pr) z -> exists v, holds (tokens x) v z).
  { intros st en wr g z Hc Hz. exists wr. by eapply pg_ahead. }
  split.
  - split; cbn [setSvc slot descriptor prApp process prSvc].
    + by exists f.
    + eapply clientOk_sub; [|exact Hok]. intros n' z v [_ Hm]%under_Some. done.
    + intros n' z v. destruct (decide (holds (tokens x) false z)) as [Hh|Hn].
      * rewrite (view_local (under (tokens x) m) m) by (unfold under; by rewrite decide_True). rewrite Hv.
        pose proof (proj1 (Hin false z Hh)). tauto.
      * split; [|tauto]. intros Hvz. exfalso.
        assert (Hu : under (tokens x) m n' z = Some v); [|apply under_Some in Hu; tauto].
        destruct (call x) as [| | |st en wr g] eqn:Hcx; try done. cbn in Hvz. rewrite promised_outside in Hvz; [done|]. intros [_ Hz'].
        destruct (Hnah st en wr g z eq_refl Hz') as ([] & Hh); [by apply Hn, holds_weaken|done].
    + unfold inProgress in *. destruct (call x); [done|done|done|]. destruct Hp as (? & Hc & Hrest). split; [done|]. split; [|done].
      eapply callOk_sub; [|exact Hc]. intros n' z v [_ Hm]%under_Some. done.
    + intros z Hz. destruct (decide (holds (tokens x) false z)) as [|Hn]; [done|]. destruct (Hnone false z (Hco z Hz) Hn) as [Hc _]. rewrite Hc in Hz. by destruct Hz.
    + intros z Hz. destruct (decide (holds (tokens x) true z)) as [|Hn]; [done|]. destruct (Hnone true z (Ho z Hz) Hn) as [Hc _].
      destruct Hz as (d' & wd' & blk & Hin' & Hblk & _). destruct (proj2 (pg_table _ _ _ _ _ _ _ _ _ wd' Hg) d' Hin') as [-> ->]. congruence.
    + done.
    + by intros v z.
  - intros z v Hz HM Hh Hn. destruct (Hnone true z Hh Hn) as [Hc Hno].
    assert (Hvz : view m n (call x) (prApp pr) n z = Some v) by (apply Hv; split; [done|]; split; [by apply holds_weaken|done]).
    assert (Hmz : m n z = Some v).
    { destruct (call x) as [| | |st en wr g] eqn:Hcx; try done. cbn in Hvz. rewrite promised_outside in Hvz; [done|]. intros [_ Hz'].
      apply Hno. by eapply Hnah. }
    pose proof (ok_holds _ _ _ _ _ _ Hok n d wd z v (proj1 (pg_table _ _ _ _ _ _ _ _ _ wd Hg)) Hz Hmz) as Hval. by rewrite Hc in Hval.
Qed.
(** One turn of an eviction. *)
Lemma evictTurn_good M ws bo x pr eff m a d i ad e f c c' ws' :
  procGood M ws bo x pr eff m a d -> prSvc pr = Some (i, ad, e) -> ad <= e -> fileAt i (process pr) = Ret f ->
  getInstance raw (process pr) = Ret c -> evictBlock (H := store (process pr)) std_hash (getDescriptor f) ad c ws = Ret (c', ws') ->
  let pr' := mkProc (slot pr) (descriptor pr) (prApp pr) (Some (i, u32 (ad + pfsBlockSizeInBytes), e)) (prHarvesting pr)
               (setInstance (Some c') (process pr)) in
  addedStays std_hash raw (descriptor pr) (mkThreads (prApp pr') (prSvc pr') (prHarvesting pr') (process pr') ws') = true ->
  exists a', procGood M ws' bo x pr' eff m a' d /\ drained (table (process pr)) a ws a' ws'.
Proof.
  intros Hg Hsv Hle Hfi Hc Hr pr' Hs. assert (Hg' := Hg). destruct Hg' as [(f0 & Hf & He & Hfd) Hok Hv Hp Hco Ho Ha Hev].
  destruct (evictStep_ok std_hash raw (slot pr) m _ a ws c _ ad c' ws' Hok Hc Hr) as (a' & Hok' & Hun & Hdr & Hgone). exists a'. split; [|done].
  eapply drained_good; [done..|]. unfold evicting in *. cbn [prSvc slot]. rewrite Hsv in Hev.
  destruct Hev as (-> & Hnr & bz & Hbz & -> & Hwb & Hal & Hadr & Hin & Hout & Hbelow). split; [done|]. split; [done|]. exists bz.
  apply deref_Ret in Hfi. rewrite Hf in Hfi. injection Hfi as <-. assert (Hd : u32 (getDescriptor f0) = d) by (by injection He). rewrite Hd in Hgone.
  assert (Hu : u32 (ad + pfsBlockSizeInBytes) = ad + pfsBlockSizeInBytes).
  { destruct Hwb as (_ & _ & _ & H1 & H2). apply u32_id. unfold INT_MAX in H2. change pfsBlockSizeInBytes with 1024 in *. word_lia. }
  rewrite Hu. repeat (split; [done|]). split; [change pfsBlockSizeInBytes with 1024 in *; word_lia|]. split; [change pfsBlockSizeInBytes with 1024 in *; lia|]. repeat (split; [done|]).
  intros z Hz Hlt. destruct (decide (z < ad)) as [Hz'|Hz']; [apply (un_cached _ _ _ _ _ Hun); auto|].
  assert (baseOf z = ad) as ->; [|done]. unfold baseOf. change pfsBlockSizeInBytes with 1024 in *. word_lia.
Qed.

(** A step of a thread of a client. *)
Lemma thread_good M w E p ev w' :
  concOk M w E -> concThread std_hash raw p ev w = Ret w' -> allStay std_hash raw w' = true -> exists E', concOk M w' E'.
Proof.
  intros Hok Hr Hall. unfold concThread in Hr. apply bind_Ret in Hr as (pr & Hpr%deref_Ret & Hr).
  destruct (cc_procs _ _ _ Hok p) as [x Hx]; [by rewrite Hpr|]. destruct (cc_client _ _ _ Hok p x Hx) as (pr0 & m & a & d & Hpr0 & Hg).
  rewrite Hpr in Hpr0. injection Hpr0 as <-.
  assert (Hstay : forall pr' s' ws', w' = mkWorld s' (<[p := pr']> (procs w)) ws' ->
    addedStays std_hash raw (descriptor pr') (mkThreads (prApp pr') (prSvc pr') (prHarvesting pr') (process pr') ws') = true).
  { intros pr' s' ws' ->. unfold allStay in Hall. rewrite forallb_forall in Hall. apply (Hall (p, pr')). cbn [procs].
    apply list_elem_of_In, elem_of_map_to_list. apply lookup_insert_eq. }
  assert (Hsame : forall pr' m' a' ws', w' = mkWorld (proto w) (<[p := pr']> (procs w)) ws' ->
    procGood M ws' (busy (proto w)) x pr' (E p) m' a' d -> drained (table (process pr)) a (servers w) a' ws' -> exists E', concOk M w' E').
  { intros pr' m' a' ws' -> Hg' Hdr. eexists. eapply concOk_local; [done..|apply Hdr| |done|done]. intros z v. by eapply drained_keeps. }
  assert (Hback : ev = TFlush \/ ev = TWake \/ ev = THarvest ->
    (t ← threadStep std_hash raw (slot pr) (descriptor pr) ev (mkThreads (prApp pr) (prSvc pr) (prHarvesting pr) (process pr) (servers w));
     Ret (mkWorld (proto w) (<[p := mkProc (slot pr) (descriptor pr) (app t) (svc t) (harvesting t) (client t)]> (procs w)) (world t))) = Ret w' ->
    exists E', concOk M w' E').
  { intros Hev Hrun. apply bind_Ret in Hrun as (t & Ht & [= <-]).
    destruct (background_good M (servers w) (busy (proto w)) x pr (E p) m a d ev t Hg Hev Ht) as (a' & Hg' & Hdr); [|by eapply Hsame].
    specialize (Hstay _ _ _ eq_refl). by destruct t. }
  destruct ev as [|nm st0 en0 wr0| | | |].
  - destruct (isUsing p (proto w)) eqn:Hu; [|done]. unfold isUsing in Hu. rewrite Hx in Hu. destruct (call x) as [| | |st en wr g] eqn:Hc; try done.
    apply bind_Ret in Hr as (t & Ht & [= <-]).
    destruct (app_good M (servers w) (busy (proto w)) x pr (E p) m a d _ _ t st en wr g Hg Hc Ht) as (-> & -> & -> & m' & a' & Hg').
    eexists. eapply concOk_local; [done..| | | |]; [reflexivity|done|done|done].
  - done.
  - apply bind_Ret in Hr as (t & Ht & [= <-]). unfold threadStep in Ht. cbn [app svc harvesting client world] in Ht.
    destruct (prSvc pr) as [[[i ad] e]|] eqn:Hsv; [|done]. apply bind_Ret in Ht as ([[v' s'] ws'] & He & [= <-]).
    cbn [app svc harvesting client world fst snd] in *. unfold svcEvict in He. destruct (Z.leb_spec ad e) as [Hle|Hgt].
    + apply bind_Ret in He as (f & Hf & He). apply bind_Ret in He as (c & Hc & He). apply bind_Ret in He as ([c' w1] & He & [= <- <- <-]).
      destruct (evictTurn_good M (servers w) (busy (proto w)) x pr (E p) m a d i ad e f c c' w1 Hg Hsv Hle Hf Hc He) as (a' & Hg' & Hdr);
        [exact (Hstay _ _ _ eq_refl)|by eapply Hsame].
    + injection He as <- <- <-. destruct (evicted_good M (servers w) (busy (proto w)) x pr (E p) m a d i ad e Hg Hsv Hgt) as [Hg' Hlost].
      eexists. eapply concOk_local; [done..| | | |]; [reflexivity|done|by intros v z; apply (pg_tokens _ _ _ _ _ _ _ _ _ _ _ Hg)|done].
  - by eapply Hback; auto.
  - by eapply Hback; auto.
  - by eapply Hback; auto.
Qed.
(** ** Steps of the protocol *)

(** A call that has its tokens: a write counts from now on. *)
Definition publish (s : AppState) M : string -> Z -> option byte :=
  match s with WriteNext offset bs _ => updated M n offset bs | _ => M end.

Lemma publish_outside st en wr s M z : started st en wr s -> ~ (wr = true /\ st <= z < en) -> publish s M n z = M n z.
Proof.
  unfold started. destruct wr; [|by intros ->]. intros (bs & -> & Hl) Hno. cbn. unfold updated. rewrite decide_False; [done|].
  intros [_ Hz]. apply Hno. split; [done|lia].
Qed.

Lemma start_good M ws bo x pr eff m a d st en wr g s' :
  procGood M ws bo x pr eff m a d -> (forall st en wr g, call x <> Using st en wr g) -> wholeBlocks st en -> started st en wr s' ->
  (forall z, st <= z < en -> holds (tokens x) wr z) ->
  procGood (publish s' M) ws bo (mkPeer (tokens x) (Using st en wr g)) (setApp s' pr) eff m a d.
Proof.
  intros Hg Hnu Hwb Hst Hh. assert (Hg' := Hg). destruct Hg' as [Hf Hok Hv Hp Hco Ho Ha Hev].
  assert (Hv' : forall n' z v, m n' z = Some v <-> n' = n /\ holds eff false z /\ M n z = Some v).
  { intros n' z v. rewrite <- Hv. destruct (call x); [done|done|done|]. by destruct (Hnu st0 en0 wr0 granted). }
  assert (Hrange : forall z, st <= z < en -> holds eff false z).
  { intros z Hz. apply (pg_tokens M ws bo x pr eff m a d); [done|]. specialize (Hh z Hz). destruct wr; [by apply holds_weaken|done]. }
  split; cbn [setApp slot descriptor prApp prSvc process call tokens]; [done|done| | |done|done| |].
  - intros n' z v. cbn [view]. unfold started in Hst. destruct wr; [|rewrite Hst; apply Hv'].
    destruct Hst as (bs & -> & Hl). cbn [promised publish]. unfold updated at 1. case_decide as Hd.
    + destruct Hd as [-> Hz]. unfold updated. rewrite decide_True by (split; [done|lia]). split; [|tauto]. intros Hb. split; [done|].
      split; [apply Hrange; lia|done].
    + rewrite Hv'. unfold updated. split.
      * intros (-> & Hz & HM). repeat (split; [done|]). by rewrite decide_False.
      * intros (-> & Hz & HM). repeat (split; [done|]). by rewrite decide_False in HM.
  - unfold inProgress. cbn [call tokens]. split; [done|]. destruct Hwb as (_ & _ & Hlt & Hin). unfold started in Hst. destruct wr.
    + destruct Hst as (bs & -> & Hl). cbn. rewrite Hl. split; [done|]. split; [intros z; lia|]. split; [done|]. auto.
    + rewrite Hst. cbn. split; [|split; [intros z; lia|split; [done|auto]]]. split; [done|]. split; [intros j v Hj; cbn in Hj; lia|lia].
  - unfold started in Hst. destruct wr; [by destruct Hst as (bs & -> & _)|by rewrite Hst].
  - unfold evicting in *. cbn [setApp prSvc slot call tokens]. destruct (prSvc pr) as [[[i ad] e]|]; [|done].
    destruct Hev as (? & _ & Hrest). done.
Qed.

(** The size of the file changes and nothing else. *)
Lemma enter_good M ws bo x pr pr' eff m a d p s :
  procGood M ws bo x pr eff m a d -> enter p s pr = Ret pr' -> prApp pr' = prApp pr /\ procGood M ws bo x pr' eff m a d.
Proof.
  intros Hg. unfold enter. destruct (isUsing p s); [|by intros [= <-]]. destruct (prApp pr) eqn:Happ; try by intros [= <-].
  intros (f & Hf%deref_Ret & [= <-])%bind_Ret. split; [done|]. assert (Hf' : entry (markModified (offset + Z.of_nat (length bs)) f) = entry f) by done.
  destruct Hg as [(f0 & Hf0 & He & Hfd) Hok Hv Hp Hco Ho Ha Hev]. rewrite Hf in Hf0. injection Hf0 as <-. rewrite Happ in *.
  split; cbn [slot descriptor prApp prSvc process]; [|by eapply clientOk_setFileAt|done|done|done| |done|done].
  - eexists. split; [exact (openedFiles_setFileAt _ _ f _ Hf)|]. by rewrite Hf'.
  - intros z. rewrite (table_setFileAt _ _ f _ Hf Hf'). apply Ho.
Qed.

(** The state of one client at the manager and its process change. *)
Lemma concOk_peer M M' w E p x x' pr' eff' m' a' d' s' :
  concOk M w E -> reachable b s' -> peers (proto w) !! p = Some x -> peers s' = <[p := x']> (peers (proto w)) ->
  (forall q pr, q <> p -> procs w !! q = Some pr -> prSvc pr <> None -> busy s' = busy (proto w)) ->
  procGood M' (servers w) (busy s') x' pr' eff' m' a' d' ->
  (forall v z, extent eff' x' v z -> extent (E p) x v z) -> (forall z, holds (E p) true z -> holds eff' true z) ->
  (forall z, ~ holds eff' true z -> M' n z = M n z) ->
  concOk M' (mkWorld s' (<[p := pr']> (procs w)) (servers w)) (fun q => if decide (q = p) then eff' else E q).
Proof.
  intros [Hr Hcl Hpr Hex Hst] Hr' Hx Hps Hbusy Hg Hext Hlost HM.
  assert (Hpeer : forall q y, peers s' !! q = Some y -> (q = p /\ y = x') \/ (q <> p /\ peers (proto w) !! q = Some y)).
  { intros q y. rewrite Hps, lookup_insert. case_decide; [intros [= <-]; subst; by left|by right]. }
  split; cbn [proto procs servers]; [done|..].
  - intros q y [[-> ->]|[Hne Hy]]%Hpeer; [exists pr', m', a', d'; by rewrite lookup_insert_eq, decide_True|].
    destruct (Hcl q y Hy) as (pq & mq & aq & dq & Hpq & Hgq). exists pq, mq, aq, dq. rewrite lookup_insert_ne by done. split; [done|].
    rewrite decide_False by done. eapply procGood_frame; [exact Hgq|reflexivity|done| |done|done|by apply (Hbusy q)].
    intros z Hz. apply HM. intros Hw. by apply (Hex p q x y z (not_eq_sym Hne) Hx Hy); [apply Hext; left|left].
  - intros q Hq. rewrite Hps, lookup_insert. case_decide as Hd; [by eexists|]. rewrite lookup_insert_ne in Hq by done. auto.
  - intros q r y y' z Hne [[-> ->]|[Hq Hy]]%Hpeer [[-> ->]|[Hr0 Hy']]%Hpeer; repeat case_decide; try done.
    + intros Hp%Hext. by eapply (Hex p r).
    + intros Hq' Hp%Hext. by apply (Hex q p y x z Hne Hy Hx Hq').
    + by eapply (Hex q r).
  - intros z v Hz Hv Hno. assert (Hnp : ~ holds eff' true z).
    { specialize (Hno p). rewrite decide_True in Hno by done. apply Hno. rewrite Hps, lookup_insert_eq. by eexists. }
    rewrite HM in Hv by done. apply Hst; [done..|]. intros q Hq Hh. destruct (decide (q = p)) as [->|Hne]; [auto|].
    apply (Hno q); [by rewrite Hps, lookup_insert_ne|by rewrite decide_False].
Qed.
Lemma cc_tokens M w E : concOk M w E -> tokensOk b (proto w).
Proof. intros Hok. apply (iv_tokens b _ (reachable_invariant b _ (cc_reachable _ _ _ Hok))). Qed.

(** A call starts. *)
Lemma call_good M w E p offset k w' :
  concOk M w E -> quiet (CCall p offset k) w = true -> concStep std_hash raw (CCall p offset k) w = Ret w' ->
  exists E', concOk (lastWritten n (CCall p offset k) w' M) w' E'.
Proof.
  intros Hok Hq Hr. cbn [quiet] in Hq. rewrite !andb_true_iff in Hq. destruct Hq as ((((H1%Z.eqb_eq & H2%Z.eqb_eq) & H3%Z.leb_le) & H4%Z.ltb_lt) & H5%Z.leb_le).
  assert (Hwb : wholeBlocks offset (offset + taskSize k)).
  { split; [done|]. unfold inFile, INT_MAX in *. change pfsBlockSizeInBytes with 1024 in *. split; [word_lia|]. split; lia. }
  assert (Hu1 : u32 offset = offset) by (apply u32_id; unfold INT_MAX in H5; change pfsBlockSizeInBytes with 1024 in H5; word_lia).
  assert (Hu2 : u32 (offset + taskSize k) = offset + taskSize k) by (apply u32_id; unfold INT_MAX in H5; change pfsBlockSizeInBytes with 1024 in H5; word_lia).
  assert (Hst : started offset (offset + taskSize k) (taskWrites k) (taskStart offset k)).
  { unfold started. destruct k as [bs|nb]; cbn; [exists bs; split; [done|lia]|f_equal; lia]. }
  cbn [concStep] in Hr. apply bind_Ret in Hr as (pr & Hpr%deref_Ret & Hr). apply bind_Ret in Hr as (s' & Hs & Hr).
  apply bind_Ret in Hr as (pr' & He & [= <-]).
  assert (Hr' : reachable b s').
  { eapply reach_next; [apply Hok| |exact Hs]. cbn. rewrite !andb_true_iff, Z.leb_le, Z.ltb_lt, Z.leb_le. unfold INT_MAX in *.
    change pfsBlockSizeInBytes with 1024 in *. lia. }
  cbn [step] in Hs. unfold evCall in Hs. rewrite Hu1, Hu2 in Hs. destruct (peers (proto w) !! p) as [[ts []]|] eqn:Hx; try done.
  destruct (cc_client _ _ _ Hok p _ Hx) as (pr0 & m & a & d & Hpr0 & Hg). rewrite Hpr in Hpr0. injection Hpr0 as <-.
  destruct (hasPermission offset (offset + taskSize k) (taskWrites k) ts) eqn:Hhas; injection Hs as <-.
  - assert (Hh : forall z, offset <= z < offset + taskSize k -> holds ts (taskWrites k) z).
    { intros z Hz. eapply hasPermission_sound; [exact Hhas|]. by split. }
    destruct (enter_good _ _ _ _ _ _ _ _ _ _ _ _ (start_good _ _ _ (mkPeer ts Idle) _ _ _ _ _ _ _ _ false _ Hg ltac:(done) Hwb Hst Hh) He) as [Happ Hg1].
    assert (HM : lastWritten n (CCall p offset k) (mkWorld (setPeer p (mkPeer ts (Using offset (offset + taskSize k) (taskWrites k) false)) (proto w))
        (<[p := pr']> (procs w)) (servers w)) M = publish (taskStart offset k) M).
    { cbn. rewrite lookup_insert_eq, Happ. unfold isUsing. cbn. rewrite lookup_insert_eq. by destruct k. }
    rewrite HM. eexists. eapply (concOk_peer M); [done|done|done|reflexivity|done|exact Hg1|..].
    + intros v z [?|[]]. by left.
    + done.
    + intros z Hz. eapply publish_outside; [exact Hst|]. intros [Hw Hrg]. apply Hz. eapply pg_tokens; [exact Hg|]. rewrite <- Hw. by apply Hh.
  - unfold enter, isUsing in He. cbn in He. rewrite lookup_insert_eq in He. cbn in He. injection He as <-.
    assert (HM : lastWritten n (CCall p offset k) (mkWorld (setPeer p (mkPeer ts (Asking offset (offset + taskSize k) (taskWrites k))) (proto w))
        (<[p := setApp (taskStart offset k) pr]> (procs w)) (servers w)) M = M).
    { cbn. rewrite lookup_insert_eq. unfold isUsing. cbn. by rewrite lookup_insert_eq. }
    rewrite HM. exists (fun q => if decide (q = p) then E p else E q).
    eapply (concOk_peer M M w E p _ _ (setApp (taskStart offset k) pr) (E p) m a d); [done|done|exact Hx|reflexivity|done| |intros v z [?|[]]; by left|done|done].
    destruct Hg as [Hf Hcok Hv Hp Hco Ho Ha Hev]. split; cbn [setApp slot descriptor prApp prSvc process call tokens]; [done|done|exact Hv|by split|done|done|by destruct k|].
    unfold evicting in *. cbn [setApp prSvc slot call tokens] in *. by destruct (prSvc pr) as [[[i ad] e]|].
Qed.

(** A call ends. *)
Lemma done_good M w E p w' :
  concOk M w E -> concStep std_hash raw (CDone p) w = Ret w' -> exists E', concOk M w' E'.
Proof.
  intros Hok Hr. cbn [concStep] in Hr. apply bind_Ret in Hr as (pr & Hpr%deref_Ret & Hr). destruct (prApp pr) as [| | | | | | |hit acc] eqn:Happ; try done.
  apply bind_Ret in Hr as (s' & Hs & [= <-]). assert (Hr' : reachable b s') by (by apply (reach_next b (EvDone p) (proto w)); [apply Hok|..]).
  cbn [step] in Hs. apply evDone_inv in Hs as (ts & st & en & wr & g & ts' & posts & mm & Hx & Hu & _ & ->).
  pose proof (unlockPermission_tokens st en wr ts) as Hsame. rewrite Hu in Hsame. cbn in Hsame.
  destruct (cc_client _ _ _ Hok p _ Hx) as (pr0 & m & a & d & Hpr0 & Hg). rewrite Hpr in Hpr0. injection Hpr0 as <-.
  exists (fun q => if decide (q = p) then E p else E q).
  rewrite <- (insert_id (procs w) p pr) by done.
  eapply (concOk_peer M M w E p _ _ pr (E p) m a d); [done|done|exact Hx|reflexivity|done| |intros v z [?|[]]; by left|done|done].
  destruct Hg as [Hf Hcok Hv Hp Hco Ho Ha Hev]. split; cbn [call tokens]; [done|done| |by unfold inProgress; cbn; rewrite Happ|done|done|done|].
  - intros n' z v. rewrite <- Hv. cbn. by rewrite Happ.
  - unfold evicting in *. cbn [call tokens] in *. destruct (prSvc pr) as [[[i ad] e]|].
    + destruct Hev as (? & _ & bz & ? & ? & ? & ? & ? & H1 & H2 & ?). split; [done|]. split; [done|]. exists bz. repeat (split; [done|]).
      split; [intros v z; rewrite Hsame; apply H1|]. split; [intros v z; rewrite Hsame; apply H2|done].
    + intros v z. by rewrite Hsame.
Qed.
(** A client with a reply under way has nothing to evict. *)
Lemma replied_settled M ws bo x pr eff m a d :
  procGood M ws bo x pr eff m a d -> isReplied (call x) = true -> prSvc pr = None /\ forall v z, holds eff v z <-> holds (tokens x) v z.
Proof.
  intros [_ _ _ _ _ _ _ He] Hrep. unfold evicting in He. destruct (prSvc pr) as [[[i ad] e]|]; [|done]. destruct He as (_ & Hn & _). congruence.
Qed.

(** The bytes that a client can access when its reply has arrived are in place: no other
    client may write them, so they are stored. *)
Lemma granted_good M w E p x ts' pr m a d st en wr rs re :
  concOk M w E -> peers (proto w) !! p = Some x -> call x = Replied st en wr rs re ->
  procGood M (servers w) (busy (proto w)) x pr (E p) m a d ->
  (forall v z, holds ts' v z <-> holds (tokens x) v z \/ requested rs re wr v z) ->
  procGood M (servers w) (busy (proto w)) (mkPeer ts' (call x)) pr ts' (fun n' z => if decide (n' = n) then under ts' M n z else None) a d.
Proof.
  intros Hok Hx Hc Hg Hts. assert (Hg' := Hg). destruct Hg' as [Hf Hcok Hv Hp Hco Ho Ha Hev].
  destruct (replied_settled _ _ _ _ _ _ _ _ _ Hg) as [Hsv Heff]; [by rewrite Hc|].
  assert (Hgrow : forall v z, holds (E p) v z -> holds ts' v z) by (intros v z Hh; apply Hts; left; by apply Heff).
  split; cbn [call tokens]; [done| | | |intros z Hz; by apply Hgrow, Hco|intros z Hz; by apply Hgrow, Ho|done|by unfold evicting; rewrite Hsv].
  - destruct Hcok as [H1 H2 H3 H4 H5]. split; [done..|]. intros n' d' wd' z v Hin Hz Hm. case_decide as Hn; [|done]. subst n'.
    apply under_Some in Hm as [Hh HM]. destruct (proj2 (pg_table _ _ _ _ _ _ _ _ _ wd' Hg) d' Hin) as [-> ->].
    destruct (decide (holds (E p) false z)) as [Hold|Hnew].
    + apply (H5 n d wd z v Hin Hz). assert (Hvz : view m n (call x) (prApp pr) n z = Some v) by (by apply Hv). by rewrite Hc in Hvz.
    + destruct (cached a (d, baseOf z)) as [blk|] eqn:Hcb; [destruct Hnew; apply Hco; by rewrite Hcb|]. cbn.
      apply (cc_stored _ _ _ Hok); [done..|]. intros q [y Hy] Hq. destruct (decide (q = p)) as [->|Hne]; [by apply Hnew, holds_weaken|].
      apply (cc_exclusive _ _ _ Hok q p y x z Hne Hy Hx); [by left|]. right. rewrite Hc. cbn.
      apply Hts in Hh as [Hh|Hh]; [|done]. destruct Hnew. by apply Heff.
  - intros n' z v. rewrite Hc. cbn. case_decide as Hn; [rewrite under_Some; tauto|]. split; [done|tauto].
  - unfold inProgress in *. cbn [call]. by rewrite Hc in *.
Qed.

(** A reply arrives. *)
Lemma reply_good M w E p w' :
  concOk M w E -> concStep std_hash raw (CReply p) w = Ret w' -> exists E', concOk (lastWritten n (CReply p) w' M) w' E'.
Proof.
  intros Hok Hr. cbn [concStep] in Hr. apply bind_Ret in Hr as (pr & Hpr%deref_Ret & Hr).
  apply bind_Ret in Hr as (s' & Hs & Hr). apply bind_Ret in Hr as (pr' & He & [= <-]).
  assert (Hr' : reachable b s') by (by apply (reach_next b (EvReply p) (proto w)); [apply Hok|..]).
  cbn [step] in Hs. apply evReply_inv in Hs as (ts & st & en & wr & rs & re & ts' & Hx & Ha & ->).
  destruct (reply_fits b _ p ts st en wr rs re ts' (cc_tokens _ _ _ Hok) Hx Ha) as (_ & _ & Hts).
  pose proof (to_call b _ (cc_tokens _ _ _ Hok) p _ Hx) as (_ & Hrs & Hre).
  destruct (cc_client _ _ _ Hok p _ Hx) as (pr0 & m & a & d & Hpr0 & Hg). rewrite Hpr in Hpr0. injection Hpr0 as <-.
  pose proof (granted_good M w E p _ ts' pr m a d st en wr rs re Hok Hx eq_refl Hg Hts) as Hg1. cbn [call] in Hg1.
  destruct (replied_settled _ _ _ _ _ _ _ _ _ Hg eq_refl) as [Hsv Heff]. cbn [tokens] in Heff.
  assert (Hp := pg_call _ _ _ _ _ _ _ _ _ Hg1). unfold inProgress in Hp. cbn [call] in Hp. destruct Hp as [Hwb Hst].
  assert (Hh : forall z, st <= z < en -> holds ts' wr z) by (intros z Hz; apply Hts; right; split; [lia|done]).
  pose proof (start_good _ _ _ _ _ _ _ _ _ st en wr true (prApp pr) Hg1 ltac:(done) Hwb Hst Hh) as Hg2. cbn [tokens] in Hg2.
  replace (setApp (prApp pr) pr) with pr in Hg2 by (by destruct pr). destruct (enter_good _ _ _ _ _ _ _ _ _ _ _ _ Hg2 He) as [Happ Hg3].
  assert (HM : lastWritten n (CReply p) (mkWorld (setPeer p (mkPeer ts' (Using st en wr true)) (proto w)) (<[p := pr']> (procs w)) (servers w)) M = publish (prApp pr) M).
  { cbn. rewrite lookup_insert_eq, Happ. unfold isUsing. cbn. by rewrite lookup_insert_eq. }
  rewrite HM. eexists.
  eapply (concOk_peer M); [done|done|exact Hx|reflexivity|done|exact Hg3|..].
  - intros v z [Hz|[]]. apply Hts in Hz as [Hz|Hz]; [left; by apply Heff|by right].
  - intros z Hz. apply Hts. left. by apply Heff.
  - intros z Hz. eapply publish_outside; [exact Hst|]. intros [-> Hrg]. by apply Hz, Hh.
Qed.
(** A step of the manager that leaves the vectors and the calls alone. *)
Lemma concOk_manager M w E s' :
  concOk M w E -> reachable b s' -> peers s' = peers (proto w) ->
  (forall q pr, procs w !! q = Some pr -> prSvc pr <> None -> busy s' = busy (proto w)) ->
  concOk M (mkWorld s' (procs w) (servers w)) E.
Proof.
  intros [Hr Hcl Hpr Hex Hst] Hr' Hps Hb. split; cbn [proto procs servers]; rewrite ?Hps; [done| |done|done|done].
  intros p x Hx. destruct (Hcl p x Hx) as (pr & m & a & d & Hp & Hg). exists pr, m, a, d. split; [done|].
  eapply procGood_frame; [exact Hg|reflexivity|done|done|done|done|by apply (Hb p)].
Qed.

(** While an eviction is under way the manager is in a request. *)
Lemma evicting_busy M w E q pr : concOk M w E -> procs w !! q = Some pr -> prSvc pr <> None -> is_Some (busy (proto w)).
Proof.
  intros Hok Hq Hsv. destruct (cc_procs _ _ _ Hok q) as [x Hx]; [by rewrite Hq|].
  destruct (cc_client _ _ _ Hok q x Hx) as (pr' & m & a & d & Hq' & [_ _ _ _ _ _ _ He]). rewrite Hq in Hq'. injection Hq' as <-.
  unfold evicting in He. destruct (prSvc pr) as [[[i ad] e]|]; [|done]. destruct He as (_ & _ & bz & -> & _). by eexists.
Qed.

Lemma serve_good M w E p w' :
  concOk M w E -> quiet (CServe p) w = true -> concStep std_hash raw (CServe p) w = Ret w' -> exists E', concOk M w' E'.
Proof.
  intros Hok Hq Hr. cbn [concStep quiet] in *. unfold concProto in Hr. apply bind_Ret in Hr as (s' & Hs & [= <-]).
  assert (Hr' : reachable b s') by (by apply (reach_next b (EvServe p) (proto w)); [apply Hok|..]).
  cbn [step] in Hs. apply evServe_inv in Hs as (Hb & ts & st & en & wr & Hx & [[Hn ->]|(permit & msgs & f & _ & ->)]).
  - destruct (proj1 (to_dom b _ (cc_tokens _ _ _ Hok) p)) as [l Hl]; [by rewrite Hx|congruence].
  - exists E. apply concOk_manager; [done..|]. intros q pr Hpr Hsv. destruct (evicting_busy _ _ _ _ _ Hok Hpr Hsv). congruence.
Qed.

Lemma revokeStep_good M w E q w' :
  concOk M w E -> quiet (CRevoke q) w = true -> concStep std_hash raw (CRevoke q) w = Ret w' -> exists E', concOk M w' E'.
Proof.
  intros Hok Hq Hr. cbn [concStep quiet] in *. unfold concProto in Hr. apply bind_Ret in Hr as (s' & Hs & [= <-]).
  assert (Hr' : reachable b s') by (by apply (reach_next b (EvRevoke q) (proto w)); [apply Hok|..]).
  cbn [step] in Hs. apply evRevoke_inv in Hs as (bz & Hb & Hrev & [[Hn ->]|(x & ts & count & Hx & Hw & ->)]).
  - exists E. by apply concOk_manager.
  - pose proof (registerWaiters_tokens (bz_start bz) (bz_end bz) (nextSem (proto w)) (tokens x)) as Hsame. rewrite Hw in Hsame. cbn in Hsame.
    destruct (cc_client _ _ _ Hok q _ Hx) as (pr & m & a & d & Hpr & Hg). rewrite <- (insert_id (procs w) q pr) by done.
    exists (fun r => if decide (r = q) then E q else E r).
    eapply (concOk_peer M M w E q x _ pr (E q) m a d); [done|done|done|reflexivity|done| |done|done|done].
    eapply procGood_frame; [exact Hg|reflexivity|done|done|done|exact Hsame|done].
Qed.

Lemma wake_good M w E q w' : concOk M w E -> concStep std_hash raw (CWakeUp q) w = Ret w' -> exists E', concOk M w' E'.
Proof.
  intros Hok Hr. cbn [concStep] in *. unfold concProto in Hr. apply bind_Ret in Hr as (s' & Hs & [= <-]).
  assert (Hr' : reachable b s') by (by apply (reach_next b (EvWake q) (proto w)); [apply Hok|..]).
  cbn [step] in Hs. apply evWake_inv in Hs as (sem & count & v & _ & _ & ->). exists E. by apply concOk_manager.
Qed.

(** The range of the request that is served. *)
Lemma busy_wholeBlocks M w E bz : concOk M w E -> busy (proto w) = Some bz -> wholeBlocks (bz_start bz) (bz_end bz).
Proof.
  intros Hok Hb. destruct (to_busy b _ (cc_tokens _ _ _ Hok) bz Hb) as (_ & _ & x & Hx & Hc).
  destruct (cc_client _ _ _ Hok _ x Hx) as (pr & m & a & d & _ & Hg). pose proof (pg_call _ _ _ _ _ _ _ _ _ Hg) as Hp.
  unfold inProgress in Hp. rewrite Hc in Hp. apply Hp.
Qed.

(** The tokens are cut and the eviction of their blocks starts. *)
Lemma cut_good M w E q w' :
  concOk M w E -> quiet (CCut q) w = true -> concStep std_hash raw (CCut q) w = Ret w' -> exists E', concOk M w' E'.
Proof.
  intros Hok Hq Hr. cbn [concStep quiet] in *. apply bind_Ret in Hr as (bz & Hbz%deref_Ret & Hr). apply bind_Ret in Hr as (pr & Hpr%deref_Ret & Hr).
  destruct (prSvc pr) eqn:Hsv; [done|]. apply bind_Ret in Hr as (s' & Hs & [= <-]).
  assert (Hr' : reachable b s') by (by apply (reach_next b (EvCut q) (proto w)); [apply Hok|..]).
  pose proof (reachable_invariant b _ Hr') as [_ _ _ Hprot]. pose proof (busy_wholeBlocks _ _ _ _ Hok Hbz) as Hwb.
  cbn [step] in Hs. apply evCut_inv in Hs as (bz' & sem & x & ts & Hbz' & Hrev & Hx & Hcut & ->). rewrite Hbz in Hbz'. injection Hbz' as <-.
  destruct (iv_sems b _ (reachable_invariant b _ (cc_reachable _ _ _ Hok))) as [Hwait _ _ _ _].
  destruct (Hwait q sem 0%nat Hrev) as (x0 & v0 & Hx0 & Hnr & _). rewrite Hx in Hx0. injection Hx0 as <-.
  assert (Hexact : forall v z, holds ts v z <-> holds (tokens x) v z /\ ~ (bz_start bz <= z < bz_end bz)).
  { destruct (to_wf b _ (cc_tokens _ _ _ Hok) q x Hx) as [Hsm Hso].
    destruct (cutVector_wf (bz_start bz) (bz_end bz) (tokens x)) as (_ & _ & Hh); [by eapply busy_range; [apply (cc_tokens _ _ _ Hok)|]|done..|].
    by rewrite (cutVector_Ret _ _ _ _ Hcut) in Hh. }
  destruct (cc_client _ _ _ Hok q _ Hx) as (pr0 & m & a & d & Hpr0 & Hg). rewrite Hpr in Hpr0. injection Hpr0 as <-.
  exists (fun r => if decide (r = q) then E q else E r).
  eapply (concOk_peer M M w E q x _ _ (E q) m a d); [done|done|done|reflexivity|done| |done|done|done].
  assert (Hg' := Hg). destruct Hg' as [Hf Hcok Hv Hp Hco Ho Ha Hev]. unfold evicting in Hev. rewrite Hsv in Hev.
  split; cbn [setSvc slot descriptor prApp prSvc process call tokens]; [done|done|done| |done|done|done|].
  - unfold inProgress in *. cbn [call tokens]. destruct (call x) as [| | |st en wr g] eqn:Hc; [done|done|done|].
    destruct Hp as (H1 & H2 & H3 & H4 & H5). repeat (split; [done|]). intros z Hz. destruct g.
    + apply (holdsLocked_holds true). eapply (Hprot q (mkPeer ts (call x)) st en wr); [cbn; by rewrite lookup_insert_eq, Hc|done|done].
    + rewrite Hx, Hbz, Hc in Hq. apply Hexact. split; [auto|]. apply orb_true_iff in Hq as [Hq%Z.leb_le|Hq%Z.leb_le]; lia.
  - unfold evicting. cbn [setSvc prSvc slot call tokens]. split; [done|]. split; [done|]. exists bz. split; [done|]. split; [done|]. split; [done|].
    assert (Hb : blockOf (bz_start bz) = bz_start bz).
    { destruct Hwb as (H1 & _ & H2 & H3 & H4). unfold INT_MAX in H4. change pfsBlockSizeInBytes with 1024 in *.
      rewrite (proj1 (blockOf_spec (bz_start bz) ltac:(word_lia))). unfold baseOf. change pfsBlockSizeInBytes with 1024. word_lia. }
    rewrite Hb. destruct Hwb as (H1 & _ & H2 & _). split; [done|]. split; [change pfsBlockSizeInBytes with 1024; lia|].
    split; [intros v z Hz; apply Hexact in Hz as [Hz ?]; split; [by apply Hev|done]|].
    split; [|intros z; lia]. intros v z Hz%Hev. destruct (decide (bz_start bz <= z < bz_end bz)) as [|Hno]; [by right|left]. by apply Hexact.
Qed.

Lemma evictionsDone_svc l q pr : evictionsDone l = true -> l !! q = Some pr -> prSvc pr = None.
Proof.
  unfold evictionsDone. rewrite forallb_forall. intros Hdone Hq. specialize (Hdone (q, pr)). cbn in Hdone.
  destruct (prSvc pr); [|done]. discriminate Hdone. by apply list_elem_of_In, elem_of_map_to_list.
Qed.

(** The manager replies: every eviction is done, so the tokens are all that counts. *)
Lemma grantStep_good M w E w' : concOk M w E -> concStep std_hash raw CGrant w = Ret w' -> exists E', concOk M w' E'.
Proof.
  intros Hok Hr. cbn [concStep] in Hr. destruct (evictionsDone (procs w)) eqn:Hdone; [|done]. unfold concProto in Hr.
  apply bind_Ret in Hr as (s' & Hs & [= <-]). assert (Hr' : reachable b s') by (by apply (reach_next b EvGrant (proto w)); [apply Hok|..]).
  cbn [step] in Hs. apply evGrant_inv in Hs as (bz & Hbz & _ & Hs').
  destruct (to_busy b _ (cc_tokens _ _ _ Hok) bz Hbz) as (_ & _ & x & Hx & Hc). rewrite Hx in Hs'.
  assert (Hsettled : forall q pr, procs w !! q = Some pr -> prSvc pr = None) by (intros *; by apply evictionsDone_svc).
  set (x' := mkPeer (tokens x) (Replied (bz_start bz) (bz_end bz) (bz_write bz) (start (bz_permit bz)) (end_ (bz_permit bz)))) in *.
  assert (Hps : peers s' = <[bz_peer bz := x']> (peers (proto w))) by (by rewrite Hs').
  assert (Hcl : forall p y, peers s' !! p = Some y -> exists pr m a d, procs w !! p = Some pr /\ procGood M (servers w) None y pr (E p) m a d).
  { intros p y. rewrite Hps, lookup_insert. case_decide as Hd; [intros [= <-]; subst p|intros Hy].
    - destruct (cc_client _ _ _ Hok _ x Hx) as (pr & m & a & d & Hpr & [Hf Hcok Hv Hp Hco Ho Ha Hev]). exists pr, m, a, d. split; [done|].
      unfold evicting in Hev. rewrite (Hsettled _ _ Hpr) in Hev.
      split; [done|done|by rewrite Hc in Hv| |done|done|done|unfold evicting; by rewrite (Hsettled _ _ Hpr)].
      unfold inProgress in *. by rewrite Hc in Hp.
    - destruct (cc_client _ _ _ Hok p y Hy) as (pr & m & a & d & Hpr & Hg). exists pr, m, a, d. split; [done|].
      eapply procGood_frame; [exact Hg|reflexivity|done..|]. by rewrite (Hsettled _ _ Hpr). }
  assert (Heff : forall p y v z, peers s' !! p = Some y -> extent (E p) y v z -> reaches y v z).
  { intros p y v z Hy. destruct (Hcl p y Hy) as (pr & m & a & d & Hpr & [_ _ _ _ _ _ _ Hev]). unfold evicting in Hev. rewrite (Hsettled _ _ Hpr) in Hev.
    intros [Hz|Hz]; [left; by apply Hev|by right]. }
  exists E. split; cbn [proto procs servers]; [done| | | |].
  - replace (busy s') with (@None Busy) by (by rewrite Hs'). done.
  - intros p Hp. rewrite Hps, lookup_insert. case_decide; [by eexists|]. by apply (cc_procs _ _ _ Hok).
  - intros p q y y' z Hne Hy Hy' H1 H2. apply (iv_exclusive b _ (reachable_invariant b _ Hr') p q y y' z Hne Hy Hy'); by eapply Heff.
  - intros z v Hz HM Hno. apply (cc_stored _ _ _ Hok); [done..|]. intros p Hp. apply Hno. rewrite Hps, lookup_insert. case_decide; [by eexists|done].
Qed.

(** ** Histories *)

Lemma step_good M w E ev w' :
  concOk M w E -> quiet ev w = true -> concStep std_hash raw ev w = Ret w' -> allStay std_hash raw w' = true ->
  exists E', concOk (lastWritten n ev w' M) w' E'.
Proof.
  intros Hok Hq Hr Hs. destruct ev; [by eapply call_good|by eapply serve_good|by eapply revokeStep_good|by eapply wake_good|by eapply cut_good|
    by eapply grantStep_good|by eapply reply_good|by eapply done_good|by eapply thread_good].
Qed.

Lemma history_good evs M w E M' w' :
  concOk M w E -> calmHistory std_hash raw n evs w M = Ret (w', M') -> exists E', concOk M' w' E'.
Proof.
  revert M w E. induction evs as [|ev evs IH]; intros M w E Hok; cbn [calmHistory]; [intros [= <- <-]; by exists E|].
  destruct (quiet ev w) eqn:Hq; [|done]. intros Hr. apply bind_Ret in Hr as (w1 & Hs & Hr). destruct (allStay std_hash raw w1) eqn:Ha; [|done].
  destruct (step_good M w E ev w1 Hok Hq Hs Ha) as [E1 Hok1]. by eapply IH.
Qed.

End Invariant.
