(* ===== verification/ConcurrentProgress.v ===== *)
(** Progress of several clients (Concurrent.v): a request that the manager has taken up is
    answered once the clients that it revokes tokens from are at rest, their blocks
    evicted first. *)

From Stdlib Require Import String Strings.Byte.
From stdpp Require Import gmap strings.
From S2P Require Import Prelude Config Permission File Tokens FileServer MetadataManager MMFile ClientFile Cache CacheLists CacheSpec CacheProps Client ClientSpec ClientFrame ClientProps ClientThreads Interleaving InterleavingInv ThreadSpec InterleavingProps Concurrent ConcurrentInv.
#[local] Open Scope Z_scope.

(** A client at rest: in no data loop, with no reply under way and no token locked. *)
Definition resting (x : Peer) : Prop :=
  match call x with Idle | Asking _ _ _ => True | _ => False end /\ forall t, t ∈ tokens x -> locked t = false.

Lemma resting_free x : resting x -> free x.
Proof. intros [Hc Ht]. split; [by destruct (call x)|done]. Qed.

(** What the manager still waits for at a client. *)
Definition awaited {W} (q : string) (w : World W) : Prop :=
  is_Some (revokers (proto w) !! q) \/ exists pr, procs w !! q = Some pr /\ prSvc pr <> None.

Definition isAdded (s : AppState) : bool := match s with WriteAdded _ _ => true | _ => false end.

Section Progress.
Context {W : Type} `{!FileServerStub W, !FileServerStubOk W} (std_hash : Z -> Z) (raw : nat -> CacheBlock).
Context (b : File) (n : string) (wd : Z).
Implicit Types (w : World W) (x : Peer) (pr : Proc) (M : string -> Z -> option byte).

Abbreviation concOkAt := (concOk std_hash raw b n wd).
Abbreviation allStayAt := (allStay std_hash raw).

(** ** Calm histories without a write *)

Definition goes M w w' : Prop := exists evs, calmHistory std_hash raw n evs w M = Ret (w', M).

Lemma goes_refl M w : goes M w w.
Proof. by exists []. Qed.

Lemma calmHistory_app evs1 evs2 M1 M2 M3 w1 w2 w3 :
  calmHistory std_hash raw n evs1 w1 M1 = Ret (w2, M2) -> calmHistory std_hash raw n evs2 w2 M2 = Ret (w3, M3) ->
  calmHistory std_hash raw n (evs1 ++ evs2) w1 M1 = Ret (w3, M3).
Proof.
  revert w1 M1. induction evs1 as [|ev evs1 IH]; intros w1 M1; cbn [calmHistory Datatypes.app]; [by intros [= -> ->]|].
  destruct (quiet ev w1); [|done]. intros (w & Hs & Hr)%bind_Ret H2. rewrite Hs. cbn [mbind outcome_bind].
  destruct (allStayAt w); [|done]. by apply IH.
Qed.

Lemma goes_trans M w1 w2 w3 : goes M w1 w2 -> goes M w2 w3 -> goes M w1 w3.
Proof. intros [evs1 H1] [evs2 H2]. exists (evs1 ++ evs2). by eapply calmHistory_app. Qed.

Lemma goes_step M ev w w' :
  quiet ev w = true -> concStep std_hash raw ev w = Ret w' -> allStayAt w' = true -> lastWritten n ev w' M = M -> goes M w w'.
Proof. intros Hq Hs Ha HM. exists [ev]. cbn [calmHistory]. rewrite Hq, Hs. cbn. by rewrite Ha, HM. Qed.

Lemma goes_ok M w w' E : goes M w w' -> concOkAt M w E -> exists E', concOkAt M w' E'.
Proof. intros [evs Hr] Hok. by eapply history_good. Qed.

Lemma calmHistory_stays evs M M' w w' : calmHistory std_hash raw n evs w M = Ret (w', M') -> allStayAt w = true -> allStayAt w' = true.
Proof.
  revert w M. induction evs as [|ev evs IH]; intros w M; cbn [calmHistory]; [by intros [= <- _]|].
  destruct (quiet ev w); [|done]. intros (w1 & _ & Hr)%bind_Ret _. destruct (allStayAt w1) eqn:Ha; [|done]. by eapply IH.
Qed.

Lemma goes_stays M w w' : goes M w w' -> allStayAt w = true -> allStayAt w' = true.
Proof. intros [evs Hr]. by eapply calmHistory_stays. Qed.

(** Only the client that moves can lose a block. *)
Lemma allStay_insert w s' q pr' (ws' : W) :
  allStayAt w = true -> isAdded (prApp pr') = false -> allStayAt (mkWorld s' (<[q := pr']> (procs w)) ws') = true.
Proof.
  unfold allStay. rewrite !forallb_forall. intros Ha Hn [p pr] Hin%list_elem_of_In%elem_of_map_to_list. cbn in Hin |- *.
  rewrite lookup_insert in Hin. case_decide as Hd; [injection Hin as <-; unfold addedStays; cbn; by destruct (prApp pr')|].
  apply (Ha (p, pr)). by apply list_elem_of_In, elem_of_map_to_list.
Qed.

Lemma resting_added M w E q x pr : concOkAt M w E -> peers (proto w) !! q = Some x -> procs w !! q = Some pr -> resting x -> isAdded (prApp pr) = false.
Proof.
  intros Hok Hx Hpr [Hc _]. destruct (cc_client _ _ _ _ _ _ _ _ Hok q x Hx) as (pr' & m & a & d & Hpr' & Hg). rewrite Hpr in Hpr'. injection Hpr' as <-.
  assert (Hp := pg_call _ _ _ _ _ _ _ _ _ _ _ _ _ Hg). unfold inProgress in Hp. destruct (call x); [by destruct (prApp pr)| |done|done].
  destruct Hp as [_ Hst]. unfold started in Hst. destruct wr; [by destruct Hst as (bs & -> & _)|by rewrite Hst].
Qed.

(** ** Evictions *)

(** One turn of the loop over the blocks. *)
Lemma evict_turn M w E q pr i ad e :
  concOkAt M w E -> allStayAt w = true -> procs w !! q = Some pr -> isAdded (prApp pr) = false -> prSvc pr = Some (i, ad, e) ->
  exists pr' ws', goes M w (mkWorld (proto w) (<[q := pr']> (procs w)) ws') /\ prApp pr' = prApp pr /\
    (prSvc pr' = None \/ ad <= e /\ prSvc pr' = Some (i, ad + pfsBlockSizeInBytes, e)).
Proof.
  intros Hok Hall Hpr Hna Hsv. destruct (cc_procs _ _ _ _ _ _ _ _ Hok q) as [x Hx]; [by rewrite Hpr|].
  destruct (cc_client _ _ _ _ _ _ _ _ Hok q x Hx) as (pr0 & m & a & d & Hpr0 & Hg). rewrite Hpr in Hpr0. injection Hpr0 as <-.
  destruct (pg_file _ _ _ _ _ _ _ _ _ _ _ _ _ Hg) as (f & Hf & He & Hfd). assert (Hev := pg_evicting _ _ _ _ _ _ _ _ _ _ _ _ _ Hg).
  unfold evicting in Hev. rewrite Hsv in Hev. destruct Hev as (-> & _ & bz & _ & -> & Hwb & _ & Had & _).
  destruct (evict_ok std_hash raw m (process pr) a (servers w) (getDescriptor f) ad (pg_ok _ _ _ _ _ _ _ _ _ _ _ _ _ Hg)) as (c & c' & a' & ws' & Hc & Hr & _).
  assert (Hu : u32 (ad + pfsBlockSizeInBytes) = ad + pfsBlockSizeInBytes).
  { destruct Hwb as (_ & _ & _ & H1 & H2). apply u32_id. unfold INT_MAX in H2. change pfsBlockSizeInBytes with 1024 in *. word_lia. }
  assert (Hgo : forall pr' ws1, concStep std_hash raw (CThread q TEvict) w = Ret (mkWorld (proto w) (<[q := pr']> (procs w)) ws1) ->
    prApp pr' = prApp pr -> goes M w (mkWorld (proto w) (<[q := pr']> (procs w)) ws1)).
  { intros pr' ws1 Hs Ha. eapply goes_step; [|exact Hs| |]; [done| |done]. apply allStay_insert; [done|by rewrite Ha]. }
  cbn [concStep] in Hgo. unfold concThread in Hgo. rewrite Hpr in Hgo. cbn [deref mbind outcome_bind] in Hgo. unfold threadStep in Hgo. cbn [svc client world app harvesting] in Hgo.
  rewrite Hsv in Hgo. unfold svcEvict in Hgo. destruct (ad <=? bz_end bz) eqn:Hle.
  - unfold fileAt in Hgo. rewrite Hf in Hgo. cbn [deref mbind outcome_bind] in Hgo. rewrite Hc in Hgo. cbn [mbind outcome_bind] in Hgo.
    rewrite Hr in Hgo. cbn [mbind outcome_bind fst snd] in Hgo. rewrite Hu in Hgo.
    eexists _, _. split; [apply Hgo; [reflexivity|done]|]. split; [done|]. right. split; [by apply Z.leb_le|done].
  - eexists _, _. split; [apply Hgo; [reflexivity|done]|]. split; [done|]. by left.
Qed.

Lemma eviction_finishes k M w E q pr i ad e :
  concOkAt M w E -> allStayAt w = true -> procs w !! q = Some pr -> isAdded (prApp pr) = false -> prSvc pr = Some (i, ad, e) ->
  Z.to_nat (e + pfsBlockSizeInBytes - ad) = k ->
  exists pr' ws', goes M w (mkWorld (proto w) (<[q := pr']> (procs w)) ws') /\ prSvc pr' = None.
Proof.
  revert w E pr ad. induction k as [k IH] using lt_wf_ind. intros w E pr ad Hok Hall Hpr Hna Hsv Hk.
  destruct (evict_turn M w E q pr i ad e Hok Hall Hpr Hna Hsv) as (pr1 & ws1 & Hgo & Happ & [Hs|[Hle Hs]]); [by exists pr1, ws1|].
  destruct (goes_ok _ _ _ _ Hgo Hok) as [E1 Hok1]. assert (Hall1 := goes_stays _ _ _ Hgo Hall).
  destruct (IH (Z.to_nat (e + pfsBlockSizeInBytes - (ad + pfsBlockSizeInBytes))) ltac:(change pfsBlockSizeInBytes with 1024 in *; lia)
    _ E1 pr1 (ad + pfsBlockSizeInBytes) Hok1 Hall1) as (pr2 & ws2 & Hgo2 & Hs2); [cbn; apply lookup_insert_eq|by rewrite Happ|done|done|].
  cbn [proto procs] in Hgo2. rewrite insert_insert_eq in Hgo2. exists pr2, ws2. split; [by eapply goes_trans|done].
Qed.

(** The evictions at the clients of a list. *)
Lemma evictions_finish (l : list string) M w E :
  concOkAt M w E -> allStayAt w = true -> (forall q pr, procs w !! q = Some pr -> prSvc pr <> None -> isAdded (prApp pr) = false) ->
  exists pp ws', goes M w (mkWorld (proto w) pp ws') /\ forall q pr, pp !! q = Some pr -> prSvc pr <> None -> (q ∉ l) /\ procs w !! q = Some pr.
Proof.
  revert w E. induction l as [|q l IH]; intros w E Hok Hall Hna.
  { exists (procs w), (servers w). split; [destruct w; apply goes_refl|]. intros q pr Hq _. split; [by intros ?%not_elem_of_nil|done]. }
  assert (Hone : exists pp ws', goes M w (mkWorld (proto w) pp ws') /\ forall r pr, pp !! r = Some pr -> prSvc pr <> None -> r <> q /\ procs w !! r = Some pr).
  { destruct (procs w !! q) as [pr|] eqn:Hpr; [destruct (prSvc pr) as [[[i ad] e]|] eqn:Hsv|].
    - destruct (eviction_finishes _ M w E q pr i ad e Hok Hall Hpr ltac:(apply (Hna q pr); [done|by rewrite Hsv]) Hsv eq_refl) as (pr' & ws' & Hgo & Hs).
      exists (<[q := pr']> (procs w)), ws'. split; [done|]. intros r pr0. rewrite lookup_insert. case_decide as Hd; [by intros [= <-]|]. done.
    - exists (procs w), (servers w). split; [destruct w; apply goes_refl|]. intros r pr0 Hr Hne. split; [|done]. intros ->. congruence.
    - exists (procs w), (servers w). split; [destruct w; apply goes_refl|]. intros r pr0 Hr Hne. split; [|done]. intros ->. congruence. }
  destruct Hone as (pp & ws1 & Hgo & Hleft). destruct (goes_ok _ _ _ _ Hgo Hok) as [E1 Hok1].
  destruct (IH _ E1 Hok1 (goes_stays _ _ _ Hgo Hall)) as (pp2 & ws2 & Hgo2 & Hleft2).
  { cbn. intros r pr Hr Hne. destruct (Hleft r pr Hr Hne) as [_ Hr0]. by eapply Hna. }
  exists pp2, ws2. split; [by eapply goes_trans|]. intros r pr Hr Hne. destruct (Hleft2 r pr Hr Hne) as [Hl Hr1]. cbn in Hr1.
  destruct (Hleft r pr Hr1 Hne) as [Hrq Hr0]. split; [by intros [?|?]%elem_of_cons|done].
Qed.

Lemma evictionsDone_all (l : gmap string Proc) : (forall q pr, l !! q = Some pr -> prSvc pr = None) -> evictionsDone l = true.
Proof.
  intros Hl. unfold evictionsDone. apply forallb_forall. intros [q pr] Hin%list_elem_of_In%elem_of_map_to_list. cbn. by rewrite (Hl q pr).
Qed.

(** All of them. *)
Lemma all_evictions_finish M w E :
  concOkAt M w E -> allStayAt w = true -> (forall q pr, procs w !! q = Some pr -> prSvc pr <> None -> isAdded (prApp pr) = false) ->
  exists pp ws', goes M w (mkWorld (proto w) pp ws') /\ evictionsDone pp = true.
Proof.
  intros Hok Hall Hna. destruct (evictions_finish (map_to_list (procs w)).*1 M w E Hok Hall Hna) as (pp & ws' & Hgo & Hleft).
  exists pp, ws'. split; [done|]. apply evictionsDone_all. intros q pr Hq. destruct (prSvc pr) as [v|] eqn:Hsv; [|done].
  destruct (Hleft q pr Hq) as [Hn Hq0]; [by rewrite Hsv|]. destruct Hn. apply list_elem_of_fmap. exists (q, pr). split; [done|]. by apply elem_of_map_to_list.
Qed.

(** ** Revocations *)

(** The steps of the protocol before the cut. *)
Lemma goes_proto M w evs s' :
  allStayAt w = true -> orderlyRun evs (proto w) = Ret s' -> Forall (fun ev => exists q, ev = EvRevoke q \/ ev = EvWake q) evs ->
  goes M w (mkWorld s' (procs w) (servers w)).
Proof.
  revert w. induction evs as [|ev evs IH]; intros w Hall; cbn [orderlyRun]; [intros [= <-] _; destruct w; apply goes_refl|].
  destruct (orderly ev (proto w)) eqn:Ho; [|done]. intros (s1 & Hs & Hr)%bind_Ret [(q & Hev) Hevs]%Forall_cons.
  set (w1 := mkWorld s1 (procs w) (servers w)). apply goes_trans with w1; [|by apply (IH w1)].
  destruct Hev as [-> | ->].
  - eapply (goes_step M (CRevoke q)); [done| |done|done]. cbn [concStep]. unfold concProto. by rewrite Hs.
  - eapply (goes_step M (CWakeUp q)); [done| |done|done]. cbn [concStep]. unfold concProto. by rewrite Hs.
Qed.

(** A client at rest answers its revocation. *)
Lemma client_answers M w E q R x bz :
  concOkAt M w E -> allStayAt w = true -> evictionsDone (procs w) = true -> busy (proto w) = Some bz ->
  revokers (proto w) !! q = Some R -> peers (proto w) !! q = Some x -> resting x ->
  exists s' x' pp ws', goes M w (mkWorld s' pp ws') /\ evictionsDone pp = true /\ busy s' = Some bz /\
    revokers s' = delete q (revokers (proto w)) /\ peers s' = <[q := x']> (peers (proto w)).
Proof.
  intros Hok Hall Hdone Hb Hq Hx Hrest. pose proof (reachable_invariant b _ (cc_reachable _ _ _ _ _ _ _ _ Hok)) as Hinv.
  destruct (revoker_ready b q R x (proto w) Hinv Hq Hx (resting_free x Hrest)) as (evs & sem & s1 & H1 & Hevs & Hr1 & _ & Hb1 & Hp1).
  destruct (cut_returns q sem bz x s1) as (s2 & x2 & H2 & Hr2 & _ & Hb2 & Hp2 & _); [congruence|rewrite Hr1; apply lookup_insert_eq|by rewrite Hp1|].
  cbn [orderlyRun orderly] in H2. apply bind_Ret in H2 as (s2' & H2 & [= ->]).
  destruct (cc_client _ _ _ _ _ _ _ _ Hok q x Hx) as (pr & _ & _ & _ & Hpr & _). assert (Hsv := evictionsDone_svc _ _ _ Hdone Hpr).
  assert (Hna := resting_added M w E q x pr Hok Hx Hpr Hrest).
  set (pr2 := setSvc (Some (slot pr, blockOf (bz_start bz), bz_end bz)) pr). set (w2 := mkWorld s2 (<[q := pr2]> (procs w)) (servers w)).
  assert (Hgo : goes M w w2).
  { eapply goes_trans; [eapply goes_proto; [done|exact H1|]|].
    { eapply Forall_impl; [exact Hevs|]. cbn. eauto. }
    eapply (goes_step M (CCut q)); [| |by apply allStay_insert|done].
    - cbn [quiet proto]. rewrite Hp1, Hx, Hb1, Hb. destruct Hrest as [Hc _]. by destruct (call x).
    - cbn [concStep proto procs]. rewrite Hb1, Hb. cbn [deref mbind outcome_bind]. rewrite Hpr. cbn [deref mbind outcome_bind]. rewrite Hsv, H2. done. }
  destruct (goes_ok _ _ _ _ Hgo Hok) as [E2 Hok2].
  destruct (all_evictions_finish M w2 E2 Hok2 (goes_stays _ _ _ Hgo Hall)) as (pp & ws' & Hgo2 & Hd2).
  { intros r pr'. cbn [procs w2]. rewrite lookup_insert. case_decide as Hd; [by intros [= <-]|].
    intros Hr Hne. by rewrite (evictionsDone_svc _ _ _ Hdone Hr) in Hne. }
  exists s2, x2, pp, ws'. split; [by eapply goes_trans|]. rewrite Hb2, Hr2, Hr1, Hp2, Hp1, delete_insert_eq. split; [done|]. split; [congruence|done].
Qed.

(** All clients that the manager waits for answer. *)
Lemma clients_answer k M w E bz :
  concOkAt M w E -> allStayAt w = true -> evictionsDone (procs w) = true -> busy (proto w) = Some bz ->
  (forall q x, is_Some (revokers (proto w) !! q) -> peers (proto w) !! q = Some x -> resting x) -> size (revokers (proto w)) = k ->
  exists w', goes M w w' /\ evictionsDone (procs w') = true /\ busy (proto w') = Some bz /\ revokers (proto w') = ∅.
Proof.
  revert w E. induction k as [|k IH]; intros w E Hok Hall Hdone Hb Hrest Hk.
  { exists w. split; [apply goes_refl|]. split; [done|]. split; [done|]. by apply map_size_empty_iff. }
  destruct (map_choose (revokers (proto w))) as (q & R & Hq); [intros He; by rewrite He, map_size_empty in Hk|].
  destruct (to_revokers b _ (cc_tokens _ _ _ _ _ _ _ _ Hok) q) as [x Hx]; [by rewrite Hq|].
  destruct (client_answers M w E q R x bz Hok Hall Hdone Hb Hq Hx) as (s1 & x1 & pp & ws' & Hgo & Hd1 & Hb1 & Hr1 & Hp1); [apply (Hrest q x); by rewrite ?Hq|].
  destruct (goes_ok _ _ _ _ Hgo Hok) as [E1 Hok1].
  destruct (IH _ E1 Hok1 (goes_stays _ _ _ Hgo Hall) Hd1 Hb1) as (w2 & Hgo2 & Hend).
  - cbn [proto]. intros r y. rewrite Hr1, Hp1, lookup_delete, lookup_insert. case_decide; [by intros []|]. apply Hrest.
  - cbn [proto]. rewrite Hr1, map_size_delete_Some by (by eexists). lia.
  - exists w2. split; [by eapply goes_trans|done].
Qed.

(** The manager answers. *)
Lemma request_answered M w E bz :
  concOkAt M w E -> allStayAt w = true -> busy (proto w) = Some bz ->
  (forall q x, awaited q w -> peers (proto w) !! q = Some x -> resting x) ->
  exists w' x, goes M w w' /\ busy (proto w') = None /\ peers (proto w') !! bz_peer bz = Some x /\
    call x = Replied (bz_start bz) (bz_end bz) (bz_write bz) (start (bz_permit bz)) (end_ (bz_permit bz)).
Proof.
  intros Hok Hall Hb Hrest. destruct (all_evictions_finish M w E Hok Hall) as (pp & ws1 & Hgo1 & Hd1).
  { intros q pr Hpr Hne. destruct (cc_procs _ _ _ _ _ _ _ _ Hok q) as [x Hx]; [by rewrite Hpr|]. eapply resting_added; [done..|].
    apply (Hrest q x); [right; by exists pr|done]. }
  destruct (goes_ok _ _ _ _ Hgo1 Hok) as [E1 Hok1].
  destruct (clients_answer (size (revokers (proto w))) M _ E1 bz Hok1 (goes_stays _ _ _ Hgo1 Hall) Hd1 Hb) as (w2 & Hgo2 & Hd2 & Hb2 & Hr2); [|reflexivity|].
  { intros q x Hq Hx. apply (Hrest q x); [by left|done]. }
  assert (Hgo := goes_trans _ _ _ _ Hgo1 Hgo2). destruct (goes_ok _ _ _ _ Hgo Hok) as [E2 Hok2].
  destruct (to_busy b _ (cc_tokens _ _ _ _ _ _ _ _ Hok2) bz Hb2) as (_ & _ & x & Hx & _).
  eexists (mkWorld _ (procs w2) (servers w2)), _. split.
  - eapply goes_trans; [exact Hgo|]. eapply (goes_step M CGrant); [done| |exact (goes_stays _ _ _ Hgo Hall)|done].
    cbn [concStep]. rewrite Hd2. unfold concProto. cbn [step]. unfold evGrant. rewrite Hb2, decide_True, Hx by done. reflexivity.
  - cbn. split; [done|]. split; [apply lookup_insert_eq|done].
Qed.

End Progress.
