(* ===== verification/ConcurrentProps.v ===== *)
(** What several clients that share a file see of it, from the invariant of
    ConcurrentInv.v: in every calm history a read returns the bytes last written, by
    whichever client, no client caches a block that another may write, what nobody may
    write is stored, and a request is answered when the clients in its way are at
    rest. *)

From Stdlib Require Import String Strings.Byte.
From stdpp Require Import gmap strings.
From S2P Require Import Prelude Config Permission File Tokens FileServer MetadataManager MMFile ClientFile Cache CacheLists CacheSpec CacheProps Client ClientSpec ClientFrame ClientProps ClientThreads Interleaving InterleavingInv ThreadSpec ThreadProps InterleavingProps Consistency Concurrent ConcurrentInv ConcurrentProgress.
#[local] Open Scope Z_scope.

Section Claims.
Context {W : Type} `{!FileServerStub W, !FileServerStubOk W} (std_hash : Z -> Z) (raw : nat -> CacheBlock).
Context (b : File) (n : string) (wd : Z).
Implicit Types (w : World W) (x y : Peer) (pr : Proc) (M : string -> Z -> option byte).

(** The clients have just opened the file: no tokens, no blocks of it in the caches, and
    the known bytes on the servers. *)
Record justOpened M w : Prop := mkJustOpened {
  jo_reachable : reachable b (proto w);
  jo_busy : busy (proto w) = None;
  jo_peer p x : peers (proto w) !! p = Some x -> x = mkPeer [] Idle;
  jo_proc p : is_Some (peers (proto w) !! p) <-> is_Some (procs w !! p);
  jo_client p pr : procs w !! p = Some pr -> isFinished (prApp pr) = true /\ prSvc pr = None /\
    exists f d a, openedFiles (process pr) !! slot pr = Some f /\ entry f = (n, d, wd) /\ getDescriptor f = descriptor pr /\
      clientOk std_hash raw (fun _ _ => None) (process pr) a (servers w) /\ forall ad, cached a (d, ad) = None;
  jo_stored z v : 0 <= z -> M n z = Some v -> storedByte (servers w) n wd z = Some v }.

Lemma justOpened_proc M w p pr : justOpened M w -> procs w !! p = Some pr ->
  exists m a d, procGood std_hash raw n wd M (servers w) None (mkPeer [] Idle) pr [] m a d.
Proof.
  intros Hj Hp. destruct (jo_client _ _ Hj p pr Hp) as (Hfin & Hsv & f & d & a & Hf & He & Hfd & Hok & Hno).
  exists (fun _ _ => None), a, d. split; cbn [call tokens]; [by exists f|done| |done| | | |].
  - intros n' z v. cbn. split; [done|]. by intros (_ & ?%holds_nil & _).
  - intros z [blk Hb]. by rewrite Hno in Hb.
  - intros z (d' & wd' & blk & Hin & Hc & _). assert (Hin0 : (n, d, wd) ∈ table (process pr)) by (by eapply entry_in_table).
    destruct (table_name_unique _ _ n d wd d' wd' (ok_table _ _ _ _ _ _ Hok) Hin0 Hin) as [-> ->]. by rewrite Hno in Hc.
  - by destruct (prApp pr).
  - unfold evicting. by rewrite Hsv.
Qed.

Lemma justOpened_ok M w : justOpened M w -> concOk std_hash raw b n wd M w (fun _ => []).
Proof.
  intros Hj. split; [apply Hj| | | |].
  - intros p x Hx. destruct (proj1 (jo_proc _ _ Hj p)) as [pr Hpr]; [by rewrite Hx|]. rewrite (jo_peer _ _ Hj p x Hx), (jo_busy _ _ Hj).
    destruct (justOpened_proc M w p pr Hj Hpr) as (m & a & d & Hg). by exists pr, m, a, d.
  - intros p. apply Hj.
  - intros p q x y z _ Hx _ [?%holds_nil|Hu]; [done|]. by rewrite (jo_peer _ _ Hj p x Hx) in Hu.
  - intros z v Hz HM _. by apply (jo_stored _ _ Hj).
Qed.

(** The invariant at the end of a calm history. *)
Lemma calmHistory_ok M M' w w' evs : justOpened M w -> calmHistory std_hash raw n evs w M = Ret (w', M') -> exists E, concOk std_hash raw b n wd M' w' E.
Proof. intros Hj. by apply history_good with (E := fun _ => []), justOpened_ok. Qed.

(** C1: Concurrent clients read the bytes last written: however the threads of several
    clients and of the manager are interleaved in a calm history, when the loop of a
    read has finished and its tokens are still held, it has returned as many bytes as
    were asked for, and they are the bytes last written to the file, by whichever
    client. *)
Theorem concurrent_reads_return_last_writes M0 M w0 w evs p ts pr st en g hit acc :
  justOpened M0 w0 -> calmHistory std_hash raw n evs w0 M0 = Ret (w, M) ->
  peers (proto w) !! p = Some (mkPeer ts (Using st en false g)) -> procs w !! p = Some pr -> prApp pr = Finished hit acc ->
  Z.of_nat (length acc) = en - st /\ agrees M n st acc.
Proof.
  intros Hj Hr Hx Hpr Happ. destruct (calmHistory_ok _ _ _ _ _ Hj Hr) as [E Hok].
  destruct (cc_client _ _ _ _ _ _ _ _ Hok p _ Hx) as (pr' & m & a & d & Hpr' & Hg). rewrite Hpr in Hpr'. injection Hpr' as <-.
  assert (Hp := pg_call _ _ _ _ _ _ _ _ _ _ _ _ _ Hg). unfold inProgress in Hp. cbn [call tokens] in Hp. rewrite Happ in Hp.
  destruct Hp as (_ & [Hag Hl] & _ & _ & Hh). split; [done|]. intros j v Hj' HM. apply Hag; [done|].
  assert (Hv : view m n (Using st en false g) (prApp pr) n (st + Z.of_nat j) = Some v).
  { apply (pg_view _ _ _ _ _ _ _ _ _ _ _ _ _ Hg). split; [done|]. split; [|done].
    eapply pg_tokens; [exact Hg|]. cbn. apply Hh. lia. }
  by rewrite Happ in Hv.
Qed.

(** C5: Caches are coherent: at every point of every calm history, a block that is in the
    cache of one client has no byte that another client may write. *)
Theorem cached_block_has_one_writer M0 M w0 w evs p q x y pr c c' z blk :
  justOpened M0 w0 -> calmHistory std_hash raw n evs w0 M0 = Ret (w, M) ->
  p <> q -> peers (proto w) !! p = Some x -> peers (proto w) !! q = Some y -> procs w !! p = Some pr ->
  getInstance raw (process pr) = Ret c -> 0 <= z <= INT_MAX -> readBlock std_hash (descriptor pr) (blockOf z) c = Ret (Some blk, c') ->
  ~ holds (tokens y) true z.
Proof.
  intros Hj Hr Hne Hx Hy Hpr Hc Hz Hrd Hh. destruct (calmHistory_ok _ _ _ _ _ Hj Hr) as [E Hok].
  destruct (cc_client _ _ _ _ _ _ _ _ Hok p x Hx) as (pr' & m & a & d & Hpr' & Hg). rewrite Hpr in Hpr'. injection Hpr' as <-.
  destruct (cc_client _ _ _ _ _ _ _ _ Hok q y Hy) as (prq & mq & aq & dq & _ & Hgq).
  apply (cc_exclusive _ _ _ _ _ _ _ _ Hok q p y x z); [done..|left; by eapply pg_tokens|left].
  apply (pg_covered _ _ _ _ _ _ _ _ _ _ _ _ _ Hg). destruct (pg_file _ _ _ _ _ _ _ _ _ _ _ _ _ Hg) as (f & _ & He & Hfd).
  assert (Hd : u32 (descriptor pr) = d) by (rewrite <- Hfd; by injection He).
  destruct (cacheRead_ok std_hash raw m (process pr) a (servers w) (descriptor pr) (blockOf z) (pg_ok _ _ _ _ _ _ _ _ _ _ _ _ _ Hg)) as (c0 & c1 & a' & Hc0 & Hr0 & _).
  rewrite Hc in Hc0. injection Hc0 as <-. rewrite Hrd in Hr0. injection Hr0 as Hblk _. rewrite Hd in Hblk.
  rewrite (proj1 (blockOf_spec z ltac:(word_lia))) in Hblk. by destruct (cached a (d, baseOf z)).
Qed.

(** C6: At every point of every calm history where no eviction is under way, a byte that
    was last written and that no client may write now is stored on its file server. *)
Theorem unowned_bytes_are_stored M0 M w0 w evs z v :
  justOpened M0 w0 -> calmHistory std_hash raw n evs w0 M0 = Ret (w, M) -> evictionsDone (procs w) = true ->
  (forall p x, peers (proto w) !! p = Some x -> ~ holds (tokens x) true z) -> 0 <= z -> M n z = Some v ->
  storedByte (servers w) n wd z = Some v.
Proof.
  intros Hj Hr Hd Hno Hz HM. destruct (calmHistory_ok _ _ _ _ _ Hj Hr) as [E Hok].
  apply (cc_stored _ _ _ _ _ _ _ _ Hok); [done..|]. intros p [x Hx] Hh. apply (Hno p x Hx).
  destruct (cc_client _ _ _ _ _ _ _ _ Hok p x Hx) as (pr & m & a & d & Hpr & Hg). pose proof (pg_evicting _ _ _ _ _ _ _ _ _ _ _ _ _ Hg) as Hev.
  unfold evicting in Hev. rewrite (evictionsDone_svc _ _ _ Hd Hpr) in Hev. by apply Hev.
Qed.

Lemma justOpened_stays M w : justOpened M w -> allStay std_hash raw w = true.
Proof.
  intros Hj. apply forallb_forall. intros [p pr] Hin%list_elem_of_In%elem_of_map_to_list. cbn in Hin |- *.
  destruct (jo_client _ _ Hj p pr Hin) as [Hf _]. unfold addedStays. cbn. by destruct (prApp pr).
Qed.

(** C15: A request that the manager has taken up can be completed: from every point of a
    calm history where the clients that still have to answer it are in no data loop and
    have no token locked and no reply under way, the threads can run, without losing a
    written byte, until every block is evicted and the manager has sent the reply. *)
Theorem concurrent_request_is_answered M0 M w0 w evs bz :
  justOpened M0 w0 -> calmHistory std_hash raw n evs w0 M0 = Ret (w, M) -> busy (proto w) = Some bz ->
  (forall q x, awaited q w -> peers (proto w) !! q = Some x -> resting x) ->
  exists evs' w' x, calmHistory std_hash raw n evs' w M = Ret (w', M) /\ busy (proto w') = None /\
    peers (proto w') !! bz_peer bz = Some x /\
    call x = Replied (bz_start bz) (bz_end bz) (bz_write bz) (start (bz_permit bz)) (end_ (bz_permit bz)).
Proof.
  intros Hj Hr Hb Hrest. destruct (calmHistory_ok _ _ _ _ _ Hj Hr) as [E Hok].
  assert (Hall := calmHistory_stays std_hash raw n _ _ _ _ _ Hr (justOpened_stays _ _ Hj)).
  destruct (request_answered std_hash raw b n wd M w E bz Hok Hall Hb Hrest) as (w' & x & [evs' Hgo] & Hend). by exists evs', w', x.
Qed.

End Claims.

(** ** Two clients *)

#[local] Instance sharedStub : FileServerStub (list FileServer) := serversStub zeroByte.
#[local] Instance sharedStubOk : FileServerStubOk (list FileServer) := serversStubOk zeroByte.

(** Each has the file [f] open and an empty cache. *)
Definition sharedProc : Proc := mkProc 0 1 (Finished true []) None false stripedClient.

Definition sharedStart : World (list FileServer) :=
  mkWorld (runTo [EvOpen "a"; EvOpen "b"]) (<["a" := sharedProc]> (<["b" := sharedProc]> ∅)) stripedServers.

(** The bytes of the file on the servers. *)
Definition sharedBytes (n : string) (z : Z) : option byte := if decide (n = "f") then storedByte stripedServers "f" 3 z else None.

Lemma sharedStart_opened : justOpened ids rawBlock exampleBase "f" 3 sharedBytes sharedStart.
Proof.
  assert (Hps : peers (proto sharedStart) = <["a" := mkPeer [] Idle]> (<["b" := mkPeer [] Idle]> ∅)) by (vm_compute; reflexivity).
  split; [apply runTo_reachable|vm_compute; reflexivity| | | |].
  - intros p x. rewrite Hps, !lookup_insert, lookup_empty. intros Hx. by repeat case_decide; simplify_eq.
  - intros p. rewrite Hps. cbn [procs sharedStart]. rewrite !lookup_insert, lookup_empty. repeat case_decide; split; by intros [? [=]] || by eexists.
  - intros p pr. cbn [procs sharedStart]. rewrite !lookup_insert, lookup_empty. intros Hp. assert (pr = sharedProc) as -> by (by repeat case_decide; simplify_eq).
    split; [done|]. split; [done|]. exists openF, 1, (mkLRU [] [] blockCount blockCount 0).
    repeat (split; [done|]). split; [apply example_ok, stripedServers_served|done].
  - intros z v _. unfold sharedBytes. by rewrite decide_True.
Qed.

(** [a] writes a block; [b] asks for it during the write, and gets it when [a] has
    finished and evicted the block. *)
Definition handOver : list ConcEvent :=
  [CCall "a" 0 (TaskWrite (replicate 1024 x41)); CServe "a"; CGrant; CReply "a"; CThread "a" TApp; CThread "a" TApp;
   CCall "b" 0 (TaskRead 1024); CServe "b"; CRevoke "a"; CThread "a" TApp; CThread "a" TApp; CThread "a" TApp; CDone "a";
   CWakeUp "a"; CCut "a"; CThread "a" TEvict; CThread "a" TEvict; CThread "a" TEvict; CGrant; CReply "b";
   CThread "b" TApp; CThread "b" TApp; CThread "b" TApp; CThread "b" TApp].

(** Where a history ends. *)
Definition endOf (r : outcome (World (list FileServer) * (string -> Z -> option byte))) : World (list FileServer) * (string -> Z -> option byte) :=
  match r with Ret e => e | _ => (sharedStart, sharedBytes) end.

Lemma endOf_run r : match r with Ret _ => true | _ => false end = true -> r = Ret ((endOf r).1, (endOf r).2).
Proof. by destruct r as [[w M]| |]. Qed.

Definition handedOver : World (list FileServer) * (string -> Z -> option byte) := endOf (calmHistory ids rawBlock "f" handOver sharedStart sharedBytes).
Definition endWorld : World (list FileServer) := handedOver.1.
Definition endBytes : string -> Z -> option byte := handedOver.2.

Lemma handOver_runs : calmHistory ids rawBlock "f" handOver sharedStart sharedBytes = Ret (endWorld, endBytes).
Proof. apply endOf_run. vm_compute. reflexivity. Qed.

(** What a client is doing, and whether it has the block of an address in its cache. *)
Definition seen (p : string) (z : Z) (w : World (list FileServer)) : option (CallState * AppState * bool) :=
  match peers (proto w) !! p, procs w !! p with
  | Some x, Some pr =>
      match getInstance rawBlock (process pr) with
      | Ret c => match readBlock ids (descriptor pr) (blockOf z) c with Ret (r, _) => Some (call x, prApp pr, bool_decide (is_Some r)) | _ => None end
      | _ => None
      end
  | _, _ => None
  end.

Lemma seen_Some p z w c s hit : seen p z w = Some (c, s, hit) ->
  exists ts pr o r o', peers (proto w) !! p = Some (mkPeer ts c) /\ procs w !! p = Some pr /\ prApp pr = s /\
    getInstance rawBlock (process pr) = Ret o /\ readBlock ids (descriptor pr) (blockOf z) o = Ret (r, o') /\ hit = bool_decide (is_Some r).
Proof.
  unfold seen. destruct (peers (proto w) !! p) as [[ts c']|]; [|done]. destruct (procs w !! p) as [pr|]; [|done].
  destruct (getInstance rawBlock (process pr)) as [o| |] eqn:Ho; [|done..]. destruct (readBlock _ _ _ o) as [[r o']| |] eqn:Hr; [|done..].
  intros [= <- <- <-]. by exists ts, pr, o, r, o'.
Qed.

Lemma handOver_seen : endBytes "f" 1023 = Some x41 /\ seen "b" 7 endWorld = Some (Using 0 1024 false true, Finished false (replicate 1024 x41), true) /\
  seen "a" 7 endWorld = Some (Idle, Finished false [], false).
Proof. split; [vm_compute; reflexivity|]. split; vm_compute; reflexivity. Qed.

Lemma concurrent_reads_return_last_writes_witness :
  endBytes "f" 1023 = Some x41 /\ agrees endBytes "f" 0 (replicate 1024 x41).
Proof.
  destruct handOver_seen as (Hb & (ts & pr & o & r & o' & Hx & Hpr & Ha & _)%seen_Some & _).
  destruct (concurrent_reads_return_last_writes ids rawBlock exampleBase "f" 3 sharedBytes endBytes sharedStart endWorld handOver "b"
    ts pr 0 1024 true false (replicate 1024 x41) sharedStart_opened handOver_runs Hx Hpr Ha) as [_ Hag]. split; [exact Hb|exact Hag].
Defined.

Lemma cached_block_has_one_writer_witness : exists x y pr c blk c',
  peers (proto endWorld) !! "b" = Some x /\ peers (proto endWorld) !! "a" = Some y /\ procs endWorld !! "b" = Some pr /\
  getInstance rawBlock (process pr) = Ret c /\ readBlock ids (descriptor pr) (blockOf 7) c = Ret (Some blk, c') /\ ~ holds (tokens y) true 7.
Proof.
  destruct handOver_seen as (_ & (ts & pr & o & r & o' & Hx & Hpr & _ & Ho & Hr & Hs)%seen_Some & (ts' & pr' & _ & _ & _ & Hy & _)%seen_Some).
  symmetry in Hs. apply bool_decide_eq_true_1 in Hs as [blk ->]. exists (mkPeer ts (Using 0 1024 false true)), (mkPeer ts' Idle), pr, o, blk, o'.
  split; [exact Hx|]. split; [exact Hy|]. split; [exact Hpr|]. split; [exact Ho|]. split; [exact Hr|].
  apply (cached_block_has_one_writer ids rawBlock exampleBase "f" 3 sharedBytes endBytes sharedStart endWorld handOver "b" "a"
    (mkPeer ts (Using 0 1024 false true)) (mkPeer ts' Idle) pr o o' 7 blk sharedStart_opened handOver_runs); [discriminate|exact Hx|exact Hy|exact Hpr|exact Ho|split; discriminate|exact Hr].
Defined.

Lemma unowned_bytes_are_stored_witness : storedByte (servers endWorld) "f" 3 1023 = Some x41.
Proof.
  assert (Hps : map_Forall (fun _ x => Forall (fun t => ~ grants t true 1023) (tokens x)) (peers (proto endWorld)))
    by (apply (bool_decide_unpack _); vm_compute; reflexivity).
  apply (unowned_bytes_are_stored ids rawBlock exampleBase "f" 3 sharedBytes endBytes sharedStart endWorld handOver 1023 x41
    sharedStart_opened handOver_runs); [vm_compute; reflexivity| |lia|vm_compute; reflexivity].
  intros p x Hx (t & Ht & Hg). pose proof (Hps p x Hx) as Ha. rewrite Forall_forall in Ha. exact (Ha t Ht Hg).
Defined.

(** The history up to the end of the write: the revocation waits to return. *)
Definition asked : World (list FileServer) * (string -> Z -> option byte) :=
  endOf (calmHistory ids rawBlock "f" (take 13 handOver) sharedStart sharedBytes).

Lemma asked_runs : calmHistory ids rawBlock "f" (take 13 handOver) sharedStart sharedBytes = Ret (asked.1, asked.2).
Proof. apply endOf_run. vm_compute. reflexivity. Qed.

Definition restingb (x : Peer) : bool :=
  match call x with Idle | Asking _ _ _ => true | _ => false end && forallb (fun t => negb (locked t)) (tokens x).

Lemma restingb_resting x : restingb x = true -> resting x.
Proof.
  unfold restingb, resting. intros [Hc Ht]%andb_true_iff. split; [by destruct (call x)|]. rewrite forallb_forall in Ht.
  intros t Hin%list_elem_of_In. by apply negb_true_iff, Ht.
Qed.

Lemma concurrent_request_is_answered_witness : exists evs' w' x,
  calmHistory ids rawBlock "f" evs' asked.1 asked.2 = Ret (w', asked.2) /\ busy (proto w') = None /\ peers (proto w') !! "b" = Some x /\ call x = Replied 0 1024 false 0 1024.
Proof.
  assert (Hall : map_Forall (fun _ x => restingb x = true) (peers (proto asked.1))) by (apply (bool_decide_unpack _); vm_compute; reflexivity).
  apply (concurrent_request_is_answered ids rawBlock exampleBase "f" 3 sharedBytes asked.2 sharedStart asked.1 (take 13 handOver)
    (mkBusy "b" 0 1024 false (mkPermission 0 1024 false false false [])) sharedStart_opened asked_runs); [vm_compute; reflexivity|].
  intros q x _ Hx. apply restingb_resting. exact (Hall q x Hx).
Defined.
